(* ===== verification/_CoqProject ===== *)
-Q . S2P
Prelude.v
Quik.v
CString.v
Ppc.v
PpcString.v
PpcCopy.v
PpcStringCorrect.v
PpcStart.v
PpcStartCorrect.v
Util.v
Malloc.v
Printf.v
LibCorrect.v
Machine.v
Prom.v
Part.v
Sim.v
PartCorrect.v
PromCorrect.v
Ext2.v
Ext2Block.v
Ext2File.v
Ext2Tree.v
Ext2Mount.v
Ext2Demo.v
Ext2Correct.v
Env.v
File.v
EnvCorrect.v
FileCorrect.v
Cfg.v
CfgTables.v
CfgText.v
CfgCorrect.v
Elf.v
ElfCorrect.v
Commands.v
Main.v
BootCorrect.v
LoadCorrect.v
LoadConfig.v
AutoBoot.v
BootDisk.v
Installer.v
ElfExtract.v
InstallCorrect.v
InstallMain.v
Memtest.v
