(* ===== verification/Prelude.v ===== *)
(** * A verification library for iQUIK

    iQUIK is a boot loader for Macintosh computers with Open Firmware.  The
    firmware loads it from an Apple_Bootstrap partition; it finds out where it was
    booted from, reads a configuration file off an ext2 partition, lets the user
    choose or type what to boot, loads a kernel and perhaps an initrd, and jumps to
    the kernel, with a shim between kernel and firmware where the firmware needs
    one.  Two host programs belong to it: the installer, and the tool that cuts the
    loader's image out of its ELF file.

    ** The model

    Code is a shallow embedding.  A C function that can fail is a computation
    [M E S A]: from a state to an outcome - a value, an error code, or [Undef] for
    what C leaves undefined (a NULL dereference, an access out of bounds, a division
    by zero, a jump through a buffer nothing filled), for a loop that outlives its fuel,
    and for [exit] - and a new state.
    Integers are [Z] with the wrap-around of their width written out ([u8] to [u64],
    [s32]); bytes are [Z] below 256; a C string is the list of the characters before
    its NUL.  On-disk structures stay the bytes that were read, a field being a load
    at its offset.  Open Firmware is not code of the program: it is a parameter, one
    function [prom_entry] over any state (class [Firmware] of [Machine]), and
    theorems state what they rely on as classes over it ([DiskFirmware], [DiskDevice],
    [MemoryFirmware], [Volume], [Keyboard], [BootStrings], [ConsoleLog]).  [Sim] is a concrete firmware,
    with disks, a console, keys and claimed memory, and the witnesses of the theorems run
    on it.

    ** The files, and what each models

    - [Prelude]: words, buffers, the monad, shared lemmas and tactics.
    - [Quik]: quik.h, layout.h, file.h and the error texts of printf.c.
    - [CString]: the string routines of string.S that read strings, as functions on
      their characters, for the models of the C code.
    - [Ppc]: the part of the PowerPC that the assembly files use - registers with the
      names of asm.h, an assembler from the text of a file to code, one step of the
      processor, runs, and the tactics to follow them.
    - [PpcString]: string.S, instruction for instruction, and its loops.  [PpcCopy]:
      the copying and filling routines.  [PpcStringCorrect]: what each routine does,
      and that it agrees with [CString].
    - [PpcStart]: crt0.S, setjmp.S, crtsavres.S and cache.S.  [PpcStartCorrect]: what
      they do.
    - [Util]: util.c but for its console routines.  [Malloc]: malloc.c.
      [Printf]: printf.c.
    - [Machine]: the state every loader component shares - firmware, [prom_st],
      [boot_info_t], heap, and the operations on memory that no object of the loader
      holds ([mem_op]: stores, block moves, cache flushes, in order) - with the client
      interface call and the console routines of prom.c, printf.c and util.c.
    - [Prom]: the rest of prom.c: claims, devices, start-up workarounds, the shim.
    - [Part]: disk.c and part.c.
    - [Ext2]: ext2fs.c, every function of it.  [Ext2Block], [Ext2File], [Ext2Tree],
      [Ext2Mount]: its theory, from the block map up to open files.  [Ext2Demo]: a
      volume of seventeen blocks.
    - [Env]: env.c.  [File]: file.c.
    - [Cfg]: cfg.c and [strdup].  [CfgTables]: the invariant of its tables.
      [CfgText]: configuration texts and what the parser makes of them.
    - [Elf]: elf.c.  [Commands]: commands.c, over the class [Console] of states that
      have a machine and a line buffer.  [Main]: main.c, whose state [loader]
      implements [Console] and composes all the others.
    - [Memtest]: memtest.c.  [ElfExtract]: elfextract.c.  [Installer]: what iquik.c
      does to a disk; [InstallMain]: the rest of iquik.c, over a host given as data.
    - [LibCorrect], [PromCorrect], [PartCorrect], [Ext2Correct], [EnvCorrect],
      [CfgCorrect], [ElfCorrect], [BootCorrect], [InstallCorrect]: the properties of
      the components, each with an application to a concrete input.
    - [FileCorrect], [LoadConfig], [LoadCorrect], [AutoBoot]: the components together,
      from a disk to the contents of a file, to the configuration tables, to a loaded
      kernel, and to the choice made when no key is pressed.  [BootDisk]: all of them,
      from the start of the loader to the call of the kernel.

    A definition has the name of the function it models; the body of a loop or a
    part of a long function has a name of its own ([find_loop], [set_entry],
    [boot_messages]).

    ** How components interact

    [Main] reaches everything through [on_m] (the machine) and [on_fs] (the machine,
    the open partition and the ext2 statics); [File] opens a partition with
    [part_open] and mounts it with [ext2fs_mount], which reads through [part_read],
    which calls the firmware.  Theorems follow the same steps.  The ext2 theory is
    proved against [Volume], the promise of an open partition; [disk_volume]
    discharges it for every partition of a disk that the firmware serves.  [FileCorrect]
    chains the promises: [DiskDevice] of the firmware gives an open partition, that gives
    [Volume], and the ext2 theory gives the file; its invariant [ready] holds before and
    after every operation on a file, so [LoadConfig] and [LoadCorrect] follow the loader
    through several of them; [AutoBoot] adds the tables and the boot state to it
    ([poised], [goes]), and [BootDisk] joins the pieces.  The
    editor is proved against [ConsoleLaws] and [Keyboard].

    ** What the theorems show

    - the loader as a whole: from a disk with a configuration file, its default image
      is loaded and called with the parameters its options describe, no key being
      pressed ([boots_from_disk]); whatever was chosen, a kernel and its initrd on a
      partitioned disk are read into memory that was claimed for them and described by
      the kernel's headers ([kernel_loaded]).  In both the firmware's answers in that very
      run decide: [chunk_answer] is a function of the machine on which the memory is asked
      for, and the outcome is failure exactly when that answer is a refusal of every
      candidate.  A configuration file becomes the
      tables its text describes ([config_loaded]); a path on a disk gives the contents of
      its file ([file_from_disk]).
    - assembly: the string routines, run on the processor model, return what [CString]
      and C give ([string_compare_refines], [memcmp_refines], [string_search_refines],
      [string_copy_refines]) and write the bytes they are to and no others
      ([memmove_moves], [memcpy_copies], [memset_fills]); [longjmp] restores what
      [setjmp] saved, but for r31 ([setjmp_longjmp]); the save routines keep the
      registers ([savegpr_restgpr]); the caches are flushed line by line
      ([flush_cache_lines]); the start-up code clears the BSS and enters the loader, or
      never leaves its loop ([start_clears_bss]).
    - ext2: mounting, opening a path and reading gives the bytes that inode table,
      directories and block map describe, and zeros after them exactly when the last
      block is a hole ([mount_open_read], and per layer
      [open_path], [scan_directory], [read_inode_located], [read_file_contents]);
      the two cached indirect blocks are invisible ([read_block_cached]); what is
      not ext2 is refused and leaves nothing behind ([mount_not_ext2]).
    - partitions: reads stay inside the partition, both map formats resolve a number
      to the right window (in a Macintosh map 0 stands for the first bootable entry of a
      PowerPC), opening the open partition again does nothing.
    - firmware: the search for free memory tries every candidate in order, claims
      cover every page, and the shim changes exactly the answers it is there for.
    - text: configuration files, path specifications, boot arguments and numbers are
      read back as they are written; what a path specification says, and which way it is
      wrong, is what [file_path] answers ([file_path_outcomes]); the parser ends on every
      input, keeps its tables in shape however it ends, and the strings it lets through
      fit the kernel parameter buffer; lookups prefer an image's own options.
    - the prompt: the editor takes the line typed, whatever a tabulation lists meanwhile,
      and no key writes outside its buffer; a command line is cut, dispatched and carried
      out.
    - kernels: the span of an ELF image, the entry point after relocation, the claim, the
      copy and the flush of an old kernel, in that order, and the errors.
    - the memory test: every word is stored once, every word that reads back wrong is
      shown on the console and no other, and the range is released ([memtest_reports]).
    - heap: blocks held by a client are aligned, inside the arena and disjoint.
    - installer: in test mode nothing is written, whatever the host and the options
      ([dry_run_writes_nothing]); New World machines need a device ([newworld_refused]).
    - installer and extractor: what is written to the disk and that nothing else
      is, that the entry written is one the loader boots from, and the bytes cut
      out of an ELF file.

    Theorems also record where the code does not do what it is meant to:
    [printknu_drops], [version_flags_cases], [default_device_wins],
    [file_path_outcomes], [cfg_tables_kept], [mount_open_read], [old_kernel_copied],
    [setjmp_longjmp], [memcmp_refines], [string_search_refines],
    [flush_cache_lines], [start_clears_bss], and the refusal of the last sector in
    [part_read_window].

    ** Fuel

    A loop whose bound the code does not give takes fuel, and [OutOfFuel] is an
    outcome of its own, so no theorem is true because a loop was cut short.  The
    claims run at most 257 rounds ([claim_chunk_loop]) or one per page, the parser
    one per character ([parse_fuel], [lex_fuel]), the number printer at most 32, the
    installer's search one per block, the memory test one per word: for these the
    theorems show the fuel is enough.  Map entries, directory entries, path
    components, keys and polls for a key depend on the outside; their fuel is an
    argument, and the theorems ask for as much as the data has.  The processor needs no
    fuel in the statements: [returns] and [jumps] say that some number of steps gets
    there, and [stays] that none does.

    ** Not modelled

    Memory is modelled per object: the bytes of a heap block are kept in the object that
    owns it, so writing one object through a pointer to another is not expressible in the
    models of the C code; where the code can do so the note of the component or a finding
    says it.  The assembly works on a flat memory, but its instructions are not in it:
    code that changes itself is not expressible, and caches are a log of operations.
    Of memory outside the heap only the operations are kept, in order; what a word of it
    reads is an argument of the definitions that read it ([elf_boot], [memtest]).
    [setjmp] and [longjmp] have their own model; the parser's jump goes through a buffer
    that nothing filled, which is the undefined outcome [WildJump], and nothing is said
    of what the processor does after it.  The jump to the kernel leaves the program: the arguments of the call are the result.  Of the installer,
    messages on standard output (the usage text among them) and the splitting of the
    arguments by getopt are left out; of the extractor, its usage message and the opening
    of its files.  The build files, packages, manual pages, ld.script and nvramrc scripts
    hold no program logic. *)
From Stdlib Require Import ZArith Lia Ascii.
From stdpp Require Import prelude strings.

#[global] Open Scope Z_scope.

(** ** Machine integers

    The loader runs on 32-bit PowerPC: [unsigned] and [vaddr_t] are 32-bit,
    [offset_t] is 64-bit, [char] is unsigned.  A value of a [w]-bit type is a
    [Z] in range; arithmetic writes its wrap-around out. *)

Definition u8 (z : Z) : Z := z mod 256.
Definition u16 (z : Z) : Z := z mod 65536.
Definition u32 (z : Z) : Z := z mod 4294967296.
Definition u64 (z : Z) : Z := z mod 18446744073709551616.

(** Conversion of a 32-bit pattern to [int]. *)
Definition s32 (z : Z) : Z :=
  let u := u32 z in if u <? 2147483648 then u else u - 4294967296.

(** [x << n] on a 32-bit register. *)
Definition shl32 (x n : Z) : Z := u32 (Z.shiftl x n).

(** [ALIGN_UP(addr, align)] of quik.h. *)
Definition ALIGN_UP (addr align : Z) : Z :=
  Z.land (u32 (addr + align - 1)) (u32 (Z.lnot (align - 1))).

Definition has_flag (flags bit : Z) : bool := negb (Z.land flags bit =? 0).

(** ** Characters, strings and byte buffers *)

(** A C string by value: the characters before the terminating NUL. *)
Abbreviation cstr := (list Z) (only parsing).

Definition chr (a : ascii) : Z := Z.of_N (N_of_ascii a).
#[global] Arguments chr _%_char : simpl never.

Definition str (s : string) : cstr := map chr (String.list_ascii_of_string s).
#[global] Arguments str _%_string : simpl never.

Definition is_byte (z : Z) : Prop := 0 <= z < 256.
Definition bytes_ok (l : list Z) : Prop := Forall is_byte l.
Definition cstr_ok (s : cstr) : Prop := Forall (fun z => 0 < z < 256) s.

#[global] Instance is_byte_dec z : Decision (is_byte z).
Proof. unfold is_byte. apply _. Defined.
#[global] Instance bytes_ok_dec l : Decision (bytes_ok l).
Proof. unfold bytes_ok. apply _. Defined.
#[global] Instance cstr_ok_dec s : Decision (cstr_ok s).
Proof. unfold cstr_ok. apply _. Defined.

(** The byte at offset [i] of a buffer. *)
Definition byte_at (l : list Z) (i : Z) : Z := default 0 (l !! Z.to_nat i).

(** [n] bytes of a buffer from offset [off]. *)
Definition slice (l : list Z) (off n : Z) : list Z :=
  take (Z.to_nat n) (drop (Z.to_nat off) l).

(** Storing [new] over the start of [old]. *)
Definition overlay (old new : list Z) : list Z := new ++ drop (length new) old.

(** The C string that starts at offset [off] of a buffer. *)
Fixpoint until_nul (l : list Z) : cstr :=
  match l with
  | [] => []
  | c :: l' => if c =? 0 then [] else c :: until_nul l'
  end.

Definition cstr_at (l : list Z) (off : Z) : cstr := until_nul (drop (Z.to_nat off) l).

(** Loads of 16- and 32-bit fields: big-endian on PowerPC. *)
Definition be16 (l : list Z) (i : Z) : Z := byte_at l i * 256 + byte_at l (i + 1).
Definition be32 (l : list Z) (i : Z) : Z :=
  byte_at l i * 16777216 + byte_at l (i + 1) * 65536
  + byte_at l (i + 2) * 256 + byte_at l (i + 3).

(** The little-endian reading of the same bytes (the on-disk format of ext2
    and of a DOS partition table). *)
Definition le16 (l : list Z) (i : Z) : Z := byte_at l i + byte_at l (i + 1) * 256.
Definition le32 (l : list Z) (i : Z) : Z :=
  byte_at l i + byte_at l (i + 1) * 256
  + byte_at l (i + 2) * 65536 + byte_at l (i + 3) * 16777216.

(** Encoders for the same layouts. *)
Definition enc_be16 (v : Z) : list Z := [u8 (v / 256); u8 v].
Definition enc_be32 (v : Z) : list Z :=
  [u8 (v / 16777216); u8 (v / 65536); u8 (v / 256); u8 v].
Definition enc_le16 (v : Z) : list Z := [u8 v; u8 (v / 256)].
Definition enc_le32 (v : Z) : list Z :=
  [u8 v; u8 (v / 256); u8 (v / 65536); u8 (v / 16777216)].

(** ** State and errors

    A C function that returns [quik_err_t] is a state transformer whose outcome
    is a value, an error code, or a behaviour the C language leaves undefined
    (or a loop that does not end within the fuel given to it). *)

Inductive ub : Type :=
| NullDeref
| OutOfBounds
| DivByZero
| OutOfFuel
| BadFormat
| WildJump
| Exited.

#[global] Instance ub_eq_dec : EqDecision ub.
Proof. solve_decision. Defined.

Inductive outcome (E A : Type) : Type :=
| Ok (a : A)
| Err (e : E)
| Undef (u : ub).
Arguments Ok {E A} a.
Arguments Err {E A} e.
Arguments Undef {E A} u.

Definition M (E S A : Type) : Type := S -> outcome E A * S.

#[global] Instance M_ret {E S} : MRet (M E S) := fun A a s => (Ok a, s).
#[global] Instance M_bind {E S} : MBind (M E S) := fun A B f m s =>
  match m s with
  | (Ok a, s') => f a s'
  | (Err e, s') => (Err e, s')
  | (Undef u, s') => (Undef u, s')
  end.

Definition throw {E S A} (e : E) : M E S A := fun s => (Err e, s).
Definition undef {E S A} (u : ub) : M E S A := fun s => (Undef u, s).
Definition gets {E S A} (f : S -> A) : M E S A := fun s => (Ok (f s), s).
Definition modify {E S} (f : S -> S) : M E S unit := fun s => (Ok tt, f s).

(** Run [m] and hand its error to the caller instead of returning it: the C
    idiom [err = f(...)] followed by a test of [err]. *)
Definition attempt {E S A} (m : M E S A) : M E S (E + A) := fun s =>
  match m s with
  | (Ok a, s') => (Ok (inr a), s')
  | (Err e, s') => (Ok (inl e), s')
  | (Undef u, s') => (Undef u, s')
  end.

(** Run an operation of a component on the part of a larger state that is the
    component's own. *)
Definition zoom {E S T A} (get : T -> S) (put : S -> T -> T) (m : M E S A) : M E T A :=
  fun t => let '(r, s) := m (get t) in (r, put s t).

Definition of_option {E S A} (u : ub) (o : option A) : M E S A :=
  match o with Some a => mret a | None => undef u end.

(** ** Lemmas *)

Create HintDb quik discriminated.

Lemma u32_range z : 0 <= u32 z < 4294967296.
Proof. apply Z.mod_pos_bound. lia. Qed.

Lemma u64_range z : 0 <= u64 z < 18446744073709551616.
Proof. apply Z.mod_pos_bound. lia. Qed.

Lemma u8_range z : 0 <= u8 z < 256.
Proof. apply Z.mod_pos_bound. lia. Qed.

Lemma u16_range z : 0 <= u16 z < 65536.
Proof. apply Z.mod_pos_bound. lia. Qed.

Lemma u32_small z : 0 <= z < 4294967296 -> u32 z = z.
Proof. apply Z.mod_small. Qed.

Lemma u64_small z : 0 <= z < 18446744073709551616 -> u64 z = z.
Proof. apply Z.mod_small. Qed.

Lemma u8_small z : 0 <= z < 256 -> u8 z = z.
Proof. apply Z.mod_small. Qed.

Lemma u32_u32 z : u32 (u32 z) = u32 z.
Proof. apply u32_small, u32_range. Qed.

Lemma s32_small z : 0 <= z < 2147483648 -> s32 z = z.
Proof.
  intros Hz. unfold s32. rewrite u32_small by lia.
  destruct (Z.ltb_spec z 2147483648); lia.
Qed.

Lemma shl32_small x n :
  0 <= n -> 0 <= x * 2 ^ n < 4294967296 -> shl32 x n = x * 2 ^ n.
Proof. intros Hn Hx. unfold shl32. rewrite Z.shiftl_mul_pow2 by done. by apply u32_small. Qed.

#[export] Hint Resolve u32_range u64_range u8_range u16_range : quik.

(** Replace a character literal by its code. *)
Ltac unfold_chr :=
  repeat match goal with
  | |- context [chr ?a] =>
      let v := eval vm_compute in (chr a) in change (chr a) with v
  | H : context [chr ?a] |- _ =>
      let v := eval vm_compute in (chr a) in change (chr a) with v in H
  end.

(** Linear arithmetic over the word operations. *)
Ltac word_lia :=
  unfold u8, u16, u32, u64 in *; Z.div_mod_to_equations; lia.

(** Decide a closed proposition by evaluation. *)
Ltac by_eval :=
  match goal with |- ?P => refine (bool_decide_unpack P _); vm_compute; exact Logic.I end.

(** Case analysis on the boolean comparisons of the goal. *)
Ltac zcases :=
  repeat match goal with
  | |- context [Z.eqb ?a ?b] => destruct (Z.eqb_spec a b)
  | |- context [Z.ltb ?a ?b] => destruct (Z.ltb_spec a b)
  | |- context [Z.leb ?a ?b] => destruct (Z.leb_spec a b)
  end.

(** One step of a monadic computation whose first operation is known. *)
(** Computations that end alike can be followed by the same. *)
Lemma bind_same {E S A B} (c c' : M E S A) (f : A -> M E S B) s s' : c s = c' s' -> (c ≫= f) s = (c' ≫= f) s'.
Proof. intros H. unfold mbind, M_bind. by rewrite H. Qed.

Lemma bind_ok {E S A B} (m : M E S A) (f : A -> M E S B) s a s' :
  m s = (Ok a, s') -> (m ≫= f) s = f a s'.
Proof. intros H. unfold mbind, M_bind. by rewrite H. Qed.

Lemma bind_err {E S A B} (m : M E S A) (f : A -> M E S B) s e s' :
  m s = (Err e, s') -> (m ≫= f) s = (Err e, s').
Proof. intros H. unfold mbind, M_bind. by rewrite H. Qed.

Lemma bind_ok_inv {E S A B} (m : M E S A) (f : A -> M E S B) s b s' :
  (m ≫= f) s = (Ok b, s') -> exists a s1, m s = (Ok a, s1) /\ f a s1 = (Ok b, s').
Proof.
  unfold mbind, M_bind. destruct (m s) as [[a|e|u] s1]; naive_solver.
Qed.

Lemma bind_assoc {E S A B C} (m : M E S A) (f : A -> M E S B) (g : B -> M E S C) s :
  ((m ≫= f) ≫= g) s = (m ≫= (fun a => f a ≫= g)) s.
Proof. unfold mbind, M_bind. by destruct (m s) as [[a|e|u] s1]. Qed.

Lemma bind_ret {E S A B} (a : A) (f : A -> M E S B) s : (mret a ≫= f) s = f a s.
Proof. done. Qed.

Lemma bind_gets {E S A B} (g : S -> A) (f : A -> M E S B) s : (gets g ≫= f) s = f (g s) s.
Proof. done. Qed.

Lemma bind_modify {E S B} (g : S -> S) (f : unit -> M E S B) s :
  (modify g ≫= f) s = f tt (g s).
Proof. done. Qed.

(** *** Buffers *)

Lemma slice_length l off n :
  0 <= off -> 0 <= n -> off + n <= Z.of_nat (length l) ->
  Z.of_nat (length (slice l off n)) = n.
Proof. intros. unfold slice. rewrite length_take, length_drop. lia. Qed.

Lemma byte_at_slice l off n i :
  0 <= off -> 0 <= i < n -> byte_at (slice l off n) i = byte_at l (off + i).
Proof.
  intros Ho Hi. unfold byte_at, slice.
  rewrite lookup_take_lt by lia. rewrite lookup_drop. f_equal. f_equal. lia.
Qed.

Lemma slice_slice l o1 n1 o2 n2 :
  0 <= o1 -> 0 <= o2 -> 0 <= n2 -> o2 + n2 <= n1 ->
  slice (slice l o1 n1) o2 n2 = slice l (o1 + o2) n2.
Proof.
  intros. unfold slice. rewrite skipn_firstn_comm, take_take, drop_drop.
  f_equal; [lia|]. f_equal. lia.
Qed.

Lemma slice_app_split l a n m :
  0 <= a -> 0 <= n -> 0 <= m -> slice l a n ++ slice l (a + n) m = slice l a (n + m).
Proof.
  intros. unfold slice. rewrite !Z2Nat.inj_add by lia.
  rewrite <- (drop_drop l (Z.to_nat n) (Z.to_nat a)).
  by rewrite take_take_drop.
Qed.

Lemma byte_at_ok l i : bytes_ok l -> is_byte (byte_at l i).
Proof.
  intros Hl. unfold byte_at. destruct (l !! Z.to_nat i) as [x|] eqn:E; simpl.
  - by apply (Forall_lookup_1 _ _ _ _ Hl E).
  - unfold is_byte. lia.
Qed.

Lemma bytes_ok_slice l off n : bytes_ok l -> bytes_ok (slice l off n).
Proof. intros. by apply Forall_take, Forall_drop. Qed.

Lemma be32_slice l off n i :
  0 <= off -> 0 <= i -> i + 4 <= n -> be32 (slice l off n) i = be32 l (off + i).
Proof.
  intros. unfold be32. rewrite !byte_at_slice by lia.
  by rewrite !Z.add_assoc.
Qed.

Lemma be16_slice l off n i :
  0 <= off -> 0 <= i -> i + 2 <= n -> be16 (slice l off n) i = be16 l (off + i).
Proof.
  intros. unfold be16. rewrite !byte_at_slice by lia. by rewrite !Z.add_assoc.
Qed.

Lemma be32_range l i : bytes_ok l -> 0 <= be32 l i < 4294967296.
Proof.
  intros Hl. unfold be32.
  pose proof (byte_at_ok l i Hl). pose proof (byte_at_ok l (i+1) Hl).
  pose proof (byte_at_ok l (i+2) Hl). pose proof (byte_at_ok l (i+3) Hl).
  unfold is_byte in *. lia.
Qed.

Lemma be16_range l i : bytes_ok l -> 0 <= be16 l i < 65536.
Proof.
  intros Hl. unfold be16.
  pose proof (byte_at_ok l i Hl). pose proof (byte_at_ok l (i+1) Hl).
  unfold is_byte in *. lia.
Qed.

Lemma le32_range l i : bytes_ok l -> 0 <= le32 l i < 4294967296.
Proof.
  intros Hl. unfold le32.
  pose proof (byte_at_ok l i Hl). pose proof (byte_at_ok l (i+1) Hl).
  pose proof (byte_at_ok l (i+2) Hl). pose proof (byte_at_ok l (i+3) Hl).
  unfold is_byte in *. lia.
Qed.

#[export] Hint Resolve byte_at_ok bytes_ok_slice be32_range be16_range le32_range : quik.

(** First-order goals about membership in explicit lists. *)
Ltac ns_list :=
  repeat (rewrite elem_of_cons in * || rewrite elem_of_nil in * || rewrite elem_of_app in *);
  naive_solver.
