(* ===== verification/Quik.v ===== *)
(** * Shared types of the loader (quik.h, layout.h, file.h)

    Error codes and their texts, the flags and fields of [boot_info_t], device
    paths, and the memory layout constants. *)
From Stdlib Require Import ZArith Lia.
From stdpp Require Import prelude strings.
From S2P Require Import Prelude.

(** ** Error codes *)

Inductive quik_err_t : Set :=
| ERR_NONE
| ERR_NOT_READY
| ERR_MALLOC_INIT
| ERR_OF_INIT_NO_CHOSEN
| ERR_OF_INIT_NO_MEMORY
| ERR_OF_INIT_NO_OPTIONS
| ERR_OF_INIT_NO_OPROM
| ERR_OF_INIT_NO_ROOT
| ERR_OF_OPEN
| ERR_DEV_SHORT_READ
| ERR_PART_NOT_MAC
| ERR_PART_NOT_DOS
| ERR_PART_NOT_PARTITIONED
| ERR_PART_NOT_FOUND
| ERR_PART_BEYOND
| ERR_FS_OPEN
| ERR_FS_PATH
| ERR_FS_NOT_FOUND
| ERR_FS_NOT_DIR
| ERR_FS_NOT_REG
| ERR_FS_NOT_EXT2
| ERR_FS_CORRUPT
| ERR_FS_LOOP
| ERR_ELF_NOT
| ERR_ELF_WRONG
| ERR_ELF_NOT_LOADABLE
| ERR_KERNEL_RETURNED
| ERR_KERNEL_OLD_BIG
| ERR_NO_MEM
| ERR_CONFIG_NOT_FOUND
| ERR_ENV_DEFAULT_BAD
| ERR_ENV_CURRENT_BAD
| ERR_ENV_PREBOOT_BAD
| ERR_CMD_UNKNOWN
| ERR_CMD_BAD_PARAM
| ERR_INVALID.

#[global] Instance quik_err_t_eq_dec : EqDecision quik_err_t.
Proof. solve_decision. Defined.

(** The numeric value the C enumeration gives a constructor. *)
Definition err_code (e : quik_err_t) : Z :=
  match e with
  | ERR_NONE => 0
  | ERR_NOT_READY => 1
  | ERR_MALLOC_INIT => 2
  | ERR_OF_INIT_NO_CHOSEN => 3
  | ERR_OF_INIT_NO_MEMORY => 4
  | ERR_OF_INIT_NO_OPTIONS => 5
  | ERR_OF_INIT_NO_OPROM => 6
  | ERR_OF_INIT_NO_ROOT => 7
  | ERR_OF_OPEN => 8
  | ERR_DEV_SHORT_READ => 9
  | ERR_PART_NOT_MAC => 10
  | ERR_PART_NOT_DOS => 11
  | ERR_PART_NOT_PARTITIONED => 12
  | ERR_PART_NOT_FOUND => 13
  | ERR_PART_BEYOND => 14
  | ERR_FS_OPEN => 15
  | ERR_FS_PATH => 16
  | ERR_FS_NOT_FOUND => 17
  | ERR_FS_NOT_DIR => 18
  | ERR_FS_NOT_REG => 19
  | ERR_FS_NOT_EXT2 => 20
  | ERR_FS_CORRUPT => 21
  | ERR_FS_LOOP => 22
  | ERR_ELF_NOT => 23
  | ERR_ELF_WRONG => 24
  | ERR_ELF_NOT_LOADABLE => 25
  | ERR_KERNEL_RETURNED => 26
  | ERR_KERNEL_OLD_BIG => 27
  | ERR_NO_MEM => 28
  | ERR_CONFIG_NOT_FOUND => 29
  | ERR_ENV_DEFAULT_BAD => 30
  | ERR_ENV_CURRENT_BAD => 31
  | ERR_ENV_PREBOOT_BAD => 32
  | ERR_CMD_UNKNOWN => 33
  | ERR_CMD_BAD_PARAM => 34
  | ERR_INVALID => 35
  end.

(** The table [errors] of printf.c, built from the same list. *)
Definition errors : list cstr :=
  [ str "no error"
  ; str "operation should be retried"
  ; str "malloc claim failed"
  ; str "no OF /chosen"
  ; str "no OF /memory"
  ; str "no OF /options"
  ; str "no OF /openprom"
  ; str "no OF /"
  ; str "cannot open device"
  ; str "short read on device"
  ; str "partitioning not macintosh"
  ; str "partitioning not dos"
  ; str "invalid disk partitioning"
  ; str "partition not found"
  ; str "access beyond partition size"
  ; str "cannot open volume as file system"
  ; str "bad path"
  ; str "file not found"
  ; str "not a directory"
  ; str "not a regular file"
  ; str "FS is not ext2"
  ; str "FS is corrupted"
  ; str "symlink loop detected"
  ; str "invalid kernel image"
  ; str "invalid kernel architecture"
  ; str "not a loadable image"
  ; str "kernel returned"
  ; str "pre-2.4 kernel too large "
  ; str "malloc failed"
  ; str "no configuration file found"
  ; str "bad default device path"
  ; str "bad current device path"
  ; str "no boot-file set by preboot script"
  ; str "unknown command"
  ; str "invalid parameters"
  ; str "invalid error, likely a bug" ].

(** ** Boot state *)

(** [boot_info_t.flags] *)
Definition CONFIG_VALID : Z := 2.
Definition PAUSE_BEFORE_BOOT : Z := 4.
Definition DEBUG_BEFORE_BOOT : Z := 8.
Definition TRIED_AUTO : Z := 16.
Definition BOOT_PRE_2_4 : Z := 32.
Definition SHIM_OF : Z := 64.
Definition WITH_PREBOOT : Z := 128.
Definition HAVE_IMAGES : Z := 256.

(** A device path: an Open Firmware device name (NULL when not known) and a
    partition number. *)
Record env_dev_t := mk_env_dev { device : option cstr; part : Z; part_valid : bool }.

Record boot_info_t := mk_boot_info {
  bi_prom_entry : Z;
  bi_prom_shim : Z;
  bi_flags : Z;
  config_file : option cstr;
  of_bootargs_buf : list Z;
  of_bootfile_buf : list Z;
  default_dev : env_dev_t;
  bootargs : option cstr;
  pause_message : option cstr;
  initrd_base : Z;
  initrd_len : Z
}.

(** [bi] points to a zero-initialised object. *)
Definition bi_init : boot_info_t :=
  mk_boot_info 0 0 0 None [] [] (mk_env_dev None 0 false) None None 0 0.

Definition set_bi_flags (f : Z -> Z) (b : boot_info_t) : boot_info_t :=
  mk_boot_info (bi_prom_entry b) (bi_prom_shim b) (f (bi_flags b)) (config_file b)
    (of_bootargs_buf b) (of_bootfile_buf b) (default_dev b) (bootargs b)
    (pause_message b) (initrd_base b) (initrd_len b).

Definition set_default_dev (f : env_dev_t -> env_dev_t) (b : boot_info_t) : boot_info_t :=
  mk_boot_info (bi_prom_entry b) (bi_prom_shim b) (bi_flags b) (config_file b)
    (of_bootargs_buf b) (of_bootfile_buf b) (f (default_dev b)) (bootargs b)
    (pause_message b) (initrd_base b) (initrd_len b).

(** A parsed path: device, partition number, path within the volume. *)
Record path_t := mk_path { p_device : option cstr; p_part : Z; p_path : cstr }.

(** A loaded kernel. *)
Record load_state_t := mk_load_state {
  buf : Z; linked_base : Z; text_offset : Z; text_len : Z; entry : Z
}.

#[global] Instance env_dev_t_eq_dec : EqDecision env_dev_t.
Proof. solve_decision. Defined.
#[global] Instance path_t_eq_dec : EqDecision path_t.
Proof. solve_decision. Defined.
#[global] Instance load_state_t_eq_dec : EqDecision load_state_t.
Proof. solve_decision. Defined.

Definition KEY_NONE : Z := -1.
Definition DEFAULT_TIMEOUT : Z := -1.
Definition PREBOOT_TIMEOUT : Z := 50.

(** ** Memory layout (layout.h) *)

Definition PREBOOT_MAGIC : Z := 0x00B007ED.
Definition IQUIK_BASE : Z := 0x3e0000.
Definition IQUIK_SIZE : Z := 0x20000.
Definition MALLOC_BASE : Z := 0x500000.
Definition MALLOC_SIZE : Z := 0x300000.
Definition LOAD_BASE : Z := 0x800000.
Definition SIZE_1M : Z := 0x100000.
Definition SIZE_4K : Z := 0x1000.

(** ** Lemmas *)

Lemma err_code_errors e : is_Some (errors !! Z.to_nat (err_code e)).
Proof. destruct e; vm_compute; by eexists. Qed.
