(* ===== verification/CString.v ===== *)
(** * C string primitives (string.S)

    The assembly routines of string.S at the level of the strings they read:
    a string argument is the characters before its terminating NUL, a returned
    pointer into a string is the suffix it points to. *)
From Stdlib Require Import ZArith Lia.
From stdpp Require Import prelude strings.
From S2P Require Import Prelude.

(** ** Operations *)

Definition strlen (s : cstr) : Z := Z.of_nat (length s).

(** The difference of the first two characters that differ; 0 when the strings
    end together. *)
Fixpoint strcmp (s1 s2 : cstr) : Z :=
  match s1 with
  | [] => 0 - hd 0 s2
  | c1 :: s1' =>
      if c1 - hd 0 s2 =? 0 then strcmp s1' (tl s2) else c1 - hd 0 s2
  end.

(** The same over at most [n] characters, for a positive [n]. *)
Fixpoint strncmp (s1 s2 : cstr) (n : nat) {struct n} : Z :=
  match n with
  | O => 0
  | S n' =>
      match s1 with
      | [] => 0 - hd 0 s2
      | c1 :: s1' =>
          if c1 - hd 0 s2 =? 0 then strncmp s1' (tl s2) n' else c1 - hd 0 s2
      end
  end.

(** [memcmp] on two buffers of at least [n] bytes; the loop counts [n] down. *)
Fixpoint memcmp (b1 b2 : list Z) (n : nat) : Z :=
  match n with
  | O => 0
  | S n' =>
      if hd 0 b1 - hd 0 b2 =? 0 then memcmp (tl b1) (tl b2) n'
      else hd 0 b1 - hd 0 b2
  end.

(** The first occurrence of [c], or the terminator when [c] is NUL. *)
Fixpoint strchr (s : cstr) (c : Z) : option cstr :=
  match s with
  | [] => if c =? 0 then Some [] else None
  | x :: s' => if x =? c then Some (x :: s') else strchr s' c
  end.

(** The last occurrence of [c]; the scan keeps the latest hit in [r3]. *)
Fixpoint strrchr_from (r3 : option cstr) (s : cstr) (c : Z) : option cstr :=
  match s with
  | [] => r3
  | x :: s' => strrchr_from (if x =? c then Some (x :: s') else r3) s' c
  end.

Definition strrchr (s : cstr) (c : Z) : option cstr := strrchr_from None s c.

(** What [strncpy] stores: it stops after the NUL and does not pad. *)
Fixpoint strncpy (src : cstr) (n : nat) : list Z :=
  match n, src with
  | O, _ => []
  | S _, [] => [0]
  | S n', c :: src' => c :: strncpy src' n'
  end.

(** ** Lemmas *)

Lemma strcmp_refl s : strcmp s s = 0.
Proof. induction s as [|c s IH]; simpl; [done|]. by rewrite Z.sub_diag. Qed.

Lemma strcmp_eq s1 s2 : cstr_ok s1 -> cstr_ok s2 -> (strcmp s1 s2 = 0 <-> s1 = s2).
Proof.
  intros H1 H2. split; [|intros ->; apply strcmp_refl].
  revert s2 H2. induction H1 as [|c s1 Hc H1 IH]; intros s2 H2; simpl.
  - destruct H2; simpl; [done|lia].
  - destruct H2 as [|d s2 Hd H2]; simpl.
    + destruct (Z.eqb_spec (c - 0) 0); lia.
    + destruct (Z.eqb_spec (c - d) 0); [|lia].
      intros ?. f_equal; [lia|]. auto.
Qed.

Lemma strchr_spec s c s' :
  c <> 0 -> strchr s c = Some s' ->
  exists pre t, s = pre ++ s' /\ s' = c :: t /\ c ∉ pre.
Proof.
  intros Hc. induction s as [|x s IH]; simpl.
  - destruct (Z.eqb_spec c 0); done.
  - destruct (Z.eqb_spec x c) as [->|Hx].
    + intros [= <-]. exists [], s. split_and!; try done. ns_list.
    + intros H. destruct (IH H) as (pre & t & -> & -> & Hn).
      exists (x :: pre), t. split_and!; try done. ns_list.
Qed.

Lemma strchr_app pre c t :
  c ∉ pre -> strchr (pre ++ c :: t) c = Some (c :: t).
Proof.
  induction pre as [|x pre IH]; simpl; intros Hn.
  - by rewrite Z.eqb_refl.
  - destruct (Z.eqb_spec x c) as [->|]; [ns_list|]. apply IH. ns_list.
Qed.

Lemma strchr_none s c : c <> 0 -> strchr s c = None <-> c ∉ s.
Proof.
  intros Hc. induction s as [|x s IH]; simpl.
  - destruct (Z.eqb_spec c 0); [done|]. ns_list.
  - destruct (Z.eqb_spec x c) as [->|]; [ns_list|]. rewrite IH. ns_list.
Qed.

Lemma strrchr_from_spec r3 s c :
  strrchr_from r3 s c =
    match strrchr s c with Some s' => Some s' | None => r3 end.
Proof.
  unfold strrchr. revert r3.
  induction s as [|x s IH]; intros r3; simpl; [done|].
  rewrite IH, (IH (if x =? c then Some (x :: s) else None)).
  destruct (strrchr_from None s c); [done|]. by destruct (x =? c).
Qed.

(** The suffix [strrchr] returns starts with [c] and holds no other [c]. *)
Lemma strrchr_app pre c t : c ∉ t -> strrchr (pre ++ c :: t) c = Some (c :: t).
Proof.
  intros Hn. unfold strrchr. generalize (@None (list Z)).
  assert (Hid : forall r : option (list Z), strrchr_from r t c = r).
  { induction t as [|x t IH]; intros r; simpl; [done|].
    destruct (Z.eqb_spec x c) as [->|]; [ns_list|]. apply IH. ns_list. }
  induction pre as [|x pre IH]; intros r; simpl.
  - by rewrite Z.eqb_refl, Hid.
  - apply IH.
Qed.

Lemma memcmp_zero b1 b2 n :
  (n <= length b1)%nat -> (n <= length b2)%nat ->
  (memcmp b1 b2 n = 0 <-> take n b1 = take n b2).
Proof.
  revert b1 b2. induction n as [|n IH]; intros b1 b2 H1 H2; simpl.
  { by rewrite !take_0. }
  destruct b1 as [|x b1], b2 as [|y b2]; simpl in *; try lia.
  destruct (Z.eqb_spec (x - y) 0).
  - rewrite IH by lia. replace y with x by lia. split; [by intros ->|by intros [=]].
  - split; [lia|]. intros [=]; lia.
Qed.

#[export] Hint Resolve strcmp_refl : quik.
