(* ===== verification/Ppc.v ===== *)
(** * The PowerPC of the assembly files

    The instructions that the .S files of the loader use, over the state they touch:
    general registers, byte memory, CTR, LR, the condition register and the
    operations on the caches.  A program is a list of lines, labels and instructions,
    as the assembler reads it; [assemble] resolves the labels, the numeric ones of
    GNU as included.  The second half is how to reason about runs: [eventually], the
    registers a routine keeps, and memory blocks. *)
From Stdlib Require Import ZArith Lia Ascii.
From stdpp Require Import prelude strings.
From S2P Require Import Prelude CString.

(** ** Names (asm.h) *)

Definition cr0 : Z := 0.
Definition r0 : Z := 0.
Definition r1 : Z := 1.
Definition r2 : Z := 2.
Definition r3 : Z := 3.
Definition r4 : Z := 4.
Definition r5 : Z := 5.
Definition r6 : Z := 6.
Definition r7 : Z := 7.
Definition r8 : Z := 8.
Definition r9 : Z := 9.
Definition r10 : Z := 10.
Definition r11 : Z := 11.
Definition r12 : Z := 12.
Definition r13 : Z := 13.
Definition r14 : Z := 14.
Definition r15 : Z := 15.
Definition r16 : Z := 16.
Definition r17 : Z := 17.
Definition r18 : Z := 18.
Definition r19 : Z := 19.
Definition r20 : Z := 20.
Definition r21 : Z := 21.
Definition r22 : Z := 22.
Definition r23 : Z := 23.
Definition r24 : Z := 24.
Definition r25 : Z := 25.
Definition r26 : Z := 26.
Definition r27 : Z := 27.
Definition r28 : Z := 28.
Definition r29 : Z := 29.
Definition r30 : Z := 30.
Definition r31 : Z := 31.

(** ** Instructions *)

(** A branch target as it is written: a name, or the nearest [n:] before or after. *)
Inductive label := Name (s : string) | Bwd (n : Z) | Fwd (n : Z).

(** Where a branch goes: an instruction of the program, or a name outside it. *)
Inductive dest := Here (pc : nat) | Extern (s : string).

(** What a conditional branch asks of CTR, which it decrements first. *)
Inductive ctr_test := CtrAny | CtrNZ | CtrZ.

(** And of the condition register: whether bit [b] of field [f] is [v]. *)
Record cr_test := mk_cr_test { ct_val : bool; ct_field : Z; ct_bit : comparison }.

Inductive cache_op := Dcbf (ea : Z) | Icbi (ea : Z) | Sync | Isync.

Inductive instr (T : Type) :=
| addi (d a i : Z) | addis (d a i : Z) | subfic (d a i : Z)
| add (d a b : Z) | subf (rc : bool) (d a b : Z)
| ori (a s i : Z) | andi_ (a s i : Z) | mr (a s : Z)
| rlwinm (rc : bool) (a s sh mb me : Z) | rlwimi (a s sh mb me : Z)
| lbz (d i a : Z) | lbzu (d i a : Z) | lwz (d i a : Z) | lwzu (d i a : Z)
| stb (s i a : Z) | stbu (s i a : Z) | stw (s i a : Z) | stwu (s i a : Z)
| cmpwi (f a i : Z) | cmplwi (f a i : Z) | cmpw (f a b : Z) | cmplw (f a b : Z)
| mtctr (s : Z) | mtlr (s : Z) | mflr (d : Z)
| bc (c : ctr_test) (t : option cr_test) (l : T) | bclr (t : option cr_test)
| cache (a b : Z) (data : bool) | sync (instruction : bool).
Arguments addi {T}.
Arguments addis {T}.
Arguments subfic {T}.
Arguments add {T}.
Arguments subf {T}.
Arguments ori {T}.
Arguments andi_ {T}.
Arguments mr {T}.
Arguments rlwinm {T}.
Arguments rlwimi {T}.
Arguments lbz {T}.
Arguments lbzu {T}.
Arguments lwz {T}.
Arguments lwzu {T}.
Arguments stb {T}.
Arguments stbu {T}.
Arguments stw {T}.
Arguments stwu {T}.
Arguments cmpwi {T}.
Arguments cmplwi {T}.
Arguments cmpw {T}.
Arguments cmplw {T}.
Arguments mtctr {T}.
Arguments mtlr {T}.
Arguments mflr {T}.
Arguments bc {T}.
Arguments bclr {T}.
Arguments cache {T}.
Arguments sync {T}.

(** *** Simplified mnemonics *)

Definition li {T} d i : instr T := addi d 0 i.
Definition lis {T} d i : instr T := addis d 0 i.
Definition subi {T} d a i : instr T := addi d a (- i).
Definition dcbf {T} a b : instr T := cache a b true.
Definition icbi {T} a b : instr T := cache a b false.
Definition isync {T} : instr T := sync true.

Definition b {T} (l : T) : instr T := bc CtrAny None l.
Definition beq {T} f (l : T) : instr T := bc CtrAny (Some (mk_cr_test true f Eq)) l.
Definition bne {T} f (l : T) : instr T := bc CtrAny (Some (mk_cr_test false f Eq)) l.
Definition blt {T} f (l : T) : instr T := bc CtrAny (Some (mk_cr_test true f Lt)) l.
Definition bgt {T} f (l : T) : instr T := bc CtrAny (Some (mk_cr_test true f Gt)) l.
Definition bdnz {T} (l : T) : instr T := bc CtrNZ None l.
Definition bdz {T} (l : T) : instr T := bc CtrZ None l.
(** Bit 2 of the condition register is "equal" of field 0. *)
Definition bdnzf2 {T} (l : T) : instr T := bc CtrNZ (Some (mk_cr_test false 0 Eq)) l.
Definition bdnzt2 {T} (l : T) : instr T := bc CtrNZ (Some (mk_cr_test true 0 Eq)) l.
Definition blr {T} : instr T := bclr None.
Definition beqlr {T} f : instr T := bclr (Some (mk_cr_test true f Eq)).
Definition blelr {T} f : instr T := bclr (Some (mk_cr_test false f Gt)).

(** *** Programs *)

Inductive line := Global (s : string) | Lbl (n : Z) | Ins (i : instr label).

#[warnings="-uniform-inheritance"]
Coercion Ins : instr >-> line.

Declare Scope asm_scope.
Delimit Scope asm_scope with asm.
Notation "<{ x ; .. ; y }>" := (@cons line x .. (@cons line y nil) ..) : asm_scope.

Definition is_name (s : string) (l : line) : bool :=
  match l with Global s' => String.eqb s s' | _ => false end.
Definition is_local (n : Z) (l : line) : bool :=
  match l with Lbl m => n =? m | _ => false end.

(** The number of instructions before line [k]: the labels take no room. *)
Fixpoint pc_of (ls : list line) (k : nat) : nat :=
  match ls, k with
  | [], _ | _, O => O
  | Ins _ :: ls', S k' => S (pc_of ls' k')
  | _ :: ls', S k' => pc_of ls' k'
  end.

(** The first line from [k] on that [f] accepts, and the last one before [k]. *)
Fixpoint find_from (f : line -> bool) (ls : list line) (k : nat) : option nat :=
  match ls with
  | [] => None
  | l :: ls' =>
      match k with
      | O => if f l then Some O else option_map S (find_from f ls' O)
      | S k' => option_map S (find_from f ls' k')
      end
  end.
Fixpoint find_before (f : line -> bool) (ls : list line) (k : nat) : option nat :=
  match ls, k with
  | [], _ | _, O => None
  | l :: ls', S k' =>
      match find_before f ls' k' with
      | Some j => Some (S j)
      | None => if f l then Some O else None
      end
  end.

(** A numeric label that is nowhere is an error of the assembler; a name that is
    nowhere is left to the linker. *)
Definition resolve (ls : list line) (k : nat) (l : label) : option dest :=
  match l with
  | Name s => Some match find_from (is_name s) ls O with
                   | Some j => Here (pc_of ls j) | None => Extern s end
  | Bwd n => option_map (fun j => Here (pc_of ls j)) (find_before (is_local n) ls k)
  | Fwd n => option_map (fun j => Here (pc_of ls j)) (find_from (is_local n) ls k)
  end.

Definition assemble1 (ls : list line) (k : nat) (i : instr label) : option (instr dest) :=
  match i with
  | bc c t l => option_map (bc c t) (resolve ls k l)
  | addi d a i => Some (addi d a i) | addis d a i => Some (addis d a i)
  | subfic d a i => Some (subfic d a i)
  | add d a b => Some (add d a b) | subf rc d a b => Some (subf rc d a b)
  | ori a s i => Some (ori a s i) | andi_ a s i => Some (andi_ a s i) | mr a s => Some (mr a s)
  | rlwinm rc a s sh mb me => Some (rlwinm rc a s sh mb me)
  | rlwimi a s sh mb me => Some (rlwimi a s sh mb me)
  | lbz d i a => Some (lbz d i a) | lbzu d i a => Some (lbzu d i a)
  | lwz d i a => Some (lwz d i a) | lwzu d i a => Some (lwzu d i a)
  | stb s i a => Some (stb s i a) | stbu s i a => Some (stbu s i a)
  | stw s i a => Some (stw s i a) | stwu s i a => Some (stwu s i a)
  | cmpwi f a i => Some (cmpwi f a i) | cmplwi f a i => Some (cmplwi f a i)
  | cmpw f a b => Some (cmpw f a b) | cmplw f a b => Some (cmplw f a b)
  | mtctr s => Some (mtctr s) | mtlr s => Some (mtlr s) | mflr d => Some (mflr d)
  | bclr t => Some (bclr t)
  | cache a b data => Some (cache a b data) | sync i => Some (sync i)
  end.

Abbreviation prog := (list (instr dest)) (only parsing).

Fixpoint assemble_from (all ls : list line) (k : nat) : option prog :=
  match ls with
  | [] => Some []
  | Ins i :: ls' =>
      match assemble1 all k i, assemble_from all ls' (S k) with
      | Some i, Some p => Some (i :: p)
      | _, _ => None
      end
  | _ :: ls' => assemble_from all ls' (S k)
  end.
Definition assemble (ls : list line) : option prog := assemble_from ls ls O.

(** The instruction a name stands for. *)
Definition entry_of (ls : list line) (s : string) : nat :=
  match find_from (is_name s) ls O with Some j => pc_of ls j | None => length ls end.

(** ** State *)

Record cpu := mk_cpu {
  gpr : Z -> Z;
  mem : Z -> Z;
  ctr : Z;
  lr : Z;
  crf : Z -> comparison;   (* less, greater or equal; the overflow bit is not used *)
  ops : list cache_op
}.

Definition upd {A} (f : Z -> A) (k : Z) (v : A) : Z -> A := fun x => if x =? k then v else f x.

Definition set_gpr (d v : Z) (c : cpu) : cpu :=
  mk_cpu (upd (gpr c) d v) (mem c) (ctr c) (lr c) (crf c) (ops c).
Definition set_mem (m : Z -> Z) (c : cpu) : cpu := mk_cpu (gpr c) m (ctr c) (lr c) (crf c) (ops c).
Definition set_ctr (v : Z) (c : cpu) : cpu := mk_cpu (gpr c) (mem c) v (lr c) (crf c) (ops c).
Definition set_lr (v : Z) (c : cpu) : cpu := mk_cpu (gpr c) (mem c) (ctr c) v (crf c) (ops c).
Definition set_crf (f : Z) (v : comparison) (c : cpu) : cpu :=
  mk_cpu (gpr c) (mem c) (ctr c) (lr c) (upd (crf c) f v) (ops c).
Definition add_op (o : cache_op) (c : cpu) : cpu :=
  mk_cpu (gpr c) (mem c) (ctr c) (lr c) (crf c) (ops c ++ [o]).

(** *** Words of memory, big-endian, at addresses modulo 2^32 *)

Definition loadw (m : Z -> Z) (a : Z) : Z :=
  m a * 16777216 + m (u32 (a + 1)) * 65536 + m (u32 (a + 2)) * 256 + m (u32 (a + 3)).
Definition storew (m : Z -> Z) (a v : Z) : Z -> Z :=
  upd (upd (upd (upd m a (u8 (v / 16777216))) (u32 (a + 1)) (u8 (v / 65536)))
    (u32 (a + 2)) (u8 (v / 256))) (u32 (a + 3)) (u8 v).

(** *** Rotate and mask: bit 0 is the most significant one *)

Definition rotl32 (x n : Z) : Z := Z.lor (shl32 x n) (Z.shiftr x (32 - n)).
Definition mask (mb me : Z) : Z :=
  if mb <=? me then 2 ^ (32 - mb) - 2 ^ (31 - me)
  else 2 ^ 32 - 1 - (2 ^ (31 - me) - 2 ^ (32 - mb)).

(** ** Execution *)

(** Base registers: register 0 reads as zero. *)
Definition base (c : cpu) (a : Z) : Z := if a =? 0 then 0 else gpr c a.
Definition ea (c : cpu) (a i : Z) : Z := u32 (base c a + i).

(** A result with the record bit sets field 0. *)
Definition record (rc : bool) (v : Z) (c : cpu) : cpu :=
  if rc then set_crf 0 (s32 v ?= 0) c else c.

(** Running at an instruction, or gone: back to the caller through LR, or to a name
    outside the program. *)
Inductive conf := Run (pc : nat) (c : cpu) | Return (a : Z) (c : cpu) | Jump (s : string) (c : cpu).

Definition cr_ok (t : option cr_test) (c : cpu) : bool :=
  match t with
  | None => true
  | Some t => Bool.eqb (ct_val t) (match crf c (ct_field t), ct_bit t with
                                   | Lt, Lt | Gt, Gt | Eq, Eq => true | _, _ => false end)
  end.
Definition ctr_ok (t : ctr_test) (v : Z) : bool :=
  match t with CtrAny => true | CtrNZ => negb (v =? 0) | CtrZ => v =? 0 end.

(** The state after an instruction that falls through. *)
Definition exec (i : instr dest) (c : cpu) : cpu :=
  match i with
  | addi d a i => set_gpr d (ea c a i) c
  | addis d a i => set_gpr d (ea c a (i * 65536)) c
  | subfic d a i => set_gpr d (u32 (i - gpr c a)) c
  | add d a b => set_gpr d (u32 (gpr c a + gpr c b)) c
  | subf rc d a b => let v := u32 (gpr c b - gpr c a) in record rc v (set_gpr d v c)
  | ori a s i => set_gpr a (Z.lor (gpr c s) i) c
  | andi_ a s i => let v := Z.land (gpr c s) i in record true v (set_gpr a v c)
  | mr a s => set_gpr a (gpr c s) c
  | rlwinm rc a s sh mb me =>
      let v := Z.land (rotl32 (gpr c s) sh) (mask mb me) in record rc v (set_gpr a v c)
  | rlwimi a s sh mb me =>
      set_gpr a (Z.lor (Z.land (rotl32 (gpr c s) sh) (mask mb me))
                       (Z.land (gpr c a) (u32 (Z.lnot (mask mb me))))) c
  | lbz d i a => set_gpr d (mem c (ea c a i)) c
  | lbzu d i a => set_gpr a (ea c a i) (set_gpr d (mem c (ea c a i)) c)
  | lwz d i a => set_gpr d (loadw (mem c) (ea c a i)) c
  | lwzu d i a => set_gpr a (ea c a i) (set_gpr d (loadw (mem c) (ea c a i)) c)
  | stb s i a => set_mem (upd (mem c) (ea c a i) (u8 (gpr c s))) c
  | stbu s i a => set_gpr a (ea c a i) (set_mem (upd (mem c) (ea c a i) (u8 (gpr c s))) c)
  | stw s i a => set_mem (storew (mem c) (ea c a i) (gpr c s)) c
  | stwu s i a => set_gpr a (ea c a i) (set_mem (storew (mem c) (ea c a i) (gpr c s)) c)
  | cmpwi f a i => set_crf f (s32 (gpr c a) ?= i) c
  | cmplwi f a i => set_crf f (gpr c a ?= i) c
  | cmpw f a b => set_crf f (s32 (gpr c a) ?= s32 (gpr c b)) c
  | cmplw f a b => set_crf f (gpr c a ?= gpr c b) c
  | mtctr s => set_ctr (gpr c s) c
  | mtlr s => set_lr (gpr c s) c
  | mflr d => set_gpr d (lr c) c
  | cache a b data =>
      let e := u32 (base c a + gpr c b) in add_op (if data : bool then Dcbf e else Icbi e) c
  | sync i => add_op (if i : bool then Isync else Sync) c
  | bc CtrAny _ _ => c
  | bc _ _ _ => set_ctr (u32 (ctr c - 1)) c
  | bclr _ => c
  end.

Definition goto (l : dest) (c : cpu) : conf :=
  match l with Here pc => Run pc c | Extern s => Jump s c end.

(** Where it goes then. *)
Definition after (i : instr dest) (pc : nat) (c : cpu) : conf :=
  match i with
  | bc t r l =>
      let c' := exec i c in
      if ctr_ok t (ctr c') && cr_ok r c then goto l c' else Run (S pc) c'
  | bclr r => if cr_ok r c then Return (lr c) c else Run (S pc) c
  | _ => Run (S pc) (exec i c)
  end.

Definition step (p : prog) (s : conf) : option conf :=
  match s with
  | Run pc c => match p !! pc with Some i => Some (after i pc c) | None => None end
  | _ => None
  end.

(** [n] instructions, or fewer if the program is left. *)
Fixpoint run (p : prog) (n : nat) (s : conf) : option conf :=
  match n, s with
  | S n', Run _ _ => match step p s with Some s' => run p n' s' | None => None end
  | _, _ => Some s
  end.

(** From [pc] the program returns to [a], or jumps to [s], in a state with [Q]. *)
Definition reaches (p : prog) (pc : nat) (c : cpu) (a : Z) (Q : cpu -> Prop) : Prop :=
  exists n c', run p n (Run pc c) = Some (Return a c') /\ Q c'.
Definition jumps (p : prog) (pc : nat) (c : cpu) (s : string) (Q : cpu -> Prop) : Prop :=
  exists n c', run p n (Run pc c) = Some (Jump s c') /\ Q c'.

(** A call of the routine at [pc] comes back to its caller. *)
Definition returns (p : prog) (pc : nat) (c : cpu) (Q : cpu -> Prop) : Prop := reaches p pc c (lr c) Q.

(** ** Reasoning about runs *)

Section Runs.
Context (p : prog).

Inductive eventually (Q : conf -> Prop) (s : conf) : Prop :=
| ev_now : Q s -> eventually Q s
| ev_next s' : step p s = Some s' -> eventually Q s' -> eventually Q s.

Lemma ev_instr Q pc c i : p !! pc = Some i -> eventually Q (after i pc c) -> eventually Q (Run pc c).
Proof. intros Hi H. eapply ev_next; [|exact H]. unfold step. by rewrite Hi. Qed.

Lemma ev_run Q s : eventually Q s -> exists n s', run p n s = Some s' /\ Q s'.
Proof.
  induction 1 as [s HQ|s s' Hs _ (n & s'' & Hn & HQ)].
  - by exists O, s.
  - exists (S n), s''. split; [|done]. cbn [run]. destruct s; [by rewrite Hs|done..].
Qed.

(** A routine returns when its run gets to a return through its caller's LR. *)
Lemma reaches_ev pc c a (Q : cpu -> Prop) :
  eventually (fun s => exists c', s = Return a c' /\ Q c') (Run pc c) -> reaches p pc c a Q.
Proof. intros (n & s & Hn & c' & -> & HQ)%ev_run. by exists n, c'. Qed.

Lemma returns_ev pc c (Q : cpu -> Prop) :
  eventually (fun s => exists c', s = Return (lr c) c' /\ Q c') (Run pc c) -> returns p pc c Q.
Proof. apply reaches_ev. Qed.

Lemma jumps_ev pc c s (Q : cpu -> Prop) :
  eventually (fun t => exists c', t = Jump s c' /\ Q c') (Run pc c) -> jumps p pc c s Q.
Proof. intros (n & t & Hn & c' & -> & HQ)%ev_run. by exists n, c'. Qed.

Lemma ev_return a c (Q : cpu -> Prop) :
  Q c -> eventually (fun s => exists c', s = Return a c' /\ Q c') (Return a c).
Proof. intros. apply ev_now. by exists c. Qed.

End Runs.

(** More instructions than needed change nothing. *)
Lemma run_mono p n n' s a c : run p n s = Some (Return a c) -> (n <= n')%nat -> run p n' s = Some (Return a c).
Proof.
  revert n' s. induction n as [|n IH]; intros n' s H Hle.
  - injection H as ->. by destruct n'.
  - destruct n' as [|n']; [lia|]. cbn [run] in *. destruct s; [|done..].
    destruct (step p _); [|done]. apply IH; [done|lia].
Qed.

(** ** What a routine keeps *)

(** Everything but the registers [rs], CTR, the first two condition fields and
    memory. *)
Record kept (rs : list Z) (c c' : cpu) : Prop := {
  kept_gpr : forall r, r ∉ rs -> gpr c' r = gpr c r;
  kept_lr : lr c' = lr c;
  kept_crf : forall f, 2 <= f -> crf c' f = crf c f;
  kept_ops : ops c' = ops c
}.

Lemma kept_refl rs c : kept rs c c.
Proof. by split. Qed.

Lemma kept_trans rs c1 c2 c3 : kept rs c1 c2 -> kept rs c2 c3 -> kept rs c1 c3.
Proof.
  intros [A1 A2 A3 A4] [B1 B2 B3 B4]. split; [|congruence| |congruence]; intros x Hx.
  - by rewrite B1, A1.
  - by rewrite B3, A3.
Qed.

Lemma kept_weaken rs rs' c c' :
  forallb (fun r => existsb (Z.eqb r) rs') rs = true -> kept rs c c' -> kept rs' c c'.
Proof.
  intros Hsub [A1 A2 A3 A4]. split; try done. intros r Hr. apply A1. intros Hin. apply Hr.
  apply list_elem_of_In, (proj1 (forallb_forall _ _) Hsub) in Hin.
  apply existsb_exists in Hin as (r' & Hr' & ->%Z.eqb_eq). by apply list_elem_of_In.
Qed.

Lemma kept_set_gpr rs d v c c' : d ∈ rs -> kept rs c c' -> kept rs c (set_gpr d v c').
Proof.
  intros Hd [A1 A2 A3 A4]. split; try done. intros r Hr. cbn. unfold upd.
  destruct (Z.eqb_spec r d) as [->|]; [done|]. by apply A1.
Qed.

Lemma kept_set_crf rs f v c c' : f < 2 -> kept rs c c' -> kept rs c (set_crf f v c').
Proof.
  intros Hf [A1 A2 A3 A4]. split; try done. intros g Hg. cbn. unfold upd.
  destruct (Z.eqb_spec g f); [lia|]. by apply A3.
Qed.

Lemma kept_set_mem rs m c c' : kept rs c c' -> kept rs c (set_mem m c').
Proof. by intros []. Qed.

Lemma kept_set_ctr rs v c c' : kept rs c c' -> kept rs c (set_ctr v c').
Proof. by intros []. Qed.

Create HintDb ppc discriminated.
#[export] Hint Resolve kept_refl kept_set_gpr kept_set_crf kept_set_mem kept_set_ctr : ppc.
#[export] Hint Extern 1 (_ ∈ _ :: _) => (repeat first [apply list_elem_of_here | apply list_elem_of_further]) : ppc.
#[export] Hint Extern 1 (_ < 2) => (unfold cr0; lia) : ppc.

(** Read off the fields of a state built by [set_gpr] and the others. *)
Lemma gpr_set_gpr d v c r : gpr (set_gpr d v c) r = if r =? d then v else gpr c r.
Proof. done. Qed.
Lemma gpr_set_mem m c r : gpr (set_mem m c) r = gpr c r.
Proof. done. Qed.
Lemma gpr_set_ctr v c r : gpr (set_ctr v c) r = gpr c r.
Proof. done. Qed.
Lemma gpr_set_lr v c r : gpr (set_lr v c) r = gpr c r.
Proof. done. Qed.
Lemma gpr_set_crf f v c r : gpr (set_crf f v c) r = gpr c r.
Proof. done. Qed.
Lemma gpr_add_op o c r : gpr (add_op o c) r = gpr c r.
Proof. done. Qed.
Lemma crf_set_gpr d v c g : crf (set_gpr d v c) g = crf c g.
Proof. done. Qed.
Lemma crf_set_mem m c g : crf (set_mem m c) g = crf c g.
Proof. done. Qed.
Lemma crf_set_ctr v c g : crf (set_ctr v c) g = crf c g.
Proof. done. Qed.
Lemma crf_set_lr v c g : crf (set_lr v c) g = crf c g.
Proof. done. Qed.
Lemma crf_set_crf f v c g : crf (set_crf f v c) g = if g =? f then v else crf c g.
Proof. done. Qed.
Lemma crf_add_op o c g : crf (add_op o c) g = crf c g.
Proof. done. Qed.
Lemma mem_set_gpr d v c : mem (set_gpr d v c) = mem c.
Proof. done. Qed.
Lemma mem_set_mem m c : mem (set_mem m c) = m.
Proof. done. Qed.
Lemma mem_set_ctr v c : mem (set_ctr v c) = mem c.
Proof. done. Qed.
Lemma mem_set_lr v c : mem (set_lr v c) = mem c.
Proof. done. Qed.
Lemma mem_set_crf f v c : mem (set_crf f v c) = mem c.
Proof. done. Qed.
Lemma mem_add_op o c : mem (add_op o c) = mem c.
Proof. done. Qed.
Lemma ctr_set_gpr d v c : ctr (set_gpr d v c) = ctr c.
Proof. done. Qed.
Lemma ctr_set_mem m c : ctr (set_mem m c) = ctr c.
Proof. done. Qed.
Lemma ctr_set_ctr v c : ctr (set_ctr v c) = v.
Proof. done. Qed.
Lemma ctr_set_lr v c : ctr (set_lr v c) = ctr c.
Proof. done. Qed.
Lemma ctr_set_crf f v c : ctr (set_crf f v c) = ctr c.
Proof. done. Qed.
Lemma ctr_add_op o c : ctr (add_op o c) = ctr c.
Proof. done. Qed.
Lemma lr_set_gpr d v c : lr (set_gpr d v c) = lr c.
Proof. done. Qed.
Lemma lr_set_mem m c : lr (set_mem m c) = lr c.
Proof. done. Qed.
Lemma lr_set_ctr v c : lr (set_ctr v c) = lr c.
Proof. done. Qed.
Lemma lr_set_lr v c : lr (set_lr v c) = v.
Proof. done. Qed.
Lemma lr_set_crf f v c : lr (set_crf f v c) = lr c.
Proof. done. Qed.
Lemma lr_add_op o c : lr (add_op o c) = lr c.
Proof. done. Qed.
Lemma ops_set_gpr d v c : ops (set_gpr d v c) = ops c.
Proof. done. Qed.
Lemma ops_set_mem m c : ops (set_mem m c) = ops c.
Proof. done. Qed.
Lemma ops_set_ctr v c : ops (set_ctr v c) = ops c.
Proof. done. Qed.
Lemma ops_set_lr v c : ops (set_lr v c) = ops c.
Proof. done. Qed.
Lemma ops_set_crf f v c : ops (set_crf f v c) = ops c.
Proof. done. Qed.
Lemma ops_add_op o c : ops (add_op o c) = ops c ++ [o].
Proof. done. Qed.

Create Rewrite HintDb ppc.
#[export] Hint Rewrite gpr_set_gpr gpr_set_mem gpr_set_ctr gpr_set_lr gpr_set_crf gpr_add_op crf_set_gpr
  crf_set_mem crf_set_ctr crf_set_lr crf_set_crf crf_add_op mem_set_gpr mem_set_mem
  mem_set_ctr mem_set_lr mem_set_crf mem_add_op ctr_set_gpr ctr_set_mem ctr_set_ctr
  ctr_set_lr ctr_set_crf ctr_add_op lr_set_gpr lr_set_mem lr_set_ctr lr_set_lr
  lr_set_crf lr_add_op ops_set_gpr ops_set_mem ops_set_ctr ops_set_lr ops_set_crf
  ops_add_op : ppc.

(** ** Address arithmetic *)

Lemma u32_add_l x y : u32 (u32 x + y) = u32 (x + y).
Proof. unfold u32. by rewrite Zplus_mod_idemp_l. Qed.
Lemma u32_add_r x y : u32 (x + u32 y) = u32 (x + y).
Proof. unfold u32. by rewrite Zplus_mod_idemp_r. Qed.
Lemma u32_sub_l x y : u32 (u32 x - y) = u32 (x - y).
Proof. unfold u32. by rewrite Zminus_mod_idemp_l. Qed.
Lemma u32_sub_r x y : u32 (x - u32 y) = u32 (x - y).
Proof. unfold u32. by rewrite Zminus_mod_idemp_r. Qed.

#[export] Hint Rewrite u32_add_l u32_add_r u32_sub_l u32_sub_r u32_u32 : ppc.

Lemma u32_back a k : 0 <= a < 4294967296 -> u32 (u32 (a - k) + k) = a.
Proof. intros. rewrite u32_add_l, u32_small; lia. Qed.

(** One instruction of a known program; the state is left as the instructions built
    it, and what branches and addresses read of it is computed. *)
Ltac ppc_cbn :=
  cbn [after exec goto ctr_ok cr_ok ct_val ct_field ct_bit record andb Bool.eqb negb];
  unfold ea, base; autorewrite with ppc; cbn [Z.eqb Pos.eqb andb].
Ltac ppc := eapply ev_instr; [first [eassumption|reflexivity]|]; ppc_cbn.

(** Linear arithmetic with division and remainder. *)
Ltac div_lia := Z.div_mod_to_equations; lia.

(** Names of registers are their numbers. *)
Ltac regs :=
  unfold r0, r1, r2, r3, r4, r5, r6, r7, r8, r9, r10, r11, r12, r13, r14, r15, r16, r17, r18, r19,
    r20, r21, r22, r23, r24, r25, r26, r27, r28, r29, r30, r31, cr0 in *.

(** ** Bytes and strings in memory *)

Definition bytes_at (m : Z -> Z) (a : Z) (l : list Z) : Prop :=
  forall i x, l !! i = Some x -> m (a + Z.of_nat i) = x.

(** The string at [a] does not reach the end of the address space. *)
Definition cstring_at (m : Z -> Z) (a : Z) (s : cstr) : Prop :=
  cstr_ok s /\ 0 <= a /\ a + strlen s < 4294967296 /\ bytes_at m a (s ++ [0]).

Definition mem_ok (m : Z -> Z) : Prop := forall a, is_byte (m a).

Lemma bytes_at_cons m a x l : bytes_at m a (x :: l) <-> m a = x /\ bytes_at m (a + 1) l.
Proof.
  split.
  - intros H. split.
    + rewrite <- (H O x eq_refl). f_equal. lia.
    + intros i y Hi. rewrite <- (H (S i) y Hi). f_equal. lia.
  - intros [H0 H] [|i] y Hi.
    + injection Hi as <-. rewrite <- H0. f_equal. lia.
    + rewrite <- (H i y Hi). f_equal. lia.
Qed.

Lemma cstring_nil m a : cstring_at m a [] -> m a = 0 /\ 0 <= a < 4294967296.
Proof.
  intros (_ & H0 & H1 & H2). apply bytes_at_cons in H2 as [H2 _]. unfold strlen in H1. simpl in H1. lia.
Qed.

Lemma cstring_cons m a x s :
  cstring_at m a (x :: s) -> m a = x /\ 0 < x < 256 /\ 0 <= a < 4294967295 /\ cstring_at m (a + 1) s.
Proof.
  intros (Hok & H0 & H1 & H2). cbn [app] in H2. apply bytes_at_cons in H2 as [H2 H3].
  inversion_clear Hok. unfold strlen in *. simpl in H1. split_and!; try lia. split_and!; try done; unfold strlen; lia.
Qed.

(** Whatever the string, the byte at its address and what follows it. *)
Lemma cstring_hd m a s :
  cstring_at m a s -> m a = hd 0 s /\ 0 <= hd 0 s < 256 /\ 0 <= a < 4294967296
    /\ (hd 0 s <> 0 -> cstring_at m (a + 1) (tl s)).
Proof.
  intros H. destruct s as [|x s].
  - apply cstring_nil in H as [? ?]. simpl. split_and!; lia || done.
  - apply cstring_cons in H as (? & ? & ? & ?). simpl. split_and!; lia || done.
Qed.

(** A difference of two bytes as [subf.] leaves it. *)
Lemma s32_diff x y : 0 <= x < 256 -> 0 <= y < 256 -> s32 (u32 (x - y)) = x - y.
Proof.
  intros. unfold s32. rewrite u32_u32.
  destruct (Z.ltb_spec (u32 (x - y)) 2147483648); word_lia.
Qed.

Lemma cstring_ext m m' a s :
  (forall x, a <= x <= a + strlen s -> m' x = m x) -> cstring_at m a s -> cstring_at m' a s.
Proof.
  intros E (Hok & H0 & H1 & H2). split_and!; try done. intros i x Hi. rewrite <- (H2 i x Hi).
  apply E. apply lookup_lt_Some in Hi. rewrite length_app in Hi. simpl in Hi. unfold strlen. lia.
Qed.

Lemma bytes_at_ext m m' a l :
  (forall x, a <= x < a + Z.of_nat (length l) -> m' x = m x) -> bytes_at m a l -> bytes_at m' a l.
Proof.
  intros E H i x Hi. rewrite <- (H i x Hi). apply E. apply lookup_lt_Some in Hi. lia.
Qed.

(** Memory with a list of bytes stored. *)
Definition write (m : Z -> Z) (a : Z) (l : list Z) : Z -> Z := fun x =>
  if (a <=? x) && (x <? a + Z.of_nat (length l)) then byte_at l (x - a) else m x.

Lemma write_cons m a v l x : write (upd m a v) (a + 1) l x = write m a (v :: l) x.
Proof.
  unfold write, upd, byte_at. simpl length. zcases; cbn [andb]; try lia; try done.
  - subst x. by rewrite Z.sub_diag.
  - by replace (Z.to_nat (x - a)) with (S (Z.to_nat (x - (a + 1)))) by lia.
Qed.

Lemma write_nil m a x : write m a [] x = m x.
Proof. unfold write. simpl. zcases; cbn [andb]; [lia|done..]. Qed.

Lemma write_ext m m' a l x : m x = m' x -> write m a l x = write m' a l x.
Proof. intros E. unfold write. by rewrite E. Qed.

Lemma upd_other {A} (f : Z -> A) k v x : x <> k -> upd f k v x = f x.
Proof. intros. unfold upd. by destruct (Z.eqb_spec x k). Qed.

(** *** Words *)

Lemma storew_other m b v x :
  0 <= b -> b + 4 <= 4294967296 -> x < b \/ b + 4 <= x -> storew m b v x = m x.
Proof. intros. unfold storew, upd. rewrite !u32_small by lia. zcases; lia || done. Qed.

Lemma loadw_ext m m' a :
  0 <= a -> a + 4 <= 4294967296 -> (forall j, 0 <= j < 4 -> m (a + j) = m' (a + j)) ->
  loadw m a = loadw m' a.
Proof.
  intros Ha Hb E. unfold loadw. rewrite !u32_small by lia. rewrite <- (Z.add_0_r a) at 1 5.
  by rewrite !E by lia.
Qed.

(** *** Fills *)

(** [n] bytes from [a] on set to [v]. *)
Definition filled (m : Z -> Z) (a n v : Z) : Z -> Z := fun x =>
  if (a <=? x) && (x <? a + n) then v else m x.

Lemma filled_word m a v x :
  0 <= v < 256 -> 0 <= a -> a + 4 <= 4294967296 ->
  storew m a (v * 16843009) x = filled m a 4 v x.
Proof.
  intros Hv Ha Hb. unfold storew, upd, filled. rewrite !(u32_small (a + _)) by lia.
  assert (u8 (v * 16843009 / 16777216) = v /\ u8 (v * 16843009 / 65536) = v
    /\ u8 (v * 16843009 / 256) = v /\ u8 (v * 16843009) = v) as (-> & -> & -> & ->)
    by (split_and!; word_lia).
  zcases; cbn [andb]; lia || done.
Qed.

Lemma filled_app m m' a n k v x :
  (forall y, m' y = filled m a n v y) -> 0 <= n -> 0 <= k ->
  filled m' (a + n) k v x = filled m a (n + k) v x.
Proof. intros E ? ?. unfold filled in *. rewrite E. zcases; cbn [andb]; lia || done. Qed.

(** ** Counters *)

Lemma u32_pred k : Z.of_nat (S k) < 4294967296 -> u32 (Z.of_nat (S k) - 1) = Z.of_nat k.
Proof. intros. rewrite u32_small; lia. Qed.

(** ** Rotate and mask, as arithmetic *)

Lemma lor_add a b k : 0 <= k -> 0 <= b < 2 ^ k -> Z.lor (a * 2 ^ k) b = a * 2 ^ k + b.
Proof.
  intros Hk Hb. pose proof (Z.add_lor_land (a * 2 ^ k) b) as H.
  assert (Z.land (a * 2 ^ k) b = 0) as E; [|lia].
  rewrite <- (Z.mod_small b (2 ^ k)), <- Z.land_ones, (Z.land_comm b), Z.land_assoc, Z.land_ones by lia.
  by rewrite Z_mod_mult, Z.land_0_l.
Qed.

Lemma land_low_field x n k :
  0 <= n -> 0 <= k -> Z.land x (Z.ones n * 2 ^ k) = x / 2 ^ k mod 2 ^ n * 2 ^ k.
Proof.
  intros Hn Hk. rewrite <- Z.land_ones, <- Z.shiftr_div_pow2, <- !Z.shiftl_mul_pow2 by lia.
  apply Z.bits_inj'. intros i Hi. rewrite Z.land_spec, !Z.shiftl_spec by lia.
  destruct (Z.lt_ge_cases i k).
  - rewrite !(Z.testbit_neg_r _ (i - k)) by lia. apply andb_false_r.
  - rewrite Z.land_spec, Z.shiftr_spec by lia. do 2 f_equal. lia.
Qed.

Lemma land_insert x y n k :
  0 <= n -> 0 <= k -> 0 <= x < 4294967296 -> 0 <= y < 2 ^ n -> n + k <= 32 ->
  Z.lor (y * 2 ^ k) (Z.land x (u32 (Z.lnot (Z.ones n * 2 ^ k))))
  = y * 2 ^ k + (x - x / 2 ^ k mod 2 ^ n * 2 ^ k).
Proof.
  intros Hn Hk Hx Hy Hnk.
  assert (Z.land x (u32 (Z.lnot (Z.ones n * 2 ^ k))) = Z.land x (Z.lnot (Z.ones n * 2 ^ k))) as ->.
  { change 4294967296 with (2 ^ 32) in *. unfold u32. change 4294967296 with (2 ^ 32).
    rewrite <- Z.land_ones by lia. rewrite (Z.land_comm (Z.lnot _)), Z.land_assoc, Z.land_ones by lia.
    by rewrite Z.mod_small. }
  rewrite <- (land_low_field x n k), Z.sub_land_same_l by lia.
  pose proof (Z.add_lor_land (y * 2 ^ k) (Z.land x (Z.lnot (Z.ones n * 2 ^ k)))) as H.
  assert (Z.land (y * 2 ^ k) (Z.land x (Z.lnot (Z.ones n * 2 ^ k))) = 0) as E; [|lia].
  rewrite <- (Z.mod_small y (2 ^ n)), <- (Z.div_mul y (2 ^ k)), <- land_low_field by lia.
  apply Z.bits_inj'. intros i Hi. rewrite !Z.land_spec, Z.lnot_spec, Z.bits_0 by lia.
  destruct (Z.testbit (Z.ones n * 2 ^ k) i); cbn; by rewrite ?andb_false_r.
Qed.

(** A rotation moves the top [n] bits to the bottom. *)
Lemma rotl32_add x n :
  0 <= n <= 32 -> 0 <= x < 4294967296 -> rotl32 x n = x mod 2 ^ (32 - n) * 2 ^ n + x / 2 ^ (32 - n).
Proof.
  intros Hn Hx. unfold rotl32, shl32. rewrite Z.shiftl_mul_pow2, Z.shiftr_div_pow2 by lia.
  assert (E32 : 4294967296 = 2 ^ (32 - n) * 2 ^ n)
    by (rewrite <- Z.pow_add_r by lia; by replace (32 - n + n) with 32 by lia).
  assert (u32 (x * 2 ^ n) = x mod 2 ^ (32 - n) * 2 ^ n) as ->.
  { unfold u32. rewrite E32. apply Z.mul_mod_distr_r; lia. }
  apply lor_add; [lia|]. split; [apply Z.div_pos; lia|]. apply Z.div_lt_upper_bound; lia.
Qed.

(** The four forms the routines use. *)
Lemma srwi3 x : 0 <= x < 4294967296 -> Z.land (rotl32 x 29) (mask 3 31) = x / 8.
Proof.
  intros. rewrite rotl32_add by lia. change (mask 3 31) with (Z.ones 29 * 2 ^ 0).
  rewrite land_low_field by lia. change (2 ^ (32 - 29)) with 8. change (2 ^ 29) with 536870912.
  change (2 ^ 0) with 1. Z.div_mod_to_equations. lia.
Qed.

Lemma srwi2 x : 0 <= x < 4294967296 -> Z.land (rotl32 x 30) (mask 2 31) = x / 4.
Proof.
  intros. rewrite rotl32_add by lia. change (mask 2 31) with (Z.ones 30 * 2 ^ 0).
  rewrite land_low_field by lia. change (2 ^ (32 - 30)) with 4. change (2 ^ 30) with 1073741824.
  change (2 ^ 0) with 1. Z.div_mod_to_equations. lia.
Qed.

Lemma srwi5 x : 0 <= x < 4294967296 -> Z.land (rotl32 x 27) (mask 5 31) = x / 32.
Proof.
  intros. rewrite rotl32_add by lia. change (mask 5 31) with (Z.ones 27 * 2 ^ 0).
  rewrite land_low_field by lia. change (2 ^ (32 - 27)) with 32. change (2 ^ 27) with 134217728.
  change (2 ^ 0) with 1. Z.div_mod_to_equations. lia.
Qed.

Lemma andi3 x : Z.land x 3 = x mod 4.
Proof. by apply (Z.land_ones x 2). Qed.
Lemma andi7 x : Z.land x 7 = x mod 8.
Proof. by apply (Z.land_ones x 3). Qed.

(** The low byte copied to the second, then the low half to the high one. *)
Definition rep2 (w : Z) : Z :=
  Z.lor (Z.land (rotl32 w 8) (mask 16 23)) (Z.land w (u32 (Z.lnot (mask 16 23)))).
Definition rep4 (w : Z) : Z :=
  Z.lor (Z.land (rotl32 w 16) (mask 0 15)) (Z.land w (u32 (Z.lnot (mask 0 15)))).

Lemma rep_byte w : 0 <= w < 4294967296 -> rep4 (rep2 w) = u8 w * 16843009.
Proof.
  intros Hw. unfold rep2, rep4.
  change (mask 16 23) with (Z.ones 8 * 2 ^ 8). change (mask 0 15) with (Z.ones 16 * 2 ^ 16).
  rewrite (rotl32_add w), (land_low_field _ 8 8), (land_insert w _ 8 8) by (lia || apply Z.mod_pos_bound; lia).
  change (2 ^ (32 - 8)) with 16777216. change (2 ^ 8) with 256.
  set (v := _ + _).
  assert (0 <= v < 4294967296 /\ v mod 65536 = u8 w * 257) as [Hv Ev] by (unfold v; word_lia).
  rewrite (rotl32_add v), (land_low_field _ 16 16), (land_insert v _ 16 16)
    by (lia || apply Z.mod_pos_bound; lia).
  change (2 ^ (32 - 16)) with 65536. change (2 ^ 16) with 65536.
  clearbody v. unfold u8 in *. Z.div_mod_to_equations. lia.
Qed.

(** ** Runs that never end *)

(** However long it runs, the program is not left. *)
Definition stays (p : prog) (s : conf) : Prop :=
  forall n, exists pc c, run p n s = Some (Run pc c).

Lemma stays_step p s s' : step p s = Some s' -> stays p s' -> stays p s.
Proof.
  intros Hs H [|n].
  - destruct s as [pc c| |]; [by exists pc, c|done..].
  - cbn [run]. destruct s; [|done..]. rewrite Hs. apply H.
Qed.

Lemma ev_stays p s : eventually p (stays p) s -> stays p s.
Proof. induction 1; [done|]. by eapply stays_step. Qed.

Definition inside (p : prog) (n : nat) (s : conf) : Prop := exists pc c, run p n s = Some (Run pc c).

Lemma inside_step p s s' n : step p s = Some s' -> inside p n s' -> inside p (S n) s.
Proof. intros Hs H. unfold inside. cbn [run]. destruct s; [|done..]. by rewrite Hs. Qed.

Lemma inside_O p s s' : step p s = Some s' -> inside p O s.
Proof. intros Hs. destruct s as [pc c| |]; [by exists pc, c|done..]. Qed.

Lemma ev_inside p (Inv : conf -> Prop) s : eventually p Inv s -> forall n,
  (forall m t, (m <= n)%nat -> Inv t -> inside p m t) -> inside p n s.
Proof.
  induction 1 as [s HI|s s' Hst _ IH]; intros [|n] Hn; [by apply Hn..| |].
  - by eapply inside_O.
  - eapply inside_step; [exact Hst|]. apply IH. intros m t Hm. apply Hn. lia.
Qed.

(** A loop: from every state of [Inv] the run comes back to one of [Inv] after one
    instruction at least. *)
Lemma stays_loop p (Inv : conf -> Prop) :
  (forall s, Inv s -> exists s', step p s = Some s' /\ eventually p Inv s') ->
  forall s, Inv s -> stays p s.
Proof.
  intros Hinv s Hs n. revert s Hs. induction n as [n IH] using lt_wf_ind. intros s Hs.
  destruct (Hinv s Hs) as (s' & Hst & He). destruct n as [|n]; [by eapply inside_O|].
  eapply inside_step; [exact Hst|]. eapply ev_inside; [exact He|].
  intros m t Hm Ht. apply IH; [lia|done].
Qed.

(** ** Concrete states *)

Lemma bytes_at_eval m a l :
  map (fun i => m (a + Z.of_nat i)) (seq 0 (length l)) = l -> bytes_at m a l.
Proof.
  intros E i x Hi. rewrite <- E in Hi. apply list_lookup_fmap_Some in Hi as (j & -> & Hj).
  apply lookup_seq in Hj as [-> _]. done.
Qed.

Lemma cstring_at_eval m a s :
  cstr_ok s /\ 0 <= a /\ a + strlen s < 4294967296
    /\ map (fun i => m (a + Z.of_nat i)) (seq 0 (length (s ++ [0]))) = s ++ [0] ->
  cstring_at m a s.
Proof. intros (? & ? & ? & ?). split_and!; try done. by apply bytes_at_eval. Qed.

Lemma write_ok m a l : mem_ok m -> bytes_ok l -> mem_ok (write m a l).
Proof.
  intros Hm Hl x. unfold write. destruct ((a <=? x) && (x <? a + Z.of_nat (length l))); [|done].
  by apply byte_at_ok.
Qed.

(** A processor about to run a routine with up to three arguments, memory holding [l] at
    4096 and nothing else. *)
Definition call_with (l : list Z) (x3 x4 x5 : Z) : cpu :=
  mk_cpu (fun r => if r =? 1 then 131072 else if r =? 3 then x3 else if r =? 4 then x4 else
                   if r =? 5 then x5 else if r =? 11 then 8192 else if r =? 31 then 31 else 7)
    (write (fun _ => 0) 4096 l) 0 77777 (fun _ => Eq) [].

Lemma call_with_ok l x3 x4 x5 : bytes_ok l -> mem_ok (mem (call_with l x3 x4 x5)).
Proof. intros. by apply write_ok. Qed.
