(* ===== verification/PpcString.v ===== *)
(** * The string routines as they are written (loader/string.S)

    Every routine of string.S, line by line, the program they make together, and what
    each does to a processor.  The routines call one another by falling through and
    by branches between them, so they are assembled as one program. *)
From Stdlib Require Import ZArith Lia Ascii.
From stdpp Require Import prelude strings.
From S2P Require Import Prelude CString Ppc.

#[local] Open Scope asm_scope.

(** ** The source *)

Definition strcpy_text : list line :=
  <{ Global "strcpy"; addi r5 r3 (-1); addi r4 r4 (-1); Lbl 1; lbzu r0 1 r4; cmpwi 0 r0 0;
    stbu r0 1 r5; bne 0 (Bwd 1); blr }>.

Definition strncpy_text : list line :=
  <{ Global "strncpy"; cmpwi 0 r5 0; beqlr 0; mtctr r5; addi r6 r3 (-1); addi r4 r4 (-1); Lbl 1;
    lbzu r0 1 r4; cmpwi 0 r0 0; stbu r0 1 r6; bdnzf2 (Bwd 1); blr }>.

Definition strcat_text : list line :=
  <{ Global "strcat"; addi r5 r3 (-1); addi r4 r4 (-1); Lbl 1; lbzu r0 1 r5; cmpwi 0 r0 0;
    bne 0 (Bwd 1); addi r5 r5 (-1); Lbl 1; lbzu r0 1 r4; cmpwi 0 r0 0; stbu r0 1 r5;
    bne 0 (Bwd 1); blr }>.

Definition strcmp_text : list line :=
  <{ Global "strcmp"; addi r5 r3 (-1); addi r4 r4 (-1); Lbl 1; lbzu r3 1 r5; cmpwi 1 r3 0;
    lbzu r0 1 r4; subf true r3 r0 r3; beqlr 1; beq 0 (Bwd 1); blr }>.

Definition strncmp_text : list line :=
  <{ Global "strncmp"; cmpwi 0 r5 0; addi r6 r3 (-1); addi r4 r4 (-1); beqlr 0; mtctr r5; Lbl 1;
    lbzu r3 1 r6; cmpwi 1 r3 0; lbzu r0 1 r4; subf true r3 r0 r3; beqlr 1; bdnzt2 (Bwd 1);
    blr }>.

Definition strlen_text : list line :=
  <{ Global "strlen"; addi r4 r3 (-1); Lbl 1; lbzu r0 1 r4; cmpwi 0 r0 0; bne 0 (Bwd 1);
    subf false r3 r3 r4; blr }>.

Definition strchr_text : list line :=
  <{ Global "strchr"; addi r3 r3 (-1); Lbl 1; lbzu r0 1 r3; cmpw 0 r0 r4; cmpwi 1 r0 0; beqlr 0;
    bne 1 (Bwd 1); li r3 0; blr }>.

Definition strrchr_text : list line :=
  <{ Global "strrchr"; addi r5 r3 (-1); li r3 0; Lbl 1; lbzu r0 1 r5; cmpwi 0 r0 0; cmpw 1 r0 r4;
    beqlr 0; bne 1 (Bwd 1); mr r3 r5; b (Bwd 1) }>.

Definition memset_text : list line :=
  <{ Global "memset"; rlwimi r4 r4 8 16 23; rlwimi r4 r4 16 0 15; addi r6 r3 (-4); cmplwi 0 r5 4;
    blt 0 (Fwd 7); stwu r4 4 r6; beqlr 0; andi_ r0 r6 3; add r5 r0 r5; subf false r6 r0 r6;
    rlwinm false r0 r5 (32 - 2) 2 31; mtctr r0; bdz (Fwd 6); Lbl 1; stwu r4 4 r6; bdnz (Bwd 1);
    Lbl 6; andi_ r5 r5 3; Lbl 7; cmpwi 0 r5 0; beqlr 0; mtctr r5; addi r6 r6 3; Lbl 8;
    stbu r4 1 r6; bdnz (Bwd 8); blr }>.

Definition bcopy_text : list line :=
  <{ Global "bcopy"; mr r6 r3; mr r3 r4; mr r4 r6; b (Name "memcpy") }>.

Definition memmove_text : list line :=
  <{ Global "memmove"; cmplw 0 r3 r4; bgt 0 (Name "backwards_memcpy") }>.

Definition memcpy_text : list line :=
  <{ Global "memcpy"; rlwinm true r7 r5 (32 - 3) 3 31; addi r6 r3 (-4); addi r4 r4 (-4);
    beq 0 (Fwd 2); andi_ r0 r6 3; mtctr r7; bne 0 (Fwd 5); Lbl 1; lwz r7 4 r4; lwzu r8 8 r4;
    stw r7 4 r6; stwu r8 8 r6; bdnz (Bwd 1); andi_ r5 r5 7; Lbl 2; cmplwi 0 r5 4; blt 0 (Fwd 3);
    lwzu r0 4 r4; addi r5 r5 (-4); stwu r0 4 r6; Lbl 3; cmpwi 0 r5 0; beqlr 0; mtctr r5;
    addi r4 r4 3; addi r6 r6 3; Lbl 4; lbzu r0 1 r4; stbu r0 1 r6; bdnz (Bwd 4); blr; Lbl 5;
    subfic r0 r0 4; mtctr r0; Lbl 6; lbz r7 4 r4; addi r4 r4 1; stb r7 4 r6; addi r6 r6 1;
    bdnz (Bwd 6); subf false r5 r0 r5; rlwinm true r7 r5 (32 - 3) 3 31; beq 0 (Bwd 2); mtctr r7;
    b (Bwd 1) }>.

Definition backwards_memcpy_text : list line :=
  <{ Global "backwards_memcpy"; rlwinm true r7 r5 (32 - 3) 3 31; add r6 r3 r5; add r4 r4 r5;
    beq 0 (Fwd 2); andi_ r0 r6 3; mtctr r7; bne 0 (Fwd 5); Lbl 1; lwz r7 (-4) r4;
    lwzu r8 (-8) r4; stw r7 (-4) r6; stwu r8 (-8) r6; bdnz (Bwd 1); andi_ r5 r5 7; Lbl 2;
    cmplwi 0 r5 4; blt 0 (Fwd 3); lwzu r0 (-4) r4; subi r5 r5 4; stwu r0 (-4) r6; Lbl 3;
    cmpwi 0 r5 0; beqlr 0; mtctr r5; Lbl 4; lbzu r0 (-1) r4; stbu r0 (-1) r6; bdnz (Bwd 4); blr;
    Lbl 5; mtctr r0; Lbl 6; lbzu r7 (-1) r4; stbu r7 (-1) r6; bdnz (Bwd 6); subf false r5 r0 r5;
    rlwinm true r7 r5 (32 - 3) 3 31; beq 0 (Bwd 2); mtctr r7; b (Bwd 1) }>.

Definition memcmp_text : list line :=
  <{ Global "memcmp"; cmpwi 0 r5 0; blelr 0; mtctr r5; addi r6 r3 (-1); addi r4 r4 (-1); Lbl 1;
    lbzu r3 1 r6; lbzu r0 1 r4; subf true r3 r0 r3; bdnzt2 (Bwd 1); blr }>.

Definition bzero_text : list line :=
  <{ Global "__bzero"; mr r5 r4; li r4 0; b (Name "memset") }>.

Definition string_S : list line :=
  strcpy_text
  ++ strncpy_text
  ++ strcat_text
  ++ strcmp_text
  ++ strncmp_text
  ++ strlen_text
  ++ strchr_text
  ++ strrchr_text
  ++ memset_text
  ++ bcopy_text
  ++ memmove_text
  ++ memcpy_text
  ++ backwards_memcpy_text
  ++ memcmp_text
  ++ bzero_text.

Definition string_code : prog := Eval vm_compute in default [] (assemble string_S).

Lemma string_assembles : assemble string_S = Some string_code.
Proof. vm_compute. reflexivity. Qed.

(** The routine of a name. *)
Definition entry (s : string) : nat := entry_of string_S s.

Local Abbreviation ev := (eventually string_code).

(** The fields the next round of a loop reads. *)
Ltac fields := autorewrite with ppc; cbn [Z.eqb Pos.eqb].
Ltac next :=
  fields; try done; try lia; try (rewrite u32_small; lia); try (f_equal; lia).
(** What a loop has kept, one round and the rest of them. *)
Ltac kept_round :=
  eapply kept_trans; [|first [eassumption|eapply kept_weaken; [|eassumption]; reflexivity]];
  auto 20 with ppc.

(** ** The end of a string *)

(** [strlen] and [strcat] look for it in the same way. *)
Lemma scan_loop k r Q s :
  r = 4 \/ r = 5 ->
  string_code !! k = Some (lbzu 0 1 r) -> string_code !! S k = Some (cmpwi 0 0 0) ->
  string_code !! S (S k) = Some (bne 0 (Here k)) ->
  forall c a,
  cstring_at (mem c) a s -> gpr c r = u32 (a - 1) ->
  (forall c', kept [0; r] c c' -> mem c' = mem c -> gpr c' r = a + strlen s ->
    ev Q (Run (S (S (S k))) c')) ->
  ev Q (Run k c).
Proof.
  intros Hr K0 K1 K2. induction s as [|x s IH]; intros c a Hs Ha HQ.
  - apply cstring_nil in Hs as (Hm & Hb). destruct Hr as [-> | ->];
      (do 3 ppc; rewrite Ha, u32_back, Hm by lia; cbn;
       apply HQ; [auto with ppc|done|]; fields; unfold strlen; simpl; lia).
  - apply cstring_cons in Hs as (Hm & Hx & Hb & Hs).
    assert (HQ' : forall c', kept [0; r] c c' -> mem c' = mem c -> gpr c' r = a + 1 + strlen s ->
      ev Q (Run (S (S (S k))) c'))
      by (intros c' Hk Hm' E; apply HQ; [done..|rewrite E; unfold strlen; simpl; lia]).
    destruct Hr as [-> | ->]; do 3 ppc; rewrite Ha, u32_back, Hm, s32_small by lia;
      (destruct (Z.compare_spec x 0); [lia..|]); cbn; eapply (IH _ (a + 1)); next;
      intros c' Hk Hm' E; (apply HQ'; [kept_round|done|done]).
Qed.

(** ** Comparison *)

Lemma strcmp_loop Q s1 : forall s2 c a1 a2,
  cstring_at (mem c) a1 s1 -> cstring_at (mem c) a2 s2 ->
  gpr c 5 = u32 (a1 - 1) -> gpr c 4 = u32 (a2 - 1) ->
  (forall c', kept [0; 3; 4; 5] c c' -> mem c' = mem c -> gpr c' 3 = u32 (strcmp s1 s2) ->
    ev Q (Return (lr c) c')) ->
  ev Q (Run 30 c).
Proof.
  induction s1 as [|x s1 IH]; intros s2 c a1 a2 H1 H2 E1 E2 HQ;
    apply cstring_hd in H2 as (Hm2 & Hy & Hb2 & H2).
  - apply cstring_nil in H1 as (Hm1 & Hb1).
    do 5 ppc; rewrite E1, E2, !u32_back, Hm1, Hm2 by lia. cbn.
    apply HQ; [auto 8 with ppc|done|]. by fields.
  - apply cstring_cons in H1 as (Hm1 & Hx & Hb1 & H1).
    do 5 ppc; rewrite E1, E2, !u32_back, Hm1, Hm2, s32_diff, s32_small by lia.
    destruct (Z.compare_spec x 0); [lia..|]. cbn. ppc. cbn [strcmp] in HQ.
    destruct (Z.compare_spec (x - hd 0 s2) 0) as [E|E|E]; cbn.
    2-3: rewrite (proj2 (Z.eqb_neq (x - hd 0 s2) 0)) in HQ by lia; ppc;
         apply HQ; [auto 8 with ppc|done|by fields].
    rewrite E in HQ. eapply (IH (tl s2) _ (a1 + 1) (a2 + 1)); next; [apply H2; lia|].
    intros c' Hk Hm' Hr. apply HQ; [kept_round|done|done].
Qed.

Lemma strncmp_loop Q n : forall s1 s2 c a1 a2,
  cstring_at (mem c) a1 s1 -> cstring_at (mem c) a2 s2 ->
  gpr c 6 = u32 (a1 - 1) -> gpr c 4 = u32 (a2 - 1) ->
  ctr c = Z.of_nat (S n) -> Z.of_nat (S n) < 4294967296 ->
  (forall c', kept [0; 3; 4; 6] c c' -> mem c' = mem c -> gpr c' 3 = u32 (strncmp s1 s2 (S n)) ->
    ev Q (Return (lr c) c')) ->
  ev Q (Run 42 c).
Proof.
  induction n as [|n IH]; intros s1 s2 c a1 a2 H1 H2 E1 E2 Hc Hn HQ;
    apply cstring_hd in H2 as (Hm2 & Hy & Hb2 & H2); (destruct s1 as [|x s1];
    [apply cstring_nil in H1 as (Hm1 & Hb1);
     do 5 ppc; rewrite E1, E2, !u32_back, Hm1, Hm2 by lia; cbn;
     apply HQ; [auto 8 with ppc|done|by fields] |]);
    apply cstring_cons in H1 as (Hm1 & Hx & Hb1 & H1);
    do 5 ppc; rewrite E1, E2, !u32_back, Hm1, Hm2, s32_diff, s32_small by lia;
    (destruct (Z.compare_spec x 0); [lia..|]); cbn; ppc;
    rewrite Hc, u32_pred by lia; cbn [strncmp] in HQ.
  - cbn. ppc. apply HQ; [auto 12 with ppc|done|]. fields.
    destruct (Z.eqb_spec (x - hd 0 s2) 0) as [->|]; done.
  - rewrite (proj2 (Z.eqb_neq (Z.of_nat (S n)) 0)) by lia.
    destruct (Z.compare_spec (x - hd 0 s2) 0) as [E|E|E]; cbn.
    2-3: rewrite (proj2 (Z.eqb_neq (x - hd 0 s2) 0)) in HQ by lia; ppc;
         apply HQ; [auto 12 with ppc|done|by fields].
    rewrite E in HQ. eapply (IH s1 (tl s2) _ (a1 + 1) (a2 + 1)); next; [apply H2; lia|].
    intros c' Hk Hm' Hr. apply HQ; [kept_round|done|done].
Qed.

Lemma memcmp_loop Q n : forall b1 b2 c a1 a2,
  (S n <= length b1)%nat -> (S n <= length b2)%nat -> bytes_ok b1 -> bytes_ok b2 ->
  bytes_at (mem c) a1 b1 -> bytes_at (mem c) a2 b2 ->
  0 <= a1 -> a1 + Z.of_nat (S n) <= 4294967296 -> 0 <= a2 -> a2 + Z.of_nat (S n) <= 4294967296 ->
  gpr c 6 = u32 (a1 - 1) -> gpr c 4 = u32 (a2 - 1) -> ctr c = Z.of_nat (S n) -> Z.of_nat (S n) < 4294967296 ->
  (forall c', kept [0; 3; 4; 6] c c' -> mem c' = mem c -> gpr c' 3 = u32 (memcmp b1 b2 (S n)) ->
    ev Q (Return (lr c) c')) ->
  ev Q (Run 179 c).
Proof.
  induction n as [|n IH]; intros b1 b2 c a1 a2 L1 L2 O1 O2 H1 H2 B1 B1' B2 B2' E1 E2 Hc Hn HQ;
    (destruct b1 as [|x b1]; [simpl in L1; lia|]); (destruct b2 as [|y b2]; [simpl in L2; lia|]);
    simpl in L1, L2; apply bytes_at_cons in H1 as [Hm1 H1]; apply bytes_at_cons in H2 as [Hm2 H2];
    inversion_clear O1 as [|? ? Hx O1']; inversion_clear O2 as [|? ? Hy O2']; unfold is_byte in Hx, Hy;
    do 4 ppc; rewrite E1, E2, !u32_back, Hm1, Hm2, s32_diff, Hc, u32_pred by lia;
    cbn [memcmp hd tl] in HQ.
  - cbn. ppc. apply HQ; [auto 12 with ppc|done|]. fields.
    destruct (Z.eqb_spec (x - y) 0) as [->|]; done.
  - rewrite (proj2 (Z.eqb_neq (Z.of_nat (S n)) 0)) by lia.
    destruct (Z.compare_spec (x - y) 0) as [E|E|E]; cbn.
    2-3: rewrite (proj2 (Z.eqb_neq (x - y) 0)) in HQ by lia; ppc;
         apply HQ; [auto 12 with ppc|done|by fields].
    rewrite E in HQ. eapply (IH b1 b2 _ (a1 + 1) (a2 + 1)); next.
    intros c' Hk Hm' Hr. apply HQ; [kept_round|done|done].
Qed.

(** ** Search *)

(** The address of the suffix [t] of the string at [a]; NULL for none. *)
Definition ptr_to (a : Z) (s : cstr) (t : option cstr) : Z :=
  match t with Some t => a + (strlen s - strlen t) | None => 0 end.

Lemma ptr_to_cons a x s t : ptr_to (a + 1) s t = ptr_to a (x :: s) t.
Proof. destruct t; [|done]. unfold ptr_to, strlen. simpl. lia. Qed.

Lemma strchr_loop Q s k : forall c a,
  cstring_at (mem c) a s -> gpr c 3 = u32 (a - 1) -> s32 (gpr c 4) = k -> 0 <= k < 256 ->
  (forall c', kept [0; 3] c c' -> mem c' = mem c -> gpr c' 3 = ptr_to a s (strchr s k) ->
    ev Q (Return (lr c) c')) ->
  ev Q (Run 56 c).
Proof.
  induction s as [|x s IH]; intros c a Hs Ha Hk Hb HQ; cbn [strchr] in HQ.
  - apply cstring_nil in Hs as (Hm & Hba). do 4 ppc. rewrite Ha, u32_back, Hm, Hk by lia.
    change (s32 0) with 0. destruct (Z.compare_spec 0 k) as [<-|?|?]; [|cbn|lia].
    + cbn. apply HQ; [auto with ppc|done|]. fields. unfold ptr_to, strlen. simpl. lia.
    + do 3 ppc. apply HQ; [auto 12 with ppc|done|]. fields.
      rewrite (proj2 (Z.eqb_neq k 0)) by lia. done.
  - apply cstring_cons in Hs as (Hm & Hx & Hba & Hs). do 4 ppc.
    rewrite Ha, u32_back, Hm, Hk, s32_small by lia.
    assert (Hd : x = k \/ (x ?= k) <> Eq /\ (x =? k) = false)
      by (destruct (Z.compare_spec x k); [by left|right; split; [done|lia]..]).
    destruct Hd as [->|[Hne Hnb]].
    + rewrite Z.compare_refl. cbn. rewrite Z.eqb_refl in HQ. apply HQ; [auto with ppc|done|].
      fields. unfold ptr_to, strlen. simpl. lia.
    + rewrite Hnb in HQ. destruct (Z.compare_spec x 0); [lia..|].
      assert (Hx' : (if match x ?= k with Eq => true | _ => false end then false else true) = true)
        by (by destruct (x ?= k)).
      destruct (x ?= k) eqn:Ec; [done| |]; cbn; ppc;
        (eapply (IH _ (a + 1)); next;
         intros c' Hkp Hm' Hr; apply HQ; [kept_round|done|by rewrite Hr, (ptr_to_cons a x)]).
Qed.

Lemma strrchr_loop Q s k : forall c a p,
  cstring_at (mem c) a s -> gpr c 5 = u32 (a - 1) -> s32 (gpr c 4) = k -> 0 <= k < 256 -> gpr c 3 = p ->
  (forall c', kept [0; 3; 5] c c' -> mem c' = mem c ->
    gpr c' 3 = match strrchr s k with Some t => ptr_to a s (Some t) | None => p end ->
    ev Q (Return (lr c) c')) ->
  ev Q (Run 65 c).
Proof.
  unfold strrchr. induction s as [|x s IH]; intros c a p Hs Ha Hk Hb Hp HQ; cbn [strrchr_from] in HQ.
  - apply cstring_nil in Hs as (Hm & Hba). do 4 ppc. rewrite Ha, u32_back, Hm by lia. cbn.
    apply HQ; [auto 12 with ppc|done|by fields].
  - apply cstring_cons in Hs as (Hm & Hx & Hba & Hs). do 4 ppc.
    rewrite Ha, u32_back, Hm, Hk, s32_small by lia.
    destruct (Z.compare_spec x 0); [lia..|]. cbn. ppc.
    rewrite strrchr_from_spec in HQ. unfold strrchr in HQ.
    destruct (Z.compare_spec x k) as [E|E|E]; cbn.
    2-3: rewrite (proj2 (Z.eqb_neq x k)) in HQ by lia; eapply (IH _ (a + 1)); next;
         intros c' Hkp Hm' Hr; apply HQ; [kept_round|done|];
         rewrite Hr; destruct (strrchr_from None s k); [by rewrite (ptr_to_cons a x)|done].
    rewrite (proj2 (Z.eqb_eq x k) E) in HQ. do 2 ppc. eapply (IH _ (a + 1)); next.
    intros c' Hkp Hm' Hr. apply HQ; [kept_round|done|]. rewrite Hr. fields.
    destruct (strrchr_from None s k); [by rewrite (ptr_to_cons a x)|].
    unfold ptr_to, strlen. simpl. lia.
Qed.

(** ** Copying strings *)

(** A store below or after what is still to be read of the source. *)
Definition apart (d a : Z) (s : cstr) : Prop := d <= a \/ a + strlen s < d.

Lemma apart_cons d a x s : apart d a (x :: s) -> apart (d + 1) (a + 1) s.
Proof. unfold apart, strlen. simpl. lia. Qed.

Lemma cstring_stored m a d v x s :
  apart d a (x :: s) -> cstring_at m (a + 1) s -> cstring_at (upd m d v) (a + 1) s.
Proof.
  intros Ha. apply cstring_ext. intros y Hy. apply upd_other. unfold apart, strlen in *. simpl in Ha. lia.
Qed.

(** The loop that [strcpy] and [strcat] end with, wherever it is. *)
Lemma copy_loop k Q s :
  string_code !! k = Some (lbzu 0 1 4) -> string_code !! S k = Some (cmpwi 0 0 0) ->
  string_code !! S (S k) = Some (stbu 0 1 5) -> string_code !! S (S (S k)) = Some (bne 0 (Here k)) ->
  forall c a d,
  cstring_at (mem c) a s -> apart d a s -> 0 <= d -> d + strlen s < 4294967296 ->
  gpr c 4 = u32 (a - 1) -> gpr c 5 = u32 (d - 1) ->
  (forall c', kept [0; 4; 5] c c' -> (forall x, mem c' x = write (mem c) d (s ++ [0]) x) ->
    ev Q (Run (S (S (S (S k)))) c')) ->
  ev Q (Run k c).
Proof.
  intros K0 K1 K2 K3. induction s as [|x s IH]; intros c a d Hs Hap Hd Hds Ea Ed HQ;
    unfold strlen in Hds; simpl in Hds.
  - apply cstring_nil in Hs as (Hm & Hba). do 4 ppc. rewrite Ea, Ed, !u32_back, Hm by lia. cbn.
    apply HQ; [auto 12 with ppc|]. intros y. fields. cbn [app].
    by rewrite <- (write_cons _ _ 0), write_nil.
  - apply cstring_cons in Hs as (Hm & Hx & Hba & Hs). do 4 ppc.
    rewrite Ea, Ed, !u32_back, Hm, s32_small, u8_small by lia.
    destruct (Z.compare_spec x 0); [lia..|]. cbn.
    eapply (IH _ (a + 1) (d + 1)); next;
      [by eapply cstring_stored|by eapply apart_cons|unfold strlen; lia|].
    intros c' Hk Hm'. apply HQ; [kept_round|]. intros y. rewrite Hm'. fields. apply write_cons.
Qed.

Lemma strncpy_loop Q n : forall s c a d,
  cstring_at (mem c) a s -> apart d a s -> 0 <= d -> d + Z.of_nat (S n) <= 4294967296 ->
  gpr c 4 = u32 (a - 1) -> gpr c 6 = u32 (d - 1) -> ctr c = Z.of_nat (S n) -> Z.of_nat (S n) < 4294967296 ->
  (forall c', kept [0; 4; 6] c c' -> (forall x, mem c' x = write (mem c) d (strncpy s (S n)) x) ->
    ev Q (Return (lr c) c')) ->
  ev Q (Run 12 c).
Proof.
  induction n as [|n IH]; intros s c a d Hs Hap Hd Hdn Ea Ed Hc Hn HQ; (destruct s as [|x s];
    [apply cstring_nil in Hs as (Hm & Hba); do 4 ppc;
     rewrite Ea, Ed, !u32_back, Hm, andb_false_r by lia; cbn; ppc;
     apply HQ; [auto 12 with ppc|]; intros y; fields; cbn [strncpy];
     by rewrite <- (write_cons _ _ 0), write_nil |]);
    apply cstring_cons in Hs as (Hm & Hx & Hba & Hs); do 4 ppc;
    rewrite Ea, Ed, Hc, u32_pred, !u32_back, Hm, s32_small, u8_small by lia;
    (destruct (Z.compare_spec x 0); [lia..|]); cbn [strncpy] in HQ.
  - cbn. ppc. apply HQ; [auto 12 with ppc|]. intros y. fields.
    replace (strncpy s 0) with (@nil Z) by (by destruct s).
    by rewrite <- (write_cons _ _ x), write_nil.
  - rewrite (proj2 (Z.eqb_neq (Z.of_nat (S n)) 0)) by lia. cbn.
    eapply (IH s _ (a + 1) (d + 1)); next; [by eapply cstring_stored|by eapply apart_cons|].
    intros c' Hk Hm'. apply HQ; [kept_round|]. intros y. rewrite Hm'. fields. apply write_cons.
Qed.

