(* ===== verification/PpcCopy.v ===== *)
(** * Filling and copying memory (loader/string.S)

    The runs of [memset], [memcpy], [backwards_memcpy] and [memmove]: word loops with
    byte loops before and after them.  Every loop is one lemma, whose continuation is
    what follows the loop. *)
From Stdlib Require Import ZArith Lia Ascii.
From stdpp Require Import prelude strings.
From S2P Require Import Prelude CString Ppc PpcString.

Local Abbreviation ev := (eventually string_code).

(** ** memset *)

Lemma memset_words Q v k : forall c e,
  0 <= v < 256 -> gpr c 4 = v * 16843009 -> gpr c 6 = u32 (e - 4) -> ctr c = Z.of_nat (S k) ->
  0 <= e -> e + 4 * Z.of_nat (S k) <= 4294967296 ->
  (forall c', kept [6] c c' -> (forall x, mem c' x = filled (mem c) e (4 * Z.of_nat (S k)) v x) ->
    gpr c' 6 = u32 (e + 4 * Z.of_nat (S k) - 4) -> ev Q (Run 87 c')) ->
  ev Q (Run 85 c).
Proof.
  induction k as [|k IH]; intros c e Hv E4 E6 Hc He Hb HQ;
    do 2 ppc; rewrite E4, E6, u32_back, Hc, u32_pred by lia.
  - cbn. apply HQ; [auto with ppc| |].
    + intros x. fields. by rewrite filled_word by lia.
    + fields. rewrite u32_small by lia. lia.
  - rewrite (proj2 (Z.eqb_neq (Z.of_nat (S k)) 0)) by lia. cbn.
    apply (IH _ (e + 4)); next.
    intros c' Hk Hm E. apply HQ; [kept_round| |rewrite E; f_equal; lia].
    intros x. rewrite Hm. fields. replace (4 * Z.of_nat (S (S k))) with (4 + 4 * Z.of_nat (S k)) by lia.
    apply filled_app; [|lia..]. intros y. by rewrite filled_word by lia.
Qed.

Lemma memset_bytes Q v k : forall c e,
  0 <= v < 256 -> u8 (gpr c 4) = v -> gpr c 6 = u32 (e - 1) -> ctr c = Z.of_nat (S k) ->
  0 <= e -> e + Z.of_nat (S k) <= 4294967296 -> Z.of_nat (S k) < 4294967296 ->
  (forall c', kept [6] c c' -> (forall x, mem c' x = filled (mem c) e (Z.of_nat (S k)) v x) ->
    ev Q (Return (lr c) c')) ->
  ev Q (Run 92 c).
Proof.
  induction k as [|k IH]; intros c e Hv E4 E6 Hc He Hb Hk HQ;
    (assert (Hst : forall m y, upd m e v y = filled m e 1 v y)
      by (intros m y; unfold upd, filled; zcases; cbn [andb]; lia || done));
    do 2 ppc; rewrite E4, E6, u32_back, Hc, u32_pred by lia.
  - cbn. ppc. apply HQ; [auto with ppc|]. intros x. fields. apply Hst.
  - rewrite (proj2 (Z.eqb_neq (Z.of_nat (S k)) 0)) by lia. cbn.
    apply (IH _ (e + 1)); next.
    intros c' Hkp Hm. apply HQ; [kept_round|].
    intros x. rewrite Hm. fields. replace (Z.of_nat (S (S k))) with (1 + Z.of_nat (S k)) by lia.
    apply filled_app; [intros y; apply Hst|lia..].
Qed.

(** What is left after the words: [r] bytes from [e] on. *)
Lemma memset_tail Q c e r v :
  0 <= v < 256 -> u8 (gpr c 4) = v -> gpr c 6 = u32 (e - 4) -> gpr c 5 = r ->
  0 <= e -> 0 <= r < 2147483648 -> e + r <= 4294967296 ->
  (forall c', kept [6] c c' -> (forall x, mem c' x = filled (mem c) e r v x) ->
    ev Q (Return (lr c) c')) ->
  ev Q (Run 88 c).
Proof.
  intros Hv E4 E6 E5 He Hr Hb HQ. do 2 ppc. rewrite E5, s32_small by lia.
  destruct (Z.compare_spec r 0) as [->|?|Hp]; [cbn|lia|cbn].
  - apply HQ; [auto with ppc|]. intros x. fields. unfold filled. zcases; cbn [andb]; lia || done.
  - do 2 ppc. rewrite E6, E5, u32_add_l. destruct (Z.to_nat r) as [|k] eqn:Ek; [lia|].
    apply (memset_bytes _ v k _ e); next.
    intros c' Hk Hm. apply HQ; [kept_round|]. intros x. rewrite Hm. fields. by replace (Z.of_nat (S k)) with r by lia.
Qed.

(** From the end of the word loop on, with [t] bytes from [e - 4 * (t / 4)] asked for. *)
Lemma memset_last Q c e t v :
  0 <= v < 256 -> u8 (gpr c 4) = v -> gpr c 6 = u32 (e - 4) -> gpr c 5 = t ->
  0 <= e -> e + t mod 4 <= 4294967296 ->
  (forall c', kept [5; 6] c c' -> (forall x, mem c' x = filled (mem c) e (t mod 4) v x) ->
    ev Q (Return (lr c) c')) ->
  ev Q (Run 87 c).
Proof.
  intros Hv E4 E6 E5 He Hb HQ. ppc. rewrite E5, andi3. pose proof (Z.mod_pos_bound t 4).
  apply (memset_tail _ _ e (t mod 4) v); next.
  intros c' Hk Hm. apply HQ; [kept_round|]. intros x. rewrite Hm. by fields.
Qed.

(** After the first word: the words from the next boundary on, and the rest. *)
Lemma memset_rest Q c d n v :
  0 <= v < 256 -> gpr c 4 = v * 16843009 -> gpr c 6 = d -> gpr c 5 = n ->
  0 <= d -> 4 < n -> d + n < 4294967296 -> (forall y, d <= y < d + 4 -> mem c y = v) ->
  (forall c', kept [0; 5; 6] c c' -> (forall x, mem c' x = filled (mem c) d n v x) ->
    ev Q (Return (lr c) c')) ->
  ev Q (Run 79 c).
Proof.
  intros Hv E4 E6 E5 Hd Hn Hb Hm0 HQ. assert (Hu : u8 (v * 16843009) = v) by word_lia.
  assert (0 <= d mod 4 < 4 /\ d mod 4 <= d) as [Hq Hqd] by div_lia.
  do 6 ppc. rewrite E5, E6, andi3. set (q := d mod 4) in *. rewrite !(u32_small (q + n)), srwi2 by lia.
  set (t := (q + n) / 4).
  assert (1 <= t /\ 4 * t + (q + n) mod 4 = q + n) as [Ht Er] by (unfold t; Z.div_mod_to_equations; lia).
  pose proof (Z.mod_pos_bound (q + n) 4). rewrite !(u32_small (t - 1)), (u32_small (d - q)) by lia.
  destruct (Z.eqb_spec (t - 1) 0) as [E1|E1]; cbn.
  - apply (memset_last _ _ (d - q + 4) (q + n) v); next; [by rewrite E4|].
    intros c' Hk Hm. apply HQ; [kept_round|]. intros x. rewrite Hm. fields.
    specialize (Hm0 x). unfold filled. zcases; cbn [andb]; try lia; try done; by rewrite Hm0 by lia.
  - apply (memset_words _ v (Z.to_nat (t - 2)) _ (d - q + 4)); next.
    intros c1 Hk1 Hm1 E6'. apply (memset_last _ _ (d - q + 4 * t) (q + n) v); next.
    { rewrite (kept_gpr _ _ _ Hk1) by by_eval. fields. by rewrite E4. }
    { rewrite E6'. f_equal. lia. }
    { rewrite (kept_gpr _ _ _ Hk1) by by_eval. by fields. }
    intros c2 Hk2 Hm2. assert (Hl : lr c1 = lr c) by (by rewrite (kept_lr _ _ _ Hk1)).
    rewrite Hl. apply HQ.
    { eapply kept_trans; [|eapply kept_weaken; [|exact Hk2]; reflexivity].
      eapply kept_trans; [|eapply kept_weaken; [|exact Hk1]; reflexivity]. auto 20 with ppc. }
    intros x. rewrite Hm2. unfold filled. rewrite Hm1. fields. unfold filled. specialize (Hm0 x).
    zcases; cbn [andb]; try lia; try done; by rewrite Hm0 by lia.
Qed.

Lemma memset_ev Q c d n w :
  gpr c 3 = d -> gpr c 4 = w -> gpr c 5 = n -> 0 <= w < 4294967296 -> 0 <= d -> 0 <= n ->
  d + n < 4294967296 ->
  (forall c', kept [0; 4; 5; 6] c c' -> (forall x, mem c' x = filled (mem c) d n (u8 w) x) ->
    ev Q (Return (lr c) c')) ->
  ev Q (Run 72 c).
Proof.
  intros E3 E4 E5 Hw Hd Hn Hb HQ. pose proof (u8_range w) as Hv.
  do 5 ppc. fold (rep2 (gpr c 4)). fold (rep4 (rep2 (gpr c 4))). rewrite E4, rep_byte, E3, E5 by lia.
  assert (Hu : u8 (u8 w * 16843009) = u8 w) by word_lia.
  assert (Eb : u32 (d + -4 + 4) = d) by (rewrite u32_small; lia).
  destruct (Z.compare_spec n 4) as [->|Hlt|Hgt]; cbn.
  - do 2 ppc. rewrite Eb. apply HQ; [auto 12 with ppc|].
    intros x. fields. by rewrite filled_word by lia.
  - apply (memset_tail _ _ d n (u8 w)); next.
    intros c' Hk Hm. apply HQ; [kept_round|]. intros x. rewrite Hm. by fields.
  - do 2 ppc. rewrite Eb. apply (memset_rest _ _ d n (u8 w)); next.
    { intros y Hy. rewrite filled_word by lia. unfold filled. zcases; cbn [andb]; lia || done. }
    intros c' Hk Hm. apply HQ; [kept_round|]. intros x. rewrite Hm. unfold filled. fields.
    rewrite filled_word by lia. unfold filled. zcases; cbn [andb]; lia || done.
Qed.

(** ** Copies *)

(** [m] is [m0] with the bytes [lo] to [hi] of the block at [s] copied to the block at
    [d]: how far a copy has got, in either direction. *)
Definition copied (m0 : Z -> Z) (d s lo hi : Z) (m : Z -> Z) : Prop := forall x,
  m x = if (d + lo <=? x) && (x <? d + hi) then m0 (x - d + s) else m0 x.

Lemma copied_none m d s k : copied m d s k k m.
Proof. intros x. zcases; cbn [andb]; lia || done. Qed.

(** What is still to be read has not been overwritten, going up and going down. *)
Lemma copied_read_up m0 d s n h m j :
  copied m0 d s 0 h m -> d <= s \/ s + n <= d -> h <= j < n -> m (s + j) = m0 (s + j).
Proof. intros H Ho Hj. rewrite H. zcases; cbn [andb]; lia || done. Qed.

Lemma copied_read_down m0 d s n l m j :
  copied m0 d s l n m -> s <= d \/ d + n <= s -> 0 <= j < l -> m (s + j) = m0 (s + j).
Proof. intros H Ho Hj. rewrite H. zcases; cbn [andb]; lia || done. Qed.

Lemma copied_byte_up m0 d s h m :
  copied m0 d s 0 h m -> 0 <= h -> copied m0 d s 0 (h + 1) (upd m (d + h) (m0 (s + h))).
Proof.
  intros H Hh x. unfold upd. rewrite H. zcases; cbn [andb]; try lia; try done. f_equal. lia.
Qed.

Lemma copied_byte_down m0 d s n l m :
  copied m0 d s l n m -> l <= n -> copied m0 d s (l - 1) n (upd m (d + l - 1) (m0 (s + l - 1))).
Proof.
  intros H Hh x. unfold upd. rewrite H. zcases; cbn [andb]; try lia; try done. f_equal. lia.
Qed.

Lemma storew_loadw m m0 a b x :
  mem_ok m0 -> 0 <= a -> a + 4 <= 4294967296 -> 0 <= b -> b + 4 <= 4294967296 ->
  storew m b (loadw m0 a) x = if (b <=? x) && (x <? b + 4) then m0 (x - b + a) else m x.
Proof.
  intros Hok Ha Ha' Hb Hb'. unfold storew, loadw, upd. rewrite !u32_small by lia.
  pose proof (Hok a) as H0. pose proof (Hok (a + 1)) as H1.
  pose proof (Hok (a + 2)) as H2. pose proof (Hok (a + 3)) as H3. unfold is_byte in *.
  set (w := _ + m0 (a + 3)).
  assert (u8 (w / 16777216) = m0 a /\ u8 (w / 65536) = m0 (a + 1) /\ u8 (w / 256) = m0 (a + 2)
    /\ u8 w = m0 (a + 3)) as (-> & -> & -> & ->) by (unfold w; split_and!; word_lia).
  zcases; cbn [andb]; try lia; try done; f_equal; lia.
Qed.

Lemma copied_word_up m0 d s h m :
  mem_ok m0 -> copied m0 d s 0 h m -> 0 <= h -> 0 <= d -> d + h + 4 <= 4294967296 ->
  0 <= s -> s + h + 4 <= 4294967296 ->
  copied m0 d s 0 (h + 4) (storew m (d + h) (loadw m0 (s + h))).
Proof.
  intros Hok H Hh ? ? ? ? x. rewrite storew_loadw, H by (done || lia).
  zcases; cbn [andb]; try lia; try done. f_equal. lia.
Qed.

Lemma copied_word_down m0 d s n l m :
  mem_ok m0 -> copied m0 d s l n m -> 4 <= l <= n -> 0 <= d -> d + l <= 4294967296 ->
  0 <= s -> s + l <= 4294967296 ->
  copied m0 d s (l - 4) n (storew m (d + l - 4) (loadw m0 (s + l - 4))).
Proof.
  intros Hok H Hh ? ? ? ? x. rewrite storew_loadw, H by (done || lia).
  zcases; cbn [andb]; try lia; try done. f_equal. lia.
Qed.

(** *** Upwards *)

Section Up.
Context (m0 : Z -> Z) (d s n : Z).
Context (Hok : mem_ok m0) (Hov : d <= s \/ s + n <= d).
Context (Hd : 0 <= d) (Hdn : d + n < 4294967296) (Hs : 0 <= s) (Hsn : s + n < 4294967296).

Lemma up_words Q k : forall c h,
  copied m0 d s 0 h (mem c) -> 0 <= h -> h + 8 * Z.of_nat (S k) <= n ->
  gpr c 4 = u32 (s + h - 4) -> gpr c 6 = u32 (d + h - 4) -> ctr c = Z.of_nat (S k) ->
  (forall c', kept [4; 6; 7; 8] c c' -> copied m0 d s 0 (h + 8 * Z.of_nat (S k)) (mem c') ->
    gpr c' 4 = u32 (s + (h + 8 * Z.of_nat (S k)) - 4) ->
    gpr c' 6 = u32 (d + (h + 8 * Z.of_nat (S k)) - 4) -> ev Q (Run 113 c')) ->
  ev Q (Run 108 c).
Proof.
  induction k as [|k IH]; intros c h Hc Hh Hn E4 E6 Ec HQ;
    do 5 ppc; rewrite E4, E6, Ec, u32_pred, !u32_add_l by lia;
    rewrite (u32_small (s + h - 4 + 4)), (u32_small (s + h - 4 + 8)), (u32_small (d + h - 4 + 4)),
      (u32_small (d + h - 4 + 8)) by lia;
    replace (s + h - 4 + 4) with (s + h) by lia; replace (s + h - 4 + 8) with (s + (h + 4)) by lia;
    replace (d + h - 4 + 4) with (d + h) by lia; replace (d + h - 4 + 8) with (d + (h + 4)) by lia;
    rewrite (loadw_ext (mem c) m0 (s + h)), (loadw_ext (mem c) m0 (s + (h + 4)))
      by (lia || (intros j Hj; rewrite <- Z.add_assoc; by apply (copied_read_up _ _ _ n h _ _ Hc); [|lia]));
    (assert (Hc' : copied m0 d s 0 (h + 8)
       (storew (storew (mem c) (d + h) (loadw m0 (s + h))) (d + (h + 4)) (loadw m0 (s + (h + 4)))))
      by (replace (h + 8) with (h + 4 + 4) by lia; repeat apply copied_word_up; done || lia)).
  - cbn. change (8 * Z.of_nat 1) with 8 in HQ. apply HQ; fields; [auto 20 with ppc|done|..];
      rewrite u32_small; lia.
  - rewrite (proj2 (Z.eqb_neq (Z.of_nat (S k)) 0)) by lia. cbn.
    replace (h + 8 * Z.of_nat (S (S k))) with (h + 8 + 8 * Z.of_nat (S k)) in HQ by lia.
    apply (IH _ (h + 8)); next.
    intros c' Hk Hm A B. apply HQ; [kept_round|done..].
Qed.

(** A byte read and stored where the copy has got to. *)
Lemma up_byte h m :
  copied m0 d s 0 h m -> 0 <= h < n -> copied m0 d s 0 (h + 1) (upd m (d + h) (u8 (m (s + h)))).
Proof.
  intros Hc Hh. rewrite (copied_read_up _ _ _ n h _ _ Hc), u8_small by (done || apply Hok || lia).
  by apply copied_byte_up; [|lia].
Qed.

Lemma up_bytes Q k : forall c h,
  copied m0 d s 0 h (mem c) -> 0 <= h -> h + Z.of_nat (S k) = n ->
  gpr c 4 = u32 (s + h - 1) -> gpr c 6 = u32 (d + h - 1) -> ctr c = Z.of_nat (S k) ->
  (forall c', kept [0; 4; 6] c c' -> copied m0 d s 0 n (mem c') -> ev Q (Return (lr c) c')) ->
  ev Q (Run 124 c).
Proof.
  induction k as [|k IH]; intros c h Hc Hh Hn E4 E6 Ec HQ;
    do 3 ppc; rewrite E4, E6, Ec, u32_pred, !u32_back by lia; pose proof (up_byte _ _ Hc ltac:(lia)) as Hc'.
  - cbn. ppc. apply HQ; fields; [auto 20 with ppc|]. by replace n with (h + 1) by lia.
  - rewrite (proj2 (Z.eqb_neq (Z.of_nat (S k)) 0)) by lia. cbn.
    apply (IH _ (h + 1)); next. intros c' Hk Hm. apply HQ; [kept_round|done].
Qed.

(** Bytes up to a boundary of the destination. *)
Lemma up_align Q k : forall c h,
  copied m0 d s 0 h (mem c) -> 0 <= h -> h + Z.of_nat (S k) <= n ->
  gpr c 4 = u32 (s + h - 4) -> gpr c 6 = u32 (d + h - 4) -> ctr c = Z.of_nat (S k) ->
  (forall c', kept [4; 6; 7] c c' -> copied m0 d s 0 (h + Z.of_nat (S k)) (mem c') ->
    gpr c' 4 = u32 (s + (h + Z.of_nat (S k)) - 4) ->
    gpr c' 6 = u32 (d + (h + Z.of_nat (S k)) - 4) -> ev Q (Run 135 c')) ->
  ev Q (Run 130 c).
Proof.
  induction k as [|k IH]; intros c h Hc Hh Hn E4 E6 Ec HQ;
    do 5 ppc; rewrite E4, E6, Ec, u32_pred, !u32_back by lia; pose proof (up_byte _ _ Hc ltac:(lia)) as Hc';
    rewrite !u32_add_l; replace (s + h - 4 + 1) with (s + (h + 1) - 4) by lia;
    replace (d + h - 4 + 1) with (d + (h + 1) - 4) by lia.
  - cbn. apply HQ; fields; [auto 20 with ppc|done..].
  - rewrite (proj2 (Z.eqb_neq (Z.of_nat (S k)) 0)) by lia. cbn.
    replace (h + Z.of_nat (S (S k))) with (h + 1 + Z.of_nat (S k)) in HQ by lia.
    apply (IH _ (h + 1)); next. intros c' Hk Hm A B. apply HQ; [kept_round|done..].
Qed.

(** Fewer than eight bytes: a word if there is one, then bytes. *)
Lemma up_rest Q c h r :
  copied m0 d s 0 h (mem c) -> 0 <= h -> h + r = n -> 0 <= r < 4 -> gpr c 5 = r ->
  gpr c 4 = u32 (s + h - 4) -> gpr c 6 = u32 (d + h - 4) ->
  (forall c', kept [0; 4; 6] c c' -> copied m0 d s 0 n (mem c') -> ev Q (Return (lr c) c')) ->
  ev Q (Run 119 c).
Proof.
  intros Hc Hh Hr Hr4 E5 E4 E6 HQ. do 2 ppc. rewrite E5, s32_small by lia.
  destruct (Z.compare_spec r 0) as [->|?|?]; [cbn|lia|cbn].
  - apply HQ; [auto with ppc|]. fields. by replace n with h by lia.
  - do 3 ppc. rewrite E4, E6, E5, !u32_add_l. destruct (Z.to_nat r) as [|k] eqn:Ek; [lia|].
    apply (up_bytes _ k _ h); next.
    intros c' Hk Hm. apply HQ; [kept_round|done].
Qed.

Lemma up_tail Q c h r :
  copied m0 d s 0 h (mem c) -> 0 <= h -> h + r = n -> 0 <= r < 8 -> gpr c 5 = r ->
  gpr c 4 = u32 (s + h - 4) -> gpr c 6 = u32 (d + h - 4) ->
  (forall c', kept [0; 4; 5; 6] c c' -> copied m0 d s 0 n (mem c') -> ev Q (Return (lr c) c')) ->
  ev Q (Run 114 c).
Proof.
  intros Hc Hh Hr Hr8 E5 E4 E6 HQ. do 2 ppc. rewrite E5.
  destruct (Z.compare_spec r 4) as [->|?|?]; cbn.
  2: { apply (up_rest _ _ h r); next. intros c' Hk Hm. apply HQ; [kept_round|done]. }
  all: do 3 ppc; rewrite E4, E6, E5, !u32_back, loadw_ext with (m' := m0)
    by (lia || (intros j Hj; rewrite <- Z.add_assoc; by apply (copied_read_up _ _ _ n h _ _ Hc); [|lia]));
    pose proof (copied_word_up m0 d s h (mem c) Hok Hc Hh ltac:(lia) ltac:(lia) ltac:(lia) ltac:(lia)) as Hc'.
  - apply (up_rest _ _ (h + 4) 0); next. intros c' Hk Hm. apply HQ; [kept_round|done].
  - apply (up_rest _ _ (h + 4) (r - 4)); next. intros c' Hk Hm. apply HQ; [kept_round|done].
Qed.

(** The word loop and what follows it. *)
Lemma up_main Q c h r :
  copied m0 d s 0 h (mem c) -> 0 <= h -> h + r = n -> 8 <= r -> gpr c 5 = r -> ctr c = r / 8 ->
  gpr c 4 = u32 (s + h - 4) -> gpr c 6 = u32 (d + h - 4) ->
  (forall c', kept [0; 4; 5; 6; 7; 8] c c' -> copied m0 d s 0 n (mem c') -> ev Q (Return (lr c) c')) ->
  ev Q (Run 108 c).
Proof.
  intros Hc Hh Hr Hr8 E5 Ec E4 E6 HQ.
  assert (1 <= r / 8 /\ 8 * (r / 8) + r mod 8 = r /\ 0 <= r mod 8 < 8) as (Hk & Em & Hm)
    by div_lia.
  destruct (Z.to_nat (r / 8)) as [|k] eqn:Ek; [lia|].
  apply (up_words _ k _ h); next.
  intros c1 Hk1 Hc1 A B. ppc. rewrite (kept_gpr _ _ _ Hk1), E5, andi7 by by_eval.
  apply (up_tail _ _ (h + 8 * Z.of_nat (S k)) (r mod 8)); next.
  intros c2 Hk2 Hc2. rewrite (kept_lr _ _ _ Hk1). apply HQ; [|done].
  eapply kept_trans; [eapply kept_weaken; [|exact Hk1]; reflexivity|].
  eapply kept_trans; [|eapply kept_weaken; [|exact Hk2]; reflexivity]. auto 20 with ppc.
Qed.

Lemma memcpy_ev Q c :
  mem c = m0 -> gpr c 3 = d -> gpr c 4 = s -> gpr c 5 = n -> 0 <= n ->
  (forall c', kept [0; 4; 5; 6; 7; 8] c c' -> copied m0 d s 0 n (mem c') -> ev Q (Return (lr c) c')) ->
  ev Q (Run 101 c).
Proof.
  intros Em E3 E4 E5 Hn HQ. do 4 ppc. rewrite E3, E4, E5, srwi3, s32_small by div_lia.
  assert (Hc0 : copied m0 d s 0 0 (mem c)) by (rewrite Em; apply copied_none).
  destruct (Z.compare_spec (n / 8) 0) as [E8|?|E8]; [cbn|div_lia|cbn].
  { apply (up_tail _ _ 0 n); next; [div_lia|].
    intros c' Hk Hm. apply HQ; [kept_round|done]. }
  assert (8 <= n) by div_lia.
  assert (Eq : u32 (d + -4) mod 4 = d mod 4) by word_lia. pose proof (Z.mod_pos_bound d 4).
  do 3 ppc. rewrite andi3, Eq, s32_small by lia.
  destruct (Z.compare_spec (d mod 4) 0) as [Eq0|?|Eq0]; [cbn|lia|cbn].
  { apply (up_main _ _ 0 n); next. intros c' Hk Hm. apply HQ; [kept_round|done]. }
  do 2 ppc. rewrite u32_small by lia. destruct (Z.to_nat (4 - d mod 4)) as [|k] eqn:Ek; [lia|].
  apply (up_align _ k _ 0); next. intros c1 Hk1 Hc1 A B.
  do 3 ppc.
  rewrite !(kept_gpr _ _ _ Hk1) by by_eval. fields. rewrite E5, u32_small, srwi3, s32_small
    by div_lia.
  assert (Hkc : kept [0; 4; 5; 6; 7; 8] c c1).
  { eapply kept_trans; [|eapply kept_weaken; [|exact Hk1]; reflexivity]. auto 20 with ppc. }
  rewrite <- (kept_lr _ _ _ Hkc) in HQ.
  destruct (Z.compare_spec ((n - (4 - d mod 4)) / 8) 0) as [E9|?|E9]; [cbn|div_lia|cbn].
  - apply (up_tail _ _ (Z.of_nat (S k)) (n - Z.of_nat (S k))); next; [div_lia|].
    intros c2 Hk2 Hc2. apply HQ; [|done]. eapply kept_trans; [exact Hkc|]. kept_round.
  - do 2 ppc. apply (up_main _ _ (Z.of_nat (S k)) (n - Z.of_nat (S k))); next;
      [div_lia|].
    intros c2 Hk2 Hc2. apply HQ; [|done]. eapply kept_trans; [exact Hkc|]. kept_round.
Qed.
End Up.

(** *** Downwards: [l] bytes are left *)

Section Down.
Context (m0 : Z -> Z) (d s n : Z).
Context (Hok : mem_ok m0) (Hov : s <= d \/ d + n <= s).
Context (Hd : 0 <= d) (Hdn : d + n < 4294967296) (Hs : 0 <= s) (Hsn : s + n < 4294967296).

Lemma down_word l m :
  copied m0 d s l n m -> 4 <= l <= n ->
  loadw m (s + l - 4) = loadw m0 (s + l - 4)
  /\ copied m0 d s (l - 4) n (storew m (d + l - 4) (loadw m0 (s + l - 4))).
Proof.
  intros Hc Hl. split; [|apply copied_word_down; done || lia].
  apply loadw_ext; [lia..|]. intros j Hj. replace (s + l - 4 + j) with (s + (l - 4 + j)) by lia.
  by apply (copied_read_down _ _ _ n l _ _ Hc); [|lia].
Qed.

Lemma down_byte l m :
  copied m0 d s l n m -> 1 <= l <= n ->
  copied m0 d s (l - 1) n (upd m (d + l - 1) (u8 (m (s + l - 1)))).
Proof.
  intros Hc Hl. replace (s + l - 1) with (s + (l - 1)) by lia.
  rewrite (copied_read_down _ _ _ n l _ _ Hc), u8_small by (done || apply Hok || lia).
  replace (s + (l - 1)) with (s + l - 1) by lia. apply copied_byte_down; [done|lia].
Qed.

Lemma down_words Q k : forall c l,
  copied m0 d s l n (mem c) -> l <= n -> 8 * Z.of_nat (S k) <= l ->
  gpr c 4 = s + l -> gpr c 6 = d + l -> ctr c = Z.of_nat (S k) ->
  (forall c', kept [4; 6; 7; 8] c c' -> copied m0 d s (l - 8 * Z.of_nat (S k)) n (mem c') ->
    gpr c' 4 = s + (l - 8 * Z.of_nat (S k)) -> gpr c' 6 = d + (l - 8 * Z.of_nat (S k)) ->
    ev Q (Run 152 c')) ->
  ev Q (Run 147 c).
Proof.
  induction k as [|k IH]; intros c l Hc Hln Hl E4 E6 Ec HQ;
    do 5 ppc; rewrite E4, E6, Ec, u32_pred by lia; rewrite !u32_small by lia;
    destruct (down_word l (mem c) Hc ltac:(lia)) as [E1 Hc1];
    assert (E2 : loadw (mem c) (s + (l - 4) - 4) = loadw m0 (s + (l - 4) - 4))
      by (apply loadw_ext; [lia..|]; intros j Hj;
          replace (s + (l - 4) - 4 + j) with (s + (l - 4 - 4 + j)) by lia;
          by apply (copied_read_down _ _ _ n l _ _ Hc); [|lia]);
    destruct (down_word (l - 4) _ Hc1 ltac:(lia)) as [_ Hc2];
    replace (s + l + -4) with (s + l - 4) by lia; replace (d + l + -4) with (d + l - 4) by lia;
    replace (s + l + -8) with (s + (l - 4) - 4) by lia; replace (d + l + -8) with (d + (l - 4) - 4) by lia;
    rewrite E1, E2.
  - cbn. change (8 * Z.of_nat 1) with 8 in HQ. apply HQ; fields; [auto 20 with ppc| |lia..].
    by replace (l - 8) with (l - 4 - 4) by lia.
  - rewrite (proj2 (Z.eqb_neq (Z.of_nat (S k)) 0)) by lia. cbn.
    replace (l - 8 * Z.of_nat (S (S k))) with (l - 4 - 4 - 8 * Z.of_nat (S k)) in HQ by lia.
    apply (IH _ (l - 4 - 4)); next. intros c' Hk Hm A B. apply HQ; [kept_round|done..].
Qed.

Lemma down_bytes Q k : forall c,
  copied m0 d s (Z.of_nat (S k)) n (mem c) -> Z.of_nat (S k) <= n ->
  gpr c 4 = s + Z.of_nat (S k) -> gpr c 6 = d + Z.of_nat (S k) -> ctr c = Z.of_nat (S k) ->
  (forall c', kept [0; 4; 6] c c' -> copied m0 d s 0 n (mem c') -> ev Q (Return (lr c) c')) ->
  ev Q (Run 161 c).
Proof.
  induction k as [|k IH]; intros c Hc Hl E4 E6 Ec HQ;
    pose proof (down_byte _ _ Hc ltac:(lia)) as Hc';
    do 3 ppc; rewrite E4, E6, Ec, u32_pred by lia; rewrite !u32_small by lia.
  - cbn. ppc. apply HQ; fields; [auto 20 with ppc|done].
  - rewrite (proj2 (Z.eqb_neq (Z.of_nat (S k)) 0)) by lia. cbn.
    replace (Z.of_nat (S (S k)) - 1) with (Z.of_nat (S k)) in Hc' by lia.
    apply IH; next. intros c' Hk Hm. apply HQ; [kept_round|done].
Qed.

Lemma down_align Q k : forall c l,
  copied m0 d s l n (mem c) -> l <= n -> Z.of_nat (S k) <= l ->
  gpr c 4 = s + l -> gpr c 6 = d + l -> ctr c = Z.of_nat (S k) ->
  (forall c', kept [4; 6; 7] c c' -> copied m0 d s (l - Z.of_nat (S k)) n (mem c') ->
    gpr c' 4 = s + (l - Z.of_nat (S k)) -> gpr c' 6 = d + (l - Z.of_nat (S k)) -> ev Q (Run 169 c')) ->
  ev Q (Run 166 c).
Proof.
  induction k as [|k IH]; intros c l Hc Hln Hl E4 E6 Ec HQ;
    pose proof (down_byte _ _ Hc ltac:(lia)) as Hc';
    do 3 ppc; rewrite E4, E6, Ec, u32_pred by lia; rewrite !u32_small by lia.
  - cbn. change (Z.of_nat 1) with 1 in HQ. apply HQ; fields; [auto 20 with ppc|done|lia..].
  - rewrite (proj2 (Z.eqb_neq (Z.of_nat (S k)) 0)) by lia. cbn.
    replace (l - Z.of_nat (S (S k))) with (l - 1 - Z.of_nat (S k)) in HQ by lia.
    apply (IH _ (l - 1)); next. intros c' Hk Hm A B. apply HQ; [kept_round|done..].
Qed.

Lemma down_rest Q c l :
  copied m0 d s l n (mem c) -> 0 <= l <= n -> l < 4 -> gpr c 5 = l -> gpr c 4 = s + l -> gpr c 6 = d + l ->
  (forall c', kept [0; 4; 6] c c' -> copied m0 d s 0 n (mem c') -> ev Q (Return (lr c) c')) ->
  ev Q (Run 158 c).
Proof.
  intros Hc Hl Hl4 E5 E4 E6 HQ. do 2 ppc. rewrite E5, s32_small by lia.
  destruct (Z.compare_spec l 0) as [->|?|?]; [cbn|lia|cbn].
  - apply HQ; [auto with ppc|done].
  - ppc. destruct (Z.to_nat l) as [|k] eqn:Ek; [lia|].
    assert (l = Z.of_nat (S k)) as -> by lia.
    apply (down_bytes _ k); next. intros c' Hk Hm. apply HQ; [kept_round|done].
Qed.

Lemma down_tail Q c l :
  copied m0 d s l n (mem c) -> 0 <= l <= n -> l < 8 -> gpr c 5 = l -> gpr c 4 = s + l -> gpr c 6 = d + l ->
  (forall c', kept [0; 4; 5; 6] c c' -> copied m0 d s 0 n (mem c') -> ev Q (Return (lr c) c')) ->
  ev Q (Run 153 c).
Proof.
  intros Hc Hl Hl8 E5 E4 E6 HQ. do 2 ppc. rewrite E5.
  destruct (Z.ltb_spec l 4) as [Hlt|Hge].
  { rewrite (proj2 (Z.compare_lt_iff l 4)) by lia. cbn.
    apply (down_rest _ _ l); next. intros c' Hk Hm. apply HQ; [kept_round|done]. }
  destruct (down_word l (mem c) Hc ltac:(lia)) as [E1 Hc1].
  destruct (Z.compare_spec l 4) as [El|?|?]; [|lia|]; cbn; do 3 ppc;
    rewrite E4, E6, E5, !u32_small by lia;
    change (s + l + -4) with (s + l - 4); change (d + l + -4) with (d + l - 4); rewrite E1;
    (apply (down_rest _ _ (l - 4)); next; intros c' Hk Hm; (apply HQ; [kept_round|done])).
Qed.

Lemma down_main Q c l :
  copied m0 d s l n (mem c) -> 8 <= l <= n -> gpr c 5 = l -> ctr c = l / 8 ->
  gpr c 4 = s + l -> gpr c 6 = d + l ->
  (forall c', kept [0; 4; 5; 6; 7; 8] c c' -> copied m0 d s 0 n (mem c') -> ev Q (Return (lr c) c')) ->
  ev Q (Run 147 c).
Proof.
  intros Hc Hl E5 Ec E4 E6 HQ.
  assert (1 <= l / 8 /\ 8 * (l / 8) + l mod 8 = l /\ 0 <= l mod 8 < 8) as (Hk & Em & Hm) by div_lia.
  destruct (Z.to_nat (l / 8)) as [|k] eqn:Ek; [lia|].
  apply (down_words _ k _ l); next.
  intros c1 Hk1 Hc1 A B. ppc. rewrite (kept_gpr _ _ _ Hk1), E5, andi7 by by_eval.
  replace (l - 8 * Z.of_nat (S k)) with (l mod 8) in * by lia.
  apply (down_tail _ _ (l mod 8)); next.
  intros c2 Hk2 Hc2. rewrite (kept_lr _ _ _ Hk1). apply HQ; [|done].
  eapply kept_trans; [eapply kept_weaken; [|exact Hk1]; reflexivity|]. kept_round.
Qed.

Lemma backwards_ev Q c :
  mem c = m0 -> gpr c 3 = d -> gpr c 4 = s -> gpr c 5 = n -> 0 <= n ->
  (forall c', kept [0; 4; 5; 6; 7; 8] c c' -> copied m0 d s 0 n (mem c') -> ev Q (Return (lr c) c')) ->
  ev Q (Run 140 c).
Proof.
  intros Em E3 E4 E5 Hn HQ. do 4 ppc. rewrite E3, E4, E5, srwi3, s32_small, !u32_small by (div_lia || lia).
  assert (Hc0 : copied m0 d s n n (mem c)) by (rewrite Em; apply copied_none).
  destruct (Z.compare_spec (n / 8) 0) as [E8|?|E8]; [cbn|div_lia|cbn].
  { apply (down_tail _ _ n); next; [div_lia|]. intros c' Hk Hm. apply HQ; [kept_round|done]. }
  assert (8 <= n) by div_lia. pose proof (Z.mod_pos_bound (d + n) 4).
  do 3 ppc. rewrite andi3, s32_small by lia.
  destruct (Z.compare_spec ((d + n) mod 4) 0) as [Eq0|?|Eq0]; [cbn|lia|cbn].
  { apply (down_main _ _ n); next. intros c' Hk Hm. apply HQ; [kept_round|done]. }
  ppc. destruct (Z.to_nat ((d + n) mod 4)) as [|k] eqn:Ek; [lia|].
  apply (down_align _ k _ n); next. intros c1 Hk1 Hc1 A B.
  do 3 ppc.
  rewrite !(kept_gpr _ _ _ Hk1) by by_eval. fields. rewrite E5, u32_small, srwi3, s32_small by (div_lia || lia).
  assert (Hkc : kept [0; 4; 5; 6; 7; 8] c c1).
  { eapply kept_trans; [|eapply kept_weaken; [|exact Hk1]; reflexivity]. auto 20 with ppc. }
  rewrite <- (kept_lr _ _ _ Hkc) in HQ.
  replace ((d + n) mod 4) with (Z.of_nat (S k)) by lia.
  destruct (Z.compare_spec ((n - Z.of_nat (S k)) / 8) 0) as [E9|?|E9]; [cbn|div_lia|cbn].
  - apply (down_tail _ _ (n - Z.of_nat (S k))); next; [div_lia|].
    intros c2 Hk2 Hc2. apply HQ; [|done]. eapply kept_trans; [exact Hkc|]. kept_round.
  - do 2 ppc. apply (down_main _ _ (n - Z.of_nat (S k))); next; [div_lia|].
    intros c2 Hk2 Hc2. apply HQ; [|done]. eapply kept_trans; [exact Hkc|]. kept_round.
Qed.
End Down.
