(* ===== verification/PpcStringCorrect.v ===== *)
(** * What the string routines do (loader/string.S)

    Each routine of string.S, called as C code calls it - arguments in r3 to r5, the
    return address in LR - does what the models of [CString] say the C code gets from
    it.  A call changes the volatile registers named, CTR, two condition fields and
    the memory stated, and nothing else. *)
From Stdlib Require Import ZArith Lia Ascii.
From stdpp Require Import prelude strings.
From S2P Require Import Prelude CString Ppc PpcString PpcCopy.

(** A call of a routine of string.S. *)
Definition calls (s : string) (c : cpu) (Q : cpu -> Prop) : Prop := returns string_code (entry s) c Q.

(** Start on the code of a routine, and end at its return. *)
Ltac routine :=
  unfold calls; apply returns_ev;
  match goal with
  | |- eventually _ _ (Run (entry ?s) _) => let e := eval vm_compute in (entry s) in change (entry s) with e
  end.

(** ** Reading strings *)

(** C16: The comparison routines of string.S, run on two strings in memory, return the
    length and the differences that [strlen], [strcmp] and [strncmp] of the model give,
    as 32-bit words, and write no memory. *)
Theorem string_compare_refines c s1 s2 :
  cstring_at (mem c) (gpr c r3) s1 -> cstring_at (mem c) (gpr c r4) s2 ->
  calls "strlen" c (fun c' => gpr c' r3 = strlen s1 /\ mem c' = mem c /\ kept [r0; r3; r4] c c')
  /\ calls "strcmp" c (fun c' => gpr c' r3 = u32 (strcmp s1 s2) /\ mem c' = mem c
       /\ kept [r0; r3; r4; r5] c c')
  /\ (0 < gpr c r5 < 2147483648 ->
      calls "strncmp" c (fun c' => gpr c' r3 = u32 (strncmp s1 s2 (Z.to_nat (gpr c r5)))
        /\ mem c' = mem c /\ kept [r0; r3; r4; r6] c c')).
Proof.
  regs. intros H1 H2. split_and!; [| |intros Hn].
  - routine. ppc. eapply (scan_loop 50 4 _ s1); try reflexivity; [by left|done|].
    intros c' Hk Hm E. do 2 ppc. rewrite (kept_lr _ _ _ Hk), (kept_gpr _ _ _ Hk 3), E by by_eval.
    apply ev_return. split_and!; [|done|].
    + fields. replace (gpr c 3 + strlen s1 - gpr c 3) with (strlen s1) by lia.
      apply u32_small. destruct H1 as (_ & ? & ? & _). unfold strlen in *. lia.
    + apply kept_set_gpr; [auto with ppc|]. kept_round.
  - routine. do 2 ppc. eapply (strcmp_loop _ s1 s2); [done|done|by fields|by fields|].
    intros c' Hk Hm E. apply ev_return. split_and!; [done|done|]. kept_round.
  - routine. do 4 ppc. rewrite s32_small by lia.
    destruct (Z.compare_spec (gpr c 5) 0); [lia..|]. cbn. ppc.
    destruct (Z.to_nat (gpr c 5)) as [|n] eqn:En; [lia|].
    eapply (strncmp_loop _ n s1 s2); next.
    intros c' Hk Hm E. apply ev_return. split_and!; [done|done|]. kept_round.
Qed.

(** [memcmp] of string.S over two blocks in memory returns the difference of the
    first two bytes that differ, as a 32-bit word, or zero; for a count of zero, and
    for one of 2^31 and more, it compares nothing and returns the address of the first
    block, as [strncmp] does for a count of zero. *)
Theorem memcmp_refines c b1 b2 :
  bytes_ok b1 -> bytes_ok b2 -> length b1 = length b2 -> Z.of_nat (length b1) < 2147483648 ->
  bytes_at (mem c) (gpr c r3) b1 -> bytes_at (mem c) (gpr c r4) b2 ->
  0 <= gpr c r3 -> gpr c r3 + Z.of_nat (length b1) <= 4294967296 ->
  0 <= gpr c r4 -> gpr c r4 + Z.of_nat (length b1) <= 4294967296 ->
  (gpr c r5 = Z.of_nat (length b1) -> b1 <> [] ->
   calls "memcmp" c (fun c' => gpr c' r3 = u32 (memcmp b1 b2 (length b1)) /\ mem c' = mem c
     /\ kept [r0; r3; r4; r6] c c'))
  /\ (s32 (gpr c r5) <= 0 ->
      calls "memcmp" c (fun c' => gpr c' r3 = gpr c r3 /\ mem c' = mem c /\ kept [] c c'))
  /\ (gpr c r5 = 0 ->
      calls "strncmp" c (fun c' => gpr c' r3 = gpr c r3 /\ mem c' = mem c /\ kept [r4; r6] c c')).
Proof.
  regs. intros O1 O2 El Hl M1 M2 A1 A1' A2 A2'. split_and!.
  - intros En Hne. routine. do 2 ppc. rewrite En, s32_small by lia.
    destruct (length b1) as [|n] eqn:Eb; [by destruct b1|].
    destruct (Z.compare_spec (Z.of_nat (S n)) 0); [lia..|]. cbn. do 3 ppc.
    eapply (memcmp_loop _ n b1 b2); next.
    intros c' Hk Hm E. apply ev_return. split_and!; [done|done|]. kept_round.
  - intros En. routine. do 2 ppc. destruct (Z.compare_spec (s32 (gpr c 5)) 0); [| |lia]; cbn;
      (apply ev_return; split_and!; [done|done|auto with ppc]).
  - intros En. routine. do 4 ppc. rewrite En. cbn.
    apply ev_return; split_and!; [done|done|auto 20 with ppc].
Qed.

(** C17: [strchr] and [strrchr] of string.S return the address of the suffix that the
    models find, NULL when there is none: [strchr] the first occurrence, the
    terminator itself when asked for NUL; [strrchr] the last, and NULL when asked for
    the terminator. *)
Theorem string_search_refines c s k :
  cstring_at (mem c) (gpr c r3) s -> gpr c r4 = k -> 0 <= k < 256 ->
  calls "strchr" c (fun c' => gpr c' r3 = ptr_to (gpr c r3) s (strchr s k) /\ mem c' = mem c
    /\ kept [r0; r3] c c')
  /\ calls "strrchr" c (fun c' => gpr c' r3 = ptr_to (gpr c r3) s (strrchr s k) /\ mem c' = mem c
       /\ kept [r0; r3; r5] c c')
  /\ (k = 0 -> ptr_to (gpr c r3) s (strchr s k) = gpr c r3 + strlen s /\ strrchr s k = None).
Proof.
  regs. intros H Ek Hk. split_and!; [| |intros ->; split].
  - routine. ppc. eapply (strchr_loop _ s k); next; [by rewrite Ek, s32_small by lia|].
    intros c' Hkp Hm E. apply ev_return. split_and!; [done|done|]. kept_round.
  - routine. do 2 ppc. eapply (strrchr_loop _ s k _ (gpr c 3) 0); next; [by rewrite Ek, s32_small by lia|].
    intros c' Hkp Hm E. apply ev_return. split_and!; [|done|kept_round].
    rewrite E. by destruct (strrchr s k).
  - destruct H as (Hok & _). assert (strchr s 0 = Some []) as ->; [|unfold ptr_to, strlen; simpl; lia].
    induction Hok as [|x s Hx _ IH]; [done|]. cbn. rewrite (proj2 (Z.eqb_neq x 0)) by lia. done.
  - destruct H as (Hok & _). unfold strrchr.
    induction Hok as [|x s Hx _ IH]; [done|]. cbn. by rewrite (proj2 (Z.eqb_neq x 0)) by lia.
Qed.

(** ** Writing strings *)

(** [strcpy], [strcat] and [strncpy] of string.S store at the destination what the
    C code relies on - the string with its NUL, the same after the string already
    there, at most [n] bytes of it without padding - change no other byte, and return
    the destination, provided the store does not run into source bytes still to be
    read. *)
Theorem string_copy_refines c s t :
  cstring_at (mem c) (gpr c r4) s -> 0 <= gpr c r3 ->
  (apart (gpr c r3) (gpr c r4) s -> gpr c r3 + strlen s < 4294967296 ->
   calls "strcpy" c (fun c' => (forall x, mem c' x = write (mem c) (gpr c r3) (s ++ [0]) x)
     /\ kept [r0; r4; r5] c c'))
  /\ (cstring_at (mem c) (gpr c r3) t -> apart (gpr c r3 + strlen t) (gpr c r4) s ->
      gpr c r3 + strlen t + strlen s < 4294967296 ->
      calls "strcat" c (fun c' => (forall x, mem c' x = write (mem c) (gpr c r3 + strlen t) (s ++ [0]) x)
        /\ kept [r0; r4; r5] c c'))
  /\ (apart (gpr c r3) (gpr c r4) s -> 0 <= gpr c r5 < 2147483648 -> gpr c r3 + gpr c r5 <= 4294967296 ->
      calls "strncpy" c (fun c' =>
        (forall x, mem c' x = write (mem c) (gpr c r3) (strncpy s (Z.to_nat (gpr c r5))) x)
        /\ kept [r0; r4; r6] c c')).
Proof.
  regs. intros Hs Hd. split_and!.
  - intros Ha Hb. routine. do 2 ppc.
    eapply (copy_loop 2 _ s eq_refl eq_refl eq_refl eq_refl _ (gpr c 4) (gpr c 3)); next.
    intros c' Hk Hm. ppc. rewrite (kept_lr _ _ _ Hk). apply ev_return. split; [done|]. kept_round.
  - intros Ht Ha Hb. routine. do 2 ppc.
    eapply (scan_loop 19 5 _ t (or_intror eq_refl) eq_refl eq_refl eq_refl _ (gpr c 3)); next.
    intros c1 Hk1 Hm1 E1. ppc. rewrite E1.
    assert (0 <= strlen t) by (unfold strlen; lia).
    eapply (copy_loop 23 _ s eq_refl eq_refl eq_refl eq_refl _ (gpr c 4) (gpr c 3 + strlen t)); next;
      [by rewrite Hm1|by rewrite (kept_gpr _ _ _ Hk1) by by_eval|].
    intros c2 Hk2 Hm2. ppc. rewrite (kept_lr _ _ _ Hk2). fields. rewrite (kept_lr _ _ _ Hk1).
    apply ev_return. split.
    + intros x. rewrite Hm2. apply write_ext. fields. by rewrite Hm1.
    + eapply kept_trans; [|eapply kept_weaken; [|exact Hk2]; reflexivity]. apply kept_set_gpr; [auto with ppc|].
      kept_round.
  - intros Ha Hn Hb. routine. do 2 ppc. rewrite s32_small by lia.
    destruct (Z.compare_spec (gpr c 5) 0) as [E|?|?]; [cbn|lia|cbn].
    + apply ev_return. split; [|auto with ppc]. intros x. fields. rewrite E. change (Z.to_nat 0) with O.
      replace (strncpy s 0) with (@nil Z) by (by destruct s). by rewrite write_nil.
    + do 3 ppc. destruct (Z.to_nat (gpr c 5)) as [|n] eqn:En; [lia|].
      eapply (strncpy_loop _ n s _ (gpr c 4) (gpr c 3)); next.
      intros c' Hk Hm. apply ev_return. split; [done|]. kept_round.
Qed.

(** ** Blocks of memory *)

(** A block inside the address space. *)
Definition block_ok (a n : Z) : Prop := 0 <= a /\ 0 <= n /\ a + n < 4294967296.

(** Memory with the block at [s] copied over the block at [d]. *)
Definition moved (m : Z -> Z) (d s n : Z) : Z -> Z := fun x =>
  if (d <=? x) && (x <? d + n) then m (x - d + s) else m x.

Lemma copied_moved m0 d s n m : copied m0 d s 0 n m -> forall x, m x = moved m0 d s n x.
Proof. intros H x. rewrite H. unfold moved. by rewrite Z.add_0_r. Qed.

(** C7: [memmove] of string.S leaves at the destination the bytes the source had,
    however the two blocks overlap and whatever their alignment and length, leaves
    every other byte as it was and returns the destination. *)
Theorem memmove_moves c d s n :
  mem_ok (mem c) -> gpr c r3 = d -> gpr c r4 = s -> gpr c r5 = n -> block_ok d n -> block_ok s n ->
  calls "memmove" c (fun c' => (forall x, mem c' x = moved (mem c) d s n x) /\ gpr c' r3 = d
    /\ kept [r0; r4; r5; r6; r7; r8] c c').
Proof.
  regs. intros Hok E3 E4 E5 (Hd & Hn & Hdn) (Hs & _ & Hsn). routine. do 2 ppc. rewrite E3, E4.
  assert (Hfin : forall c1 c' : cpu, kept [0; 4; 5; 6; 7; 8] c c1 ->
    kept [0; 4; 5; 6; 7; 8] c1 c' -> copied (mem c) d s 0 n (mem c') ->
    (forall x, mem c' x = moved (mem c) d s n x) /\ gpr c' 3 = d /\ kept [0; 4; 5; 6; 7; 8] c c').
  { intros c1 c' K1 K2 Hc. split_and!; [by apply copied_moved| |by eapply kept_trans].
    by rewrite (kept_gpr _ _ _ K2), (kept_gpr _ _ _ K1) by by_eval. }
  destruct (Z.compare_spec d s) as [E|E|E]; cbn.
  3: { eapply (backwards_ev (mem c) d s n); fields; try done; try lia.
       intros c' Hk Hc. apply ev_return. eapply Hfin; [|exact Hk|done]. auto with ppc. }
  all: eapply (memcpy_ev (mem c) d s n); fields; try done; try lia;
    intros c' Hk Hc; apply ev_return; eapply Hfin; [|exact Hk|done]; auto with ppc.
Qed.

(** [memcpy] of string.S, and [bcopy] with its arguments the other way round, copy
    a block when the destination starts below the source or past its end; what they
    copy is then what [memmove] would. *)
Theorem memcpy_copies c d s n :
  mem_ok (mem c) -> gpr c r5 = n -> block_ok d n -> block_ok s n -> d <= s \/ s + n <= d ->
  (gpr c r3 = d -> gpr c r4 = s ->
   calls "memcpy" c (fun c' => (forall x, mem c' x = moved (mem c) d s n x) /\ gpr c' r3 = d
     /\ kept [r0; r4; r5; r6; r7; r8] c c'))
  /\ (gpr c r3 = s -> gpr c r4 = d ->
      calls "bcopy" c (fun c' => (forall x, mem c' x = moved (mem c) d s n x)
        /\ kept [r0; r3; r4; r5; r6; r7; r8] c c')).
Proof.
  regs. intros Hok E5 (Hd & Hn & Hdn) (Hs & _ & Hsn) Hov. split; intros E3 E4; routine.
  - eapply (memcpy_ev (mem c) d s n); try done. intros c' Hk Hc. apply ev_return.
    split_and!; [by apply copied_moved| |done]. by rewrite (kept_gpr _ _ _ Hk) by by_eval.
  - do 4 ppc. cbn. eapply (memcpy_ev (mem c) d s n); fields; try done.
    intros c' Hk Hc. apply ev_return. split; [by apply copied_moved|]. kept_round.
Qed.

(** [memset] of string.S sets every byte of a block, and no other, to the low byte
    of its argument, whatever the alignment and length of the block, and returns the
    block; [__bzero] clears one. *)
Theorem memset_fills c d n :
  gpr c r3 = d -> block_ok d n -> 0 <= gpr c r4 < 4294967296 ->
  (gpr c r5 = n ->
   calls "memset" c (fun c' => (forall x, mem c' x = filled (mem c) d n (u8 (gpr c r4)) x)
     /\ gpr c' r3 = d /\ kept [r0; r4; r5; r6] c c'))
  /\ (gpr c r4 = n ->
      calls "__bzero" c (fun c' => (forall x, mem c' x = filled (mem c) d n 0 x)
        /\ kept [r0; r4; r5; r6] c c')).
Proof.
  regs. intros E3 (Hd & Hn & Hdn) Hw. split; intros En; routine.
  - eapply (memset_ev _ c d n (gpr c 4)); try done. intros c' Hk Hm. apply ev_return.
    split_and!; [done| |done]. by rewrite (kept_gpr _ _ _ Hk) by by_eval.
  - do 3 ppc. cbn. eapply (memset_ev _ _ d n 0); fields; try done.
    intros c' Hk Hm. apply ev_return. split; [done|]. kept_round.
Qed.

(** ** Witnesses *)

(** ["boot: linux"] at 4096 and ["boot"] at 4108. *)
Definition two_strings : list Z := str "boot: linux" ++ [0] ++ str "boot" ++ [0].
Definition on_two (n : Z) : cpu := call_with two_strings 4096 4108 n.

Lemma on_two_first n : cstring_at (mem (on_two n)) 4096 (str "boot: linux").
Proof. apply cstring_at_eval. by_eval. Qed.
Lemma on_two_second n : cstring_at (mem (on_two n)) 4108 (str "boot").
Proof. apply cstring_at_eval. by_eval. Qed.

Lemma string_compare_refines_witness :
  calls "strcmp" (on_two 4) (fun c' => gpr c' r3 = u32 58 /\ mem c' = mem (on_two 4)
    /\ kept [r0; r3; r4; r5] (on_two 4) c').
Proof. exact (proj1 (proj2 (string_compare_refines (on_two 4) _ _ (on_two_first 4) (on_two_second 4)))). Defined.

Lemma memcmp_refines_witness :
  calls "memcmp" (on_two 4) (fun c' => gpr c' r3 = u32 0 /\ mem c' = mem (on_two 4)
    /\ kept [r0; r3; r4; r6] (on_two 4) c').
Proof.
  refine (proj1 (memcmp_refines (on_two 4) (str "boot") (str "boot") _ _ _ _ _ _ _ _ _ _) _ _);
    first [by_eval|apply bytes_at_eval; by_eval].
Defined.

Lemma string_search_refines_witness :
  calls "strrchr" (call_with two_strings 4096 111 0) (fun c' => gpr c' r3 = 4098
    /\ mem c' = mem (on_two 4) /\ kept [r0; r3; r5] (call_with two_strings 4096 111 0) c').
Proof.
  refine (proj1 (proj2 (string_search_refines (call_with two_strings 4096 111 0) (str "boot: linux") 111
    (on_two_first 0) eq_refl _))). lia.
Defined.

Lemma string_copy_refines_witness :
  calls "strcat" (on_two 0) (fun c' =>
    (forall x, mem c' x = write (mem (on_two 0)) (4096 + strlen (str "boot: linux")) (str "boot" ++ [0]) x)
    /\ kept [r0; r4; r5] (on_two 0) c').
Proof.
  refine (proj1 (proj2 (string_copy_refines (on_two 0) (str "boot") (str "boot: linux") (on_two_second 0) _))
    (on_two_first 0) _ _); [by_eval|left; by_eval|by_eval].
Defined.

(** Thirteen bytes moved up by three over themselves, from an odd address. *)
Definition moving : cpu := call_with (str "0123456789abcdefghij") 4100 4097 13.

Lemma moving_ok : mem_ok (mem moving).
Proof. apply call_with_ok. by_eval. Qed.

Example memmove_run :
  match run string_code 100 (Run (entry "memmove") moving) with
  | Some (Return a c) =>
      a = 77777 /\ map (fun i => mem c (4096 + Z.of_nat i)) (seq 0 20) = str "0123123456789abcdhij"
  | _ => False
  end.
Proof. vm_compute. done. Qed.

Lemma memmove_moves_witness :
  calls "memmove" moving (fun c' => (forall x, mem c' x = moved (mem moving) 4100 4097 13 x)
    /\ gpr c' r3 = 4100 /\ kept [r0; r4; r5; r6; r7; r8] moving c').
Proof. refine (memmove_moves moving 4100 4097 13 moving_ok eq_refl eq_refl eq_refl _ _); by_eval. Defined.

Lemma memcpy_copies_witness :
  calls "bcopy" moving (fun c' => (forall x, mem c' x = moved (mem moving) 4097 4100 13 x)
    /\ kept [r0; r3; r4; r5; r6; r7; r8] moving c').
Proof.
  refine (proj2 (memcpy_copies moving 4097 4100 13 moving_ok eq_refl _ _ _) eq_refl eq_refl);
    [by_eval|by_eval|left; by_eval].
Defined.

(** Six bytes from an odd address: one word, then bytes. *)
Lemma memset_fills_witness :
  calls "memset" (call_with [] 4097 0x141 6) (fun c' =>
    (forall x, mem c' x = filled (mem (call_with [] 0 0 0)) 4097 6 65 x)
    /\ gpr c' r3 = 4097 /\ kept [r0; r4; r5; r6] (call_with [] 4097 0x141 6) c').
Proof. refine (proj1 (memset_fills (call_with [] 4097 0x141 6) 4097 6 eq_refl _ _) eq_refl); by_eval. Defined.
