(* ===== verification/PpcStart.v ===== *)
(** * Start-up, jumps and register saving (crt0.S, setjmp.S, crtsavres.S, cache.S)

    The other assembly files, line by line, and the runs of their straight-line parts:
    lists of registers stored to and loaded from a block of words. *)
From Stdlib Require Import ZArith Lia Ascii.
From stdpp Require Import prelude strings.
From S2P Require Import Prelude Ppc.

#[local] Open Scope asm_scope.

(** ** cache.S *)

Definition flush_cache_text : list line :=
  <{ Global "flush_cache"; addi 4 4 0x1f; rlwinm true 4 4 27 5 31; mtctr 4; beqlr 0; Lbl 1;
     dcbf 0 3; icbi 0 3; addi 3 3 0x20; bdnz (Bwd 1); sync false; isync; blr }>.

(** ** setjmp.S *)

Definition setjmp_text : list line :=
  <{ Global "setjmp"; mflr r0; stw r1 0 r3; stw r0 4 r3; stw r14 8 r3; stw r15 12 r3;
     stw r16 16 r3; stw r17 20 r3; stw r18 24 r3; stw r19 28 r3; stw r20 32 r3; stw r21 36 r3;
     stw r22 40 r3; stw r23 44 r3; stw r24 48 r3; stw r25 52 r3; stw r26 56 r3; stw r27 60 r3;
     stw r28 64 r3; stw r29 68 r3; stw r30 72 r3; stw r31 76 r3; li r3 0; blr }>.

Definition longjmp_text : list line :=
  <{ Global "longjmp"; cmpwi cr0 r4 0; bne 0 (Fwd 1); li r4 1; Lbl 1; lwz r1 0 r3; lwz r0 4 r3;
     lwz r14 8 r3; lwz r15 12 r3; lwz r16 16 r3; lwz r17 20 r3; lwz r18 24 r3; lwz r19 28 r3;
     lwz r20 32 r3; lwz r21 36 r3; lwz r22 40 r3; lwz r23 44 r3; lwz r24 48 r3; lwz r25 52 r3;
     lwz r26 56 r3; lwz r27 60 r3; lwz r28 64 r3; lwz r29 68 r3; lwz r30 72 r3; lwz r31 86 r3;
     mtlr r0; mr r3 r4; blr }>.

(** ** crtsavres.S

    One routine with an entry for every register; [_x] also returns for its caller. *)

Definition savegpr_text : list line :=
  <{ Global "_savegpr_14"; Global "_save32gpr_14"; stw 14 (-72) 11; Global "_savegpr_15";
     Global "_save32gpr_15"; stw 15 (-68) 11; Global "_savegpr_16"; Global "_save32gpr_16";
     stw 16 (-64) 11; Global "_savegpr_17"; Global "_save32gpr_17"; stw 17 (-60) 11;
     Global "_savegpr_18"; Global "_save32gpr_18"; stw 18 (-56) 11; Global "_savegpr_19";
     Global "_save32gpr_19"; stw 19 (-52) 11; Global "_savegpr_20"; Global "_save32gpr_20";
     stw 20 (-48) 11; Global "_savegpr_21"; Global "_save32gpr_21"; stw 21 (-44) 11;
     Global "_savegpr_22"; Global "_save32gpr_22"; stw 22 (-40) 11; Global "_savegpr_23";
     Global "_save32gpr_23"; stw 23 (-36) 11; Global "_savegpr_24"; Global "_save32gpr_24";
     stw 24 (-32) 11; Global "_savegpr_25"; Global "_save32gpr_25"; stw 25 (-28) 11;
     Global "_savegpr_26"; Global "_save32gpr_26"; stw 26 (-24) 11; Global "_savegpr_27";
     Global "_save32gpr_27"; stw 27 (-20) 11; Global "_savegpr_28"; Global "_save32gpr_28";
     stw 28 (-16) 11; Global "_savegpr_29"; Global "_save32gpr_29"; stw 29 (-12) 11;
     Global "_savegpr_30"; Global "_save32gpr_30"; stw 30 (-8) 11; Global "_savegpr_31";
     Global "_save32gpr_31"; stw 31 (-4) 11; blr }>.

Definition restgpr_text : list line :=
  <{ Global "_restgpr_14"; Global "_rest32gpr_14"; lwz 14 (-72) 11; Global "_restgpr_15";
     Global "_rest32gpr_15"; lwz 15 (-68) 11; Global "_restgpr_16"; Global "_rest32gpr_16";
     lwz 16 (-64) 11; Global "_restgpr_17"; Global "_rest32gpr_17"; lwz 17 (-60) 11;
     Global "_restgpr_18"; Global "_rest32gpr_18"; lwz 18 (-56) 11; Global "_restgpr_19";
     Global "_rest32gpr_19"; lwz 19 (-52) 11; Global "_restgpr_20"; Global "_rest32gpr_20";
     lwz 20 (-48) 11; Global "_restgpr_21"; Global "_rest32gpr_21"; lwz 21 (-44) 11;
     Global "_restgpr_22"; Global "_rest32gpr_22"; lwz 22 (-40) 11; Global "_restgpr_23";
     Global "_rest32gpr_23"; lwz 23 (-36) 11; Global "_restgpr_24"; Global "_rest32gpr_24";
     lwz 24 (-32) 11; Global "_restgpr_25"; Global "_rest32gpr_25"; lwz 25 (-28) 11;
     Global "_restgpr_26"; Global "_rest32gpr_26"; lwz 26 (-24) 11; Global "_restgpr_27";
     Global "_rest32gpr_27"; lwz 27 (-20) 11; Global "_restgpr_28"; Global "_rest32gpr_28";
     lwz 28 (-16) 11; Global "_restgpr_29"; Global "_rest32gpr_29"; lwz 29 (-12) 11;
     Global "_restgpr_30"; Global "_rest32gpr_30"; lwz 30 (-8) 11; Global "_restgpr_31";
     Global "_rest32gpr_31"; lwz 31 (-4) 11; blr }>.

Definition restgpr_x_text : list line :=
  <{ Global "_restgpr_14_x"; Global "_rest32gpr_14_x"; lwz 14 (-72) 11; Global "_restgpr_15_x";
     Global "_rest32gpr_15_x"; lwz 15 (-68) 11; Global "_restgpr_16_x";
     Global "_rest32gpr_16_x"; lwz 16 (-64) 11; Global "_restgpr_17_x";
     Global "_rest32gpr_17_x"; lwz 17 (-60) 11; Global "_restgpr_18_x";
     Global "_rest32gpr_18_x"; lwz 18 (-56) 11; Global "_restgpr_19_x";
     Global "_rest32gpr_19_x"; lwz 19 (-52) 11; Global "_restgpr_20_x";
     Global "_rest32gpr_20_x"; lwz 20 (-48) 11; Global "_restgpr_21_x";
     Global "_rest32gpr_21_x"; lwz 21 (-44) 11; Global "_restgpr_22_x";
     Global "_rest32gpr_22_x"; lwz 22 (-40) 11; Global "_restgpr_23_x";
     Global "_rest32gpr_23_x"; lwz 23 (-36) 11; Global "_restgpr_24_x";
     Global "_rest32gpr_24_x"; lwz 24 (-32) 11; Global "_restgpr_25_x";
     Global "_rest32gpr_25_x"; lwz 25 (-28) 11; Global "_restgpr_26_x";
     Global "_rest32gpr_26_x"; lwz 26 (-24) 11; Global "_restgpr_27_x";
     Global "_rest32gpr_27_x"; lwz 27 (-20) 11; Global "_restgpr_28_x";
     Global "_rest32gpr_28_x"; lwz 28 (-16) 11; Global "_restgpr_29_x";
     Global "_rest32gpr_29_x"; lwz 29 (-12) 11; Global "_restgpr_30_x";
     Global "_rest32gpr_30_x"; lwz 30 (-8) 11; Global "_restgpr_31_x"; Global "_rest32gpr_31_x";
     lwz 0 4 11; lwz 31 (-4) 11; mtlr 0; mr 1 11; blr }>.

(** ** crt0.S *)

(** The addresses the linker gives to the symbols. *)
Record symbols := mk_symbols {
  _start : Z; _end : Z; _bss_start : Z; _bss_end : Z; _stack_top : Z
}.

(** [sym@h] and [sym@l]. *)
Definition hi (v : Z) : Z := v / 65536.
Definition lo (v : Z) : Z := v mod 65536.

Definition start_text (l : symbols) : list line :=
  <{ Global "_start";
     lis 10 (hi (_start l)); ori 10 10 (lo (_start l)); lis 11 (hi (_end l)); ori 11 11 (lo (_end l));
     Lbl 1; dcbf 0 10; icbi 0 10; addi 10 10 4; cmpw 0 10 11; bne 0 (Bwd 1); sync false; isync;
     lis 10 (hi (_bss_start l)); ori 10 10 (lo (_bss_start l));
     lis 11 (hi (_bss_end l)); ori 11 11 (lo (_bss_end l)); subi 10 10 4; subi 11 11 4; li 0 0;
     Lbl 1; stwu 0 4 10; cmpw 0 10 11; bne 0 (Bwd 1);
     lis 1 (hi (_stack_top l)); ori 1 1 (lo (_stack_top l)); addi 1 1 (-16);
     b (Name "iquik_main") }>.

(** ** The programs *)

Definition flush_code : prog := Eval vm_compute in default [] (assemble flush_cache_text).
Definition setjmp_S : list line := setjmp_text ++ longjmp_text.
Definition setjmp_code : prog := Eval vm_compute in default [] (assemble setjmp_S).
Definition crtsavres_S : list line := savegpr_text ++ restgpr_text ++ restgpr_x_text.
Definition crtsavres_code : prog := Eval vm_compute in default [] (assemble crtsavres_S).
Definition start_code (l : symbols) : prog := Eval cbv -[hi lo _start _end _bss_start _bss_end _stack_top] in default [] (assemble (start_text l)).

Lemma flush_assembles : assemble flush_cache_text = Some flush_code.
Proof. vm_compute. reflexivity. Qed.
Lemma setjmp_assembles : assemble setjmp_S = Some setjmp_code.
Proof. vm_compute. reflexivity. Qed.
Lemma crtsavres_assembles : assemble crtsavres_S = Some crtsavres_code.
Proof. vm_compute. reflexivity. Qed.
Lemma start_assembles l : assemble (start_text l) = Some (start_code l).
Proof. reflexivity. Qed.

(** ** Storing and loading registers *)

(** The registers [l] stored at their offsets from [a], in order. *)
Definition stores (g : Z -> Z) (a : Z) (l : list (Z * Z)) (m : Z -> Z) : Z -> Z :=
  fold_left (fun m ro => storew m (u32 (a + snd ro)) (g (fst ro))) l m.

(** The registers [l] loaded from the block [base] points to. *)
Definition loads (base : Z) (l : list (Z * Z)) (c : cpu) : cpu :=
  fold_left (fun c ro => set_gpr (fst ro) (loadw (mem c) (u32 (gpr c base + snd ro))) c) l c.

(** The code at [pc] stores, or loads, the registers [l]. *)
Definition store_code (p : prog) (pc : nat) (base : Z) (l : list (Z * Z)) : Prop :=
  take (length l) (drop pc p) = map (fun ro => stw (fst ro) (snd ro) base) l.
Definition load_code (p : prog) (pc : nat) (base : Z) (l : list (Z * Z)) : Prop :=
  take (length l) (drop pc p) = map (fun ro => lwz (fst ro) (snd ro) base) l.

Lemma code_cons (p : prog) pc i (l : prog) n :
  take (S n) (drop pc p) = i :: l -> p !! pc = Some i /\ take n (drop (S pc) p) = l.
Proof.
  intros H. assert (Hi : drop pc p !! O = Some i).
  { destruct (drop pc p); [done|]. by injection H as ->. }
  split; [by rewrite lookup_drop, Nat.add_0_r in Hi|].
  replace (S pc) with (pc + 1)%nat by lia. rewrite <- drop_drop.
  destruct (drop pc p); [done|]. by injection H as _ <-.
Qed.

Lemma store_run p base Q l : base <> 0 -> forall pc c,
  store_code p pc base l ->
  eventually p Q (Run (pc + length l) (set_mem (stores (gpr c) (gpr c base) l (mem c)) c)) ->
  eventually p Q (Run pc c).
Proof.
  intros Hb. induction l as [|[r o] l IH]; intros pc c Hc HQ.
  - cbn in HQ. rewrite Nat.add_0_r in HQ. by destruct c.
  - apply code_cons in Hc as [Hi Hc]. eapply ev_instr; [exact Hi|]. cbn [after exec].
    apply IH; [done|]. unfold ea, Ppc.base. destruct (Z.eqb_spec base 0); [done|].
    simpl length in HQ. by replace (S pc + length l)%nat with (pc + S (length l))%nat by lia.
Qed.

Lemma load_run p base Q l : base <> 0 -> forall pc c,
  load_code p pc base l ->
  eventually p Q (Run (pc + length l) (loads base l c)) ->
  eventually p Q (Run pc c).
Proof.
  intros Hb. induction l as [|[r o] l IH]; intros pc c Hc HQ.
  - cbn in HQ. by rewrite Nat.add_0_r in HQ.
  - apply code_cons in Hc as [Hi Hc]. eapply ev_instr; [exact Hi|]. cbn [after exec].
    apply IH; [done|]. unfold ea, Ppc.base. destruct (Z.eqb_spec base 0); [done|].
    simpl length in HQ. by replace (S pc + length l)%nat with (pc + S (length l))%nat by lia.
Qed.

(** Slots that do not overlap. *)
Definition spaced (l : list (Z * Z)) : Prop :=
  ForallOrdPairs (fun p q => snd p + 4 <= snd q \/ snd q + 4 <= snd p) l.
(** And that lie in the address space, for a block at [a]. *)
Definition slots_at (a : Z) (l : list (Z * Z)) : Prop :=
  Forall (fun p => 0 <= a + snd p /\ a + snd p + 4 <= 4294967296) l.

Lemma loadw_storew m a v :
  0 <= a -> a + 4 <= 4294967296 -> 0 <= v < 4294967296 -> loadw (storew m a v) a = v.
Proof.
  intros Ha Hb Hv. unfold loadw, storew, upd. rewrite !u32_small by lia.
  zcases; try lia. word_lia.
Qed.

Lemma stores_cons g a r o l m : stores g a ((r, o) :: l) m = stores g a l (storew m (u32 (a + o)) (g r)).
Proof. done. Qed.

Lemma stores_other g a l : forall m x,
  slots_at a l -> Forall (fun p => x < a + snd p \/ a + snd p + 4 <= x) l -> stores g a l m x = m x.
Proof.
  induction l as [|[r o] l IH]; intros m x Hs Hx; [done|].
  inversion_clear Hs as [|? ? Ho Hs']. inversion_clear Hx as [|? ? Hxo Hx']. cbn [fst snd] in *.
  rewrite stores_cons, IH by done. rewrite u32_small by lia. apply storew_other; lia.
Qed.

Lemma stores_load g a l : forall m r o,
  spaced l -> slots_at a l -> (r, o) ∈ l -> 0 <= g r < 4294967296 ->
  loadw (stores g a l m) (a + o) = g r.
Proof.
  induction l as [|[r' o'] l IH]; intros m r o Hsp Hs Hin Hg; [by inversion Hin|].
  inversion_clear Hsp as [|? ? Ho Hsp']. inversion_clear Hs as [|? ? Hr Hs']. cbn [fst snd] in *.
  rewrite stores_cons. apply elem_of_cons in Hin as [[= -> ->]|Hin]; [|by apply IH].
  rewrite u32_small by lia. rewrite <- (loadw_storew m (a + o') (g r')) at 2 by lia.
  apply loadw_ext; [lia..|]. intros j Hj. apply stores_other; [done|].
  eapply Forall_impl; [exact Ho|]. intros [? ?]. cbn. lia.
Qed.

Lemma loads_cons base r o l c :
  loads base ((r, o) :: l) c = loads base l (set_gpr r (loadw (mem c) (u32 (gpr c base + o))) c).
Proof. done. Qed.

Lemma loads_kept base l : forall c,
  base ∉ map fst l ->
  mem (loads base l c) = mem c /\ lr (loads base l c) = lr c /\ ctr (loads base l c) = ctr c
  /\ crf (loads base l c) = crf c /\ ops (loads base l c) = ops c
  /\ (forall r, r ∉ map fst l -> gpr (loads base l c) r = gpr c r).
Proof.
  induction l as [|[r o] l IH]; intros c Hb; [done|]. cbn [map fst] in *.
  apply not_elem_of_cons in Hb as [Hr Hb]. rewrite !loads_cons.
  destruct (IH (set_gpr r (loadw (mem c) (u32 (gpr c base + o))) c) Hb) as (-> & -> & -> & -> & -> & E).
  split_and!; try done. intros r' [Hr' Hl]%not_elem_of_cons. rewrite E by done.
  cbn. unfold upd. by destruct (Z.eqb_spec r' r).
Qed.

Lemma loads_gpr base l : forall c r o,
  base ∉ map fst l -> NoDup (map fst l) -> (r, o) ∈ l ->
  gpr (loads base l c) r = loadw (mem c) (u32 (gpr c base + o)).
Proof.
  induction l as [|[r' o'] l IH]; intros c r o Hb Hn Hin; [by inversion Hin|].
  cbn [map fst] in *. apply not_elem_of_cons in Hb as [Hr Hb]. apply NoDup_cons in Hn as [Hnr Hn].
  rewrite loads_cons. set (c1 := set_gpr r' _ c).
  apply elem_of_cons in Hin as [[= -> ->]|Hin].
  - destruct (loads_kept base l c1 Hb) as (_ & _ & _ & _ & _ & E). rewrite E by done.
    cbn. unfold upd. by rewrite Z.eqb_refl.
  - rewrite (IH c1 r o) by done. cbn. unfold upd.
    by rewrite (proj2 (Z.eqb_neq base r')).
Qed.
