(* ===== verification/PpcStartCorrect.v ===== *)
(** * What the other assembly does (crt0.S, setjmp.S, crtsavres.S, cache.S)

    [setjmp] and [longjmp] as a pair, the register-saving routines of the compiler as a
    pair, the lines [flush_cache] reaches, and what the start-up code leaves behind
    when it jumps to [iquik_main]. *)
From Stdlib Require Import ZArith Lia Ascii.
From stdpp Require Import prelude strings pretty.
From S2P Require Import Prelude Ppc PpcStart.

(** Registers hold 32-bit words. *)
Definition words_ok (c : cpu) : Prop :=
  (forall r, 0 <= gpr c r < 4294967296) /\ 0 <= lr c < 4294967296.

(** What is read of a state built by instructions. *)
Ltac fields_of := autorewrite with ppc; cbn [Z.eqb Pos.eqb].

(** The instruction a routine starts at. *)
Ltac at_entry :=
  match goal with
  | |- eventually _ _ (Run (entry_of ?l ?s) _) =>
      let e := eval vm_compute in (entry_of l s) in change (entry_of l s) with e
  end.

(** ** setjmp and longjmp *)

(** The slots of [jmp_buf], and those [longjmp] reads. *)
Definition jmp_slots : list (Z * Z) :=
  [(r1, 0); (r0, 4); (r14, 8); (r15, 12); (r16, 16); (r17, 20); (r18, 24); (r19, 28); (r20, 32);
   (r21, 36); (r22, 40); (r23, 44); (r24, 48); (r25, 52); (r26, 56); (r27, 60); (r28, 64);
   (r29, 68); (r30, 72); (r31, 76)].
Definition jmp_loads : list (Z * Z) := removelast jmp_slots ++ [(r31, 86)].

Lemma jmp_spaced : spaced jmp_slots.
Proof. unfold spaced, jmp_slots. regs. repeat constructor; cbn; lia. Qed.

Lemma jmp_bounds : Forall (fun p => 0 <= snd p /\ snd p + 4 <= 80) jmp_slots.
Proof. by_eval. Qed.

Lemma jmp_slots_at a : 0 <= a -> a + 90 < 4294967296 -> slots_at a jmp_slots.
Proof. intros. eapply Forall_impl; [apply jmp_bounds|]. cbn. lia. Qed.

(** [longjmp] from its loads on. *)
Lemma longjmp_loads Q c buf a v :
  gpr c 3 = buf -> 0 <= buf -> buf + 90 < 4294967296 -> gpr c 4 = v -> loadw (mem c) (buf + 4) = a ->
  (forall c', gpr c' 3 = v -> (forall r o, (r, o) ∈ jmp_loads -> r <> 0 -> gpr c' r = loadw (mem c) (buf + o)) ->
    mem c' = mem c -> eventually setjmp_code Q (Return a c')) ->
  eventually setjmp_code Q (Run 26 c).
Proof.
  intros E3 Hb Hb' E4 Ha HQ. apply (load_run _ 3 _ jmp_loads); [done|reflexivity|].
  destruct (loads_kept 3 jmp_loads c) as (Em & _ & _ & _ & _ & Ek); [by_eval|].
  assert (Hload : forall r o, (r, o) ∈ jmp_loads ->
    gpr (loads 3 jmp_loads c) r = loadw (mem c) (buf + o)).
  { intros r o Hin. rewrite (loads_gpr 3 jmp_loads c r o), E3 by (done || by_eval). f_equal. apply u32_small.
    assert (Hall : Forall (fun p => 0 <= snd p <= 86) jmp_loads) by (repeat constructor; cbn; lia).
    rewrite Forall_forall in Hall. specialize (Hall _ Hin). cbn in Hall. lia. }
  change (26 + length jmp_loads)%nat with 46%nat.
  assert (E0 : gpr (loads 3 jmp_loads c) 0 = a)
    by (rewrite (Hload 0 4), Ha; [done|by_eval]).
  assert (Ev : gpr (loads 3 jmp_loads c) 4 = v) by (rewrite Ek; [done|by_eval]).
  set (c1 := loads 3 jmp_loads c) in *.
  do 3 ppc. rewrite E0, Ev. apply HQ; fields_of; [done| |exact Em].
  intros r o Hin Hr. rewrite <- (Hload r o Hin). fields_of. destruct (Z.eqb_spec r 3) as [->|]; [|done].
  exfalso. assert (3 ∉ map fst jmp_loads) as Hno by by_eval. apply Hno.
  apply list_elem_of_In, in_map_iff. exists (3, o). split; [done|]. by apply list_elem_of_In.
Qed.

Lemma jmp_common r : r = 1 \/ 14 <= r <= 30 -> exists o, (r, o) ∈ jmp_slots /\ (r, o) ∈ jmp_loads /\ 0 <= o <= 76.
Proof.
  intros Hr. exists (if r =? 1 then 0 else 4 * (r - 12)).
  assert (Hall : Forall (fun r => (r, if r =? 1 then 0 else 4 * (r - 12)) ∈ jmp_slots
    /\ (r, if r =? 1 then 0 else 4 * (r - 12)) ∈ jmp_loads) (1 :: map (fun k => 14 + Z.of_nat k) (seq 0 17))) by by_eval.
  assert (Hin : r ∈ 1 :: map (fun k => 14 + Z.of_nat k) (seq 0 17)).
  { apply elem_of_cons. destruct Hr as [->|Hr]; [by left|right]. apply list_elem_of_In, in_map_iff.
    exists (Z.to_nat (r - 14)). split; [lia|]. apply in_seq. lia. }
  rewrite Forall_forall in Hall. destruct (Hall r Hin) as [H1 H2]. split_and!; [done|done|destruct (Z.eqb_spec r 1); lia..].
Qed.

(** C18: After [setjmp] on a buffer, [longjmp] on it - from any state in which the 80
    bytes are still what [setjmp] stored - returns where [setjmp] returned, with the
    value given, 1 for 0, and with the stack pointer and r14 to r30 as they were at
    [setjmp]; r31 it loads from offset 86, past the end of the buffer, so it is
    whatever lies there. *)
Theorem setjmp_longjmp c buf :
  words_ok c -> gpr c r3 = buf -> 0 <= buf -> buf + 90 < 4294967296 ->
  returns setjmp_code (entry_of setjmp_S "setjmp") c (fun c1 =>
    gpr c1 r3 = 0 /\ kept [r0; r3] c c1
    /\ (forall x, x < buf \/ buf + 80 <= x -> mem c1 x = mem c x)
    /\ forall c2, gpr c2 r3 = buf -> 0 <= gpr c2 r4 < 4294967296 ->
       (forall x, buf <= x < buf + 80 -> mem c2 x = mem c1 x) ->
       reaches setjmp_code (entry_of setjmp_S "longjmp") c2 (lr c) (fun c3 =>
         gpr c3 r3 = (if gpr c2 r4 =? 0 then 1 else gpr c2 r4)
         /\ (forall r, r = r1 \/ 14 <= r <= 30 -> gpr c3 r = gpr c r)
         /\ gpr c3 r31 = loadw (mem c2) (buf + 86) /\ mem c3 = mem c2)).
Proof.
  intros [Hg Hl] E3 Hb Hb'. regs. apply returns_ev.
  at_entry. ppc. set (c0 := set_gpr 0 (lr c) c).
  apply (store_run _ 3 _ jmp_slots); [done|reflexivity|].
  change (1 + length jmp_slots)%nat with 21%nat. do 2 ppc. unfold c0. fields_of. rewrite E3.
  set (M := stores _ buf jmp_slots (mem c)). change (lr (set_gpr 3 _ _)) with (lr c).
  assert (Hslot : forall r o, (r, o) ∈ jmp_slots -> r <> 0 -> loadw M (buf + o) = gpr c r).
  { intros r o Hin Hr. unfold M. rewrite stores_load with (r := r);
      [|apply jmp_spaced|by apply jmp_slots_at|done|]; rewrite gpr_set_gpr;
      (destruct (Z.eqb_spec r 0); done). }
  assert (Hlr : loadw M (buf + 4) = lr c).
  { unfold M. rewrite stores_load with (r := 0); [done|apply jmp_spaced|by apply jmp_slots_at|by_eval|done]. }
  apply ev_return. split_and!.
  - by fields_of.
  - auto with ppc.
  - intros x Hx. rewrite mem_set_gpr, mem_set_mem. apply stores_other; [by apply jmp_slots_at|].
    eapply Forall_impl; [apply jmp_bounds|]. cbn. lia.
  - intros c2 E3' H4 Hsame. rewrite mem_set_gpr, mem_set_mem in Hsame.
    assert (Hload : forall o, 0 <= o <= 76 -> loadw (mem c2) (buf + o) = loadw M (buf + o)).
    { intros o Ho. apply loadw_ext; [lia..|]. intros j Hj. apply Hsame. lia. }
    assert (Hfin : forall v c', gpr c' 3 = buf -> gpr c' 4 = v -> mem c' = mem c2 ->
      v = (if gpr c2 4 =? 0 then 1 else gpr c2 4) ->
      eventually setjmp_code (fun s => exists c3, s = Return (lr c) c3 /\
        (gpr c3 3 = (if gpr c2 4 =? 0 then 1 else gpr c2 4)
         /\ (forall r, r = 1 \/ 14 <= r <= 30 -> gpr c3 r = gpr c r)
         /\ gpr c3 31 = loadw (mem c2) (buf + 86) /\ mem c3 = mem c2)) (Run 26 c')).
    { intros v c' A B D ->. apply (longjmp_loads _ c' buf (lr c) _ A Hb Hb' B); [by rewrite D, Hload by lia|].
      intros c3 F G H. apply ev_return. rewrite <- D. split_and!; [done| | |done].
      - intros r Hr. destruct (jmp_common r Hr) as (o & I1 & I2 & Ho).
        rewrite (G r o I2), D, Hload, (Hslot r o) by (done || lia). done.
      - apply G; [by_eval|done]. }
    apply reaches_ev. at_entry. do 2 ppc.
    destruct (Z.eqb_spec (gpr c2 4) 0) as [E0|E0].
    + rewrite E0. cbn. ppc. by eapply Hfin.
    + assert (s32 (gpr c2 4) <> 0) by (unfold s32; rewrite u32_small by lia; zcases; lia).
      destruct (Z.compare_spec (s32 (gpr c2 4)) 0); [lia|cbn..]; by eapply Hfin.
Qed.

(** ** Saving and restoring registers *)

(** Register [r] is kept at [-4 * (32 - r)] from the end of the save area. *)
Definition gpr_slots : list (Z * Z) :=
  map (fun i => (14 + Z.of_nat i, -72 + 4 * Z.of_nat i)) (seq 0 18).
Definition rest_slots (j : nat) : list (Z * Z) := drop j (removelast gpr_slots) ++ [(r0, 4); (r31, -4)].

(** The names of the entries for register [k]. *)
Definition save_entry (k : nat) : nat := entry_of crtsavres_S ("_savegpr_" +:+ pretty (Z.of_nat k)).
Definition rest_entry (k : nat) : nat := entry_of crtsavres_S ("_restgpr_" +:+ pretty (Z.of_nat k)).
Definition restx_entry (k : nat) : nat :=
  entry_of crtsavres_S ("_restgpr_" +:+ pretty (Z.of_nat k) +:+ "_x").

Lemma entries j :
  (j <= 17)%nat -> save_entry (14 + j) = j /\ rest_entry (14 + j) = (19 + j)%nat
    /\ restx_entry (14 + j) = (38 + j)%nat.
Proof. intros Hj. do 18 (destruct j as [|j]; [by vm_compute|]). lia. Qed.

Lemma save_codes j :
  (j <= 17)%nat -> store_code crtsavres_code j 11 (drop j gpr_slots)
    /\ load_code crtsavres_code (19 + j) 11 (drop j gpr_slots)
    /\ load_code crtsavres_code (38 + j) 11 (rest_slots j)
    /\ (j + length (drop j gpr_slots) = 18)%nat /\ (38 + j + length (rest_slots j) = 57)%nat.
Proof. intros Hj. do 18 (destruct j as [|j]; [by split_and!|]). lia. Qed.

Lemma slots_are j :
  (j <= 17)%nat ->
  Forall (fun p => 14 + Z.of_nat j <= fst p <= 31 /\ snd p = -4 * (32 - fst p)) (drop j gpr_slots)
  /\ Forall (fun p => 14 + Z.of_nat j <= fst p <= 31 /\ snd p = -4 * (32 - fst p) \/ p = (0, 4)) (rest_slots j)
  /\ Forall (fun i => (14 + Z.of_nat i, -4 * (32 - (14 + Z.of_nat i))) ∈ drop j gpr_slots
       /\ (14 + Z.of_nat i, -4 * (32 - (14 + Z.of_nat i))) ∈ rest_slots j) (seq j (18 - j))
  /\ NoDup (map fst (drop j gpr_slots)) /\ NoDup (map fst (rest_slots j)) /\ (0, 4) ∈ rest_slots j.
Proof. intros Hj. do 18 (destruct j as [|j]; [split_and!; by_eval|]). lia. Qed.

Lemma spaced_drop j : (j <= 17)%nat -> spaced (drop j gpr_slots).
Proof.
  intros Hj. unfold spaced.
  do 18 (destruct j as [|j]; [cbn; repeat constructor; cbn; lia|]). lia.
Qed.

Section Saved.
Context (c : cpu) (a : Z) (j : nat).
Context (Hw : words_ok c) (Hj : (j <= 17)%nat) (Ha : 72 <= a) (Ha' : a + 8 < 4294967296).

(** Memory after the registers from [14 + j] on were saved below [a]. *)
Definition save_area : Z -> Z := stores (gpr c) a (drop j gpr_slots) (mem c).

Lemma save_slots_at : slots_at a (drop j gpr_slots).
Proof. eapply Forall_impl; [apply slots_are, Hj|]. cbn. lia. Qed.

Lemma save_area_slot r : 14 + Z.of_nat j <= r <= 31 -> loadw save_area (a + -4 * (32 - r)) = gpr c r.
Proof.
  intros Hr. destruct (slots_are j Hj) as (_ & _ & Hin & _). rewrite Forall_forall in Hin.
  destruct (Hin (Z.to_nat (r - 14))) as [H _]; [apply elem_of_seq; lia|].
  replace (14 + Z.of_nat (Z.to_nat (r - 14))) with r in H by lia.
  apply stores_load; [by apply spaced_drop|apply save_slots_at|done|apply Hw].
Qed.

Lemma save_area_other x : x < a - 4 * (18 - Z.of_nat j) \/ a <= x -> save_area x = mem c x.
Proof.
  intros Hx. apply stores_other; [apply save_slots_at|].
  eapply Forall_impl; [apply slots_are, Hj|]. cbn. lia.
Qed.

(** Loading from an area that still has those bytes. *)
Lemma loads_saved l c2 r :
  gpr c2 11 = a -> (forall x, a - 4 * (18 - Z.of_nat j) <= x < a -> mem c2 x = save_area x) ->
  11 ∉ map fst l -> NoDup (map fst l) -> (r, -4 * (32 - r)) ∈ l -> 14 + Z.of_nat j <= r <= 31 ->
  gpr (loads 11 l c2) r = gpr c r.
Proof.
  intros E Hm Hl Hn Hin Hr. rewrite (loads_gpr _ _ _ _ _ Hl Hn Hin), E, u32_small by lia.
  rewrite <- save_area_slot by done. apply loadw_ext; [lia..|]. intros i Hi. apply Hm. lia.
Qed.
End Saved.

(** For every register from r14 on, [_savegpr_N] stores the registers from that one
    to r31 below the address in r11 and touches nothing else; while the area keeps its
    bytes, [_restgpr_N] brings exactly those registers back, and [_restgpr_N_x] also
    makes r11 the stack pointer and returns through the address saved above it. *)
Theorem savegpr_restgpr c a j :
  words_ok c -> (j <= 17)%nat -> gpr c r11 = a -> 72 <= a -> a + 8 < 4294967296 ->
  let k := (14 + j)%nat in
  returns crtsavres_code (save_entry k) c (fun c1 =>
    (forall r, gpr c1 r = gpr c r)
    /\ (forall x, x < a - 4 * (32 - Z.of_nat k) \/ a <= x -> mem c1 x = mem c x)
    /\ forall c2, gpr c2 r11 = a ->
       (forall x, a - 4 * (32 - Z.of_nat k) <= x < a -> mem c2 x = mem c1 x) ->
       returns crtsavres_code (rest_entry k) c2 (fun c3 =>
         (forall r, Z.of_nat k <= r <= 31 -> gpr c3 r = gpr c r)
         /\ (forall r, r < Z.of_nat k \/ 31 < r -> gpr c3 r = gpr c2 r) /\ mem c3 = mem c2)
       /\ reaches crtsavres_code (restx_entry k) c2 (loadw (mem c2) (a + 4)) (fun c3 =>
         (forall r, Z.of_nat k <= r <= 31 -> gpr c3 r = gpr c r) /\ gpr c3 r1 = a /\ mem c3 = mem c2)).
Proof.
  intros Hw Hj Ea Ha Ha' k. regs. destruct (entries j Hj) as (A1 & A2 & A3). fold k in A1, A2, A3. rewrite A1, A2, A3.
  destruct (save_codes j Hj) as (C1 & C2 & C3 & L1 & L3).
  destruct (slots_are j Hj) as (S1 & S2 & S3 & N1 & N2 & Z2).
  assert (Hno : forall (l : list (Z * Z)), Forall (fun p => fst p <> 11) l -> 11 ∉ map fst l).
  { intros l Hl Hin. apply list_elem_of_In, in_map_iff in Hin as (p & E & Hp). rewrite Forall_forall in Hl.
    by apply (Hl p); [apply list_elem_of_In|]. }
  assert (Hin : forall r, Z.of_nat k <= r <= 31 ->
    (r, -4 * (32 - r)) ∈ drop j gpr_slots /\ (r, -4 * (32 - r)) ∈ rest_slots j).
  { intros r Hr. rewrite Forall_forall in S3. specialize (S3 (Z.to_nat (r - 14))).
    replace (14 + Z.of_nat (Z.to_nat (r - 14))) with r in S3 by lia. apply S3, elem_of_seq. lia. }
  apply returns_ev. apply (store_run _ 11 _ _ ltac:(done) _ _ C1). rewrite L1. ppc. rewrite Ea.
  apply ev_return. fold (save_area c a j). split_and!; [done| |].
  { intros x Hx. apply save_area_other; [done|lia..]. }
  intros c2 Ea2 Hm.
  assert (Hsame : forall x, a - 4 * (18 - Z.of_nat j) <= x < a -> mem c2 x = save_area c a j x)
    by (intros x Hx; apply Hm; lia).
  split.
  - apply returns_ev, (load_run _ 11 _ _ ltac:(done) _ _ C2). replace (19 + j + _)%nat with 37%nat by lia.
    ppc. assert (Hl : 11 ∉ map fst (drop j gpr_slots))
      by (apply Hno; eapply Forall_impl; [exact S1|]; cbn; lia).
    destruct (loads_kept 11 (drop j gpr_slots) c2 Hl) as (Em & -> & _ & _ & _ & Ek).
    apply ev_return. split_and!; [| |done].
    + intros r Hr. eapply (loads_saved c a j); try done; [by apply Hin|lia].
    + intros r Hr. apply Ek. intros (p & E & Hp)%list_elem_of_In%in_map_iff. rewrite Forall_forall in S1.
      apply list_elem_of_In, S1 in Hp. lia.
  - apply reaches_ev, (load_run _ 11 _ _ ltac:(done) _ _ C3). rewrite L3.
    assert (Hl : 11 ∉ map fst (rest_slots j))
      by (apply Hno; eapply Forall_impl; [exact S2|]; intros p [?| ->]; cbn; lia).
    destruct (loads_kept 11 (rest_slots j) c2 Hl) as (Em & _ & _ & _ & _ & Ek).
    assert (E0 : gpr (loads 11 (rest_slots j) c2) 0 = loadw (mem c2) (a + 4))
      by (by rewrite (loads_gpr _ _ _ _ _ Hl N2 Z2), Ea2, u32_small by lia).
    assert (E11 : gpr (loads 11 (rest_slots j) c2) 11 = a) by (by rewrite Ek).
    assert (Es : forall r, Z.of_nat k <= r <= 31 -> gpr (loads 11 (rest_slots j) c2) r = gpr c r).
    { intros r Hr. eapply (loads_saved c a j); try done; [by apply Hin|lia]. }
    set (c1 := loads 11 (rest_slots j) c2) in *. do 3 ppc. rewrite E0.
    apply ev_return. split_and!; [|by fields_of|exact Em].
    intros r Hr. fields_of. destruct (Z.eqb_spec r 1); [lia|by apply Es].
Qed.

(** ** flush_cache *)

(** The operations on [k] lines of [size] bytes from [a] on. *)
Definition line_ops (a size : Z) (k : nat) : list cache_op :=
  flat_map (fun i => [Dcbf (a + size * Z.of_nat i); Icbi (a + size * Z.of_nat i)]) (seq 0 k).

(** The line of [x], of 32 bytes, is written back and invalidated by [l]. *)
Definition flushed (l : list cache_op) (x : Z) : Prop :=
  exists e, Dcbf e ∈ l /\ Icbi e ∈ l /\ e / 32 = x / 32.

Lemma line_ops_S a size k :
  line_ops a size (S k) = line_ops a size k ++ [Dcbf (a + size * Z.of_nat k); Icbi (a + size * Z.of_nat k)].
Proof. unfold line_ops. rewrite seq_S, flat_map_app. done. Qed.

Lemma line_ops_shift a size k :
  line_ops a size (S k) = [Dcbf a; Icbi a] ++ line_ops (a + size) size k.
Proof.
  induction k as [|k IH].
  - unfold line_ops. cbn. by rewrite Z.mul_0_r, Z.add_0_r.
  - rewrite line_ops_S, IH, line_ops_S, <- !app_assoc.
    by replace (a + size + size * Z.of_nat k) with (a + size * Z.of_nat (S k)) by lia.
Qed.

Lemma line_ops_elem a size k e :
  (Dcbf e ∈ line_ops a size k <-> exists i, (i < k)%nat /\ e = a + size * Z.of_nat i)
  /\ (Icbi e ∈ line_ops a size k <-> exists i, (i < k)%nat /\ e = a + size * Z.of_nat i).
Proof.
  induction k as [|k [IH1 IH2]].
  - split; (split; [by intros H; inversion H|intros (i & ? & _); lia]).
  - rewrite line_ops_S, !elem_of_app, IH1, IH2. split; (split;
      [intros [(i & ? & ->)|H]; [exists i; split; [lia|done]|]; exists k; ns_list
      |intros (i & Hi & ->); destruct (decide (i = k)) as [->|]; [right; ns_list|left; exists i; split; [lia|done]]]).
Qed.

Lemma flush_loop Q k : forall c a,
  gpr c 3 = a -> ctr c = Z.of_nat (S k) -> 0 <= a -> a + 32 * Z.of_nat (S k) < 4294967296 ->
  (forall c', ops c' = ops c ++ line_ops a 32 (S k) -> mem c' = mem c -> lr c' = lr c ->
    eventually flush_code Q (Run 8 c')) ->
  eventually flush_code Q (Run 4 c).
Proof.
  induction k as [|k IH]; intros c a E3 Ec Ha Hb HQ; do 4 ppc; rewrite E3, Ec, u32_pred by lia;
    rewrite !u32_small by lia.
  - cbn. apply HQ; fields_of; [|done..]. rewrite line_ops_shift, <- !app_assoc. done.
  - rewrite (proj2 (Z.eqb_neq (Z.of_nat (S k)) 0)) by lia. cbn.
    apply (IH _ (a + 32)); fields_of; [done|done|lia..|].
    intros c' Eo Em El. apply HQ; [|done..]. by rewrite Eo, (line_ops_shift a), <- !app_assoc.
Qed.

(** C39: [flush_cache] writes back and invalidates one line in 32 bytes of the length,
    rounded up, from the line of the base on, then synchronises; so a byte of the range
    is covered exactly when its line is among those, which holds of all of them when
    the base is the start of a line, and not of the end of a range that crosses one
    line boundary more than its length needs. *)
Theorem flush_cache_lines c a n :
  gpr c r3 = a -> gpr c r4 = n -> 0 <= a -> 0 <= n -> a + n + 64 < 4294967296 ->
  let k := (n + 31) / 32 in let l := line_ops a 32 (Z.to_nat k) in
  returns flush_code (entry_of flush_cache_text "flush_cache") c (fun c' =>
    ops c' = ops c ++ l ++ (if k =? 0 then [] else [Sync; Isync]) /\ mem c' = mem c)
  /\ (forall x, a <= x < a + n -> flushed l x <-> x / 32 < a / 32 + k)
  /\ (a mod 32 = 0 -> forall x, a <= x < a + n -> flushed l x).
Proof.
  intros E3 E4 Ha Hn Hb k l. regs.
  assert (Hk : 0 <= k /\ n <= 32 * k < n + 32) by (unfold k; Z.div_mod_to_equations; lia).
  assert (Hcov : forall x, a <= x < a + n -> flushed l x <-> x / 32 < a / 32 + k).
  { intros x Hx. split.
    - intros (e & He & _ & Ee). apply line_ops_elem in He as (i & Hi & ->).
      div_lia.
    - intros Hlt. exists (a + 32 * (x / 32 - a / 32)).
      assert (Hi : exists i, (i < Z.to_nat k)%nat
        /\ a + 32 * (x / 32 - a / 32) = a + 32 * Z.of_nat i).
      { exists (Z.to_nat (x / 32 - a / 32)). div_lia. }
      split_and!; [by apply line_ops_elem..|]. div_lia. }
  split_and!; [|done|].
  - apply returns_ev. at_entry. do 4 ppc. rewrite E4. change (n + 0x1f) with (n + 31).
    rewrite (u32_small (n + 31)), srwi5 by lia. fold k. rewrite s32_small by lia.
    destruct (Z.compare_spec k 0) as [E|?|E]; [cbn|lia|cbn].
    + apply ev_return. split; [|done]. unfold l. rewrite E. cbn. by rewrite app_nil_r.
    + destruct (Z.to_nat k) as [|j] eqn:Ej; [lia|]. apply (flush_loop _ j _ a); fields_of; [done|lia..|].
      intros c' Eo Em El. do 3 ppc. rewrite El. apply ev_return. split; [|done].
      fields_of. rewrite Eo, (proj2 (Z.eqb_neq k 0)) by lia. unfold l. by rewrite <- !app_assoc.
  - intros Hal x Hx. apply Hcov; [done|]. div_lia.
Qed.

(** ** Start-up *)

(** An address loaded in two halves. *)
Lemma lis_ori v : 0 <= v < 4294967296 -> Z.lor (u32 (0 + hi v * 65536)) (lo v) = v.
Proof.
  intros Hv. unfold hi, lo. rewrite Z.add_0_l, u32_small by div_lia.
  change 65536 with (2 ^ 16). rewrite lor_add; [|lia|apply Z.mod_pos_bound; lia].
  div_lia.
Qed.

(** Words are compared for equality whatever their sign. *)
Lemma s32_compare x y :
  0 <= x < 4294967296 -> 0 <= y < 4294967296 -> match s32 x ?= s32 y with Eq => true | _ => false end = (x =? y).
Proof.
  intros Hx Hy. unfold s32. rewrite !u32_small by lia.
  destruct (Z.ltb_spec x 2147483648), (Z.ltb_spec y 2147483648);
    match goal with |- context [?a ?= ?b] => destruct (Z.compare_spec a b) end;
    destruct (Z.eqb_spec x y); lia || done.
Qed.

(** The addresses a link gives: words, the image of whole words, the rest of memory
    not wrapping around. *)
Definition link_ok (l : symbols) : Prop :=
  0 <= _start l /\ _start l < _end l < 4294967296 /\ (_end l - _start l) mod 4 = 0
  /\ 4 <= _bss_start l < 4294967296 /\ 4 <= _bss_end l < 4294967296 /\ 16 <= _stack_top l < 4294967296.

Section Start.
Context (l : symbols) (Hl : link_ok l).

Local Abbreviation sev := (eventually (start_code l)).

(** The loop over the image. *)
Lemma start_flush Q k : forall c a,
  gpr c 10 = a -> gpr c 11 = a + 4 * Z.of_nat (S k) -> 0 <= a -> a + 4 * Z.of_nat (S k) < 4294967296 ->
  (forall c', ops c' = ops c ++ line_ops a 4 (S k) -> mem c' = mem c -> sev Q (Run 9 c')) ->
  sev Q (Run 4 c).
Proof.
  induction k as [|k IH]; intros c a E10 E11 Ha Hb HQ; do 5 ppc; rewrite E10, E11, s32_compare;
    rewrite ?u32_small by lia; try lia.
  - rewrite (proj2 (Z.eqb_eq (a + 4) _)) by lia. cbn. apply HQ; fields_of; [|done].
    rewrite line_ops_shift, <- !app_assoc. done.
  - rewrite (proj2 (Z.eqb_neq (a + 4) _)) by lia. cbn.
    apply (IH _ (a + 4)); fields_of; [done|rewrite E11; lia|lia..|].
    intros c' Eo Em. apply HQ; [|done]. by rewrite Eo, (line_ops_shift a), <- !app_assoc.
Qed.

(** The loop over the BSS. *)
Lemma start_bss Q k : forall c a,
  gpr c 0 = 0 -> gpr c 10 = u32 (a - 4) -> gpr c 11 = a + 4 * Z.of_nat k -> 0 <= a ->
  a + 4 * Z.of_nat (S k) <= 4294967296 ->
  (forall c', (forall x, mem c' x = filled (mem c) a (4 * Z.of_nat (S k)) 0 x) -> ops c' = ops c ->
    sev Q (Run 21 c')) ->
  sev Q (Run 18 c).
Proof.
  induction k as [|k IH]; intros c a E0 E10 E11 Ha Hb HQ; do 3 ppc;
    rewrite E0, E10, E11, u32_back, s32_compare by lia;
    assert (Hst : forall x, storew (mem c) a 0 x = filled (mem c) a 4 0 x)
      by (intros x; by rewrite <- (filled_word _ _ 0) by lia).
  - rewrite (proj2 (Z.eqb_eq a _)) by lia. cbn. apply HQ; fields_of; [|done]. exact Hst.
  - rewrite (proj2 (Z.eqb_neq a _)) by lia. cbn.
    apply (IH _ (a + 4)); fields_of; [done|rewrite u32_small; lia|rewrite E11; lia|lia..|].
    intros c' Hm Eo. apply HQ; [|done]. intros x. rewrite Hm. fields_of.
    replace (4 * Z.of_nat (S (S k))) with (4 + 4 * Z.of_nat (S k)) by lia.
    apply filled_app; [exact Hst|lia..].
Qed.

(** Up to the loop over the BSS, with its bounds loaded. *)
Lemma start_to_bss Q c :
  (forall c', gpr c' 0 = 0 -> gpr c' 10 = u32 (_bss_start l - 4) -> gpr c' 11 = _bss_end l - 4 ->
    mem c' = mem c -> ops c' = ops c ++ line_ops (_start l) 4 (Z.to_nat ((_end l - _start l) / 4)) ++ [Sync; Isync] ->
    sev Q (Run 18 c')) ->
  sev Q (Run 0 c).
Proof.
  destruct Hl as (H1 & H2 & H3 & H4 & H5 & _). intros HQ. do 4 ppc. rewrite !lis_ori by lia.
  set (n := (_end l - _start l) / 4) in *. assert (En : _end l - _start l = 4 * n) by (unfold n; div_lia).
  destruct (Z.to_nat n) as [|k] eqn:Ek; [lia|].
  apply (start_flush _ k _ (_start l)); fields_of; [done|lia..|].
  intros c1 Eo Em. do 9 ppc. rewrite !lis_ori by lia. apply HQ; fields_of; [done|done| |done|].
  - rewrite u32_small; lia.
  - by rewrite Eo, <- !app_assoc.
Qed.

(** C19: The start-up code flushes every word of the image from the caches, clears
    exactly the BSS, sets the stack 16 bytes below its top and goes to [iquik_main] -
    when the BSS is a whole, positive number of words; when its size is not a multiple
    of four its loop never meets the end address and the loader is never entered. *)
Theorem start_clears_bss c :
  (0 < _bss_end l - _bss_start l -> (_bss_end l - _bss_start l) mod 4 = 0 ->
   jumps (start_code l) (entry_of (start_text l) "_start") c "iquik_main" (fun c' =>
     gpr c' r1 = _stack_top l - 16
     /\ (forall x, mem c' x = filled (mem c) (_bss_start l) (_bss_end l - _bss_start l) 0 x)
     /\ ops c' = ops c ++ line_ops (_start l) 4 (Z.to_nat ((_end l - _start l) / 4)) ++ [Sync; Isync]))
  /\ ((_bss_end l - _bss_start l) mod 4 <> 0 ->
      stays (start_code l) (Run (entry_of (start_text l) "_start") c)).
Proof.
  regs. change (entry_of (start_text l) "_start") with O. pose proof Hl as (_ & _ & _ & H4 & H5 & H6). split.
  - intros Hpos Hmod. apply jumps_ev, start_to_bss. intros c1 E0 E10 E11 Em Eo.
    set (n := (_bss_end l - _bss_start l) / 4).
    assert (En : _bss_end l - _bss_start l = 4 * n) by (unfold n; div_lia).
    destruct (Z.to_nat n) as [|k] eqn:Ek; [lia|].
    apply (start_bss _ k _ (_bss_start l)); [done|done|lia..|].
    intros c2 Hm Eo2. do 4 ppc. rewrite lis_ori by lia. apply ev_now. eexists. split; [reflexivity|].
    split_and!; fields_of.
    + rewrite u32_small; lia.
    + intros x. rewrite Hm, Em. f_equal. lia.
    + by rewrite Eo2.
  - intros Hmod. apply ev_stays, start_to_bss. intros c1 E0 E10 E11 _ _. apply ev_now.
    apply (stays_loop _ (fun s => exists c, s = Run 18 c /\ (gpr c 10 - gpr c 11) mod 4 <> 0
      /\ 0 <= gpr c 11 < 4294967296)).
    + intros s (c2 & -> & Hne & Hr). eexists. split; [reflexivity|]. ppc_cbn. do 2 ppc.
      rewrite s32_compare by (apply u32_range || done).
      rewrite (proj2 (Z.eqb_neq _ _)) by (intros E; apply Hne; rewrite <- E; word_lia). cbn.
      apply ev_now. eexists. split; [reflexivity|]. fields_of. split; [|done]. word_lia.
    + exists c1. split; [done|]. rewrite E10, E11. split; [word_lia|lia].
Qed.
End Start.

(** ** Witnesses *)

Lemma call_with_words l x3 x4 x5 :
  0 <= x3 < 4294967296 -> 0 <= x4 < 4294967296 -> 0 <= x5 < 4294967296 -> words_ok (call_with l x3 x4 x5).
Proof.
  intros. split; [|cbn; lia]. intros r. unfold call_with. cbn [gpr].
  zcases; lia.
Qed.

(** A buffer at 4096 with other data after it: what [longjmp] brings back as r31 is
    half zeros and the first half of that data. *)
Definition jumper : cpu := call_with (replicate 88 0 ++ [0xde; 0xad]) 4096 0 0.

Lemma setjmp_longjmp_witness :
  returns setjmp_code (entry_of setjmp_S "setjmp") jumper (fun c1 =>
    gpr c1 r3 = 0 /\ kept [r0; r3] jumper c1
    /\ (forall x, x < 4096 \/ 4096 + 80 <= x -> mem c1 x = mem jumper x)
    /\ forall c2, gpr c2 r3 = 4096 -> 0 <= gpr c2 r4 < 4294967296 ->
       (forall x, 4096 <= x < 4096 + 80 -> mem c2 x = mem c1 x) ->
       reaches setjmp_code (entry_of setjmp_S "longjmp") c2 77777 (fun c3 =>
         gpr c3 r3 = (if gpr c2 r4 =? 0 then 1 else gpr c2 r4)
         /\ (forall r, r = r1 \/ 14 <= r <= 30 -> gpr c3 r = gpr jumper r)
         /\ gpr c3 r31 = loadw (mem c2) (4096 + 86) /\ mem c3 = mem c2)).
Proof.
  refine (setjmp_longjmp jumper 4096 (call_with_words _ _ _ _ _ _ _) eq_refl _ _); by_eval.
Defined.

(** [setjmp] with 31 in r31, then [longjmp] with 5 in r4: r31 has changed. *)
Example longjmp_r31 :
  match run setjmp_code 100 (Run (entry_of setjmp_S "setjmp") jumper) with
  | Some (Return a c) =>
      match run setjmp_code 100 (Run (entry_of setjmp_S "longjmp") (set_gpr 3 4096 (set_gpr 4 5 c))) with
      | Some (Return b d) =>
          (a, b) = (77777, 77777) /\ gpr d r3 = 5 /\ gpr d r30 = gpr jumper r30
          /\ gpr jumper r31 = 31 /\ gpr d r31 = 0xdead
      | _ => False
      end
  | _ => False
  end.
Proof. vm_compute. done. Qed.

Definition saver : cpu := call_with [] 0 0 0.

Lemma savegpr_restgpr_witness :
  returns crtsavres_code (save_entry 29) saver (fun c1 =>
    (forall r, gpr c1 r = gpr saver r)
    /\ (forall x, x < 8192 - 4 * (32 - 29) \/ 8192 <= x -> mem c1 x = mem saver x)
    /\ forall c2, gpr c2 r11 = 8192 ->
       (forall x, 8192 - 4 * (32 - 29) <= x < 8192 -> mem c2 x = mem c1 x) ->
       returns crtsavres_code (rest_entry 29) c2 (fun c3 =>
         (forall r, 29 <= r <= 31 -> gpr c3 r = gpr saver r)
         /\ (forall r, r < 29 \/ 31 < r -> gpr c3 r = gpr c2 r) /\ mem c3 = mem c2)
       /\ reaches crtsavres_code (restx_entry 29) c2 (loadw (mem c2) (8192 + 4)) (fun c3 =>
         (forall r, 29 <= r <= 31 -> gpr c3 r = gpr saver r) /\ gpr c3 r1 = 8192 /\ mem c3 = mem c2)).
Proof.
  refine (savegpr_restgpr saver 8192 15 (call_with_words _ _ _ _ _ _ _) _ eq_refl _ _); by_eval || lia.
Defined.

(** Two bytes across a line boundary: the length is rounded to one line, and the second
    byte is not in it. *)
Lemma flush_cache_lines_witness :
  let l := line_ops 63 32 1 in
  returns flush_code (entry_of flush_cache_text "flush_cache") (call_with [] 63 2 0) (fun c' =>
    ops c' = [] ++ l ++ [Sync; Isync] /\ mem c' = mem (call_with [] 63 2 0))
  /\ (forall x, 63 <= x < 63 + 2 -> flushed l x <-> x / 32 < 63 / 32 + 1)
  /\ (63 mod 32 = 0 -> forall x, 63 <= x < 63 + 2 -> flushed l x).
Proof.
  refine (flush_cache_lines (call_with [] 63 2 0) 63 2 eq_refl eq_refl _ _ _); by_eval.
Defined.

(** A loader of 64 kB with a BSS of 4 kB; the same with one byte more. *)
Definition linked (extra : Z) : symbols :=
  mk_symbols 0x3e0000 0x3f2000 0x3f0000 (0x3f1000 + extra) 0x3f2000.

Lemma linked_ok extra : 0 <= extra < 4096 -> link_ok (linked extra).
Proof. intros. unfold link_ok, linked. cbn. split_and!; lia || done. Qed.

Lemma start_clears_bss_witness :
  jumps (start_code (linked 0)) 0 saver "iquik_main" (fun c' =>
    gpr c' r1 = 0x3f2000 - 16 /\ (forall x, mem c' x = filled (mem saver) 0x3f0000 4096 0 x)
    /\ ops c' = [] ++ line_ops 0x3e0000 4 (Z.to_nat ((0x3f2000 - 0x3e0000) / 4)) ++ [Sync; Isync])
  /\ stays (start_code (linked 1)) (Run 0 saver).
Proof.
  split.
  - refine (proj1 (start_clears_bss (linked 0) (linked_ok 0 _) saver) _ _); by_eval.
  - refine (proj2 (start_clears_bss (linked 1) (linked_ok 1 _) saver) _); [lia|by_eval].
Defined.
