(* ===== verification/Util.v ===== *)
(** * Library routines of the loader (util.c)

    Word splitting, case folding, number parsing and byte swapping.  The
    routines that only read a string are functions on its characters;
    [word_split], which writes NULs into the line it is given, is modelled on the
    buffer first and then related to its effect on strings. *)
From Stdlib Require Import ZArith Lia Ascii.
From stdpp Require Import prelude strings.
From S2P Require Import Prelude CString.

(** ** Words *)

(** [chomp]: skip leading blanks. *)
Fixpoint chomp (s : cstr) : cstr :=
  match s with
  | c :: s' => if c =? chr " " then chomp s' else s
  | [] => []
  end.

(** The word at the head of [s] and what follows it. *)
Fixpoint split_word (s : cstr) : cstr * cstr :=
  match s with
  | c :: s' =>
      if c =? chr " " then ([], s)
      else let '(w, r) := split_word s' in (c :: w, r)
  | [] => ([], [])
  end.

(** [word_split] on string values: the new [*linep] and [*paramsp]. *)
Definition word_split (line : option cstr) : option cstr * cstr :=
  match line with
  | None => (None, [])
  | Some s =>
      match chomp s with
      | [] => (None, [])
      | s' => let '(w, r) := split_word s' in (Some w, chomp r)
      end
  end.

(** The loops of [word_split] on the buffer that holds the line: positions are
    offsets, the loops run while the buffer lasts. *)
Fixpoint skip_blanks (l : list Z) (p : nat) : nat :=
  match l with
  | c :: l' => if c =? chr " " then skip_blanks l' (S p) else p
  | [] => p
  end.

Fixpoint skip_word (l : list Z) (p : nat) : nat :=
  match l with
  | c :: l' => if (c =? 0) || (c =? chr " ") then p else skip_word l' (S p)
  | [] => p
  end.

(** The last loop overwrites the blanks after the word with NULs. *)
Fixpoint zero_blanks (l : list Z) : list Z :=
  match l with
  | c :: l' => if c =? chr " " then 0 :: zero_blanks l' else l
  | [] => []
  end.

(** [word_split] on the buffer: the buffer it leaves, [*linep] and [*paramsp]
    (None is the static empty string). *)
Definition word_split_buf (m : list Z) (linep : option nat)
  : list Z * option nat * option nat :=
  match linep with
  | None => (m, None, None)
  | Some p =>
      let p := skip_blanks (drop p m) p in
      if byte_at m (Z.of_nat p) =? 0 then (m, None, None)
      else
        let q := skip_word (drop p m) p in
        let r := skip_blanks (drop q m) q in
        let m' := take q m ++ zero_blanks (drop q m) in
        (m', Some p, if byte_at m' (Z.of_nat r) =? 0 then None else Some r)
  end.

(** ** Characters *)

Definition tolower (c : Z) : Z :=
  if (chr "A" <=? c) && (c <=? chr "Z") then c + (chr "a" - chr "A") else c.

(** The loop of [strcasecmp]; the folding is written out in the source. *)
Fixpoint strcasecmp (s1 s2 : cstr) : Z :=
  let c1 := tolower (hd 0 s1) in
  let c2 := tolower (hd 0 s2) in
  match s1 with
  | [] => c1 - c2
  | _ :: s1' => if negb (c1 =? c2) then c1 - c2 else strcasecmp s1' (tl s2)
  end.

(** The loop of [strstr]: [n] is the number of positions left to try. *)
Fixpoint strstr_loop (s1 s2 : cstr) (n : nat) : option cstr :=
  match n with
  | O => None
  | S n' =>
      if memcmp s1 s2 (length s2) =? 0 then Some s1 else strstr_loop (tl s1) s2 n'
  end.

Definition strstr (s1 s2 : cstr) : option cstr :=
  if strlen s2 =? 0 then Some s1
  else strstr_loop s1 s2 (length s1 + 1 - length s2).

(** ** Byte order

    The inline assembly uses [rlwimi ra,rs,sh,mb,me]: rotate [rs] left by [sh]
    and insert the bits [mb..me] (bit 0 is the most significant) into [ra]. *)

Definition rotl32 (x n : Z) : Z := Z.lor (shl32 x n) (Z.shiftr (u32 x) (32 - n)).

Definition ppc_mask (mb me : Z) : Z := Z.shiftl (Z.ones (me - mb + 1)) (31 - me).

Definition rlwimi (ra rs sh mb me : Z) : Z :=
  let m := ppc_mask mb me in
  Z.lor (Z.ldiff ra m) (Z.land (rotl32 rs sh) m).

Definition swab16 (value : Z) : Z :=
  let result := Z.shiftr value 8 in
  u16 (rlwimi result value 8 16 23).

Definition swab32 (value : Z) : Z :=
  let result := Z.shiftr value 24 in
  let result := rlwimi result value 24 16 23 in
  let result := rlwimi result value 8 8 15 in
  rlwimi result value 24 0 7.

(** ** Numbers *)

(** The value of a digit, None for a character that is not one. *)
Definition strtol_digit (c : Z) : option Z :=
  if (chr "0" <=? c) && (c <=? chr "9") then Some (c - chr "0")
  else if (chr "A" <=? c) && (c <=? chr "Z") then Some (c - chr "A" + 10)
  else if (chr "a" <=? c) && (c <=? chr "z") then Some (c - chr "a" + 10)
  else None.

(** The conversion loop: the accumulated value, the overflow flag, and the
    number of characters consumed. *)
Fixpoint strtol_loop (base cutoff cutlim : Z) (s : cstr) (i : Z) (overflow : bool)
    (n : nat) : Z * bool * nat :=
  match s with
  | [] => (i, overflow, n)
  | c :: s' =>
      match strtol_digit c with
      | None => (i, overflow, n)
      | Some d =>
          if base <=? d then (i, overflow, n)
          else if (cutoff <? i) || ((i =? cutoff) && (cutlim <? d))
          then strtol_loop base cutoff cutlim s' i true (S n)
          else strtol_loop base cutoff cutlim s' (u32 (u32 (i * base) + d)) overflow (S n)
      end
  end.

(** White space skipped at the start: every character up to 32 but NUL. *)
Fixpoint strtol_blanks (s : cstr) : nat :=
  match s with
  | c :: s' => if (c <=? 32) && negb (c =? 0) then S (strtol_blanks s') else O
  | [] => O
  end.

(** A ["0x"] or ["0X"] at the head of [s]. *)
Definition hex_prefix (s : cstr) : bool :=
  (byte_at s 0 =? chr "0") && ((byte_at s 1 =? chr "X") || (byte_at s 1 =? chr "x")).

(** Where the digits start, and the base: the sign and prefix handling. [p] is
    the offset after the blanks. *)
Definition strtol_prefix (nptr : cstr) (p : nat) (base : Z) : bool * nat * Z :=
  let c := byte_at nptr (Z.of_nat p) in
  let negative := c =? chr "-" in
  let p := if (c =? chr "-") || (c =? chr "+") then S p else p in
  let p := if (base =? 16) && hex_prefix (drop p nptr) then (p + 2)%nat else p in
  if base =? 0 then
    if byte_at nptr (Z.of_nat p) =? chr "0" then
      if hex_prefix (drop p nptr) then (negative, (p + 2)%nat, 16) else (negative, p, 8)
    else (negative, p, 10)
  else (negative, p, base).

(** The [noconv] exit: the offset stored in [*endptr]. *)
Definition strtol_noconv (nptr : cstr) (save : nat) : nat :=
  if (2 <=? Z.of_nat save)
     && (tolower (byte_at nptr (Z.of_nat save - 1)) =? chr "x")
     && (byte_at nptr (Z.of_nat save - 2) =? chr "0")
  then (save - 1)%nat else O.

(** [strtol]: the value and the offset of [*endptr] in [nptr]. *)
Definition strtol (nptr : cstr) (base : Z) : Z * nat :=
  let base := if (base <? 0) || (base =? 1) || (36 <? base) then 10 else base in
  let p := strtol_blanks nptr in
  if byte_at nptr (Z.of_nat p) =? 0 then (0, strtol_noconv nptr 0)
  else
    let '(negative, save, base) := strtol_prefix nptr p base in
    let cutoff := 0x7FFFFFFF / base in
    let cutlim := 0x7FFFFFFF mod base in
    let '(i, overflow, n) := strtol_loop base cutoff cutlim (drop save nptr) 0 false O in
    if Nat.eqb n 0 then (0, strtol_noconv nptr save)
    else
      ( if overflow then (if negative : bool then s32 0x80000000 else s32 0x7FFFFFFF)
        else s32 (if negative then u32 (- i) else i)
      , (save + n)%nat ).

(** The text left at [*endptr]. *)
Definition strtol_rest (nptr : cstr) (base : Z) : cstr := drop (snd (strtol nptr base)) nptr.

(** ** Specifications *)

(** The value of a digit sequence in base [base]. *)
Definition digits_value (base : Z) (ds : list Z) (acc : Z) : Z :=
  foldl (fun a d => a * base + d) acc ds.

(** [cs] spells the digits [ds] in base [base]. *)
Definition spells (base : Z) (cs : cstr) (ds : list Z) : Prop :=
  Forall2 (fun c d => strtol_digit c = Some d /\ 0 <= d < base) cs ds.

(** [rest] does not continue a number in base [base]. *)
Definition stops (base : Z) (rest : cstr) : Prop :=
  match rest with
  | [] => True
  | c :: _ => match strtol_digit c with None => True | Some d => base <= d end
  end.

Definition no_blank (s : cstr) : Prop := chr " " ∉ s.
Definition blanks (s : cstr) : Prop := Forall (fun c => c = chr " ") s.

(** ** Lemmas: byte order *)

Lemma land_field x a w :
  0 <= a -> 0 <= w ->
  Z.land x (Z.shiftl (Z.ones w) a) = ((x / 2 ^ a) mod 2 ^ w) * 2 ^ a.
Proof.
  intros Ha Hw. rewrite <- Z.land_ones, <- Z.shiftr_div_pow2, <- Z.shiftl_mul_pow2 by lia.
  apply Z.bits_inj'. intros n Hn.
  rewrite Z.land_spec, !Z.shiftl_spec, Z.land_spec by lia.
  destruct (Z.ltb_spec n a).
  - by rewrite !(Z.testbit_neg_r _ (n - a)), !andb_false_r by lia.
  - rewrite Z.shiftr_spec by lia. f_equal. f_equal. lia.
Qed.

Lemma lor_insert x y m :
  Z.lor (Z.ldiff x m) (Z.land y m) = x - Z.land x m + Z.land y m.
Proof.
  assert (H1 := Z.add_lor_land (Z.ldiff x m) (Z.land y m)).
  assert (H2 := Z.add_lor_land (Z.ldiff x m) (Z.land x m)).
  rewrite Z.lor_ldiff_and in H2.
  assert (Z.land (Z.ldiff x m) (Z.land y m) = 0).
  { rewrite (Z.land_comm y m), Z.land_assoc, Z.land_ldiff. apply Z.land_0_l. }
  assert (Z.land (Z.ldiff x m) (Z.land x m) = 0).
  { rewrite (Z.land_comm x m), Z.land_assoc, Z.land_ldiff. apply Z.land_0_l. }
  lia.
Qed.

Lemma rotl32_val x n :
  0 <= n <= 32 -> 0 <= x < 4294967296 ->
  rotl32 x n = u32 (x * 2 ^ n) + x / 2 ^ (32 - n).
Proof.
  intros Hn Hx. unfold rotl32. rewrite (u32_small x) by lia.
  unfold shl32. rewrite Z.shiftl_mul_pow2, Z.shiftr_div_pow2 by lia.
  rewrite <- Z.add_lor_land.
  enough (Z.land (u32 (x * 2 ^ n)) (x / 2 ^ (32 - n)) = 0) by lia.
  apply Z.bits_inj'. intros k Hk. rewrite Z.land_spec, Z.bits_0.
  unfold u32. change 4294967296 with (2 ^ 32).
  destruct (Z.ltb_spec k n).
  - rewrite Z.mod_pow2_bits_low, Z.mul_pow2_bits_low by lia. done.
  - rewrite <- Z.shiftr_div_pow2, Z.shiftr_spec by lia.
    rewrite (Z.bits_above_log2 x (k + (32 - n))), andb_false_r; [done|lia|].
    destruct (decide (x = 0)) as [->|]; [simpl; lia|].
    assert (Z.log2 x < 32) by (apply Z.log2_lt_pow2; lia). lia.
Qed.

(** A word by its four bytes, most significant first. *)
Definition word4 (a b c d : Z) : Z := a * 16777216 + b * 65536 + c * 256 + d.

Lemma rotl32_word4 a b c d :
  is_byte a -> is_byte b -> is_byte c -> is_byte d ->
  rotl32 (word4 a b c d) 8 = word4 b c d a /\ rotl32 (word4 a b c d) 24 = word4 d a b c.
Proof.
  unfold is_byte, word4. intros.
  rewrite !rotl32_val by lia.
  change (2 ^ 8) with 256. change (2 ^ 24) with 16777216.
  change (2 ^ (32 - 8)) with 16777216. change (2 ^ (32 - 24)) with 256.
  split; word_lia.
Qed.

Lemma rlwimi_word4 ra rs sh e f g h p q r s :
  is_byte e -> is_byte f -> is_byte g -> is_byte h ->
  is_byte p -> is_byte q -> is_byte r -> is_byte s ->
  ra = word4 e f g h -> rotl32 rs sh = word4 p q r s ->
  rlwimi ra rs sh 16 23 = word4 e f r h
  /\ rlwimi ra rs sh 8 15 = word4 e q g h
  /\ rlwimi ra rs sh 0 7 = word4 p f g h.
Proof.
  intros ???????? -> Hrot. unfold rlwimi, ppc_mask.
  rewrite !lor_insert, !land_field, Hrot by lia.
  change (2 ^ (31 - 23)) with 256. change (2 ^ (31 - 15)) with 65536.
  change (2 ^ (31 - 7)) with 16777216. change (2 ^ (23 - 16 + 1)) with 256.
  change (2 ^ (15 - 8 + 1)) with 256. change (2 ^ (7 - 0 + 1)) with 256.
  unfold word4, is_byte in *. split_and!; word_lia.
Qed.

Lemma swab32_word4 a b c d :
  is_byte a -> is_byte b -> is_byte c -> is_byte d ->
  swab32 (word4 a b c d) = word4 d c b a.
Proof.
  intros Ha Hb Hc Hd. unfold swab32.
  destruct (rotl32_word4 a b c d) as [R8 R24]; [done..|].
  assert (Z0 : is_byte 0) by (unfold is_byte; lia).
  assert (E : Z.shiftr (word4 a b c d) 24 = word4 0 0 0 a).
  { rewrite Z.shiftr_div_pow2 by lia. change (2 ^ 24) with 16777216.
    unfold word4, is_byte in *. word_lia. }
  destruct (rlwimi_word4 (Z.shiftr (word4 a b c d) 24) (word4 a b c d) 24 0 0 0 a d a b c) as (-> & _ & _); [done..|exact E|exact R24|].
  destruct (rlwimi_word4 (word4 0 0 b a) (word4 a b c d) 8 0 0 b a b c d a)
    as (_ & -> & _); [done..|exact R8|].
  by destruct (rlwimi_word4 (word4 0 c b a) (word4 a b c d) 24 0 c b a d a b c)
    as (_ & _ & ->); [done..|exact R24|].
Qed.

Lemma swab16_word4 a b :
  is_byte a -> is_byte b -> swab16 (word4 0 0 a b) = word4 0 0 b a.
Proof.
  intros Ha Hb. unfold swab16.
  assert (Z0 : is_byte 0) by (unfold is_byte; lia).
  destruct (rotl32_word4 0 0 a b) as [R8 _]; [done..|].
  assert (E : Z.shiftr (word4 0 0 a b) 8 = word4 0 0 0 a).
  { rewrite Z.shiftr_div_pow2 by lia. change (2 ^ 8) with 256.
    unfold word4, is_byte in *. word_lia. }
  destruct (rlwimi_word4 (Z.shiftr (word4 0 0 a b) 8) (word4 0 0 a b) 8 0 0 0 a 0 a b 0) as (-> & _ & _); [done..|exact E|exact R8|].
  unfold word4, u16, is_byte in *. rewrite Z.mod_small; lia.
Qed.

Lemma swab32_be32 l i : bytes_ok l -> swab32 (be32 l i) = le32 l i.
Proof.
  intros Hl. etrans; [apply (swab32_word4 (byte_at l i)); auto with quik|].
  unfold word4, le32. lia.
Qed.

Lemma swab16_be16 l i : bytes_ok l -> swab16 (be16 l i) = le16 l i.
Proof.
  intros Hl. pose proof (swab16_word4 (byte_at l i) (byte_at l (i + 1))) as E.
  unfold word4 in E. unfold be16, le16.
  replace (byte_at l i * 256 + byte_at l (i + 1)) with
    (0 * 16777216 + 0 * 65536 + byte_at l i * 256 + byte_at l (i + 1)) by lia.
  rewrite E by auto with quik. lia.
Qed.

Lemma word4_bytes v :
  0 <= v < 4294967296 ->
  v = word4 (u8 (v / 16777216)) (u8 (v / 65536)) (u8 (v / 256)) (u8 v).
Proof. unfold word4. intros. word_lia. Qed.

Lemma swab32_range v : 0 <= v < 4294967296 -> 0 <= swab32 v < 4294967296.
Proof.
  intros Hv. rewrite (word4_bytes v Hv), swab32_word4 by (apply u8_range).
  pose proof (u8_range (v / 16777216)). pose proof (u8_range (v / 65536)).
  pose proof (u8_range (v / 256)). pose proof (u8_range v). unfold word4. lia.
Qed.

(** ** Lemmas: words *)

Lemma chomp_blanks s : exists b, s = b ++ chomp s /\ blanks b.
Proof.
  induction s as [|c s (b & Hs & Hb)]; simpl; [by exists []; split; [|constructor]|].
  destruct (Z.eqb_spec c (chr " ")) as [->|].
  - exists (chr " " :: b). simpl. rewrite <- Hs. split; [done|by constructor].
  - by exists []; split; [|constructor].
Qed.

Lemma chomp_head s c s' : chomp s = c :: s' -> c <> chr " ".
Proof.
  induction s as [|x s IH]; simpl; [done|].
  destruct (Z.eqb_spec x (chr " ")); naive_solver.
Qed.

Lemma chomp_id c s : c <> chr " " -> chomp (c :: s) = c :: s.
Proof. intros Hc. simpl. by destruct (Z.eqb_spec c (chr " ")). Qed.

Lemma chomp_app b s : blanks b -> chomp (b ++ s) = chomp s.
Proof. induction 1 as [|c b Hc Hb IH]; simpl; [done|]. destruct (Z.eqb_spec c (chr " ")); naive_solver. Qed.

Lemma chomp_idemp s : chomp (chomp s) = chomp s.
Proof.
  destruct (chomp s) as [|c t] eqn:E; [done|].
  apply chomp_id. by eapply chomp_head.
Qed.

Lemma split_word_spec s w r :
  split_word s = (w, r) ->
  s = w ++ r /\ no_blank w /\ match r with [] => True | c :: _ => c = chr " " end.
Proof.
  revert w r. induction s as [|c s IH]; intros w r; simpl.
  - intros [= <- <-]. split_and!; [done| |done]. unfold no_blank. ns_list.
  - destruct (Z.eqb_spec c (chr " ")) as [->|Hc].
    + intros [= <- <-]. split_and!; [done| |done]. unfold no_blank. ns_list.
    + destruct (split_word s) as [w' r'] eqn:E. intros [= <- <-].
      destruct (IH w' r' eq_refl) as (-> & Hw & Hr).
      split_and!; [done| |done]. unfold no_blank in *. ns_list.
Qed.

Lemma split_word_app w r :
  no_blank w -> match r with [] => True | c :: _ => c = chr " " end ->
  split_word (w ++ r) = (w, r).
Proof.
  unfold no_blank. induction w as [|c w IH]; simpl; intros Hw Hr.
  - destruct r as [|c r]; [done|]. simpl. destruct (Z.eqb_spec c (chr " ")); [done|naive_solver].
  - destruct (Z.eqb_spec c (chr " ")) as [->|]; [ns_list|].
    rewrite IH; [done| |done]. ns_list.
Qed.

(** *** The buffer of [word_split] *)

Lemma until_nul_app s r : cstr_ok s -> until_nul (s ++ 0 :: r) = s.
Proof.
  induction 1 as [|c s Hc Hs IH]; simpl; [done|].
  destruct (Z.eqb_spec c 0); [lia|]. by rewrite IH.
Qed.

Lemma until_nul_name s : cstr_ok s -> until_nul s = s.
Proof.
  induction 1 as [|c s Hc Hs IH]; [done|]. simpl. destruct (Z.eqb_spec c 0); [lia|]. by rewrite IH.
Qed.

Lemma skip_blanks_spec s r p :
  skip_blanks (s ++ 0 :: r) p = (p + (length s - length (chomp s)))%nat
  /\ (length (chomp s) <= length s)%nat.
Proof.
  revert p. induction s as [|c s IH]; intros p; simpl; [lia|].
  destruct (Z.eqb_spec c (chr " ")); simpl; [|lia].
  destruct (IH (S p)) as [-> ?]. lia.
Qed.

Lemma skip_word_spec s r p :
  cstr_ok s -> skip_word (s ++ 0 :: r) p = (p + length (fst (split_word s)))%nat.
Proof.
  intros Hs. revert p. induction Hs as [|c s Hc Hs IH]; intros p; simpl; [lia|].
  destruct (Z.eqb_spec c 0); [lia|]. simpl.
  destruct (Z.eqb_spec c (chr " ")); simpl; [lia|].
  rewrite IH. destruct (split_word s); simpl. lia.
Qed.

Lemma zero_blanks_spec s r :
  zero_blanks (s ++ 0 :: r)
  = replicate (length s - length (chomp s)) 0 ++ chomp s ++ 0 :: r.
Proof.
  induction s as [|c s IH]; simpl; [done|].
  destruct (Z.eqb_spec c (chr " ")); simpl.
  - rewrite IH. destruct (skip_blanks_spec s r 0) as [_ ?].
    replace (S (length s) - length (chomp s))%nat
      with (S (length s - length (chomp s))) by lia. done.
  - by rewrite Nat.sub_diag.
Qed.

Lemma chomp_ok s : cstr_ok s -> cstr_ok (chomp s).
Proof. intros Hs. destruct (chomp_blanks s) as (b & E & _). rewrite E in Hs. by apply Forall_app in Hs as [_ ?]. Qed.

Lemma byte_at_nul pre s r i :
  i = Z.of_nat (length pre) -> byte_at (pre ++ s ++ 0 :: r) i = hd 0 s.
Proof.
  intros ->. unfold byte_at. rewrite Nat2Z.id, lookup_app_r, Nat.sub_diag by lia.
  by destruct s.
Qed.

Lemma cstr_at_app pre s r i :
  i = Z.of_nat (length pre) -> cstr_ok s -> cstr_at (pre ++ s ++ 0 :: r) i = s.
Proof.
  intros -> Hs. unfold cstr_at. rewrite Nat2Z.id, drop_app_length. by apply until_nul_app.
Qed.

Lemma skip_blanks_app b s p :
  blanks b -> skip_blanks (b ++ s) p = skip_blanks s (p + length b)%nat.
Proof.
  intros Hb. revert p. induction Hb as [|c b Hc Hb IH]; intros p; simpl; [by rewrite Nat.add_0_r|].
  destruct (Z.eqb_spec c (chr " ")); [|done]. rewrite IH. f_equal. lia.
Qed.

(** The buffer after [word_split], as a concatenation. *)
Lemma word_split_buf_eq pre b c t r w rest :
  blanks b -> c <> chr " " -> cstr_ok (c :: t) -> split_word (c :: t) = (w, rest) ->
  let gap := replicate (length rest - length (chomp rest)) 0 in
  let m' := (pre ++ b) ++ w ++ gap ++ chomp rest ++ 0 :: r in
  word_split_buf (pre ++ (b ++ c :: t) ++ 0 :: r) (Some (length pre)) =
    ( m', Some (length (pre ++ b))
    , if byte_at m' (Z.of_nat (length (pre ++ b ++ w ++ gap))) =? 0 then None
      else Some (length (pre ++ b ++ w ++ gap)) ).
Proof.
  intros Hb Hc Hok Ew gap m'.
  pose proof (split_word_spec _ _ _ Ew) as (E1 & Hw & Hrest).
  unfold word_split_buf. rewrite drop_app_length, <- app_assoc, skip_blanks_app by done.
  assert (E0 : skip_blanks ((c :: t) ++ 0 :: r) (length pre + length b)
               = length (pre ++ b)).
  { simpl. destruct (Z.eqb_spec c (chr " ")); [done|]. by rewrite length_app. }
  rewrite E0, (app_assoc pre), (byte_at_nul (pre ++ b)), drop_app_length by done.
  assert (0 < c) by (inversion Hok; subst; lia).
  simpl hd. destruct (Z.eqb_spec c 0); [lia|].
  rewrite skip_word_spec, Ew by done. simpl fst.
  rewrite E1, <- !(app_assoc w), (app_assoc (pre ++ b)), <- length_app.
  rewrite drop_app_length, take_app_length.
  destruct (skip_blanks_spec rest r (length ((pre ++ b) ++ w))) as [-> Hlr].
  rewrite zero_blanks_spec. fold gap.
  assert (Hg : (length ((pre ++ b) ++ w) + (length rest - length (chomp rest)))%nat
    = length (pre ++ b ++ w ++ gap)).
  { unfold gap. rewrite !length_app, length_replicate. lia. }
  rewrite Hg. unfold m'. by rewrite <- !app_assoc.
Qed.

(** Reading the two results of [word_split_buf] back as strings. *)
Definition read_split (res : list Z * option nat * option nat) : option cstr * cstr :=
  let '(m, line, params) := res in
  ( option_map (fun p => cstr_at m (Z.of_nat p)) line
  , match params with Some q => cstr_at m (Z.of_nat q) | None => [] end ).

Lemma gap_nul rest r c t :
  rest = c :: t -> c = chr " " ->
  exists z, replicate (length rest - length (chomp rest)) 0 ++ chomp rest ++ 0 :: r = 0 :: z.
Proof.
  intros -> ->. simpl. destruct (Z.eqb_spec (chr " ") (chr " ")); [|done].
  destruct (skip_blanks_spec t r 0) as [_ ?].
  replace (S (length t) - length (chomp t))%nat with (S (length t - length (chomp t))) by lia.
  simpl. eauto.
Qed.

Lemma word_split_buf_read pre s r :
  cstr_ok s ->
  read_split (word_split_buf (pre ++ s ++ 0 :: r) (Some (length pre))) = word_split (Some s).
Proof.
  intros Hs. destruct (chomp_blanks s) as (b & Es & Hb).
  pose proof (chomp_ok _ Hs) as Hok. unfold word_split.
  destruct (chomp s) as [|c t] eqn:Hc.
  - unfold word_split_buf. rewrite drop_app_length.
    destruct (skip_blanks_spec s r (length pre)) as [-> _]. rewrite Hc. simpl length.
    rewrite app_assoc, Nat.sub_0_r, <- length_app.
    by rewrite (byte_at_nul (pre ++ s) [] r).
  - destruct (split_word (c :: t)) as [w rest] eqn:Ew.
    rewrite Es, (word_split_buf_eq pre b c t r w rest) by (eauto using chomp_head).
    pose proof (split_word_spec _ _ _ Ew) as (E1 & Hw & Hrest).
    rewrite E1 in Hok. apply Forall_app in Hok as [Hwok Hrok].
    pose proof (chomp_ok _ Hrok) as Hcrok.
    set (gap := replicate _ 0). unfold read_split.
    assert (Hp : pre ++ b ++ w ++ gap = ((pre ++ b) ++ w) ++ gap) by (by rewrite <- !app_assoc).
    assert (Hm : (pre ++ b) ++ w ++ gap ++ chomp rest ++ 0 :: r
                 = (((pre ++ b) ++ w) ++ gap) ++ chomp rest ++ 0 :: r) by (by rewrite <- !app_assoc).
    rewrite Hp. f_equal.
    + simpl. f_equal. destruct rest as [|c' t'].
      * by apply cstr_at_app.
      * destruct (gap_nul (c' :: t') r c' t' eq_refl Hrest) as [z Hz].
        unfold gap. rewrite Hz. by apply cstr_at_app.
    + rewrite Hm, (byte_at_nul (((pre ++ b) ++ w) ++ gap)) by done.
      destruct (chomp rest) as [|c2 t2]; [done|]. simpl hd.
      inversion Hcrok; subst. destruct (Z.eqb_spec c2 0); [lia|].
      by apply cstr_at_app.
Qed.

(** [word_split] cuts the line into blanks, a word, blanks and the rest. *)
Lemma word_split_some s w ps :
  word_split (Some s) = (Some w, ps) ->
  exists b1 b2, s = b1 ++ w ++ b2 ++ ps /\ blanks b1 /\ blanks b2 /\ w <> [] /\ no_blank w
    /\ chomp ps = ps /\ (ps <> [] -> b2 <> []).
Proof.
  unfold word_split. destruct (chomp_blanks s) as (b1 & Es & Hb1).
  destruct (chomp s) as [|c t] eqn:Hc; [done|].
  destruct (split_word (c :: t)) as [w' r] eqn:Ew. intros [= -> <-].
  destruct (split_word_spec _ _ _ Ew) as (E1 & Hw & Hr).
  destruct (chomp_blanks r) as (b2 & Er & Hb2).
  exists b1, b2. rewrite <- Er, <- E1. split_and!; try done.
  - intros ->. simpl in E1. subst r. by apply (chomp_head _ _ _ Hc).
  - apply chomp_idemp.
  - intros Hne ->. simpl in Er. rewrite <- Er in Hne. destruct r as [|x r]; [done|].
    subst x. simpl in Er. destruct (Z.eqb_spec (chr " ") (chr " ")); [|done].
    destruct (chomp_blanks r) as (b3 & E3 & _).
    apply (f_equal length) in Er, E3. rewrite length_app in E3. simpl in Er. lia.
Qed.

Lemma word_split_none s ps : word_split (Some s) = (None, ps) -> ps = [] /\ blanks s.
Proof.
  unfold word_split. destruct (chomp_blanks s) as (b1 & Es & Hb1).
  destruct (chomp s) as [|c t].
  - intros [= <-]. rewrite app_nil_r in Es. by subst.
  - by destruct (split_word (c :: t)).
Qed.

(** ** Lemmas: case folding *)

Lemma tolower_ok c : 0 < c < 256 -> 0 < tolower c < 256.
Proof. intros Hc. unfold tolower. unfold_chr. zcases; simpl; lia. Qed.

(** ** Lemmas: [strtol] *)

Lemma digits_value_mono base ds acc :
  2 <= base -> Forall (fun d => 0 <= d < base) ds -> 0 <= acc -> acc <= digits_value base ds acc.
Proof.
  intros Hb Hds. revert acc. induction Hds as [|d ds Hd Hds IH]; intros acc Ha; simpl; [lia|].
  etrans; [|apply IH]; nia.
Qed.

Lemma spells_range base cs ds : spells base cs ds -> Forall (fun d => 0 <= d < base) ds.
Proof. induction 1; constructor; naive_solver. Qed.

Lemma strtol_loop_stop base cutoff cutlim rest i ov n :
  stops base rest -> strtol_loop base cutoff cutlim rest i ov n = (i, ov, n).
Proof.
  destruct rest as [|c rest]; simpl; [done|].
  destruct (strtol_digit c); [|done]. intros ?. by destruct (Z.leb_spec base z); [|lia].
Qed.

(** Once the overflow flag is set it stays set, and every digit is consumed. *)
Lemma strtol_loop_over base cutoff cutlim cs ds rest i n :
  spells base cs ds -> stops base rest ->
  exists i', strtol_loop base cutoff cutlim (cs ++ rest) i true n
             = (i', true, (n + length cs)%nat).
Proof.
  intros Hcs Hstop. revert i n.
  induction Hcs as [|c d cs ds [Hc Hd] Hcs IH]; intros i n; simpl.
  - rewrite strtol_loop_stop, Nat.add_0_r by done. eauto.
  - rewrite Hc. destruct (Z.leb_spec base d); [lia|]. rewrite Nat.add_succ_r.
    destruct ((cutoff <? i) || ((i =? cutoff) && (cutlim <? d))); apply (IH _ (S n)).
Qed.

Lemma strtol_loop_digits base cs ds rest i n :
  2 <= base <= 36 -> spells base cs ds -> stops base rest -> 0 <= i <= 0x7FFFFFFF ->
  let v := digits_value base ds i in
  exists i', strtol_loop base (0x7FFFFFFF / base) (0x7FFFFFFF mod base) (cs ++ rest) i false n
             = (i', 0x7FFFFFFF <? v, (n + length cs)%nat)
             /\ (v <= 0x7FFFFFFF -> i' = v).
Proof.
  intros Hb Hcs Hstop. revert i n.
  induction Hcs as [|c d cs ds [Hc Hd] Hcs IH]; intros i n Hi; simpl.
  - rewrite strtol_loop_stop, Nat.add_0_r by done.
    exists i. split; [|done]. destruct (Z.ltb_spec 0x7FFFFFFF i); [lia|done].
  - rewrite Hc. destruct (Z.leb_spec base d); [lia|]. rewrite Nat.add_succ_r.
    pose proof (Z.div_mod 0x7FFFFFFF base) as Hdm.
    pose proof (Z.mod_pos_bound 0x7FFFFFFF base).
    destruct ((0x7FFFFFFF / base <? i) || _) eqn:E.
    + destruct (strtol_loop_over base (0x7FFFFFFF / base) (0x7FFFFFFF mod base)
                  cs ds rest i (S n)) as [i' ->]; [done..|].
      assert (Hv : 0x7FFFFFFF < i * base + d).
      { apply orb_prop in E as [E|E]; [apply Z.ltb_lt in E; nia|].
        apply andb_prop in E as [E1 E2]. apply Z.eqb_eq in E1. apply Z.ltb_lt in E2. nia. }
      assert (i * base + d <= digits_value base ds (i * base + d)) as Hm.
      { apply digits_value_mono; [lia|by eapply spells_range|lia]. }
      exists i'. unfold digits_value in *. simpl. split; [|lia].
      destruct (Z.ltb_spec 0x7FFFFFFF (foldl (λ a d0, a * base + d0) (i * base + d) ds)); [done|lia].
    + apply orb_false_elim in E as [E1 E2]. apply Z.ltb_ge in E1.
      assert (Hv : 0 <= i * base + d <= 0x7FFFFFFF).
      { destruct (Z.eqb_spec i (0x7FFFFFFF / base)) as [Heq|]; simpl in E2; [|nia].
        apply Z.ltb_ge in E2. nia. }
      rewrite (u32_small (i * base)) by lia. rewrite u32_small by lia.
      destruct (IH (i * base + d) (S n) Hv) as (i' & -> & Hi').
      exists i'. split; [done|]. apply Hi'.
Qed.

(** Blanks before the number. *)
Definition spaces (s : cstr) : Prop := Forall (fun c => 0 < c <= 32) s.

Lemma strtol_blanks_app ws s :
  spaces ws -> 32 < hd 33 s -> strtol_blanks (ws ++ s) = length ws.
Proof.
  intros Hws Hs. induction Hws as [|c ws Hc Hws IH]; simpl.
  - destruct s as [|x s]; simpl in *; [done|]. by destruct (Z.leb_spec x 32); [lia|].
  - destruct (Z.leb_spec c 32); [|lia]. destruct (Z.eqb_spec c 0); [lia|]. simpl. by rewrite IH.
Qed.

Lemma byte_at_drop (l : list Z) (p : nat) i :
  0 <= i -> byte_at (drop p l) i = byte_at l (Z.of_nat p + i).
Proof. intros. unfold byte_at. rewrite lookup_drop. do 2 f_equal. lia. Qed.

Lemma byte_at_app_r (l1 l2 : list Z) i :
  Z.of_nat (length l1) <= i -> byte_at (l1 ++ l2) i = byte_at l2 (i - Z.of_nat (length l1)).
Proof. intros. unfold byte_at. rewrite lookup_app_r by lia. do 2 f_equal. lia. Qed.

Lemma byte_at_app_l (l1 l2 : list Z) i :
  0 <= i < Z.of_nat (length l1) -> byte_at (l1 ++ l2) i = byte_at l1 i.
Proof. intros. unfold byte_at. rewrite lookup_app_l by lia. done. Qed.

Lemma digit_char c d : strtol_digit c = Some d -> 32 < c /\ c <> chr "-" /\ c <> chr "+".
Proof.
  unfold strtol_digit. unfold_chr.
  destruct (Z.leb_spec 48 c), (Z.leb_spec c 57); simpl; try (intros [= <-]; lia);
  destruct (Z.leb_spec 65 c), (Z.leb_spec c 90); simpl; try (intros [= <-]; lia);
  destruct (Z.leb_spec 97 c), (Z.leb_spec c 122); simpl; try done; intros [= <-]; lia.
Qed.

(** The number of a run of digits, saturated at the largest [int]. *)
Definition saturate (v : Z) : Z := Z.min v 0x7FFFFFFF.

(** Reading an unsigned numeral of an explicit base that has no prefix. *)
Lemma strtol_digits base ws cs ds rest :
  2 <= base <= 36 -> spaces ws -> spells base cs ds -> cs <> [] -> stops base rest ->
  (base = 16 -> hex_prefix (cs ++ rest) = false) ->
  strtol (ws ++ cs ++ rest) base
  = (saturate (digits_value base ds 0), (length ws + length cs)%nat).
Proof.
  intros Hb Hws Hcs Hne Hstop Hhex. unfold strtol.
  destruct (Z.ltb_spec base 0); [lia|]. destruct (Z.eqb_spec base 1); [lia|].
  destruct (Z.ltb_spec 36 base); [lia|]. cbn [orb].
  destruct Hcs as [|c d cs ds [Hc Hd] Hcs]; [done|]. clear Hne.
  destruct (digit_char c d Hc) as (Hc32 & Hcm & Hcp).
  rewrite strtol_blanks_app by (simpl; done || lia).
  assert (Hb0 : byte_at (ws ++ (c :: cs) ++ rest) (Z.of_nat (length ws)) = c).
  { rewrite byte_at_app_r, Z.sub_diag by lia. done. }
  rewrite Hb0. destruct (Z.eqb_spec c 0); [lia|].
  unfold strtol_prefix. rewrite Hb0.
  destruct (Z.eqb_spec c (chr "-")); [done|]. destruct (Z.eqb_spec c (chr "+")); [done|].
  cbn [orb]. rewrite drop_app_length.
  assert ((base =? 16) && hex_prefix ((c :: cs) ++ rest) = false) as ->.
  { destruct (Z.eqb_spec base 16) as [E|]; [by rewrite Hhex|done]. }
  destruct (Z.eqb_spec base 0); [lia|]. rewrite drop_app_length.
  destruct (strtol_loop_digits base (c :: cs) (d :: ds) rest 0 0) as (i' & -> & Hi');
    [lia|by constructor|done|lia|].
  rewrite Nat.add_0_l. simpl Nat.eqb. cbv iota.
  set (v := digits_value base (d :: ds) 0) in *. f_equal.
  unfold saturate. destruct (Z.ltb_spec 0x7FFFFFFF v).
  - rewrite Z.min_r by lia. done.
  - rewrite Z.min_l, Hi' by lia. apply s32_small.
    pose proof (digits_value_mono base (d :: ds) 0) as Hm.
    assert (0 <= v); [|lia]. apply Hm; [lia| |lia].
    apply (spells_range base (c :: cs)). by constructor.
Qed.

(** Base 0 takes a numeral that does not start with 0 as decimal. *)
Lemma strtol_auto_decimal ws cs ds rest :
  spaces ws -> spells 10 cs ds -> cs <> [] -> stops 10 rest -> hd 0 cs <> chr "0" ->
  strtol (ws ++ cs ++ rest) 0 = strtol (ws ++ cs ++ rest) 10.
Proof.
  intros Hws Hcs Hne Hstop Hz. unfold strtol.
  change ((0 <? 0) || (0 =? 1) || (36 <? 0)) with false.
  change ((10 <? 0) || (10 =? 1) || (36 <? 10)) with false. cbv iota.
  destruct Hcs as [|c d cs ds [Hc Hd] Hcs]; [done|]. clear Hne.
  destruct (digit_char c d Hc) as (Hc32 & Hcm & Hcp). simpl in Hz.
  rewrite strtol_blanks_app by (simpl; done || lia).
  assert (Hb0 : byte_at (ws ++ (c :: cs) ++ rest) (Z.of_nat (length ws)) = c).
  { rewrite byte_at_app_r, Z.sub_diag by lia. done. }
  unfold strtol_prefix. rewrite Hb0.
  destruct (Z.eqb_spec c (chr "-")); [done|]. destruct (Z.eqb_spec c (chr "+")); [done|].
  change (0 =? 16) with false. change (10 =? 16) with false.
  change (0 =? 0) with true. change (10 =? 0) with false. cbn [orb andb]. cbv iota.
  rewrite Hb0. by destruct (Z.eqb_spec c (chr "0")).
Qed.
