(* ===== verification/Malloc.v ===== *)
(** * The heap (malloc.c)

    A bump allocator over the claimed arena.  Each block is preceded by a 4-byte
    header that holds its size; only the most recent block can be given back.
    The state is the three static pointers and the headers; the bytes of the
    blocks belong to the objects the other components keep in them. *)
From Stdlib Require Import ZArith Lia.
From stdpp Require Import prelude gmap.
From S2P Require Import Prelude Quik.

Record heap := mk_heap {
  malloc_ptr : Z;
  malloc_end : Z;
  last_alloc : Z;
  headers : gmap Z Z
}.

(** The statics before [malloc_init]. *)
Definition heap_init : heap := mk_heap 0 0 0 ∅.

(** The heap once the arena [base, base + MALLOC_SIZE) has been claimed. *)
Definition heap_claimed (base : Z) (h : heap) : heap :=
  mk_heap base (u32 (base + MALLOC_SIZE)) (last_alloc h) (headers h).

(** ** Operations *)

Definition malloc (size : Z) (h : heap) : option Z * heap :=
  if malloc_end h <=? u32 (u32 (malloc_ptr h + size) + 4) then (None, h)
  else
    let caddr := u32 (malloc_ptr h + 4) in
    let ptr := u32 (malloc_ptr h + u32 (size + 4)) in
    ( Some caddr
    , mk_heap (Z.land (u32 (ptr + 3)) (u32 (Z.lnot 3))) (malloc_end h) caddr
        (<[malloc_ptr h := size]> (headers h)) ).

Definition free (m : Z) (h : heap) : heap :=
  if m =? last_alloc h
  then mk_heap (u32 (last_alloc h - 4)) (malloc_end h) (last_alloc h) (headers h)
  else h.

(** The pointer returned and, when the data moved, the number of bytes copied
    from the old block. *)
Definition realloc (ptr size : Z) (h : heap) : option Z * option Z * heap :=
  if ptr =? last_alloc h
  then (Some ptr, None,
        mk_heap (u32 (ptr + size)) (malloc_end h) (last_alloc h)
          (<[u32 (ptr - 4) := size]> (headers h)))
  else
    let '(caddr, h') := malloc size h in
    match caddr with
    | Some c =>
        if ptr =? 0 then (Some c, None, h')
        else (Some c, Some (default 0 (headers h' !! u32 (ptr - 4))), h')
    | None => (None, None, h')
    end.

Definition mark (h : heap) : Z := malloc_ptr h.

Definition release (ptr : Z) (h : heap) : heap :=
  mk_heap ptr (malloc_end h) (last_alloc h) (headers h).

(** ** Specification *)

(** The arena is below the 32-bit limit and the bump pointer stays in it, on a
    word boundary; the last block, if any, ends at most at the bump pointer. *)
Definition heap_ok (base : Z) (h : heap) : Prop :=
  0 < base /\ base mod 4 = 0 /\ malloc_end h = base + MALLOC_SIZE
  /\ base + 2 * MALLOC_SIZE + 8 < 4294967296
  /\ base <= malloc_ptr h <= malloc_end h /\ malloc_ptr h mod 4 = 0
  /\ (last_alloc h = 0 \/
      (base + 4 <= last_alloc h <= malloc_ptr h + 4 /\ last_alloc h mod 4 = 0)).

(** The blocks a client holds: address and size. *)
Definition block : Type := Z * Z.

Definition disjoint_blocks (b1 b2 : block) : Prop :=
  b1.1 + b1.2 <= b2.1 \/ b2.1 + b2.2 <= b1.1.

(** What a client may do: allocate fewer bytes than the arena holds, and free a
    block it holds. *)
Inductive heap_step : heap * list block -> heap * list block -> Prop :=
| step_malloc h live size p h' :
    0 <= size <= MALLOC_SIZE -> malloc size h = (Some p, h') ->
    heap_step (h, live) (h', (p, size) :: live)
| step_malloc_fail h live size h' :
    0 <= size <= MALLOC_SIZE -> malloc size h = (None, h') ->
    heap_step (h, live) (h', live)
| step_free h l1 p size l2 :
    heap_step (h, l1 ++ (p, size) :: l2) (free p h, l1 ++ l2).

(** The states reached from a freshly claimed arena. *)
Inductive heap_reach (base : Z) : heap -> list block -> Prop :=
| reach_init h : last_alloc h = 0 -> heap_reach base (heap_claimed base h) []
| reach_step h live h' live' :
    heap_reach base h live -> heap_step (h, live) (h', live') -> heap_reach base h' live'.

(** A held block lies in the arena below the bump pointer and, unless it is the
    last one, below the last block's header. *)
Definition block_ok (base : Z) (h : heap) (b : block) : Prop :=
  base + 4 <= b.1 /\ 0 <= b.2 /\ b.1 mod 4 = 0 /\ b.1 + b.2 <= malloc_ptr h
  /\ (b.1 = last_alloc h \/ (b.1 < last_alloc h /\ b.1 + b.2 <= last_alloc h - 4)).

Definition heap_inv (base : Z) (h : heap) (live : list block) : Prop :=
  heap_ok base h /\ Forall (block_ok base h) live
  /\ ForallOrdPairs disjoint_blocks live /\ NoDup live.*1.

(** The heap can give out [n] more bytes, headers and padding included. *)
Definition heap_room (n : Z) (h : heap) : Prop :=
  exists base, heap_ok base h /\ malloc_ptr h + n < malloc_end h.

(** ** Lemmas *)

Lemma align4 z : 0 <= z -> z + 3 < 4294967296 ->
  Z.land (u32 (z + 3)) (u32 (Z.lnot 3)) = (z + 3) / 4 * 4.
Proof.
  intros Hz Hlt. rewrite u32_small by lia.
  assert (E : u32 (Z.lnot 3) = Z.ldiff (Z.ones 32) (Z.ones 2)) by reflexivity.
  rewrite E, Z.ldiff_land, Z.land_assoc, Z.land_ones by lia.
  change (2 ^ 32) with 4294967296. rewrite Z.mod_small by lia.
  rewrite <- Z.ldiff_land, Z.ldiff_ones_r, Z.shiftl_mul_pow2, Z.shiftr_div_pow2 by lia.
  done.
Qed.

(** [malloc] on a well-formed heap, for a size the arena could hold. *)
Lemma malloc_eq base size h :
  heap_ok base h -> 0 <= size <= MALLOC_SIZE ->
  malloc size h =
    if malloc_end h <=? malloc_ptr h + size + 4 then (None, h)
    else (Some (malloc_ptr h + 4),
          mk_heap ((malloc_ptr h + size + 4 + 3) / 4 * 4) (malloc_end h) (malloc_ptr h + 4)
            (<[malloc_ptr h := size]> (headers h))).
Proof.
  intros (H1 & H2 & H3 & H4 & H5 & H6 & H7) Hs. unfold malloc, MALLOC_SIZE in *.
  rewrite (u32_small (malloc_ptr h + size)), (u32_small (size + 4)) by lia.
  rewrite (u32_small (malloc_ptr h + size + 4)) by lia.
  destruct (Z.leb_spec (malloc_end h) (malloc_ptr h + size + 4)); [done|].
  rewrite (u32_small (malloc_ptr h + 4)), (u32_small (malloc_ptr h + (size + 4))) by lia.
  rewrite align4 by lia. by rewrite Z.add_assoc.
Qed.

Lemma malloc_heap_ok base size h p h' :
  heap_ok base h -> 0 <= size <= MALLOC_SIZE -> malloc size h = (p, h') -> heap_ok base h'.
Proof.
  intros Hok Hs. rewrite (malloc_eq base) by done.
  destruct (Z.leb_spec (malloc_end h) (malloc_ptr h + size + 4)); intros [= <- <-]; [done|].
  destruct Hok as (H1 & H2 & H3 & H4 & H5 & H6 & H7).
  unfold heap_ok, MALLOC_SIZE in *. simpl. split_and!; try lia.
  - Z.div_mod_to_equations; lia.
  - Z.div_mod_to_equations; lia.
  - by rewrite Z_mod_mult.
  - right. split; Z.div_mod_to_equations; lia.
Qed.

Lemma free_heap_ok base m h : heap_ok base h -> m <> 0 -> heap_ok base (free m h).
Proof.
  intros (H1 & H2 & H3 & H4 & H5 & H6 & H7) Hm. unfold free.
  destruct (Z.eqb_spec m (last_alloc h)) as [->|]; [|done].
  destruct H7 as [?|[H7 H8]]; [done|].
  unfold heap_ok, MALLOC_SIZE in *. simpl. rewrite u32_small by lia.
  split_and!; try lia; Z.div_mod_to_equations; lia.
Qed.

(** Freeing the block just allocated gives its space back. *)
Lemma free_malloc_ptr base size h p h' :
  heap_ok base h -> 0 <= size <= MALLOC_SIZE -> malloc size h = (Some p, h') ->
  malloc_ptr (free p h') = malloc_ptr h /\ malloc_end (free p h') = malloc_end h.
Proof.
  intros Hok Hs. rewrite (malloc_eq base) by done.
  destruct (Z.leb_spec (malloc_end h) (malloc_ptr h + size + 4)); intros [= <- <-].
  unfold free. simpl. rewrite Z.eqb_refl. simpl.
  destruct Hok as (H1 & H2 & H3 & H4 & H5 & H6 & H7). unfold MALLOC_SIZE in *.
  rewrite u32_small by lia. split; lia.
Qed.

Lemma heap_inv_malloc base size h live p h' :
  heap_inv base h live -> 0 <= size <= MALLOC_SIZE -> malloc size h = (Some p, h') ->
  heap_inv base h' ((p, size) :: live).
Proof.
  intros (Hok & Hlive & Hdis & Hnd) Hs Hm.
  assert (Hok' : heap_ok base h') by (by eapply malloc_heap_ok).
  rewrite (malloc_eq base) in Hm by done.
  destruct (Z.leb_spec (malloc_end h) (malloc_ptr h + size + 4)); simplify_eq/=.
  destruct Hok as (H1 & H2 & H3 & H4 & H5 & H6 & H7).
  split; [done|]. split_and!.
  - constructor.
    + unfold block_ok. simpl. split_and!; try lia; Z.div_mod_to_equations; lia.
    + eapply Forall_impl; [exact Hlive|]. intros [a s] (B1 & B2 & B3 & B4 & B5).
      unfold block_ok in *. simpl in *. split_and!; try lia; try done.
      Z.div_mod_to_equations; lia.
  - constructor; [|done]. eapply Forall_impl; [exact Hlive|].
    intros [a s] (B1 & B2 & B3 & B4 & B5). right. simpl in *. lia.
  - simpl. constructor; [|done]. intros Hin.
    apply list_elem_of_fmap in Hin as ([a s] & E & Hin). simpl in E.
    rewrite Forall_forall in Hlive. destruct (Hlive _ Hin) as (_ & B2 & _ & B4 & _).
    simpl in *. lia.
Qed.

Lemma ForallOrdPairs_app_mid {A} (R : A -> A -> Prop) l1 x l2 :
  ForallOrdPairs R (l1 ++ x :: l2) -> ForallOrdPairs R (l1 ++ l2).
Proof.
  induction l1 as [|y l1 IH]; simpl; intros H; inversion H as [|? ? Hf Ho]; subst; [done|].
  constructor; [|by apply IH].
  apply Forall_app in Hf as [? Hf]. inversion Hf; subst. by apply Forall_app.
Qed.

Lemma NoDup_remove_mid {A} (l1 l2 : list A) x : NoDup (l1 ++ x :: l2) -> NoDup (l1 ++ l2).
Proof.
  rewrite !NoDup_app, NoDup_cons. intros (? & H & ? & ?). split; [done|]. split; [|done].
  intros y Hy Hin. apply (H y Hy). by right.
Qed.

Lemma heap_inv_free base h l1 p size l2 :
  heap_inv base h (l1 ++ (p, size) :: l2) -> heap_inv base (free p h) (l1 ++ l2).
Proof.
  intros (Hok & Hlive & Hdis & Hnd).
  assert (Hp : block_ok base h (p, size)) by (rewrite Forall_app, Forall_cons in Hlive; tauto).
  assert (Hrest : Forall (block_ok base h) (l1 ++ l2)).
  { rewrite Forall_app, Forall_cons in Hlive. apply Forall_app. tauto. }
  destruct Hok as (H1 & H2 & H3 & H4 & H5 & H6 & H7).
  split_and!.
  - apply free_heap_ok; [by unfold heap_ok|]. destruct Hp as (? & _). simpl in *. lia.
  - unfold free. destruct (Z.eqb_spec p (last_alloc h)) as [->|]; [|done].
    rewrite Forall_forall in *. intros [a s] Hin. destruct (Hrest _ Hin) as (B1 & B2 & B3 & B4 & B5).
    unfold block_ok, MALLOC_SIZE in *. simpl in *.
    assert (a <> last_alloc h).
    { intros ->. rewrite fmap_app, fmap_cons in Hnd. apply NoDup_app in Hnd as (_ & N2 & N3').
      apply NoDup_cons in N3' as [N3 _]. simpl in N2, N3.
      apply elem_of_app in Hin as [Hin|Hin].
      - apply (N2 (last_alloc h)); [|by left]. apply list_elem_of_fmap. by exists (last_alloc h, s).
      - apply N3. apply list_elem_of_fmap. by exists (last_alloc h, s). }
    rewrite u32_small by lia. split_and!; try lia; try done.
  - by eapply ForallOrdPairs_app_mid.
  - rewrite fmap_app, fmap_cons in Hnd. rewrite fmap_app.
    by eapply NoDup_remove_mid.
Qed.

Lemma heap_inv_reach base h live :
  0 < base -> base mod 4 = 0 -> base + 2 * MALLOC_SIZE + 8 < 4294967296 ->
  heap_reach base h live -> heap_inv base h live.
Proof.
  intros Hb Hb4 Hbe. induction 1 as [h Hl|h live h' live' Hr IH Hst].
  - split; [|split; [constructor|split; constructor]].
    unfold heap_ok, heap_claimed, MALLOC_SIZE in *. simpl.
    rewrite u32_small by lia. split_and!; try lia; try done.
  - inversion Hst; subst.
    + by eapply heap_inv_malloc.
    + destruct IH as (Hok & Hrest). rewrite (malloc_eq base) in * by done.
      by destruct (malloc_end h <=? malloc_ptr h + size + 4); simplify_eq.
    + by eapply heap_inv_free.
Qed.

(** ** Lemmas: room in the heap *)

Lemma heap_room_malloc n size h :
  heap_room n h -> 0 <= size <= MALLOC_SIZE -> size + 8 <= n ->
  exists p h', malloc size h = (Some p, h') /\ p <> 0 /\ heap_room (n - (size + 8)) h'.
Proof.
  intros (base & Hok & Hn) Hs Hsz.
  pose proof (malloc_eq base size h Hok Hs) as E.
  destruct (Z.leb_spec (malloc_end h) (malloc_ptr h + size + 4)); [lia|].
  eexists _, _. split; [exact E|].
  pose proof (malloc_heap_ok base size h _ _ Hok Hs E) as Hok'.
  pose proof Hok as (H1 & H2 & H3 & H4 & H5 & H6 & H7). split; [lia|].
  exists base. split; [done|]. simpl. Z.div_mod_to_equations. lia.
Qed.

Lemma heap_room_free n p h : heap_room n h -> p <> 0 -> heap_room n (free p h).
Proof.
  intros (base & Hok & Hn) Hp. exists base. split; [by apply free_heap_ok|].
  pose proof Hok as (H1 & H2 & H3 & H4 & H5 & H6 & H7).
  unfold free. destruct (Z.eqb_spec p (last_alloc h)) as [->|]; [|done]. simpl.
  destruct H7 as [?|[? ?]]; [done|]. rewrite u32_small by lia. lia.
Qed.

Lemma heap_room_le n n' h : heap_room n h -> n' <= n -> heap_room n' h.
Proof. intros (base & Hok & Hn) Hle. exists base. split; [done|lia]. Qed.
