(* ===== verification/Printf.v ===== *)
(** * Formatted output (printf.c)

    The conversions as functions to the characters handed to [putchar]. *)
From Stdlib Require Import ZArith Lia Ascii.
From stdpp Require Import prelude strings.
From S2P Require Import Prelude Quik CString Util.

(** ** Operations *)

(** The arguments of a format, by the type [va_arg] reads. *)
Inductive karg : Type :=
| KNum (n : Z)               (* a 32-bit word: u o x X i d c *)
| KStr (s : option cstr)     (* char*: s *)
| KErr (e : Z)               (* quik_err_t: r *)
| KPath (p : option path_t)  (* path_t*: P *)
| KPtr (p : Z).              (* void*: p *)

Definition printks (s : option cstr) : cstr :=
  match s with None => str "<NULL>" | Some s => s end.

Definition printkr (err : Z) : cstr :=
  if err <? err_code ERR_INVALID then default [] (errors !! Z.to_nat err)
  else default [] (errors !! Z.to_nat (err_code ERR_INVALID)).

Definition hex_digit (d : Z) : Z := byte_at (str "0123456789ABCDEF") d.

(** The digits of [n], least significant first: the do-while loop that fills
    [prbuf].  32 rounds are enough: the mask leaves 28 bits after the first. *)
Fixpoint printk_digits (fuel : nat) (n b : Z) : list Z :=
  match fuel with
  | O => []
  | S fuel' =>
      let d := hex_digit (n mod b) in
      let n' := Z.land (n / b) 0x0FFFFFFF in
      if n' =? 0 then [d] else d :: printk_digits fuel' n' b
  end.

(** [printknu]: the second loop emits [prbuf] backwards. *)
Definition printknu (n b : Z) : cstr := rev (printk_digits 32 n b).

(** [printkns] on a 32-bit [long]; [- n] wraps for the smallest one, and [n % b]
    then indexes the digit table with a negative number. *)
Definition printkns (n b : Z) : outcome quik_err_t cstr :=
  if n <? 0 then
    let n' := s32 (- n) in
    if n' <? 0 then Undef OutOfBounds else Ok (chr "-" :: rev (printk_digits 32 n' b))
  else Ok (rev (printk_digits 32 n b)).

(** A NULL path is reported and then dereferenced. *)
Definition printkp (path : option path_t) : outcome quik_err_t cstr :=
  match path with
  | None => Undef NullDeref
  | Some p => Ok (printks (p_device p) ++ [chr ":"] ++ printknu (p_part p) 10 ++ p_path p)
  end.

(** One conversion; a character that is not one prints nothing and takes no
    argument. *)
Definition printk_conv (c : Z) (args : list karg) : outcome quik_err_t (cstr * list karg) :=
  if (c =? chr "u") || (c =? chr "o") || (c =? chr "x") || (c =? chr "X") then
    match args with
    | KNum n :: args' =>
        Ok (printknu n (if c =? chr "o" then 8 else if c =? chr "u" then 10 else 16), args')
    | _ => Undef BadFormat
    end
  else if (c =? chr "i") || (c =? chr "d") then
    match args with
    | KNum n :: args' =>
        match printkns (s32 n) 10 with
        | Ok s => Ok (s, args') | Err e => Err e | Undef u => Undef u
        end
    | _ => Undef BadFormat
    end
  else if c =? chr "c" then
    match args with KNum n :: args' => Ok ([u8 n], args') | _ => Undef BadFormat end
  else if c =? chr "s" then
    match args with KStr s :: args' => Ok (printks s, args') | _ => Undef BadFormat end
  else if c =? chr "r" then
    match args with KErr e :: args' => Ok (printkr e, args') | _ => Undef BadFormat end
  else if c =? chr "P" then
    match args with
    | KPath p :: args' =>
        match printkp p with
        | Ok s => Ok (s, args') | Err e => Err e | Undef u => Undef u
        end
    | _ => Undef BadFormat
    end
  else if c =? chr "p" then
    match args with
    | KPtr p :: args' =>
        Ok (if p =? 0 then printks None else str "0x" ++ printknu p 16, args')
    | _ => Undef BadFormat
    end
  else Ok ([], args).

(** The scan of the format; the terminating NUL is sent to [putchar] too.  A
    ['%'] before the NUL makes the scan run past the end of the string. *)
Fixpoint vprintk (fmt : cstr) (args : list karg) : outcome quik_err_t cstr :=
  match fmt with
  | [] => Ok [0]
  | c :: fmt' =>
      if c =? chr "%" then
        match fmt' with
        | [] => Undef OutOfBounds
        | d :: fmt'' =>
            match printk_conv d args with
            | Ok (out, args') =>
                match vprintk fmt'' args' with
                | Ok rest => Ok (out ++ rest)
                | Err e => Err e
                | Undef u => Undef u
                end
            | Err e => Err e
            | Undef u => Undef u
            end
        end
      else
        match vprintk fmt' args with
        | Ok rest => Ok (c :: rest)
        | Err e => Err e
        | Undef u => Undef u
        end
  end.

(** ** Specifications *)

(** The digits of [n] in base [b], least significant first. *)
Fixpoint nat_digits (fuel : nat) (b n : Z) : list Z :=
  match fuel with
  | O => []
  | S fuel' => if n / b =? 0 then [n mod b] else n mod b :: nat_digits fuel' b (n / b)
  end.

(** ** Lemmas *)

Lemma land_28 n : 0 <= n < 268435456 -> Z.land n 0x0FFFFFFF = n.
Proof.
  intros Hn. change 0x0FFFFFFF with (Z.ones 28). rewrite Z.land_ones by lia.
  apply Z.mod_small. done.
Qed.

Lemma printk_digits_eq fuel n b :
  2 <= b <= 16 -> 0 <= n -> n / b < 268435456 ->
  printk_digits fuel n b = map hex_digit (nat_digits fuel b n).
Proof.
  intros Hb. revert n. induction fuel as [|fuel IH]; intros n Hn Hlt; simpl; [done|].
  assert (0 <= n / b) by (apply Z.div_pos; lia).
  rewrite land_28 by lia.
  destruct (Z.eqb_spec (n / b) 0); simpl; [done|]. f_equal. apply IH; [lia|].
  apply Z.le_lt_trans with (n / b); [|done]. apply Z.div_le_upper_bound; nia.
Qed.

Lemma hex_digit_value d : 0 <= d < 16 -> strtol_digit (hex_digit d) = Some d.
Proof.
  intros Hd.
  assert (d = 0 \/ d = 1 \/ d = 2 \/ d = 3 \/ d = 4 \/ d = 5 \/ d = 6 \/ d = 7 \/ d = 8
    \/ d = 9 \/ d = 10 \/ d = 11 \/ d = 12 \/ d = 13 \/ d = 14 \/ d = 15) as Hc by lia.
  repeat destruct Hc as [->|Hc]; try reflexivity. subst; reflexivity.
Qed.

Lemma nat_digits_range fuel b n :
  2 <= b -> Forall (fun d => 0 <= d < b) (nat_digits fuel b n).
Proof.
  intros Hb. revert n. induction fuel as [|fuel IH]; intros n; simpl; [constructor|].
  pose proof (Z.mod_pos_bound n b). destruct (n / b =? 0); constructor; auto with lia.
Qed.

(** Read most significant first, the digits denote [n]. *)
Lemma nat_digits_value fuel b n :
  2 <= b -> 0 <= n < 2 ^ Z.of_nat fuel -> (0 < fuel)%nat ->
  digits_value b (rev (nat_digits fuel b n)) 0 = n.
Proof.
  intros Hb. revert n. induction fuel as [|fuel IH]; intros n Hn Hf; [lia|]. simpl.
  pose proof (Z.div_mod n b ltac:(lia)) as Hdm.
  assert (0 <= n / b) by (apply Z.div_pos; lia).
  destruct (Z.eqb_spec (n / b) 0) as [E|E]; simpl.
  - unfold digits_value. simpl. lia.
  - unfold digits_value in *. rewrite foldl_app. simpl.
    rewrite Nat2Z.inj_succ, Z.pow_succ_r in Hn by lia.
    assert (n / b < 2 ^ Z.of_nat fuel) by (apply Z.div_lt_upper_bound; nia).
    destruct fuel as [|fuel]; [simpl in *; lia|].
    rewrite IH by lia. lia.
Qed.

Lemma nat_digits_nonempty fuel b n : (0 < fuel)%nat -> nat_digits fuel b n <> [].
Proof. destruct fuel; simpl; [lia|]. by destruct (n / b =? 0). Qed.

(** [printknu] spells its argument when the mask drops nothing. *)
Lemma printknu_spells n b :
  2 <= b <= 16 -> 0 <= n < 4294967296 -> n / b < 268435456 ->
  exists ds, spells b (printknu n b) ds /\ digits_value b ds 0 = n
    /\ printknu n b <> [].
Proof.
  intros Hb Hn Hlt. unfold printknu. rewrite printk_digits_eq by lia.
  exists (rev (nat_digits 32 b n)). split_and!.
  - unfold spells. rewrite <- map_rev, Forall2_fmap_l.
    pose proof (nat_digits_range 32 b n ltac:(lia)) as Hr.
    apply Forall_rev in Hr. induction Hr as [|d ds Hd Hr IH]; constructor; [|done].
    split; [apply hex_digit_value; lia|done].
  - apply nat_digits_value; [lia| |lia]. change (2 ^ Z.of_nat 32) with 4294967296. lia.
  - pose proof (nat_digits_nonempty 32 b n ltac:(lia)) as Hne.
    destruct (nat_digits 32 b n) as [|x l]; [done|].
    simpl. by intros [_ ?]%app_eq_nil.
Qed.

Lemma nat_digits_last fuel b n :
  2 <= b -> 0 < n < 2 ^ Z.of_nat fuel -> (0 < fuel)%nat -> 0 < List.last (nat_digits fuel b n) 0.
Proof.
  intros Hb. revert n. induction fuel as [|fuel IH]; intros n Hn Hf; [lia|]. simpl.
  pose proof (Z.div_mod n b ltac:(lia)) as Hdm.
  assert (0 <= n / b) by (apply Z.div_pos; lia).
  destruct (Z.eqb_spec (n / b) 0) as [E|E]; [simpl; lia|].
  rewrite Nat2Z.inj_succ, Z.pow_succ_r in Hn by lia.
  assert (n / b < 2 ^ Z.of_nat fuel) by (apply Z.div_lt_upper_bound; nia).
  destruct fuel as [|fuel]; [simpl in *; lia|].
  pose proof (nat_digits_nonempty (S fuel) b (n / b) ltac:(lia)).
  specialize (IH (n / b) ltac:(lia) ltac:(lia)).
  destruct (nat_digits (S fuel) b (n / b)) eqn:En; [done|]. exact IH.
Qed.

Lemma hd_rev_last (l : list Z) d : hd d (rev l) = List.last l d.
Proof.
  induction l as [|x l IH]; simpl; [done|].
  destruct l as [|y l]; [done|]. rewrite <- IH.
  destruct (rev (y :: l)) eqn:E; [|done].
  apply (f_equal (@length Z)) in E. rewrite length_rev in E. done.
Qed.

Lemma printknu_head n b :
  2 <= b <= 16 -> 0 < n < 4294967296 -> n / b < 268435456 -> hd 0 (printknu n b) <> chr "0".
Proof.
  intros Hb Hn Hlt. unfold printknu. rewrite printk_digits_eq by lia.
  rewrite <- map_rev.
  pose proof (nat_digits_last 32 b n ltac:(lia)) as Hl. rewrite <- hd_rev_last in Hl.
  pose proof (nat_digits_range 32 b n ltac:(lia)) as Hr. apply Forall_rev in Hr.
  destruct (rev (nat_digits 32 b n)) as [|d ds]; simpl in *; [done|].
  assert (0 < d) by (apply Hl; [change (2 ^ Z.of_nat 32) with 4294967296|]; lia). inversion Hr; subst.
  intros E. pose proof (hex_digit_value d ltac:(lia)) as Hv. rewrite E in Hv.
  vm_compute in Hv. injection Hv as <-. lia.
Qed.
