(* ===== verification/LibCorrect.v ===== *)
(** * Correctness of the library routines

    Byte order, words, searches, numbers in and out, and the heap. *)
From Stdlib Require Import ZArith Lia Ascii.
From stdpp Require Import prelude strings gmap.
From S2P Require Import Prelude Quik CString Util Malloc Printf.

(** ** Byte order *)

(** [swab32] turns the value a big-endian load gives into the value the same
    four bytes have in little-endian order, and is its own inverse. *)
Theorem swab32_reverses v :
  0 <= v < 4294967296 -> swab32 v = le32 (enc_be32 v) 0 /\ swab32 (swab32 v) = v.
Proof.
  intros Hv. set (a := u8 (v / 16777216)). set (b := u8 (v / 65536)).
  set (c := u8 (v / 256)). set (d := u8 v).
  assert (Ha : is_byte a) by apply u8_range. assert (Hb : is_byte b) by apply u8_range.
  assert (Hc : is_byte c) by apply u8_range. assert (Hd : is_byte d) by apply u8_range.
  assert (E : v = word4 a b c d) by exact (word4_bytes v Hv).
  assert (E1 : swab32 v = word4 d c b a) by (rewrite E; by apply swab32_word4).
  rewrite E1. split; [|rewrite E; by apply swab32_word4].
  unfold le32, byte_at, enc_be32, word4. simpl. fold a b c d. lia.
Qed.

Lemma swab32_reverses_witness :
  swab32 0x12345678 = le32 (enc_be32 0x12345678) 0 /\ swab32 (swab32 0x12345678) = 0x12345678.
Proof. refine (swab32_reverses 0x12345678 _). lia. Defined.

(** ** Words *)

(** On the buffer of a line, [word_split] leaves what it promises on strings:
    read back from the positions it returns, the first word of the line and the
    text after the blanks that follow it; nothing before the line is touched. *)
Theorem word_split_in_place pre s r :
  cstr_ok s ->
  read_split (word_split_buf (pre ++ s ++ 0 :: r) (Some (length pre))) = word_split (Some s)
  /\ take (length pre) (fst (fst (word_split_buf (pre ++ s ++ 0 :: r) (Some (length pre))))) = pre.
Proof.
  intros Hs. split; [by apply word_split_buf_read|].
  destruct (chomp_blanks s) as (b & Es & Hb). pose proof (chomp_ok _ Hs) as Hok.
  destruct (chomp s) as [|c t] eqn:Hc.
  - unfold word_split_buf. rewrite drop_app_length.
    destruct (skip_blanks_spec s r (length pre)) as [-> _]. rewrite Hc. simpl length.
    rewrite app_assoc, Nat.sub_0_r, <- length_app.
    rewrite (byte_at_nul (pre ++ s) [] r) by done. simpl. by rewrite <- app_assoc, take_app_length.
  - destruct (split_word (c :: t)) as [w rest] eqn:Ew.
    rewrite Es, (word_split_buf_eq pre b c t r w rest) by (eauto using chomp_head).
    cbn [fst]. by rewrite <- app_assoc, take_app_length.
Qed.

Lemma word_split_in_place_witness :
  read_split (word_split_buf ([65] ++ str "  boot  hd:3" ++ [0; 66]) (Some 1%nat))
    = word_split (Some (str "  boot  hd:3"))
  /\ take 1 (fst (fst (word_split_buf ([65] ++ str "  boot  hd:3" ++ [0; 66]) (Some 1%nat)))) = [65].
Proof. refine (word_split_in_place [65] (str "  boot  hd:3") [66] _). by_eval. Defined.

(** ** Searches *)

(** [strcasecmp] is 0 exactly when the two strings are the same up to the case
    of their letters. *)
Theorem strcasecmp_zero s1 s2 :
  cstr_ok s1 -> cstr_ok s2 -> (strcasecmp s1 s2 = 0 <-> map tolower s1 = map tolower s2).
Proof.
  intros H1. revert s2. induction H1 as [|c s1 Hc H1 IH]; intros s2 H2.
  - simpl. change (tolower 0) with 0. destruct H2 as [|d s2 Hd H2]; simpl; [done|].
    pose proof (tolower_ok d Hd). split; [lia|done].
  - pose proof (tolower_ok c Hc).
    destruct H2 as [|d s2 Hd H2]; simpl.
    + change (tolower 0) with 0. destruct (Z.eqb_spec (tolower c) 0); simpl; [lia|].
      split; [lia|done].
    + pose proof (tolower_ok d Hd).
      destruct (Z.eqb_spec (tolower c) (tolower d)) as [E|]; simpl.
      * rewrite IH, E by done. split; [by intros ->|by intros [=]].
      * split; [lia|]. intros [=]; lia.
Qed.

Lemma strcasecmp_zero_witness :
  strcasecmp (str "Apple_Boot") (str "apple_BOOT") = 0
    <-> map tolower (str "Apple_Boot") = map tolower (str "apple_BOOT").
Proof. refine (strcasecmp_zero (str "Apple_Boot") (str "apple_BOOT") _ _); by_eval. Defined.

(** [t] is the part of [s] from the first occurrence of [pat] on. *)
Definition first_match (s pat t : cstr) : Prop :=
  exists pre, s = pre ++ t /\ pat `prefix_of` t
    /\ forall pre' t', s = pre' ++ t' -> pat `prefix_of` t' -> (length pre <= length pre')%nat.

Lemma prefix_take (pat t : cstr) : pat `prefix_of` t <-> take (length pat) t = pat.
Proof.
  split; [intros [k ->]; apply take_app_length|].
  intros E. exists (drop (length pat) t). by rewrite <- E at 1; rewrite take_drop.
Qed.

Lemma memcmp_prefix s pat :
  (length pat <= length s)%nat -> (memcmp s pat (length pat) = 0 <-> pat `prefix_of` s).
Proof. intros H. rewrite memcmp_zero, firstn_all, prefix_take by lia. done. Qed.

Lemma strstr_loop_first s pat n :
  (length s + 1 - length pat = n)%nat -> (length pat <= length s + 1)%nat ->
  match strstr_loop s pat n with
  | Some t => first_match s pat t
  | None => forall pre t, s = pre ++ t -> ~ pat `prefix_of` t
  end.
Proof.
  revert s. induction n as [|n IH]; intros s Hn Hl; simpl.
  - intros pre t -> [k ->]. rewrite !length_app in *. lia.
  - destruct (Z.eqb_spec (memcmp s pat (length pat)) 0) as [E|E].
    + apply memcmp_prefix in E; [|lia]. exists []. split_and!; [done|done|]. simpl. lia.
    + assert (Hnp : ~ pat `prefix_of` s) by (intros Hp; apply E, memcmp_prefix; [lia|done]).
      destruct s as [|x s].
      { simpl in *. destruct pat; [|simpl in *; lia]. exfalso. apply Hnp. by exists []. }
      simpl. simpl in Hn. specialize (IH s ltac:(simpl in *; lia)).
      destruct (decide (length pat <= length s + 1)%nat) as [Hle|Hle]; [|simpl in *; lia].
      specialize (IH Hle). destruct (strstr_loop s pat n) as [t|].
      * destruct IH as (pre & -> & Hp & Hmin). exists (x :: pre). split_and!; [done|done|].
        intros [|y pre'] t' Es Hp'; simpl in *; [by subst|]. injection Es as _ Es.
        specialize (Hmin pre' t' Es Hp'). lia.
      * intros [|y pre] t Es Hp'; simpl in *; [by subst|]. injection Es as _ Es. by eapply IH.
Qed.

(** [strstr] returns the text from the first occurrence of the pattern on, and
    NULL exactly when the pattern does not occur. *)
Theorem strstr_first s pat :
  match strstr s pat with
  | Some t => first_match s pat t
  | None => forall pre t, s = pre ++ t -> ~ pat `prefix_of` t
  end.
Proof.
  unfold strstr, strlen. destruct (Z.eqb_spec (Z.of_nat (length pat)) 0) as [E|E].
  - destruct pat; [|simpl in E; lia]. exists []. split_and!; [done|by exists s|]. simpl. lia.
  - destruct (decide (length pat <= length s + 1)%nat) as [Hle|Hle]; [by apply strstr_loop_first|].
    replace (length s + 1 - length pat)%nat with O by lia. simpl.
    intros pre t -> [k ->]. rewrite !length_app in Hle. lia.
Qed.

(** ** Numbers *)

(** C40: What [printk] prints for an unsigned number in base 8, 10 or 16 is read
    back by [strtol] in that base, up to the largest [int]; the digits end where
    the printed text ends.  Base 10 holds below 2684354560, base 8 below 2^31. *)
Theorem number_round_trip n b ws rest :
  b = 8 \/ b = 10 \/ b = 16 -> 0 <= n < 4294967296 -> n < b * 268435456 ->
  spaces ws -> stops b rest -> hex_prefix (printknu n b ++ rest) = false ->
  strtol (ws ++ printknu n b ++ rest) b
    = (saturate n, (length ws + length (printknu n b))%nat).
Proof.
  intros Hb Hn Hlt Hws Hrest Hhex.
  destruct (printknu_spells n b) as (ds & Hs & Hv & Hne); [lia|lia| |].
  { apply Z.div_lt_upper_bound; lia. }
  rewrite (strtol_digits b ws _ ds) by (done || lia). by rewrite Hv.
Qed.

Lemma number_round_trip_witness :
  strtol (str "  " ++ printknu 2147483647 10 ++ str "/boot") 10
    = (saturate 2147483647, (2 + length (printknu 2147483647 10))%nat).
Proof.
  refine (number_round_trip 2147483647 10 (str "  ") (str "/boot") _ _ _ _ _ _);
    [by right; left|lia|lia| | |by vm_compute].
  - by repeat constructor.
  - by vm_compute.
Defined.

(** From 2684354560 on, [%u] prints the decimal digits of another number: the
    mask that drops the sign bits of a quotient drops a bit of the value. *)
Theorem printknu_drops n :
  2684354560 <= n < 4294967296 -> printknu n 10 = printknu (n - 2684354560) 10.
Proof.
  intros Hn. unfold printknu. f_equal. cbn [printk_digits].
  assert (E1 : n mod 10 = (n - 2684354560) mod 10) by (Z.div_mod_to_equations; lia).
  assert (E2 : Z.land (n / 10) 0x0FFFFFFF = Z.land ((n - 2684354560) / 10) 0x0FFFFFFF).
  { change 0x0FFFFFFF with (Z.ones 28). rewrite !Z.land_ones by lia.
    change (2 ^ 28) with 268435456. Z.div_mod_to_equations. lia. }
  by rewrite E1, E2.
Qed.

Lemma printknu_drops_witness :
  printknu 4294967295 10 = printknu (4294967295 - 2684354560) 10
  /\ printknu 4294967295 10 = str "1610612735".
Proof. split; [refine (printknu_drops 4294967295 _); lia|by vm_compute]. Defined.

(** ** The heap *)

(** A block lies in the arena, on a word boundary. *)
Definition in_arena (base : Z) (b : block) : Prop :=
  base <= b.1 /\ 0 <= b.2 /\ b.1 + b.2 <= base + MALLOC_SIZE /\ b.1 mod 4 = 0.

(** C22: Whatever blocks of at most the arena's size a client allocates and frees,
    the ones it holds lie in the arena, word-aligned, and no two overlap. *)
Theorem blocks_disjoint base h live :
  0 < base -> base mod 4 = 0 -> base + 2 * MALLOC_SIZE + 8 < 4294967296 ->
  heap_reach base h live ->
  Forall (in_arena base) live /\ ForallOrdPairs disjoint_blocks live.
Proof.
  intros Hb Hb4 Hbe Hr. destruct (heap_inv_reach base h live Hb Hb4 Hbe Hr) as (Hok & Hl & Hd & _).
  split; [|done]. eapply Forall_impl; [exact Hl|].
  intros [a s] (B1 & B2 & B3 & B4 & _). destruct Hok as (_ & _ & H3 & _ & H5 & _).
  unfold in_arena. simpl in *. split_and!; lia.
Qed.

(** Three blocks, the second of them freed. *)
Definition demo_heap0 : heap := heap_claimed MALLOC_BASE heap_init.
Definition demo_heap1 : heap := snd (malloc 10 demo_heap0).
Definition demo_heap2 : heap := snd (malloc 20 demo_heap1).
Definition demo_heap3 : heap := snd (malloc 30 (free (MALLOC_BASE + 20) demo_heap2)).

Lemma demo_heap_reach :
  heap_reach MALLOC_BASE demo_heap3 [(MALLOC_BASE + 20, 30); (MALLOC_BASE + 4, 10)].
Proof.
  apply (reach_step _ (free (MALLOC_BASE + 20) demo_heap2) [(MALLOC_BASE + 4, 10)]);
    [|apply step_malloc; [unfold MALLOC_SIZE; lia|by vm_compute]].
  apply (reach_step _ demo_heap2 ([] ++ (MALLOC_BASE + 20, 20) :: [(MALLOC_BASE + 4, 10)]));
    [|apply step_free].
  apply (reach_step _ demo_heap1 [(MALLOC_BASE + 4, 10)]);
    [|apply step_malloc; [unfold MALLOC_SIZE; lia|by vm_compute]].
  apply (reach_step _ demo_heap0 []);
    [|apply step_malloc; [unfold MALLOC_SIZE; lia|by vm_compute]].
  by apply reach_init.
Qed.

Lemma blocks_disjoint_witness :
  Forall (in_arena MALLOC_BASE) [(MALLOC_BASE + 20, 30); (MALLOC_BASE + 4, 10)]
  /\ ForallOrdPairs disjoint_blocks [(MALLOC_BASE + 20, 30); (MALLOC_BASE + 4, 10)].
Proof.
  refine (blocks_disjoint MALLOC_BASE demo_heap3 _ _ _ _ demo_heap_reach);
    [by vm_compute|by vm_compute|by vm_compute].
Defined.

(** An allocation succeeds exactly when header and block fit before the end of
    the arena and changes nothing when it fails; freeing the block again gives
    the next allocation the same place. *)
Theorem malloc_free_restores base size h :
  heap_ok base h -> 0 <= size <= MALLOC_SIZE ->
  match malloc size h with
  | (Some p, h') => malloc_ptr h + size + 4 < malloc_end h /\ p = malloc_ptr h + 4
                    /\ forall n, fst (malloc n (free p h')) = fst (malloc n h)
  | (None, h') => malloc_end h <= malloc_ptr h + size + 4 /\ h' = h
  end.
Proof.
  intros Hok Hs. pose proof (malloc_eq base size h Hok Hs) as E.
  destruct (malloc size h) as [[p|] h'] eqn:Em;
    destruct (Z.leb_spec (malloc_end h) (malloc_ptr h + size + 4)); try done;
    [|by injection E as ->].
  split; [done|]. split; [by injection E|]. intros n.
  destruct (free_malloc_ptr base size h p h' Hok Hs Em) as [E1 E2].
  unfold malloc. rewrite E1, E2. by destruct (malloc_end h <=? _).
Qed.

Lemma demo_heap_ok : heap_ok MALLOC_BASE demo_heap0.
Proof. unfold heap_ok. split_and!; try (by vm_compute). by left. Qed.

Lemma malloc_free_restores_witness :
  match malloc 100 demo_heap0 with
  | (Some p, h') => malloc_ptr demo_heap0 + 100 + 4 < malloc_end demo_heap0
                    /\ p = malloc_ptr demo_heap0 + 4
                    /\ forall n, fst (malloc n (free p h')) = fst (malloc n demo_heap0)
  | (None, h') => malloc_end demo_heap0 <= malloc_ptr demo_heap0 + 100 + 4 /\ h' = demo_heap0
  end.
Proof.
  refine (malloc_free_restores MALLOC_BASE 100 demo_heap0 demo_heap_ok _). unfold MALLOC_SIZE. lia.
Defined.
