(* ===== verification/Machine.v ===== *)
(** * The machine the loader runs on (prom.c: the client interface; printf.c;
    util.c: the console routines)

    Open Firmware is not part of the program: it is a parameter, one function
    [prom_entry] over a firmware state of any type [F].  Everything the loader
    does to the outside goes through it, console output included. *)
From Stdlib Require Import ZArith Lia Ascii.
From stdpp Require Import prelude strings.
From S2P Require Import Prelude Quik CString Util Malloc Printf.

(** ** The firmware *)

(** An argument of a client call: a number (handle, length, address) or a
    pointer to data the firmware reads. *)
Inductive of_arg : Type :=
| AInt (z : Z)
| AStr (s : list Z).

(** What a call gives back: the return slots, and the bytes the firmware stored
    through the buffer argument, if the service has one. *)
Record of_ret := mk_of_ret { r_args : list Z; r_buf : list Z }.

(** The client interface: service, arguments, number of return slots.
    [uninit_word] is what an uninitialised word on the stack holds, [stack_addr]
    the address of a local whose address a call takes. *)
Class Firmware (F : Type) := {
  prom_entry : cstr -> list of_arg -> Z -> F -> of_ret * F;
  uninit_word : Z;
  stack_addr : Z
}.

(** ** State *)

(** The statics of prom.c. *)
Record prom_st := mk_prom_st {
  prom_stdin : Z;
  prom_stdout : Z;
  prom_chosen : Z;
  prom_root : Z;
  prom_options : Z;
  prom_mmu : Z;
  prom_memory : Z;
  prom_flags : Z;
  shim_mediabay_ata : Z;
  shim_cpu_count : Z;
  shim_cpu : Z
}.

Definition prom_init_st : prom_st := mk_prom_st 0 0 0 0 0 0 0 0 0 0 0.

(** What the loader does to memory that no object of its own holds - a kernel's text, the
    range of the memory test - and to the caches. *)
Inductive mem_op : Set :=
| MemStore (addr value : Z)
| MemMove (dst src len : Z)
| FlushCache (base len : Z).

(** [m_ops]: the operations made so far, latest first. *)
Record mach (F : Type) := mk_mach {
  m_fw : F;
  m_prom : prom_st;
  m_bi : boot_info_t;
  m_heap : heap;
  m_spin : Z;
  m_ops : list mem_op
}.
Arguments mk_mach {F}.
Arguments m_fw {F}.
Arguments m_prom {F}.
Arguments m_bi {F}.
Arguments m_heap {F}.
Arguments m_spin {F}.
Arguments m_ops {F}.

Definition set_fw {F} (f : F) (m : mach F) : mach F :=
  mk_mach f (m_prom m) (m_bi m) (m_heap m) (m_spin m) (m_ops m).
Definition set_prom {F} (p : prom_st) (m : mach F) : mach F :=
  mk_mach (m_fw m) p (m_bi m) (m_heap m) (m_spin m) (m_ops m).
Definition set_bi {F} (b : boot_info_t) (m : mach F) : mach F :=
  mk_mach (m_fw m) (m_prom m) b (m_heap m) (m_spin m) (m_ops m).
Definition set_heap {F} (h : heap) (m : mach F) : mach F :=
  mk_mach (m_fw m) (m_prom m) (m_bi m) h (m_spin m) (m_ops m).
Definition set_spin {F} (i : Z) (m : mach F) : mach F :=
  mk_mach (m_fw m) (m_prom m) (m_bi m) (m_heap m) i (m_ops m).
Definition add_op {F} (o : mem_op) (m : mach F) : mach F :=
  mk_mach (m_fw m) (m_prom m) (m_bi m) (m_heap m) (m_spin m) (o :: m_ops m).

(** Computations on the machine. *)
Abbreviation P F := (M quik_err_t (mach F)) (only parsing).

Section Machine.
Context {F : Type} {FW : Firmware F}.

(** ** Client calls *)

Definition call_prom_ret (service : cstr) (args : list of_arg) (nret : Z) : P F of_ret :=
  fun m => let '(r, f) := prom_entry service args nret (m_fw m) in (Ok r, set_fw f m).

(** [call_prom] returns the first return slot. *)
Definition call_prom (service : cstr) (args : list of_arg) (nret : Z) : P F Z :=
  r ← call_prom_ret service args nret; mret (u32 (hd 0 (r_args r))).

(** An operation on memory. *)
Definition do_op (o : mem_op) : P F unit := modify (add_op o).

(** ** Console *)

Definition putchar (c : Z) : P F Z :=
  out ← gets (fun m => prom_stdout (m_prom m));
  if out =? 0 then mret 0
  else
    (if c =? 10 then call_prom (str "write") [AInt out; AStr [13]; AInt 1] 1 else mret 0);;
    call_prom (str "write") [AInt out; AStr [u8 c]; AInt 1] 1.

Fixpoint putchars (s : cstr) : P F unit :=
  match s with
  | [] => mret tt
  | c :: s' => putchar c;; putchars s'
  end.

Definition printk (fmt : cstr) (args : list karg) : P F unit :=
  match vprintk fmt args with
  | Ok out => putchars out
  | Err e => throw e
  | Undef u => undef u
  end.

(** [prom_print]: whole lines, each newline as CR LF. *)
Fixpoint prom_line (s : cstr) : cstr * cstr :=
  match s with
  | [] => ([], [])
  | c :: s' =>
      if c =? 10 then ([], s) else let '(l, r) := prom_line s' in (c :: l, r)
  end.

Fixpoint prom_print_loop (fuel : nat) (msg : cstr) : P F unit :=
  match fuel, msg with
  | _, [] => mret tt
  | O, _ => undef OutOfFuel
  | S fuel', _ =>
      out ← gets (fun m => prom_stdout (m_prom m));
      let '(l, r) := prom_line msg in
      (if 0 <? strlen l
       then call_prom (str "write") [AInt out; AStr l; AInt (strlen l)] 1 else mret 0);;
      match r with
      | [] => mret tt
      | _ :: r' =>
          call_prom (str "write") [AInt out; AStr [13; 10]; AInt 2] 1;;
          prom_print_loop fuel' r'
      end
  end.

Definition prom_print (msg : cstr) : P F unit := prom_print_loop (S (length msg)) msg.

(** [getchar] polls until the read returns something. *)
Fixpoint getchar_loop (fuel : nat) : P F Z :=
  match fuel with
  | O => undef OutOfFuel
  | S fuel' =>
      sin ← gets (fun m => prom_stdin (m_prom m));
      r ← call_prom_ret (str "read") [AInt sin; AInt 1] 1;
      let n := s32 (hd 0 (r_args r)) in
      if n =? 0 then getchar_loop fuel'
      else mret (if 0 <? n then byte_at (r_buf r) 0 else KEY_NONE)
  end.

Definition getchar (fuel : nat) : P F Z :=
  sin ← gets (fun m => prom_stdin (m_prom m));
  if sin =? 0 then mret (-1) else getchar_loop fuel.

Definition nbgetchar : P F Z :=
  sin ← gets (fun m => prom_stdin (m_prom m));
  if sin =? 0 then mret (-1)
  else
    r ← call_prom_ret (str "read") [AInt sin; AInt 1] 1;
    mret (if 0 <? s32 (hd 0 (r_args r)) then byte_at (r_buf r) 0 else KEY_NONE).

Definition get_ms : P F Z :=
  r ← call_prom (str "milliseconds") [] 1; mret (s32 r).

(** The polling loop of [wait_for_key]. *)
Fixpoint wait_loop (fuel : nat) (end_ : Z) : P F Z :=
  match fuel with
  | O => undef OutOfFuel
  | S fuel' =>
      c ← nbgetchar;
      if c =? KEY_NONE then
        now_ ← get_ms;
        if now_ <=? end_ then wait_loop fuel' end_ else mret c
      else mret c
  end.

Definition wait_for_key (fuel : nat) (timeout timeout_key : Z) : P F Z :=
  beg ← get_ms;
  c ← (if 0 <? timeout then wait_loop fuel (s32 (beg + 100 * timeout)) else mret KEY_NONE);
  if c =? KEY_NONE then mret timeout_key
  else mret (if c =? 13 then 10 else c).

(** The progress wheel: its static counter is [m_spin]. *)
Definition spinner (freq : Z) : P F unit :=
  i ← gets m_spin;
  (if Z.rem i freq =? 0
   then printk (str "%c" ++ [8]) [KNum (byte_at (str "\|/-") (Z.rem (Z.quot i freq) 4))]
   else mret tt);;
  modify (set_spin (s32 (i + 1))).

(** ** Tables *)

Record table_print_t := mk_table { t_count : Z; t_max_col : Z; t_pad : Z }.

Definition table_print_start (cols pad : Z) : table_print_t := mk_table 0 cols pad.

Definition table_print (t : table_print_t) (s : cstr) : P F table_print_t :=
  (if negb (t_count t =? 0) && (t_count t mod t_max_col t =? 0)
   then putchar 10 else mret 0);;
  printk (str "%s") [KStr (Some s)];;
  putchars (replicate (Z.to_nat (t_pad t - strlen s)) (chr " "));;
  mret (mk_table (u32 (t_count t + 1)) (t_max_col t) (t_pad t)).

Definition table_print_end (t : table_print_t) : P F unit :=
  if t_count t =? 0 then mret tt else putchar 10;; mret tt.

(** ** Heap calls *)

Definition do_malloc (size : Z) : P F (option Z) := fun m =>
  let '(p, h) := malloc size (m_heap m) in (Ok p, set_heap h m).

Definition do_free (p : Z) : P F unit := modify (fun m => set_heap (free p (m_heap m)) m).

(** ** Frame properties of the console *)

(** Two machines that differ in the firmware state and the spinner only. *)
Definition same_but_io (m m' : mach F) : Prop :=
  m_prom m' = m_prom m /\ m_bi m' = m_bi m /\ m_heap m' = m_heap m.

(** An invariant of the firmware state that console output keeps. *)
Definition write_closed (I : F -> Prop) : Prop :=
  forall f args nret r f',
    prom_entry (str "write") args nret f = (r, f') -> I f -> I f'.

End Machine.

(** ** Lemmas *)

Section MachineFacts.
Context {F : Type} {FW : Firmware F}.
Implicit Types (m : mach F) (I : F -> Prop).

Lemma same_but_io_refl m : same_but_io m m.
Proof. done. Qed.

Lemma same_but_io_trans m1 m2 m3 :
  same_but_io m1 m2 -> same_but_io m2 m3 -> same_but_io m1 m3.
Proof. unfold same_but_io. naive_solver congruence. Qed.

(** A computation that cannot fail, touches only the firmware state and the
    spinner, and keeps the firmware invariant [I]. *)
Definition quiet {A} I (c : P F A) : Prop :=
  forall m, I (m_fw m) ->
    exists a m', c m = (Ok a, m') /\ I (m_fw m') /\ same_but_io m m'.

Lemma quiet_ret {A} I (a : A) : quiet I (mret a).
Proof. intros m Hm. exists a, m. split_and!; try done. Qed.

Lemma quiet_gets {A} I (f : mach F -> A) : quiet I (gets f).
Proof. intros m Hm. exists (f m), m. split_and!; try done. Qed.

Lemma quiet_bind {A B} I (c : P F A) (k : A -> P F B) :
  quiet I c -> (forall a, quiet I (k a)) -> quiet I (c ≫= k).
Proof.
  intros Hc Hk m Hm. destruct (Hc m Hm) as (a & m1 & E & H1 & S1).
  destruct (Hk a m1 H1) as (b & m2 & E2 & H2 & S2).
  exists b, m2. rewrite (bind_ok _ _ _ _ _ E). split_and!; try done.
  all: by eapply same_but_io_trans.
Qed.

Lemma quiet_write I args nret : write_closed I -> quiet I (call_prom (str "write") args nret).
Proof.
  intros HI m Hm. unfold call_prom, call_prom_ret, mbind, M_bind, mret, M_ret.
  destruct (prom_entry (str "write") args nret (m_fw m)) as [r f] eqn:E.
  eexists _, _. split; [done|]. simpl. split; [by eapply HI|done].
Qed.

Lemma quiet_putchar I c : write_closed I -> quiet I (putchar c).
Proof.
  intros HI. unfold putchar. apply quiet_bind; [apply quiet_gets|]. intros out.
  destruct (out =? 0); [apply quiet_ret|]. apply quiet_bind; [|by intros; apply quiet_write].
  destruct (c =? 10); [by apply quiet_write|apply quiet_ret].
Qed.

Lemma quiet_putchars I s : write_closed I -> quiet I (putchars s).
Proof.
  intros HI. induction s as [|c s IH]; [apply quiet_ret|].
  apply quiet_bind; [by apply quiet_putchar|done].
Qed.

Lemma quiet_printk I fmt args out :
  write_closed I -> vprintk fmt args = Ok out -> quiet I (printk fmt args).
Proof. intros HI E. unfold printk. rewrite E. by apply quiet_putchars. Qed.

Lemma quiet_spinner I freq : write_closed I -> quiet I (spinner freq).
Proof.
  intros HI. unfold spinner. apply quiet_bind; [apply quiet_gets|]. intros i.
  apply quiet_bind; [|intros _ m Hm; eexists _, _; done].
  destruct (_ =? 0); [|apply quiet_ret]. by eapply quiet_printk.
Qed.

Lemma quiet_table_print I t s : write_closed I -> quiet I (table_print t s).
Proof.
  intros HI. unfold table_print. apply quiet_bind; [destruct (_ && _); [by apply quiet_putchar|apply quiet_ret]|].
  intros _. apply quiet_bind; [by eapply quiet_printk|]. intros _.
  apply quiet_bind; [by apply quiet_putchars|]. intros _. apply quiet_ret.
Qed.

Lemma quiet_table_end I t : write_closed I -> quiet I (table_print_end t).
Proof.
  intros HI. unfold table_print_end. destruct (_ =? 0); [apply quiet_ret|].
  apply quiet_bind; [by apply quiet_putchar|]. intros _. apply quiet_ret.
Qed.

(** An allocation the heap has room for. *)
Lemma do_malloc_room n size m :
  heap_room n (m_heap m) -> 0 <= size <= MALLOC_SIZE -> size + 8 <= n ->
  exists p h', do_malloc size m = (Ok (Some p), set_heap h' m) /\ p <> 0
    /\ heap_room (n - (size + 8)) h'.
Proof.
  intros Hr Hs Hn. destruct (heap_room_malloc n size (m_heap m) Hr Hs Hn) as (p & h' & E & Hp & Hr').
  exists p, h'. unfold do_malloc. by rewrite E.
Qed.

End MachineFacts.

#[export] Hint Resolve same_but_io_refl quiet_ret quiet_gets quiet_putchars quiet_putchar
  quiet_spinner : quik.
