(* ===== verification/Prom.v ===== *)
(** * Open Firmware services (prom.c) and heap setup (malloc.c)

    Memory claims, device opening, the firmware workarounds chosen at start-up,
    and the shim the loader can put between the kernel and the firmware. *)
From Stdlib Require Import ZArith Lia Ascii.
From stdpp Require Import prelude strings.
From S2P Require Import Prelude Quik CString Util Malloc Printf Machine.

(** ** Constants *)

Definition PROM_CLAIM_MAX_ADDR : Z := 0x10000000.
Definition PROM_CLAIM_WORK_AROUND : Z := 2.
Definition PROM_NEED_SHIM : Z := 4.
Definition PROM_SHALLOW_SETPROP : Z := 8.
Definition PROM_3400_HIDE_MEDIABAY_ATA : Z := 16.
Definition PROM_NW_FULL_DISK : Z := 32.
Definition PROM_SMP_FIX : Z := 64.

Definition OF_VER_105 : cstr := str "Open Firmware, 1.0.5".
Definition OF_VER_201 : cstr := str "Open Firmware, 2.0.1".
Definition OF_VER_20 : cstr := str "Open Firmware, 2.0".
Definition OF_VER_3 : cstr := str "OpenFirmware 3".
Definition OF_VER_NW : cstr := str "iMac,1".
Definition SYSTEM_3400_2400 : cstr := str "AAPL,3400/2400".
Definition PROM_3400_MEDIABAY : cstr := str "/bandit/ohare/media-bay/ata".
Definition PROM_3400_MEDIABAY_ATAPI : cstr := str "/bandit/ohare/media-bay/ata/atapi-disk".
Definition PROM_3400_MEDIABAY_ATA : cstr := str "/bandit/ohare/media-bay/ata/ata-disk".
Definition PROM_SMP_PATH : cstr := str "/PowerPC,604".

(** The all-ones word: the failure value of a handle or an address. *)
Definition NOT_FOUND : Z := 4294967295.

Section Prom.
Context {F : Type} {FW : Firmware F}.

(** ** Updates of the statics *)

Definition on_prom (f : prom_st -> prom_st) : P F unit :=
  modify (fun m => set_prom (f (m_prom m)) m).
Definition on_bi (f : boot_info_t -> boot_info_t) : P F unit :=
  modify (fun m => set_bi (f (m_bi m)) m).

Definition with_flags (g : Z -> Z) (p : prom_st) : prom_st :=
  mk_prom_st (prom_stdin p) (prom_stdout p) (prom_chosen p) (prom_root p) (prom_options p)
    (prom_mmu p) (prom_memory p) (g (prom_flags p)) (shim_mediabay_ata p)
    (shim_cpu_count p) (shim_cpu p).
Definition with_stdio (i o : Z) (p : prom_st) : prom_st :=
  mk_prom_st i o (prom_chosen p) (prom_root p) (prom_options p)
    (prom_mmu p) (prom_memory p) (prom_flags p) (shim_mediabay_ata p)
    (shim_cpu_count p) (shim_cpu p).
Definition with_nodes (chosen root options : Z) (p : prom_st) : prom_st :=
  mk_prom_st (prom_stdin p) (prom_stdout p) chosen root options
    (prom_mmu p) (prom_memory p) (prom_flags p) (shim_mediabay_ata p)
    (shim_cpu_count p) (shim_cpu p).
Definition with_mem (mmu memory : Z) (p : prom_st) : prom_st :=
  mk_prom_st (prom_stdin p) (prom_stdout p) (prom_chosen p) (prom_root p) (prom_options p)
    mmu memory (prom_flags p) (shim_mediabay_ata p) (shim_cpu_count p) (shim_cpu p).
Definition with_shim (ata cpu_count cpu : Z) (p : prom_st) : prom_st :=
  mk_prom_st (prom_stdin p) (prom_stdout p) (prom_chosen p) (prom_root p) (prom_options p)
    (prom_mmu p) (prom_memory p) (prom_flags p) ata cpu_count cpu.

Definition flag_set (bit : Z) : P F bool :=
  gets (fun m => has_flag (prom_flags (m_prom m)) bit).

(** ** Properties and nodes *)

(** The bytes of a property stored over [buf]. *)
Definition prom_getprop (node : Z) (name : cstr) (buf : list Z) (len : Z) : P F (list Z) :=
  r ← call_prom_ret (str "getprop") [AInt node; AStr name; AInt len] 1;
  mret (overlay buf (take (Z.to_nat len) (r_buf r))).

Definition prom_getproplen (node : Z) (name : cstr) : P F Z :=
  call_prom (str "getproplen") [AInt node; AStr name] 1.

Definition finddevice (path : cstr) : P F Z := call_prom (str "finddevice") [AStr path] 1.

(** A handle read into a static that holds [old]. *)
Definition getprop_word (node : Z) (name : cstr) (old : Z) : P F Z :=
  b ← prom_getprop node name (enc_be32 old) 4; mret (be32 b 0).

Definition prom_get_chosen (name : cstr) (buf : list Z) (buflen : Z) : P F (list Z) :=
  node ← gets (fun m => prom_chosen (m_prom m));
  prom_getprop node name (overlay buf [0]) buflen.

Definition prom_get_options (name : cstr) (buf : list Z) (buflen : Z) : P F (list Z) :=
  node ← gets (fun m => prom_options (m_prom m));
  if node =? NOT_FOUND then mret (overlay buf [0])
  else prom_getprop node name (overlay buf [0]) buflen.

(** ** Control *)

Definition prom_exit {A} : P F A :=
  call_prom (str "exit") [] 0;; undef Exited.

Definition prom_pause (message : option cstr) : P F unit :=
  let message := default (str "Type go<return> to continue." ++ [10]) message in
  printk (str "%s") [KStr (Some message)];;
  call_prom (str "enter") [] 0;;
  printk [10] [].

Definition prom_interpret (s : cstr) : P F unit :=
  call_prom (str "interpret") [AStr s] 1;; mret tt.

Definition set_bootargs (params : cstr) : P F unit :=
  chosen ← gets (fun m => prom_chosen (m_prom m));
  call_prom (str "setprop")
    [AInt chosen; AStr (str "bootargs"); AStr params; AInt (strlen params + 1)] 1;;
  mret tt.

(** ** Memory *)

Definition prom_release (virt size : Z) : P F unit :=
  wa ← flag_set PROM_CLAIM_WORK_AROUND;
  mmu ← gets (fun m => prom_mmu (m_prom m));
  memory ← gets (fun m => prom_memory (m_prom m));
  (if wa : bool then
     call_prom (str "call-method") [AStr (str "unmap"); AInt mmu; AInt size; AInt virt] 0;;
     call_prom (str "call-method") [AStr (str "release"); AInt mmu; AInt size; AInt virt] 0;;
     call_prom (str "call-method") [AStr (str "release"); AInt memory; AInt size; AInt virt] 0
   else mret 0);;
  call_prom (str "release") [AInt virt; AInt size] 0;;
  mret tt.

(** One claim of the old-firmware path.  The call names five arguments and the
    address of [result] is the first of them, so [virt] is not passed and
    [result] is whatever the firmware stored through that pointer. *)
Definition claim_method (ih align size : Z) : P F (Z * Z) :=
  r ← call_prom_ret (str "call-method")
        [AInt stack_addr; AStr (str "claim"); AInt ih; AInt align; AInt size] 2;
  let result' := if (4 <=? Z.of_nat (length (r_buf r))) then be32 (r_buf r) 0 else uninit_word in
  mret (s32 (hd 0 (r_args r)), u32 result').

Definition prom_claim (virt size : Z) : P F Z :=
  wa ← flag_set PROM_CLAIM_WORK_AROUND;
  if wa : bool then
    mmu ← gets (fun m => prom_mmu (m_prom m));
    memory ← gets (fun m => prom_memory (m_prom m));
    '(ret, result) ← claim_method memory 0 size;
    if negb (ret =? 0) || (result =? NOT_FOUND) then mret NOT_FOUND
    else
      '(ret, result) ← claim_method mmu 0 size;
      if negb (ret =? 0) then
        call_prom (str "call-method") [AStr (str "release"); AInt memory; AInt size; AInt virt] 1;;
        mret NOT_FOUND
      else
        call_prom (str "call-method")
          [AStr (str "map"); AInt mmu; AInt 0x12; AInt size; AInt virt; AInt virt] 1;;
        mret virt
  else call_prom (str "claim") [AInt virt; AInt size; AInt 0] 1.

(** The search of [prom_claim_chunk]: [fuel] candidate addresses. *)
Fixpoint claim_chunk_loop (fuel : nat) (addr size : Z) : P F Z :=
  match fuel with
  | O => undef OutOfFuel
  | S fuel' =>
      if addr <=? PROM_CLAIM_MAX_ADDR then
        found ← prom_claim addr size;
        if found =? NOT_FOUND then claim_chunk_loop fuel' (u32 (addr + SIZE_1M)) size
        else mret found
      else mret NOT_FOUND
  end.

(** There are 257 candidates at most: the multiples of 1M up to 256M. *)
Definition prom_claim_chunk (virt size : Z) : P F Z :=
  claim_chunk_loop 258 (ALIGN_UP virt SIZE_1M) size.

Fixpoint ensure_claimed_loop (fuel : nat) (addr end_ : Z) : P F unit :=
  match fuel with
  | O => undef OutOfFuel
  | S fuel' =>
      if addr <? end_ then
        prom_claim addr SIZE_4K;;
        ensure_claimed_loop fuel' (u32 (addr + SIZE_4K)) end_
      else mret tt
  end.

(** A page is claimed per round: [size / 4K + 2] rounds cover the range. *)
Definition prom_ensure_claimed (virt size : Z) : P F unit :=
  ensure_claimed_loop (Z.to_nat (size / SIZE_4K + 2)) virt (u32 (virt + size)).

(** [malloc_init] of malloc.c. *)
Definition malloc_init : P F unit :=
  base ← prom_claim MALLOC_BASE MALLOC_SIZE;
  modify (fun m => set_heap (mk_heap base (malloc_end (m_heap m)) (last_alloc (m_heap m))
                               (headers (m_heap m))) m);;
  if base =? NOT_FOUND then throw ERR_MALLOC_INIT
  else modify (fun m => set_heap (heap_claimed base (m_heap m)) m).

(** ** Devices *)

Definition prom_open (dev : cstr) : P F Z :=
  nw ← flag_set PROM_NW_FULL_DISK;
  d ← (if nw : bool then
         p ← do_malloc (strlen dev + 3);
         match p with
         | None => throw ERR_NO_MEM
         | Some p => mret (Some p, dev ++ str ":0")
         end
       else mret (None, dev));
  c ← call_prom (str "open") [AStr (snd d)] 1;
  (if nw : bool then match fst d with Some p => do_free p | None => mret tt end else mret tt);;
  if (c =? 0) || (c =? NOT_FOUND) then throw ERR_OF_OPEN else mret c.

(** ** Start-up *)

(** [of_shim_state.mediabay_ata] is looked up when both devices are absent. *)
Definition parse_mediabay : P F unit :=
  atapi ← finddevice PROM_3400_MEDIABAY_ATAPI;
  (if atapi =? NOT_FOUND then
     ata ← finddevice PROM_3400_MEDIABAY_ATA;
     if ata =? NOT_FOUND then
       bay ← finddevice PROM_3400_MEDIABAY;
       on_prom (fun p => with_shim bay (shim_cpu_count p) (shim_cpu p) p);;
       if bay =? NOT_FOUND
       then on_prom (with_flags (fun f => Z.lxor f PROM_3400_HIDE_MEDIABAY_ATA))
       else on_prom (with_flags (fun f => Z.lor f PROM_NEED_SHIM))
     else mret tt
   else mret tt).

Definition parse_smp : P F unit :=
  cpu ← finddevice PROM_SMP_PATH;
  on_prom (fun p => with_shim (shim_mediabay_ata p) (shim_cpu_count p) cpu p);;
  count ← prom_getproplen cpu (str "reg");
  on_prom (fun p => with_shim (shim_mediabay_ata p) count (shim_cpu p) p);;
  if count =? 4
  then on_prom (with_flags (fun f => Z.lxor f PROM_SMP_FIX))
  else on_prom (with_flags (fun f => Z.lor f PROM_NEED_SHIM)).

Definition when_flag (bit : Z) (c : P F unit) : P F unit :=
  b ← flag_set bit; if b : bool then c else mret tt.

Definition parse_prom_flags : P F unit :=
  when_flag PROM_CLAIM_WORK_AROUND (
    p ← gets m_prom;
    mmu ← getprop_word (prom_chosen p) (str "mmu") (prom_mmu p);
    on_prom (fun p => with_mem mmu (prom_memory p) p);;
    memory ← call_prom (str "open") [AStr (str "/memory")] 1;
    on_prom (fun p => with_mem (prom_mmu p) memory p);;
    if memory =? NOT_FOUND then
      printk (str "couldn't open /memory for PROM_CLAIM_WORK_AROUND") [];;
      throw ERR_OF_INIT_NO_MEMORY
    else mret tt);;
  when_flag PROM_SHALLOW_SETPROP (on_prom (with_flags (fun f => Z.lor f PROM_NEED_SHIM)));;
  when_flag PROM_SMP_FIX parse_smp;;
  when_flag PROM_3400_HIDE_MEDIABAY_ATA parse_mediabay;;
  when_flag PROM_NEED_SHIM (on_bi (set_bi_flags (fun f => Z.lor f SHIM_OF))).

(** The workarounds for a firmware version, [ver] the "model" of /openprom. The
    last test lacks its comparison with 0 and holds for every other name. *)
Definition version_flags (ver : cstr) (flags : Z) : Z :=
  if strcmp ver OF_VER_105 =? 0 then
    Z.lor (Z.lor flags PROM_CLAIM_WORK_AROUND) PROM_SHALLOW_SETPROP
  else if (strcmp ver OF_VER_20 =? 0) || (strcmp ver OF_VER_201 =? 0) then
    Z.lor flags PROM_SHALLOW_SETPROP
  else if (strcmp ver OF_VER_3 =? 0) || negb (strcmp ver OF_VER_NW =? 0) then
    Z.lor flags PROM_NW_FULL_DISK
  else flags.

Definition node_or (node : Z) (e : quik_err_t) : P F unit :=
  if node =? NOT_FOUND then throw e else mret tt.

(** [pp] is the firmware entry, [shim] the address of [prom_shim], [script] the
    preboot script that follows the executable. *)
Definition prom_init (fuel : nat) (pp shim : Z) (script : cstr) : P F unit :=
  on_bi (fun b => mk_boot_info pp shim (bi_flags b) (config_file b) (of_bootargs_buf b)
    (of_bootfile_buf b) (default_dev b) (bootargs b) (pause_message b)
    (initrd_base b) (initrd_len b));;
  root ← finddevice (str "/");
  on_prom (fun p => with_nodes (prom_chosen p) root (prom_options p) p);;
  node_or root ERR_OF_INIT_NO_ROOT;;
  chosen ← finddevice (str "/chosen");
  on_prom (fun p => with_nodes chosen (prom_root p) (prom_options p) p);;
  node_or chosen ERR_OF_INIT_NO_CHOSEN;;
  p ← gets m_prom;
  out ← getprop_word chosen (str "stdout") (prom_stdout p);
  on_prom (fun p => with_stdio (prom_stdin p) out p);;
  sin ← getprop_word chosen (str "stdin") (prom_stdin p);
  on_prom (fun p => with_stdio sin (prom_stdout p) p);;
  printk [10] [];;
  options ← finddevice (str "/options");
  on_prom (fun p => with_nodes (prom_chosen p) (prom_root p) options p);;
  node_or options ERR_OF_INIT_NO_OPTIONS;;
  oprom ← finddevice (str "/openprom");
  node_or oprom ERR_OF_INIT_NO_OPROM;;
  b ← prom_getprop oprom (str "model") (replicate 64 0) 64;
  let ver := until_nul b in
  printk (str "Running on '%s'" ++ [10]) [KStr (Some ver)];;
  on_prom (with_flags (version_flags ver));;
  root ← gets (fun m => prom_root (m_prom m));
  b ← prom_getprop root (str "compatible") (overlay b [0]) 64;
  let ver := until_nul b in
  printk (str "System is '%s'" ++ [10]) [KStr (Some ver)];;
  (if strcmp ver SYSTEM_3400_2400 =? 0
   then on_prom (with_flags (fun f => Z.lor f PROM_3400_HIDE_MEDIABAY_ATA)) else mret tt);;
  smp ← finddevice PROM_SMP_PATH;
  (if smp =? NOT_FOUND then mret tt
   else on_prom (with_flags (fun f => Z.lor f PROM_SMP_FIX)));;
  parse_prom_flags;;
  if strlen script =? 0 then mret tt
  else
    printk ([10] ++ str "Press any key in %u secs to skip preboot script ... ")
      [KNum (PREBOOT_TIMEOUT / 10)];;
    key ← wait_for_key fuel PREBOOT_TIMEOUT KEY_NONE;
    if key =? KEY_NONE then
      printk (str "running" ++ [10]) [];;
      on_bi (set_bi_flags (fun f => Z.lor f WITH_PREBOOT));;
      prom_interpret script
    else printk (str "skipped!" ++ [10]) [].

Definition yes_no (b : bool) : cstr := if b then str "yes" else str "no".

Definition cmd_prom_flags (args : cstr) : P F unit :=
  (if strlen args =? 0 then
     m ← gets id;
     printk (str "prom_flags = 0x%x, shim = %s" ++ [10])
       [KNum (prom_flags (m_prom m));
        KStr (Some (yes_no (has_flag (bi_flags (m_bi m)) SHIM_OF)))]
   else
     on_prom (with_flags (fun _ => u32 (fst (strtol args 0))));;
     parse_prom_flags;;
     m ← gets id;
     printk (str "new prom_flags = 0x%x, shim = %s" ++ [10])
       [KNum (prom_flags (m_prom m));
        KStr (Some (yes_no (has_flag (bi_flags (m_bi m)) SHIM_OF)))]).

(** ** The shim *)

Definition arg_int (args : list of_arg) (i : nat) : Z :=
  match args !! i with Some (AInt z) => u32 z | _ => 0 end.
Definition arg_str (args : list of_arg) (i : nat) : cstr :=
  match args !! i with Some (AStr s) => s | _ => [] end.

(** The cpu numbers 0, 1, ... stored until [size] reaches 0. *)
Fixpoint reg_words (fuel : nat) (index size : Z) : option (list Z) :=
  if size =? 0 then Some []
  else match fuel with
  | O => None
  | S fuel' =>
      rest ← reg_words fuel' (index + 1) (u32 (size - 4));
      Some (enc_be32 index ++ rest)
  end.

(** The answer of the shim to "getprop" of a property it overrides: the bytes
    stored at [place]; None when the call goes to the firmware. *)
Definition shim_getprop (m : mach F) (ph : Z) (name : cstr) (size : Z)
  : outcome quik_err_t (option (list Z * Z)) :=
  let p := m_prom m in
  if has_flag (prom_flags p) PROM_SMP_FIX && (ph =? shim_cpu p) then
    if negb (strcmp name (str "reg") =? 0) then Ok None
    else
      let size := Z.min (shim_cpu_count p) size in
      match reg_words (Z.to_nat (size / 4)) 0 size with
      | Some words => Ok (Some (words, size))
      | None => Undef OutOfFuel
      end
  else if has_flag (prom_flags p) PROM_SHALLOW_SETPROP && (ph =? prom_chosen p) then
    let high := if size =? 8 then enc_be32 0 else [] in
    if strcmp name (str "linux,initrd-start") =? 0
    then Ok (Some (high ++ enc_be32 (initrd_base (m_bi m)), size))
    else if strcmp name (str "linux,initrd-end") =? 0
    then Ok (Some (high ++ enc_be32 (u32 (initrd_base (m_bi m) + initrd_len (m_bi m))), size))
    else Ok None
  else Ok None.

(** A service that walks the device tree. *)
Definition tree_service (service : cstr) : bool :=
  (strcmp service (str "child") =? 0) || (strcmp service (str "peer") =? 0)
  || (strcmp service (str "parent") =? 0).

(** A kernel call through the shim. *)
Definition prom_shim (service : cstr) (args : list of_arg) (nret : Z) : P F of_ret :=
  m ← gets id;
  let forward := call_prom_ret service args nret in
  let tail_ :=
    (if has_flag (prom_flags (m_prom m)) PROM_3400_HIDE_MEDIABAY_ATA && tree_service service then
       r ← forward;
       mret (if u32 (hd 0 (r_args r)) =? shim_mediabay_ata (m_prom m)
             then mk_of_ret (0 :: tl (r_args r)) (r_buf r) else r)
     else
       (if has_flag (bi_flags (m_bi m)) DEBUG_BEFORE_BOOT && (strcmp service (str "quiesce") =? 0)
        then prom_pause None else mret tt);;
       forward) in
  if strcmp service (str "getprop") =? 0 then
    match shim_getprop m (arg_int args 0) (arg_str args 1) (arg_int args 2) with
    | Ok (Some (bytes, size)) => mret (mk_of_ret [size] bytes)
    | Ok None => tail_
    | Err e => throw e
    | Undef u => undef u
    end
  else tail_.

End Prom.

(** ** Specifications *)

Section PromFacts.
Context {F : Type} {FW : Firmware F}.
Implicit Types m : mach F.

(** Every candidate from [a] up to (not including) [b] was refused. *)
Inductive refused (size : Z) : Z -> Z -> mach F -> mach F -> Prop :=
| refused_nil a m : refused size a a m m
| refused_cons a b m m1 m2 :
    a <= PROM_CLAIM_MAX_ADDR ->
    prom_claim a size m = (Ok NOT_FOUND, m1) ->
    refused size (a + SIZE_1M) b m1 m2 -> refused size a b m m2.

(** One claim per page from [a] up to [e]. *)
Inductive pages_claimed (e : Z) : Z -> mach F -> mach F -> Prop :=
| pages_done a m : e <= a -> pages_claimed e a m m
| pages_more a r m m1 m2 :
    a < e -> prom_claim a SIZE_4K m = (Ok r, m1) ->
    pages_claimed e (a + SIZE_4K) m1 m2 -> pages_claimed e a m m2.

(** ** Lemmas *)

Lemma align_up_pow2 a k :
  0 <= k < 32 -> 0 <= a -> a + 2 ^ k <= 4294967296 ->
  ALIGN_UP a (2 ^ k) = (a + 2 ^ k - 1) / 2 ^ k * 2 ^ k.
Proof.
  intros Hk Ha Hlt. unfold ALIGN_UP.
  assert (0 < 2 ^ k) by (apply Z.pow_pos_nonneg; lia).
  rewrite u32_small by lia.
  assert (E : u32 (Z.lnot (2 ^ k - 1)) = Z.ldiff (Z.ones 32) (Z.ones k)).
  { replace (2 ^ k - 1) with (Z.ones k) by (rewrite Z.ones_equiv; lia).
    unfold u32. change 4294967296 with (2 ^ 32).
    rewrite <- Z.land_ones, Z.land_comm, <- Z.ldiff_land by lia. done. }
  rewrite E, Z.ldiff_land, Z.land_assoc, Z.land_ones by lia.
  change (2 ^ 32) with 4294967296. rewrite Z.mod_small by lia.
  by rewrite <- Z.ldiff_land, Z.ldiff_ones_r, Z.shiftl_mul_pow2, Z.shiftr_div_pow2 by lia.
Qed.

Lemma call_prom_run service args nret m :
  call_prom service args nret m =
    (Ok (u32 (hd 0 (r_args (prom_entry service args nret (m_fw m)).1))),
     set_fw (prom_entry service args nret (m_fw m)).2 m).
Proof.
  unfold call_prom, call_prom_ret, mbind, M_bind, mret, M_ret.
  by destruct (prom_entry service args nret (m_fw m)).
Qed.

(** A claim changes the firmware's state and nothing else. *)
Lemma prom_claim_fw virt size m : exists f, snd (prom_claim virt size m) = set_fw f m.
Proof.
  unfold prom_claim, claim_method, flag_set, call_prom, call_prom_ret, gets, mbind, M_bind, mret, M_ret.
  repeat first [ destruct (prom_entry _ _ _ _) | case_match ]; simplify_eq; by eexists.
Qed.

Lemma pages_claimed_ops e a m m' : pages_claimed e a m m' -> m_ops m' = m_ops m.
Proof.
  induction 1 as [|a r m m1 m2 Ha E _ IH]; [done|]. rewrite IH.
  destruct (prom_claim_fw a SIZE_4K m) as (f & Ef). rewrite E in Ef. cbn [snd] in Ef. by rewrite Ef.
Qed.

Lemma prom_claim_ok virt size m :
  0 <= virt < 4294967296 ->
  exists r m', prom_claim virt size m = (Ok r, m') /\ 0 <= r < 4294967296.
Proof.
  intros Hv. unfold prom_claim, flag_set, gets, claim_method, mbind, M_bind, mret, M_ret.
  destruct (has_flag _ _).
  - unfold call_prom_ret at 1. destruct (prom_entry _ _ _ _) as [r f].
    destruct (negb (s32 _ =? 0) || _).
    { eexists _, _. split; [done|]. unfold NOT_FOUND. lia. }
    unfold call_prom_ret at 1. destruct (prom_entry _ _ _ _) as [r2 f2].
    destruct (negb _); rewrite call_prom_run; eexists _, _; split; try done;
      unfold NOT_FOUND; lia.
  - rewrite call_prom_run. eexists _, _. split; [done|]. apply u32_range.
Qed.

Lemma claim_chunk_loop_spec fuel addr size m :
  0 <= addr -> addr mod SIZE_1M = 0 ->
  (0 < fuel)%nat -> PROM_CLAIM_MAX_ADDR - addr < (Z.of_nat fuel - 1) * SIZE_1M ->
  exists a r m1 m', claim_chunk_loop fuel addr size m = (Ok r, m')
    /\ refused size addr a m m1 /\ a mod SIZE_1M = 0 /\ addr <= a
    /\ ((PROM_CLAIM_MAX_ADDR < a /\ r = NOT_FOUND /\ m' = m1)
        \/ (a <= PROM_CLAIM_MAX_ADDR /\ prom_claim a size m1 = (Ok r, m') /\ r <> NOT_FOUND)).
Proof.
  revert addr m. unfold PROM_CLAIM_MAX_ADDR, SIZE_1M.
  induction fuel as [|fuel IH]; intros addr m H0 Hal Hpos Hf; [lia|]. simpl.
  unfold PROM_CLAIM_MAX_ADDR, SIZE_1M in *.
  destruct (Z.leb_spec addr 0x10000000).
  - destruct (prom_claim_ok addr size m) as (r & m1 & E & Hr); [lia|].
    unfold mbind, M_bind. rewrite E.
    destruct (Z.eqb_spec r NOT_FOUND) as [->|Hne].
    + rewrite u32_small by lia.
      destruct (IH (addr + 0x100000) m1) as (a & r' & m2 & m' & E2 & Href & Hmod & Hle & Hcase);
        [lia|Z.div_mod_to_equations; lia|lia|lia|].
      exists a, r', m2, m'. split_and!; try done; [|lia].
      eapply refused_cons; [done|exact E|exact Href].
    + exists addr, r, m, m1. split_and!; try done; [constructor|by right].
  - exists addr, NOT_FOUND, m, m. split_and!; try done; [constructor|by left].
Qed.

Lemma ensure_claimed_loop_spec fuel addr end_ m :
  0 <= addr -> end_ + SIZE_4K <= 4294967296 -> end_ - addr <= (Z.of_nat fuel - 1) * SIZE_4K ->
  (0 < fuel)%nat ->
  exists m', ensure_claimed_loop fuel addr end_ m = (Ok tt, m') /\ pages_claimed end_ addr m m'.
Proof.
  revert addr m. unfold SIZE_4K.
  induction fuel as [|fuel IH]; intros addr m H0 He Hf Hpos; [lia|]. simpl.
  destruct (Z.ltb_spec addr end_).
  - destruct (prom_claim_ok addr SIZE_4K m) as (r & m1 & E & _); [lia|].
    unfold mbind, M_bind. rewrite E. unfold SIZE_4K at 1. rewrite u32_small by lia.
    destruct (IH (addr + 0x1000) m1) as (m' & E2 & Hp); [lia..|].
    exists m'. split; [done|]. by eapply pages_more.
  - exists m. split; [done|]. by constructor.
Qed.

End PromFacts.
