(* ===== verification/Part.v ===== *)
(** * Disks and partitions (disk.c, part.c)

    Reads through the firmware, the two partition map formats, and the bounded
    access to an open partition.  The class [Volume] at the end is what the file
    system relies on; it holds of every partition of a disk the firmware serves
    ([DiskFirmware]). *)
From Stdlib Require Import ZArith Lia Ascii.
From stdpp Require Import prelude strings.
From S2P Require Import Prelude Quik CString Util Malloc Printf Machine Prom.

(** ** Data *)

Definition SECTOR_SIZE : Z := 512.
Definition SECTOR_BITS : Z := 9.
Definition PART_VALID : Z := 1.
Definition PART_MOUNTED : Z := 2.

Record part_t := mk_part {
  pt_partno : Z;
  pt_dev : Z;
  pt_start : Z;
  pt_len : Z;
  pt_flags : Z;
  pt_devname : list Z   (* the 512 bytes of [devname] *)
}.

Definition part_zero : part_t := mk_part 0 0 0 0 0 (replicate 512 0).

(** *** mac-part.h: the fields the loader reads, at their offsets *)

Definition MAC_DRIVER_MAGIC : Z := 0x4552.
Definition MAC_PARTITION_MAGIC : Z := 0x504d.
Definition STATUS_BOOTABLE : Z := 8.

Definition md_signature (blk : list Z) : Z := be16 blk 0.
Definition md_block_size (blk : list Z) : Z := be16 blk 2.

Definition mp_signature (blk : list Z) : Z := be16 blk 0.
Definition mp_map_count (blk : list Z) : Z := be32 blk 4.
Definition mp_start_block (blk : list Z) : Z := be32 blk 8.
Definition mp_block_count (blk : list Z) : Z := be32 blk 12.
Definition mp_type (blk : list Z) : cstr := cstr_at blk 48.
Definition mp_status (blk : list Z) : Z := be32 blk 88.
Definition mp_processor (blk : list Z) : cstr := cstr_at blk 120.

Section Part.
Context {F : Type} {FW : Firmware F}.

(** ** disk.c *)

Definition disk_open (dev : cstr) : P F Z := prom_open dev.

Definition disk_close (dev : Z) : P F unit :=
  call_prom (str "close") [AInt dev] 0;; mret tt.

(** The number of bytes the firmware says it read, and the buffer after it. *)
Definition disk_read (dev : Z) (buf : list Z) (nbytes offset : Z) : P F (Z * list Z) :=
  if nbytes =? 0 then mret (0, buf)
  else
    call_prom (str "seek")
      [AInt dev; AInt (u32 (Z.shiftr offset 32)); AInt (u32 (Z.land offset 0xFFFFFFFF))] 1;;
    r ← call_prom_ret (str "read") [AInt dev; AInt nbytes] 1;
    let nr := u32 (hd 0 (r_args r)) in
    let buf' := overlay buf (take (Z.to_nat nbytes) (r_buf r)) in
    (if nr =? nbytes then mret tt
     else printk (str "Read error at offset %x%x (%u instead of %u)" ++ [10])
            [KNum (u32 (Z.shiftr offset 32)); KNum (u32 offset); KNum nr; KNum nbytes]);;
    mret (nr, buf').

(** ** Macintosh partition maps *)

(** Is [blk], the [upart]-th entry, the one asked for?  Partition 0 stands for
    the first bootable one. *)
Definition mac_match (blk : list Z) (part upart : Z) : bool :=
  (part =? upart)
  || ((part =? 0) && negb (Z.land (mp_status blk) STATUS_BOOTABLE =? 0)
      && (strcasecmp (mp_processor blk) (str "powerpc") =? 0)).

(** The scan of the map: start and length in bytes of the partition. *)
Fixpoint mac_loop (fuel : nat) (dev part secsize i blocks_in_map upart : Z) (blk : list Z)
  : P F (Z * Z) :=
  match fuel with
  | O => undef OutOfFuel
  | S fuel' =>
      if i <=? blocks_in_map then
        '(nr, blk) ← disk_read dev blk SECTOR_SIZE (u64 (i * secsize));
        if negb (nr =? SECTOR_SIZE) then throw ERR_DEV_SHORT_READ
        else if negb (mp_signature blk =? MAC_PARTITION_MAGIC) then throw ERR_PART_NOT_FOUND
        else
          let blocks_in_map := if i =? 1 then mp_map_count blk else blocks_in_map in
          let upart := u32 (upart + 1) in
          if mac_match blk part upart
          then mret (u64 (mp_start_block blk * secsize), u64 (mp_block_count blk * secsize))
          else mac_loop fuel' dev part secsize (u32 (i + 1)) blocks_in_map upart blk
      else throw ERR_PART_NOT_FOUND
  end.

Definition read_mac_partition (fuel : nat) (dev part : Z) : P F (Z * Z) :=
  '(len, blk) ← disk_read dev (replicate 512 0) SECTOR_SIZE 0;
  if negb (len =? SECTOR_SIZE) then throw ERR_DEV_SHORT_READ
  else if negb (md_signature blk =? MAC_DRIVER_MAGIC) then throw ERR_PART_NOT_MAC
  else mac_loop fuel dev part (md_block_size blk) 1 1 0 blk.

(** ** DOS partition tables *)

(** The entry the loop [for (i = 1; i != part; i++, d++)] stops at: it runs
    [part - 1] times modulo 2^32. *)
Definition dos_entry (part : Z) : Z := u32 (0x1be + 16 * u32 (part - 1)).

Definition read_dos_partition (dev part : Z) : P F (Z * Z) :=
  '(len, blk) ← disk_read dev (replicate 512 0) SECTOR_SIZE 0;
  if negb (len =? SECTOR_SIZE) then throw ERR_DEV_SHORT_READ
  else if negb (byte_at blk 0x1fe =? 0x55) || negb (byte_at blk 0x1ff =? 0xaa)
  then throw ERR_PART_NOT_DOS
  else if 4 <=? part then throw ERR_PART_NOT_FOUND
  else
    let d := dos_entry part in
    mret (u32 (swab32 (be32 blk (d + 8)) * SECTOR_SIZE),
          u32 (swab32 (be32 blk (d + 12)) * SECTOR_SIZE)).

(** ** Opening and reading a partition *)

(** Computations on the machine and the caller's [part_t]. *)
Definition lift_part {A} (c : P F A) : M quik_err_t (mach F * part_t) A :=
  zoom fst (fun m t => (m, snd t)) c.

Definition part_close : M quik_err_t (mach F * part_t) unit :=
  dev ← gets (fun t => pt_dev (snd t));
  lift_part (disk_close dev);;
  modify (fun t => (fst t, part_zero)).

(** The two formats in turn. *)
Definition read_partition (fuel : nat) (dev partno : Z) : P F (Z * Z) :=
  r ← attempt (read_mac_partition fuel dev partno);
  match r with
  | inr sl => mret sl
  | inl err =>
      if decide (err = ERR_PART_NOT_MAC) then
        r2 ← attempt (read_dos_partition dev partno);
        match r2 with
        | inr sl => mret sl
        | inl err2 =>
            if decide (err2 = ERR_PART_NOT_DOS) then throw ERR_PART_NOT_PARTITIONED
            else throw err2
        end
      else throw err
  end.

Definition part_open (fuel : nat) (dev : cstr) (partno : Z)
  : M quik_err_t (mach F * part_t) unit :=
  p ← gets snd;
  if has_flag (pt_flags p) PART_VALID && (pt_partno p =? partno)
     && (strcmp dev (until_nul (pt_devname p)) =? 0)
  then mret tt
  else
    (if has_flag (pt_flags p) PART_VALID then part_close else mret tt);;
    ih ← lift_part (disk_open dev);
    r ← attempt (lift_part (read_partition fuel ih partno));
    match r with
    | inl err => lift_part (disk_close ih);; throw err
    | inr (start, len) =>
        modify (fun t =>
          (fst t, mk_part partno ih start len (Z.lor (pt_flags (snd t)) PART_VALID)
                    (overlay (pt_devname (snd t)) (strncpy dev 512))))
    end.

(** The error code and the buffer after the read: a failed read may have
    overwritten part of it. *)
Definition part_read (p : part_t) (sector byte_offset byte_len : Z) (buf : list Z)
  : P F (quik_err_t * list Z) :=
  let off := u64 (Z.shiftl sector SECTOR_BITS) in
  if pt_len p <=? u64 (u64 (off + byte_offset) + byte_len) then mret (ERR_PART_BEYOND, buf)
  else
    let off := u64 (off + u64 (pt_start p + byte_offset)) in
    '(len, buf') ← disk_read (pt_dev p) buf byte_len off;
    if negb (len =? byte_len) then mret (ERR_DEV_SHORT_READ, buf')
    else mret (ERR_NONE, buf').

(** [if (err != ERR_NONE) return err;] *)
Definition check (err : quik_err_t) : P F unit :=
  if decide (err = ERR_NONE) then mret tt else throw err.

(** ** Interfaces *)

(** What the loader relies on of the firmware for one open disk: "seek" then
    "read" returns the bytes of the disk at that offset, when they exist. *)
Class DiskFirmware (I : F -> Prop) (dev : Z) (img : list Z) : Prop := {
  disk_write : write_closed I;
  disk_bytes : bytes_ok img;
  disk_seek_read f hi lo n r1 f1 r2 f2 :
    I f -> 0 <= hi < 4294967296 -> 0 <= lo < 4294967296 -> 0 < n < 4294967296 ->
    prom_entry (str "seek") [AInt dev; AInt hi; AInt lo] 1 f = (r1, f1) ->
    prom_entry (str "read") [AInt dev; AInt n] 1 f1 = (r2, f2) ->
    hi * 4294967296 + lo + n <= Z.of_nat (length img) ->
    I f2 /\ hd 0 (r_args r2) = n /\ r_buf r2 = slice img (hi * 4294967296 + lo) n
}.

(** What the file system relies on of an open partition: the bytes [vol] can be
    read, up to the last one. *)
Class Volume (I : F -> Prop) (p : part_t) (vol : list Z) : Prop := {
  vol_write : write_closed I;
  vol_bytes : bytes_ok vol;
  vol_len : Z.of_nat (length vol) = pt_len p;
  vol_read m sector off n buf :
    I (m_fw m) -> 0 <= sector < 4294967296 -> 0 <= off < 4294967296 -> 0 <= n < 4294967296 ->
    sector * SECTOR_SIZE + off + n < pt_len p ->
    exists m', part_read p sector off n buf m
               = (Ok (ERR_NONE, overlay buf (slice vol (sector * SECTOR_SIZE + off) n)), m')
               /\ I (m_fw m') /\ same_but_io m m'
}.

End Part.

(** ** Lemmas *)

Section PartFacts.
Context {F : Type} {FW : Firmware F}.
Implicit Types m : mach F.

Lemma disk_read_ok I dev img `{!DiskFirmware I dev img} m buf n off :
  I (m_fw m) -> 0 < n < 4294967296 -> 0 <= off -> off + n <= Z.of_nat (length img) ->
  off + n < 18446744073709551616 ->
  exists m', disk_read dev buf n off m = (Ok (n, overlay buf (slice img off n)), m')
    /\ I (m_fw m') /\ same_but_io m m'.
Proof.
  intros Hm Hn Ho Hlen Hb. unfold disk_read. destruct (Z.eqb_spec n 0); [lia|].
  assert (Hhi : u32 (Z.shiftr off 32) * 4294967296 + u32 (Z.land off 0xFFFFFFFF) = off).
  { rewrite Z.shiftr_div_pow2 by lia. change 0xFFFFFFFF with (Z.ones 32).
    rewrite Z.land_ones by lia. change (2 ^ 32) with 4294967296. word_lia. }
  unfold mbind, M_bind. rewrite call_prom_run. unfold call_prom_ret, mret, M_ret. simpl.
  destruct (prom_entry (str "seek") _ 1 (m_fw m)) as [r1 f1] eqn:E1. simpl.
  destruct (prom_entry (str "read") _ 1 f1) as [r2 f2] eqn:E2. simpl.
  destruct (disk_seek_read _ _ _ _ _ _ _ _ Hm (u32_range _) (u32_range _) Hn E1 E2)
    as (HI & Hr & Hbuf); [lia|].
  rewrite Hr, u32_small, Z.eqb_refl, Hbuf, Hhi by lia.
  exists (set_fw f2 (set_fw f1 m)). split; [|by split].
  do 3 f_equal. unfold slice. by rewrite take_take, Nat.min_id.
Qed.

Lemma part_read_beyond (p : part_t) sector off n buf m :
  0 <= sector < 4294967296 -> 0 <= off < 4294967296 -> 0 <= n < 4294967296 ->
  pt_len p <= sector * SECTOR_SIZE + off + n ->
  part_read p sector off n buf m = (Ok (ERR_PART_BEYOND, buf), m).
Proof.
  intros Hs Ho Hn Hp. unfold part_read, SECTOR_BITS, SECTOR_SIZE in *.
  rewrite Z.shiftl_mul_pow2 by lia. change (2 ^ 9) with 512.
  rewrite (u64_small (sector * 512)), (u64_small (sector * 512 + off)) by lia.
  rewrite (u64_small (_ + n)) by lia.
  by destruct (Z.leb_spec (pt_len p) (sector * 512 + off + n)); [|lia].
Qed.

(** A partition of a disk the firmware serves is a volume. *)
Lemma disk_volume I (p : part_t) img :
  DiskFirmware I (pt_dev p) img ->
  0 <= pt_start p -> 0 <= pt_len p ->
  pt_start p + pt_len p <= Z.of_nat (length img) ->
  pt_start p + pt_len p < 18446744073709551616 ->
  Volume I p (slice img (pt_start p) (pt_len p)).
Proof.
  intros HD Hs Hl Hlen Hb. split.
  - apply disk_write.
  - apply bytes_ok_slice, disk_bytes.
  - by apply slice_length.
  - intros m sector off n buf Hm Hsec Hoff Hn Hin.
    unfold part_read, SECTOR_BITS, SECTOR_SIZE in *.
    rewrite Z.shiftl_mul_pow2 by lia. change (2 ^ 9) with 512.
    rewrite (u64_small (sector * 512)), (u64_small (sector * 512 + off)) by lia.
    rewrite (u64_small (_ + n)), (u64_small (pt_start p + off)) by lia.
    rewrite (u64_small (sector * 512 + _)) by lia.
    destruct (Z.leb_spec (pt_len p) (sector * 512 + off + n)); [lia|].
    rewrite slice_slice by lia.
    destruct (Z.eqb_spec n 0) as [->|].
    + exists m. by split_and!.
    + unfold mbind, M_bind.
      destruct (disk_read_ok I (pt_dev p) img m buf n (sector * 512 + (pt_start p + off)))
        as (m' & E & HI & HS); [done|lia..|].
      rewrite E, Z.eqb_refl. exists m'. split; [|done]. simpl.
      by replace (pt_start p + (sector * 512 + off))
        with (sector * 512 + (pt_start p + off)) by lia.
Qed.

End PartFacts.

(** *** Partition maps *)

Section Maps.
Context {F : Type} {FW : Firmware F}.
Context (I : F -> Prop) (dev : Z) (img : list Z) {HD : DiskFirmware I dev img}.

(** Block [b] of a disk with blocks of [secsize] bytes: its first 512 bytes. *)
Definition map_block (secsize b : Z) : list Z := slice img (b * secsize) SECTOR_SIZE.

(** The first entry from [i] on that is the one asked for. *)
Definition mac_search (secsize part i count : Z) : option Z :=
  List.find (fun j => mac_match (map_block secsize j) part j) (seqZ i (count - i + 1)).

(** What a search makes of the map. *)
Definition mac_found (secsize : Z) (o : option Z) : outcome quik_err_t (Z * Z) :=
  match o with
  | Some j => Ok (u64 (mp_start_block (map_block secsize j) * secsize),
                  u64 (mp_block_count (map_block secsize j) * secsize))
  | None => Err ERR_PART_NOT_FOUND
  end.

(** Blocks 1 to [count] are map entries, and lie on the disk. *)
Definition mac_map_ok (secsize count : Z) : Prop :=
  0 < secsize < 65536 /\ 1 <= count < 2147483648
  /\ mp_map_count (map_block secsize 1) = count
  /\ count * secsize + SECTOR_SIZE <= Z.of_nat (length img)
  /\ forall j, 1 <= j <= count -> mp_signature (map_block secsize j) = MAC_PARTITION_MAGIC.

Lemma disk_read_block b off m :
  I (m_fw m) -> length b = 512%nat -> 0 <= off -> off + SECTOR_SIZE <= Z.of_nat (length img) ->
  off < 4611686018427387904 ->
  exists m', disk_read dev b SECTOR_SIZE off m = (Ok (SECTOR_SIZE, slice img off SECTOR_SIZE), m')
    /\ I (m_fw m') /\ same_but_io m m'.
Proof.
  intros Hm Hb Ho Hl Hs. unfold SECTOR_SIZE in *.
  destruct (disk_read_ok I dev img m b 512 off Hm) as (m' & E & HI & HS); try lia.
  exists m'. split; [|done]. rewrite E. do 3 f_equal. unfold overlay.
  rewrite drop_ge, app_nil_r; [done|]. pose proof (slice_length img off 512). lia.
Qed.

Lemma mac_loop_search secsize part count n i blk m bim :
  mac_map_ok secsize count -> I (m_fw m) -> length blk = 512%nat -> 1 <= i ->
  (i = 1 /\ bim = 1 \/ 1 < i /\ bim = count) -> count - i + 1 <= Z.of_nat n -> i <= count + 1 ->
  exists m', mac_loop (S n) dev part secsize i bim (i - 1) blk m
      = (mac_found secsize (mac_search secsize part i count), m')
    /\ I (m_fw m') /\ same_but_io m m'.
Proof.
  intros (Hsec & Hcnt & Hmc & Hlen & Hsig). revert i blk m bim.
  induction n as [|n IH]; intros i blk m bim Hm Hb Hi Hbim Hn Hic.
  - cbn [mac_loop]. destruct (Z.leb_spec i bim); [lia|]. exists m.
    unfold mac_search. replace (count - i + 1) with 0 by lia. by split.
  - remember (S n) as k eqn:Ek. cbn [mac_loop]. destruct (Z.leb_spec i bim).
    2: { exists m. unfold mac_search. replace (count - i + 1) with 0 by lia. by split. }
    assert (Hoff : 0 <= i * secsize < 4611686018427387904 /\ i * secsize <= count * secsize) by nia.
    rewrite u64_small by lia.
    destruct (disk_read_block blk (i * secsize) m Hm Hb) as (m1 & E1 & H1 & S1); [lia..|].
    rewrite (bind_ok _ _ _ _ _ E1), Z.eqb_refl. cbn [negb]. fold (map_block secsize i).
    rewrite Hsig, Z.eqb_refl by lia. cbn [negb].
    replace (if i =? 1 then mp_map_count (map_block secsize i) else bim) with count.
    2: { destruct (Z.eqb_spec i 1) as [->|]; [done|lia]. }
    replace (i - 1 + 1) with i by lia. rewrite !(u32_small) by lia.
    unfold mac_search. rewrite seqZ_cons by lia. cbn [List.find].
    destruct (mac_match (map_block secsize i) part i); [by exists m1|]. subst k.
    assert (Hl : length (map_block secsize i) = 512%nat).
    { pose proof (slice_length img (i * secsize) SECTOR_SIZE). unfold map_block, SECTOR_SIZE in *. lia. }
    replace (Z.succ i) with (i + 1) by lia. replace (Z.pred (count - i + 1)) with (count - (i + 1) + 1) by lia.
    destruct (IH (i + 1) (map_block secsize i) m1 count) as (m2 & E2 & H2 & S2); try done; try lia.
    replace (i + 1 - 1) with i in E2 by lia. exists m2. rewrite E2. split; [done|].
    split; [done|]. by eapply same_but_io_trans.
Qed.

End Maps.
