(* ===== verification/Sim.v ===== *)
(** * A simulated firmware

    A concrete [Firmware] to run the model on: named disks held in memory, a
    console log, a table of claimed memory, a keyboard queue and a clock.  It
    meets [DiskFirmware], so the theorems stated against an arbitrary firmware
    apply to it. *)
From Stdlib Require Import ZArith Lia Ascii.
From stdpp Require Import prelude strings.
From S2P Require Import Prelude Quik CString Util Malloc Printf Machine Prom Part.

Record sim := mk_sim {
  s_disks : list (cstr * list Z);
  s_pos : Z;
  s_con : list Z;            (* console output, latest first *)
  s_busy : list (Z * Z);     (* claimed ranges: start, size *)
  s_keys : list Z;
  s_now : Z
}.

Inductive sim_service : Set :=
| SWrite | SSeek | SRead | SOpen | SClaim | SRelease | SMs | SOther.

Definition sim_service_of (s : cstr) : sim_service :=
  let eqs t := strcmp s t =? 0 in
  if eqs (str "write") then SWrite else if eqs (str "seek") then SSeek
  else if eqs (str "read") then SRead else if eqs (str "open") then SOpen
  else if eqs (str "claim") then SClaim else if eqs (str "release") then SRelease
  else if eqs (str "milliseconds") then SMs else SOther.

(** Handles: 16 is the keyboard, [32 + k] the [k]-th disk. *)
Definition KBD : Z := 16.
Definition DISK0 : Z := 32.

Fixpoint find_disk (name : cstr) (l : list (cstr * list Z)) (k : Z) : option Z :=
  match l with
  | [] => None
  | (n, _) :: l' => if strcmp n name =? 0 then Some k else find_disk name l' (k + 1)
  end.

Definition overlaps (a n : Z) (r : Z * Z) : bool :=
  (a <? fst r + snd r) && (fst r <? a + n).

Definition sim_entry (service : cstr) (args : list of_arg) (nret : Z) (s : sim)
  : of_ret * sim :=
  match sim_service_of service with
  | SWrite =>
      (mk_of_ret [arg_int args 2] [],
       mk_sim (s_disks s) (s_pos s) (rev (arg_str args 1) ++ s_con s) (s_busy s)
         (s_keys s) (s_now s))
  | SSeek =>
      (mk_of_ret [0] [],
       mk_sim (s_disks s) (arg_int args 1 * 4294967296 + arg_int args 2) (s_con s)
         (s_busy s) (s_keys s) (s_now s))
  | SRead =>
      if arg_int args 0 =? KBD then
        match s_keys s with
        | [] => (mk_of_ret [4294967294] [], s)
        | k :: ks =>
            (mk_of_ret [1] [k],
             mk_sim (s_disks s) (s_pos s) (s_con s) (s_busy s) ks (s_now s))
        end
      else
        match s_disks s !! Z.to_nat (arg_int args 0 - DISK0) with
        | Some (_, img) =>
            let bytes := slice img (s_pos s) (arg_int args 1) in
            (mk_of_ret [Z.of_nat (length bytes)] bytes, s)
        | None => (mk_of_ret [NOT_FOUND] [], s)
        end
  | SOpen =>
      (mk_of_ret [match find_disk (arg_str args 0) (s_disks s) 0 with
                  | Some k => DISK0 + k | None => NOT_FOUND end] [], s)
  | SClaim =>
      if existsb (overlaps (arg_int args 0) (arg_int args 1)) (s_busy s)
      then (mk_of_ret [NOT_FOUND] [], s)
      else (mk_of_ret [arg_int args 0] [],
            mk_sim (s_disks s) (s_pos s) (s_con s)
              ((arg_int args 0, arg_int args 1) :: s_busy s) (s_keys s) (s_now s))
  | SRelease =>
      (mk_of_ret [] [],
       mk_sim (s_disks s) (s_pos s) (s_con s)
         (List.filter (fun r => negb (fst r =? arg_int args 0)) (s_busy s)) (s_keys s) (s_now s))
  | SMs =>
      (mk_of_ret [s_now s] [],
       mk_sim (s_disks s) (s_pos s) (s_con s) (s_busy s) (s_keys s) (s_now s + 10))
  | SOther => (mk_of_ret [0] [], s)
  end.

#[export] Instance sim_firmware : Firmware sim :=
  {| prom_entry := sim_entry; uninit_word := 0; stack_addr := 0x3ff000 |}.

(** A machine at rest: disks, a claimed heap, no console. *)
Definition sim_start (disks : list (cstr * list Z)) : sim := mk_sim disks 0 [] [] [] 0.
Definition sim_mach (disks : list (cstr * list Z)) : mach sim :=
  mk_mach (sim_start disks) prom_init_st bi_init (heap_claimed MALLOC_BASE heap_init) 0 [].

(** The disks are in place. *)
Definition sim_has (disks : list (cstr * list Z)) (s : sim) : Prop := s_disks s = disks.

Lemma sim_write_closed disks : write_closed (sim_has disks).
Proof.
  intros f args nret r f' E Hf. unfold prom_entry in E. simpl in E. unfold sim_entry in E.
  change (sim_service_of (str "write")) with SWrite in E. cbv iota in E.
  by injection E as <- <-.
Qed.

Lemma sim_disk disks k name img :
  disks !! k = Some (name, img) -> (Z.of_nat k + DISK0 < 4294967296) -> bytes_ok img ->
  DiskFirmware (sim_has disks) (DISK0 + Z.of_nat k) img.
Proof.
  intros Hk Hkb Hb. split; [apply sim_write_closed|done|].
  intros f hi lo n r1 f1 r2 f2 Hf Hhi Hlo Hn E1 E2 Hlen.
  unfold prom_entry in *. simpl in *. unfold sim_entry in *.
  change (sim_service_of (str "seek")) with SSeek in E1.
  change (sim_service_of (str "read")) with SRead in E2. cbv iota in *.
  injection E1 as <- <-. unfold arg_int in E2. simpl in E2. unfold DISK0, KBD in *.
  rewrite (u32_small (32 + Z.of_nat k)) in E2 by lia.
  destruct (Z.eqb_spec (32 + Z.of_nat k) 16); [lia|].
  replace (Z.to_nat (32 + Z.of_nat k - 32)) with k in E2 by lia.
  unfold sim_has in Hf. rewrite Hf, Hk in E2. injection E2 as <- <-. simpl.
  rewrite (u32_small hi), (u32_small lo), (u32_small n) by lia.
  split_and!; [done| |done]. apply slice_length; lia.
Qed.
