(* ===== verification/PartCorrect.v ===== *)
(** * Correctness of partition access

    The window a partition gives onto its disk, the entry a partition number is
    resolved to in either format, and the reuse of an open partition; with
    applications to disks of the simulated firmware. *)
From Stdlib Require Import ZArith Lia Ascii.
From stdpp Require Import prelude strings.
From S2P Require Import Prelude Quik CString Util Malloc Printf LibCorrect Machine Prom Part Sim.

(** ** Specification *)

(** What a request for [n] bytes at a position gives: the bytes of the disk, or
    the refusal of a request that reaches the end of the partition. *)
Definition window (p : part_t) (img : list Z) (pos n : Z) (buf : list Z) : quik_err_t * list Z :=
  if pt_len p <=? pos + n then (ERR_PART_BEYOND, buf)
  else (ERR_NONE, overlay buf (slice img (pt_start p + pos) n)).

(** The partition lies on its disk. *)
Definition part_on (p : part_t) (img : list Z) : Prop :=
  0 <= pt_start p /\ 0 <= pt_len p /\ pt_start p + pt_len p <= Z.of_nat (length img)
  /\ pt_start p + pt_len p < 18446744073709551616.

(** Entry [part] of the table in the first block of a disk: start and length in
    bytes, computed in 32 bits. *)
Definition dos_slot (img : list Z) (part : Z) : Z * Z :=
  let d := 446 + 16 * (part - 1) in
  (u32 (le32 img (d + 8) * SECTOR_SIZE), u32 (le32 img (d + 12) * SECTOR_SIZE)).

(** What the table of a disk says of partition [part]. *)
Definition dos_lookup (img : list Z) (part : Z) : outcome quik_err_t (Z * Z) :=
  if negb (byte_at img 510 =? 0x55) || negb (byte_at img 511 =? 0xaa) then Err ERR_PART_NOT_DOS
  else if 4 <=? part then Err ERR_PART_NOT_FOUND
  else Ok (dos_slot img part).

(** *** Macintosh maps *)

(** The word "powerpc", each letter of either case. *)
Definition is_powerpc (w : cstr) : Prop :=
  Forall2 (fun c l => c = l \/ c = l - 32) w (str "powerpc").

(** Entry [j] of the map, in blocks of [secsize] bytes: the 512 bytes at its block. *)
Definition map_entry (img : list Z) (secsize j : Z) : list Z := slice img (j * secsize) 512.

(** Entry [j] is the one asked for with [part]: its number is [part]; or [part] is 0, bit
    3 of its status word, at byte 88, is set, and the processor named at byte 120 is the
    PowerPC. *)
Definition entry_asked (img : list Z) (secsize part j : Z) : Prop :=
  let e := map_entry img secsize j in
  part = j \/ (part = 0 /\ Z.testbit (be32 e 88) 3 = true /\ is_powerpc (cstr_at e 120)).

(** What a search of the entries 1 to [count] gives: the place of the first one asked for -
    its first block, at byte 8, and its number of blocks, at byte 12, counted in bytes - or
    that there is none. *)
Definition map_search (img : list Z) (secsize part count : Z) (r : outcome quik_err_t (Z * Z)) : Prop :=
  (exists j, 1 <= j <= count /\ entry_asked img secsize part j
     /\ (forall i, 1 <= i < j -> ~ entry_asked img secsize part i)
     /\ let e := map_entry img secsize j in r = Ok (be32 e 8 * secsize, be32 e 12 * secsize))
  \/ (forall j, 1 <= j <= count -> ~ entry_asked img secsize part j) /\ r = Err ERR_PART_NOT_FOUND.

(** ** Lemmas *)

(** Letters of either case are those that fold to the small one. *)
Lemma folds_to (w l : cstr) :
  Forall (fun c => chr "a" <= c <= chr "z") l ->
  (map tolower w = l <-> Forall2 (fun c d => c = d \/ c = d - 32) w l).
Proof.
  intros Hl. revert w. induction Hl as [|d l Hd Hl IH]; intros [|c w].
  - split; [constructor|done].
  - split; [done|by inversion 1].
  - split; [done|by inversion 1].
  - cbn [map]. change (chr "a") with 97 in *. change (chr "z") with 122 in *.
    unfold tolower. change (chr "A") with 65. change (chr "Z") with 90. change (chr "a") with 97. split.
    + intros [= Ec Ew]. constructor; [|by apply IH].
      destruct (Z.leb_spec 65 c), (Z.leb_spec c 90); simpl in Ec; lia.
    + inversion 1 as [|? ? ? ? Hc Hw]; subst. f_equal; [|by apply IH].
      destruct (Z.leb_spec 65 c), (Z.leb_spec c 90); simpl; lia.
Qed.

Lemma bit3_set z : (negb (Z.land z STATUS_BOOTABLE =? 0)) = Z.testbit z 3.
Proof.
  change STATUS_BOOTABLE with (2 ^ 3).
  destruct (Z.eqb_spec (Z.land z (2 ^ 3)) 0) as [E|E]; cbn [negb].
  - destruct (Z.testbit z 3) eqn:Eb; [|done]. assert (Z.testbit (Z.land z (2 ^ 3)) 3 = true) as H
      by (by rewrite Z.land_spec, Eb, Z.pow2_bits_true). by rewrite E in H.
  - destruct (Z.testbit z 3) eqn:Eb; [done|]. destruct E. apply Z.bits_inj'. intros n Hn.
    rewrite Z.land_spec, Z.bits_0. destruct (Z.eq_dec n 3) as [->|]; [by rewrite Eb|].
    by rewrite Z.pow2_bits_false, andb_false_r.
Qed.

Lemma cstr_at_ok b i : bytes_ok b -> cstr_ok (cstr_at b i).
Proof.
  intros Hb. unfold cstr_at. apply (Forall_drop _ (Z.to_nat i)) in Hb.
  induction Hb as [|c l Hc Hb IH]; [constructor|]. cbn [until_nul].
  destruct (Z.eqb_spec c 0); [constructor|]. constructor; [unfold is_byte in *; lia|exact IH].
Qed.

(** The loop's test, in those terms. *)
Lemma mac_match_asked img secsize part j :
  bytes_ok img ->
  (mac_match (map_block img secsize j) part j = true <-> entry_asked img secsize part j).
Proof.
  intros Hok. change (map_block img secsize j) with (map_entry img secsize j). unfold mac_match, entry_asked, mp_status, mp_processor.
  assert (Hb : bytes_ok (map_entry img secsize j)) by by apply bytes_ok_slice.
  rewrite bit3_set, orb_true_iff, !andb_true_iff, !Z.eqb_eq.
  rewrite strcasecmp_zero by (by_eval || by apply cstr_at_ok).
  change (map tolower (str "powerpc")) with (str "powerpc"). rewrite folds_to by by_eval.
  unfold is_powerpc. tauto.
Qed.

Lemma be32_swab_slice img n i :
  bytes_ok img -> 0 <= i -> i + 4 <= n -> swab32 (be32 (slice img 0 n) i) = le32 img i.
Proof.
  intros Hok Hi Hn. rewrite be32_slice by lia. rewrite Z.add_0_l. by apply swab32_be32.
Qed.

(** The first number of a range that passes a test. *)
Lemma find_seqZ (f : Z -> bool) a n j :
  List.find f (seqZ a n) = Some j -> a <= j < a + n /\ f j = true /\ forall i, a <= i < j -> f i = false.
Proof.
  destruct (Z.lt_ge_cases 0 n) as [Hn|]; [|by rewrite seqZ_nil by lia].
  pose proof Hn as Hn'. revert a Hn. apply (Z_lt_induction (fun n => forall a, 0 < n -> List.find f (seqZ a n) = Some j ->
    a <= j < a + n /\ f j = true /\ forall i, a <= i < j -> f i = false)); [|lia].
  intros x IH a Hx. rewrite seqZ_cons by lia. cbn [List.find]. destruct (f a) eqn:Ea.
  - intros [= <-]. split; [lia|]. split; [done|]. intros i Hi. lia.
  - destruct (Z.lt_ge_cases 1 x); [|by rewrite seqZ_nil by lia]. intros E.
    destruct (IH (Z.pred x) ltac:(lia) (Z.succ a) ltac:(lia) E) as (H1 & H2 & H3). split; [lia|]. split; [done|].
    intros i Hi. destruct (Z.eq_dec i a) as [->|]; [done|]. apply H3. lia.
Qed.

Lemma find_none_seqZ (f : Z -> bool) a n : List.find f (seqZ a n) = None -> forall j, a <= j < a + n -> f j = false.
Proof. intros E j Hj. apply (List.find_none _ _ E), list_elem_of_In, elem_of_seqZ. lia. Qed.

(** The device name an open partition keeps reads back. *)
Lemma devname_stored old dev :
  cstr_ok dev -> (length dev < 512)%nat -> until_nul (overlay old (strncpy dev 512)) = dev.
Proof.
  intros Hok Hlen. assert (E : forall n, (length dev < n)%nat -> strncpy dev n = dev ++ [0]).
  { clear Hlen. induction Hok as [|c dev Hc Hok IH]; intros [|n] Hn; simpl in *; try lia; [done|].
    f_equal. apply IH. lia. }
  unfold overlay. rewrite E by done. rewrite <- app_assoc. by apply until_nul_app.
Qed.

Section Open.
Context {F : Type} {FW : Firmware F}.

Lemma part_open_ok_state fuel dev partno (s s' : mach F * part_t) :
  part_open fuel dev partno s = (Ok tt, s') -> cstr_ok dev -> (length dev < 512)%nat ->
  has_flag (pt_flags (snd s')) PART_VALID = true /\ pt_partno (snd s') = partno
  /\ strcmp dev (until_nul (pt_devname (snd s'))) = 0.
Proof.
  intros H Hok Hlen. unfold part_open in H. rewrite bind_gets in H.
  destruct (_ && _ && _) eqn:E.
  - injection H as <-. apply andb_prop in E as [[E1 E2]%andb_prop E3].
    split_and!; [done|by apply Z.eqb_eq|by apply Z.eqb_eq].
  - apply bind_ok_inv in H as (? & s1 & _ & H). apply bind_ok_inv in H as (ih & s2 & _ & H).
    apply bind_ok_inv in H as (r & s3 & _ & H). destruct r as [err|[start len]].
    { by apply bind_ok_inv in H as (? & ? & _ & ?). }
    injection H as <-. cbn [snd pt_flags pt_partno pt_devname]. split_and!; [|done|].
    + unfold has_flag, PART_VALID. rewrite Z.land_lor_distr_l.
      destruct (Z.eqb_spec (Z.lor (Z.land (pt_flags s3.2) 1) (Z.land 1 1)) 0) as [E0|]; [|done].
      by apply Z.lor_eq_0_iff in E0 as [_ ?].
    + rewrite devname_stored by done. apply strcmp_refl.
Qed.

(** The whole search, from the descriptor block on. *)
Lemma read_mac_search (I : F -> Prop) dev img (HD : DiskFirmware I dev img) fuel part count m :
  let blk0 := slice img 0 SECTOR_SIZE in
  md_signature blk0 = MAC_DRIVER_MAGIC -> mac_map_ok img (md_block_size blk0) count ->
  (Z.to_nat count < fuel)%nat -> I (m_fw m) ->
  exists m', read_mac_partition fuel dev part m
      = (mac_found img (md_block_size blk0) (mac_search img (md_block_size blk0) part 1 count), m')
    /\ I (m_fw m') /\ same_but_io m m'.
Proof.
  intros blk0 Hsig Hmap Hfuel Hm. pose proof Hmap as (Hsec & Hcnt & _ & Hlen & _).
  unfold read_mac_partition.
  destruct (disk_read_block I dev img (replicate 512 0) 0 m Hm) as (m1 & E1 & H1 & S1);
    [done|lia|unfold SECTOR_SIZE in *; nia|lia|].
  rewrite (bind_ok _ _ _ _ _ E1), Z.eqb_refl. cbn [negb]. fold blk0.
  rewrite Hsig, Z.eqb_refl. cbn [negb].
  destruct fuel as [|n]; [lia|].
  destruct (mac_loop_search I dev img (md_block_size blk0) part count n 1 blk0 m1 1)
    as (m2 & E2 & H2 & S2); try done; try lia.
  { pose proof (slice_length img 0 SECTOR_SIZE). unfold blk0, SECTOR_SIZE in *. nia. }
  exists m2. change (1 - 1) with 0 in E2. split_and!; [done|done|].
  by eapply same_but_io_trans.
Qed.

End Open.

(** ** Properties *)

Section Properties.
Context {F : Type} {FW : Firmware F}.

(** C8: A read through a partition gives the bytes of the disk at the position
    asked for within the partition, or [ERR_PART_BEYOND] and nothing read when the
    request reaches the partition's end: no access leaves the partition. *)
Theorem part_read_window (I : F -> Prop) (p : part_t) img sector off n buf m :
  DiskFirmware I (pt_dev p) img -> part_on p img ->
  0 <= sector < 4294967296 -> 0 <= off < 4294967296 -> 0 <= n < 4294967296 -> I (m_fw m) ->
  exists m', part_read p sector off n buf m
      = (Ok (window p img (sector * SECTOR_SIZE + off) n buf), m')
    /\ I (m_fw m') /\ same_but_io m m'.
Proof.
  intros HD (Hs & Hl & Hin & Hb) Hsec Hoff Hn Hm. unfold window.
  destruct (Z.leb_spec (pt_len p) (sector * SECTOR_SIZE + off + n)) as [Hle|Hlt].
  - exists m. rewrite part_read_beyond by lia. by split_and!.
  - destruct (disk_volume I p img HD Hs Hl Hin Hb) as [_ _ _ Hread].
    destruct (Hread m sector off n buf Hm Hsec Hoff Hn Hlt) as (m' & E & HI & HS).
    exists m'. split; [|done]. rewrite E, slice_slice; [done|..]; unfold SECTOR_SIZE in *; lia.
Qed.

(** C26: On a disk with a Macintosh partition map the search gives the start and
    length in bytes of the first entry that is the one asked for: the entry of that
    number, or for number 0 the first one that is marked bootable and whose processor
    is "powerpc" in any mixture of cases; [ERR_PART_NOT_FOUND] when there is none.
    The scan ends after at most as many rounds as the map has entries. *)
Theorem mac_partition_found (I : F -> Prop) dev img (HD : DiskFirmware I dev img) fuel part count m :
  let secsize := be16 (slice img 0 512) 2 in
  be16 (slice img 0 512) 0 = MAC_DRIVER_MAGIC -> mac_map_ok img secsize count ->
  (Z.to_nat count < fuel)%nat -> I (m_fw m) ->
  exists r m', read_mac_partition fuel dev part m = (r, m') /\ map_search img secsize part count r
    /\ I (m_fw m') /\ same_but_io m m'.
Proof.
  intros secsize Hsig Hmap Hfuel Hm. pose proof (disk_bytes (I := I) (dev := dev) (img := img)) as Hok.
  destruct (read_mac_search I dev img HD fuel part count m Hsig Hmap Hfuel Hm) as (m' & E & H).
  eexists _, m'. split; [exact E|]. split; [|done]. pose proof Hmap as (Hsec & Hcnt & _).
  change (md_block_size (slice img 0 SECTOR_SIZE)) with secsize. unfold map_search, mac_search.
  destruct (List.find _ _) as [j|] eqn:Ef; [left; exists j|right].
  - apply find_seqZ in Ef as (H1 & H2 & H3). split; [lia|]. split; [by apply mac_match_asked|].
    split; [intros i Hi Ha; apply mac_match_asked in Ha; [|done]; rewrite H3 in Ha by lia; done|].
    cbn [mac_found]. unfold mp_start_block, mp_block_count, map_block, map_entry, SECTOR_SIZE.
    assert (Hb : bytes_ok (slice img (j * secsize) 512)) by by apply bytes_ok_slice.
    pose proof (be32_range _ 8 Hb). pose proof (be32_range _ 12 Hb). rewrite !u64_small by nia. done.
  - split; [|done]. intros j Hj Ha. apply mac_match_asked in Ha; [|done].
    rewrite (find_none_seqZ _ _ _ Ef) in Ha; [done|lia].
Qed.

(** On a disk with a DOS table, partition [part] is resolved to the
    little-endian start and length of entry [part], as byte counts modulo 2^32;
    numbers from 4 on are not found, and a first block without the 55 AA mark is
    [ERR_PART_NOT_DOS]. *)
Theorem dos_partition_entry (I : F -> Prop) dev img (HD : DiskFirmware I dev img) part m :
  SECTOR_SIZE <= Z.of_nat (length img) -> 1 <= part < 4294967296 -> I (m_fw m) ->
  exists m', read_dos_partition dev part m = (dos_lookup img part, m')
    /\ I (m_fw m') /\ same_but_io m m'.
Proof.
  intros Hlen Hp Hm. pose proof (disk_bytes (I := I) (dev := dev) (img := img)) as Hok.
  destruct (disk_read_block I dev img (replicate 512 0) 0 m Hm) as (m1 & E1 & H1 & S1);
    [done|lia|unfold SECTOR_SIZE in *; lia|lia|].
  exists m1. split; [|done]. unfold read_dos_partition, dos_lookup.
  rewrite (bind_ok _ _ _ _ _ E1), Z.eqb_refl. cbn [negb]. unfold SECTOR_SIZE.
  rewrite !byte_at_slice by lia. change (0 + 0x1fe) with 510. change (0 + 0x1ff) with 511.
  destruct (_ || _); [done|]. destruct (Z.leb_spec 4 part); [done|].
  unfold dos_entry, dos_slot, SECTOR_SIZE. rewrite (u32_small (part - 1)), (u32_small (0x1be + _)) by lia.
  rewrite !be32_swab_slice by (done || lia). done.
Qed.

(** Opening the partition that is open already succeeds and changes nothing,
    whatever the firmware would answer. *)
Theorem part_open_idempotent fuel dev partno (s s' : mach F * part_t) :
  part_open fuel dev partno s = (Ok tt, s') -> cstr_ok dev -> (length dev < 512)%nat ->
  part_open fuel dev partno s' = (Ok tt, s').
Proof.
  intros H Hok Hlen. destruct (part_open_ok_state _ _ _ _ _ H Hok Hlen) as (E1 & E2 & E3).
  unfold part_open. rewrite bind_gets, E1, E2, E3, !Z.eqb_refl. done.
Qed.

End Properties.

(** ** Witnesses *)

(** A Macintosh disk of six blocks: the descriptor, two map entries, the second
    of them bootable, and a partition of three blocks. *)
Definition put (l : list Z) (off : nat) (b : list Z) : list Z :=
  take off l ++ b ++ drop (off + length b) l.

Definition mac_entry (start count status : Z) (cpu : cstr) : list Z :=
  put (put (enc_be16 MAC_PARTITION_MAGIC ++ [0; 0] ++ enc_be32 2 ++ enc_be32 start ++ enc_be32 count
            ++ replicate 496 0) 88 (enc_be32 status)) 120 cpu.

Definition mac_img : list Z :=
  enc_be16 MAC_DRIVER_MAGIC ++ enc_be16 512 ++ replicate 508 0
  ++ mac_entry 1 2 0 [] ++ mac_entry 3 3 STATUS_BOOTABLE (str "PowerPC") ++ replicate 1536 7.

Definition mac_disks : list (cstr * list Z) := [(str "hd", mac_img)].
Definition mac_part : part_t := mk_part 2 DISK0 1536 1536 PART_VALID (replicate 512 0).

Lemma mac_disk : DiskFirmware (sim_has mac_disks) DISK0 mac_img.
Proof.
  apply (sim_disk mac_disks 0 (str "hd")); [done|done|].
  by_eval.
Qed.

Lemma mac_img_map : mac_map_ok mac_img 512 2.
Proof.
  unfold mac_map_ok. split_and!; try (by vm_compute).
  intros j Hj. assert (j = 1 \/ j = 2) as [-> | ->] by lia; by vm_compute.
Qed.

Lemma part_read_window_witness :
  (exists m', part_read mac_part 1 100 300 (replicate 300 0) (sim_mach mac_disks)
     = (Ok (window mac_part mac_img 612 300 (replicate 300 0)), m')
     /\ sim_has mac_disks (m_fw m') /\ same_but_io (sim_mach mac_disks) m')
  /\ window mac_part mac_img 612 300 (replicate 300 0) = (ERR_NONE, replicate 300 7)
  /\ window mac_part mac_img 1024 512 [] = (ERR_PART_BEYOND, []).
Proof.
  split; [|by split; vm_compute].
  refine (part_read_window (sim_has mac_disks) mac_part mac_img 1 100 300 (replicate 300 0)
    (sim_mach mac_disks) mac_disk _ _ _ _ _); [|lia..|done].
  unfold part_on. split_and!; by vm_compute.
Defined.

(** Partition 0 of the disk is its second entry. *)
Lemma mac_partition_found_witness :
  exists m', read_mac_partition 3 DISK0 0 (sim_mach mac_disks) = (Ok (1536, 1536), m')
    /\ sim_has mac_disks (m_fw m') /\ same_but_io (sim_mach mac_disks) m'.
Proof.
  destruct (mac_partition_found (sim_has mac_disks) DISK0 mac_img mac_disk 3 0 2 (sim_mach mac_disks))
    as (r & m' & E & H & HI).
  - by vm_compute.
  - exact mac_img_map.
  - lia.
  - done.
  - exists m'. split; [|exact HI]. rewrite E. f_equal.
    change (be16 (slice mac_img 0 512) 2) with 512 in H.
    assert (Ha : entry_asked mac_img 512 0 2) by (apply mac_match_asked; [by_eval|by vm_compute]).
    assert (Hn : ~ entry_asked mac_img 512 0 1) by (rewrite <- mac_match_asked by by_eval; by vm_compute).
    destruct H as [(j & Hj & Hjn & _ & ->)|(H & _)]; [|by destruct (H 2 ltac:(lia))].
    assert (j = 1 \/ j = 2) as [-> | ->] by lia; [done|by vm_compute].
Defined.

(** A disk with a DOS table whose second entry starts at sector 63. *)
Definition dos_img : list Z :=
  put (replicate 512 0) 470 (enc_le32 63 ++ enc_le32 1000 ++ replicate 32 0 ++ [0x55; 0xaa]).
Definition dos_disks : list (cstr * list Z) := [(str "hd", dos_img)].

Lemma dos_disk : DiskFirmware (sim_has dos_disks) DISK0 dos_img.
Proof.
  apply (sim_disk dos_disks 0 (str "hd")); [done|done|].
  by_eval.
Qed.

Lemma dos_partition_entry_witness :
  (exists m', read_dos_partition DISK0 2 (sim_mach dos_disks) = (dos_lookup dos_img 2, m')
     /\ sim_has dos_disks (m_fw m') /\ same_but_io (sim_mach dos_disks) m')
  /\ dos_lookup dos_img 2 = Ok (32256, 512000) /\ dos_lookup dos_img 4 = Err ERR_PART_NOT_FOUND.
Proof.
  split; [|by split; vm_compute].
  refine (dos_partition_entry (sim_has dos_disks) DISK0 dos_img dos_disk 2 (sim_mach dos_disks)
    _ _ _); [by vm_compute|lia|done].
Defined.

(** The state after the second partition has been opened. *)
Definition mac_opened : mach sim * part_t :=
  snd (part_open 3 (str "hd") 2 (sim_mach mac_disks, part_zero)).

Lemma part_open_idempotent_witness :
  part_open 3 (str "hd") 2 mac_opened = (Ok tt, mac_opened) /\ pt_start (snd mac_opened) = 1536.
Proof.
  split; [|by vm_compute].
  refine (part_open_idempotent 3 (str "hd") 2 (sim_mach mac_disks, part_zero) mac_opened _ _ _).
  - vm_compute. reflexivity.
  - by_eval.
  - simpl. lia.
Defined.
