(* ===== verification/PromCorrect.v ===== *)
(** * Correctness of the Open Firmware services

    Memory claims, the workarounds chosen by firmware version, and what a kernel
    sees through the shim; with applications to the simulated firmware. *)
From Stdlib Require Import ZArith Lia Ascii.
From stdpp Require Import prelude strings.
From S2P Require Import Prelude Quik CString Util Malloc Printf Machine Prom Part Sim.

(** ** Specification *)

(** The first multiple of 1M from [a] on. *)
Definition round_1m (a : Z) : Z := (a + SIZE_1M - 1) / SIZE_1M * SIZE_1M.

(** The firmware versions prom_init names, less the one it gives the full-disk
    workaround by name. *)
Definition known_versions : list cstr := [OF_VER_105; OF_VER_20; OF_VER_201; OF_VER_NW].

(** The services the shim may answer differently or act on. *)
Definition shimmed_services : list cstr :=
  [str "getprop"; str "child"; str "peer"; str "parent"; str "quiesce"].

(** The kernel asks for the initrd's bounds: whole words, as wide as an address
    of a 32- or a 64-bit kernel. *)
Definition cell_size (size : Z) : Prop := size = 4 \/ size = 8.

(** A cell whose low word is [v] and whose high word, if any, is 0. *)
Definition cell (size v : Z) : list Z :=
  (if size =? 8 then enc_be32 0 else []) ++ enc_be32 v.

Section Properties.
Context {F : Type} {FW : Firmware F}.
Implicit Types m : mach F.

(** The workaround for the initrd properties is active, and [/chosen] is not the
    processor node the other override is for. *)
Definition initrd_shimmed m : Prop :=
  has_flag (prom_flags (m_prom m)) PROM_SHALLOW_SETPROP = true
  /\ (has_flag (prom_flags (m_prom m)) PROM_SMP_FIX = false
      \/ prom_chosen (m_prom m) <> shim_cpu (m_prom m)).

(** ** Lemmas *)

Lemma strcmp_strs s t : cstr_ok s -> cstr_ok t -> s <> t -> (strcmp s t =? 0) = false.
Proof.
  intros Hs Ht Hne. apply Z.eqb_neq. intros E. by apply strcmp_eq in E.
Qed.

Lemma shim_initrd m size name :
  initrd_shimmed m -> 0 <= prom_chosen (m_prom m) < 4294967296 -> cell_size size ->
  shim_getprop m (u32 (prom_chosen (m_prom m))) name size =
    if strcmp name (str "linux,initrd-start") =? 0
    then Ok (Some (cell size (initrd_base (m_bi m)), size))
    else if strcmp name (str "linux,initrd-end") =? 0
    then Ok (Some (cell size (u32 (initrd_base (m_bi m) + initrd_len (m_bi m))), size))
    else Ok None.
Proof.
  intros (Hf & Hc) Hr Hs. unfold shim_getprop. rewrite u32_small by done.
  assert (has_flag (prom_flags (m_prom m)) PROM_SMP_FIX
          && (prom_chosen (m_prom m) =? shim_cpu (m_prom m)) = false) as ->.
  { destruct Hc as [->|Hc]; [done|]. apply andb_false_intro2. by apply Z.eqb_neq. }
  rewrite Hf, Z.eqb_refl. done.
Qed.

(** The candidates, in the form the search takes them. *)
Lemma claim_chunk_spec virt size m :
  0 <= virt -> virt + SIZE_1M <= 4294967296 ->
  exists a r m1 m', prom_claim_chunk virt size m = (Ok r, m')
    /\ refused size (round_1m virt) a m m1 /\ virt <= a /\ a mod SIZE_1M = 0
    /\ ((PROM_CLAIM_MAX_ADDR < a /\ r = NOT_FOUND /\ m' = m1)
        \/ (a <= PROM_CLAIM_MAX_ADDR /\ prom_claim a size m1 = (Ok r, m') /\ r <> NOT_FOUND)).
Proof.
  intros Hv Hlt. unfold prom_claim_chunk, round_1m.
  assert (E : ALIGN_UP virt SIZE_1M = (virt + SIZE_1M - 1) / SIZE_1M * SIZE_1M).
  { change SIZE_1M with (2 ^ 20) in *. apply align_up_pow2; lia. }
  rewrite E. set (a0 := _ / _ * _). unfold SIZE_1M in *.
  assert (virt <= a0) by (unfold a0; Z.div_mod_to_equations; lia).
  destruct (claim_chunk_loop_spec 258 a0 size m) as (a & r & m1 & m' & E1 & Hr & Hm & Hle & Hc).
  - lia.
  - unfold a0, SIZE_1M. apply Z_mod_mult.
  - lia.
  - unfold PROM_CLAIM_MAX_ADDR, SIZE_1M. lia.
  - exists a, r, m1, m'. split_and!; [done..|lia|exact Hm|done].
Qed.

(** ** Properties *)

(** C25: [prom_claim_chunk] tries the multiples of 1M from the address asked for up
    to 256M, in order and without skipping one, and returns the first the firmware
    gives it; -1 only when every one of them was refused.  It always ends. *)
Theorem claim_chunk_first virt size m :
  0 <= virt -> virt + SIZE_1M <= 4294967296 ->
  exists a r m1 m', prom_claim_chunk virt size m = (Ok r, m')
    /\ refused size (round_1m virt) a m m1 /\ virt <= a /\ a mod SIZE_1M = 0
    /\ ((PROM_CLAIM_MAX_ADDR < a /\ r = NOT_FOUND /\ m' = m1)
        \/ (a <= PROM_CLAIM_MAX_ADDR /\ prom_claim a size m1 = (Ok r, m') /\ r <> NOT_FOUND)).
Proof. apply claim_chunk_spec. Qed.

(** [prom_ensure_claimed] asks the firmware for every page of the range, each
    once and in order, whatever the answers are, and ends. *)
Theorem ensure_claimed_pages virt size m :
  0 <= virt -> 0 <= size -> virt + size + SIZE_4K <= 4294967296 ->
  exists m', prom_ensure_claimed virt size m = (Ok tt, m')
    /\ pages_claimed (virt + size) virt m m'.
Proof.
  intros Hv Hs Hlt. unfold prom_ensure_claimed, SIZE_4K in *. rewrite (u32_small (virt + size)) by lia.
  pose proof (Z.div_pos size 0x1000 ltac:(lia) ltac:(lia)).
  apply ensure_claimed_loop_spec; [lia|unfold SIZE_4K; lia| |lia].
  unfold SIZE_4K. Z.div_mod_to_equations. lia.
Qed.

(** C27: Through the shim a kernel reads the start and the end of the initrd from
    [/chosen] as the loader set them, in one word or, when it asks for eight bytes,
    in the low word of two; the firmware, which lost the properties, is not asked. *)
Theorem shim_initrd_range m size :
  initrd_shimmed m -> 0 <= prom_chosen (m_prom m) < 4294967296 -> cell_size size ->
  let ask name := prom_shim (str "getprop") [AInt (prom_chosen (m_prom m)); AStr name; AInt size] 1 m in
  ask (str "linux,initrd-start")
    = (Ok (mk_of_ret [size] (cell size (initrd_base (m_bi m)))), m)
  /\ ask (str "linux,initrd-end")
    = (Ok (mk_of_ret [size] (cell size (u32 (initrd_base (m_bi m) + initrd_len (m_bi m))))), m).
Proof.
  intros Hsh Hr Hs ask. subst ask.
  assert (Esz : u32 size = size) by (destruct Hs as [-> | ->]; done).
  split; unfold prom_shim; rewrite bind_gets; unfold id; rewrite strcmp_refl; cbn [Z.eqb];
    unfold arg_int, arg_str; cbn [lookup list_lookup]; rewrite Esz, shim_initrd by done;
    by rewrite ?strcmp_refl.
Qed.

(** With the media-bay workaround a kernel that walks the device tree through
    the shim gets the firmware's answer, except that the hidden controller is
    reported as "no node": no walk reaches it. *)
Theorem shim_hides_node m service args nret :
  has_flag (prom_flags (m_prom m)) PROM_3400_HIDE_MEDIABAY_ATA = true ->
  tree_service service = true -> strcmp service (str "getprop") <> 0 ->
  shim_mediabay_ata (m_prom m) <> 0 ->
  let answer := fst (prom_entry service args nret (m_fw m)) in
  exists r, prom_shim service args nret m
      = (Ok r, set_fw (snd (prom_entry service args nret (m_fw m))) m)
    /\ u32 (hd 0 (r_args r)) <> shim_mediabay_ata (m_prom m)
    /\ (u32 (hd 0 (r_args answer)) <> shim_mediabay_ata (m_prom m) -> r = answer).
Proof.
  intros Hf Ht Hg Hne answer. unfold prom_shim. rewrite bind_gets. unfold id.
  apply Z.eqb_neq in Hg. rewrite Hg, Hf, Ht. cbn [andb].
  unfold call_prom_ret, mbind, M_bind, mret, M_ret.
  destruct (prom_entry service args nret (m_fw m)) as [r f] eqn:E. subst answer. cbn [fst snd].
  destruct (Z.eqb_spec (u32 (hd 0 (r_args r))) (shim_mediabay_ata (m_prom m))) as [E1|E1].
  - eexists. split; [done|]. cbn [r_args hd]. split; [|done].
    rewrite u32_small by lia. lia.
  - by exists r.
Qed.

(** Every other service of the firmware reaches it unchanged through the shim:
    the same answer and the same state as a direct call. *)
Theorem shim_transparent m service args nret :
  cstr_ok service -> service ∉ shimmed_services ->
  prom_shim service args nret m = call_prom_ret service args nret m.
Proof.
  intros Hok Hn. unfold shimmed_services in Hn. rewrite !not_elem_of_cons in Hn.
  destruct Hn as (N1 & N2 & N3 & N4 & N5 & _).
  assert (Hs : forall s, cstr_ok (str s) -> service <> str s -> (strcmp service (str s) =? 0) = false)
    by (intros; by apply strcmp_strs).
  unfold prom_shim, tree_service. rewrite bind_gets. unfold id.
  rewrite !Hs by (done || by_eval).
  cbn [orb]. rewrite !andb_false_r. done.
Qed.

(** The full-disk workaround meant for New World machines is chosen for every
    firmware version the list does not name, and not for the New World name it
    tests last. *)
Theorem version_flags_cases ver flags :
  cstr_ok ver ->
  version_flags OF_VER_NW flags = flags
  /\ (ver ∉ known_versions -> version_flags ver flags = Z.lor flags PROM_NW_FULL_DISK)
  /\ (ver = OF_VER_20 \/ ver = OF_VER_201 -> version_flags ver flags = Z.lor flags PROM_SHALLOW_SETPROP).
Proof.
  intros Hok. split_and!; [done| |by intros [-> | ->]].
  unfold known_versions. rewrite !not_elem_of_cons. intros (N1 & N2 & N3 & N4 & _).
  unfold version_flags.
  rewrite (strcmp_strs ver OF_VER_105), (strcmp_strs ver OF_VER_20), (strcmp_strs ver OF_VER_201),
    (strcmp_strs ver OF_VER_NW) by (done || by_eval).
  by destruct (strcmp ver OF_VER_3 =? 0).
Qed.

End Properties.

(** ** Witnesses *)

(** Two megabytes from 16M on are taken. *)
Definition busy_sim : sim := mk_sim [] 0 [] [(0x1000000, 0x200000)] [] 0.
Definition busy_mach : mach sim := mk_mach busy_sim prom_init_st bi_init heap_init 0 [].

Lemma claim_chunk_first_witness :
  (exists a r m1 m', prom_claim_chunk 0xffffff 0x80000 busy_mach = (Ok r, m')
    /\ refused 0x80000 (round_1m 0xffffff) a busy_mach m1 /\ 0xffffff <= a /\ a mod SIZE_1M = 0
    /\ ((PROM_CLAIM_MAX_ADDR < a /\ r = NOT_FOUND /\ m' = m1)
        \/ (a <= PROM_CLAIM_MAX_ADDR /\ prom_claim a 0x80000 m1 = (Ok r, m') /\ r <> NOT_FOUND)))
  /\ fst (prom_claim_chunk 0xffffff 0x80000 busy_mach) = Ok 0x1200000.
Proof.
  split; [|by vm_compute].
  refine (claim_chunk_first 0xffffff 0x80000 busy_mach _ _); [lia|unfold SIZE_1M; lia].
Defined.

Lemma ensure_claimed_pages_witness :
  (exists m', prom_ensure_claimed 0xfff000 0x3000 busy_mach = (Ok tt, m')
     /\ pages_claimed (0xfff000 + 0x3000) 0xfff000 busy_mach m')
  /\ s_busy (m_fw (snd (prom_ensure_claimed 0xfff000 0x3000 busy_mach)))
     = [(0xfff000, 0x1000); (0x1000000, 0x200000)].
Proof.
  split; [|by vm_compute].
  refine (ensure_claimed_pages 0xfff000 0x3000 busy_mach _ _ _); [lia|lia|unfold SIZE_4K; lia].
Defined.

(** A machine with an initrd loaded, whose firmware needs both overrides. *)
Definition shim_mach : mach sim :=
  mk_mach busy_sim
    (mk_prom_st 0 0 7 1 2 0 0 (Z.lor PROM_SHALLOW_SETPROP PROM_3400_HIDE_MEDIABAY_ATA) 5 0 0)
    (mk_boot_info 0 0 SHIM_OF None [] [] (mk_env_dev None 0 false) None None 0x1800000 0x1234)
    heap_init 0 [].

Lemma shim_initrd_range_witness :
  let ask name := prom_shim (str "getprop") [AInt 7; AStr name; AInt 8] 1 shim_mach in
  ask (str "linux,initrd-start") = (Ok (mk_of_ret [8] (cell 8 0x1800000)), shim_mach)
  /\ ask (str "linux,initrd-end")
     = (Ok (mk_of_ret [8] (cell 8 (u32 (0x1800000 + 0x1234)))), shim_mach).
Proof.
  refine (shim_initrd_range shim_mach 8 _ _ _).
  - split; [done|by right].
  - simpl. lia.
  - by right.
Defined.

(** A firmware that answers every call with node 5. *)
Definition one_node : Firmware unit :=
  {| prom_entry := fun _ _ _ f => (mk_of_ret [5] [], f); uninit_word := 0; stack_addr := 0 |}.
Definition node_mach : mach unit := mk_mach tt (m_prom shim_mach) bi_init heap_init 0 [].

Lemma shim_hides_node_witness :
  exists r, prom_shim (FW := one_node) (str "child") [AInt 1] 1 node_mach = (Ok r, node_mach)
    /\ u32 (hd 0 (r_args r)) <> 5 /\ (u32 5 <> 5 -> r = mk_of_ret [5] []).
Proof.
  refine (shim_hides_node (FW := one_node) node_mach (str "child") [AInt 1] 1 _ _ _ _);
    [by vm_compute|by vm_compute|by vm_compute|done].
Defined.

Lemma shim_transparent_witness :
  prom_shim (str "claim") [AInt 0; AInt 4096; AInt 0] 1 shim_mach
    = call_prom_ret (str "claim") [AInt 0; AInt 4096; AInt 0] 1 shim_mach.
Proof.
  refine (shim_transparent shim_mach (str "claim") [AInt 0; AInt 4096; AInt 0] 1 _ _).
  - by_eval.
  - by_eval.
Defined.

Lemma version_flags_cases_witness :
  version_flags OF_VER_NW 0 = 0
  /\ (str "Open Firmware, 2.4" ∉ known_versions
      -> version_flags (str "Open Firmware, 2.4") 0 = Z.lor 0 PROM_NW_FULL_DISK)
  /\ (str "Open Firmware, 2.4" = OF_VER_20 \/ str "Open Firmware, 2.4" = OF_VER_201
      -> version_flags (str "Open Firmware, 2.4") 0 = Z.lor 0 PROM_SHALLOW_SETPROP).
Proof.
  refine (version_flags_cases (str "Open Firmware, 2.4") 0 _).
  by_eval.
Defined.
