(* ===== verification/Ext2.v ===== *)
(** * The ext2 file system (ext2fs.c)

    The driver reads an ext2 volume through [part_read]: group descriptors,
    inodes, the block map with its two cached indirect blocks, file contents,
    directories, symbolic links and path lookup.  On-disk structures are kept as
    the bytes read; a field is a big-endian load, as the processor does it, and
    the code swaps it. *)
From Stdlib Require Import ZArith Lia Ascii.
From stdpp Require Import prelude strings.
From S2P Require Import Prelude Quik CString Util Malloc Printf Machine Prom Part.

(** ** Constants and on-disk structures *)

Definition EXT2_MAGIC : Z := 0xEF53.
Definition INDIRECT_BLOCKS : Z := 12.
Definition EXT2_MAX_SYMLINKCNT : Z := 8.
Definition FILETYPE_UNKNOWN : Z := 0.
Definition FILETYPE_REG : Z := 1.
Definition FILETYPE_DIRECTORY : Z := 2.
Definition FILETYPE_SYMLINK : Z := 7.
Definition FILETYPE_INO_MASK : Z := 61440.
Definition FILETYPE_INO_REG : Z := 32768.
Definition FILETYPE_INO_DIRECTORY : Z := 16384.
Definition FILETYPE_INO_SYMLINK : Z := 40960.
Definition DISK_SECTOR_BITS : Z := 9.

Definition le32_to_cpu (x : Z) : Z := swab32 x.
Definition le16_to_cpu (x : Z) : Z := swab16 x.

(** [struct ext2_sblock]: the fields used *)
Definition SIZEOF_SBLOCK : Z := 204.
Definition sb_first_data_block (sb : list Z) : Z := le32_to_cpu (be32 sb 20).
Definition sb_log2_block_size (sb : list Z) : Z := le32_to_cpu (be32 sb 24).
Definition sb_inodes_per_group (sb : list Z) : Z := le32_to_cpu (be32 sb 40).
Definition sb_magic (sb : list Z) : Z := le16_to_cpu (be16 sb 56).
Definition sb_revision_level (sb : list Z) : Z := be32 sb 76.
Definition sb_inode_size (sb : list Z) : Z := le16_to_cpu (be16 sb 88).

Definition LOG2_EXT2_BLOCK_SIZE (sb : list Z) : Z := u32 (sb_log2_block_size sb + 1).
Definition LOG2_BLOCK_SIZE (sb : list Z) : Z := u32 (sb_log2_block_size sb + 10).
Definition EXT2_BLOCK_SIZE (sb : list Z) : Z := s32 (shl32 1 (LOG2_BLOCK_SIZE sb)).

(** [struct ext2_block_group] *)
Definition SIZEOF_GROUP : Z := 32.
Definition bg_inode_table_id (bg : list Z) : Z := le32_to_cpu (be32 bg 8).

(** [struct ext2_inode] *)
Definition SIZEOF_INODE : Z := 128.
Definition i_mode (ino : list Z) : Z := le16_to_cpu (be16 ino 0).
Definition i_size (ino : list Z) : Z := le32_to_cpu (be32 ino 4).
Definition i_dir_block (ino : list Z) (n : Z) : Z := le32_to_cpu (be32 ino (40 + 4 * n)).
Definition i_indir_block (ino : list Z) : Z := le32_to_cpu (be32 ino 88).
Definition i_double_indir_block (ino : list Z) : Z := le32_to_cpu (be32 ino 92).
Definition i_symlink (ino : list Z) : list Z := slice ino 40 60.

(** [struct ext2_dirent] *)
Definition SIZEOF_DIRENT : Z := 8.
Definition de_inode (d : list Z) : Z := le32_to_cpu (be32 d 0).
Definition de_direntlen (d : list Z) : Z := le16_to_cpu (be16 d 4).
Definition de_namelen (d : list Z) : Z := byte_at d 6.
Definition de_filetype (d : list Z) : Z := byte_at d 7.

(** ** State *)

(** A node: its address, the superblock its [data] points to, and its fields. *)
Record ext2fs_node := mk_node {
  nd_addr : Z;
  nd_sb : list Z;
  nd_inode : list Z;
  nd_ino : Z;
  nd_inode_read : bool
}.

Definition SIZEOF_NODE : Z := 140.
Definition SIZEOF_DATA : Z := 352.
Definition DIROPEN_OFFSET : Z := 212.

(** A mounted file system. *)
Record ext2_data := mk_data { d_addr : Z; d_sb : list Z; d_diropen : ext2fs_node }.

(** A cached indirect block: the buffer (address and contents), the block size
    it was allocated for, and the number of the sector it holds. *)
Record indir := mk_indir { ib_block : option (Z * list Z); ib_size : Z; ib_blkno : Z }.

Definition indir_none : indir := mk_indir None 0 (-1).

Record ext2_st := mk_ext2 {
  ext2fs_root : option ext2_data;
  ext2fs_file : option ext2fs_node;
  symlinknest : Z;
  indir1 : indir;
  indir2 : indir;
  inode_size : Z
}.

Definition ext2_init : ext2_st := mk_ext2 None None 0 indir_none indir_none 0.

(** The machine, the partition the driver reads (a static of file.c that
    [data->part] points to), and the driver's statics. *)
Record fs (F : Type) := mk_fs { fs_m : mach F; fs_part : part_t; fs_ext2 : ext2_st }.
Arguments mk_fs {F}.
Arguments fs_m {F}.
Arguments fs_part {F}.
Arguments fs_ext2 {F}.

Abbreviation E F := (M quik_err_t (fs F)) (only parsing).

Definition set_root (r : option ext2_data) (e : ext2_st) : ext2_st :=
  mk_ext2 r (ext2fs_file e) (symlinknest e) (indir1 e) (indir2 e) (inode_size e).
Definition set_file (f : option ext2fs_node) (e : ext2_st) : ext2_st :=
  mk_ext2 (ext2fs_root e) f (symlinknest e) (indir1 e) (indir2 e) (inode_size e).
Definition set_nest (n : Z) (e : ext2_st) : ext2_st :=
  mk_ext2 (ext2fs_root e) (ext2fs_file e) n (indir1 e) (indir2 e) (inode_size e).
Definition set_inode_size (n : Z) (e : ext2_st) : ext2_st :=
  mk_ext2 (ext2fs_root e) (ext2fs_file e) (symlinknest e) (indir1 e) (indir2 e) n.

(** The two caches are handled by the same code. *)
Inductive which : Set := One | Two.
Definition get_indir (w : which) (e : ext2_st) : indir :=
  match w with One => indir1 e | Two => indir2 e end.
Definition put_indir (w : which) (i : indir) (e : ext2_st) : ext2_st :=
  match w with
  | One => mk_ext2 (ext2fs_root e) (ext2fs_file e) (symlinknest e) i (indir2 e) (inode_size e)
  | Two => mk_ext2 (ext2fs_root e) (ext2fs_file e) (symlinknest e) (indir1 e) i (inode_size e)
  end.

(** Directory entries and inodes that lie in a hole make [ext2fs_read_file]
    clear more than the object it was given. *)
Definition fits (n : Z) (data : list Z) : bool := Z.of_nat (length data) <=? n.

Section Ext2.
Context {F : Type} {FW : Firmware F}.

Definition lm {A} (c : P F A) : E F A :=
  zoom fs_m (fun m s => mk_fs m (fs_part s) (fs_ext2 s)) c.
Definition on_ext2 (f : ext2_st -> ext2_st) : E F unit :=
  modify (fun s => mk_fs (fs_m s) (fs_part s) (f (fs_ext2 s))).

(** [part_read(data->part, ...)]. *)
Definition data_read (sector off len : Z) (buf : list Z) : E F (quik_err_t * list Z) :=
  p ← gets fs_part; lm (part_read p sector off len buf).

(** [part_read] into an object of [len] bytes, its error returned. *)
Definition data_read_ok (sector off len : Z) : E F (list Z) :=
  '(err, b) ← data_read sector off len (replicate (Z.to_nat len) 0);
  lm (check err);; mret b.

Definition nonzero (z : Z) : E F unit := if z =? 0 then undef DivByZero else mret tt.

(** ** Group descriptors and inodes *)

Definition ext2fs_blockgroup (sb : list Z) (group : Z) : E F (list Z) :=
  let desc_per_blk := u32 (EXT2_BLOCK_SIZE sb) / SIZEOF_GROUP in
  nonzero desc_per_blk;;
  let blkno := u32 (sb_first_data_block sb + 1 + u32 group / desc_per_blk) in
  let blkoff := u32 (u32 group mod desc_per_blk * SIZEOF_GROUP) in
  data_read_ok (shl32 blkno (LOG2_EXT2_BLOCK_SIZE sb)) blkoff SIZEOF_GROUP.

Definition ext2fs_read_inode (sb : list Z) (ino : Z) : E F (list Z) :=
  isize ← gets (fun s => inode_size (fs_ext2 s));
  let ino := s32 (ino - 1) in
  let ipg := sb_inodes_per_group sb in
  nonzero ipg;;
  blkgrp ← ext2fs_blockgroup sb (u32 ino / ipg);
  nonzero isize;;
  let inodes_per_block := u32 (EXT2_BLOCK_SIZE sb) / isize in
  nonzero inodes_per_block;;
  let blkno := u32 (bg_inode_table_id blkgrp + u32 ino mod ipg / inodes_per_block) in
  let blkoff := u32 (Z.rem ino inodes_per_block * isize) in
  data_read_ok (shl32 blkno (LOG2_EXT2_BLOCK_SIZE sb)) blkoff SIZEOF_INODE.

(** ** Nodes *)

(** [&ext2fs_root->diropen] *)
Definition diropen_addr (e : ext2_st) : Z :=
  match ext2fs_root e with Some d => d_addr d + DIROPEN_OFFSET | None => DIROPEN_OFFSET end.

Definition ext2fs_free_node (node currroot : Z) : E F unit :=
  d ← gets (fun s => diropen_addr (fs_ext2 s));
  if negb (node =? d) && negb (node =? currroot) then lm (do_free node) else mret tt.

Definition malloc_or (size : Z) (e : quik_err_t) : E F Z :=
  p ← lm (do_malloc size);
  match p with Some a => mret a | None => throw e end.

(** The inode of a node, read when it was not. *)
Definition node_inode (node : ext2fs_node) : E F (list Z) :=
  if nd_inode_read node then mret (nd_inode node)
  else ext2fs_read_inode (nd_sb node) (nd_ino node).

(** ** The block map *)

(** The buffer of a cache, allocated on first use and again when the block size
    changed. *)
Definition indir_alloc (w : which) (blksz : Z) : E F unit :=
  i ← gets (fun s => get_indir w (fs_ext2 s));
  match ib_block i with
  | None =>
      p ← malloc_or blksz ERR_NO_MEM;
      on_ext2 (put_indir w (mk_indir (Some (p, replicate (Z.to_nat blksz) 0)) blksz (-1)))
  | Some _ => mret tt
  end;;
  i ← gets (fun s => get_indir w (fs_ext2 s));
  if blksz =? ib_size i then mret tt
  else
    match ib_block i with
    | Some (a, _) => lm (do_free a)
    | None => mret tt
    end;;
    on_ext2 (put_indir w (mk_indir None 0 (-1)));;
    p ← malloc_or blksz ERR_NO_MEM;
    on_ext2 (put_indir w (mk_indir (Some (p, replicate (Z.to_nat blksz) 0)) blksz (-1))).

Definition ib_bytes (i : indir) : list Z := default [] (snd <$> ib_block i).

(** Block [b] brought into the cache unless it is the one held. *)
Definition indir_load (w : which) (b log2_blksz blksz : Z) : E F (list Z) :=
  i ← gets (fun s => get_indir w (fs_ext2 s));
  (if shl32 b log2_blksz =? u32 (ib_blkno i) then mret tt
   else
     '(err, bytes) ← data_read (shl32 b log2_blksz) 0 blksz (ib_bytes i);
     on_ext2 (put_indir w
       (mk_indir ((fun '(a, _) => (a, bytes)) <$> ib_block i) (ib_size i) (ib_blkno i)));;
     lm (check err);;
     on_ext2 (put_indir w
       (mk_indir ((fun '(a, _) => (a, bytes)) <$> ib_block i) (ib_size i)
          (s32 (shl32 b log2_blksz)))));;
  gets (fun s => ib_bytes (get_indir w (fs_ext2 s))).

(** Entry [n] of an indirect block. *)
Definition indir_entry (bytes : list Z) (n : Z) : Z := le32_to_cpu (be32 bytes (4 * n)).

Definition ext2fs_read_block (node : ext2fs_node) (fileblock : Z) : E F Z :=
  let sb := nd_sb node in
  let inode := nd_inode node in
  let blksz := EXT2_BLOCK_SIZE sb in
  let log2_blksz := LOG2_EXT2_BLOCK_SIZE sb in
  if fileblock <? 0 then undef OutOfBounds
  else if fileblock <? INDIRECT_BLOCKS then mret (i_dir_block inode fileblock)
  else if fileblock <? INDIRECT_BLOCKS + Z.quot blksz 4 then
    indir_alloc One blksz;;
    b1 ← indir_load One (i_indir_block inode) log2_blksz blksz;
    mret (indir_entry b1 (fileblock - INDIRECT_BLOCKS))
  else if fileblock <? INDIRECT_BLOCKS + Z.quot blksz 4 * (Z.quot blksz 4 + 1) then
    let perblock := u32 (Z.quot blksz 4) in
    let rblock := u32 (fileblock - (INDIRECT_BLOCKS + Z.quot blksz 4)) in
    indir_alloc One blksz;;
    b1 ← indir_load One (i_double_indir_block inode) log2_blksz blksz;
    indir_alloc Two blksz;;
    b2 ← indir_load Two (indir_entry b1 (rblock / perblock)) log2_blksz blksz;
    mret (indir_entry b2 (rblock mod perblock))
  else throw ERR_FS_CORRUPT.

(** ** File contents *)

(** One round of the copy loop: the bytes stored at [buf].  A block number 0 is
    a hole and clears the rest of the block, whatever was asked for. *)
Definition read_file_block (node : ext2fs_node) (pos len blockcnt log2blocksize blocksize i : Z)
  : E F (list Z) :=
  lm (spinner 5);;
  blknr ← ext2fs_read_block node (s32 i);
  let blknr := shl32 blknr log2blocksize in
  let blockend :=
    if i =? u32 (blockcnt - 1) then
      let e := u32 (len + pos) mod blocksize in if e =? 0 then blocksize else e
    else blocksize in
  let first := i =? pos / blocksize in
  let skipfirst := if first : bool then pos mod blocksize else 0 in
  let blockend := if first : bool then u32 (blockend - skipfirst) else blockend in
  if negb (blknr =? 0) then data_read_ok blknr skipfirst blockend
  else mret (replicate (Z.to_nat (blocksize - skipfirst)) 0).

Fixpoint read_file_loop (n : nat) (node : ext2fs_node)
    (pos len blockcnt log2blocksize blocksize i : Z) : E F (list Z) :=
  match n with
  | O => mret []
  | S n' =>
      b ← read_file_block node pos len blockcnt log2blocksize blocksize i;
      rest ← read_file_loop n' node pos len blockcnt log2blocksize blocksize (i + 1);
      mret (b ++ rest)
  end.

(** The bytes stored from [buf] on. *)
Definition ext2fs_read_file (node : ext2fs_node) (pos len : Z) : E F (list Z) :=
  let log2blocksize := LOG2_EXT2_BLOCK_SIZE (nd_sb node) in
  let blocksize := u32 (s32 (shl32 1 (log2blocksize + DISK_SECTOR_BITS))) in
  let filesize := i_size (nd_inode node) in
  let len := if filesize <? len then filesize else len in
  nonzero blocksize;;
  let blockcnt := u32 (u32 (u32 (len + pos) + blocksize) - 1) / blocksize in
  let i0 := pos / blocksize in
  read_file_loop (Z.to_nat (blockcnt - i0)) node pos len blockcnt log2blocksize blocksize i0.

(** ** Directories *)

(** The bytes of an object that starts uninitialised, after a read into it. *)
Definition read_object (node : ext2fs_node) (pos n room : Z) : E F (list Z) :=
  b ← ext2fs_read_file node pos n;
  if fits room b
  then mret (overlay (replicate (Z.to_nat room) (u8 (@uninit_word F FW))) b)
  else undef OutOfBounds.

(** The type of an entry, from the entry itself or from its inode. *)
Definition dirent_type (filetype : Z) : Z :=
  if filetype =? FILETYPE_DIRECTORY then FILETYPE_DIRECTORY
  else if filetype =? FILETYPE_SYMLINK then FILETYPE_SYMLINK
  else if filetype =? FILETYPE_REG then FILETYPE_REG
  else FILETYPE_UNKNOWN.

Definition mode_type (mode : Z) : Z :=
  let t := Z.land mode FILETYPE_INO_MASK in
  if t =? FILETYPE_INO_DIRECTORY then FILETYPE_DIRECTORY
  else if t =? FILETYPE_INO_SYMLINK then FILETYPE_SYMLINK
  else if t =? FILETYPE_INO_REG then FILETYPE_REG
  else FILETYPE_UNKNOWN.

(** Read an inode for the node at [addr], which is freed on an error. *)
Definition read_inode_or_free (sb : list Z) (ino addr : Z) : E F (list Z) :=
  r ← attempt (ext2fs_read_inode sb ino);
  match r with
  | inr i => mret i
  | inl err => lm (do_free addr);; throw err
  end.

(** The node made for an entry, and its type. *)
Definition dirent_node (diro : ext2fs_node) (dirent : list Z) : E F (ext2fs_node * Z) :=
  addr ← malloc_or SIZEOF_NODE ERR_NO_MEM;
  let ino := s32 (de_inode dirent) in
  if negb (de_filetype dirent =? FILETYPE_UNKNOWN) then
    mret (mk_node addr (nd_sb diro) (replicate 128 0) ino false, dirent_type (de_filetype dirent))
  else
    i ← read_inode_or_free (nd_sb diro) ino addr;
    mret (mk_node addr (nd_sb diro) i ino true, mode_type (i_mode i)).

Definition type_label (type : Z) : cstr :=
  if type =? FILETYPE_DIRECTORY then str "<DIR> "
  else if type =? FILETYPE_SYMLINK then str "<SYM> "
  else if type =? FILETYPE_REG then str "      "
  else str "< ? > ".

(** The listing of one entry. *)
Definition list_entry (fdiro : ext2fs_node) (type : Z) (filename : cstr) : E F unit :=
  i ← (if nd_inode_read fdiro then mret (nd_inode fdiro)
       else read_inode_or_free (nd_sb fdiro) (nd_ino fdiro) (nd_addr fdiro));
  lm (printk (type_label type) []);;
  lm (printk (str "%d %s" ++ [10]) [KNum (i_size i); KStr (Some filename)]).

(** The scan of a directory whose inode is loaded, from offset [fpos].  With a
    name it stops at the first entry that has it; without one it lists. *)
Fixpoint iterate_loop (fuel : nat) (diro : ext2fs_node) (name : option cstr) (fpos : Z)
  : E F (ext2fs_node * Z) :=
  match fuel with
  | O => undef OutOfFuel
  | S fuel' =>
      if fpos <? i_size (nd_inode diro) then
        dirent ← read_object diro fpos SIZEOF_DIRENT SIZEOF_DIRENT;
        let next := u32 (fpos + de_direntlen dirent) in
        if de_namelen dirent =? 0 then iterate_loop fuel' diro name next
        else
          buf ← read_object diro (u32 (fpos + SIZEOF_DIRENT)) (de_namelen dirent)
                  (de_namelen dirent + 1);
          '(fdiro, type) ← dirent_node diro dirent;
          let filename := until_nul (take (Z.to_nat (de_namelen dirent)) buf) in
          match name with
          | Some n =>
              if strcmp filename n =? 0 then mret (fdiro, type)
              else lm (do_free (nd_addr fdiro));; iterate_loop fuel' diro name next
          | None =>
              list_entry fdiro type filename;;
              lm (do_free (nd_addr fdiro));; iterate_loop fuel' diro name next
          end
      else throw ERR_FS_NOT_FOUND
  end.

Definition ext2fs_iterate_dir (fuel : nat) (dir : ext2fs_node) (name : option cstr)
  : E F (ext2fs_node * Z) :=
  i ← node_inode dir;
  iterate_loop fuel (mk_node (nd_addr dir) (nd_sb dir) i (nd_ino dir) (nd_inode_read dir)) name 0.

(** ** Symbolic links *)

(** The target and the address of the buffer it was read into. *)
Definition ext2fs_read_symlink (node : ext2fs_node) : E F (Z * cstr) :=
  i ← node_inode node;
  let size := i_size i in
  addr ← malloc_or (u32 (size + 1)) ERR_NO_MEM;
  if size <=? 60 then mret (addr, until_nul (take (Z.to_nat size) (i_symlink i)))
  else
    r ← attempt (ext2fs_read_file
                   (mk_node (nd_addr node) (nd_sb node) i (nd_ino node) (nd_inode_read node))
                   0 size);
    match r with
    | inl err => lm (do_free addr);; throw err
    | inr b =>
        if fits (u32 (size + 1)) b
        then mret (addr, until_nul (take (Z.to_nat size) b)) else undef OutOfBounds
    end.

(** ** Path lookup *)

Fixpoint skip_slashes (s : cstr) : cstr :=
  match s with
  | c :: s' => if c =? chr "/" then skip_slashes s' else s
  | [] => []
  end.

(** The first component of a path and, when a slash follows, the rest after all
    of them. *)
Fixpoint path_split (name : cstr) : cstr * option cstr :=
  match name with
  | [] => ([], None)
  | c :: s' =>
      if c =? chr "/" then ([], Some (skip_slashes s'))
      else let '(comp, next) := path_split s' in (c :: comp, next)
  end.

(** The loop of [ext2fs_find_file1] on the components of [name]; [dfuel] bounds
    each directory scan.  The result is the node found and the type stored in
    [*foundtype]: the early exit of [ext2fs_find_file1] stores none. *)
Fixpoint find_loop (dfuel fuel : nat) (name : cstr) (currnode : ext2fs_node) (type : Z)
    (currroot : ext2fs_node) : E F (ext2fs_node * option Z) :=
  match fuel with
  | O => undef OutOfFuel
  | S fuel' =>
      let free_node n := ext2fs_free_node (nd_addr n) (nd_addr currroot) in
      let '(comp, next) := path_split name in
      if negb (type =? FILETYPE_DIRECTORY) then
        free_node currnode;; throw ERR_FS_NOT_DIR
      else
        let oldnode := currnode in
        '(currnode, type) ← ext2fs_iterate_dir dfuel currnode (Some comp);
        '(currnode, type, oldnode) ←
          (if type =? FILETYPE_SYMLINK then
             nest ← gets (fun s => symlinknest (fs_ext2 s) + 1);
             on_ext2 (set_nest nest);;
             if nest =? EXT2_MAX_SYMLINKCNT then
               free_node currnode;; free_node oldnode;; throw ERR_FS_LOOP
             else
               r ← attempt (ext2fs_read_symlink currnode);
               free_node currnode;;
               match r with
               | inl err => free_node oldnode;; throw err
               | inr (addr, symlink) =>
                   oldnode ←
                     (if byte_at symlink 0 =? chr "/" then
                        free_node oldnode;;
                        root ← gets (fun s => ext2fs_root (fs_ext2 s));
                        of_option NullDeref (d_diropen <$> root)
                      else mret oldnode);
                   r ← attempt
                     (match skip_slashes symlink with
                      | [] => mret (oldnode, None)
                      | name' =>
                          find_loop dfuel fuel' name' oldnode FILETYPE_DIRECTORY oldnode
                      end);
                   lm (do_free addr);;
                   match r with
                   | inl _ => free_node oldnode;; throw ERR_FS_NOT_FOUND
                   | inr (n, t) => mret (n, default type t, oldnode)
                   end
               end
           else mret (currnode, type, oldnode));
        free_node oldnode;;
        match next with
        | None | Some [] => mret (currnode, Some type)
        | Some name' => find_loop dfuel fuel' name' currnode type currroot
        end
  end.

Definition ext2fs_find_file1 (dfuel fuel : nat) (currpath : cstr) (currroot : ext2fs_node)
  : E F (ext2fs_node * option Z) :=
  match skip_slashes currpath with
  | [] => mret (currroot, None)
  | name => find_loop dfuel fuel name currroot FILETYPE_DIRECTORY currroot
  end.

(** The node is stored in [*foundnode] also when its type is not the one
    expected: the result is the node and the error. *)
Definition ext2fs_find_file (dfuel fuel : nat) (path : cstr) (rootnode : ext2fs_node)
    (expecttype : Z) : E F (ext2fs_node * quik_err_t) :=
  on_ext2 (set_nest 0);;
  '(node, t) ← ext2fs_find_file1 dfuel fuel path rootnode;
  let foundtype := default FILETYPE_DIRECTORY t in
  mret (node,
    if (expecttype =? FILETYPE_REG) && negb (foundtype =? expecttype) then ERR_FS_NOT_REG
    else if (expecttype =? FILETYPE_DIRECTORY) && negb (foundtype =? expecttype)
    then ERR_FS_NOT_DIR
    else ERR_NONE).

(** ** Entry points *)

Definition ext2fs_ls (dfuel fuel : nat) (dirname : cstr) : E F unit :=
  root ← gets (fun s => ext2fs_root (fs_ext2 s));
  match root with
  | None => throw ERR_FS_NOT_FOUND
  | Some d =>
      '(dirnode, err) ← ext2fs_find_file dfuel fuel dirname (d_diropen d) FILETYPE_DIRECTORY;
      lm (check err);;
      attempt (ext2fs_iterate_dir dfuel dirnode None);;
      ext2fs_free_node (nd_addr dirnode) (nd_addr (d_diropen d))
  end.

(** [ext2fs_open]: on failure the node, NULL when the lookup stored none, is
    freed. *)
Definition ext2fs_open (dfuel fuel : nat) (filename : cstr) : E F Z :=
  root ← gets (fun s => ext2fs_root (fs_ext2 s));
  match root with
  | None => throw ERR_FS_NOT_FOUND
  | Some d =>
      let fail node err := ext2fs_free_node node (nd_addr (d_diropen d));; throw err in
      on_ext2 (set_file None);;
      r ← attempt (ext2fs_find_file dfuel fuel filename (d_diropen d) FILETYPE_REG);
      match r with
      | inl err => fail 0 err
      | inr (fdiro, err) =>
          r ← attempt (lm (check err);; node_inode fdiro);
          match r with
          | inl err => fail (nd_addr fdiro) err
          | inr i =>
              on_ext2 (set_file (Some (mk_node (nd_addr fdiro) (nd_sb fdiro) i (nd_ino fdiro)
                                         (nd_inode_read fdiro))));;
              mret (i_size i)
          end
      end
  end.

Definition ext2fs_close : E F unit :=
  e ← gets fs_ext2;
  match ext2fs_file e, ext2fs_root e with
  | Some f, Some d =>
      ext2fs_free_node (nd_addr f) (nd_addr (d_diropen d));; on_ext2 (set_file None)
  | _, _ => mret tt
  end;;
  match ext2fs_root e with
  | Some d => lm (do_free (d_addr d));; on_ext2 (set_root None)
  | None => mret tt
  end;;
  match ib_block (indir1 e) with
  | Some (a, _) => lm (do_free a);; on_ext2 (put_indir One indir_none)
  | None => mret tt
  end;;
  match ib_block (indir2 e) with
  | Some (a, _) => lm (do_free a);; on_ext2 (put_indir Two indir_none)
  | None => mret tt
  end.

Definition ext2fs_read (len : Z) : E F (list Z) :=
  e ← gets fs_ext2;
  match ext2fs_root e, ext2fs_file e with
  | None, _ | _, None => throw ERR_FS_NOT_FOUND
  | Some _, Some f => ext2fs_read_file f 0 len
  end.

(** The superblock checks and the root inode; the caller frees [data] and
    forgets the root when one of them fails. *)
Definition mount_steps (data : Z) : E F unit :=
  sb ← data_read_ok 2 0 SIZEOF_SBLOCK;
  if negb (sb_magic sb =? EXT2_MAGIC) then throw ERR_FS_NOT_EXT2
  else
    on_ext2 (set_inode_size
      (if negb (le32_to_cpu (if sb_revision_level sb =? 0 then 1 else 0) =? 0) then 128
       else sb_inode_size sb));;
    i ← ext2fs_read_inode sb 2;
    on_ext2 (set_root (Some (mk_data data sb (mk_node (data + DIROPEN_OFFSET) sb i 2 true)))).

Definition ext2fs_mount : E F unit :=
  data ← malloc_or SIZEOF_DATA ERR_NO_MEM;
  r ← attempt (mount_steps data);
  match r with
  | inr tt => mret tt
  | inl err => lm (do_free data);; on_ext2 (set_root None);; throw err
  end.

End Ext2.
