(* ===== verification/Ext2Block.v ===== *)
(** * The ext2 block map and file contents

    [ext2fs_read_block] keeps two indirect blocks in static buffers.  Against any
    [Volume], the cached lookup agrees with a reference that reads every indirect
    block afresh, and [ext2fs_read_file] returns the bytes of the file that the
    block map describes. *)
From Stdlib Require Import ZArith Lia.
From stdpp Require Import prelude gmap.
From S2P Require Import Prelude Quik CString Util Malloc Printf Machine Prom Part Ext2.

#[local] Arguments u32 : simpl never.
#[local] Arguments s32 : simpl never.
#[local] Arguments shl32 : simpl never.
#[local] Arguments slice : simpl never.
#[local] Arguments Z.mul : simpl never.
#[local] Arguments Z.pow : simpl never.

(** ** Specification *)

(** Block sizes of ext2: 1K to 64K. *)
Definition geometry_ok (sb : list Z) : Prop := 0 <= sb_log2_block_size sb <= 6.

Definition block_size (sb : list Z) : Z := 2 ^ (sb_log2_block_size sb + 10).

(** The first sector of block [b], and the bytes of that block on the volume. *)
Definition block_sector (sb : list Z) (b : Z) : Z := shl32 b (LOG2_EXT2_BLOCK_SIZE sb).
Definition vol_block (vol : list Z) (sb : list Z) (b : Z) : list Z :=
  slice vol (block_sector sb b * SECTOR_SIZE) (block_size sb).

(** A block [part_read] gives out whole: it ends before the last byte of the
    partition. *)
Definition readable (vol sb : list Z) (b : Z) : Prop :=
  block_sector sb b * SECTOR_SIZE + block_size sb < Z.of_nat (length vol).

(** The block map, every indirect block read from the volume. *)
Definition block_map (vol sb inode : list Z) (fb : Z) : Z :=
  let per := block_size sb / 4 in
  if fb <? INDIRECT_BLOCKS then i_dir_block inode fb
  else if fb <? INDIRECT_BLOCKS + per then
    indir_entry (vol_block vol sb (i_indir_block inode)) (fb - INDIRECT_BLOCKS)
  else
    let r := fb - (INDIRECT_BLOCKS + per) in
    let mid := indir_entry (vol_block vol sb (i_double_indir_block inode)) (r / per) in
    indir_entry (vol_block vol sb mid) (r mod per).

(** The file block is mapped, and the indirect blocks on the way are readable. *)
Definition map_readable (vol sb inode : list Z) (fb : Z) : Prop :=
  let per := block_size sb / 4 in
  0 <= fb < INDIRECT_BLOCKS + per * (per + 1)
  /\ (INDIRECT_BLOCKS <= fb < INDIRECT_BLOCKS + per -> readable vol sb (i_indir_block inode))
  /\ (INDIRECT_BLOCKS + per <= fb ->
      readable vol sb (i_double_indir_block inode)
      /\ readable vol sb
           (indir_entry (vol_block vol sb (i_double_indir_block inode))
              ((fb - (INDIRECT_BLOCKS + per)) / per))).

(** ** Lemmas: geometry *)

Lemma pow2_le_64k k : 0 <= k <= 6 -> 1024 <= 2 ^ (k + 10) <= 65536.
Proof.
  intros Hk. assert (k = 0 \/ k = 1 \/ k = 2 \/ k = 3 \/ k = 4 \/ k = 5 \/ k = 6) as Hc by lia.
  repeat destruct Hc as [->|Hc]; try (vm_compute; split; discriminate).
  subst. vm_compute. split; discriminate.
Qed.

Lemma pow2_16_mod4 k : 0 <= k <= 6 -> 2 ^ (k + 10) mod 4 = 0.
Proof.
  intros Hk. replace (k + 10) with (2 + (k + 8)) by lia.
  rewrite Z.pow_add_r by lia. change (2 ^ 2) with 4. rewrite Z.mul_comm. by apply Z_mod_mult.
Qed.

Section Geometry.
Context (sb : list Z) (Hg : geometry_ok sb).

Lemma block_size_range : 1024 <= block_size sb <= 65536.
Proof. by apply pow2_le_64k. Qed.

Lemma ext2_block_size_eq : EXT2_BLOCK_SIZE sb = block_size sb.
Proof.
  unfold EXT2_BLOCK_SIZE, LOG2_BLOCK_SIZE, block_size. unfold geometry_ok in Hg.
  pose proof (pow2_le_64k _ Hg).
  rewrite (u32_small (_ + 10)), shl32_small by lia. rewrite Z.mul_1_l. apply s32_small. lia.
Qed.

Lemma log2_ext2_eq : LOG2_EXT2_BLOCK_SIZE sb = sb_log2_block_size sb + 1.
Proof. unfold LOG2_EXT2_BLOCK_SIZE, geometry_ok in *. apply u32_small. lia. Qed.

Lemma block_size_sectors : 2 ^ (LOG2_EXT2_BLOCK_SIZE sb) * SECTOR_SIZE = block_size sb.
Proof.
  rewrite log2_ext2_eq. unfold block_size, SECTOR_SIZE, geometry_ok in *.
  change 512 with (2 ^ 9). rewrite <- Z.pow_add_r by lia. f_equal. lia.
Qed.

Lemma read_file_block_size :
  u32 (s32 (shl32 1 (LOG2_EXT2_BLOCK_SIZE sb + DISK_SECTOR_BITS))) = block_size sb.
Proof.
  rewrite log2_ext2_eq. unfold DISK_SECTOR_BITS.
  replace (sb_log2_block_size sb + 1 + 9) with (sb_log2_block_size sb + 10) by lia.
  unfold geometry_ok, block_size in *. pose proof (pow2_le_64k _ Hg).
  rewrite shl32_small by lia. rewrite Z.mul_1_l, s32_small by lia. apply u32_small. lia.
Qed.

(** A sector number shifted left is never the all-ones word of an empty cache. *)
Lemma block_sector_even b : block_sector sb b mod 2 = 0.
Proof.
  unfold block_sector, shl32. rewrite log2_ext2_eq. unfold geometry_ok in Hg.
  rewrite Z.shiftl_mul_pow2, Z.pow_add_r by lia. change (2 ^ 1) with 2.
  unfold u32. rewrite Z.mul_assoc. word_lia.
Qed.

Lemma block_sector_range b : 0 <= block_sector sb b < 4294967296.
Proof. apply u32_range. Qed.

End Geometry.

(** ** The invariant of the driver *)

Section Volume.
Context {F : Type} {FW : Firmware F}.
Context (I : F -> Prop) (p : part_t) (vol : list Z) {HV : Volume I p vol}.
Context (sb : list Z) (Hg : geometry_ok sb).
(** Heap space left to the callers. *)
Context (extra : Z) (Hx : 0 <= extra).

Local Abbreviation bs := (block_size sb).
Local Abbreviation lg := (LOG2_EXT2_BLOCK_SIZE sb).

(** What reading does not change: everything but the firmware state, the
    progress wheel, the heap and the two caches. *)
Definition core (s : fs F) :=
  (m_prom (fs_m s), m_bi (fs_m s), ext2fs_root (fs_ext2 s), ext2fs_file (fs_ext2 s),
   symlinknest (fs_ext2 s), inode_size (fs_ext2 s)).

(** A cache that is not empty holds the block of the volume it says it holds. *)
Definition cache_valid (i : indir) : Prop :=
  match ib_block i with
  | None => True
  | Some (a, bytes) =>
      a <> 0 /\
      (ib_size i = bs ->
       Z.of_nat (length bytes) = bs /\
       (ib_blkno i = -1 \/ bytes = slice vol (u32 (ib_blkno i) * SECTOR_SIZE) bs))
  end.

Definition cache_ready (i : indir) : Prop := is_Some (ib_block i) /\ ib_size i = bs.

Definition cache_readyb (i : indir) : bool :=
  match ib_block i with Some _ => ib_size i =? bs | None => false end.

(** Heap space a cache still has to be given. *)
Definition cache_cost (i : indir) : Z := if cache_readyb i then 0 else bs + 8.

Definition fs_inv c (s : fs F) : Prop :=
  core s = c /\ I (m_fw (fs_m s)) /\ fs_part s = p
  /\ cache_valid (indir1 (fs_ext2 s)) /\ cache_valid (indir2 (fs_ext2 s))
  /\ heap_room (cache_cost (indir1 (fs_ext2 s)) + cache_cost (indir2 (fs_ext2 s)) + extra)
       (m_heap (fs_m s)).

(** From every state that meets the invariant, [c] returns [a] and keeps it. *)
Definition returns {A} (c : E F A) (a : A) : Prop :=
  forall k s, fs_inv k s -> exists s', c s = (Ok a, s') /\ fs_inv k s'.

Lemma returns_ret {A} (a : A) : returns (mret a) a.
Proof. intros k s Hs. by exists s. Qed.

Lemma returns_bind {A B} (c : E F A) (f : A -> E F B) a b :
  returns c a -> returns (f a) b -> returns (c ≫= f) b.
Proof.
  intros Hc Hf k s Hs. destruct (Hc k s Hs) as (s1 & E1 & H1).
  destruct (Hf k s1 H1) as (s2 & E2 & H2). exists s2. by rewrite (bind_ok _ _ _ _ _ E1).
Qed.

Lemma returns_assoc {A B C} (c : E F A) (f : A -> E F B) (g : B -> E F C) x :
  returns ((c ≫= f) ≫= g) x -> returns (c ≫= (fun a => f a ≫= g)) x.
Proof. intros H k s Hs. destruct (H k s Hs) as (s' & E & H'). rewrite bind_assoc in E. eauto. Qed.

Lemma returns_nonzero z : z <> 0 -> returns (nonzero z) tt.
Proof. intros Hz. unfold nonzero. destruct (Z.eqb_spec z 0); [done|]. apply returns_ret. Qed.

(** Console operations keep the invariant. *)
Lemma returns_quiet (c : P F unit) : quiet I c -> returns (lm c) tt.
Proof.
  intros Hq k s (Hc & HI & Hp & H1 & H2 & Hh).
  destruct (Hq (fs_m s) HI) as ([] & m' & E & HI' & S1 & S2 & S3).
  exists (mk_fs m' (fs_part s) (fs_ext2 s)). unfold lm, zoom. rewrite E. split; [done|].
  unfold fs_inv, core in *. simpl. rewrite S1, S2, S3. by split_and!.
Qed.

Lemma returns_spinner n : returns (lm (spinner n)) tt.
Proof. apply returns_quiet, quiet_spinner, (vol_write (I := I) (p := p) (vol := vol)). Qed.

(** [part_read] through the driver: only the firmware state changes. *)
Lemma data_read_step sector off n buf s :
  I (m_fw (fs_m s)) -> fs_part s = p ->
  0 <= sector < 4294967296 -> 0 <= off < 4294967296 -> 0 <= n < 4294967296 ->
  sector * SECTOR_SIZE + off + n < Z.of_nat (length vol) ->
  exists m', data_read sector off n buf s
      = (Ok (ERR_NONE, overlay buf (slice vol (sector * SECTOR_SIZE + off) n)),
         mk_fs m' (fs_part s) (fs_ext2 s))
    /\ I (m_fw m') /\ same_but_io (fs_m s) m'.
Proof.
  intros HI Hp Hs Ho Hn Hlt. rewrite vol_len in Hlt.
  destruct (vol_read (fs_m s) sector off n buf HI Hs Ho Hn Hlt) as (m' & E & HI' & HS).
  exists m'. split; [|done].
  unfold data_read, gets, lm, zoom, mbind, M_bind. rewrite Hp. by rewrite E.
Qed.

Lemma fs_inv_io k s m' :
  fs_inv k s -> I (m_fw m') -> same_but_io (fs_m s) m' ->
  fs_inv k (mk_fs m' (fs_part s) (fs_ext2 s)).
Proof.
  intros (Hc & HI & Hp & H1 & H2 & Hh) HI' (S1 & S2 & S3).
  unfold fs_inv, core in *. simpl. rewrite S1, S2, S3. by split_and!.
Qed.

Lemma returns_data_read sector off n buf :
  0 <= sector < 4294967296 -> 0 <= off < 4294967296 -> 0 <= n < 4294967296 ->
  sector * SECTOR_SIZE + off + n < Z.of_nat (length vol) ->
  returns (data_read sector off n buf)
    (ERR_NONE, overlay buf (slice vol (sector * SECTOR_SIZE + off) n)).
Proof.
  intros Hs Ho Hn Hlt k s Hinv. pose proof Hinv as (_ & HI & Hp & _).
  destruct (data_read_step sector off n buf s) as (m' & E & HI' & HS); try done.
  eexists. split; [exact E|]. by apply fs_inv_io.
Qed.

Lemma overlay_full (buf b : list Z) : (length buf <= length b)%nat -> overlay buf b = b.
Proof. intros H. unfold overlay. by rewrite drop_ge, app_nil_r by lia. Qed.

Lemma returns_data_read_ok sector off n :
  0 <= sector < 4294967296 -> 0 <= off < 4294967296 -> 0 <= n < 4294967296 ->
  sector * SECTOR_SIZE + off + n < Z.of_nat (length vol) ->
  returns (data_read_ok sector off n) (slice vol (sector * SECTOR_SIZE + off) n).
Proof.
  intros Hs Ho Hn Hlt. unfold data_read_ok.
  eapply returns_bind; [by apply returns_data_read|]. simpl.
  rewrite overlay_full.
  2: { rewrite length_replicate. pose proof (slice_length vol (sector * SECTOR_SIZE + off) n) as Hl.
       unfold SECTOR_SIZE in *. lia. }
  eapply returns_bind; [|apply returns_ret].
  intros k s Hinv. exists s. split; [|done]. unfold lm, zoom, check. by destruct s.
Qed.

(** *** The caches *)

Lemma cache_readyb_spec i : cache_readyb i = true <-> cache_ready i.
Proof.
  unfold cache_readyb, cache_ready. destruct (ib_block i); simpl.
  - rewrite Z.eqb_eq. split; [intros; split; [by eexists|done]|by intros [_ ?]].
  - split; [done|]. by intros [[] _].
Qed.

Lemma get_put w i e : get_indir w (put_indir w i e) = i.
Proof. by destruct w. Qed.

Definition other (w : which) : which := match w with One => Two | Two => One end.

Lemma get_put_other w i e : get_indir (other w) (put_indir w i e) = get_indir (other w) e.
Proof. by destruct w. Qed.

Lemma cache_cost_nonneg i : 0 <= cache_cost i.
Proof. unfold cache_cost. pose proof (block_size_range sb Hg). destruct (cache_readyb i); lia. Qed.

Lemma cache_cost_le i : cache_cost i <= bs + 8.
Proof. unfold cache_cost. pose proof (block_size_range sb Hg). destruct (cache_readyb i); lia. Qed.

Lemma cache_cost_ready i : cache_ready i -> cache_cost i = 0.
Proof. intros H. unfold cache_cost. by rewrite (proj2 (cache_readyb_spec i) H). Qed.

Lemma cache_cost_unready i : ~ cache_ready i -> cache_cost i = bs + 8.
Proof. intros H. unfold cache_cost. destruct (cache_readyb i) eqn:E; [|done]. by apply cache_readyb_spec in E. Qed.

(** The invariant seen from either cache. *)
Lemma fs_inv_get w k s :
  fs_inv k s <->
    core s = k /\ I (m_fw (fs_m s)) /\ fs_part s = p
    /\ cache_valid (get_indir w (fs_ext2 s)) /\ cache_valid (get_indir (other w) (fs_ext2 s))
    /\ heap_room (cache_cost (get_indir w (fs_ext2 s))
                  + cache_cost (get_indir (other w) (fs_ext2 s)) + extra) (m_heap (fs_m s)).
Proof.
  unfold fs_inv. destruct w; simpl; [tauto|].
  rewrite (Z.add_comm (cache_cost (indir2 _))). tauto.
Qed.

(** Replacing cache [w] and the heap. *)
Definition with_cache (w : which) (i : indir) (h : heap) (s : fs F) : fs F :=
  mk_fs (set_heap h (fs_m s)) (fs_part s) (put_indir w i (fs_ext2 s)).

Lemma fs_inv_with_cache w i h k s :
  core s = k -> I (m_fw (fs_m s)) -> fs_part s = p ->
  cache_valid (get_indir (other w) (fs_ext2 s)) -> cache_valid i ->
  heap_room (cache_cost i + cache_cost (get_indir (other w) (fs_ext2 s)) + extra) h ->
  fs_inv k (with_cache w i h s).
Proof.
  intros Hc HI Hp Ho Hi Hh. apply (fs_inv_get w). unfold with_cache. cbn [fs_ext2 fs_m fs_part].
  rewrite get_put, get_put_other. split_and!; try done. by destruct w.
Qed.

Definition new_cache (a : Z) : indir := mk_indir (Some (a, replicate (Z.to_nat bs) 0)) bs (-1).

Lemma new_cache_ok a : a <> 0 -> cache_valid (new_cache a) /\ cache_ready (new_cache a).
Proof.
  intros Ha. pose proof (block_size_range sb Hg). split.
  - split; [done|]. intros _. rewrite length_replicate. split; [lia|by left].
  - split; [by eexists|done].
Qed.

(** Giving cache [w] a new buffer. *)
Lemma indir_new_buffer w k s :
  core s = k -> I (m_fw (fs_m s)) -> fs_part s = p ->
  cache_valid (get_indir (other w) (fs_ext2 s)) ->
  heap_room (bs + 8 + cache_cost (get_indir (other w) (fs_ext2 s)) + extra) (m_heap (fs_m s)) ->
  exists s', (a ← malloc_or bs ERR_NO_MEM; on_ext2 (put_indir w (new_cache a))) s = (Ok tt, s')
    /\ fs_inv k s' /\ cache_ready (get_indir w (fs_ext2 s')).
Proof.
  intros Hc HI Hp Ho Hh. pose proof (block_size_range sb Hg) as Hbs.
  pose proof (cache_cost_nonneg (get_indir (other w) (fs_ext2 s))).
  destruct (heap_room_malloc _ bs _ Hh) as (a & h' & E & Ha & Hh');
    [unfold MALLOC_SIZE; lia|lia|].
  destruct (new_cache_ok a Ha) as [Hv Hr].
  exists (with_cache w (new_cache a) h' s). split_and!.
  - unfold malloc_or, do_malloc, lm, zoom, mbind, M_bind. by rewrite E.
  - apply fs_inv_with_cache; try done. rewrite (cache_cost_ready _ Hr).
    eapply heap_room_le; [exact Hh'|lia].
  - unfold with_cache. cbn [fs_ext2]. by rewrite get_put.
Qed.

Lemma with_cache_core w i h s : core (with_cache w i h s) = core s.
Proof. by destruct w. Qed.

Lemma indir_alloc_inv w k s :
  fs_inv k s ->
  exists s', indir_alloc w bs s = (Ok tt, s') /\ fs_inv k s'
    /\ cache_ready (get_indir w (fs_ext2 s')).
Proof.
  intros Hinv. apply (fs_inv_get w) in Hinv as (Hc & HI & Hp & H1 & H2 & Hh).
  unfold indir_alloc. fold new_cache.
  destruct (ib_block (get_indir w (fs_ext2 s))) as [[a b]|] eqn:Eb.
  - destruct (Z.eqb_spec bs (ib_size (get_indir w (fs_ext2 s)))) as [Es|Es].
    + exists s. unfold gets, mbind, M_bind, mret, M_ret. rewrite Eb.
      destruct (Z.eqb_spec bs (ib_size (get_indir w (fs_ext2 s)))); [|done].
      split_and!; [done|by apply (fs_inv_get w)|]. by split; [rewrite Eb; eexists|].
    + assert (Hu : ~ cache_ready (get_indir w (fs_ext2 s))) by (intros [_ ?]; congruence).
      rewrite cache_cost_unready in Hh by done.
      unfold cache_valid in H1. rewrite Eb in H1. destruct H1 as [Ha _].
      destruct (indir_new_buffer w k (with_cache w indir_none (free a (m_heap (fs_m s))) s))
        as (s' & E & Hs' & Hr).
      * by rewrite with_cache_core.
      * done.
      * done.
      * unfold with_cache. cbn [fs_ext2]. by rewrite get_put_other.
      * unfold with_cache. cbn [fs_ext2 fs_m]. rewrite get_put_other.
        simpl. by apply heap_room_free.
      * exists s'. split_and!; try done. rewrite <- E.
        unfold gets, mbind, M_bind, mret, M_ret. rewrite Eb.
        destruct (Z.eqb_spec bs (ib_size (get_indir w (fs_ext2 s)))); [done|].
        by rewrite Eb.
  - assert (Hu : ~ cache_ready (get_indir w (fs_ext2 s))) by (intros [[? ?] _]; congruence).
    rewrite cache_cost_unready in Hh by done.
    destruct (indir_new_buffer w k s) as (s' & E & Hs' & Hr); try done.
    exists s'. split_and!; try done.
    apply bind_ok_inv in E as (a & s1 & E1 & E2).
    unfold gets. unfold mbind at 1, M_bind at 1. rewrite Eb.
    rewrite (bind_ok _ _ _ tt s'); [|by rewrite (bind_ok _ _ _ _ _ E1)].
    unfold mbind, M_bind. destruct Hr as [_ ->]. by rewrite Z.eqb_refl.
Qed.

Lemma u32_s32 z : u32 (s32 z) = u32 z.
Proof. unfold s32. destruct (Z.ltb_spec (u32 z) 2147483648); word_lia. Qed.

(** A cache that holds sector [z]. *)
Definition loaded_cache (a : Z) (z : Z) : indir :=
  mk_indir (Some (a, slice vol (z * SECTOR_SIZE) bs)) bs (s32 z).

Lemma loaded_cache_ok a z :
  a <> 0 -> 0 <= z < 4294967296 -> z * SECTOR_SIZE + bs <= Z.of_nat (length vol) ->
  cache_valid (loaded_cache a z) /\ cache_ready (loaded_cache a z).
Proof.
  intros Ha Hz Hlen. pose proof (block_size_range sb Hg). split.
  - unfold cache_valid, loaded_cache. cbn [ib_block ib_size ib_blkno]. split; [done|]. intros _.
    rewrite u32_s32, u32_small by done. split; [|by right].
    apply slice_length; unfold SECTOR_SIZE in *; lia.
  - split; [by eexists|done].
Qed.

Lemma indir_load_inv w b k s :
  fs_inv k s -> cache_ready (get_indir w (fs_ext2 s)) -> readable vol sb b ->
  exists s', indir_load w b lg bs s = (Ok (vol_block vol sb b), s') /\ fs_inv k s'.
Proof.
  intros Hinv Hr Hb. pose proof (block_size_range sb Hg) as Hbs.
  pose proof (block_sector_range sb b) as Hsec. pose proof (block_sector_even sb Hg b) as Heven.
  apply (fs_inv_get w) in Hinv as (Hc & HI & Hp & H1 & H2 & Hh).
  rewrite (cache_cost_ready _ Hr) in Hh. destruct Hr as [[[a bytes] Eb] Hsz].
  unfold cache_valid in H1. rewrite Eb in H1. destruct H1 as [Ha H1].
  destruct (H1 Hsz) as [Hlen Hholds].
  unfold readable in Hb. unfold indir_load. rewrite bind_gets.
  assert (Hib : ib_bytes (get_indir w (fs_ext2 s)) = bytes) by (unfold ib_bytes; by rewrite Eb).
  fold (block_sector sb b). rewrite Eb. cbn [snd fst fmap option_fmap option_map default].
  destruct (Z.eqb_spec (block_sector sb b) (u32 (ib_blkno (get_indir w (fs_ext2 s)))))
    as [Eh|Eh].
  - exists s. rewrite bind_ret. unfold gets, ib_bytes. rewrite Eb.
    destruct Hholds as [Hm|Hm].
    { rewrite Hm in Eh. rewrite Eh in Heven. vm_compute in Heven. discriminate. }
    split; [by rewrite Hm; unfold vol_block; rewrite Eh|].
    apply (fs_inv_get w). rewrite cache_cost_ready by (split; [rewrite Eb; by eexists|done]).
    split_and!; try done. unfold cache_valid. by rewrite Eb.
  - destruct (data_read_step (block_sector sb b) 0 bs bytes s) as (m' & E & HI' & HS);
      [done..|lia|lia|lia|].
    rewrite Z.add_0_r in E. rewrite overlay_full in E.
    2: { pose proof (slice_length vol (block_sector sb b * SECTOR_SIZE) bs) as Hl.
         unfold SECTOR_SIZE in *. lia. }
    destruct (loaded_cache_ok a (block_sector sb b)) as [Hv Hrd]; [done..|lia|].
    exists (with_cache w (loaded_cache a (block_sector sb b)) (m_heap m')
              (mk_fs m' (fs_part s) (fs_ext2 s))).
    split.
    + rewrite (bind_ok _ _ _ tt (with_cache w (loaded_cache a (block_sector sb b)) (m_heap m')
              (mk_fs m' (fs_part s) (fs_ext2 s)))).
      { unfold gets, with_cache. cbn [fs_ext2]. by rewrite get_put. }
      rewrite Hib, (bind_ok _ _ _ _ _ E).
      unfold on_ext2. rewrite bind_modify. cbn [fs_ext2].
      destruct m', w; simpl in Hsz |- *; by rewrite Hsz.
    + destruct HS as (S1 & S2 & S3). apply fs_inv_with_cache; try done.
      * rewrite <- Hc. unfold core. cbn [fs_m fs_ext2]. by rewrite S1, S2.
      * rewrite (cache_cost_ready _ Hrd). cbn [fs_ext2]. by rewrite S3.
Qed.

(** Allocating and loading a cache gives the block, whatever it held. *)
Lemma returns_indirect {B} w b (f : list Z -> E F B) v :
  readable vol sb b -> returns (f (vol_block vol sb b)) v ->
  returns (indir_alloc w bs;; x ← indir_load w b lg bs; f x) v.
Proof.
  intros Hb Hf k s Hs. destruct (indir_alloc_inv w k s Hs) as (s1 & E1 & H1 & Hr).
  destruct (indir_load_inv w b k s1 H1 Hr Hb) as (s2 & E2 & H2).
  destruct (Hf k s2 H2) as (s3 & E3 & H3). exists s3.
  by rewrite (bind_ok _ _ _ _ _ E1), (bind_ok _ _ _ _ _ E2).
Qed.

(** The lookup is the block map. *)
Lemma returns_read_block node fb :
  nd_sb node = sb -> map_readable vol sb (nd_inode node) fb ->
  returns (ext2fs_read_block node fb) (block_map vol sb (nd_inode node) fb).
Proof.
  intros Esb (Hfb & Hind & Hdind). pose proof (block_size_range sb Hg) as Hbs.
  unfold ext2fs_read_block, block_map. rewrite Esb, ext2_block_size_eq by done.
  rewrite Z.quot_div_nonneg by lia.
  set (per := bs / 4) in *.
  assert (256 <= per <= 16384) as Hper
    by (split; [apply Z.div_le_lower_bound; lia|apply Z.div_le_upper_bound; lia]).
  unfold INDIRECT_BLOCKS in *.
  destruct (Z.ltb_spec fb 0); [lia|].
  destruct (Z.ltb_spec fb 12); [apply returns_ret|].
  destruct (Z.ltb_spec fb (12 + per)).
  - apply returns_indirect; [by apply Hind|apply returns_ret].
  - destruct (Z.ltb_spec fb (12 + per * (per + 1))); [|lia].
    rewrite (u32_small per), (u32_small (fb - _)) by nia.
    destruct (Hdind ltac:(lia)) as [Hd1 Hd2].
    apply returns_indirect; [done|]. apply returns_indirect; [done|apply returns_ret].
Qed.

End Volume.
