(* ===== verification/Ext2File.v ===== *)
(** * File contents of the ext2 driver

    [ext2fs_read_file] against the volume: the contents of a file are the
    concatenation of the blocks its block map names, a hole being a block of
    zeros, and a read returns the part asked for. *)
From Stdlib Require Import ZArith Lia.
From stdpp Require Import prelude gmap.
From S2P Require Import Prelude Quik CString Util Malloc Printf Machine Prom Part Ext2 Ext2Block.

#[local] Arguments u32 : simpl never.
#[local] Arguments s32 : simpl never.
#[local] Arguments shl32 : simpl never.
#[local] Arguments slice : simpl never.
#[local] Arguments Z.mul : simpl never.
#[local] Arguments Z.pow : simpl never.

(** ** Specification *)

(** The driver tests for a hole after the shift to sectors. *)
Definition hole (vol sb inode : list Z) (fb : Z) : bool :=
  block_sector sb (block_map vol sb inode fb) =? 0.

Definition file_block (vol sb inode : list Z) (fb : Z) : list Z :=
  if hole vol sb inode fb then replicate (Z.to_nat (block_size sb)) 0
  else vol_block vol sb (block_map vol sb inode fb).

(** The first [n] blocks of a file. *)
Definition file_content (vol sb inode : list Z) (n : Z) : list Z :=
  mjoin (map (file_block vol sb inode) (seqZ 0 n)).

(** The first [n] blocks are mapped and on the volume. *)
Definition file_ok (vol sb inode : list Z) (n : Z) : Prop :=
  forall fb, 0 <= fb < n ->
    map_readable vol sb inode fb
    /\ (hole vol sb inode fb = true \/ readable vol sb (block_map vol sb inode fb)).

(** The number of blocks that hold the first [n] bytes. *)
Definition blocks_of (sb : list Z) (n : Z) : Z := (n + block_size sb - 1) / block_size sb.

(** The offset up to which a read of [len] bytes at [pos] stores: the end asked
    for, or the end of the block when that block is a hole. *)
Definition read_end (vol sb inode : list Z) (pos len : Z) : Z :=
  let n := blocks_of sb (pos + len) in
  if (pos / block_size sb <? n) && hole vol sb inode (n - 1)
  then n * block_size sb else pos + len.

(** What [ext2fs_read_file] stores. *)
Definition read_spec (vol sb inode : list Z) (pos len : Z) : list Z :=
  slice (file_content vol sb inode (blocks_of sb (pos + len))) pos
    (read_end vol sb inode pos len - pos).

(** ** Lemmas: lists of blocks *)

Lemma slice_app_r l1 l2 a n :
  Z.of_nat (length l1) <= a -> slice (l1 ++ l2) a n = slice l2 (a - Z.of_nat (length l1)) n.
Proof.
  intros. unfold slice. rewrite drop_app_ge by lia. do 2 f_equal. lia.
Qed.

Lemma slice_app_l l1 l2 a n :
  0 <= a -> 0 <= n -> a + n <= Z.of_nat (length l1) -> slice (l1 ++ l2) a n = slice l1 a n.
Proof.
  intros. unfold slice. rewrite drop_app_le by lia. rewrite take_app_le; [done|].
  rewrite length_drop. lia.
Qed.

Lemma slice_join (f : Z -> list Z) bs lo n i o len :
  0 < bs -> (forall k, lo <= k < lo + n -> Z.of_nat (length (f k)) = bs) ->
  0 <= i < n -> 0 <= o -> 0 <= len -> o + len <= bs ->
  slice (mjoin (map f (seqZ lo n))) (i * bs + o) len = slice (f (lo + i)) o len.
Proof.
  intros Hbs Hf Hi Ho Hl Hol. assert (exists k, i = Z.of_nat k) as [k ->]
    by (exists (Z.to_nat i); lia).
  revert lo n Hf Hi. induction k as [|k IH]; intros lo n Hf Hi.
  - rewrite seqZ_cons by lia. simpl. rewrite Z.add_0_r, Z.mul_0_l, Z.add_0_l.
    apply slice_app_l; try lia. rewrite Hf by lia. lia.
  - rewrite seqZ_cons by lia. simpl. rewrite slice_app_r by (rewrite Hf by lia; nia).
    rewrite Hf by lia. replace (Z.of_nat (S k) * bs + o - bs) with (Z.of_nat k * bs + o) by lia.
    rewrite IH by (intros; try apply Hf; lia). f_equal. f_equal. lia.
Qed.

(** ** Reading *)

Section Volume.
Context {F : Type} {FW : Firmware F}.
Context (I : F -> Prop) (p : part_t) (vol : list Z) {HV : Volume I p vol}.
Context (sb : list Z) (Hg : geometry_ok sb) (extra : Z) (Hx : 0 <= extra).

Local Abbreviation bs := (block_size sb).
Local Abbreviation lg := (LOG2_EXT2_BLOCK_SIZE sb).
Local Abbreviation returns := (returns I p vol sb extra).

Lemma file_block_length inode n fb :
  file_ok vol sb inode n -> 0 <= fb < n -> Z.of_nat (length (file_block vol sb inode fb)) = bs.
Proof.
  intros Hok Hfb. pose proof (block_size_range sb Hg) as Hbs. unfold file_block.
  destruct (Hok fb Hfb) as [_ Hr]. destruct (hole vol sb inode fb) eqn:E.
  - rewrite length_replicate. lia.
  - destruct Hr as [?|Hr]; [done|]. unfold readable in Hr.
    pose proof (block_sector_range sb (block_map vol sb inode fb)).
    apply slice_length; unfold SECTOR_SIZE in *; lia.
Qed.

Lemma content_block inode n fb o len :
  file_ok vol sb inode n -> 0 <= fb < n -> 0 <= o -> 0 <= len -> o + len <= bs ->
  slice (file_content vol sb inode n) (fb * bs + o) len = slice (file_block vol sb inode fb) o len.
Proof.
  intros Hok Hfb Ho Hl Hol. pose proof (block_size_range sb Hg).
  unfold file_content. rewrite slice_join; try done; try lia.
  intros. apply (file_block_length inode n); [done|lia].
Qed.

Lemma slice_zeros n a m :
  0 <= a -> 0 <= m -> a + m <= n ->
  slice (replicate (Z.to_nat n) 0) a m = replicate (Z.to_nat m) 0.
Proof.
  intros. unfold slice. rewrite drop_replicate, take_replicate. f_equal. lia.
Qed.

(** One round stores a part of the block: from [o], up to [e] or, in a hole, up
    to the end. *)
Lemma returns_block_part inode n fb o e :
  file_ok vol sb inode n -> 0 <= fb < n -> 0 <= o <= e -> e <= bs ->
  returns
    (if negb (shl32 (block_map vol sb inode fb) lg =? 0)
     then data_read_ok (shl32 (block_map vol sb inode fb) lg) o (e - o)
     else mret (replicate (Z.to_nat (bs - o)) 0))
    (slice (file_content vol sb inode n) (fb * bs + o)
       ((if hole vol sb inode fb then bs else e) - o)).
Proof.
  intros Hok Hfb Ho He. pose proof (block_size_range sb Hg).
  rewrite content_block; try done; [|lia|destruct (hole _ _ _ _); lia..].
  unfold file_block. destruct (Hok fb Hfb) as [_ Hr].
  fold (block_sector sb (block_map vol sb inode fb)). fold (hole vol sb inode fb).
  destruct (hole vol sb inode fb); cbn [negb].
  - rewrite slice_zeros by lia. apply returns_ret.
  - destruct Hr as [?|Hr]; [done|]. unfold readable in Hr.
    pose proof (block_sector_range sb (block_map vol sb inode fb)) as Hsec.
    unfold vol_block. rewrite slice_slice; [|unfold SECTOR_SIZE in *; lia..].
    apply (returns_data_read_ok I p vol sb extra); lia.
Qed.

Lemma map_readable_s32 inode fb : map_readable vol sb inode fb -> s32 fb = fb.
Proof.
  intros [Hfb _]. pose proof (block_size_range sb Hg). apply s32_small.
  assert (bs / 4 <= 16384) by (apply Z.div_le_upper_bound; lia).
  assert (0 <= bs / 4) by (apply Z.div_pos; lia).
  unfold INDIRECT_BLOCKS in *. nia.
Qed.

Lemma returns_then {A B} (c : E F A) (f : A -> E F B) b :
  (exists a, returns c a /\ returns (f a) b) -> returns (c ≫= f) b.
Proof. intros (a & Hc & Hf). by eapply returns_bind. Qed.

Section Read.
Context (node : ext2fs_node) (pos len : Z).
Context (Esb : nd_sb node = sb) (Hpos : 0 <= pos) (Hlen : 0 <= len).
Context (Hfit : pos + len + bs < 4294967296).

Local Abbreviation inode := (nd_inode node).
Local Abbreviation nb := (blocks_of sb (pos + len)).
Context (Hok : file_ok vol sb inode nb).

(** Where round [i] starts and stops. *)
Definition round_start (i : Z) : Z := Z.max pos (i * bs).
Definition round_stop (i : Z) : Z :=
  if i =? nb - 1 then read_end vol sb inode pos len else (i + 1) * bs.

Lemma blocks_of_spec : (nb - 1) * bs < pos + len <= nb * bs.
Proof. pose proof (block_size_range sb Hg). unfold blocks_of. Z.div_mod_to_equations. nia. Qed.

Lemma blocks_of_nonneg : 0 <= nb.
Proof. pose proof (block_size_range sb Hg). unfold blocks_of. apply Z.div_pos; lia. Qed.

Lemma last_block_end i :
  i = nb - 1 -> 0 <= i ->
  (let e := u32 (len + pos) mod bs in if e =? 0 then bs else e) = pos + len - i * bs.
Proof.
  intros -> Hn. pose proof (block_size_range sb Hg). pose proof blocks_of_spec.
  rewrite u32_small by lia. rewrite (Z.add_comm len). cbv zeta.
  pose proof (Z.div_mod (pos + len) bs ltac:(lia)).
  pose proof (Z.mod_pos_bound (pos + len) bs ltac:(lia)).
  destruct (Z.eqb_spec ((pos + len) mod bs) 0) as [E0|E0].
  - assert (nb = (pos + len) / bs) by nia. nia.
  - assert (nb - 1 = (pos + len) / bs) by nia. nia.
Qed.

Lemma returns_read_round i :
  pos / bs <= i < nb ->
  returns (read_file_block node pos len nb lg bs i)
    (slice (file_content vol sb inode nb) (round_start i) (round_stop i - round_start i)).
Proof.
  intros Hi. pose proof (block_size_range sb Hg) as Hbs. pose proof blocks_of_spec as Hn.
  pose proof (Z.div_mod pos bs ltac:(lia)) as Hdm.
  pose proof (Z.mod_pos_bound pos bs ltac:(lia)) as Hm.
  assert (0 <= pos / bs) by (apply Z.div_pos; lia).
  destruct (Hok i ltac:(lia)) as [Hmap _].
  unfold read_file_block. apply returns_then. exists tt. split; [by apply (returns_spinner I p vol sb extra)|].
  apply returns_then. exists (block_map vol sb inode i). rewrite (map_readable_s32 _ _ Hmap).
  split; [by apply (returns_read_block I p vol sb Hg extra Hx)|].
  set (o := if i =? pos / bs then pos mod bs else 0).
  set (e := if i =? nb - 1 then pos + len - i * bs else bs).
  assert (Ho : round_start i = i * bs + o).
  { unfold round_start, o. destruct (Z.eqb_spec i (pos / bs)); [subst i|]; nia. }
  assert (He : round_stop i = i * bs + (if hole vol sb inode i then bs else e)).
  { unfold round_stop, e, read_end. destruct (Z.eqb_spec i (nb - 1)) as [->|].
    - destruct (Z.ltb_spec (pos / bs) nb); [|lia]. destruct (hole _ _ _ _); simpl; lia.
    - destruct (hole _ _ _ _); lia. }
  assert (Hoe : 0 <= o <= e /\ e <= bs).
  { unfold o, e. destruct (Z.eqb_spec i (pos / bs)), (Z.eqb_spec i (nb - 1)); subst; nia. }
  rewrite Ho, He. replace (i * bs + _ - _) with ((if hole vol sb inode i then bs else e) - o) by lia.
  rewrite (u32_small (nb - 1)) by lia. fold o.
  replace (if i =? nb - 1 then _ else bs) with e.
  2: { unfold e. destruct (Z.eqb_spec i (nb - 1)); [|done]. symmetry. apply last_block_end; lia. }
  replace (if i =? pos / bs then u32 (e - o) else e) with (e - o).
  2: { unfold o. destruct (Z.eqb_spec i (pos / bs)); [|lia]. rewrite u32_small; [done|lia]. }
  apply returns_block_part; [done|lia|lia|lia].
Qed.

Lemma read_end_after : pos <= read_end vol sb inode pos len.
Proof.
  pose proof blocks_of_spec. unfold read_end. destruct (_ && _); lia.
Qed.

Lemma returns_read_loop k i :
  pos / bs <= i -> i + Z.of_nat k = nb ->
  returns (read_file_loop k node pos len nb lg bs i)
    (if i <? nb
     then slice (file_content vol sb inode nb) (round_start i)
            (read_end vol sb inode pos len - round_start i)
     else []).
Proof.
  revert i. induction k as [|k IH]; intros i Hi Hk.
  { destruct (Z.ltb_spec i nb); [lia|apply returns_ret]. }
  pose proof (block_size_range sb Hg) as Hbs. pose proof blocks_of_spec as Hn.
  pose proof (Z.div_mod pos bs ltac:(lia)) as Hdm.
  pose proof (Z.mod_pos_bound pos bs ltac:(lia)) as Hm.
  assert (0 <= pos / bs) by (apply Z.div_pos; lia).
  destruct (Z.ltb_spec i nb) as [_|]; [|lia]. cbn [read_file_loop].
  apply returns_then. eexists. split; [by apply returns_read_round; lia|].
  apply returns_then. eexists. split; [apply IH; lia|].
  assert (Hst : round_start i < (i + 1) * bs) by (unfold round_start; nia).
  unfold round_stop. destruct (Z.eqb_spec i (nb - 1)) as [E|E].
  - destruct (Z.ltb_spec (i + 1) nb); [lia|]. rewrite app_nil_r. apply returns_ret.
  - destruct (Z.ltb_spec (i + 1) nb); [|lia].
    assert (Hs : round_start (i + 1) = round_start i + ((i + 1) * bs - round_start i))
      by (unfold round_start in *; nia).
    rewrite Hs, slice_app_split.
    + replace (_ - _ + (_ - _)) with (read_end vol sb inode pos len - round_start i) by lia.
      apply returns_ret.
    + unfold round_start. lia.
    + lia.
    + rewrite <- Hs. unfold read_end, round_start. pose proof blocks_of_nonneg.
      destruct (Z.ltb_spec (pos / bs) nb); [|lia]. destruct (hole _ _ _ _); cbn [andb]; nia.
Qed.

Lemma returns_read_clamped :
  returns
    (read_file_loop (Z.to_nat (u32 (u32 (u32 (len + pos) + bs) - 1) / bs - pos / bs)) node pos
       len (u32 (u32 (u32 (len + pos) + bs) - 1) / bs) lg bs (pos / bs))
    (read_spec vol sb inode pos len).
Proof.
  pose proof (block_size_range sb Hg) as Hbs. pose proof blocks_of_spec as Hn.
  pose proof (Z.div_mod pos bs ltac:(lia)) as Hdm.
  pose proof (Z.mod_pos_bound pos bs ltac:(lia)) as Hm.
  rewrite (u32_small (len + pos)), (u32_small (len + pos + bs)), u32_small by lia.
  replace ((len + pos + bs - 1) / bs) with nb
    by (unfold blocks_of; by rewrite (Z.add_comm len)).
  destruct (Z.ltb_spec (pos / bs) nb) as [Hlt|Hge].
  - pose proof (returns_read_loop (Z.to_nat (nb - pos / bs)) (pos / bs)) as Hl.
    destruct (Z.ltb_spec (pos / bs) nb) as [_|]; [|lia].
    replace (round_start (pos / bs)) with pos in Hl by (unfold round_start; nia).
    apply Hl; lia.
  - replace (Z.to_nat (nb - pos / bs)) with 0%nat by lia.
    unfold read_spec, read_end. destruct (Z.ltb_spec (pos / bs) nb); [lia|]. cbn [andb].
    replace (pos + len - pos) with 0 by nia. apply returns_ret.
Qed.

End Read.

(** A read returns the part of the file asked for, the length clamped to the
    file's whatever the position. *)
Lemma returns_read_file node pos len :
  nd_sb node = sb -> 0 <= pos -> 0 <= len -> 0 <= i_size (nd_inode node) ->
  let len' := Z.min (i_size (nd_inode node)) len in
  pos + len' + bs < 4294967296 ->
  file_ok vol sb (nd_inode node) (blocks_of sb (pos + len')) ->
  returns (ext2fs_read_file node pos len) (read_spec vol sb (nd_inode node) pos len').
Proof.
  intros Esb Hpos Hlen Hsz len' Hfit Hok. pose proof (block_size_range sb Hg) as Hbs.
  unfold ext2fs_read_file. rewrite Esb, (read_file_block_size sb Hg).
  apply returns_then. exists tt. split; [apply returns_nonzero; lia|].
  replace (if i_size (nd_inode node) <? len then _ else len) with len'
    by (unfold len'; destruct (Z.ltb_spec (i_size (nd_inode node)) len); lia).
  apply returns_read_clamped; try done. unfold len'. lia.
Qed.

End Volume.
