(* ===== verification/Ext2Tree.v ===== *)
(** * Inodes and directories of the ext2 driver

    Where the driver finds an inode, what a directory scan finds in a directory
    laid out as the format says, and the node a lookup makes for it. *)
From Stdlib Require Import ZArith Lia Ascii.
From stdpp Require Import prelude strings gmap.
From S2P Require Import Prelude Quik CString Util Malloc Printf Machine Prom Part Ext2 Ext2Block.
From S2P Require Import Ext2File.

#[local] Arguments u32 : simpl never.
#[local] Arguments s32 : simpl never.
#[local] Arguments shl32 : simpl never.
#[local] Arguments slice : simpl never.
#[local] Arguments Z.mul : simpl never.
#[local] Arguments Z.pow : simpl never.

(** ** Specification *)

(** The largest volume whose sectors have 32-bit numbers. *)
Definition VOLUME_MAX : Z := 2 ^ 41.

(** The descriptor of group [g]: the table follows the superblock's block. *)
Definition group_pos (sb : list Z) (g : Z) : Z :=
  (sb_first_data_block sb + 1) * block_size sb + g * SIZEOF_GROUP.
Definition group_desc (vol sb : list Z) (g : Z) : list Z := slice vol (group_pos sb g) SIZEOF_GROUP.

(** The inode [ino]: in the table of its group, inodes of [isize] bytes. *)
Definition inode_pos (vol sb : list Z) (isize ino : Z) : Z :=
  let ipg := sb_inodes_per_group sb in
  bg_inode_table_id (group_desc vol sb ((ino - 1) / ipg)) * block_size sb
  + (ino - 1) mod ipg * isize.
Definition inode_at (vol sb : list Z) (isize ino : Z) : list Z :=
  slice vol (inode_pos vol sb isize ino) SIZEOF_INODE.

(** The inode size divides the block size, and the inode table of a group fills
    whole blocks, as mke2fs makes them. *)
Definition inode_layout_ok (sb : list Z) (isize : Z) : Prop :=
  SIZEOF_INODE <= isize /\ block_size sb mod isize = 0
  /\ 0 < sb_inodes_per_group sb /\ sb_inodes_per_group sb mod (block_size sb / isize) = 0.

(** The inode's group descriptor and the inode lie on the volume. *)
Definition inode_on (vol sb : list Z) (isize ino : Z) : Prop :=
  1 <= ino < 2147483648
  /\ 0 <= sb_first_data_block sb
  /\ group_pos sb ((ino - 1) / sb_inodes_per_group sb) + SIZEOF_GROUP < Z.of_nat (length vol)
  /\ inode_pos vol sb isize ino + SIZEOF_INODE < Z.of_nat (length vol).

(** *** Directories *)

Record dentry := mk_dentry {
  dn_ino : Z;
  dn_type : Z;
  dn_name : list Z;
  dn_pad : list Z
}.

Definition dn_reclen (e : dentry) : Z :=
  SIZEOF_DIRENT + Z.of_nat (length (dn_name e)) + Z.of_nat (length (dn_pad e)).

(** The bytes of an entry: inode, record length, name length, type, name, and
    padding up to the record length. *)
Definition enc_dentry (e : dentry) : list Z :=
  enc_le32 (dn_ino e) ++ enc_le16 (dn_reclen e)
    ++ [Z.of_nat (length (dn_name e)); dn_type e] ++ dn_name e ++ dn_pad e.

Definition dentry_ok (e : dentry) : Prop :=
  0 <= dn_ino e < 2147483648 /\ 0 < dn_type e < 256 /\ cstr_ok (dn_name e)
  /\ Z.of_nat (length (dn_name e)) < 256 /\ bytes_ok (dn_pad e) /\ dn_reclen e < 65536.

(** The first entry that has a name. *)
Fixpoint dir_lookup (es : list dentry) (name : cstr) : option dentry :=
  match es with
  | [] => None
  | e :: es' =>
      if (negb (Z.of_nat (length (dn_name e)) =? 0)) && bool_decide (dn_name e = name)
      then Some e else dir_lookup es' name
  end.

(** The inode is that of a directory that holds exactly the entries [es]. *)
Definition dir_has (vol sb dinode : list Z) (es : list dentry) : Prop :=
  let size := i_size dinode in
  let n := blocks_of sb size in
  Forall dentry_ok es /\ size = Z.of_nat (length (mjoin (map enc_dentry es)))
  /\ size + 2 * block_size sb < 4294967296
  /\ file_ok vol sb dinode n
  /\ (forall fb, 0 <= fb < n -> hole vol sb dinode fb = false)
  /\ slice (file_content vol sb dinode n) 0 size = mjoin (map enc_dentry es).

(** *** Paths *)

Fixpoint path_of (comps : list cstr) : cstr :=
  match comps with
  | [] => []
  | [c] => c
  | c :: cs => c ++ chr "/" :: path_of cs
  end.

Definition comp_ok (c : cstr) : Prop := cstr_ok c /\ c <> [] /\ chr "/" ∉ c.

(** Following the components of a path from the directory [dinode], with no
    symbolic link on the way: the entry reached, or the error.  [dfuel] bounds
    the number of entries of a directory. *)
Inductive walk (vol sb : list Z) (isize : Z) (dfuel : nat) :
    list Z -> list cstr -> quik_err_t + dentry -> Prop :=
| walk_missing dinode es c cs :
    dir_has vol sb dinode es -> (length es < dfuel)%nat -> dir_lookup es c = None ->
    walk vol sb isize dfuel dinode (c :: cs) (inl ERR_FS_NOT_FOUND)
| walk_here dinode es c e :
    dir_has vol sb dinode es -> (length es < dfuel)%nat -> dir_lookup es c = Some e ->
    dirent_type (dn_type e) <> FILETYPE_SYMLINK ->
    walk vol sb isize dfuel dinode [c] (inr e)
| walk_not_dir dinode es c c' cs e :
    dir_has vol sb dinode es -> (length es < dfuel)%nat -> dir_lookup es c = Some e ->
    dirent_type (dn_type e) <> FILETYPE_SYMLINK ->
    dirent_type (dn_type e) <> FILETYPE_DIRECTORY ->
    walk vol sb isize dfuel dinode (c :: c' :: cs) (inl ERR_FS_NOT_DIR)
| walk_down dinode es c c' cs e sub r :
    dir_has vol sb dinode es -> (length es < dfuel)%nat -> dir_lookup es c = Some e ->
    dirent_type (dn_type e) = FILETYPE_DIRECTORY -> inode_on vol sb isize (dn_ino e) ->
    sub = inode_at vol sb isize (dn_ino e) -> walk vol sb isize dfuel sub (c' :: cs) r ->
    walk vol sb isize dfuel dinode (c :: c' :: cs) r.

(** *** The encoding of an entry *)

Lemma slice_mid pre a b pos n :
  pos = Z.of_nat (length pre) -> n = Z.of_nat (length a) -> slice (pre ++ a ++ b) pos n = a.
Proof.
  intros -> ->. unfold slice. rewrite !Nat2Z.id, drop_app_length. by rewrite take_app_length.
Qed.

Definition dn_head (e : dentry) : list Z :=
  enc_le32 (dn_ino e) ++ enc_le16 (dn_reclen e) ++ [Z.of_nat (length (dn_name e)); dn_type e].

Lemma enc_dentry_eq e : enc_dentry e = dn_head e ++ dn_name e ++ dn_pad e.
Proof. unfold enc_dentry, dn_head. by rewrite <- !app_assoc. Qed.

Lemma enc_dentry_length e : Z.of_nat (length (enc_dentry e)) = dn_reclen e.
Proof. rewrite enc_dentry_eq. unfold dn_reclen, SIZEOF_DIRENT. rewrite !length_app. simpl. lia. Qed.

Lemma dn_head_ok e : dentry_ok e -> bytes_ok (dn_head e).
Proof.
  intros (Hi & Ht & Hn & Hl & _ & Hr). unfold dn_head, enc_le32, enc_le16.
  cbn [app]. unfold bytes_ok. rewrite !Forall_cons.
  split_and!; try apply u8_range; try apply Forall_nil; unfold is_byte; lia.
Qed.

Lemma dn_head_fields e :
  dentry_ok e ->
  de_inode (dn_head e) = dn_ino e /\ de_direntlen (dn_head e) = dn_reclen e
  /\ de_namelen (dn_head e) = Z.of_nat (length (dn_name e)) /\ de_filetype (dn_head e) = dn_type e.
Proof.
  intros He. pose proof (dn_head_ok e He) as Hok. destruct He as (Hi & Ht & Hn & Hl & _ & Hr).
  unfold de_inode, de_direntlen, le32_to_cpu, le16_to_cpu.
  rewrite swab32_be32, swab16_be16 by done.
  split_and!; [| |done|done].
  - change (u8 (dn_ino e) + u8 (dn_ino e / 256) * 256 + u8 (dn_ino e / 65536) * 65536
      + u8 (dn_ino e / 16777216) * 16777216 = dn_ino e). word_lia.
  - assert (0 <= dn_reclen e) by (unfold dn_reclen, SIZEOF_DIRENT; lia).
    change (u8 (dn_reclen e) + u8 (dn_reclen e / 256) * 256 = dn_reclen e). word_lia.
Qed.

(** ** Inodes *)

Lemma inode_at_eq vol sb isize ino :
  inode_at vol sb isize ino = slice vol (inode_pos vol sb isize ino) SIZEOF_INODE.
Proof. reflexivity. Qed.

Lemma inode_pos_eq vol sb isize ino :
  inode_pos vol sb isize ino =
    bg_inode_table_id (group_desc vol sb ((ino - 1) / sb_inodes_per_group sb)) * block_size sb
    + (ino - 1) mod sb_inodes_per_group sb * isize.
Proof. reflexivity. Qed.

Section Volume.
Context {F : Type} {FW : Firmware F}.
Context (I : F -> Prop) (p : part_t) (vol : list Z) {HV : Volume I p vol}.
Context (sb : list Z) (Hg : geometry_ok sb) (extra : Z) (Hx : 0 <= extra).
Context (Hmax : Z.of_nat (length vol) <= VOLUME_MAX).

Local Abbreviation bs := (block_size sb).
Local Abbreviation lg := (LOG2_EXT2_BLOCK_SIZE sb).
Local Abbreviation returns := (returns I p vol sb extra).

(** A block that starts on the volume has a sector number that does not wrap. *)
Lemma block_sector_bytes b :
  0 <= b -> b * bs < Z.of_nat (length vol) ->
  b < 4294967296 /\ shl32 b lg * SECTOR_SIZE = b * bs.
Proof.
  intros Hb Hlen. pose proof (block_size_range sb Hg) as Hbs.
  pose proof (block_size_sectors sb Hg) as Hs. unfold VOLUME_MAX in Hmax.
  change (2 ^ 41) with 2199023255552 in Hmax.
  assert (b < 4294967296) by nia. split; [done|].
  pose proof (log2_ext2_eq sb Hg). unfold geometry_ok in Hg.
  rewrite <- Hs in *. unfold SECTOR_SIZE in *. rewrite shl32_small; nia.
Qed.

Lemma returns_blockgroup g :
  0 <= g < 4294967296 -> 0 <= sb_first_data_block sb ->
  group_pos sb g + SIZEOF_GROUP < Z.of_nat (length vol) ->
  returns (ext2fs_blockgroup sb g) (group_desc vol sb g).
Proof.
  intros Hgr Hfd Hpos. pose proof (block_size_range sb Hg) as Hbs.
  pose proof (pow2_16_mod4 (sb_log2_block_size sb) Hg) as _.
  unfold ext2fs_blockgroup. rewrite (ext2_block_size_eq sb Hg), (u32_small bs) by lia.
  assert (Hd : bs = 32 * (bs / 32)).
  { unfold block_size, geometry_ok in *. replace (sb_log2_block_size sb + 10) with
      (5 + (sb_log2_block_size sb + 5)) by lia. rewrite Z.pow_add_r by lia.
    change (2 ^ 5) with 32. rewrite (Z.mul_comm 32 (2 ^ _)), Z.div_mul; lia. }
  unfold group_pos, SIZEOF_GROUP in *. set (dpb := bs / 32) in *.
  assert (0 < dpb) by lia. rewrite (u32_small g) by lia.
  pose proof (Z.div_mod g dpb ltac:(lia)). pose proof (Z.mod_pos_bound g dpb ltac:(lia)).
  assert (0 <= g / dpb) by (apply Z.div_pos; lia).
  apply returns_then. exists tt. split; [apply returns_nonzero; lia|].
  destruct (block_sector_bytes (sb_first_data_block sb + 1 + g / dpb)) as [Hb Hsec]; [lia|nia|].
  rewrite (u32_small (_ + 1 + _)), (u32_small (_ mod _ * 32)) by nia.
  unfold group_desc, group_pos, SIZEOF_GROUP.
  replace ((sb_first_data_block sb + 1) * bs + g * 32)
    with (shl32 (sb_first_data_block sb + 1 + g / dpb) lg * SECTOR_SIZE + g mod dpb * 32)
    by (rewrite Hsec; nia).
  apply (returns_data_read_ok I p vol sb extra); [apply u32_range|nia|lia|].
  rewrite Hsec. nia.
Qed.

(** The index of an inode within its block, computed from the inode number as a
    whole, is the index within its group's table. *)
Lemma mod_mod_divides a m n : 0 < n -> 0 < m -> m mod n = 0 -> (a mod m) mod n = a mod n.
Proof.
  intros Hn Hm Hd. pose proof (Z.div_mod m n ltac:(lia)) as E. rewrite Hd in E.
  pose proof (Z.div_mod a m ltac:(lia)) as Ea.
  rewrite Ea at 2. rewrite E at 2.
  replace (_ * (a / m) + a mod m) with (a mod m + (m / n * (a / m)) * n) by lia.
  by rewrite Z_mod_plus_full.
Qed.

Lemma returns_table_read tab idx isize ipb :
  0 <= tab -> bs = isize * ipb -> 0 < ipb -> 0 <= idx -> SIZEOF_INODE <= isize ->
  tab * bs + idx * isize + SIZEOF_INODE < Z.of_nat (length vol) ->
  returns
    (data_read_ok (shl32 (u32 (tab + idx / ipb)) lg) (u32 (idx mod ipb * isize)) SIZEOF_INODE)
    (slice vol (tab * bs + idx * isize) SIZEOF_INODE).
Proof.
  intros Htab Hd Hipb Hidx Hsz Hlen. pose proof (block_size_range sb Hg) as Hbs.
  unfold SIZEOF_INODE in *.
  pose proof (Z.div_mod idx ipb ltac:(lia)). pose proof (Z.mod_pos_bound idx ipb ltac:(lia)).
  assert (0 <= idx / ipb) by (apply Z.div_pos; lia).
  destruct (block_sector_bytes (tab + idx / ipb)) as [Hb Hsec]; [lia|nia|].
  rewrite (u32_small (tab + _)), (u32_small (_ mod _ * _)) by nia.
  replace (tab * bs + idx * isize)
    with (shl32 (tab + idx / ipb) lg * SECTOR_SIZE + idx mod ipb * isize) by (rewrite Hsec; nia).
  apply (returns_data_read_ok I p vol sb extra); [apply u32_range|nia|lia|].
  rewrite Hsec. nia.
Qed.

Lemma inode_table_nonneg g : 0 <= bg_inode_table_id (group_desc vol sb g).
Proof.
  apply swab32_range, be32_range, bytes_ok_slice, (vol_bytes (I := I) (p := p) (vol := vol)).
Qed.

Lemma read_inode_returns isize ino k s :
  fs_inv I p vol sb extra k s -> inode_size (fs_ext2 s) = isize ->
  inode_layout_ok sb isize -> inode_on vol sb isize ino ->
  exists s', ext2fs_read_inode sb ino s = (Ok (inode_at vol sb isize ino), s')
    /\ fs_inv I p vol sb extra k s'.
Proof.
  intros Hinv His (Hsz & Hdiv & Hipg & Hfill) (Hino & Hfd & Hgp & Hip).
  pose proof (block_size_range sb Hg) as Hbs. rewrite inode_at_eq.
  rewrite inode_pos_eq in Hip |- *.
  unfold ext2fs_read_inode. rewrite bind_gets, His.
  rewrite (s32_small (ino - 1)), (u32_small (ino - 1)), (ext2_block_size_eq sb Hg),
    (u32_small bs) by lia.
  assert (Hd : bs = isize * (bs / isize))
    by (unfold SIZEOF_INODE in *; pose proof (Z.div_mod bs isize ltac:(lia)); lia).
  assert (0 < bs / isize) by (unfold SIZEOF_INODE in *; nia).
  assert (Hg0 : 0 <= (ino - 1) / sb_inodes_per_group sb <= ino - 1)
    by (split; [apply Z.div_pos; lia|apply Z.div_le_upper_bound; nia]).
  pose proof (Z.mod_pos_bound (ino - 1) (sb_inodes_per_group sb) Hipg).
  rewrite Z.rem_mod_nonneg by lia.
  rewrite <- (mod_mod_divides (ino - 1) (sb_inodes_per_group sb) (bs / isize)); [|done..].
  match goal with |- exists s', ?c s = (Ok ?a, s') /\ _ => cut (returns c a); [by intros Hr; apply Hr|] end.
  apply returns_then. exists tt. split; [apply returns_nonzero; lia|].
  apply returns_then. eexists. split; [by apply returns_blockgroup; lia|].
  apply returns_then. exists tt. split; [apply returns_nonzero; unfold SIZEOF_INODE in *; lia|].
  apply returns_then. exists tt. split; [apply returns_nonzero; lia|].
  apply returns_table_read; [apply inode_table_nonneg|exact Hd|exact H|exact (proj1 H0)|exact Hsz|exact Hip].
Qed.

(** *** Reading a directory *)

Lemma content_prefix inode m n pos len :
  file_ok vol sb inode n -> 0 <= m <= n -> 0 <= pos -> 0 <= len -> pos + len <= m * bs ->
  slice (file_content vol sb inode m) pos len = slice (file_content vol sb inode n) pos len.
Proof.
  intros Hok Hm Hpos Hl Hlen. unfold file_content.
  replace n with (m + (n - m)) by lia. rewrite (seqZ_app 0 m) by lia.
  rewrite map_app, join_app, slice_app_l; [done|done|done|].
  assert (Hlm : Z.of_nat (length (file_content vol sb inode m)) = m * bs).
  2: { unfold file_content in Hlm. lia. }
  unfold file_content. clear Hlen pos Hpos len Hl.
  assert (Hf : forall fb, 0 <= fb < 0 + m -> Z.of_nat (length (file_block vol sb inode fb)) = bs).
  { intros. apply (file_block_length vol sb Hg inode n); [done|lia]. }
  assert (exists k, m = Z.of_nat k) as [k Hk] by (exists (Z.to_nat m); lia).
  clear Hok Hm. revert Hf. generalize 0. subst m. induction k as [|k IH]; intros lo Hf; [done|].
  rewrite seqZ_cons by lia. cbn [map]. change (mjoin (?x :: ?l)) with (x ++ mjoin l).
  rewrite length_app, Nat2Z.inj_add, Hf by lia.
  replace (Z.pred (Z.of_nat (S k))) with (Z.of_nat k) by lia. rewrite IH; [lia|].
  intros. apply Hf. lia.
Qed.

Lemma blocks_of_mono a b : a <= b -> blocks_of sb a <= blocks_of sb b.
Proof. intros. pose proof (block_size_range sb Hg). apply Z.div_le_mono; lia. Qed.

Lemma returns_read_dir node es pos len :
  nd_sb node = sb -> dir_has vol sb (nd_inode node) es ->
  0 <= pos -> 0 <= len -> pos + len <= i_size (nd_inode node) ->
  returns (ext2fs_read_file node pos len) (slice (mjoin (map enc_dentry es)) pos len).
Proof.
  intros Esb (Hes & Hsz & Hfit & Hok & Hnh & Hd) Hpos Hlen Hin.
  pose proof (block_size_range sb Hg) as Hbs.
  pose proof (blocks_of_mono (pos + len) (i_size (nd_inode node)) ltac:(lia)) as Hmono.
  assert (Hn0 : 0 <= blocks_of sb (pos + len)) by (apply Z.div_pos; lia).
  replace (slice _ pos len) with (read_spec vol sb (nd_inode node) pos
    (Z.min (i_size (nd_inode node)) len)).
  { apply (returns_read_file I p vol sb Hg extra Hx node pos len Esb Hpos Hlen).
    - lia.
    - rewrite Z.min_r by lia. lia.
    - rewrite Z.min_r by lia. intros fb Hfb. apply Hok. lia. }
  rewrite Z.min_r by lia. unfold read_spec, read_end.
  destruct (Z.ltb_spec (pos / bs) (blocks_of sb (pos + len))) as [Hlt|_]; cbn [andb].
  - assert (0 <= pos / bs) by (apply Z.div_pos; lia). rewrite Hnh by lia.
    rewrite <- Hd, slice_slice by lia. replace (pos + len - pos) with len by lia.
    apply content_prefix; [done|lia..|].
    pose proof (blocks_of_spec sb Hg pos len). lia.
  - rewrite <- Hd, slice_slice by lia. replace (pos + len - pos) with len by lia.
    apply content_prefix; [done|lia..|].
    pose proof (blocks_of_spec sb Hg pos len). lia.
Qed.

(** ** Scanning a directory *)

(** From every state that meets the invariant with [x] bytes of heap to spare,
    [c] ends with a result in [Q] and leaves [x'] bytes. *)
Definition runs {A} (x x' : Z) k (c : E F A) (Q : outcome quik_err_t A -> Prop) : Prop :=
  forall s, fs_inv I p vol sb x k s ->
    exists r s', c s = (r, s') /\ Q r /\ fs_inv I p vol sb x' k s'.

Definition okay {A} (Q : A -> Prop) (r : outcome quik_err_t A) : Prop :=
  exists a, r = Ok a /\ Q a.

Lemma runs_bind {A B} x x1 x' k (c : E F A) (f : A -> E F B) Q R :
  runs x x1 k c (okay Q) -> (forall a, Q a -> runs x1 x' k (f a) R) -> runs x x' k (c ≫= f) R.
Proof.
  intros Hc Hf s Hs. destruct (Hc s Hs) as (r & s1 & E1 & (a & -> & Ha) & H1).
  destruct (Hf a Ha s1 H1) as (r & s2 & E2 & Hr & H2).
  exists r, s2. by rewrite (bind_ok _ _ _ _ _ E1).
Qed.

Lemma runs_throw {A} x k e (Q : outcome quik_err_t A -> Prop) :
  Q (Err e) -> runs x x k (throw e) Q.
Proof. intros HQ s Hs. by exists (Err e), s. Qed.

Lemma runs_ret {A} x k (a : A) Q : Q (Ok a) -> runs x x k (mret a) Q.
Proof. intros HQ s Hs. by exists (Ok a), s. Qed.

Lemma runs_mono {A} x x' k (c : E F A) (Q R : outcome quik_err_t A -> Prop) :
  runs x x' k c Q -> (forall r, Q r -> R r) -> runs x x' k c R.
Proof. intros Hc H s Hs. destruct (Hc s Hs) as (r & s' & E & Hr & H'). eauto 6. Qed.

Lemma runs_returns {A B} x x' k (c : E F A) (f : A -> E F B) a R :
  Ext2Block.returns I p vol sb x c a -> runs x x' k (f a) R -> runs x x' k (c ≫= f) R.
Proof.
  intros Hc Hf s Hs. destruct (Hc k s Hs) as (s1 & E1 & H1).
  destruct (Hf s1 H1) as (r & s2 & E2 & Hr & H2).
  exists r, s2. by rewrite (bind_ok _ _ _ _ _ E1).
Qed.

Lemma runs_weaken {A} x x' y k (c : E F A) Q :
  runs x x' k c Q -> y <= x' -> runs x y k c Q.
Proof.
  intros Hc Hy s Hs. destruct (Hc s Hs) as (r & s' & E & Hr & H').
  exists r, s'. split_and!; [done..|]. destruct H' as (? & ? & ? & ? & ? & Hh).
  split_and!; try done. eapply heap_room_le; [exact Hh|lia].
Qed.

Lemma fs_inv_set_heap x x' k s h :
  fs_inv I p vol sb x k s ->
  heap_room (cache_cost sb (indir1 (fs_ext2 s)) + cache_cost sb (indir2 (fs_ext2 s)) + x') h ->
  fs_inv I p vol sb x' k (mk_fs (set_heap h (fs_m s)) (fs_part s) (fs_ext2 s)).
Proof. intros (Hc & HI & Hp & H1 & H2 & _) Hh. by split_and!. Qed.

Lemma cache_costs_nonneg (s : fs F) :
  0 <= cache_cost sb (indir1 (fs_ext2 s)) + cache_cost sb (indir2 (fs_ext2 s)).
Proof.
  pose proof (cache_cost_nonneg sb Hg (indir1 (fs_ext2 s))).
  pose proof (cache_cost_nonneg sb Hg (indir2 (fs_ext2 s))). lia.
Qed.

(** A node allocated. *)
Lemma runs_malloc_node x k :
  148 <= x -> runs x (x - 148) k (malloc_or SIZEOF_NODE ERR_NO_MEM) (okay (fun a => a <> 0)).
Proof.
  intros Hx' s Hs. pose proof Hs as (_ & _ & _ & _ & _ & Hh). pose proof (cache_costs_nonneg s).
  destruct (heap_room_malloc _ SIZEOF_NODE _ Hh) as (a & h' & E & Ha & Hh');
    [unfold SIZEOF_NODE, MALLOC_SIZE; lia|unfold SIZEOF_NODE; lia|].
  eexists (Ok a), _. split_and!.
  - unfold malloc_or, do_malloc, lm, zoom, mbind, M_bind. by rewrite E.
  - by exists a.
  - apply (fs_inv_set_heap x); [done|]. eapply heap_room_le; [exact Hh'|].
    unfold SIZEOF_NODE. lia.
Qed.

(** A node allocated and given back at once: the heap is as it was. *)
Lemma runs_node_freed {B} x x' k (f : E F B) Q :
  148 <= x -> runs x x' k f Q ->
  runs x x' k (a ← malloc_or SIZEOF_NODE ERR_NO_MEM; lm (do_free a);; f) Q.
Proof.
  intros Hx' Hf s Hs. pose proof Hs as (_ & _ & _ & _ & _ & base & Hok & Hroom).
  pose proof (cache_costs_nonneg s). unfold SIZEOF_NODE.
  destruct (malloc 140 (m_heap (fs_m s))) as [r h'] eqn:E.
  pose proof (malloc_eq base 140 _ Hok ltac:(unfold MALLOC_SIZE; lia)) as E'.
  destruct (Z.leb_spec (malloc_end (m_heap (fs_m s))) (malloc_ptr (m_heap (fs_m s)) + 140 + 4)); [lia|].
  rewrite E in E'. injection E' as -> Eh.
  pose proof (malloc_heap_ok base 140 _ _ _ Hok ltac:(unfold MALLOC_SIZE; lia) E) as Hok'.
  pose proof Hok as (Hb & _ & _ & _ & Hp & _).
  destruct (free_malloc_ptr base 140 _ _ _ Hok ltac:(unfold MALLOC_SIZE; lia) E) as [F1 F2].
  set (q := malloc_ptr (m_heap (fs_m s)) + 4) in *.
  destruct (Hf (mk_fs (set_heap (free q h') (fs_m s)) (fs_part s) (fs_ext2 s))) as (r & s' & Er & HQ & H').
  - apply (fs_inv_set_heap x); [done|]. exists base. split; [|by rewrite F1, F2].
    apply free_heap_ok; [done|unfold q; lia].
  - exists r, s'. split_and!; [|done..]. rewrite <- Er.
    unfold malloc_or, do_malloc, lm, zoom, mbind, M_bind. by rewrite E.
Qed.

Lemma runs_ext {A} x x' k (c c' : E F A) Q :
  (forall s, c s = c' s) -> runs x x' k c' Q -> runs x x' k c Q.
Proof. intros He Hc s Hs. rewrite He. by apply Hc. Qed.

(** *** The two reads of an entry *)

Section Scan.
Context (node : ext2fs_node) (es : list dentry).
Context (Esb : nd_sb node = sb) (Hdir : dir_has vol sb (nd_inode node) es).

(** The offset of the entry after [es1]. *)
Definition entry_pos (es1 : list dentry) : Z := Z.of_nat (length (mjoin (map enc_dentry es1))).

Lemma entry_pos_snoc es1 e : entry_pos (es1 ++ [e]) = entry_pos es1 + dn_reclen e.
Proof.
  unfold entry_pos. rewrite map_app, join_app, length_app, Nat2Z.inj_add. f_equal.
  rewrite <- enc_dentry_length. cbn [map mjoin list_join]. by rewrite app_nil_r.
Qed.

Lemma entry_pos_split es1 e es2 :
  entry_pos (es1 ++ e :: es2) = entry_pos es1 + dn_reclen e + entry_pos es2.
Proof.
  unfold entry_pos. rewrite map_app, join_app, length_app, Nat2Z.inj_add.
  change (mjoin (map enc_dentry (e :: es2))) with (enc_dentry e ++ mjoin (map enc_dentry es2)).
  rewrite length_app, Nat2Z.inj_add, enc_dentry_length. lia.
Qed.

Lemma entry_bounds es1 e es2 :
  es = es1 ++ e :: es2 -> 0 <= entry_pos es1 /\ dn_reclen e >= SIZEOF_DIRENT
    /\ entry_pos es1 + dn_reclen e <= i_size (nd_inode node) /\ i_size (nd_inode node) < 4294967296.
Proof.
  intros Hes. destruct Hdir as (_ & Hsz & Hfit & _). pose proof (block_size_range sb Hg).
  fold (entry_pos es) in Hsz. rewrite Hes, entry_pos_split in Hsz.
  unfold dn_reclen, SIZEOF_DIRENT in *. unfold entry_pos in *. lia.
Qed.

Lemma returns_read_object pos n room :
  0 <= pos -> 0 <= n <= room -> pos + n <= i_size (nd_inode node) ->
  returns (read_object node pos n room)
    (overlay (replicate (Z.to_nat room) (u8 uninit_word)) (slice (mjoin (map enc_dentry es)) pos n)).
Proof.
  intros Hpos Hn Hin. unfold read_object.
  eapply returns_bind; [by apply (returns_read_dir node es); try lia|].
  assert (Hl : Z.of_nat (length (slice (mjoin (map enc_dentry es)) pos n)) = n).
  { destruct Hdir as (_ & Hsz & _). apply slice_length; lia. }
  unfold fits. rewrite Hl. destruct (Z.leb_spec n room); [|lia]. apply returns_ret.
Qed.

Lemma dir_bytes_split es1 e es2 :
  es = es1 ++ e :: es2 ->
  mjoin (map enc_dentry es)
  = mjoin (map enc_dentry es1) ++ dn_head e ++ dn_name e ++ dn_pad e ++ mjoin (map enc_dentry es2).
Proof.
  intros ->. rewrite map_app, join_app. f_equal.
  change (mjoin (map enc_dentry (e :: es2))) with (enc_dentry e ++ mjoin (map enc_dentry es2)).
  by rewrite enc_dentry_eq, <- !app_assoc.
Qed.

Lemma returns_read_head es1 e es2 :
  es = es1 ++ e :: es2 ->
  returns (read_object node (entry_pos es1) SIZEOF_DIRENT SIZEOF_DIRENT)
    (dn_head e).
Proof.
  intros Hes. pose proof (entry_bounds es1 e es2 Hes) as (H1 & H2 & H3 & H4).
  assert (Hh : length (dn_head e) = 8%nat) by done.
  pose proof (returns_read_object (entry_pos es1) 8 8 H1 ltac:(lia)) as Hr.
  rewrite (dir_bytes_split es1 e es2 Hes) in Hr.
  rewrite slice_mid, overlay_full in Hr by done. apply Hr. unfold SIZEOF_DIRENT in *. lia.
Qed.

Lemma returns_read_name es1 e es2 :
  es = es1 ++ e :: es2 ->
  returns
    (read_object node (u32 (entry_pos es1 + SIZEOF_DIRENT)) (Z.of_nat (length (dn_name e)))
       (Z.of_nat (length (dn_name e)) + 1))
    (dn_name e ++ [u8 uninit_word]).
Proof.
  intros Hes. pose proof (entry_bounds es1 e es2 Hes) as (H1 & H2 & H3 & H4).
  assert (Hrl : dn_reclen e >= SIZEOF_DIRENT + Z.of_nat (length (dn_name e)))
    by (unfold dn_reclen; lia).
  unfold SIZEOF_DIRENT in *. rewrite u32_small by lia.
  pose proof (returns_read_object (entry_pos es1 + 8) (Z.of_nat (length (dn_name e)))
    (Z.of_nat (length (dn_name e)) + 1) ltac:(lia) ltac:(lia) ltac:(lia)) as Hr.
  rewrite (dir_bytes_split es1 e es2 Hes), app_assoc in Hr.
  rewrite slice_mid in Hr; [|rewrite length_app, Nat2Z.inj_add; done|done].
  unfold overlay in Hr. rewrite drop_replicate in Hr.
  replace (Z.to_nat (Z.of_nat (length (dn_name e)) + 1) - length (dn_name e))%nat with 1%nat in Hr by lia.
  apply Hr.
Qed.

(** What a lookup of [name] gives: a new node for the first entry of that name. *)
Definition found (es : list dentry) (name : cstr) (r : outcome quik_err_t (ext2fs_node * Z)) : Prop :=
  match dir_lookup es name with
  | Some e => exists a, a <> 0 /\
      r = Ok (mk_node a sb (replicate 128 0) (dn_ino e) false, dirent_type (dn_type e))
  | None => r = Err ERR_FS_NOT_FOUND
  end.

Lemma runs_entry x' k e (g : ext2fs_node * Z -> E F (ext2fs_node * Z)) Q :
  dentry_ok e ->
  runs extra x' k
    (a ← malloc_or SIZEOF_NODE ERR_NO_MEM;
     g (mk_node a sb (replicate 128 0) (dn_ino e) false, dirent_type (dn_type e))) Q ->
  runs extra x' k (dirent_node node (dn_head e) ≫= g) Q.
Proof.
  intros He. destruct (dn_head_fields e He) as (F1 & F2 & F3 & F4). destruct He as (Hi & Ht & _).
  apply runs_ext. intros s. unfold dirent_node. rewrite bind_assoc, F1, F4, Esb.
  destruct (Z.eqb_spec (dn_type e) FILETYPE_UNKNOWN) as [E0|_]; [unfold FILETYPE_UNKNOWN in E0; lia|].
  rewrite s32_small by lia. done.
Qed.

Lemma runs_iterate k name es1 es2 fuel :
  148 <= extra -> cstr_ok name -> es = es1 ++ es2 -> (length es2 < fuel)%nat ->
  runs extra (extra - 148) k (iterate_loop fuel node (Some name) (entry_pos es1)) (found es2 name).
Proof.
  intros Hroom Hname. revert es1 fuel. induction es2 as [|e es2 IH]; intros es1 fuel Hes Hfuel;
    (destruct fuel as [|fuel]; [simpl in Hfuel; lia|]); cbn [iterate_loop].
  { destruct Hdir as (_ & Hsz & _). fold (entry_pos es) in Hsz. rewrite Hes, app_nil_r in Hsz.
    destruct (Z.ltb_spec (entry_pos es1) (i_size (nd_inode node))); [lia|].
    eapply runs_weaken; [by apply runs_throw|lia]. }
  pose proof (entry_bounds es1 e es2 Hes) as (B1 & B2 & B3 & B4). unfold SIZEOF_DIRENT in B2.
  assert (He : dentry_ok e).
  { destruct Hdir as (Hf & _). rewrite Hes in Hf. apply Forall_app in Hf as [_ Hf].
    by apply Forall_cons in Hf as [Hf _]. }
  destruct (dn_head_fields e He) as (F1 & F2 & F3 & F4).
  destruct (Z.ltb_spec (entry_pos es1) (i_size (nd_inode node))); [|lia].
  eapply runs_returns; [by apply (returns_read_head es1 e es2)|].
  rewrite F2, F3, u32_small by lia. rewrite <- entry_pos_snoc.
  assert (Hes' : es = (es1 ++ [e]) ++ es2) by (by rewrite <- app_assoc).
  specialize (IH (es1 ++ [e]) fuel Hes' ltac:(simpl in Hfuel; lia)).
  unfold found. cbn [dir_lookup].
  destruct (Z.eqb_spec (Z.of_nat (length (dn_name e))) 0) as [_|Hlen]; [exact IH|cbn [negb andb]].
  eapply runs_returns; [by apply (returns_read_name es1 e es2)|]. apply runs_entry; [done|].
  rewrite Nat2Z.id, take_app_length. pose proof He as (_ & _ & Hok & _).
  rewrite until_nul_name by done.
  destruct (bool_decide_reflect (dn_name e = name)) as [->|Hne].
  - rewrite strcmp_refl. change (0 =? 0) with true. cbv iota.
    eapply runs_bind; [by apply runs_malloc_node|]. intros a Ha. apply runs_ret. by exists a.
  - destruct (Z.eqb_spec (strcmp (dn_name e) name) 0) as [E0|_].
    { by apply strcmp_eq in E0. }
    by apply runs_node_freed.
Qed.

Lemma runs_iterate_dir k name fuel :
  148 <= extra -> cstr_ok name -> (length es < fuel)%nat -> nd_inode_read node = true ->
  runs extra (extra - 148) k (ext2fs_iterate_dir fuel node (Some name)) (found es name).
Proof.
  intros Hroom Hname Hfuel Hread. unfold ext2fs_iterate_dir, node_inode. rewrite Hread.
  apply (runs_ext _ _ _ _ (iterate_loop fuel node (Some name) (entry_pos []))).
  { intros s. rewrite bind_ret, <- Hread. by destruct node. }
  by apply runs_iterate.
Qed.

End Scan.

End Volume.

(** ** Following a path *)

Lemma path_split_comp c s :
  chr "/" ∉ c -> path_split (c ++ chr "/" :: s) = (c, Some (skip_slashes s)).
Proof.
  induction c as [|x c IH]; intros Hc; simpl.
  - done.
  - apply not_elem_of_cons in Hc as [Hx Hc]. destruct (Z.eqb_spec x (chr "/")); [done|].
    by rewrite IH.
Qed.

Lemma path_split_last c : chr "/" ∉ c -> path_split c = (c, None).
Proof.
  induction c as [|x c IH]; intros Hc; [done|]. simpl.
  apply not_elem_of_cons in Hc as [Hx Hc]. destruct (Z.eqb_spec x (chr "/")); [done|].
  by rewrite IH.
Qed.

Lemma path_of_head c cs : comp_ok c -> exists x t, path_of (c :: cs) = x :: t /\ x <> chr "/".
Proof.
  intros (_ & Hne & Hs). destruct c as [|x c]; [done|]. apply not_elem_of_cons in Hs as [Hx _].
  destruct cs; simpl; eauto.
Qed.

Lemma skip_slashes_path c cs : comp_ok c -> skip_slashes (path_of (c :: cs)) = path_of (c :: cs).
Proof.
  intros Hc. destruct (path_of_head c cs Hc) as (x & t & -> & Hx). simpl.
  by destruct (Z.eqb_spec x (chr "/")).
Qed.

Lemma path_of_split c cs :
  Forall comp_ok (c :: cs) ->
  path_split (path_of (c :: cs)) = (c, match cs with [] => None | _ => Some (path_of cs) end).
Proof.
  intros [(_ & _ & Hs) Hcs]%Forall_cons. destruct cs as [|c' cs].
  - by apply path_split_last.
  - apply Forall_cons in Hcs as [Hc' _].
    change (path_of (c :: c' :: cs)) with (c ++ chr "/" :: path_of (c' :: cs)).
    by rewrite path_split_comp, skip_slashes_path.
Qed.

Section Walk.
Context {F : Type} {FW : Firmware F}.
Context (I : F -> Prop) (p : part_t) (vol : list Z) {HV : Volume I p vol}.
Context (sb : list Z) (Hg : geometry_ok sb).
Context (Hmax : Z.of_nat (length vol) <= VOLUME_MAX).
Context (isize : Z) (Hlay : inode_layout_ok sb isize).

Local Abbreviation runs := (runs I p vol sb).

(** The node stands for the directory whose inode is [dinode]. *)
Definition node_is (node : ext2fs_node) (dinode : list Z) : Prop :=
  nd_sb node = sb /\ nd_addr node <> 0 /\
  if nd_inode_read node then nd_inode node = dinode
  else inode_on vol sb isize (nd_ino node) /\ dinode = inode_at vol sb isize (nd_ino node).

Lemma runs_scan_node x k node dinode es name dfuel :
  148 <= x -> snd k = isize -> node_is node dinode -> dir_has vol sb dinode es ->
  cstr_ok name -> (length es < dfuel)%nat ->
  runs x (x - 148) k (ext2fs_iterate_dir dfuel node (Some name)) (found sb es name).
Proof.
  intros Hx Hk (Esb & Ha & Hnode) Hdir Hname Hfuel. unfold ext2fs_iterate_dir, node_inode.
  assert (Hx0 : 0 <= x) by lia.
  assert (Hscan : runs x (x - 148) k
    (iterate_loop dfuel (mk_node (nd_addr node) (nd_sb node) dinode (nd_ino node)
       (nd_inode_read node)) (Some name) 0) (found sb es name)).
  { by apply (runs_iterate I p vol sb Hg x Hx0
      (mk_node (nd_addr node) (nd_sb node) dinode (nd_ino node) (nd_inode_read node))
      es Esb Hdir k name [] es). }
  destruct (nd_inode_read node).
  - eapply runs_ext; [intros s; by rewrite bind_ret|]. by rewrite Hnode.
  - destruct Hnode as [Hon ->]. rewrite Esb in *. intros s Hs.
    assert (His : inode_size (fs_ext2 s) = isize).
    { destruct Hs as (Hc & _). rewrite <- Hk, <- Hc. done. }
    destruct (read_inode_returns I p vol sb Hg x Hmax isize (nd_ino node) k s Hs His Hlay Hon)
      as (s1 & E1 & H1).
    destruct (Hscan s1 H1) as (r & s2 & E2 & Hr & H2). exists r, s2.
    by rewrite (bind_ok _ _ _ _ _ E1).
Qed.

Lemma runs_free_node x k a r :
  a <> 0 -> runs x x k (ext2fs_free_node a r) (okay (fun _ => True)).
Proof.
  intros Ha s Hs. unfold ext2fs_free_node. rewrite bind_gets.
  destruct (_ && _).
  - eexists (Ok tt), _. split_and!; [reflexivity|by exists tt|].
    apply (fs_inv_set_heap I p vol sb x); [done|].
    destruct Hs as (_ & _ & _ & _ & _ & Hh). by apply heap_room_free.
  - exists (Ok tt), s. split_and!; [done|by exists tt|done].
Qed.

(** The result of a walk, as the loop returns it. *)
Definition walk_result (w : quik_err_t + dentry)
    (r : outcome quik_err_t (ext2fs_node * option Z)) : Prop :=
  match w with
  | inl err => r = Err err
  | inr e => exists a, a <> 0 /\
      r = Ok (mk_node a sb (replicate 128 0) (dn_ino e) false, Some (dirent_type (dn_type e)))
  end.

Lemma runs_bind_err {A B} x x' k (c : E F A) (f : A -> E F B) e Q :
  runs x x' k c (fun r => r = Err e) -> Q (Err e) -> runs x x' k (c ≫= f) Q.
Proof.
  intros Hc HQ s Hs. destruct (Hc s Hs) as (r & s1 & E1 & -> & H1).
  exists (Err e), s1. by rewrite (bind_err _ _ _ _ _ E1).
Qed.

(** One component that is found and is no symbolic link: the loop goes on with
    the node of the entry. *)
Lemma runs_find_step x x' k dfuel fuel c cs node root dinode es e Q :
  148 <= x -> snd k = isize -> Forall comp_ok (c :: cs) -> node_is node dinode ->
  dir_has vol sb dinode es -> (length es < dfuel)%nat -> dir_lookup es c = Some e ->
  dirent_type (dn_type e) <> FILETYPE_SYMLINK ->
  (forall a, a <> 0 ->
     let n := mk_node a sb (replicate 128 0) (dn_ino e) false in
     runs (x - 148) x' k
       match cs with
       | [] => mret (n, Some (dirent_type (dn_type e)))
       | _ => find_loop dfuel fuel (path_of cs) n (dirent_type (dn_type e)) root
       end Q) ->
  runs x x' k (find_loop dfuel (S fuel) (path_of (c :: cs)) node FILETYPE_DIRECTORY root) Q.
Proof.
  intros Hx Hk Hcs Hnode Hdir Hfuel Hlook Hsym Hrest. cbn [find_loop].
  rewrite path_of_split by done. change (negb (FILETYPE_DIRECTORY =? FILETYPE_DIRECTORY)) with false.
  cbv iota. pose proof Hcs as [(Hc & _) Hcs']%Forall_cons.
  eapply runs_bind.
  { eapply runs_mono; [by eapply runs_scan_node|]. unfold found. rewrite Hlook.
    intros r (a & Ha & ->). eexists. split; [reflexivity|].
    instantiate (1 := fun nt => exists a, a <> 0 /\
      nt = (mk_node a sb (replicate 128 0) (dn_ino e) false, dirent_type (dn_type e))).
    by exists a. }
  intros nt (a & Ha & ->). destruct (Z.eqb_spec (dirent_type (dn_type e)) FILETYPE_SYMLINK); [done|].
  eapply runs_ext; [intros s; by rewrite bind_ret|].
  eapply runs_bind; [by apply runs_free_node, Hnode|]. intros _ _.
  specialize (Hrest a Ha). cbv zeta in Hrest. destruct cs as [|c' cs]; [exact Hrest|].
  apply Forall_cons in Hcs' as [Hc' _].
  destruct (path_of_head c' cs Hc') as (y & t & E & _). rewrite E in *. exact Hrest.
Qed.

Lemma runs_find_loop dfuel dinode comps w k :
  walk vol sb isize dfuel dinode comps w -> snd k = isize -> Forall comp_ok comps ->
  forall fuel x node root,
    (length comps <= fuel)%nat -> node_is node dinode -> 148 * Z.of_nat (length comps) <= x ->
    runs x (x - 148 * Z.of_nat (length comps)) k
      (find_loop dfuel fuel (path_of comps) node FILETYPE_DIRECTORY root) (walk_result w).
Proof.
  intros Hw Hk.
  induction Hw as [di es c cs Hdir Hf Hl|di es c e Hdir Hf Hl Hs|di es c c' cs e Hdir Hf Hl Hs Ht
                  |di es c c' cs e sub r Hdir Hf Hl Ht Hon Hsub Hw IH];
    intros Hcs fuel x node root Hfuel Hnode Hx; (destruct fuel as [|fuel]; [simpl in Hfuel; lia|]);
    cbn [length] in *.
  - apply (runs_weaken _ _ _ _ _ (x - 148)); [|lia].
    cbn [find_loop]. rewrite path_of_split by done.
    change (negb (FILETYPE_DIRECTORY =? FILETYPE_DIRECTORY)) with false. cbv iota.
    pose proof Hcs as [(Hc & _) _]%Forall_cons.
    apply (runs_bind_err _ _ _ _ _ ERR_FS_NOT_FOUND); [|done].
    eapply runs_mono; [by eapply runs_scan_node; first lia|]. unfold found. by rewrite Hl.
  - eapply runs_find_step; [lia|done|done|exact Hnode|exact Hdir|done|exact Hl|done|]. intros a Ha n.
    eapply runs_weaken; [apply runs_ret; by exists a|lia].
  - eapply runs_find_step; [lia|done|done|exact Hnode|exact Hdir|done|exact Hl|done|]. intros a Ha n.
    destruct fuel as [|fuel]; [simpl in Hfuel; lia|]. cbn [find_loop].
    apply Forall_cons in Hcs as [_ Hcs]. rewrite path_of_split by done.
    destruct (Z.eqb_spec (dirent_type (dn_type e)) FILETYPE_DIRECTORY); [done|]. cbn [negb].
    eapply runs_bind; [by apply runs_free_node|]. intros _ _.
    eapply runs_weaken; [by apply runs_throw|lia].
  - eapply runs_find_step;
      [lia|done|done|exact Hnode|exact Hdir|done|exact Hl|by rewrite Ht|]. intros a Ha n. rewrite Ht.
    apply Forall_cons in Hcs as [_ Hcs].
    replace (x - 148 * Z.of_nat (S (S (length cs))))
      with (x - 148 - 148 * Z.of_nat (S (length cs))) by lia.
    apply IH; [done|cbn [length]; lia| |cbn [length]; lia]. by split_and!.
Qed.

(** [ext2fs_find_file1] skips the slashes a path starts with. *)
Lemma runs_find_file1 dfuel dinode comps w k m fuel x root :
  walk vol sb isize dfuel dinode comps w -> snd k = isize -> Forall comp_ok comps ->
  (length comps <= fuel)%nat -> node_is root dinode -> 148 * Z.of_nat (length comps) <= x ->
  runs x (x - 148 * Z.of_nat (length comps)) k
    (ext2fs_find_file1 dfuel fuel (replicate m (chr "/") ++ path_of comps) root) (walk_result w).
Proof.
  intros Hw Hk Hcs Hfuel Hroot Hx. unfold ext2fs_find_file1.
  assert (Hne : exists c cs, comps = c :: cs) by (inversion Hw; eauto). destruct Hne as (c & cs & ->).
  pose proof Hcs as [Hc _]%Forall_cons.
  assert (Hskip : skip_slashes (replicate m (chr "/") ++ path_of (c :: cs)) = path_of (c :: cs)).
  { induction m as [|m IHm]; [by apply skip_slashes_path|exact IHm]. }
  rewrite Hskip. destruct (path_of_head c cs Hc) as (y & t & E & _).
  rewrite E, <- E. by eapply runs_find_loop.
Qed.

End Walk.
