(* ===== verification/Ext2Mount.v ===== *)
(** * Mounting a volume and opening a file

    The entry points of the ext2 driver on a well-formed volume: what
    [ext2fs_mount] leaves in the driver's statics, the file [ext2fs_open] finds,
    and the bytes [ext2fs_read] stores. *)
From Stdlib Require Import ZArith Lia Ascii.
From stdpp Require Import prelude strings gmap.
From S2P Require Import Prelude Quik CString Util Malloc Printf Machine Prom Part Ext2 Ext2Block.
From S2P Require Import Ext2File Ext2Tree.

#[local] Arguments u32 : simpl never.
#[local] Arguments s32 : simpl never.
#[local] Arguments shl32 : simpl never.
#[local] Arguments slice : simpl never.
#[local] Arguments Z.mul : simpl never.
#[local] Arguments Z.pow : simpl never.

(** ** Specification *)

(** The superblock: 204 bytes at offset 1024. *)
Definition volume_sb (vol : list Z) : list Z := slice vol 1024 SIZEOF_SBLOCK.

(** The size of an inode: fixed in revision 0, in the superblock from then on. *)
Definition sb_isize (sb : list Z) : Z :=
  if sb_revision_level sb =? 0 then 128 else sb_inode_size sb.

(** A volume that mounts: the superblock is there and has the magic number, and
    the root inode can be read. *)
Definition mountable (vol : list Z) : Prop :=
  let sb := volume_sb vol in
  1024 + SIZEOF_SBLOCK < Z.of_nat (length vol) <= VOLUME_MAX
  /\ sb_magic sb = EXT2_MAGIC /\ geometry_ok sb
  /\ inode_layout_ok sb (sb_isize sb) /\ inode_on vol sb (sb_isize sb) 2.

(** The root directory of a mounted volume, in the object at [a]. *)
Definition root_data (vol : list Z) (a : Z) : ext2_data :=
  let sb := volume_sb vol in
  mk_data a sb (mk_node (a + DIROPEN_OFFSET) sb (inode_at vol sb (sb_isize sb) 2) 2 true).

(** The error for an object of type [t] when one of type [et] is wanted. *)
Definition expect_err (et t : Z) : quik_err_t :=
  if (et =? FILETYPE_REG) && negb (t =? et) then ERR_FS_NOT_REG
  else if (et =? FILETYPE_DIRECTORY) && negb (t =? et) then ERR_FS_NOT_DIR
  else ERR_NONE.

(** What a lookup of a regular file makes of a walk. *)
Definition open_result (vol sb : list Z) (isize : Z) (w : quik_err_t + dentry)
  : outcome quik_err_t Z :=
  match w with
  | inl err => Err err
  | inr e =>
      if dirent_type (dn_type e) =? FILETYPE_REG then Ok (i_size (inode_at vol sb isize (dn_ino e)))
      else Err ERR_FS_NOT_REG
  end.

(** The first [n] bytes of a file, from offset [pos]. *)
Definition file_bytes (vol sb inode : list Z) (pos n : Z) : list Z :=
  slice (file_content vol sb inode (blocks_of sb (pos + n))) pos n.

(** ** Lemmas *)

Section Mount.
Context {F : Type} {FW : Firmware F}.
Context (I : F -> Prop) (p : part_t) (vol : list Z) {HV : Volume I p vol}.
Context (sb : list Z) (Hg : geometry_ok sb).

(** The state after an update of the driver's statics. *)
Definition upd (f : ext2_st -> ext2_st) (s : fs F) : fs F :=
  mk_fs (fs_m s) (fs_part s) (f (fs_ext2 s)).

(** Changing a static that is not a cache. *)
Lemma fs_inv_upd f x k k' s :
  (forall e, indir1 (f e) = indir1 e) -> (forall e, indir2 (f e) = indir2 e) ->
  (core s = k -> core (upd f s) = k') ->
  fs_inv I p vol sb x k s -> fs_inv I p vol sb x k' (upd f s).
Proof.
  intros H1 H2 H3 (Hk & HI & Hp & C1 & C2 & Hh). unfold fs_inv.
  rewrite (H3 Hk). unfold upd. cbn [fs_ext2 fs_m fs_part]. rewrite H1, H2. by split_and!.
Qed.

Local Ltac by_core :=
  apply fs_inv_upd; [done|done|];
  let C := fresh in intros C; unfold core, upd in *; simpl; congruence.

Lemma fs_inv_set_nest x pr bi r f nest isz n s :
  fs_inv I p vol sb x (pr, bi, r, f, nest, isz) s ->
  fs_inv I p vol sb x (pr, bi, r, f, n, isz) (upd (set_nest n) s).
Proof. by_core. Qed.

Lemma fs_inv_set_file x pr bi r f nest isz g s :
  fs_inv I p vol sb x (pr, bi, r, f, nest, isz) s ->
  fs_inv I p vol sb x (pr, bi, r, g, nest, isz) (upd (set_file g) s).
Proof. by_core. Qed.

Lemma fs_inv_set_root x pr bi r f nest isz d s :
  fs_inv I p vol sb x (pr, bi, r, f, nest, isz) s ->
  fs_inv I p vol sb x (pr, bi, d, f, nest, isz) (upd (set_root d) s).
Proof. by_core. Qed.

Lemma fs_inv_set_isize x pr bi r f nest isz z s :
  fs_inv I p vol sb x (pr, bi, r, f, nest, isz) s ->
  fs_inv I p vol sb x (pr, bi, r, f, nest, z) (upd (set_inode_size z) s).
Proof. by_core. Qed.

Lemma fs_inv_core x k s : fs_inv I p vol sb x k s -> core s = k.
Proof. by intros [? _]. Qed.

Lemma fs_inv_weaken x y k s :
  fs_inv I p vol sb x k s -> y <= x -> fs_inv I p vol sb y k s.
Proof.
  intros (Hk & HI & Hp & C1 & C2 & Hh) Hy. unfold fs_inv. split_and!; try done.
  eapply heap_room_le; [exact Hh|lia].
Qed.

Lemma malloc_data_inv x k s :
  fs_inv I p vol sb x k s -> SIZEOF_DATA + 8 <= x ->
  exists a s', malloc_or SIZEOF_DATA ERR_NO_MEM s = (Ok a, s') /\ 0 < a
    /\ fs_inv I p vol sb (x - (SIZEOF_DATA + 8)) k s'.
Proof.
  intros Hs Hx. pose proof Hs as (_ & _ & _ & _ & _ & Hh).
  pose proof (cache_costs_nonneg vol sb Hg s).
  destruct Hh as (base & Hok & Hn). pose proof Hok as (B1 & B2 & B3 & B4 & B5 & _).
  assert (HD : 0 <= SIZEOF_DATA <= MALLOC_SIZE) by (unfold SIZEOF_DATA, MALLOC_SIZE; lia).
  pose proof (malloc_eq base SIZEOF_DATA _ Hok HD) as E.
  destruct (Z.leb_spec (malloc_end (m_heap (fs_m s))) (malloc_ptr (m_heap (fs_m s)) + SIZEOF_DATA + 4));
    [unfold SIZEOF_DATA in *; lia|].
  destruct (heap_room_malloc _ SIZEOF_DATA _ (ex_intro _ base (conj Hok Hn)) HD)
    as (a & h' & E2 & _ & Hh'); [unfold SIZEOF_DATA in *; lia|].
  rewrite E2 in E. injection E as -> Eh.
  eexists _, _. split; [|split].
  - unfold malloc_or, do_malloc, lm, zoom, mbind, M_bind. by rewrite E2.
  - lia.
  - apply (fs_inv_set_heap I p vol sb x); [done|]. eapply heap_room_le; [exact Hh'|].
    unfold SIZEOF_DATA in *. lia.
Qed.

Lemma bind_on_ext2 {B} f (g : unit -> E F B) s :
  (on_ext2 f ≫= g) s = g tt (upd f s).
Proof. done. Qed.

(** A read into a local object, from a state that meets the invariant. *)
Lemma data_read_ok_inv x k s sector n :
  fs_inv I p vol sb x k s -> 0 <= x ->
  0 <= sector < 4294967296 -> 0 <= n < 4294967296 ->
  sector * SECTOR_SIZE + n < Z.of_nat (length vol) ->
  exists s', data_read_ok sector 0 n s = (Ok (slice vol (sector * SECTOR_SIZE) n), s')
    /\ fs_inv I p vol sb x k s'.
Proof.
  intros Hs Hx Hsec Hn Hlen.
  destruct (returns_data_read_ok I p vol sb x sector 0 n) with (k := k) (s := s)
    as (s' & E & Hs'); try done; try lia.
  exists s'. by rewrite Z.add_0_r in E.
Qed.

End Mount.

Section Entry.
Context {F : Type} {FW : Firmware F}.
Context (I : F -> Prop) (p : part_t) (vol : list Z) {HV : Volume I p vol}.

Local Abbreviation sb := (volume_sb vol).
Local Abbreviation isize := (sb_isize (volume_sb vol)).

Lemma mount_isize :
  (if negb (le32_to_cpu (if sb_revision_level sb =? 0 then 1 else 0) =? 0) then 128
   else sb_inode_size sb) = isize.
Proof. unfold sb_isize. by destruct (sb_revision_level sb =? 0). Qed.

(** A mount that succeeds. *)
Lemma mount_inv x pr bi r f nest isz s :
  mountable vol -> SIZEOF_DATA + 8 <= x ->
  fs_inv I p vol sb x (pr, bi, r, f, nest, isz) s ->
  exists a s', ext2fs_mount s = (Ok tt, s') /\ 0 < a
    /\ fs_inv I p vol sb (x - (SIZEOF_DATA + 8))
         (pr, bi, Some (root_data vol a), f, nest, isize) s'.
Proof.
  intros (Hlen & Hmagic & Hg & Hlay & Hroot) Hx Hs. set (x' := x - (SIZEOF_DATA + 8)).
  assert (Hx' : 0 <= x') by (unfold x'; lia).
  destruct (malloc_data_inv I p vol sb Hg x _ s Hs Hx) as (a & s1 & E1 & Ha & H1).
  destruct (data_read_ok_inv I p vol sb x' _ s1 2 SIZEOF_SBLOCK H1)
    as (s2 & E2 & H2); try (unfold SIZEOF_SBLOCK, SECTOR_SIZE in *; lia).
  change (2 * SECTOR_SIZE) with 1024 in E2.
  pose proof (fs_inv_set_isize I p vol sb _ _ _ _ _ _ _ isize s2 H2) as H3.
  destruct (read_inode_returns I p vol sb Hg x' (proj2 Hlen) isize 2 _ _ H3)
    as (s4 & E4 & H4); [done|exact Hlay|exact Hroot|].
  exists a, (upd (set_root (Some (root_data vol a))) s4).
  split; [|split; [exact Ha|by apply (fs_inv_set_root I p vol sb _ _ _ r)]].
  unfold ext2fs_mount. rewrite (bind_ok _ _ _ _ _ E1).
  rewrite (bind_ok _ _ _ (inr tt) (upd (set_root (Some (root_data vol a))) s4)); [done|].
  unfold attempt, mount_steps. rewrite (bind_ok _ _ _ _ _ E2). fold (volume_sb vol).
  rewrite Hmagic, Z.eqb_refl. cbn [negb]. rewrite mount_isize, bind_on_ext2.
  by rewrite (bind_ok _ _ _ _ _ E4).
Qed.

Section Open.
Context (Hm : mountable vol).

(** [ext2fs_find_file] from the root of a mounted volume. *)
Lemma find_file_inv dfuel fuel m comps w x pr bi r f nest s a et :
  walk vol sb isize dfuel (inode_at vol sb isize 2) comps w -> Forall comp_ok comps ->
  (length comps <= fuel)%nat -> 148 * Z.of_nat (length comps) <= x -> 0 < a ->
  fs_inv I p vol sb x (pr, bi, r, f, nest, isize) s ->
  exists o s', ext2fs_find_file dfuel fuel (replicate m (chr "/") ++ path_of comps)
      (d_diropen (root_data vol a)) et s = (o, s')
    /\ fs_inv I p vol sb (x - 148 * Z.of_nat (length comps)) (pr, bi, r, f, 0, isize) s'
    /\ match w with
       | inl err => o = Err err
       | inr e => exists b, b <> 0 /\
           o = Ok (mk_node b sb (replicate 128 0) (dn_ino e) false,
                   expect_err et (dirent_type (dn_type e)))
       end.
Proof.
  intros Hw Hcs Hfuel Hx Ha Hs. destruct Hm as (Hlen & Hmagic & Hg & Hlay & Hroot).
  pose proof (fs_inv_set_nest I p vol sb _ _ _ _ _ _ _ 0 s Hs) as H1.
  assert (Hn : node_is vol sb isize (d_diropen (root_data vol a)) (inode_at vol sb isize 2)).
  { unfold node_is, root_data. cbn [d_diropen nd_sb nd_addr nd_inode_read nd_inode].
    split_and!; [done|unfold DIROPEN_OFFSET; lia|done]. }
  destruct (runs_find_file1 I p vol sb Hg (proj2 Hlen) isize Hlay dfuel _ comps w
    (pr, bi, r, f, 0, isize) m fuel x _ Hw eq_refl Hcs Hfuel Hn Hx _ H1) as (o & s2 & E & Ho & H2).
  unfold ext2fs_find_file. rewrite bind_on_ext2.
  destruct w as [err|e]; simpl in Ho.
  - subst o. eexists _, s2. by rewrite (bind_err _ _ _ _ _ E).
  - destruct Ho as (b & Hb & ->). eexists _, s2. rewrite (bind_ok _ _ _ _ _ E).
    split_and!; [done|done|]. by exists b.
Qed.

(** [free] never fails. *)
Lemma fail_result {A} (n c : Z) err (s : fs F) :
  exists s', (ext2fs_free_node n c;; throw (A := A) err) s = (Err err, s').
Proof.
  unfold ext2fs_free_node. rewrite bind_assoc, bind_gets.
  by destruct (_ && _); eexists.
Qed.

Lemma open_inv dfuel fuel m comps e x pr bi a f nest s :
  walk vol sb isize dfuel (inode_at vol sb isize 2) comps (inr e) -> Forall comp_ok comps ->
  (length comps <= fuel)%nat -> 148 * Z.of_nat (length comps) <= x -> 0 < a ->
  dirent_type (dn_type e) = FILETYPE_REG -> inode_on vol sb isize (dn_ino e) ->
  fs_inv I p vol sb x (pr, bi, Some (root_data vol a), f, nest, isize) s ->
  exists b s', ext2fs_open dfuel fuel (replicate m (chr "/") ++ path_of comps) s
      = (Ok (i_size (inode_at vol sb isize (dn_ino e))), s')
    /\ fs_inv I p vol sb (x - 148 * Z.of_nat (length comps))
         (pr, bi, Some (root_data vol a),
          Some (mk_node b sb (inode_at vol sb isize (dn_ino e)) (dn_ino e) false), 0, isize) s'.
Proof.
  intros Hw Hcs Hfuel Hx Ha Ht Hon Hs. pose proof Hm as (Hlen & Hmagic & Hg & Hlay & Hroot).
  assert (C : ext2fs_root (fs_ext2 s) = Some (root_data vol a))
    by exact (f_equal (fun k => k.1.1.1.2) (fs_inv_core _ _ _ _ _ _ _ Hs)).
  pose proof (fs_inv_set_file I p vol sb _ _ _ _ _ _ _ None s Hs) as H1.
  destruct (find_file_inv dfuel fuel m comps _ _ _ _ _ _ _ _ a FILETYPE_REG Hw Hcs Hfuel Hx Ha H1)
    as (o & s2 & E2 & H2 & b & Hb & ->).
  rewrite Ht in E2. change (expect_err _ _) with ERR_NONE in E2.
  destruct (read_inode_returns I p vol sb Hg _ (proj2 Hlen) isize (dn_ino e) _ s2 H2)
    as (s3 & E3 & H3);
    [exact (f_equal snd (fs_inv_core _ _ _ _ _ _ _ H2))|exact Hlay|exact Hon|].
  eexists b, (upd (set_file _) s3). split; [|by apply (fs_inv_set_file I p vol sb _ _ _ _ None)].
  unfold ext2fs_open. rewrite bind_gets, C, bind_on_ext2.
  rewrite (bind_ok _ _ _ (inr (mk_node b sb (replicate 128 0) (dn_ino e) false, ERR_NONE)) s2);
    [|unfold attempt; by rewrite E2].
  rewrite (bind_ok _ _ _ (inr (inode_at vol sb isize (dn_ino e))) s3); [done|].
  unfold attempt. rewrite (bind_ok _ _ _ tt s2) by (by destruct s2).
  unfold node_inode. cbn [nd_inode_read nd_sb nd_ino]. by rewrite E3.
Qed.

(** A lookup that fails, or that ends at something else than a regular file. *)
Lemma open_fails dfuel fuel m comps w x pr bi a f nest s :
  walk vol sb isize dfuel (inode_at vol sb isize 2) comps w -> Forall comp_ok comps ->
  (length comps <= fuel)%nat -> 148 * Z.of_nat (length comps) <= x -> 0 < a ->
  fs_inv I p vol sb x (pr, bi, Some (root_data vol a), f, nest, isize) s ->
  (forall e, w = inr e -> dirent_type (dn_type e) <> FILETYPE_REG) ->
  exists s', ext2fs_open dfuel fuel (replicate m (chr "/") ++ path_of comps) s
    = (open_result vol sb isize w, s').
Proof.
  intros Hw Hcs Hfuel Hx Ha Hs Hreg.
  assert (C : ext2fs_root (fs_ext2 s) = Some (root_data vol a))
    by exact (f_equal (fun k => k.1.1.1.2) (fs_inv_core _ _ _ _ _ _ _ Hs)).
  pose proof (fs_inv_set_file I p vol sb _ _ _ _ _ _ _ None s Hs) as H1.
  destruct (find_file_inv dfuel fuel m comps _ _ _ _ _ _ _ _ a FILETYPE_REG Hw Hcs Hfuel Hx Ha H1)
    as (o & s2 & E2 & H2 & Ho).
  unfold ext2fs_open. rewrite bind_gets, C, bind_on_ext2.
  destruct w as [err|e]; [subst o|destruct Ho as (b & Hb & ->)].
  - rewrite (bind_ok _ _ _ (inl err) s2); [apply fail_result|unfold attempt; by rewrite E2].
  - specialize (Hreg e eq_refl). apply Z.eqb_neq in Hreg.
    unfold open_result. rewrite Hreg.
    assert (Ex : expect_err FILETYPE_REG (dirent_type (dn_type e)) = ERR_FS_NOT_REG)
      by (unfold expect_err; by rewrite Hreg).
    rewrite Ex in E2. clear Ex.
    rewrite (bind_ok _ _ _ (inr (mk_node b sb (replicate 128 0) (dn_ino e) false, ERR_FS_NOT_REG)) s2);
      [|unfold attempt; by rewrite E2].
    rewrite (bind_ok _ _ _ (inl ERR_FS_NOT_REG) s2); [apply fail_result|by destruct s2].
Qed.

(** A read from the open file. *)
Lemma read_inv b ino inode x pr bi d nest isz s len :
  0 <= x -> 0 <= len -> 0 <= i_size inode ->
  Z.min (i_size inode) len + block_size sb < 4294967296 ->
  file_ok vol sb inode (blocks_of sb (Z.min (i_size inode) len)) ->
  fs_inv I p vol sb x (pr, bi, Some d, Some (mk_node b sb inode ino false), nest, isz) s ->
  exists s', ext2fs_read len s = (Ok (read_spec vol sb inode 0 (Z.min (i_size inode) len)), s')
    /\ fs_inv I p vol sb x (pr, bi, Some d, Some (mk_node b sb inode ino false), nest, isz) s'.
Proof.
  intros Hx Hlen Hsz Hfit Hok Hs. pose proof Hm as (_ & _ & Hg & _).
  assert (Cr : ext2fs_root (fs_ext2 s) = Some d)
    by exact (f_equal (fun k => k.1.1.1.2) (fs_inv_core _ _ _ _ _ _ _ Hs)).
  assert (Cf : ext2fs_file (fs_ext2 s) = Some (mk_node b sb inode ino false))
    by exact (f_equal (fun k => k.1.1.2) (fs_inv_core _ _ _ _ _ _ _ Hs)).
  destruct (returns_read_file I p vol sb Hg x Hx (mk_node b sb inode ino false) 0 len
    eq_refl (Z.le_refl 0) Hlen Hsz Hfit Hok _ s Hs) as (s' & E & Hs').
  exists s'. split; [|exact Hs']. unfold ext2fs_read. rewrite bind_gets, Cr, Cf. exact E.
Qed.

End Open.
End Entry.
