(* ===== verification/Ext2Demo.v ===== *)
(** * A small ext2 volume

    A volume of seventeen 1K blocks, laid out as mke2fs lays one out: superblock,
    group descriptor, inode table, a root directory with a subdirectory, a sparse
    file that needs its indirect block, and a short file.  The simulated firmware
    serves it as the second partition of a disk.  The theorems about the driver are
    applied to it. *)
From Stdlib Require Import ZArith Lia Ascii.
From stdpp Require Import prelude strings gmap.
From S2P Require Import Prelude Quik CString Util Malloc Printf Machine Prom Part Sim Ext2.
From S2P Require Import Ext2Block Ext2File Ext2Tree Ext2Mount.

(** ** Deciding the hypotheses *)

Lemma forall_seqZ (P : Z -> Prop) n :
  Forall P (seqZ 0 n) -> forall i, 0 <= i < n -> P i.
Proof. rewrite Forall_forall. intros H i Hi. apply H, elem_of_seqZ. lia. Qed.

(** Instance search is not to unfold the specifications. *)
#[export] Typeclasses Opaque readable map_readable file_ok dentry_ok inode_on inode_layout_ok
  geometry_ok comp_ok mountable dir_has.

#[global] Instance readable_dec vol sb b : Decision (readable vol sb b).
Proof. unfold readable. apply _. Defined.

#[global] Instance map_readable_dec vol sb inode fb : Decision (map_readable vol sb inode fb).
Proof. unfold map_readable. apply _. Defined.

Definition file_okb (vol sb inode : list Z) (n : Z) : bool :=
  bool_decide (Forall (fun fb =>
    map_readable vol sb inode fb
    /\ (hole vol sb inode fb = true \/ readable vol sb (block_map vol sb inode fb))) (seqZ 0 n)).

Lemma file_okb_ok vol sb inode n : file_okb vol sb inode n = true -> file_ok vol sb inode n.
Proof. intros H%bool_decide_eq_true. exact (forall_seqZ _ _ H). Qed.

#[global] Instance dentry_ok_dec e : Decision (dentry_ok e).
Proof. unfold dentry_ok. apply _. Defined.

Definition dir_hasb (vol sb dinode : list Z) (es : list dentry) : bool :=
  let size := i_size dinode in
  let n := blocks_of sb size in
  bool_decide (Forall dentry_ok es
    /\ size = Z.of_nat (length (mjoin (map enc_dentry es)))
    /\ size + 2 * block_size sb < 4294967296)
  && file_okb vol sb dinode n
  && bool_decide (Forall (fun fb => hole vol sb dinode fb = false) (seqZ 0 n))
  && bool_decide (slice (file_content vol sb dinode n) 0 size = mjoin (map enc_dentry es)).

Lemma dir_hasb_ok vol sb dinode es : dir_hasb vol sb dinode es = true -> dir_has vol sb dinode es.
Proof.
  unfold dir_hasb. rewrite !andb_true_iff, !bool_decide_eq_true.
  intros [[[(H1 & H2 & H3) H4%file_okb_ok] H5] H6].
  unfold dir_has. split_and!; try done. by apply forall_seqZ.
Qed.

#[global] Instance inode_on_dec vol sb isize ino : Decision (inode_on vol sb isize ino).
Proof. unfold inode_on. apply _. Defined.
#[global] Instance inode_layout_ok_dec sb isize : Decision (inode_layout_ok sb isize).
Proof. unfold inode_layout_ok. apply _. Defined.
#[global] Instance geometry_ok_dec sb : Decision (geometry_ok sb).
Proof. unfold geometry_ok. apply _. Defined.
#[global] Instance mountable_dec vol : Decision (mountable vol).
Proof. unfold mountable. apply _. Defined.
#[global] Instance comp_ok_dec c : Decision (comp_ok c).
Proof. unfold comp_ok. apply _. Defined.

(** ** The image *)

(** [l] followed by zeros up to [n] bytes. *)
Definition padded (n : Z) (l : list Z) : list Z := l ++ replicate (Z.to_nat n - length l) 0.

(** Fields at their offsets, in order. *)
Fixpoint layout (pos : Z) (fields : list (Z * list Z)) : list Z :=
  match fields with
  | [] => []
  | (off, bytes) :: fs =>
      replicate (Z.to_nat (off - pos)) 0 ++ bytes ++ layout (off + Z.of_nat (length bytes)) fs
  end.

Definition demo_super : list Z :=
  layout 0 [(20, enc_le32 1); (24, enc_le32 0); (40, enc_le32 16); (56, enc_le16 EXT2_MAGIC)].

Definition demo_inode (mode size : Z) (ptrs : list Z) : list Z :=
  padded 128 (layout 0 [(0, enc_le16 mode); (4, enc_le32 size);
                        (40, mjoin (map enc_le32 ptrs))]).

(** Inode 2 is the root, 11 the directory [etc], 12 the sparse file, 13 the
    short one. *)
Definition demo_inode_table : list Z :=
  padded 2048 (layout 0
    [(128, demo_inode 16877 1024 [7]); (1280, demo_inode 16877 1024 [8]);
     (1408, demo_inode 33188 14000 [9; 0; 0; 0; 0; 0; 0; 0; 0; 0; 0; 0; 10]);
     (1536, demo_inode 33188 22 [12])]).

Definition demo_last (e : dentry) (used : Z) : dentry :=
  mk_dentry (dn_ino e) (dn_type e) (dn_name e)
    (replicate (Z.to_nat (1024 - used - 8 - Z.of_nat (length (dn_name e)))) 0).

Definition demo_root : list dentry :=
  [ mk_dentry 2 2 (str ".") [0; 0; 0]; mk_dentry 2 2 (str "..") [0; 0];
    mk_dentry 11 2 (str "etc") [0];
    demo_last (mk_dentry 12 1 (str "big") []) 36 ].

Definition demo_etc : list dentry :=
  [ mk_dentry 11 2 (str ".") [0; 0; 0]; mk_dentry 2 2 (str "..") [0; 0];
    demo_last (mk_dentry 13 1 (str "quik.conf") []) 24 ].

Definition demo_conf : list Z := str "image = /boot/vmlinux" ++ [10].

Definition demo_image : list Z :=
  padded 1024 [] ++ padded 1024 demo_super ++ padded 1024 (layout 0 [(8, enc_le32 5)])
  ++ padded 2048 [] ++ demo_inode_table
  ++ mjoin (map enc_dentry demo_root) ++ mjoin (map enc_dentry demo_etc)
  ++ replicate 1024 65 ++ padded 1024 (layout 0 [(4, enc_le32 11)]) ++ replicate 1024 66
  ++ padded 1024 demo_conf ++ padded 4096 [].

(** ** The disk, the partition and the mounted file system *)

Definition demo_disk : list Z := replicate 1536 0 ++ demo_image ++ replicate 512 0.
Definition demo_disks : list (cstr * list Z) := [(str "hd", demo_disk)].
Definition demo_part : part_t :=
  mk_part 2 DISK0 1536 17408 PART_VALID (padded 512 (str "hd")).
Definition demo_vol : list Z := slice demo_disk 1536 17408.
Abbreviation demo_sb := (volume_sb demo_vol) (only parsing).

Definition demo_node (ino : Z) : ext2fs_node :=
  mk_node 0x500200 demo_sb (inode_at demo_vol demo_sb 128 ino) ino true.

Definition demo_data : ext2_data := mk_data 0x500004 demo_sb (demo_node 2).
Definition demo_ext2 : ext2_st := mk_ext2 (Some demo_data) None 0 indir_none indir_none 128.

(** Nothing mounted, and mounted. *)
Definition demo_cold : fs sim := mk_fs (sim_mach demo_disks) demo_part ext2_init.
Definition demo_fs : fs sim := mk_fs (sim_mach demo_disks) demo_part demo_ext2.

Lemma demo_volume : Volume (sim_has demo_disks) demo_part demo_vol.
Proof.
  apply disk_volume.
  - apply (sim_disk demo_disks 0 (str "hd")); [done|done|by_eval].
  - done.
  - done.
  - vm_compute. discriminate.
  - done.
Qed.

Lemma demo_geometry : geometry_ok demo_sb.
Proof. by_eval. Qed.

Lemma demo_layout : inode_layout_ok demo_sb 128.
Proof. by_eval. Qed.

Lemma demo_mountable : mountable demo_vol.
Proof. by_eval. Qed.

Lemma demo_vol_max : Z.of_nat (length demo_vol) <= VOLUME_MAX.
Proof. by_eval. Qed.

Lemma demo_room : heap_room (2 * 1024 + 16 + 2000) (m_heap (sim_mach demo_disks)).
Proof. exists MALLOC_BASE. by_eval. Qed.

Lemma demo_inv_at e :
  indir1 e = indir_none -> indir2 e = indir_none ->
  let s := mk_fs (sim_mach demo_disks) demo_part e in
  fs_inv (sim_has demo_disks) demo_part demo_vol demo_sb 2000 (core s) s.
Proof.
  intros E1 E2 s. unfold fs_inv, s. cbn [fs_ext2]. rewrite E1, E2.
  split_and!; try done. eapply heap_room_le; [apply demo_room|].
  replace (cache_cost demo_sb indir_none) with 1032; [lia|by vm_compute].
Qed.

Lemma demo_inv : fs_inv (sim_has demo_disks) demo_part demo_vol demo_sb 2000 (core demo_fs) demo_fs.
Proof. by apply demo_inv_at. Qed.

Lemma demo_cold_inv :
  fs_inv (sim_has demo_disks) demo_part demo_vol demo_sb 2000 (core demo_cold) demo_cold.
Proof. by apply demo_inv_at. Qed.

Lemma demo_node_sb ino : nd_sb (demo_node ino) = demo_sb.
Proof. unfold demo_node. cbn [nd_sb]. reflexivity. Qed.

(** A node of the volume, its inode read. *)
Lemma demo_node_is : node_is demo_vol demo_sb 128 (demo_node 2) (inode_at demo_vol demo_sb 128 2).
Proof. by split_and!. Qed.

Lemma demo_root_has : dir_has demo_vol demo_sb (inode_at demo_vol demo_sb 128 2) demo_root.
Proof. apply dir_hasb_ok. by vm_compute. Qed.

(** The file [/etc/quik.conf], reached from the root. *)
Lemma demo_walk :
  walk demo_vol demo_sb 128 8 (inode_at demo_vol demo_sb 128 2) [str "etc"; str "quik.conf"]
    (inr (demo_last (mk_dentry 13 1 (str "quik.conf") []) 24)).
Proof.
  eapply (walk_down _ _ _ _ _ demo_root).
  - apply dir_hasb_ok. by vm_compute.
  - simpl. lia.
  - by vm_compute.
  - by vm_compute.
  - by_eval.
  - done.
  - eapply (walk_here _ _ _ _ _ demo_etc).
    + apply dir_hasb_ok. by vm_compute.
    + simpl. lia.
    + by vm_compute.
    + by vm_compute.
Qed.
