(* ===== verification/Ext2Correct.v ===== *)
(** * Correctness of the ext2 driver

    The properties of the driver's operations on a well-formed volume, each with
    an application to the small volume of [Ext2Demo]. *)
From Stdlib Require Import ZArith Lia Ascii.
From stdpp Require Import prelude strings gmap.
From S2P Require Import Prelude Quik CString Util Malloc Printf Machine Prom Part Sim Ext2.
From S2P Require Import Ext2Block Ext2File Ext2Tree Ext2Mount Ext2Demo.

#[local] Arguments u32 : simpl never.
#[local] Arguments s32 : simpl never.
#[local] Arguments shl32 : simpl never.
#[local] Arguments slice : simpl never.
#[local] Arguments Z.mul : simpl never.
#[local] Arguments Z.pow : simpl never.

(** ** Lemmas *)

(** A read stores the bytes asked for and, when the last block is a hole, zeros
    up to the end of that block. *)
Lemma read_spec_bytes vol sb inode pos len :
  geometry_ok sb -> 0 <= pos -> 0 <= len -> file_ok vol sb inode (blocks_of sb (pos + len)) ->
  exists pad, read_spec vol sb inode pos len = file_bytes vol sb inode pos len ++ replicate pad 0
    /\ Z.of_nat pad < block_size sb
    /\ (hole vol sb inode (blocks_of sb (pos + len) - 1) = false -> pad = O)
    /\ (pos = 0 -> hole vol sb inode (blocks_of sb len - 1) = true ->
        pad = Z.to_nat (blocks_of sb len * block_size sb - len)).
Proof.
  intros Hg Hpos Hlen Hok. pose proof (block_size_range sb Hg) as Hbs.
  unfold read_spec, file_bytes, read_end. set (n := blocks_of sb (pos + len)) in *.
  assert (Hn : pos + len <= n * block_size sb < pos + len + block_size sb).
  { unfold n, blocks_of.
    pose proof (Z.div_mod (pos + len + block_size sb - 1) (block_size sb) ltac:(lia)).
    pose proof (Z.mod_pos_bound (pos + len + block_size sb - 1) (block_size sb) ltac:(lia)). lia. }
  destruct ((pos / block_size sb <? n) && hole vol sb inode (n - 1)) eqn:E.
  - apply andb_prop in E as [E1%Z.ltb_lt Eh].
    assert (0 <= pos / block_size sb) by (apply Z.div_pos; lia).
    exists (Z.to_nat (n * block_size sb - (pos + len))). split_and!; [|lia|congruence|].
    2: { intros ->. unfold n. by rewrite Z.add_0_l. }
    replace (n * block_size sb - pos) with (len + (n * block_size sb - (pos + len))) by lia.
    rewrite <- slice_app_split by lia. f_equal.
    replace (pos + len) with ((n - 1) * block_size sb + (pos + len - (n - 1) * block_size sb)) at 1 by lia.
    rewrite (content_block vol sb Hg) by (done || lia).
    unfold file_block. rewrite Eh. apply slice_zeros; lia.
  - exists O. split_and!; [|lia|done|].
    2: { intros -> Hh. rewrite Z.div_0_l in E by lia. unfold n in *. rewrite Z.add_0_l in *. rewrite Hh in E.
         destruct (Z.ltb_spec 0 (blocks_of sb len)); [done|]. nia. }
    rewrite app_nil_r. f_equal. lia.
Qed.

(** The zeros a read of a whole file stores past its last byte: to the end of the last
    block when that block is a hole, none otherwise. *)
Definition tail_zeros vol sb inode : Z :=
  let n := blocks_of sb (i_size inode) in
  if hole vol sb inode (n - 1) then n * block_size sb - i_size inode else 0.

Lemma round_up_range b n : 1024 <= b <= 65536 -> 0 <= n -> 0 <= (n + b - 1) / b * b - n < b.
Proof.
  intros Hb Hn. pose proof (Z.div_mod (n + b - 1) b ltac:(lia)). pose proof (Z.mod_pos_bound (n + b - 1) b ltac:(lia)). lia.
Qed.

Lemma read_spec_whole vol sb inode :
  geometry_ok sb -> 0 <= i_size inode -> file_ok vol sb inode (blocks_of sb (i_size inode)) ->
  read_spec vol sb inode 0 (i_size inode)
  = file_bytes vol sb inode 0 (i_size inode) ++ replicate (Z.to_nat (tail_zeros vol sb inode)) 0
  /\ 0 <= tail_zeros vol sb inode < block_size sb.
Proof.
  intros Hg Hlen Hok. pose proof (block_size_range sb Hg) as Hbs.
  destruct (read_spec_bytes vol sb inode 0 (i_size inode) Hg (Z.le_refl 0) Hlen Hok) as (pad & E & Hp & Hh & Hz).
  unfold tail_zeros. rewrite E. specialize (Hz eq_refl). rewrite Z.add_0_l in Hh.
  destruct (hole vol sb inode (blocks_of sb (i_size inode) - 1)); [|rewrite (Hh eq_refl); split; [done|lia]].
  rewrite (Hz eq_refl). split; [done|].
  unfold blocks_of. by apply round_up_range.
Qed.

Lemma i_size_range inode : bytes_ok inode -> 0 <= i_size inode < 4294967296.
Proof. intros H. by apply swab32_range, be32_range. Qed.

(** ** Properties *)

Section Properties.
Context {F : Type} {FW : Firmware F}.

(** C4: Mounting a volume, opening a path from its root and reading the size the
    open reports stores the bytes of the file the path names, as the inode table,
    the directories and the block map of the volume describe it, and nothing more
    unless the file's last block is a hole; the rest of that block is then stored as
    zeros, past the file's last byte. *)
Theorem mount_open_read (I : F -> Prop) p vol (HV : Volume I p vol) dfuel fuel m comps e x k s :
  let sb := volume_sb vol in
  let isize := sb_isize sb in
  let inode := inode_at vol sb isize (dn_ino e) in
  mountable vol ->
  walk vol sb isize dfuel (inode_at vol sb isize 2) comps (inr e) -> Forall comp_ok comps ->
  dirent_type (dn_type e) = FILETYPE_REG -> inode_on vol sb isize (dn_ino e) ->
  i_size inode + block_size sb < 4294967296 ->
  file_ok vol sb inode (blocks_of sb (i_size inode)) ->
  (length comps <= fuel)%nat ->
  SIZEOF_DATA + 8 + 148 * Z.of_nat (length comps) <= x -> fs_inv I p vol sb x k s ->
  exists s',
    (ext2fs_mount;; n ← ext2fs_open dfuel fuel (replicate m (chr "/") ++ path_of comps);
     ext2fs_read n) s
    = (Ok (file_bytes vol sb inode 0 (i_size inode)
           ++ replicate (Z.to_nat (tail_zeros vol sb inode)) 0), s')
    /\ 0 <= tail_zeros vol sb inode < block_size sb.
Proof.
  intros sb isize inode Hm Hw Hcs Ht Hon Hfit Hok Hfuel Hx Hs. pose proof Hm as (_ & _ & Hg & _).
  destruct k as [[[[[pr bi] r] f] nest] isz].
  destruct (mount_inv I p vol x pr bi r f nest isz s Hm ltac:(lia) Hs) as (a & s1 & E1 & Ha & H1).
  rewrite (bind_ok _ _ _ _ _ E1).
  destruct (open_inv I p vol Hm dfuel fuel m comps e (x - (SIZEOF_DATA + 8)) _ _ _ _ _ _
    Hw Hcs Hfuel ltac:(lia) Ha Ht Hon H1) as (b & s2 & E2 & H2).
  rewrite (bind_ok _ _ _ _ _ E2).
  assert (Hsz : 0 <= i_size inode).
  { apply i_size_range. unfold inode. rewrite inode_at_eq. apply bytes_ok_slice.
    by apply (@vol_bytes _ _ I p vol HV). }
  assert (Hx2 : 0 <= x - (SIZEOF_DATA + 8) - 148 * Z.of_nat (length comps)) by lia.
  destruct (read_inv I p vol Hm b (dn_ino e) inode _ _ _ _ _ _ _ (i_size inode) Hx2 Hsz Hsz
    ltac:(rewrite Z.min_id; exact Hfit) ltac:(rewrite Z.min_id; exact Hok) H2) as (s3 & E3 & _).
  rewrite Z.min_id in E3.
  destruct (read_spec_whole vol sb inode Hg Hsz Hok) as (Ep & Hpad).
  exists s3. split; [|exact Hpad]. by rewrite <- Ep.
Qed.


(** C14: The block lookup with its two cached indirect blocks gives the block the
    volume's block map names, from every state whose caches are valid, and keeps
    them valid: the caches are not observable. *)
Theorem read_block_cached (I : F -> Prop) p vol (HV : Volume I p vol) sb x k s node fb :
  geometry_ok sb -> nd_sb node = sb -> 0 <= x -> map_readable vol sb (nd_inode node) fb ->
  fs_inv I p vol sb x k s ->
  exists s', ext2fs_read_block node fb s = (Ok (block_map vol sb (nd_inode node) fb), s')
    /\ fs_inv I p vol sb x k s'.
Proof. intros Hg Esb Hx Hmap. by apply (returns_read_block I p vol sb Hg x Hx). Qed.

(** A block past the double indirect ones is refused with [ERR_FS_CORRUPT],
    and nothing is read or changed. *)
Theorem read_block_triple sb (s : fs F) node fb :
  geometry_ok sb -> nd_sb node = sb ->
  INDIRECT_BLOCKS + block_size sb / 4 * (block_size sb / 4 + 1) <= fb ->
  ext2fs_read_block node fb s = (Err ERR_FS_CORRUPT, s).
Proof.
  intros Hg <- Hfb. pose proof (block_size_range _ Hg) as Hbs. unfold ext2fs_read_block.
  rewrite (ext2_block_size_eq _ Hg), !Z.quot_div_nonneg by lia.
  assert (0 <= block_size (nd_sb node) / 4) by (apply Z.div_pos; lia).
  unfold INDIRECT_BLOCKS in *.
  destruct (Z.ltb_spec fb 0); [lia|]. destruct (Z.ltb_spec fb 12); [lia|].
  destruct (Z.ltb_spec fb (12 + block_size (nd_sb node) / 4)); [nia|].
  by destruct (Z.ltb_spec fb (12 + block_size (nd_sb node) / 4 * (block_size (nd_sb node) / 4 + 1)));
    [lia|].
Qed.

(** An inode number is resolved to the bytes of that inode: in the table its
    group descriptor names, at its index within the group. *)
Theorem read_inode_located (I : F -> Prop) p vol (HV : Volume I p vol) sb x isize ino k s :
  geometry_ok sb -> Z.of_nat (length vol) <= VOLUME_MAX -> fs_inv I p vol sb x k s ->
  inode_size (fs_ext2 s) = isize -> inode_layout_ok sb isize -> inode_on vol sb isize ino ->
  exists s', ext2fs_read_inode sb ino s
      = (Ok (slice vol (inode_pos vol sb isize ino) SIZEOF_INODE), s')
    /\ fs_inv I p vol sb x k s'.
Proof. intros Hg Hmax. rewrite <- inode_at_eq. by apply (read_inode_returns I p vol sb Hg x Hmax). Qed.

(** C13: The scan of a directory for a name ends and gives a node for the first
    entry that has the name, with the entry's inode number and type, or
    [ERR_FS_NOT_FOUND] when no entry has it. *)
Theorem scan_directory (I : F -> Prop) p vol (HV : Volume I p vol) sb isize x k s node dinode es
    name dfuel :
  geometry_ok sb -> Z.of_nat (length vol) <= VOLUME_MAX -> inode_layout_ok sb isize ->
  148 <= x -> inode_size (fs_ext2 s) = isize -> node_is vol sb isize node dinode ->
  dir_has vol sb dinode es -> cstr_ok name -> (length es < dfuel)%nat ->
  fs_inv I p vol sb x k s ->
  exists r s', ext2fs_iterate_dir dfuel node (Some name) s = (r, s')
    /\ fs_inv I p vol sb (x - 148) k s'
    /\ match dir_lookup es name with
       | Some e => exists a, a <> 0 /\
           r = Ok (mk_node a sb (replicate 128 0) (dn_ino e) false, dirent_type (dn_type e))
       | None => r = Err ERR_FS_NOT_FOUND
       end.
Proof.
  intros Hg Hmax Hlay Hx His Hn Hdir Hname Hfuel Hs.
  assert (Hk : snd k = isize) by (rewrite <- (fs_inv_core _ _ _ _ _ _ _ Hs); exact His).
  destruct (runs_scan_node I p vol sb Hg Hmax isize Hlay x k node dinode es name dfuel Hx Hk Hn Hdir
    Hname Hfuel s Hs) as (r & s' & E & Hr & Hs').
  exists r, s'. by split_and!.
Qed.

(** C12: A path without symbolic links is resolved component by component: opening
    it gives the size of the regular file at its end, or the error of the first
    component that is missing or is no directory, or [ERR_FS_NOT_REG]. *)
Theorem open_path (I : F -> Prop) p vol (HV : Volume I p vol) dfuel fuel m comps w x k s :
  let sb := volume_sb vol in
  let isize := sb_isize sb in
  mountable vol ->
  walk vol sb isize dfuel (inode_at vol sb isize 2) comps w -> Forall comp_ok comps ->
  match w with
  | inr e => dirent_type (dn_type e) = FILETYPE_REG -> inode_on vol sb isize (dn_ino e)
  | inl _ => True
  end ->
  (length comps <= fuel)%nat ->
  SIZEOF_DATA + 8 + 148 * Z.of_nat (length comps) <= x -> fs_inv I p vol sb x k s ->
  exists s', (ext2fs_mount;; ext2fs_open dfuel fuel (replicate m (chr "/") ++ path_of comps)) s
    = (open_result vol sb isize w, s').
Proof.
  intros sb isize Hm Hw Hcs Hon Hfuel Hx Hs.
  destruct k as [[[[[pr bi] r] f] nest] isz].
  destruct (mount_inv I p vol x pr bi r f nest isz s Hm ltac:(lia) Hs) as (a & s1 & E1 & Ha & H1).
  rewrite (bind_ok _ _ _ _ _ E1).
  assert ((exists e, w = inr e /\ dirent_type (dn_type e) = FILETYPE_REG)
    \/ forall e, w = inr e -> dirent_type (dn_type e) <> FILETYPE_REG) as [(e & -> & Ht)|Hn].
  { destruct w as [err|e]; [by right|].
    destruct (Z.eq_dec (dirent_type (dn_type e)) FILETYPE_REG) as [E|E]; [left; eauto|right].
    by intros e' [= <-]. }
  - destruct (open_inv I p vol Hm dfuel fuel m comps e (x - (SIZEOF_DATA + 8)) _ _ _ _ _ _
      Hw Hcs Hfuel ltac:(lia) Ha Ht (Hon Ht) H1) as (b & s2 & E2 & _).
    exists s2. rewrite E2. unfold open_result. by rewrite Ht.
  - apply (open_fails I p vol Hm dfuel fuel m comps w (x - (SIZEOF_DATA + 8)) _ _ a _ _ _
      Hw Hcs Hfuel ltac:(lia) Ha H1 Hn).
Qed.

(** A volume whose superblock has another magic number is refused with
    [ERR_FS_NOT_EXT2], and no root is left behind. *)
Theorem mount_not_ext2 (I : F -> Prop) p vol (HV : Volume I p vol) x k s :
  let sb := volume_sb vol in
  1024 + SIZEOF_SBLOCK < Z.of_nat (length vol) -> geometry_ok sb -> sb_magic sb <> EXT2_MAGIC ->
  SIZEOF_DATA + 8 <= x -> fs_inv I p vol sb x k s ->
  exists s', ext2fs_mount s = (Err ERR_FS_NOT_EXT2, s') /\ ext2fs_root (fs_ext2 s') = None.
Proof.
  intros sb Hlen Hg Hmagic Hx Hs. set (x' := x - (SIZEOF_DATA + 8)).
  destruct (malloc_data_inv I p vol sb Hg x _ s Hs Hx) as (a & s1 & E1 & Ha & H1).
  destruct (data_read_ok_inv I p vol sb x' _ s1 2 SIZEOF_SBLOCK H1)
    as (s2 & E2 & H2); try (unfold x', SIZEOF_DATA, SIZEOF_SBLOCK, SECTOR_SIZE in *; lia).
  change (2 * SECTOR_SIZE) with 1024 in E2.
  unfold ext2fs_mount. rewrite (bind_ok _ _ _ _ _ E1).
  rewrite (bind_ok _ _ _ (inl ERR_FS_NOT_EXT2) s2); [by eexists|].
  unfold attempt, mount_steps. rewrite (bind_ok _ _ _ _ _ E2). fold (volume_sb vol).
  by destruct (Z.eqb_spec (sb_magic (volume_sb vol)) EXT2_MAGIC).
Qed.

End Properties.

(** ** Witnesses: the volume of [Ext2Demo] *)

Section Witnesses.

Local Abbreviation I := (sim_has demo_disks).
Local Abbreviation inv := (fs_inv I demo_part demo_vol demo_sb 2000).
Local Abbreviation conf_entry := (demo_last (mk_dentry 13 1 (str "quik.conf") []) 24).

(** The file's last block is on the disk. *)
Lemma demo_conf_tail : tail_zeros demo_vol demo_sb (inode_at demo_vol demo_sb 128 13) = 0.
Proof. by vm_compute. Qed.

(** The bytes of the file are those of the configuration file, with nothing after them. *)
Example demo_conf_stored :
  file_bytes demo_vol demo_sb (inode_at demo_vol demo_sb 128 13) 0 (i_size (inode_at demo_vol demo_sb 128 13))
    ++ replicate (Z.to_nat (tail_zeros demo_vol demo_sb (inode_at demo_vol demo_sb 128 13))) 0 = demo_conf.
Proof. by vm_compute. Qed.

Lemma mount_open_read_witness :
  exists s', (ext2fs_mount;; n ← ext2fs_open 8 4 (str "/etc/quik.conf"); ext2fs_read n) demo_cold
    = (Ok demo_conf, s').
Proof.
  destruct (mount_open_read I demo_part demo_vol demo_volume 8 4 1 [str "etc"; str "quik.conf"]
    conf_entry 2000 (core demo_cold) demo_cold demo_mountable demo_walk) as (s' & E & _).
  - by_eval.
  - done.
  - by_eval.
  - by_eval.
  - apply file_okb_ok. by vm_compute.
  - simpl. lia.
  - vm_compute. discriminate.
  - exact demo_cold_inv.
  - exists s'. exact (eq_trans E (f_equal (fun b => (Ok b, s')) demo_conf_stored)).
Defined.

Local Abbreviation big := (nd_inode (demo_node 12)).


Lemma read_block_cached_witness :
  exists s', ext2fs_read_block (demo_node 12) 13 demo_fs
      = (Ok (block_map demo_vol demo_sb big 13), s')
    /\ inv (core demo_fs) s'.
Proof.
  refine (read_block_cached I demo_part demo_vol demo_volume demo_sb 2000 (core demo_fs) demo_fs
    (demo_node 12) 13 demo_geometry (demo_node_sb 12) _ _ demo_inv).
  - lia.
  - by_eval.
Defined.

Lemma read_block_triple_witness :
  ext2fs_read_block (demo_node 12) 65804 demo_fs = (Err ERR_FS_CORRUPT, demo_fs).
Proof.
  refine (read_block_triple demo_sb demo_fs (demo_node 12) 65804 demo_geometry (demo_node_sb 12) _). by_eval.
Defined.

Lemma read_inode_located_witness :
  exists s', ext2fs_read_inode demo_sb 12 demo_fs
      = (Ok (slice demo_vol (inode_pos demo_vol demo_sb 128 12) SIZEOF_INODE), s')
    /\ inv (core demo_fs) s'.
Proof.
  apply (read_inode_located I demo_part demo_vol demo_volume demo_sb 2000 128 12 (core demo_fs)
    demo_fs demo_geometry demo_vol_max demo_inv eq_refl demo_layout). by_eval.
Defined.

Lemma scan_directory_witness :
  exists r s', ext2fs_iterate_dir 8 (demo_node 2) (Some (str "big")) demo_fs = (r, s')
    /\ fs_inv I demo_part demo_vol demo_sb 1852 (core demo_fs) s'
    /\ exists a, a <> 0
       /\ r = Ok (mk_node a demo_sb (replicate 128 0) 12 false, FILETYPE_REG).
Proof.
  apply (scan_directory I demo_part demo_vol demo_volume demo_sb 128 2000 (core demo_fs) demo_fs
    (demo_node 2) (inode_at demo_vol demo_sb 128 2) demo_root (str "big") 8 demo_geometry
    demo_vol_max demo_layout).
  - lia.
  - done.
  - exact demo_node_is.
  - exact demo_root_has.
  - by_eval.
  - simpl. lia.
  - exact demo_inv.
Defined.

Lemma open_path_witness :
  exists s', (ext2fs_mount;; ext2fs_open 8 4 (str "/etc/quik.conf")) demo_cold
    = (open_result demo_vol demo_sb 128 (inr conf_entry), s').
Proof.
  apply (open_path I demo_part demo_vol demo_volume 8 4 1 [str "etc"; str "quik.conf"]
    (inr conf_entry) 2000 (core demo_cold) demo_cold demo_mountable demo_walk).
  - by_eval.
  - intros _. by_eval.
  - simpl. lia.
  - vm_compute. discriminate.
  - exact demo_cold_inv.
Defined.

(** A volume of zeros. *)
Definition blank_disk : list Z := replicate 4096 0.
Definition blank_part : part_t := mk_part 0 DISK0 512 3072 PART_VALID (padded 512 (str "hd")).
Definition blank_vol : list Z := slice blank_disk 512 3072.
Definition blank_fs : fs sim := mk_fs (sim_mach [(str "hd", blank_disk)]) blank_part ext2_init.

Lemma blank_volume : Volume (sim_has [(str "hd", blank_disk)]) blank_part blank_vol.
Proof.
  apply disk_volume; [|done|done|vm_compute; discriminate|done].
  apply (sim_disk [(str "hd", blank_disk)] 0 (str "hd")); [done|done|by_eval].
Qed.

Lemma blank_room : heap_room 5000 (m_heap (sim_mach [(str "hd", blank_disk)])).
Proof. exists MALLOC_BASE. by_eval. Qed.

Lemma blank_inv :
  fs_inv (sim_has [(str "hd", blank_disk)]) blank_part blank_vol (volume_sb blank_vol) 2000
    (core blank_fs) blank_fs.
Proof.
  unfold fs_inv. split_and!; try done. apply (heap_room_le _ _ _ blank_room). by_eval.
Qed.

Lemma mount_not_ext2_witness :
  exists s', ext2fs_mount blank_fs = (Err ERR_FS_NOT_EXT2, s') /\ ext2fs_root (fs_ext2 s') = None.
Proof.
  refine (mount_not_ext2 (sim_has [(str "hd", blank_disk)]) blank_part blank_vol blank_volume
    2000 (core blank_fs) blank_fs _ _ _ _ blank_inv).
  - by_eval.
  - by_eval.
  - by_eval.
  - vm_compute. discriminate.
Defined.

End Witnesses.
