(* ===== verification/Env.v ===== *)
(** * The boot environment (env.c)

    Where the loader was booted from: the device, partition and configuration
    file named by [/chosen/bootargs] or by the [boot-file] option, and the
    arguments left for the kernel.  The two buffers are kept as they were read:
    the words cut out of them are values of their own, and nothing reads the
    buffers again. *)
From Stdlib Require Import ZArith Lia Ascii.
From stdpp Require Import prelude strings.
From S2P Require Import Prelude Quik CString Util Malloc Printf Machine Prom.

Definition ENV_SZ : Z := 512.

(** ** Device paths *)

Definition env_dev_set_part (part : Z) (dp : env_dev_t) : env_dev_t :=
  mk_env_dev (device dp) part true.

Definition env_dev_is_valid (dp : env_dev_t) : quik_err_t :=
  match device dp with
  | None => ERR_ENV_CURRENT_BAD
  | Some _ => if part_valid dp then ERR_NONE else ERR_ENV_CURRENT_BAD
  end.

(** The error and the new [*cur_dev]. *)
Definition env_dev_update_from_default (def cur : env_dev_t) : quik_err_t * env_dev_t :=
  if decide (env_dev_is_valid def = ERR_NONE) then (ERR_NONE, def)
  else (ERR_ENV_DEFAULT_BAD, cur).

(** ** The environment strings *)

(** The device, from the first word of the string that was split: with none, or
    with ["--"], the one in [boot-file], unless a preboot script ran. *)
Definition env_select (preboot : bool) (word : option cstr) (file : cstr) : quik_err_t + cstr :=
  match word with
  | None => if preboot then inl ERR_ENV_PREBOOT_BAD else inr (chomp file)
  | Some dev =>
      if memcmp (dev ++ [0]) (str "--") 2 =? 0
      then if preboot then inl ERR_ENV_PREBOOT_BAD else inr (chomp file)
      else inr dev
  end.

(** The device cut at its colon, the partition and the configuration file. *)
Definition env_split (dev : cstr) : cstr * option (Z * cstr) :=
  match strchr dev (chr ":") with
  | None => (dev, None)
  | Some p =>
      let rest := tl p in
      ( take (length dev - length p) dev
      , Some (u32 (fst (strtol rest 0)),
              default (str "/etc/quik.conf") (strchr rest (chr "/"))) )
  end.

Section Env.
Context {F : Type} {FW : Firmware F}.

(** The string in a buffer: reading one that holds no NUL runs off its end. *)
Definition buf_str (b : list Z) : P F cstr :=
  if existsb (Z.eqb 0) b then mret (until_nul b) else undef OutOfBounds.

Definition set_env_bufs (a f : list Z) (b : boot_info_t) : boot_info_t :=
  mk_boot_info (bi_prom_entry b) (bi_prom_shim b) (bi_flags b) (config_file b) a f
    (default_dev b) (bootargs b) (pause_message b) (initrd_base b) (initrd_len b).
Definition set_bootargs_bi (args : option cstr) (b : boot_info_t) : boot_info_t :=
  mk_boot_info (bi_prom_entry b) (bi_prom_shim b) (bi_flags b) (config_file b)
    (of_bootargs_buf b) (of_bootfile_buf b) (default_dev b) args (pause_message b)
    (initrd_base b) (initrd_len b).
Definition set_config_file (c : option cstr) (b : boot_info_t) : boot_info_t :=
  mk_boot_info (bi_prom_entry b) (bi_prom_shim b) (bi_flags b) c
    (of_bootargs_buf b) (of_bootfile_buf b) (default_dev b) (bootargs b) (pause_message b)
    (initrd_base b) (initrd_len b).

Definition set_device (d : option cstr) (dp : env_dev_t) : env_dev_t :=
  mk_env_dev d (part dp) (part_valid dp).

Definition env_init : P F unit :=
  a ← do_malloc ENV_SZ;
  f ← do_malloc ENV_SZ;
  match a, f with
  | Some _, Some _ =>
      let fresh := replicate (Z.to_nat ENV_SZ) (u8 uninit_word) in
      ab ← prom_get_chosen (str "bootargs") fresh ENV_SZ;
      fb ← prom_get_options (str "boot-file") fresh ENV_SZ;
      on_bi (set_env_bufs ab fb);;
      args ← buf_str ab;
      file ← buf_str fb;
      printk (str "/chosen/bootargs = '%s'" ++ [10]) [KStr (Some args)];;
      printk (str "       boot-file = '%s'" ++ [10]) [KStr (Some file)];;
      preboot ← gets (fun m => has_flag (bi_flags (m_bi m)) WITH_PREBOOT);
      let '(word, rest) := word_split (Some (if preboot : bool then file else args)) in
      on_bi (fun b => set_bootargs_bi (Some rest) (set_default_dev (set_device word) b));;
      match env_select preboot word file with
      | inl err => throw err
      | inr dev =>
          let '(dev, pc) := env_split dev in
          on_bi (set_default_dev (set_device (Some dev)));;
          match pc with
          | None => mret tt
          | Some (n, cfg) =>
              on_bi (set_default_dev (env_dev_set_part n));;
              on_bi (set_config_file (Some cfg))
          end
      end
  | _, _ => throw ERR_NO_MEM
  end.

End Env.

(** ** Lemmas *)

Lemma word_split_word w args :
  w <> [] -> no_blank w -> word_split (Some (w ++ chr " " :: args)) = (Some w, chomp args).
Proof.
  intros Hw Hb. unfold word_split. destruct w as [|c w]; [done|].
  assert (Hc : c <> chr " ") by (intros ->; apply Hb; by left).
  rewrite <- app_comm_cons, chomp_id by done.
  change (c :: w ++ chr " " :: args) with ((c :: w) ++ chr " " :: args).
  by rewrite split_word_app.
Qed.

Lemma strchr_take (pre : cstr) c t : c ∉ pre ->
  take (length (pre ++ c :: t) - length (c :: t)) (pre ++ c :: t) = pre.
Proof.
  intros _. rewrite length_app.
  replace (length pre + length (c :: t) - length (c :: t))%nat with (length pre) by lia.
  by rewrite take_app_length.
Qed.
