(* ===== verification/File.v ===== *)
(** * Files by path (file.c)

    Path specifications [device:partno/path], and the operations on the file a
    path names: its length, its contents, the listing of a directory, and the
    commands built on them. *)
From Stdlib Require Import ZArith Lia Ascii.
From stdpp Require Import prelude strings.
From S2P Require Import Prelude Quik CString Util Malloc Printf Machine Prom Part Ext2 Env.

(** Rounds given to the loops whose end depends on the disk: partition map
    entries, directory entries, path components. *)
Record fuel_t := mk_fuel { f_map : nat; f_dir : nat; f_path : nat }.

(** ** Path specifications *)

Inductive spec_result : Type :=
| SpecPath (p : path_t)
| SpecEnv (e : quik_err_t)   (* the default device is not valid: the copy leaks *)
| SpecBad.                   (* [bad_path]: the copy is freed *)

(** The path after its device and partition: empty stands for the root. *)
Definition spec_fs_path (device : option cstr) (part : Z) (path : cstr) : spec_result :=
  if (byte_at path 0 =? chr "/") then SpecPath (mk_path device part path)
  else match path with
       | [] => SpecPath (mk_path device part (str "/"))
       | _ => SpecBad
       end.

Definition parse_spec (pathspec : cstr) (default_dev : env_dev_t) : spec_result :=
  let pathspec := chomp pathspec in
  match strchr pathspec (chr ":") with
  | None =>
      if decide (env_dev_is_valid default_dev = ERR_NONE)
      then spec_fs_path (device default_dev) (part default_dev) pathspec
      else SpecEnv (env_dev_is_valid default_dev)
  | Some colon =>
      let dev := take (length pathspec - length colon) pathspec in
      let rest := tl colon in
      if strlen dev =? 0 then SpecBad
      else
        let '(n, endp) := strtol rest 0 in
        if Nat.eqb endp 0 then SpecBad
        else spec_fs_path (Some dev) (u32 n) (drop endp rest)
  end.

Definition SIZEOF_PATH : Z := 12.

Section File.
Context {F : Type} {FW : Firmware F}.

(** The path and the address of the object that holds it. *)
Definition file_path (pathspec : cstr) (default_dev : env_dev_t) : P F (Z * path_t) :=
  p ← do_malloc (u32 (strlen pathspec + 1 + SIZEOF_PATH));
  match p with
  | None => throw ERR_NO_MEM
  | Some a =>
      match parse_spec pathspec default_dev with
      | SpecPath p => mret (a, p)
      | SpecEnv e => throw e
      | SpecBad => do_free a;; throw ERR_FS_PATH
      end
  end.

(** ** Files *)

Definition on_part {A} (c : M quik_err_t (mach F * part_t) A) : E F A :=
  zoom (fun s => (fs_m s, fs_part s)) (fun mp s => mk_fs (fst mp) (snd mp) (fs_ext2 s)) c.

Definition open_ext2 (k : fuel_t) (device : option cstr) (partno : Z) : E F unit :=
  old_was_mounted ← gets (fun s => has_flag (pt_flags (fs_part s)) PART_MOUNTED);
  dev ← of_option NullDeref device;
  on_part (part_open (f_map k) dev partno);;
  mounted ← gets (fun s => has_flag (pt_flags (fs_part s)) PART_MOUNTED);
  if mounted : bool then mret tt
  else
    (if old_was_mounted : bool then ext2fs_close else mret tt);;
    ext2fs_mount.

Definition file_len (k : fuel_t) (path : path_t) : E F Z :=
  open_ext2 k (p_device path) (p_part path);;
  ext2fs_open (f_dir k) (f_path k) (p_path path).

(** The bytes stored at the buffer. *)
Definition file_load (k : fuel_t) (path : path_t) : E F (list Z) :=
  open_ext2 k (p_device path) (p_part path);;
  size ← ext2fs_open (f_dir k) (f_path k) (p_path path);
  ext2fs_read size.

Definition file_ls (k : fuel_t) (path : path_t) : E F unit :=
  open_ext2 k (p_device path) (p_part path);;
  ext2fs_ls (f_dir k) (f_path k) (p_path path).

(** ** Commands *)

Definition get_default_dev : E F env_dev_t := gets (fun s => default_dev (m_bi (fs_m s))).

Definition fail_with {A} (err : quik_err_t) : E F A := throw err.

(** [if (err != ERR_NONE) return err;] *)
Definition echeck (err : quik_err_t) : E F unit :=
  if decide (err = ERR_NONE) then mret tt else throw err.

Definition file_cmd_dev (p : cstr) : E F unit :=
  if strlen p =? 0 then throw ERR_CMD_BAD_PARAM
  else
    d ← get_default_dev;
    '(_, path) ← lm (file_path p d);
    lm (on_bi (set_default_dev (fun d => env_dev_set_part (p_part path) (set_device (p_device path) d))));;
    d ← get_default_dev;
    echeck (env_dev_is_valid d).

(** [file_path], the error of an invalid default device renamed. *)
Definition cmd_path (p : cstr) : E F (Z * path_t) :=
  d ← get_default_dev;
  r ← attempt (lm (file_path p d));
  match r with
  | inr ap => mret ap
  | inl err =>
      throw (if decide (err = ERR_ENV_CURRENT_BAD) then ERR_ENV_DEFAULT_BAD else err)
  end.

(** Run [c], free [a], then return what [c] did. *)
Definition then_free {A} (a : Z) (c : E F A) : E F A :=
  r ← attempt c;
  lm (do_free a);;
  match r with inr v => mret v | inl err => throw err end.

(** When the buffer cannot be had the error returned is the one of [file_len],
    which is [ERR_NONE]. *)
Definition file_cmd_cat (k : fuel_t) (p : cstr) : E F unit :=
  if strlen p =? 0 then throw ERR_CMD_BAD_PARAM
  else
    '(a, path) ← cmd_path p;
    then_free a (
      len ← file_len k path;
      message ← lm (do_malloc len);
      match message with
      | None => mret tt
      | Some b =>
          then_free b (
            bytes ← file_load k path;
            lm (printk (str "%s") [KStr (Some (until_nul (take (Z.to_nat len) bytes)))]))
      end).

Definition file_cmd_ls (k : fuel_t) (args : cstr) : E F unit :=
  let args := if strlen args =? 0 then str "/" else args in
  '(a, path) ← cmd_path args;
  then_free a (
    lm (printk (str "Listing '%P'" ++ [10]) [KPath (Some path)]);;
    file_ls k path).

End File.

(** ** Lemmas *)

(** A device name: not empty, no colon, no blank in front. *)
Definition dev_ok (dev : cstr) : Prop := dev <> [] /\ (chr ":" ∉ dev) /\ hd 0 dev <> chr " ".

(** A path within a volume. *)
Definition fs_path_ok (path : cstr) : Prop := byte_at path 0 = chr "/".

Lemma strchr_colon (dev : cstr) rest : chr ":" ∉ dev ->
  strchr (dev ++ chr ":" :: rest) (chr ":") = Some (chr ":" :: rest)
  /\ take (length (dev ++ chr ":" :: rest) - length (chr ":" :: rest)) (dev ++ chr ":" :: rest) = dev.
Proof.
  intros Hd. split; [by apply strchr_app|]. by apply strchr_take.
Qed.

Lemma strtol_zero_slash t : strtol (chr "0" :: chr "/" :: t) 0 = (0, 1%nat).
Proof. reflexivity. Qed.

Lemma fs_path_cons path : fs_path_ok path -> exists t, path = chr "/" :: t.
Proof.
  unfold fs_path_ok. destruct path as [|c t]; [done|].
  change (byte_at (c :: t) 0) with c. intros ->. by exists t.
Qed.

(** What follows a printed number and is no part of it. *)
Definition number_ends (rest : cstr) : Prop :=
  match rest with [] => True | c :: _ => strtol_digit c = None end.

(** The number a path is printed with is read back, up to where it ends. *)
Lemma strtol_printed_ends n rest :
  0 <= n <= 0x7FFFFFFF -> number_ends rest -> strtol (printknu n 10 ++ rest) 0 = (n, length (printknu n 10)).
Proof.
  intros Hn Hr. assert (Hstop : stops 10 rest) by (destruct rest as [|c t]; [done|]; cbn in Hr |- *; by rewrite Hr).
  destruct (Z.eq_dec n 0) as [->|Hn0].
  { destruct rest as [|c t]; [reflexivity|]. cbn in Hr. change (printknu 0 10) with [chr "0"]. unfold strtol.
    change (strtol_blanks ([chr "0"] ++ c :: t)) with O. cbn [app]. change (byte_at (chr "0" :: c :: t) (Z.of_nat 0)) with (chr "0").
    change (chr "0" =? 0) with false. cbv iota. unfold strtol_prefix.
    change (byte_at (chr "0" :: c :: t) (Z.of_nat 0)) with (chr "0"). cbn [Z.ltb Z.compare Z.eqb orb Pos.eqb andb].
    change (chr "0" =? chr "-") with false. change (chr "0" =? chr "+") with false. cbn [orb].
    change (byte_at (chr "0" :: c :: t) (Z.of_nat 0) =? chr "0") with true. cbv iota. cbn [drop].
    assert (hex_prefix (chr "0" :: c :: t) = false) as ->.
    { unfold hex_prefix. change (byte_at (chr "0" :: c :: t) 1) with c.
      destruct (Z.eqb_spec c (chr "X")) as [->|]; [done|]. destruct (Z.eqb_spec c (chr "x")) as [->|]; [done|].
      by rewrite andb_false_r. }
    cbn [strtol_loop]. change (strtol_digit (chr "0")) with (Some 0). cbn. by rewrite Hr. }
  assert (Hd : n / 10 < 268435456) by (apply Z.div_lt_upper_bound; lia).
  destruct (printknu_spells n 10 ltac:(lia) ltac:(lia) Hd) as (ds & Hs & Hv & Hne).
  change (printknu n 10 ++ rest) with ([] ++ printknu n 10 ++ rest).
  rewrite (strtol_auto_decimal [] _ ds) by (try done; try constructor; apply printknu_head; lia).
  rewrite (strtol_digits 10 [] _ ds) by (done || lia || constructor).
  rewrite Hv. unfold saturate. f_equal. lia.
Qed.

Lemma strtol_printed n path :
  0 <= n <= 0x7FFFFFFF -> path = [] \/ fs_path_ok path ->
  strtol (printknu n 10 ++ path) 0 = (n, length (printknu n 10)).
Proof.
  intros Hn Hp. apply strtol_printed_ends; [done|].
  destruct Hp as [->|Hp]; [done|]. by destruct (fs_path_cons path Hp) as (t & ->).
Qed.
