(* ===== verification/EnvCorrect.v ===== *)
(** * Correctness of the boot environment and of path specifications

    The text forms a path takes: where the loader was booted from, as the firmware
    passes it, and the specifications a user types. *)
From Stdlib Require Import ZArith Lia Ascii.
From stdpp Require Import prelude strings.
From S2P Require Import Prelude Quik CString Util Malloc Printf Machine Prom Part Sim Ext2 Env File.

(** ** Specification *)

(** What the firmware stores for a string property, None for one it lacks. *)
Definition prop_bytes (s : option cstr) : list Z :=
  match s with Some s => s ++ [0] | None => [] end.
Definition prop_text (s : option cstr) : cstr := default [] s.
Definition prop_ok (s : option cstr) : Prop :=
  match s with Some s => cstr_ok s /\ Z.of_nat (length s) < ENV_SZ | None => True end.

(** The firmware has the two environment strings [args] and [file] and keeps them. *)
Class BootStrings {F} {FW : Firmware F} (I : F -> Prop) (chosen options : Z)
    (args file : option cstr) : Prop := {
  bs_write : write_closed I;
  bs_args_ok : prop_ok args;
  bs_file_ok : prop_ok file;
  bs_args f r f' :
    I f -> prom_entry (str "getprop") [AInt chosen; AStr (str "bootargs"); AInt ENV_SZ] 1 f = (r, f') ->
    I f' /\ r_buf r = prop_bytes args;
  bs_file f r f' :
    I f -> prom_entry (str "getprop") [AInt options; AStr (str "boot-file"); AInt ENV_SZ] 1 f = (r, f') ->
    I f' /\ r_buf r = prop_bytes file
}.

(** The environment the two strings describe: the kernel arguments, the device,
    and the partition and configuration file when they are named. *)
Definition env_outcome (preboot : bool) (args file : cstr)
  : quik_err_t + cstr * cstr * option (Z * cstr) :=
  let '(word, rest) := word_split (Some (if preboot then file else args)) in
  match env_select preboot word file with
  | inl e => inl e
  | inr dev => inr (rest, (env_split dev).1, (env_split dev).2)
  end.

(** [env_init] has recorded an environment. *)
Definition env_recorded (b : boot_info_t) (rest dev : cstr) (pc : option (Z * cstr)) : Prop :=
  bootargs b = Some rest /\ device (default_dev b) = Some dev
  /\ match pc with
     | Some (n, cfg) => part (default_dev b) = n /\ part_valid (default_dev b) = true
                        /\ config_file b = Some cfg
     | None => True
     end.

(** ** Lemmas *)

Lemma until_nul_prop s old :
  prop_ok s -> (0 < length old)%nat ->
  existsb (Z.eqb 0) (overlay (overlay old [0]) (take (Z.to_nat ENV_SZ) (prop_bytes s))) = true
  /\ until_nul (overlay (overlay old [0]) (take (Z.to_nat ENV_SZ) (prop_bytes s))) = prop_text s.
Proof.
  intros Hs Ho. destruct s as [s|]; cbn [prop_bytes prop_text default].
  - destruct Hs as [Hs Hl]. rewrite take_ge by (rewrite length_app; simpl; lia).
    unfold overlay at 1 3. rewrite <- app_assoc. split; [|by apply until_nul_app].
    by rewrite existsb_app; simpl; rewrite orb_true_r.
  - rewrite take_nil. by destruct old; [simpl in Ho; lia|].
Qed.

Section EnvFacts.
Context {F : Type} {FW : Firmware F}.
Implicit Types m : mach F.

Lemma getprop_string I chosen options args file `{!BootStrings I chosen options args file}
    (old : list Z) m node name s :
  (forall f r f', I f -> prom_entry (str "getprop") [AInt node; AStr name; AInt ENV_SZ] 1 f = (r, f') ->
     I f' /\ r_buf r = prop_bytes s) ->
  I (m_fw m) ->
  exists m', prom_getprop node name old ENV_SZ m
      = (Ok (overlay old (take (Z.to_nat ENV_SZ) (prop_bytes s))), m')
    /\ I (m_fw m') /\ same_but_io m m'.
Proof.
  intros Hp Hm. unfold prom_getprop, call_prom_ret, mbind, M_bind, mret, M_ret.
  destruct (prom_entry (str "getprop") _ 1 (m_fw m)) as [r f] eqn:E.
  destruct (Hp _ _ _ Hm E) as [Hf ->]. by exists (set_fw f m).
Qed.

Lemma buf_str_text (b : list Z) s m :
  existsb (Z.eqb 0) b = true -> until_nul b = s -> buf_str b m = (Ok s, m).
Proof. intros E <-. unfold buf_str. by rewrite E. Qed.

(** [env_init] as a function of the two strings. *)
Lemma env_init_run I chosen options args file `{!BootStrings I chosen options args file} n m :
  I (m_fw m) -> heap_room n (m_heap m) -> 2 * (ENV_SZ + 8) <= n ->
  prom_chosen (m_prom m) = chosen -> prom_options (m_prom m) = options -> options <> NOT_FOUND ->
  let out := env_outcome (has_flag (bi_flags (m_bi m)) WITH_PREBOOT) (prop_text args) (prop_text file) in
  exists m', env_init m = (match out with inl e => Err e | inr _ => Ok tt end, m')
    /\ (I (m_fw m') /\ m_prom m' = m_prom m /\ bi_flags (m_bi m') = bi_flags (m_bi m)
        /\ heap_room (n - 2 * (ENV_SZ + 8)) (m_heap m'))
    /\ match out with inl _ => True | inr (rest, dev, pc) => env_recorded (m_bi m') rest dev pc end.
Proof.
  intros Hm Hroom Hn Hch Hop Hne out. unfold env_init, ENV_SZ in *.
  destruct (do_malloc_room n 512 m Hroom ltac:(unfold MALLOC_SIZE; lia) ltac:(lia))
    as (a & h1 & E1 & _ & R1).
  rewrite (bind_ok _ _ _ _ _ E1).
  destruct (do_malloc_room _ 512 (set_heap h1 m) R1 ltac:(unfold MALLOC_SIZE; lia) ltac:(lia))
    as (b & h2 & E2 & _ & R2).
  rewrite (bind_ok _ _ _ _ _ E2). set (m2 := set_heap h2 _).
  set (fresh := replicate _ _).
  assert (Hfr : (0 < length fresh)%nat) by (unfold fresh; rewrite length_replicate; lia).
  destruct (until_nul_prop args fresh bs_args_ok Hfr) as [Xa Ya].
  destruct (until_nul_prop file fresh bs_file_ok Hfr) as [Xf Yf].
  unfold prom_get_chosen. rewrite bind_assoc, bind_gets. change (prom_chosen (m_prom m2)) with (prom_chosen (m_prom m)).
  rewrite Hch.
  destruct (getprop_string I chosen options args file (overlay fresh [0]) m2 chosen (str "bootargs") args)
    as (m3 & E3 & I3 & S3); [apply bs_args|done|].
  change 512 with ENV_SZ. rewrite (bind_ok _ _ _ _ _ E3).
  unfold prom_get_options. rewrite bind_assoc, bind_gets.
  assert (Ho3 : prom_options (m_prom m3) = options) by (destruct S3 as (-> & _); exact Hop).
  rewrite Ho3. destruct (Z.eqb_spec options NOT_FOUND) as [?|_]; [done|].
  destruct (getprop_string I chosen options args file (overlay fresh [0]) m3 options (str "boot-file") file)
    as (m4 & E4 & I4 & S4); [apply bs_file|done|].
  rewrite (bind_ok _ _ _ _ _ E4).
  set (ab := overlay _ _) in *. set (fb := overlay (overlay fresh [0]) (take _ (prop_bytes file))) in *.
  unfold on_bi. rewrite bind_modify. set (m5 := set_bi _ m4).
  rewrite (bind_ok _ _ _ _ _ (buf_str_text ab _ m5 Xa Ya)).
  rewrite (bind_ok _ _ _ _ _ (buf_str_text fb _ m5 Xf Yf)).
  destruct (quiet_printk I (str "/chosen/bootargs = '%s'" ++ [10]) [KStr (Some (prop_text args))] _
    bs_write eq_refl m5 I4) as (? & m6 & E6 & I6 & S6).
  rewrite (bind_ok _ _ _ _ _ E6).
  destruct (quiet_printk I (str "       boot-file = '%s'" ++ [10]) [KStr (Some (prop_text file))] _
    bs_write eq_refl m6 I6) as (? & m7 & E7 & I7 & S7).
  rewrite (bind_ok _ _ _ _ _ E7), bind_gets.
  assert (Hfl : bi_flags (m_bi m7) = bi_flags (m_bi m)).
  { destruct S7 as (_ & -> & _), S6 as (_ & -> & _). cbn [m_bi set_bi m5 bi_flags set_env_bufs].
    by destruct S4 as (_ & -> & _), S3 as (_ & -> & _). }
  assert (Hframe : I (m_fw m7) /\ m_prom m7 = m_prom m /\ bi_flags (m_bi m7) = bi_flags (m_bi m)
    /\ heap_room (n - 2 * (512 + 8)) (m_heap m7)).
  { split; [done|]. destruct S7 as (P7 & _ & H7), S6 as (P6 & _ & H6), S4 as (P4 & _ & H4), S3 as (P3 & _ & H3).
    rewrite P7, P6, H7, H6. cbn [m_prom m_heap m5 set_bi]. rewrite P4, P3, H4, H3. split_and!; try done.
    eapply heap_room_le; [exact R2|lia]. }
  rewrite Hfl. unfold out, env_outcome. generalize (has_flag (bi_flags (m_bi m)) WITH_PREBOOT).
  intros preboot. destruct (word_split _) as [word rest]. rewrite bind_modify.
  destruct (env_select preboot word (prop_text file)) as [e|dev].
  { eexists. split; [reflexivity|]. split; [|done]. exact Hframe. }
  destruct (env_split dev) as [d pc]. rewrite bind_modify. cbn [fst snd].
  destruct pc as [[q cfg]|]; eexists; (split; [reflexivity|]); (split; [exact Hframe|]); by split_and!.
Qed.


(** ** Specifications in text *)

(** [device:partition/path] as a user writes it: what ["%P"] prints. *)
Definition boot_path (dev : cstr) (n : Z) (path : cstr) : cstr :=
  dev ++ [chr ":"] ++ printknu n 10 ++ path.

(** The configuration file a boot path names. *)
Definition config_of (path : cstr) : cstr :=
  match path with [] => str "/etc/quik.conf" | _ => path end.

(** A boot path that is one word and not an option. *)
Definition boot_word (dev : cstr) (n : Z) (path : cstr) : Prop :=
  dev_ok dev /\ no_blank dev /\ hd 0 dev <> chr "-" /\ 0 <= n <= 0x7FFFFFFF
  /\ (path = [] \/ fs_path_ok path) /\ no_blank path.

Lemma printknu_chars n c :
  0 <= n <= 0x7FFFFFFF -> c ∈ printknu n 10 -> 48 <= c <= 57.
Proof.
  intros Hn Hc. destruct (printknu_spells n 10) as (ds & Hs & _ & _);
    [lia|lia|apply Z.div_lt_upper_bound; lia|].
  apply list_elem_of_lookup in Hc as (i & Hi).
  destruct (Forall2_lookup_l _ _ _ _ _ Hs Hi) as (d & _ & Hd & Hr).
  unfold strtol_digit in Hd. unfold_chr.
  destruct (Z.leb_spec 48 c), (Z.leb_spec c 57); simpl in Hd; [lia|..];
    destruct (Z.leb_spec 65 c), (Z.leb_spec c 90); simpl in Hd; try (injection Hd; lia);
    destruct (Z.leb_spec 97 c), (Z.leb_spec c 122); simpl in Hd; try (injection Hd; lia); done.
Qed.

Lemma env_split_path dev n path :
  boot_word dev n path -> env_split (boot_path dev n path) = (dev, Some (n, config_of path)).
Proof.
  intros ((_ & Hcol & _) & _ & _ & Hn & Hp & _). unfold env_split, boot_path. cbn [app].
  destruct (strchr_colon dev (printknu n 10 ++ path) Hcol) as [-> ->]. cbn [tl].
  rewrite strtol_printed, u32_small by (done || simpl; lia). do 3 f_equal.
  assert (Hs : chr "/" ∉ printknu n 10).
  { intros Hin%printknu_chars; [|done]. unfold_chr. lia. }
  destruct Hp as [->|Hp].
  - rewrite app_nil_r. by rewrite (proj2 (strchr_none (printknu n 10) (chr "/") ltac:(done)) Hs).
  - destruct (fs_path_cons path Hp) as (t & ->). by rewrite strchr_app.
Qed.

Lemma boot_path_word dev n path :
  boot_word dev n path ->
  no_blank (boot_path dev n path) /\ exists c t, boot_path dev n path = c :: t /\ c <> chr "-" /\ c <> chr " ".
Proof.
  intros ((Hne & _ & Hbl) & Hnb & Hm & Hn & _ & Hpb). split.
  - unfold no_blank, boot_path in *. rewrite !elem_of_app. intros [?|[Hi|[Hi|?]]]; try done.
    + apply list_elem_of_singleton in Hi. done.
    + apply printknu_chars in Hi; [|done]. revert Hi. unfold_chr. lia.
  - destruct dev as [|c dev]; [done|]. by exists c, (dev ++ [chr ":"] ++ printknu n 10 ++ path).
Qed.

Lemma env_select_word preboot c t file : c <> chr "-" -> env_select preboot (Some (c :: t)) file = inr (c :: t).
Proof.
  intros Hc. unfold env_select. cbn [memcmp app hd tl].
  assert (Hn : hd 0 (str "--") = chr "-") by reflexivity. rewrite Hn.
  destruct (Z.eqb_spec (c - chr "-") 0); [lia|].
  by destruct (Z.eqb_spec (c - chr "-") 0).
Qed.

Lemma printknu_cons n : 0 <= n <= 0x7FFFFFFF -> exists c t, printknu n 10 = c :: t.
Proof.
  intros Hn. destruct (Z.eq_dec n 0) as [->|]; [by eexists _, _|].
  destruct (printknu_spells n 10) as (ds & _ & _ & Hn2); [lia|lia|apply Z.div_lt_upper_bound; lia|].
  destruct (printknu n 10) as [|c t]; [done|]. by exists c, t.
Qed.

(** The specification of a boot path; without a path it names the root. *)
Lemma parse_boot_path dev n path d :
  dev_ok dev -> 0 <= n <= 0x7FFFFFFF -> path = [] \/ fs_path_ok path ->
  parse_spec (boot_path dev n path) d
  = SpecPath (mk_path (Some dev) n (match path with [] => str "/" | _ => path end)).
Proof.
  intros (Hne & Hcol & Hbl) Hn Hp. unfold parse_spec, boot_path.
  assert (Hch : chomp (dev ++ [chr ":"] ++ printknu n 10 ++ path)
                = dev ++ chr ":" :: printknu n 10 ++ path).
  { destruct dev as [|c dev]; [done|]. simpl in Hbl. by apply chomp_id. }
  cbn [app] in Hch |- *. rewrite Hch. destruct (strchr_colon dev (printknu n 10 ++ path) Hcol) as [-> ->]. cbn [tl].
  unfold strlen. destruct (Z.eqb_spec (Z.of_nat (length dev)) 0); [by destruct dev|].
  rewrite strtol_printed by auto.
  destruct (Nat.eqb_spec (length (printknu n 10)) 0) as [E|_].
  { destruct (Z.eq_dec n 0) as [->|]; [done|].
    destruct (printknu_spells n 10) as (ds & _ & _ & Hn2); [lia|lia|apply Z.div_lt_upper_bound; lia|].
    by destruct (printknu n 10). }
  rewrite drop_app_length, u32_small by lia. unfold spec_fs_path.
  destruct Hp as [->|Hp]; [done|]. rewrite (proj2 (Z.eqb_eq _ _) Hp).
  by destruct (fs_path_cons path Hp) as (t & ->).
Qed.

(** The block [file_path] asks for is there. *)
Lemma file_path_block base (spec : cstr) m :
  heap_ok base (m_heap m) -> strlen spec + 21 + (malloc_ptr (m_heap m) - base) < MALLOC_SIZE ->
  let size := u32 (strlen spec + 1 + SIZEOF_PATH) in
  let a := malloc_ptr (m_heap m) + 4 in
  0 <= size <= MALLOC_SIZE /\ a <> 0 /\ exists h,
    do_malloc size m = (Ok (Some a), set_heap h m) /\ malloc size (m_heap m) = (Some a, h)
    /\ malloc_ptr (m_heap m) < malloc_ptr h.
Proof.
  intros Hok Hsz size a. unfold strlen, SIZEOF_PATH in *.
  pose proof Hok as (K1 & K2 & K3 & K4 & K5 & _). unfold MALLOC_SIZE in *.
  assert (Es : size = Z.of_nat (length spec) + 1 + 12) by (apply u32_small; lia). clearbody size.
  assert (Hs : 0 <= size <= MALLOC_SIZE) by (unfold MALLOC_SIZE; lia).
  split; [done|]. split; [unfold a; lia|].
  pose proof (malloc_eq base size (m_heap m) Hok Hs) as E.
  destruct (Z.leb_spec (malloc_end (m_heap m)) (malloc_ptr (m_heap m) + size + 4)); [lia|].
  eexists. split; [unfold do_malloc; rewrite E; reflexivity|]. split; [exact E|].
  cbn [malloc_ptr]. Z.div_mod_to_equations. lia.
Qed.

Lemma file_path_run base spec d m p :
  heap_ok base (m_heap m) -> strlen spec + 21 + (malloc_ptr (m_heap m) - base) < MALLOC_SIZE ->
  parse_spec spec d = SpecPath p ->
  exists a h, file_path spec d m = (Ok (a, p), set_heap h m).
Proof.
  intros Hok Hsz Hp. destruct (file_path_block base spec m Hok Hsz) as (_ & _ & h & E & _).
  eexists _, h. unfold file_path. rewrite (bind_ok _ _ _ _ _ E), Hp. reflexivity.
Qed.

(** ** Properties *)

(** C10: Booted with [device:partition/config arguments] in [/chosen/bootargs], the
    loader takes device, partition and configuration file from the first word -
    [/etc/quik.conf] when it names none - and keeps the rest for the kernel. *)
Theorem env_from_bootargs I chosen options dev n path kargs file
    `{!BootStrings I chosen options (Some (boot_path dev n path ++ chr " " :: kargs)) file} m :
  boot_word dev n path ->
  I (m_fw m) -> heap_room 1100 (m_heap m) -> has_flag (bi_flags (m_bi m)) WITH_PREBOOT = false ->
  prom_chosen (m_prom m) = chosen -> prom_options (m_prom m) = options -> options <> NOT_FOUND ->
  exists m', env_init m = (Ok tt, m')
    /\ env_recorded (m_bi m') (chomp kargs) dev (Some (n, config_of path)).
Proof.
  intros Hw Hm Hroom Hpre Hch Hop Hne.
  destruct (env_init_run I chosen options _ file 1100 m Hm Hroom ltac:(done) Hch Hop Hne) as (m' & E & _ & R).
  exists m'. revert E R. rewrite Hpre. unfold env_outcome.
  change (prop_text (Some ?s)) with s.
  destruct (boot_path_word _ _ _ Hw) as (Hnb & c & t & Ep & Hc & Hcb).
  rewrite word_split_word by (done || by rewrite Ep).
  rewrite Ep, env_select_word, <- Ep, env_split_path by done. done.
Qed.

(** Booted without arguments, or with ["--"] in their place, the loader takes
    its boot path from the [boot-file] option. *)
Theorem env_from_boot_file I chosen options args dev n path bl
    `{!BootStrings I chosen options args (Some (bl ++ boot_path dev n path))} m :
  boot_word dev n path -> blanks bl ->
  (exists rest, word_split (Some (prop_text args)) = (None, rest))
    \/ (exists w rest, word_split (Some (prop_text args)) = (Some (str "--" ++ w), rest)) ->
  I (m_fw m) -> heap_room 1100 (m_heap m) -> has_flag (bi_flags (m_bi m)) WITH_PREBOOT = false ->
  prom_chosen (m_prom m) = chosen -> prom_options (m_prom m) = options -> options <> NOT_FOUND ->
  exists m' rest, env_init m = (Ok tt, m')
    /\ env_recorded (m_bi m') rest dev (Some (n, config_of path)).
Proof.
  intros Hw Hbl Hargs Hm Hroom Hpre Hch Hop Hne.
  destruct (env_init_run I chosen options args _ 1100 m Hm Hroom ltac:(done) Hch Hop Hne) as (m' & E & _ & R).
  exists m'. revert E R. rewrite Hpre. unfold env_outcome.
  change (prop_text (Some ?s)) with s.
  destruct (boot_path_word _ _ _ Hw) as (Hnb & c & t & Ep & Hc & Hcb).
  assert (Hcf : chomp (bl ++ boot_path dev n path) = boot_path dev n path).
  { rewrite Ep. clear -Hbl Hcb. induction Hbl as [|x bl -> Hbl IH]; simpl; [by apply chomp_id|done]. }
  destruct Hargs as [(rest & ->)|(w & rest & ->)]; unfold env_select; cbn [app str];
    rewrite ?Hcf; [|change (memcmp _ _ 2 =? 0) with true; cbv iota; rewrite ?Hcf];
    rewrite env_split_path by done; intros; by exists rest.
Qed.

(** C30: A path printed with ["%P"] and typed back is the same path: [file_path]'s
    parser undoes the printer, for every device name without a colon, partition
    number that fits an [int], and absolute path. *)
Theorem path_round_trip dev n path s d :
  dev_ok dev -> 0 <= n <= 0x7FFFFFFF -> fs_path_ok path ->
  printkp (Some (mk_path (Some dev) n path)) = Ok s ->
  parse_spec s d = SpecPath (mk_path (Some dev) n path).
Proof.
  intros Hd Hn Hp [= <-]. change (parse_spec (boot_path dev n path) d = SpecPath (mk_path (Some dev) n path)).
  rewrite parse_boot_path by auto. by destruct (fs_path_cons path Hp) as (t & ->).
Qed.

(** What a specification says, [d] being the default device: a path on it, or
    [device:partition] and a path there, no path standing for the root; or which way it
    is wrong - a path that is not absolute, no device before the colon, no number after
    it, no valid default device for a short form. *)
Inductive spec_says (d : env_dev_t) : cstr -> quik_err_t + path_t -> Prop :=
  | says_short dev path :
      device d = Some dev -> part_valid d = true -> chr ":" ∉ path -> path = [] \/ fs_path_ok path ->
      spec_says d path (inr (mk_path (Some dev) (part d) match path with [] => str "/" | _ => path end))
  | says_full dev n path :
      dev_ok dev -> 0 <= n <= 0x7FFFFFFF -> path = [] \/ fs_path_ok path ->
      spec_says d (dev ++ [chr ":"] ++ printknu n 10 ++ path)
        (inr (mk_path (Some dev) n match path with [] => str "/" | _ => path end))
  | says_relative dev c t :
      device d = Some dev -> part_valid d = true -> chr ":" ∉ c :: t -> c <> chr "/" -> c <> chr " " ->
      spec_says d (c :: t) (inl ERR_FS_PATH)
  | says_full_relative dev n c t :
      dev_ok dev -> 0 <= n <= 0x7FFFFFFF -> c <> chr "/" -> strtol_digit c = None ->
      spec_says d (dev ++ [chr ":"] ++ printknu n 10 ++ c :: t) (inl ERR_FS_PATH)
  | says_no_device t : spec_says d (chr ":" :: t) (inl ERR_FS_PATH)
  | says_no_number dev c t :
      dev_ok dev -> 32 < c -> c <> chr "-" -> c <> chr "+" -> strtol_digit c = None ->
      spec_says d (dev ++ [chr ":"] ++ c :: t) (inl ERR_FS_PATH)
  | says_no_default t :
      device d = None \/ part_valid d = false -> chr ":" ∉ t -> hd 0 t <> chr " " ->
      spec_says d t (inl ERR_ENV_CURRENT_BAD).

(** The parser's three results. *)
Definition parsed_as (r : quik_err_t + path_t) : spec_result :=
  match r with
  | inr p => SpecPath p
  | inl e => if decide (e = ERR_FS_PATH) then SpecBad else SpecEnv e
  end.

(** A number is not read where there is none. *)
Lemma strtol_none c t :
  32 < c -> c <> chr "-" -> c <> chr "+" -> strtol_digit c = None -> snd (strtol (c :: t) 0) = O.
Proof.
  intros H1 H2 H3 H4. unfold strtol.
  assert (strtol_blanks (c :: t) = O) as -> by (cbn; destruct (Z.leb_spec c 32); [lia|done]).
  change (byte_at (c :: t) (Z.of_nat 0)) with c. destruct (Z.eqb_spec c 0); [lia|].
  unfold strtol_prefix. change (byte_at (c :: t) (Z.of_nat 0)) with c.
  destruct (Z.eqb_spec c (chr "-")); [done|]. destruct (Z.eqb_spec c (chr "+")); [done|].
  cbn [Z.ltb Z.compare Z.eqb orb Pos.eqb andb].
  change (byte_at (c :: t) (Z.of_nat 0)) with c. destruct (Z.eqb_spec c (chr "0")) as [->|]; [done|].
  cbn [drop strtol_loop]. by rewrite H4.
Qed.

Lemma says_parsed d text r bl : blanks bl -> spec_says d text r -> parse_spec (bl ++ text) d = parsed_as r.
Proof.
  intros Hbl H. assert (Hcut : forall dev rest, dev_ok dev ->
    parse_spec (bl ++ dev ++ [chr ":"] ++ rest) d
    = let '(n, endp) := strtol rest 0 in
      if Nat.eqb endp 0 then SpecBad else spec_fs_path (Some dev) (u32 n) (drop endp rest)).
  { intros dev rest (Hne & Hcol & Hb). unfold parse_spec. rewrite chomp_app by done.
    destruct dev as [|c dev]; [done|]. cbn [app] in *. rewrite chomp_id by done.
    destruct (strchr_colon (c :: dev) rest Hcol) as [E1 E2]. cbn [app] in E1, E2. rewrite E1, E2. cbn [tl].
    by destruct (Z.eqb_spec (strlen (c :: dev)) 0). }
  assert (Hnum : forall dev n rest, dev_ok dev -> 0 <= n <= 0x7FFFFFFF -> number_ends rest ->
    parse_spec (bl ++ dev ++ [chr ":"] ++ printknu n 10 ++ rest) d = spec_fs_path (Some dev) n rest).
  { intros dev n rest Hd Hn Hr. rewrite Hcut, strtol_printed_ends by done. destruct (printknu_cons n Hn) as (c & t & E).
    rewrite E at 1. cbn [length Nat.eqb]. by rewrite drop_app_length, u32_small by lia. }
  assert (Hpath : forall dev n path, path = [] \/ fs_path_ok path ->
    spec_fs_path dev n path = SpecPath (mk_path dev n match path with [] => str "/" | _ => path end)).
  { intros dev n path [->|Hp]; [done|]. unfold spec_fs_path. rewrite (proj2 (Z.eqb_eq _ _) Hp).
    by destruct (fs_path_cons path Hp) as (t & ->). }
  assert (Hbad : forall dev n c t, c <> chr "/" -> spec_fs_path dev n (c :: t) = SpecBad).
  { intros dev n c t Hc. unfold spec_fs_path. change (byte_at (c :: t) 0) with c. by destruct (Z.eqb_spec c (chr "/")). }
  assert (Hshort : forall text, chr ":" ∉ text -> hd 0 text <> chr " " -> parse_spec (bl ++ text) d
    = if decide (env_dev_is_valid d = ERR_NONE) then spec_fs_path (device d) (part d) text
      else SpecEnv (env_dev_is_valid d)).
  { intros text0 Hc Hb. unfold parse_spec. rewrite chomp_app by done.
    assert (chomp text0 = text0) as -> by (destruct text0; [done|by apply chomp_id]).
    by rewrite (proj2 (strchr_none text0 (chr ":") ltac:(done)) Hc). }
  assert (Hvalid : forall dev, device d = Some dev -> part_valid d = true -> env_dev_is_valid d = ERR_NONE).
  { intros dev H1 H2. unfold env_dev_is_valid. by rewrite H1, H2. }
  destruct H as [dev path E1 E2 Hc Hp|dev n path Hd Hn Hp|dev c t E1 E2 Hc H1 H2|dev n c t Hd Hn H1 H2|t|dev c t Hd H1 H2 H3 H4|t He Hc Hb].
  - rewrite Hshort; [|done|]. 2: { destruct Hp as [->|Hp]; [done|]. by destruct (fs_path_cons path Hp) as (t & ->). }
    rewrite decide_True by eauto. rewrite E1. by apply Hpath.
  - rewrite Hnum; [by apply Hpath|done|done|].
    destruct Hp as [->|Hp]; [done|]. by destruct (fs_path_cons path Hp) as (t & ->).
  - rewrite Hshort by done. rewrite decide_True by eauto. by apply Hbad.
  - rewrite Hnum by done. by apply Hbad.
  - unfold parse_spec. rewrite chomp_app, chomp_id by done. change (strchr (chr ":" :: t) (chr ":")) with (Some (chr ":" :: t)).
    cbv iota. by rewrite Nat.sub_diag.
  - rewrite Hcut by done. pose proof (strtol_none c t H1 H2 H3 H4) as E. destruct (strtol (c :: t) 0) as [v e].
    cbn [snd] in E. by rewrite E.
  - rewrite Hshort by done. unfold env_dev_is_valid. destruct He as [He|He]; rewrite He; [done|by destruct (device d)].
Qed.

(** C31: [file_path] returns the path its specification says, leading blanks apart, in a
    block allocated for it that stays allocated; a malformed specification is
    [ERR_FS_PATH], and the block is given back; a short form without a valid default
    device is [ERR_ENV_CURRENT_BAD], and the block is lost: it stays allocated though
    nobody is told of it. *)
Theorem file_path_outcomes base bl text r d m :
  blanks bl -> spec_says d text r ->
  let spec := bl ++ text in
  heap_ok base (m_heap m) -> strlen spec + 21 + (malloc_ptr (m_heap m) - base) < MALLOC_SIZE ->
  exists a h, malloc (u32 (strlen spec + 1 + SIZEOF_PATH)) (m_heap m) = (Some a, h)
    /\ a <> 0 /\ malloc_ptr (m_heap m) < malloc_ptr h
    /\ match r with
       | inr p => file_path spec d m = (Ok (a, p), set_heap h m)
       | inl ERR_FS_PATH => file_path spec d m = (Err ERR_FS_PATH, set_heap (free a h) m)
                            /\ malloc_ptr (free a h) = malloc_ptr (m_heap m)
       | inl e => file_path spec d m = (Err e, set_heap h m)
       end.
Proof.
  intros Hbl Hsays spec Hok Hsz. destruct (file_path_block base spec m Hok Hsz) as (Hs & Ha & h & E & Em & Hgt).
  exists (malloc_ptr (m_heap m) + 4), h. split; [exact Em|]. split; [exact Ha|]. split; [exact Hgt|].
  unfold file_path. rewrite (bind_ok _ _ _ _ _ E).
  assert (Ep : parse_spec spec d = parsed_as r) by by apply says_parsed. rewrite Ep.
  destruct r as [e|p]; [|reflexivity]. unfold parsed_as.
  destruct (decide (e = ERR_FS_PATH)) as [->|He].
  - split; [reflexivity|]. exact (proj1 (free_malloc_ptr base _ (m_heap m) _ h Hok Hs Em)).
  - by destruct e.
Qed.

End EnvFacts.

(** ** Witnesses *)

(** A firmware that only knows the two strings. *)
Definition strings_entry (args file : option cstr) (service : cstr) (a : list of_arg) (nret : Z)
    (f : unit) : of_ret * unit :=
  match a with
  | [AInt _; AStr name; AInt _] =>
      if strcmp name (str "bootargs") =? 0 then (mk_of_ret [0] (prop_bytes args), f)
      else if strcmp name (str "boot-file") =? 0 then (mk_of_ret [0] (prop_bytes file), f)
      else (mk_of_ret [0] [], f)
  | _ => (mk_of_ret [0] [], f)
  end.

Definition strings_fw (args file : option cstr) : Firmware unit :=
  {| prom_entry := strings_entry args file; uninit_word := 0xa5; stack_addr := 0 |}.

Lemma strings_boot chosen options args file :
  prop_ok args -> prop_ok file ->
  BootStrings (FW := strings_fw args file) (fun _ => True) chosen options args file.
Proof.
  intros Ha Hf. split; [done|done|done| |]; intros f r f' _ E.
  - change (strings_entry args file (str "getprop") [AInt chosen; AStr (str "bootargs"); AInt ENV_SZ] 1 f
      = (r, f')) in E. unfold strings_entry in E. rewrite strcmp_refl in E. by injection E as <- <-.
  - change (strings_entry args file (str "getprop") [AInt options; AStr (str "boot-file"); AInt ENV_SZ] 1 f
      = (r, f')) in E. unfold strings_entry in E. rewrite strcmp_refl in E.
    change (strcmp (str "boot-file") (str "bootargs") =? 0) with false in E. by injection E as <- <-.
Qed.

Definition env_mach : mach unit :=
  mk_mach tt (mk_prom_st 0 0 7 1 2 0 0 0 0 0 0) bi_init (heap_claimed MALLOC_BASE heap_init) 0 [].

Lemma env_mach_room : heap_room 1100 (m_heap env_mach).
Proof.
  exists MALLOC_BASE. split; [|by vm_compute].
  unfold heap_ok. split_and!; try (by vm_compute). by left.
Qed.

Lemma hd_boot_word : boot_word (str "hd") 3 (str "/boot/quik.conf").
Proof.
  unfold boot_word, dev_ok, no_blank. split_and!; by_eval.
Qed.

Definition hd_args : cstr := boot_path (str "hd") 3 (str "/boot/quik.conf") ++ chr " " :: str " Linux single".

Lemma env_from_bootargs_witness :
  exists m', env_init (FW := strings_fw (Some hd_args) None) env_mach = (Ok tt, m')
    /\ env_recorded (m_bi m') (chomp (str " Linux single")) (str "hd") (Some (3, str "/boot/quik.conf")).
Proof.
  assert (HB : BootStrings (FW := strings_fw (Some hd_args) None) (fun _ => True) 7 2 (Some hd_args) None).
  { apply strings_boot; [|done]. split; [by_eval|by vm_compute]. }
  refine (env_from_bootargs (FW := strings_fw (Some hd_args) None) (fun _ => True) 7 2 (str "hd") 3
    (str "/boot/quik.conf") (str " Linux single") None env_mach hd_boot_word _ env_mach_room _ _ _ _);
    done.
Defined.

Definition hd_file : cstr := str " " ++ boot_path (str "hd") 3 (str "/boot/quik.conf").

Lemma env_from_boot_file_witness :
  exists m' rest, env_init (FW := strings_fw (Some (str "-- single")) (Some hd_file)) env_mach = (Ok tt, m')
    /\ env_recorded (m_bi m') rest (str "hd") (Some (3, str "/boot/quik.conf")).
Proof.
  assert (HB : BootStrings (FW := strings_fw (Some (str "-- single")) (Some hd_file)) (fun _ => True) 7 2
    (Some (str "-- single")) (Some hd_file)).
  { apply strings_boot; (split; [by_eval|by vm_compute]). }
  refine (env_from_boot_file (FW := strings_fw (Some (str "-- single")) (Some hd_file)) (fun _ => True)
    7 2 (Some (str "-- single")) (str "hd") 3 (str "/boot/quik.conf") (str " ") env_mach hd_boot_word _ _ _
    env_mach_room _ _ _ _); try done.
  - by repeat constructor.
  - right. exists [], (str "single"). by vm_compute.
Defined.

Lemma path_round_trip_witness :
  parse_spec (str "hd:2/boot/vmlinux") (mk_env_dev None 0 false)
    = SpecPath (mk_path (Some (str "hd")) 2 (str "/boot/vmlinux")).
Proof.
  refine (path_round_trip (str "hd") 2 (str "/boot/vmlinux") (str "hd:2/boot/vmlinux")
    (mk_env_dev None 0 false) _ _ _ _).
  - unfold dev_ok. split_and!; try done. by_eval.
  - lia.
  - done.
  - by vm_compute.
Defined.

(** A path given in full; a number missing, and a short form without a default device. *)
Lemma file_path_outcomes_witness :
  let d := mk_env_dev None 0 false in
  (exists a h, malloc (u32 26) (m_heap env_mach) = (Some a, h)
     /\ file_path (str " hd:2/vmlinux") d env_mach
        = (Ok (a, mk_path (Some (str "hd")) 2 (str "/vmlinux")), set_heap h env_mach))
  /\ (exists m', file_path (str "hd:/x") d env_mach = (Err ERR_FS_PATH, m')
       /\ malloc_ptr (m_heap m') = malloc_ptr (m_heap env_mach))
  /\ exists m', file_path (str "/x") d env_mach = (Err ERR_ENV_CURRENT_BAD, m')
       /\ malloc_ptr (m_heap env_mach) < malloc_ptr (m_heap m').
Proof.
  intros d.
  assert (Hok : heap_ok MALLOC_BASE (m_heap env_mach))
    by (unfold heap_ok; split_and!; try (by vm_compute); by left).
  assert (Hd : dev_ok (str "hd")) by (unfold dev_ok; split_and!; by_eval).
  split; [|split].
  - destruct (file_path_outcomes MALLOC_BASE (str " ") (str "hd:2/vmlinux")
      (inr (mk_path (Some (str "hd")) 2 (str "/vmlinux"))) d env_mach) as (a & h & E & _ & _ & H).
    + by repeat constructor.
    + apply (says_full d (str "hd") 2 (str "/vmlinux") Hd); [lia|by right].
    + exact Hok.
    + by vm_compute.
    + exists a, h. split; [exact E|exact H].
  - destruct (file_path_outcomes MALLOC_BASE [] (str "hd:/x") (inl ERR_FS_PATH) d env_mach) as (a & h & _ & _ & _ & E & H0).
    + constructor.
    + by apply (says_no_number d (str "hd") (chr "/") (str "x") Hd).
    + exact Hok.
    + by vm_compute.
    + by eexists.
  - destruct (file_path_outcomes MALLOC_BASE [] (str "/x") (inl ERR_ENV_CURRENT_BAD) d env_mach) as (a & h & _ & _ & Hp & E).
    + constructor.
    + apply says_no_default; [by left|by_eval|done].
    + exact Hok.
    + by vm_compute.
    + by eexists.
Defined.
