(* ===== verification/FileCorrect.v ===== *)
(** * From a disk to the contents of a file (prom.c, part.c, ext2fs.c, file.c together)

    A path names a device, a partition of its Macintosh map and a file of the ext2
    volume there.  The operations of [File] on such a path are followed from the
    firmware's "open" down to the blocks of the file, whether the partition is open
    already or not. *)
From Stdlib Require Import ZArith Lia Ascii.
From stdpp Require Import prelude strings gmap.
From S2P Require Import Prelude Quik CString Util Malloc Printf Machine Prom Part Sim PartCorrect.
From S2P Require Import Ext2 Ext2Block Ext2File Ext2Tree Ext2Mount Ext2Demo Ext2Correct Env File.

#[local] Arguments u32 : simpl never.
#[local] Arguments u64 : simpl never.
#[local] Arguments slice : simpl never.
#[local] Arguments Z.mul : simpl never.

(** ** Interfaces *)

(** The firmware opens the device [name] under the handle [dev], and serves the disk
    [img] through it. *)
Class DiskDevice {F : Type} {FW : Firmware F} (I : F -> Prop) (name : cstr) (dev : Z) (img : list Z) : Prop := {
  dd_disk :: DiskFirmware I dev img;
  dd_handle : 0 < dev < NOT_FOUND;
  dd_open f r f' :
    I f -> prom_entry (str "open") [AStr name] 1 f = (r, f') -> I f' /\ u32 (hd 0 (r_args r)) = dev
}.

(** ** Specification *)

(** The entry of the map that number [partno] resolves to says [start] and [len], in
    bytes, and the partition lies on the disk. *)
Definition mac_partition (img : list Z) (partno count start len : Z) : Prop :=
  let blk0 := slice img 0 SECTOR_SIZE in
  let secsize := md_block_size blk0 in
  md_signature blk0 = MAC_DRIVER_MAGIC /\ mac_map_ok img secsize count
  /\ mac_found img secsize (mac_search img secsize partno 1 count) = Ok (start, len).

(** What [part_open] makes of a [part_t] that was closed. *)
Definition opened (name : cstr) (partno dev start len : Z) : part_t :=
  mk_part partno dev start len PART_VALID (overlay (pt_devname part_zero) (strncpy name 512)).

(** [path], of [n] components, leads to the regular file [inode] of a volume; its
    size does not wrap around when it is rounded up to blocks. *)
Definition file_at (k : fuel_t) (vol : list Z) (path : cstr) (n : Z) (inode : list Z) : Prop :=
  let sb := volume_sb vol in
  let isize := sb_isize sb in
  exists m comps e,
    path = replicate m (chr "/") ++ path_of comps /\ n = Z.of_nat (length comps)
    /\ inode = inode_at vol sb isize (dn_ino e)
    /\ walk vol sb isize (f_dir k) (inode_at vol sb isize 2) comps (inr e) /\ Forall comp_ok comps
    /\ (length comps <= f_path k)%nat /\ dirent_type (dn_type e) = FILETYPE_REG
    /\ inode_on vol sb isize (dn_ino e) /\ i_size inode + block_size sb < 4294967296
    /\ file_ok vol sb inode (blocks_of sb (i_size inode)).

Definition contents (vol inode : list Z) : list Z :=
  file_bytes vol (volume_sb vol) inode 0 (i_size inode).

(** The heap one operation on a path of [n] components takes and does not give back:
    the mounted volume and the entries of the path. *)
Definition open_cost (n : Z) : Z := SIZEOF_DATA + 8 + 148 * n.

(** ** Lemmas *)

Lemma join_length (f : Z -> list Z) bs lo n :
  0 <= n -> (forall k, lo <= k < lo + n -> Z.of_nat (length (f k)) = bs) ->
  Z.of_nat (length (mjoin (map f (seqZ lo n)))) = n * bs.
Proof.
  intros Hn. rewrite <- (Z2Nat.id n) by done. generalize (Z.to_nat n) as k. clear n Hn. intros k. revert lo.
  induction k as [|k IH]; intros lo Hf; [done|].
  rewrite seqZ_cons by lia. cbn [map]. change (mjoin (?a :: ?b)) with (a ++ mjoin b).
  rewrite length_app, Nat2Z.inj_add, Hf by lia.
  replace (Z.pred (Z.of_nat (S k))) with (Z.of_nat k) by lia.
  rewrite IH by (intros; apply Hf; lia). lia.
Qed.

(** The bytes of a file are as many as its size says. *)
Lemma contents_length vol inode :
  let sb := volume_sb vol in
  geometry_ok sb -> 0 <= i_size inode -> file_ok vol sb inode (blocks_of sb (i_size inode)) ->
  Z.of_nat (length (contents vol inode)) = i_size inode.
Proof.
  intros sb Hg Hs Hok. unfold contents, file_bytes, file_content. fold sb. rewrite Z.add_0_l.
  pose proof (block_size_range sb Hg).
  assert (Hn : 0 <= blocks_of sb (i_size inode)) by (apply Z.div_pos; lia).
  apply slice_length; [lia|lia|].
  rewrite (join_length _ (block_size sb)); [unfold blocks_of; Z.div_mod_to_equations; nia|done|].
  intros j Hj. apply (file_block_length vol sb Hg inode (blocks_of sb (i_size inode))); [done|lia].
Qed.

Section Volumes.
Context {F : Type} {FW : Firmware F}.
Context (I : F -> Prop) (name : cstr) (dev : Z) (img : list Z) {HD : DiskDevice I name dev img}.
Context (partno count start len : Z).

Local Abbreviation p := (opened name partno dev start len).
Local Abbreviation vol := (slice img start len).
Local Abbreviation sb := (volume_sb (slice img start len)).

(** What is known of the disk and the volume on it. *)
Record bootable : Prop := {
  bt_name : cstr_ok name /\ (length name < 512)%nat;
  bt_map : mac_partition img partno count start len;
  bt_on : part_on p img;
  bt_vol : mountable vol
}.

Context (HB : bootable).

Lemma bootable_volume : Volume I p vol.
Proof.
  destruct HB as [_ _ (H1 & H2 & H3 & H4) _]. exact (disk_volume I p img dd_disk H1 H2 H3 H4).
Qed.
#[local] Existing Instance bootable_volume.

(** The loader's partition is closed, or the one of the volume; [x] bytes of heap are
    to spare when the caches have theirs. *)
Definition ready (x : Z) (pr : prom_st) (bi : boot_info_t) (s : fs F) : Prop :=
  m_prom (fs_m s) = pr /\ m_bi (fs_m s) = bi /\ I (m_fw (fs_m s))
  /\ (fs_part s = part_zero \/ fs_part s = p)
  /\ cache_valid vol sb (indir1 (fs_ext2 s)) /\ cache_valid vol sb (indir2 (fs_ext2 s))
  /\ heap_room (cache_cost sb (indir1 (fs_ext2 s)) + cache_cost sb (indir2 (fs_ext2 s)) + x)
       (m_heap (fs_m s)).

Lemma inv_ready x pr bi r f n z s : fs_inv I p vol sb x (pr, bi, r, f, n, z) s -> ready x pr bi s.
Proof.
  intros (Hk & HI & Hp & C1 & C2 & Hh). unfold core in Hk. injection Hk as Kp Kb _ _ _ _.
  unfold ready. split_and!; auto.
Qed.

Lemma ready_inv x pr bi s : ready x pr bi s -> fs_part s = p ->
  fs_inv I p vol sb x (pr, bi, ext2fs_root (fs_ext2 s), ext2fs_file (fs_ext2 s),
    symlinknest (fs_ext2 s), inode_size (fs_ext2 s)) s.
Proof. intros (<- & <- & HI & _ & C1 & C2 & Hh) Hp. by split_and!. Qed.

Lemma ready_weaken x y pr bi s : ready x pr bi s -> y <= x -> ready y pr bi s.
Proof.
  intros (H1 & H2 & H3 & H4 & H5 & H6 & H7) Hy. unfold ready. split_and!; try done.
  eapply heap_room_le; [exact H7|lia].
Qed.

(** Operations on the machine that leave all but the firmware's state. *)
Lemma ready_io x pr bi s m' :
  ready x pr bi s -> I (m_fw m') -> same_but_io (fs_m s) m' ->
  ready x pr bi (mk_fs m' (fs_part s) (fs_ext2 s)).
Proof.
  intros (H1 & H2 & H3 & H4 & H5 & H6 & H7) HI (S1 & S2 & S3).
  unfold ready. cbn [fs_m fs_part fs_ext2]. rewrite S1, S2, S3. by split_and!.
Qed.

Lemma ready_heap x y pr bi s h :
  ready x pr bi s -> heap_room (cache_cost sb (indir1 (fs_ext2 s)) + cache_cost sb (indir2 (fs_ext2 s)) + y) h ->
  ready y pr bi (mk_fs (set_heap h (fs_m s)) (fs_part s) (fs_ext2 s)).
Proof. intros (H1 & H2 & H3 & H4 & H5 & H6 & H7) Hh. by split_and!. Qed.

(** *** Opening *)

Lemma disk_open_dev m :
  I (m_fw m) -> has_flag (prom_flags (m_prom m)) PROM_NW_FULL_DISK = false ->
  exists m', disk_open name m = (Ok dev, m') /\ I (m_fw m') /\ same_but_io m m'.
Proof.
  intros HI Hf. unfold disk_open, prom_open, flag_set. rewrite bind_gets, Hf. cbv iota.
  rewrite (bind_ok _ _ _ (None, name) m) by done. cbn [fst snd].
  destruct (prom_entry (str "open") [AStr name] 1 (m_fw m)) as [r f'] eqn:E.
  destruct (dd_open _ _ _ HI E) as (HI' & Hr). exists (set_fw f' m).
  assert (Ec : call_prom (str "open") [AStr name] 1 m = (Ok dev, set_fw f' m)).
  { unfold call_prom, call_prom_ret, mbind, M_bind. by rewrite E, <- Hr. }
  rewrite (bind_ok _ _ _ _ _ Ec), (bind_ok _ _ _ tt (set_fw f' m)) by done.
  pose proof (dd_handle (I := I) (name := name) (img := img)).
  rewrite (proj2 (Z.eqb_neq dev 0)), (proj2 (Z.eqb_neq dev NOT_FOUND)) by lia. by split_and!.
Qed.

Lemma read_partition_mac fuel m :
  I (m_fw m) -> (Z.to_nat count < fuel)%nat ->
  exists m', read_partition fuel dev partno m = (Ok (start, len), m') /\ I (m_fw m') /\ same_but_io m m'.
Proof.
  intros HI Hf. destruct (bt_map HB) as (Hsig & Hmap & Hfound).
  destruct (read_mac_search I dev img dd_disk fuel partno count m Hsig Hmap Hf HI) as (m' & E & HI' & HS).
  rewrite Hfound in E. exists m'. split; [|done].
  unfold read_partition. rewrite (bind_ok _ _ _ (inr (start, len)) m'); [done|]. unfold attempt. by rewrite E.
Qed.

Lemma part_open_closed fuel m :
  I (m_fw m) -> has_flag (prom_flags (m_prom m)) PROM_NW_FULL_DISK = false -> (Z.to_nat count < fuel)%nat ->
  exists m', part_open fuel name partno (m, part_zero) = (Ok tt, (m', p)) /\ I (m_fw m') /\ same_but_io m m'.
Proof.
  intros HI Hf Hfuel. destruct (disk_open_dev m HI Hf) as (m1 & E1 & H1 & S1).
  destruct (read_partition_mac fuel m1 H1 Hfuel) as (m2 & E2 & H2 & S2).
  exists m2. split; [|split; [done|by eapply same_but_io_trans]].
  unfold part_open. rewrite bind_gets. cbn [snd].
  change (has_flag (pt_flags part_zero) PART_VALID) with false. cbn [andb]. cbv iota.
  rewrite (bind_ok _ _ _ tt (m, part_zero)) by done.
  rewrite (bind_ok _ _ _ dev (m1, part_zero)); [|unfold lift_part, zoom; cbn [fst]; by rewrite E1].
  rewrite (bind_ok _ _ _ (inr (start, len)) (m2, part_zero)); [done|].
  unfold attempt, lift_part, zoom. cbn [fst]. by rewrite E2.
Qed.

Lemma part_open_again fuel m : part_open fuel name partno (m, p) = (Ok tt, (m, p)).
Proof.
  destruct (bt_name HB) as (Hok & Hl). unfold part_open. rewrite bind_gets. unfold opened.
  cbn [pt_flags pt_partno pt_devname snd]. rewrite devname_stored, strcmp_refl, Z.eqb_refl by done. done.
Qed.

Lemma part_open_ready fuel x pr bi s :
  ready x pr bi s -> has_flag (prom_flags pr) PROM_NW_FULL_DISK = false -> (Z.to_nat count < fuel)%nat ->
  exists s', on_part (part_open fuel name partno) s = (Ok tt, s') /\ fs_part s' = p /\ ready x pr bi s'.
Proof.
  intros Hr Hf Hfuel. pose proof Hr as (Hp & _ & HI & [Hz|Hz] & _).
  - destruct (part_open_closed fuel (fs_m s) HI ltac:(by rewrite Hp) Hfuel) as (m' & E & HI' & HS).
    eexists. unfold on_part, zoom. rewrite Hz, E. split; [reflexivity|]. split; [done|].
    destruct (ready_io x pr bi s m' Hr HI' HS) as (R1 & R2 & R3 & R4 & R5 & R6 & R7).
    cbn [fst snd fs_m fs_part fs_ext2] in *. unfold ready. cbn [fs_m fs_part fs_ext2]. split_and!; auto.
  - exists s. unfold on_part, zoom. rewrite Hz, part_open_again. split; [|done].
    destruct s as [m pt e]. cbn [fs_part] in Hz. by subst.
Qed.

Lemma open_ready k x pr bi s :
  ready x pr bi s -> has_flag (prom_flags pr) PROM_NW_FULL_DISK = false -> (Z.to_nat count < f_map k)%nat ->
  SIZEOF_DATA + 8 <= x ->
  exists a f n s', open_ext2 k (Some name) partno s = (Ok tt, s') /\ 0 < a
    /\ fs_inv I p vol sb (x - (SIZEOF_DATA + 8)) (pr, bi, Some (root_data vol a), f, n, sb_isize sb) s'.
Proof.
  intros Hr Hf Hk Hx. destruct (part_open_ready (f_map k) x pr bi s Hr Hf Hk) as (s1 & E1 & Hp1 & R1).
  destruct (mount_inv I p vol x pr bi _ _ _ _ s1 (bt_vol HB) Hx (ready_inv _ _ _ _ R1 Hp1))
    as (a & s2 & E2 & Ha & H2).
  exists a, (ext2fs_file (fs_ext2 s1)), (symlinknest (fs_ext2 s1)), s2. split; [|done].
  unfold open_ext2. rewrite bind_gets. cbn [of_option]. rewrite bind_ret.
  rewrite (bind_ok _ _ _ _ _ E1), bind_gets, Hp1. change (has_flag (pt_flags p) PART_MOUNTED) with false.
  cbv iota.
  assert (Hold : has_flag (pt_flags (fs_part s)) PART_MOUNTED = false)
    by (by destruct Hr as (_ & _ & _ & [-> | ->] & _)).
  by rewrite Hold, bind_ret.
Qed.

(** *** The operations on a path *)

Section File.
Context (k : fuel_t) (path : cstr) (n : Z) (inode : list Z) (HF : file_at k vol path n inode).
Context (pr : prom_st) (bi : boot_info_t).
Context (Hnw : has_flag (prom_flags pr) PROM_NW_FULL_DISK = false) (Hk : (Z.to_nat count < f_map k)%nat).

Lemma i_size_nonneg : 0 <= i_size inode.
Proof.
  destruct HF as (m & comps & e & _ & _ & -> & _). apply i_size_range. rewrite inode_at_eq.
  apply bytes_ok_slice. exact (vol_bytes (I := I) (p := p) (vol := vol)).
Qed.

(** The steps the three operations share: the file is open. *)
Lemma open_path_ready x s :
  open_cost n <= x -> ready x pr bi s ->
  exists a b ino s', (open_ext2 k (Some name) partno;; ext2fs_open (f_dir k) (f_path k) path) s
      = (Ok (i_size inode), s')
    /\ fs_inv I p vol sb (x - open_cost n) (pr, bi, Some (root_data vol a),
         Some (mk_node b sb inode ino false), 0, sb_isize sb) s'.
Proof.
  destruct HF as (m & comps & e & -> & -> & -> & Hw & Hcs & Hfuel & Ht & Hon & Hfit & Hok).
  intros Hx Hr. unfold open_cost in *.
  destruct (open_ready k x pr bi s Hr Hnw Hk ltac:(lia)) as (a & f & nest & s1 & E1 & Ha & H1).
  destruct (open_inv I p vol (bt_vol HB) (f_dir k) (f_path k) m comps e (x - (SIZEOF_DATA + 8)) pr bi a f nest s1
    Hw Hcs Hfuel ltac:(lia) Ha Ht Hon H1) as (b & s2 & E2 & H2).
  exists a, b, (dn_ino e), s2. rewrite (bind_ok _ _ _ _ _ E1). split; [exact E2|].
  by replace (x - _) with (x - (SIZEOF_DATA + 8) - 148 * Z.of_nat (length comps)) by lia.
Qed.

Lemma file_len_ready x s :
  open_cost n <= x -> ready x pr bi s ->
  exists s', file_len k (mk_path (Some name) partno path) s = (Ok (i_size inode), s')
    /\ ready (x - open_cost n) pr bi s'.
Proof.
  intros Hx Hr. destruct (open_path_ready x s Hx Hr) as (a & b & ino & s' & E & H).
  exists s'. split; [exact E|]. by eapply inv_ready.
Qed.

Lemma file_load_ready x s :
  open_cost n <= x -> ready x pr bi s ->
  exists pad s', file_load k (mk_path (Some name) partno path) s
      = (Ok (contents vol inode ++ replicate pad 0), s')
    /\ Z.of_nat pad < block_size sb /\ ready (x - open_cost n) pr bi s'.
Proof.
  intros Hx Hr. destruct (open_path_ready x s Hx Hr) as (a & b & ino & s1 & E & H). pose proof i_size_nonneg as Hsz.
  destruct HF as (_ & _ & _ & _ & _ & _ & _ & _ & _ & _ & _ & Hfit & Hok).
  pose proof (bt_vol HB) as (_ & _ & Hg & _).
  destruct (read_inv I p vol (bt_vol HB) b ino inode (x - open_cost n) pr bi (root_data vol a) 0 (sb_isize sb) s1
    (i_size inode) ltac:(lia) Hsz Hsz ltac:(rewrite Z.min_id; exact Hfit) ltac:(rewrite Z.min_id; exact Hok) H)
    as (s2 & E2 & H2).
  destruct (read_spec_bytes vol sb inode 0 (i_size inode) Hg (Z.le_refl 0) Hsz Hok) as (pad & Ep & Hpad & _).
  exists pad, s2. split; [|split; [exact Hpad|by eapply inv_ready]].
  rewrite Z.min_id, Ep in E2. unfold file_load. cbn [p_device p_part p_path].
  rewrite <- bind_assoc. by rewrite (bind_ok _ _ _ _ _ E).
Qed.

(** *** Properties *)

(** C15: On a disk with a Macintosh partition map whose partition holds an ext2 volume,
    the length and the contents of a regular file are those the volume's inode table,
    directories and block map describe, from a closed partition or an open one, and
    again after a first read: every operation leaves a state the next one works from,
    less the heap it does not give back. *)
Theorem file_from_disk x s :
  open_cost n <= x -> ready (x + open_cost n) pr bi s ->
  let name_it := mk_path (Some name) partno path in
  exists s', (size ← file_len k name_it; bytes ← file_load k name_it; mret (size, take (Z.to_nat size) bytes)) s
      = (Ok (i_size inode, contents vol inode), s')
    /\ Z.of_nat (length (contents vol inode)) = i_size inode /\ ready (x - open_cost n) pr bi s'.
Proof.
  intros Hx Hr name_it. pose proof i_size_nonneg as Hsz. pose proof (bt_vol HB) as (_ & _ & Hg & _).
  assert (Hc : 0 <= open_cost n).
  { unfold open_cost, SIZEOF_DATA. destruct HF as (? & ? & ? & _ & -> & _). lia. }
  assert (Hl : Z.of_nat (length (contents vol inode)) = i_size inode).
  { destruct HF as (? & ? & ? & _ & _ & _ & _ & _ & _ & _ & _ & _ & Hok). by apply contents_length. }
  destruct (file_len_ready (x + open_cost n) s ltac:(lia) Hr) as (s1 & E1 & R1).
  apply (ready_weaken _ x) in R1; [|lia].
  destruct (file_load_ready x s1 Hx R1) as (pad & s2 & E2 & _ & R2).
  exists s2. rewrite (bind_ok _ _ _ _ _ E1), (bind_ok _ _ _ _ _ E2). split; [|done].
  rewrite <- Hl, Nat2Z.id, take_app_length. done.
Qed.

End File.
End Volumes.

(** ** Witnesses *)

(** The simulated firmware opens its disks by name. *)
Lemma sim_device disks k name img :
  disks !! k = Some (name, img) -> find_disk name disks 0 = Some (Z.of_nat k) ->
  Z.of_nat k + DISK0 < NOT_FOUND -> bytes_ok img ->
  DiskDevice (sim_has disks) name (DISK0 + Z.of_nat k) img.
Proof.
  intros Hk Hf Hb Hok. split.
  - apply (sim_disk disks k name); [done|unfold NOT_FOUND in *; lia|done].
  - unfold DISK0, NOT_FOUND in *. lia.
  - intros f r f' HI E. unfold prom_entry in E. simpl in E. unfold sim_entry in E.
    change (sim_service_of (str "open")) with SOpen in E. cbv iota in E. unfold sim_has in HI.
    injection E as <- <-. split; [done|]. unfold arg_str. cbn [lookup list_lookup r_args hd].
    rewrite HI, Hf. apply u32_small. unfold DISK0, NOT_FOUND in *. lia.
Qed.

(** A disk whose map has a second, bootable entry, with the volume of [Ext2Demo]. *)
Definition boot_img : list Z :=
  enc_be16 MAC_DRIVER_MAGIC ++ enc_be16 512 ++ replicate 508 0
  ++ mac_entry 1 2 0 [] ++ mac_entry 3 34 STATUS_BOOTABLE (str "PowerPC") ++ demo_image ++ replicate 512 0.
Definition boot_disks : list (cstr * list Z) := [(str "hd", boot_img)].
Definition boot_fs : fs sim := mk_fs (sim_mach boot_disks) part_zero ext2_init.
Definition boot_fuel : fuel_t := mk_fuel 3 8 4.

Lemma boot_device : DiskDevice (sim_has boot_disks) (str "hd") DISK0 boot_img.
Proof. by apply (sim_device boot_disks 0); [done|by vm_compute|by vm_compute|by_eval]. Qed.

(** A concrete disk of one device, with a map of two entries. *)
Ltac disk_bootable :=
  split;
  [ split; [by_eval|simpl; lia]
  | unfold mac_partition, mac_map_ok; split_and!; try (by vm_compute);
    let j := fresh "j" in let Hj := fresh "Hj" in
    intros j Hj; assert (j = 1 \/ j = 2) as [-> | ->] by lia; by vm_compute
  | unfold part_on; split_and!; by vm_compute
  | by_eval ].

Lemma boot_bootable : bootable (str "hd") DISK0 boot_img 0 2 1536 17408.
Proof. disk_bootable. Qed.

Lemma boot_vol_eq : slice boot_img 1536 17408 = demo_vol.
Proof. by vm_compute. Qed.

Lemma boot_ready x :
  0 <= x -> x + 2 * 1024 + 16 < 100000 ->
  ready (sim_has boot_disks) (str "hd") DISK0 boot_img 0 1536 17408 x prom_init_st bi_init boot_fs.
Proof.
  intros H0 Hx. unfold ready. cbn [boot_fs fs_m fs_part fs_ext2 sim_mach m_prom m_bi m_fw m_heap].
  rewrite boot_vol_eq. split_and!; try done; [by left|].
  change (indir1 ext2_init) with indir_none. change (indir2 ext2_init) with indir_none.
  replace (cache_cost demo_sb indir_none) with 1032 by (by vm_compute).
  exists MALLOC_BASE. split; [by_eval|].
  change (malloc_ptr (heap_claimed MALLOC_BASE heap_init)) with MALLOC_BASE.
  replace (malloc_end (heap_claimed MALLOC_BASE heap_init)) with (MALLOC_BASE + MALLOC_SIZE) by (by vm_compute).
  unfold MALLOC_SIZE. lia.
Qed.

(** [/etc/quik.conf] of the volume. *)
Lemma boot_file :
  file_at boot_fuel demo_vol (str "/etc/quik.conf") 2 (inode_at demo_vol demo_sb 128 13).
Proof.
  exists 1%nat, [str "etc"; str "quik.conf"], (demo_last (mk_dentry 13 1 (str "quik.conf") []) 24).
  change (sb_isize (volume_sb demo_vol)) with 128.
  repeat match goal with |- _ /\ _ => split end.
  - by vm_compute.
  - by vm_compute.
  - by vm_compute.
  - exact demo_walk.
  - by_eval.
  - simpl. lia.
  - by vm_compute.
  - by_eval.
  - by_eval.
  - apply file_okb_ok. by vm_compute.
Qed.

Lemma file_from_disk_witness :
  let name_it := mk_path (Some (str "hd")) 0 (str "/etc/quik.conf") in
  exists s', (size ← file_len boot_fuel name_it; bytes ← file_load boot_fuel name_it;
              mret (size, take (Z.to_nat size) bytes)) boot_fs = (Ok (22, demo_conf), s').
Proof.
  pose proof boot_file as Hf. rewrite <- boot_vol_eq in Hf.
  destruct (file_from_disk (HD := boot_device) (sim_has boot_disks) (str "hd") DISK0 boot_img 0 2 1536 17408 boot_bootable
    boot_fuel (str "/etc/quik.conf") 2 _ Hf prom_init_st bi_init eq_refl ltac:(simpl; lia)
    4000 boot_fs ltac:(by vm_compute) (boot_ready (4000 + open_cost 2) ltac:(by vm_compute) ltac:(by vm_compute)))
    as (s' & E & _).
  assert (Ec : (i_size (inode_at demo_vol demo_sb 128 13), contents demo_vol (inode_at demo_vol demo_sb 128 13))
    = (22, demo_conf)) by (by vm_compute).
  rewrite boot_vol_eq, Ec in E. exists s'. exact E.
Defined.

(** ** Small volumes for the files below *)

(** A volume with the files [a] and [b] (name and contents, up to 1K) in its root
    directory, laid out as [Ext2Demo] lays one out. *)
Definition pad4 (c : cstr) : list Z := replicate (Z.to_nat (- Z.of_nat (length c) mod 4)) 0.

Definition root_of (a b : cstr) : list dentry :=
  [ mk_dentry 2 2 (str ".") [0; 0; 0]; mk_dentry 2 2 (str "..") [0; 0]; mk_dentry 12 1 a (pad4 a);
    demo_last (mk_dentry 13 1 b []) (32 + Z.of_nat (length a + length (pad4 a))) ].

Definition volume_with (a b : cstr * list Z) : list Z :=
  padded 1024 [] ++ padded 1024 demo_super ++ padded 1024 (layout 0 [(8, enc_le32 5)]) ++ padded 2048 []
  ++ padded 2048 (layout 0
       [(128, demo_inode 16877 1024 [7]); (1408, demo_inode 33188 (Z.of_nat (length (snd a))) [8]);
        (1536, demo_inode 33188 (Z.of_nat (length (snd b))) [9])])
  ++ mjoin (map enc_dentry (root_of (fst a) (fst b)))
  ++ padded 1024 (snd a) ++ padded 1024 (snd b) ++ padded 7168 [].

(** A disk with that volume as its bootable partition. *)
Definition disk_with (a b : cstr * list Z) : list Z :=
  enc_be16 MAC_DRIVER_MAGIC ++ enc_be16 512 ++ replicate 508 0 ++ mac_entry 1 2 0 []
  ++ mac_entry 3 34 STATUS_BOOTABLE (str "PowerPC") ++ volume_with a b ++ replicate 512 0.

(** A file of the root directory. *)
Lemma root_file vol root (c : cstr) e :
  let sb := volume_sb vol in
  let inode := inode_at vol sb 128 (dn_ino e) in
  sb_isize sb = 128 -> dir_has vol sb (inode_at vol sb 128 2) root -> (length root < 8)%nat ->
  dir_lookup root c = Some e -> comp_ok c -> dirent_type (dn_type e) = FILETYPE_REG ->
  inode_on vol sb 128 (dn_ino e) -> i_size inode + block_size sb < 4294967296 ->
  file_okb vol sb inode (blocks_of sb (i_size inode)) = true ->
  file_at boot_fuel vol (chr "/" :: c) 1 inode.
Proof.
  intros sb inode Ei Hroot Hn Hl Hc Ht Hon Hfit Hok. exists 1%nat, [c], e. cbv zeta. fold sb. rewrite Ei.
  repeat match goal with |- _ /\ _ => split end.
  - reflexivity.
  - reflexivity.
  - reflexivity.
  - eapply (walk_here _ _ _ _ _ root); [exact Hroot|exact Hn|exact Hl|by rewrite Ht].
  - by constructor.
  - simpl. lia.
  - exact Ht.
  - exact Hon.
  - exact Hfit.
  - by apply file_okb_ok.
Qed.
