(* ===== verification/Cfg.v ===== *)
(** * The configuration file (cfg.c)

    A lexer over the bytes of the file with one character of push-back, a parser
    with one token and one item of look-ahead, and the tables it fills: the
    options of the file and a table for each [image].  Tokens are strings on the
    heap; a token is its address and its characters. *)
From Stdlib Require Import ZArith Lia Ascii.
From stdpp Require Import prelude strings.
From S2P Require Import Prelude Quik CString Util Malloc Printf Machine Prom.

(** ** Data *)

Inductive config_type : Set := cft_strg | cft_flag.

#[global] Instance config_type_eq_dec : EqDecision config_type.
Proof. solve_decision. Defined.

(** An entry; the [data] of a set flag points to a static NUL character, so it
    reads as the empty string.  A table is the entries before [cft_end]. *)
Record config := mk_config { c_type : config_type; c_name : cstr; c_data : option cstr }.

Definition strg (name : cstr) : config := mk_config cft_strg name None.
Definition flag (name : cstr) : config := mk_config cft_flag name None.

Definition cf_options : list config :=
  [ strg (str "device"); strg (str "partition"); strg (str "default"); strg (str "timeout");
    strg (str "message"); strg (str "root"); strg (str "ramdisk"); flag (str "read-only");
    flag (str "read-write"); strg (str "append"); strg (str "initrd"); strg (str "initrd-size");
    flag (str "pause-after"); strg (str "pause-message"); strg (str "init-code");
    strg (str "init-message") ].

Definition cf_image : list config :=
  [ strg (str "image"); strg (str "label"); strg (str "alias"); strg (str "device");
    strg (str "partition"); strg (str "root"); strg (str "ramdisk"); flag (str "read-only");
    flag (str "read-write"); strg (str "append"); strg (str "literal"); strg (str "initrd");
    flag (str "old-kernel"); flag (str "pause-after"); strg (str "pause-message") ].

(** [sizeof (struct IMAGES)]: 16 entries of 12 bytes and a pointer. *)
Definition SIZEOF_IMAGES : Z := 196.
Definition MAX_TOKEN : Z := 200.
Definition EOF : Z := -1.

(** The characters left, the one pushed back (0 for none), the line. *)
Record lex := mk_lex { back : Z; rest : list Z; line_num : Z }.

Definition token : Type := Z * cstr.

(** [curr_table]: [None] is [cf_options], [Some k] the table of the [k]-th image. *)
Record cfg_st := mk_cfg {
  lx : lex;
  last_token : option token;
  last_item : option (token * option token);
  file_name : option cstr;
  options : list config;
  images : list (list config);
  curr_table : option nat
}.

Definition cfg_init : cfg_st := mk_cfg (mk_lex 0 [] 0) None None None cf_options [] None.

(** ** The lexer *)

Definition getc (l : lex) : Z * lex :=
  match rest l with
  | [] => (EOF, l)
  | c :: r => (c, mk_lex (back l) r (line_num l))
  end.

Definition next (l : lex) : Z * lex :=
  if back l =? 0 then getc l else (back l, mk_lex 0 (rest l) (line_num l)).

Definition again (ch : Z) (l : lex) : lex := mk_lex ch (rest l) (line_num l).
Definition newline (l : lex) : lex := mk_lex (back l) (rest l) (line_num l + 1).

(** The end of a scan: a character or token, the end of the file, an error, or
    not enough fuel. *)
Inductive lexed (A : Type) : Type := LTok (a : A) | LEof | LErr (msg : cstr) | LFuel.
Arguments LTok {A} a.
Arguments LEof {A}.
Arguments LErr {A} msg.
Arguments LFuel {A}.

(** White space and comments before a token: its first character. *)
Fixpoint lex_skip (fuel : nat) (comment : bool) (l : lex) : lexed Z * lex :=
  match fuel with
  | O => (LFuel, l)
  | S fuel' =>
      let '(ch, l) := next l in
      if comment then
        if ch =? 10 then lex_skip fuel' false (newline l)
        else if ch =? EOF then (LEof, l) else lex_skip fuel' true l
      else if (ch =? chr " ") || (ch =? 9) then lex_skip fuel' false l
      else if ch =? 10 then lex_skip fuel' false (newline l)
      else if ch =? EOF then (LEof, l)
      else if ch =? chr "#" then lex_skip fuel' true l
      else (LTok ch, l)
  end.

(** The blanks that start the line after a continued one. *)
Fixpoint skip_indent (fuel : nat) (l : lex) : option (Z * lex) :=
  match fuel with
  | O => None
  | S fuel' =>
      let '(ch, l) := next l in
      if (ch =? chr " ") || (ch =? 9) then skip_indent fuel' l else Some (ch, l)
  end.

(** A quoted string after its opening quote; [acc] holds what was stored,
    latest first. *)
Fixpoint lex_quoted (fuel : nat) (acc : list Z) (l : lex) : lexed cstr * lex :=
  match fuel with
  | O => (LFuel, l)
  | S fuel' =>
      if Z.of_nat (length acc) <? MAX_TOKEN then
        let '(ch, l) := next l in
        if ch =? EOF then (LErr (str "EOF in quoted string"), l)
        else if ch =? 34 then (LTok (rev acc), l)
        else if ch =? 92 then
          let '(ch, l) := next l in
          if (ch =? 34) || (ch =? 92) then lex_quoted fuel' (ch :: acc) l
          else if ch =? 10 then
            match skip_indent fuel' l with
            | None => (LFuel, l)
            | Some (ch, l) =>
                if ch =? 0 then lex_quoted fuel' acc l
                else lex_quoted fuel' (chr " " :: acc) (again ch l)
            end
          else if ch =? chr "n" then lex_quoted fuel' (10 :: acc) l
          else (LErr (str "Bad use of \ in quoted string"), l)
        else if ch =? 10 then (LErr (str "newline is not allowed in quoted strings"), l)
        else lex_quoted fuel' (ch :: acc) l
      else (LErr (str "Quoted string is too long"), l)
  end.

Definition is_delim (ch : Z) : bool :=
  (ch =? chr " ") || (ch =? 9) || (ch =? 10) || (ch =? chr "#") || (ch =? chr "=") || (ch =? EOF).

(** A plain token from its first character [ch]. *)
Fixpoint lex_plain (fuel : nat) (ch : Z) (escaped : bool) (acc : list Z) (l : lex)
  : lexed cstr * lex :=
  match fuel with
  | O => (LFuel, l)
  | S fuel' =>
      if Z.of_nat (length acc) <? MAX_TOKEN then
        if escaped then
          if ch =? EOF then (LErr (str "\ precedes EOF"), l)
          else if ch =? 10 then
            let '(ch, l) := next (newline l) in lex_plain fuel' ch false acc l
          else
            let acc := (if ch =? 9 then chr " " else ch) :: acc in
            let '(ch, l) := next l in lex_plain fuel' ch false acc l
        else if is_delim ch then (LTok (rev acc), again ch l)
        else
          let escaped := ch =? 92 in
          let acc := if escaped then acc else ch :: acc in
          let '(ch, l) := next l in lex_plain fuel' ch escaped acc l
      else (LErr (str "Token is too long"), l)
  end.

(** A scan uses at most one round per character left, and the one pushed back. *)
Definition lex_fuel (l : lex) : nat := length (rest l) + 3.

Definition lex_token (l : lex) : lexed cstr * lex :=
  match lex_skip (lex_fuel l) false l with
  | (LTok ch, l) =>
      if ch =? chr "=" then (LTok [chr "="], l)
      else if ch =? 34 then lex_quoted (lex_fuel l) [] l
      else lex_plain (lex_fuel l) ch false [] l
  | (LEof, l) => (LEof, l)
  | (LErr m, l) => (LErr m, l)
  | (LFuel, l) => (LFuel, l)
  end.

(** ** The parser *)

(** The only error is the [longjmp] of [cfg_error]. *)
Inductive cfg_jmp : Set := Longjmp.

(** Updates of the state. *)
Definition set_lx (l : lex) (c : cfg_st) : cfg_st :=
  mk_cfg l (last_token c) (last_item c) (file_name c) (options c) (images c) (curr_table c).
Definition set_last_token (t : option token) (c : cfg_st) : cfg_st :=
  mk_cfg (lx c) t (last_item c) (file_name c) (options c) (images c) (curr_table c).
Definition set_last_item (i : option (token * option token)) (c : cfg_st) : cfg_st :=
  mk_cfg (lx c) (last_token c) i (file_name c) (options c) (images c) (curr_table c).
Definition set_tables (o : list config) (i : list (list config)) (k : option nat) (c : cfg_st)
  : cfg_st := mk_cfg (lx c) (last_token c) (last_item c) (file_name c) o i k.

(** The table [curr_table] points to. *)
Definition get_table (c : cfg_st) : list config :=
  match curr_table c with None => options c | Some k => default [] (images c !! k) end.
Definition put_table (t : list config) (c : cfg_st) : cfg_st :=
  match curr_table c with
  | None => set_tables t (images c) None c
  | Some k => set_tables (options c) (<[k := t]> (images c)) (Some k) c
  end.

Section Cfg.
Context {F : Type} {FW : Firmware F}.

Abbreviation K := (M cfg_jmp (mach F * cfg_st)).

(** Console output and heap calls return no error. *)
Definition on_mach {A} (c : P F A) : K A := fun s =>
  match c (fst s) with
  | (Ok a, m) => (Ok a, (m, snd s))
  | (Err _, m) => (Err Longjmp, (m, snd s))
  | (Undef u, m) => (Undef u, (m, snd s))
  end.
Definition on_cfg (f : cfg_st -> cfg_st) : K unit := modify (fun s => (fst s, f (snd s))).
Definition getk {A} (f : cfg_st -> A) : K A := gets (fun s => f (snd s)).

Definition cfg_where : K unit :=
  c ← getk id;
  on_mach (printk (str " near line %d in file %s" ++ [10])
    [KNum (line_num (lx c)); KStr (file_name c)]).

Definition cfg_error {A} (msg : cstr) (args : list karg) : K A :=
  on_mach (printk (str "Config file error: ") []);;
  on_mach (printk msg args);;
  cfg_where;;
  throw Longjmp.

Definition cfg_warn (msg : cstr) (args : list karg) : K unit :=
  on_mach (printk (str "Config file warning: ") []);;
  on_mach (printk msg args);;
  cfg_where.

(** [strdup] copies through a NULL pointer when the heap is full. *)
Definition strdup (s : cstr) : K token :=
  p ← on_mach (do_malloc (strlen (until_nul s) + 1));
  match p with
  | Some a => mret (a, until_nul s)
  | None => undef NullDeref
  end.

Definition cfg_get_token : K (option token) :=
  here ← getk last_token;
  match here with
  | Some t => on_cfg (set_last_token None);; mret (Some t)
  | None =>
      l ← getk lx;
      let '(r, l) := lex_token l in
      on_cfg (set_lx l);;
      match r with
      | LTok s => t ← strdup s; mret (Some t)
      | LEof => mret None
      | LErr msg => cfg_error msg []
      | LFuel => undef OutOfFuel
      end
  end.

Definition eqs : cstr := str "=".

(** An item and its value; None at the end of the file. *)
Definition cfg_next : K (option (token * option token)) :=
  li ← getk last_item;
  match li with
  | Some iv => on_cfg (set_last_item None);; mret (Some iv)
  | None =>
      item ← cfg_get_token;
      match item with
      | None => mret None
      | Some item =>
          (if strcmp (snd item) eqs =? 0 then cfg_error (str "Syntax error") [] else mret tt);;
          this ← cfg_get_token;
          match this with
          | None => mret (Some (item, None))
          | Some this =>
              if negb (strcmp (snd this) eqs =? 0)
              then on_cfg (set_last_token (Some this));; mret (Some (item, None))
              else
                value ← cfg_get_token;
                match value with
                | None => cfg_error (str "Value expected at EOF") []
                | Some value =>
                    (if strcmp (snd value) eqs =? 0
                     then cfg_error (str "Syntax error after %s") [KStr (Some (snd item))]
                     else mret tt);;
                    mret (Some (item, Some value))
                end
          end
      end
  end.

(** The entry [w] given [value]: the warnings, and the entry after. *)
Definition set_entry (w : config) (value : option cstr) : K config :=
  match value with
  | Some _ =>
      if decide (c_type w = cft_strg) then
        (if c_data w is Some _ then cfg_warn (str "Duplicate entry '%s'") [KStr (Some (c_name w))]
         else mret tt);;
        mret (mk_config (c_type w) (c_name w) value)
      else
        cfg_warn (str "'%s' doesn't have a value") [KStr (Some (c_name w))];; mret w
  | None =>
      if decide (c_type w = cft_strg) then
        cfg_warn (str "Value expected for '%s'") [KStr (Some (c_name w))];; mret w
      else
        (if c_data w is Some _ then cfg_warn (str "Duplicate entry '%s'") [KStr (Some (c_name w))]
         else mret tt);;
        mret (mk_config (c_type w) (c_name w) (Some []))
  end.

(** The walk over a table: the table after it, or None when no entry has the
    name. *)
Fixpoint set_walk (t : list config) (item : cstr) (value : option cstr)
  : K (option (list config)) :=
  match t with
  | [] => mret None
  | w :: t' =>
      if strcasecmp (c_name w) item =? 0
      then w' ← set_entry w value; mret (Some (w' :: t'))
      else r ← set_walk t' item value; mret ((w ::.) <$> r)
  end.

Definition cfg_set (item : token) (value : option token) : K bool :=
  (if strcasecmp (snd item) (str "image") =? 0 then
     p ← on_mach (do_malloc SIZEOF_IMAGES);
     match p with
     | None => undef NullDeref
     | Some _ =>
         on_mach (on_bi (set_bi_flags (fun f => Z.lor f HAVE_IMAGES)));;
         on_cfg (fun c => set_tables (options c) (images c ++ [cf_image])
                            (Some (length (images c))) c)
     end
   else mret tt);;
  t ← getk get_table;
  r ← set_walk t (snd item) (snd <$> value);
  match r with
  | Some t' => on_cfg (put_table t');; mret true
  | None => on_cfg (set_last_item (Some (item, value)));; mret false
  end.

Fixpoint parse_loop (fuel : nat) : K Z :=
  match fuel with
  | O => undef OutOfFuel
  | S fuel' =>
      iv ← cfg_next;
      match iv with
      | None => mret 0
      | Some (item, value) =>
          ok ← cfg_set item value;
          if ok : bool then on_mach (do_free (fst item));; parse_loop fuel' else mret (-1)
      end
  end.

(** A round takes at least one character of the file, the tokens held back
    apart. *)
Definition parse_fuel (buff : list Z) : nat := length buff + 6.

(** [buff] is the [len] bytes of the file.  [setjmp] gets a copy of [env] (isetjmp.h:
    [jmp_buf] is a structure), so [env] itself keeps the zeros it starts with, and the
    [longjmp] of [cfg_error], which passes a copy of those, does not come back here. *)
Definition cfg_parse (cfg_file : option cstr) (buff : list Z) : K Z :=
  on_cfg (fun c => mk_cfg (mk_lex (back (lx c)) buff (line_num (lx c))) (last_token c)
                     (last_item c) cfg_file (options c) (images c) (curr_table c));;
  r ← attempt (parse_loop (parse_fuel buff));
  match r with inr v => mret v | inl Longjmp => undef WildJump end.

End Cfg.

(** ** Queries *)

Fixpoint cfg_get_strg_i (t : list config) (item : cstr) : option cstr :=
  match t with
  | [] => None
  | w :: t' => if strcasecmp (c_name w) item =? 0 then c_data w else cfg_get_strg_i t' item
  end.

(** The part of a path after its last slash. *)
Definition basename (s : cstr) : cstr :=
  match strrchr s (chr "/") with Some s' => tl s' | None => s end.

(** The label of an image, the last component of its path when it has none; an
    image without a value has neither. *)
Definition image_label (t : list config) : option cstr :=
  match cfg_get_strg_i t (str "label") with
  | Some l => Some l
  | None => basename <$> cfg_get_strg_i t (str "image")
  end.

Definition image_matches (t : list config) (label image : cstr) : bool :=
  (strcmp label image =? 0)
  || match cfg_get_strg_i t (str "alias") with
     | Some alias => strcmp alias image =? 0
     | None => false
     end.

Fixpoint images_get (opts : list config) (ims : list (list config)) (image item : cstr)
  : outcome cfg_jmp (option cstr) :=
  match ims with
  | [] => Ok None
  | t :: ims' =>
      match image_label t with
      | None => Undef NullDeref
      | Some label =>
          if image_matches t label image then
            Ok (match cfg_get_strg_i t item with
                | Some v => Some v
                | None => cfg_get_strg_i opts item
                end)
          else images_get opts ims' image item
      end
  end.

Definition cfg_get_strg (c : cfg_st) (image : option cstr) (item : cstr)
  : outcome cfg_jmp (option cstr) :=
  match image with
  | None => Ok (cfg_get_strg_i (options c) item)
  | Some image => images_get (options c) (images c) image item
  end.

Definition cfg_get_flag (c : cfg_st) (image : option cstr) (item : cstr) : outcome cfg_jmp bool :=
  match cfg_get_strg c image item with
  | Ok v => Ok (if v is Some _ then true else false)
  | Err e => Err e
  | Undef u => Undef u
  end.

Definition cfg_get_default (c : cfg_st) : outcome cfg_jmp (option cstr) :=
  match cfg_get_strg_i (options c) (str "default") with
  | Some v => Ok (Some v)
  | None =>
      match images c with
      | [] => Ok None
      | t :: _ =>
          match image_label t with Some l => Ok (Some l) | None => Undef NullDeref end
      end
  end.

Section Images.
Context {F : Type} {FW : Firmware F}.

Fixpoint print_images_loop (ims : list (list config)) (tp : table_print_t) : P F table_print_t :=
  match ims with
  | [] => mret tp
  | t :: ims' =>
      label ← of_option NullDeref (image_label t);
      tp ← table_print tp label;
      tp ← match cfg_get_strg_i t (str "alias") with
           | Some alias => table_print tp alias
           | None => mret tp
           end;
      print_images_loop ims' tp
  end.

Definition cfg_print_images (c : cfg_st) : P F unit :=
  tp ← print_images_loop (images c) (table_print_start 3 25);
  table_print_end tp.

End Images.

(** ** Lemmas: the lexer comes to an end *)

(** Characters a lexer can still take. *)
Definition left_chars (l : lex) : nat :=
  length (rest l) + (if (back l =? 0) || (back l =? EOF) then 0 else 1).

Lemma next_left l ch l' :
  next l = (ch, l') -> back l' = 0 /\ (ch = EOF \/ (left_chars l' < left_chars l)%nat)
    /\ (length (rest l') <= length (rest l))%nat /\ (left_chars l' <= left_chars l)%nat.
Proof.
  unfold next, getc, left_chars. destruct (Z.eqb_spec (back l) 0) as [E|E].
  - destruct (rest l) as [|c r] eqn:Er; intros [= <- <-]; simpl; rewrite ?E, ?Er; simpl.
    + split_and!; lia.
    + split_and!; lia.
  - intros [= <- <-]. simpl. split_and!; try lia. destruct (Z.eqb_spec (back l) EOF); simpl; [by left|].
    right. lia.
Qed.

(** A scan of a lexer with [n] characters left: with fuel it ends, and a token
    took [k] of them. *)
Definition scans {A} (n : nat) (r : lexed A * lex) : Prop :=
  match fst r with
  | LFuel => False
  | LTok _ => (left_chars (snd r) < n)%nat
  | _ => (left_chars (snd r) <= n)%nat
  end.

Lemma lex_skip_scans fuel comment l :
  (left_chars l < fuel)%nat ->
  scans (left_chars l) (lex_skip fuel comment l)
  /\ forall ch l', lex_skip fuel comment l = (LTok ch, l') -> is_delim ch = (ch =? chr "=") /\ back l' = 0.
Proof.
  revert comment l. induction fuel as [|fuel IH]; intros comment l Hf; [lia|]. simpl.
  destruct (next l) as [ch l1] eqn:E. destruct (next_left _ _ _ E) as (Hb & Hl & Hr & Hle).
  assert (Hstep : forall c' l2, left_chars l2 = left_chars l1 -> ch <> EOF ->
    scans (left_chars l) (lex_skip fuel c' l2)
    /\ forall ch l', lex_skip fuel c' l2 = (LTok ch, l') -> is_delim ch = (ch =? chr "=") /\ back l' = 0).
  { intros c' l2 E2 Hne. destruct Hl as [?|Hl]; [done|].
    destruct (IH c' l2) as [Hs Ht]; [lia|]. split; [|done].
    unfold scans in *. destruct (fst (lex_skip fuel c' l2)); try lia; done. }
  assert (Heof : scans (left_chars l) (@LEof Z, l1)
    /\ forall ch l', (@LEof Z, l1) = (LTok ch, l') -> is_delim ch = (ch =? chr "=") /\ back l' = 0).
  { split; [unfold scans; simpl; lia|done]. }
  unfold_chr. unfold EOF in *. destruct comment.
  - destruct (Z.eqb_spec ch 10); [apply Hstep; [done|lia]|].
    destruct (Z.eqb_spec ch (-1)); [done|by apply Hstep].
  - destruct (Z.eqb_spec ch 32); [apply Hstep; [done|lia]|].
    destruct (Z.eqb_spec ch 9); [apply Hstep; [done|lia]|]. cbn [orb].
    destruct (Z.eqb_spec ch 10); [apply Hstep; [done|lia]|].
    destruct (Z.eqb_spec ch (-1)); [done|].
    destruct (Z.eqb_spec ch 35); [by apply Hstep|].
    split; [unfold scans; simpl; lia|]. intros ? ? [= <- <-]. split; [|done].
    unfold is_delim, EOF. unfold_chr.
    zcases; lia || done.
Qed.

Lemma again_left ch l :
  back l = 0 -> (left_chars (again ch l) <= left_chars l + (if decide (ch = EOF) then 0 else 1))%nat.
Proof.
  intros Hb. unfold left_chars, again. rewrite Hb. simpl.
  destruct (decide (ch = EOF)) as [->|]; [simpl; lia|]. destruct (_ || _); lia.
Qed.

Lemma skip_indent_some fuel l :
  (left_chars l < fuel)%nat ->
  exists ch l', skip_indent fuel l = Some (ch, l') /\ back l' = 0
    /\ (left_chars (again ch l') <= left_chars l)%nat.
Proof.
  revert l. induction fuel as [|fuel IH]; intros l Hf; [lia|]. simpl.
  destruct (next l) as [ch l1] eqn:E. destruct (next_left _ _ _ E) as (Hb & Hl & Hr & Hle).
  unfold_chr. unfold EOF in *.
  destruct (((ch =? 32) || (ch =? 9))%bool) eqn:Ec.
  - destruct Hl as [->|Hl]; [done|].
    destruct (IH l1) as (ch' & l' & Es & Hb' & Hl'); [lia|].
    exists ch', l'. split_and!; [done..|lia].
  - exists ch, l1. split_and!; [done..|]. pose proof (again_left ch l1 Hb).
    destruct (decide (ch = EOF)); [lia|]. destruct Hl as [?|Hl]; [done|lia].
Qed.

Lemma lex_quoted_scans fuel acc l :
  (left_chars l < fuel)%nat -> scans (S (left_chars l)) (lex_quoted fuel acc l).
Proof.
  revert acc l. induction fuel as [|fuel IH]; intros acc l Hf; [lia|]. simpl.
  destruct (_ <? MAX_TOKEN); [|unfold scans; simpl; lia].
  destruct (next l) as [ch l1] eqn:E. destruct (next_left _ _ _ E) as (Hb & Hl & Hr & Hle).
  destruct (Z.eqb_spec ch EOF); [unfold scans; simpl; lia|]. destruct Hl as [?|Hl]; [done|].
  assert (Hstep : forall acc' l2, (left_chars l2 <= left_chars l1)%nat ->
    scans (S (left_chars l)) (lex_quoted fuel acc' l2)).
  { intros acc' l2 E2. specialize (IH acc' l2 ltac:(lia)).
    unfold scans in *. destruct (fst (lex_quoted fuel acc' l2)); lia || done. }
  destruct (Z.eqb_spec ch 34); [unfold scans; simpl; lia|].
  destruct (Z.eqb_spec ch 92).
  - destruct (next l1) as [ch2 l2] eqn:E2. destruct (next_left _ _ _ E2) as (Hb2 & Hl2 & Hr2 & Hle2).
    destruct (_ || _); [by apply Hstep|].
    destruct (Z.eqb_spec ch2 10).
    + destruct (skip_indent_some fuel l2) as (ch3 & l3 & -> & Hb3 & Hl3); [lia|].
      destruct (Z.eqb_spec ch3 0) as [->|]; [|apply Hstep; lia].
      apply Hstep. unfold left_chars, again in Hl3. simpl in Hl3.
      unfold left_chars. rewrite Hb3. simpl. unfold left_chars in Hle2. lia.
    + destruct (ch2 =? chr "n"); [by apply Hstep|]. unfold scans. simpl. lia.
  - destruct (ch =? 10); [unfold scans; simpl; lia|]. by apply Hstep.
Qed.

Lemma lex_plain_scans fuel ch escaped acc l :
  back l = 0 -> (left_chars l + (if decide (ch = EOF) then 0 else 1) < fuel)%nat ->
  scans (S (left_chars l + (if decide (ch = EOF) then 0 else 1))) (lex_plain fuel ch escaped acc l).
Proof.
  revert ch escaped acc l. induction fuel as [|fuel IH]; intros ch escaped acc l Hb Hf; [lia|]. simpl.
  destruct (_ <? MAX_TOKEN); [|unfold scans; simpl; lia].
  assert (Hstep : forall escaped' acc' l1, ch <> EOF -> back l1 = 0 -> left_chars l1 = left_chars l ->
    scans (S (left_chars l + (if decide (ch = EOF) then 0 else 1)))
      (let '(ch, l2) := next l1 in lex_plain fuel ch escaped' acc' l2)).
  { intros escaped' acc' l1 Hne Hb1 El. rewrite decide_False in * by done.
    destruct (next l1) as [ch2 l2] eqn:E2. destruct (next_left _ _ _ E2) as (Hb2 & Hl2 & Hr2 & Hle2).
    assert (Hm : (left_chars l2 + (if decide (ch2 = EOF) then 0 else 1) <= left_chars l)%nat).
    { destruct Hl2 as [->|Hl2]; [rewrite decide_True by done; lia|]. destruct (decide _); lia. }
    specialize (IH ch2 escaped' acc' l2 Hb2 ltac:(lia)). unfold scans in *.
    destruct (fst (lex_plain fuel ch2 escaped' acc' l2)); lia || done. }
  destruct escaped.
  - destruct (Z.eqb_spec ch EOF); [unfold scans; simpl; lia|].
    destruct (ch =? 10); apply Hstep; done.
  - destruct (is_delim ch) eqn:Ed.
    + unfold scans. simpl. unfold left_chars, again. simpl. rewrite Hb. simpl.
      destruct (Z.eqb_spec ch 0), (Z.eqb_spec ch EOF) as [->|]; simpl; destruct (decide _); lia || done.
    + assert (ch <> EOF). { intros ->. done. }
      apply Hstep; done.
Qed.

Lemma lex_plain_first fuel ch l :
  back l = 0 -> is_delim ch = false -> (left_chars l + 1 < fuel)%nat ->
  scans (S (left_chars l)) (lex_plain fuel ch false [] l).
Proof.
  intros Hb Hd Hf. destruct fuel as [|fuel]; [lia|]. cbn [lex_plain]. rewrite Hd.
  change (Z.of_nat (length []) <? MAX_TOKEN) with true. cbv iota.
  destruct (next l) as [ch2 l2] eqn:E2. destruct (next_left _ _ _ E2) as (Hb2 & Hl2 & Hr2 & Hle2).
  assert (Hm : (left_chars l2 + (if decide (ch2 = EOF) then 0 else 1) <= left_chars l)%nat).
  { destruct Hl2 as [->|Hl2]; [rewrite decide_True by done; lia|]. destruct (decide _); lia. }
  pose proof (lex_plain_scans fuel ch2 (ch =? 92) (if ch =? 92 then [] else [ch]) l2 Hb2
    ltac:(lia)) as Hs.
  unfold scans in *. destruct (fst (lex_plain _ _ _ _ _)); lia || done.
Qed.

(** Reading a token ends, and takes at least one character. *)
Lemma lex_token_scans l : scans (left_chars l) (lex_token l).
Proof.
  unfold lex_token. destruct (lex_skip_scans (lex_fuel l) false l) as [Hs Ht].
  { unfold lex_fuel, left_chars. destruct (_ || _); lia. }
  destruct (lex_skip (lex_fuel l) false l) as [[ch| |msg|] l1]; try done.
  destruct (Ht ch l1 eq_refl) as [Hne Hb]. unfold scans in Hs. simpl in Hs.
  assert (Hlr : left_chars l1 = length (rest l1)) by (unfold left_chars; rewrite Hb; simpl; lia).
  destruct (ch =? chr "="); [done|]. destruct (ch =? 34).
  - pose proof (lex_quoted_scans (lex_fuel l1) [] l1 ltac:(unfold lex_fuel; lia)) as Hq.
    unfold scans in *. destruct (fst (lex_quoted _ _ _)); lia || done.
  - pose proof (lex_plain_first (lex_fuel l1) ch l1 Hb Hne ltac:(unfold lex_fuel; lia)) as Hq.
    unfold scans in *. destruct (fst (lex_plain _ _ _ _ _)); lia || done.
Qed.

(** ** Lemmas: the parser comes to an end *)

Section Ends.
Context {F : Type} {FW : Firmware F}.

Definition fuelfree {A} (c : P F A) : Prop := forall m, fst (c m) <> Undef OutOfFuel.

Lemma fuelfree_bind {A B} (c : P F A) (k : A -> P F B) :
  fuelfree c -> (forall a, fuelfree (k a)) -> fuelfree (c ≫= k).
Proof.
  intros Hc Hk m. specialize (Hc m). unfold mbind, M_bind.
  destruct (c m) as [[a|e|u] m'] eqn:E; simpl in *; [apply Hk|done|congruence].
Qed.

Lemma fuelfree_ret {A} (a : A) : fuelfree (mret a).
Proof. done. Qed.

Lemma fuelfree_call service args nret : fuelfree (call_prom service args nret).
Proof. intros m. by rewrite call_prom_run. Qed.

Lemma fuelfree_putchars s : fuelfree (putchars s).
Proof.
  induction s as [|c s IH]; [done|]. apply fuelfree_bind; [|done]. unfold putchar.
  apply fuelfree_bind; [done|]. intros out. destruct (out =? 0); [done|].
  apply fuelfree_bind; [|intros; apply fuelfree_call]. destruct (c =? 10); [apply fuelfree_call|done].
Qed.

Lemma printk_conv_fuel c args : printk_conv c args <> Undef OutOfFuel.
Proof.
  unfold printk_conv. destruct (_ || _ || _ || _); [by destruct args as [|[]]|].
  destruct (_ || _).
  { destruct args as [|[n| | | |]]; try done. unfold printkns.
    destruct (s32 n <? 0); [destruct (s32 (- s32 n) <? 0)|]; done. }
  destruct (c =? chr "c"); [by destruct args as [|[]]|].
  destruct (c =? chr "s"); [by destruct args as [|[]]|].
  destruct (c =? chr "r"); [by destruct args as [|[]]|].
  destruct (c =? chr "P"); [by destruct args as [|[| | |[]|]]|].
  destruct (c =? chr "p"); [by destruct args as [|[]]|]. done.
Qed.

Lemma vprintk_fuel fmt args : vprintk fmt args <> Undef OutOfFuel.
Proof.
  assert (H : forall n fmt args, (length fmt <= n)%nat -> vprintk fmt args <> Undef OutOfFuel).
  2: by apply (H (length fmt)).
  clear. induction n as [|n IH]; intros [|c fmt] args Hn; simpl in *; try lia; try done.
  destruct (c =? chr "%").
  - destruct fmt as [|d fmt]; [done|]. pose proof (printk_conv_fuel d args) as Hc.
    destruct (printk_conv d args) as [[out args']|e|u]; [|done|congruence].
    specialize (IH fmt args' ltac:(simpl in *; lia)). destruct (vprintk fmt args'); congruence.
  - specialize (IH fmt args ltac:(lia)). destruct (vprintk fmt args); congruence.
Qed.

Lemma fuelfree_printk fmt args : fuelfree (printk fmt args).
Proof.
  unfold printk. pose proof (vprintk_fuel fmt args). destruct (vprintk fmt args); [|done|].
  - apply fuelfree_putchars.
  - intros m. simpl. congruence.
Qed.

Abbreviation K := (M cfg_jmp (mach F * cfg_st)).

(** From a parser state in [P], [c] does not run out of fuel and, when it
    returns, leaves a state in [Q]. *)
Definition cfg_runs {A} (P : cfg_st -> Prop) (c : K A) (Q : A -> cfg_st -> Prop) : Prop :=
  forall m st, P st ->
    match c (m, st) with
    | (Ok a, (_, st')) => Q a st'
    | (Err _, _) => True
    | (Undef u, _) => u <> OutOfFuel
    end.

Lemma cfg_runs_bind {A B} P (c : K A) (k : A -> K B) Q R :
  cfg_runs P c Q -> (forall a, cfg_runs (Q a) (k a) R) -> cfg_runs P (c ≫= k) R.
Proof.
  intros Hc Hk m st HP. specialize (Hc m st HP). unfold mbind, M_bind.
  destruct (c (m, st)) as [[a|e|u] [m' st']]; [|done|done]. by apply Hk.
Qed.

Lemma cfg_runs_ret {A} P (a : A) (Q : A -> cfg_st -> Prop) :
  (forall st, P st -> Q a st) -> cfg_runs P (mret a) Q.
Proof. intros H m st HP. by apply H. Qed.

Lemma cfg_runs_mach {A} P (c : Machine.P F A) :
  fuelfree c -> cfg_runs P (on_mach c) (fun _ => P).
Proof.
  intros Hc m st HP. specialize (Hc m). unfold on_mach. simpl.
  destruct (c m) as [[a|e|u] m']; simpl in *; [done|done|congruence].
Qed.

Lemma cfg_runs_on P f (Q : unit -> cfg_st -> Prop) :
  (forall st, P st -> Q tt (f st)) -> cfg_runs P (on_cfg f) Q.
Proof. intros H m st HP. by apply H. Qed.

Lemma cfg_runs_get {A B} P (f : cfg_st -> A) (k : A -> K B) R :
  (forall a, cfg_runs (fun st => P st /\ f st = a) (k a) R) -> cfg_runs P (getk f ≫= k) R.
Proof. intros H m st HP. exact (H (f st) m st (conj HP eq_refl)). Qed.

Lemma cfg_runs_weaken {A} (P P' : cfg_st -> Prop) (c : K A) (Q Q' : A -> cfg_st -> Prop) :
  cfg_runs P' c Q' -> (forall st, P st -> P' st) -> (forall a st, Q' a st -> Q a st) ->
  cfg_runs P c Q.
Proof.
  intros Hc HP HQ m st Hst. specialize (Hc m st (HP st Hst)).
  destruct (c (m, st)) as [[a|e|u] [m' st']]; auto.
Qed.

Lemma cfg_runs_where P : cfg_runs P cfg_where (fun _ => P).
Proof.
  intros m st HP. unfold cfg_where, getk. rewrite bind_gets.
  by apply (cfg_runs_mach P); [apply fuelfree_printk|].
Qed.

Lemma cfg_runs_error {A} P msg args (Q : A -> cfg_st -> Prop) : cfg_runs P (cfg_error msg args) Q.
Proof.
  eapply cfg_runs_bind; [apply cfg_runs_mach, fuelfree_printk|]. intros ?.
  eapply cfg_runs_bind; [apply cfg_runs_mach, fuelfree_printk|]. intros ?.
  eapply cfg_runs_bind; [apply cfg_runs_where|]. by intros ? m st ?.
Qed.

Lemma cfg_runs_warn P msg args : cfg_runs P (cfg_warn msg args) (fun _ => P).
Proof.
  eapply cfg_runs_bind; [apply cfg_runs_mach, fuelfree_printk|]. intros ?.
  eapply cfg_runs_bind; [apply cfg_runs_mach, fuelfree_printk|]. intros ?. apply cfg_runs_where.
Qed.

(** Tokens that can still be read: the characters left and the token held. *)
Definition weight (st : cfg_st) : nat :=
  left_chars (lx st) + match last_token st with Some _ => 1 | None => 0 end.

(** The items that can still be read. *)
Definition items_left (st : cfg_st) : nat :=
  weight st + match last_item st with Some _ => 1 | None => 0 end.

Lemma cfg_runs_strdup P s : cfg_runs P (strdup s) (fun _ => P).
Proof.
  eapply cfg_runs_bind; [apply cfg_runs_mach; intros m|].
  - unfold do_malloc. by destruct (malloc _ _).
  - intros [a|]; [by apply cfg_runs_ret|]. by intros m st HP.
Qed.

Lemma cfg_runs_get_token n i :
  cfg_runs (fun st => (weight st <= n)%nat /\ last_item st = i) cfg_get_token
    (fun r st => match r with
                 | Some _ => (weight st < n)%nat /\ last_item st = i
                 | None => (weight st <= n)%nat /\ last_item st = i
                 end).
Proof.
  apply cfg_runs_get. intros [t|].
  - eapply cfg_runs_bind.
    { apply cfg_runs_on with (Q := fun _ st => (weight st < n)%nat /\ last_item st = i).
      intros st [[Hw Hi] Ht]. unfold weight in *. simpl. rewrite Ht in Hw. split; [lia|done]. }
    intros ?. by apply cfg_runs_ret.
  - apply cfg_runs_get. intros l. pose proof (lex_token_scans l) as Hs.
    destruct (lex_token l) as [r l']. unfold scans in Hs. simpl in Hs.
    eapply cfg_runs_bind with (Q := fun _ st => last_item st = i /\
      match r with LTok _ => (weight st < n)%nat | LFuel => False | _ => (weight st <= n)%nat end).
    { apply cfg_runs_on. intros st [[[Hw Hi] Ht] Hl]. unfold weight in *. simpl.
      rewrite Ht, Hl in *. split; [done|]. destruct r; lia || done. }
    intros ?. destruct r as [s| |msg|].
    + eapply cfg_runs_bind; [apply cfg_runs_strdup|]. intros t. apply cfg_runs_ret. tauto.
    + apply cfg_runs_ret. tauto.
    + apply cfg_runs_error.
    + by intros m st [_ []].
Qed.

Lemma cfg_runs_next n :
  cfg_runs (fun st => (items_left st <= n)%nat) cfg_next
    (fun r st => match r with
                 | Some _ => (items_left st < n)%nat /\ last_item st = None
                 | None => True
                 end).
Proof.
  apply cfg_runs_get. intros [iv|].
  - eapply cfg_runs_bind.
    { apply cfg_runs_on with (Q := fun _ st => (items_left st < n)%nat /\ last_item st = None).
      intros st [Hw Hi]. unfold items_left, weight in *. simpl. rewrite Hi in Hw. split; [lia|done]. }
    intros ?. by apply cfg_runs_ret.
  - eapply cfg_runs_bind.
    { eapply cfg_runs_weaken; [apply (cfg_runs_get_token n None)| |intros ? ? H; exact H].
      intros st [Hw Hi]. unfold items_left in Hw. split; [lia|done]. }
    intros [item|]; [|by apply cfg_runs_ret].
    destruct (Nat.eq_dec n O) as [->|Hn]; [intros m st [Hw _]; lia|].
    eapply cfg_runs_bind with (Q := fun _ st => (weight st < n)%nat /\ last_item st = None).
    { destruct (strcmp (snd item) eqs =? 0); [apply cfg_runs_error|apply cfg_runs_ret; intros st H; exact H]. }
    intros ?. eapply cfg_runs_bind.
    { eapply cfg_runs_weaken; [apply (cfg_runs_get_token (n - 1) None)| |intros ? ? H; exact H].
      intros st [Hw Hi]. split; [lia|done]. }
    assert (Hil : forall st, (weight st < n)%nat /\ last_item st = None ->
                  (items_left st < n)%nat /\ last_item st = None).
    { intros st [Hw Hi]. unfold items_left. rewrite Hi. split; [lia|done]. }
    intros [this|].
    + destruct (negb _).
      * eapply cfg_runs_bind; [|intros ?; apply cfg_runs_ret; intros st H; apply Hil, H].
        apply cfg_runs_on. intros st [Hw Hi]. unfold weight in *. simpl. split; [lia|done].
      * eapply cfg_runs_bind.
        { eapply cfg_runs_weaken; [apply (cfg_runs_get_token (n - 1) None)| |intros ? ? H; exact H].
          intros st [Hw Hi]. split; [lia|done]. }
        intros [value|]; [|apply cfg_runs_error].
        eapply cfg_runs_bind with (Q := fun _ st => (weight st < n)%nat /\ last_item st = None).
        { destruct (_ =? 0); [apply cfg_runs_error|apply cfg_runs_ret]. intros st [Hw Hi]. split; [lia|done]. }
        intros ?. by apply cfg_runs_ret.
    + apply cfg_runs_ret. intros st [Hw Hi]. unfold items_left. rewrite Hi. split; [lia|done].
Qed.

Lemma cfg_runs_entry P w value : cfg_runs P (set_entry w value) (fun _ => P).
Proof.
  unfold set_entry.
  assert (Hdup : forall (w' : config), cfg_runs P
    ((if c_data w is Some _ then cfg_warn (str "Duplicate entry '%s'") [KStr (Some (c_name w))]
      else mret tt);; mret w') (fun _ => P)).
  { intros w'. eapply cfg_runs_bind with (Q := fun _ => P); [|intros ?; by apply cfg_runs_ret].
    destruct (c_data w); [apply cfg_runs_warn|by apply cfg_runs_ret]. }
  destruct value, (decide _); try apply Hdup.
  all: eapply cfg_runs_bind; [apply cfg_runs_warn|intros ?; by apply cfg_runs_ret].
Qed.

Lemma cfg_runs_walk P t item value : cfg_runs P (set_walk t item value) (fun _ => P).
Proof.
  induction t as [|w t IH]; [by apply cfg_runs_ret|]. cbn [set_walk].
  destruct (_ =? 0).
  - eapply cfg_runs_bind; [apply cfg_runs_entry|]. intros ?. by apply cfg_runs_ret.
  - eapply cfg_runs_bind; [exact IH|]. intros ?. by apply cfg_runs_ret.
Qed.

Lemma cfg_runs_set n item value :
  cfg_runs (fun st => (items_left st < n)%nat /\ last_item st = None) (cfg_set item value)
    (fun ok st => if ok : bool then (items_left st < n)%nat else True).
Proof.
  unfold cfg_set.
  eapply cfg_runs_bind with (Q := fun _ st => (items_left st < n)%nat).
  { destruct (_ =? 0); [|apply cfg_runs_ret; intros st H; apply H].
    eapply cfg_runs_bind; [apply cfg_runs_mach|].
    - intros m. unfold do_malloc. by destruct (malloc _ _).
    - intros [a|]; [|by intros m st ?].
      eapply cfg_runs_bind; [by apply cfg_runs_mach|]. intros ?. apply cfg_runs_on.
      intros st H. apply H. }
  intros ?. apply cfg_runs_get. intros t.
  eapply cfg_runs_bind; [apply cfg_runs_walk|]. intros [t'|].
  - eapply cfg_runs_bind with (Q := fun _ st => (items_left st < n)%nat);
      [|intros ?; apply cfg_runs_ret; intros st H; exact H].
    apply cfg_runs_on. intros st [H _]. unfold put_table. by destruct (curr_table st).
  - eapply cfg_runs_bind with (Q := fun _ _ => True); [by apply cfg_runs_on|].
    intros ?. by apply cfg_runs_ret.
Qed.

Lemma cfg_runs_loop fuel :
  cfg_runs (fun st => (items_left st < fuel)%nat) (parse_loop fuel) (fun _ _ => True).
Proof.
  induction fuel as [|fuel IH]; [intros m st H; lia|]. cbn [parse_loop].
  eapply cfg_runs_bind.
  { eapply cfg_runs_weaken; [apply (cfg_runs_next fuel)| |intros ? ? H; exact H].
    intros st H. cbn beta in *. lia. }
  intros [[item value]|]; [|by apply cfg_runs_ret].
  eapply cfg_runs_bind; [apply (cfg_runs_set fuel)|]. intros [|]; [|by apply cfg_runs_ret].
  eapply cfg_runs_bind; [by apply cfg_runs_mach|]. intros ?. exact IH.
Qed.

End Ends.
