(* ===== verification/CfgTables.v ===== *)
(** * The tables of the configuration

    Whatever the file holds, the parser keeps its tables in shape: each has the
    entries of its template, in order and of their types, a set flag is empty,
    every string was short enough for the lexer's buffer, and the current table
    exists - also when the parse is abandoned halfway. *)
From Stdlib Require Import ZArith Lia Ascii.
From stdpp Require Import prelude strings.
From S2P Require Import Prelude Quik CString Util Malloc Printf Machine Prom Cfg.

(** ** The invariant *)

(** A string the lexer's buffer holds with its NUL. *)
Definition short (s : cstr) : Prop := Z.of_nat (length s) < MAX_TOKEN.

(** What an entry may hold. *)
Definition entry_ok (w : config) : Prop :=
  match c_data w with
  | Some v => short v /\ (c_type w = cft_flag -> v = [])
  | None => True
  end.

(** The columns of a table that never change. *)
Definition columns (t : list config) : list (config_type * cstr) :=
  map (fun w => (c_type w, c_name w)) t.

Definition table_ok (template t : list config) : Prop :=
  columns t = columns template /\ Forall entry_ok t.

Definition cfg_ok (st : cfg_st) : Prop :=
  table_ok cf_options (options st)
  /\ Forall (table_ok cf_image) (images st)
  /\ match curr_table st with Some k => (k < length (images st))%nat | None => True end
  /\ match last_token st with Some t => short (snd t) | None => True end
  /\ match last_item st with Some (_, Some v) => short (snd v) | _ => True end.

(** ** Tokens *)

Definition short_token (r : lexed cstr) : Prop :=
  match r with LTok t => short t | _ => True end.

Lemma lex_quoted_short fuel acc l : short_token (fst (lex_quoted fuel acc l)).
Proof.
  revert acc l. induction fuel as [|fuel IH]; intros acc l; [done|]. cbn [lex_quoted].
  destruct (Z.ltb_spec (Z.of_nat (length acc)) MAX_TOKEN); [|done].
  destruct (next l) as [ch l1]. destruct (ch =? EOF); [done|].
  destruct (ch =? 34); [by unfold short_token, short; cbn [fst]; rewrite length_rev|].
  destruct (ch =? 92); [|destruct (ch =? 10); [done|apply IH]].
  destruct (next l1) as [ch2 l2]. destruct (_ || _); [apply IH|].
  destruct (ch2 =? 10); [|by destruct (ch2 =? chr "n"); [apply IH|]].
  destruct (skip_indent fuel l2) as [[ch3 l3]|]; [|done]. destruct (ch3 =? 0); apply IH.
Qed.

Lemma lex_plain_short fuel ch escaped acc l : short_token (fst (lex_plain fuel ch escaped acc l)).
Proof.
  revert ch escaped acc l. induction fuel as [|fuel IH]; intros ch escaped acc l; [done|].
  cbn [lex_plain]. destruct (Z.ltb_spec (Z.of_nat (length acc)) MAX_TOKEN); [|done].
  destruct escaped.
  - destruct (ch =? EOF); [done|].
    destruct (ch =? 10); [destruct (next (newline l))|destruct (next l)]; apply IH.
  - destruct (is_delim ch); [by unfold short_token, short; cbn [fst]; rewrite length_rev|].
    destruct (next l); apply IH.
Qed.

Lemma lex_token_short l : short_token (fst (lex_token l)).
Proof.
  unfold lex_token. destruct (lex_skip _ _ _) as [[ch| | |] l1]; try done.
  destruct (ch =? chr "="); [done|].
  destruct (ch =? 34); [apply lex_quoted_short|apply lex_plain_short].
Qed.

Lemma until_nul_length s : (length (until_nul s) <= length s)%nat.
Proof. induction s as [|c s IH]; simpl; [lia|]. destruct (c =? 0); simpl; lia. Qed.

(** ** Tables *)

Lemma table_ok_insert ims k t :
  Forall (table_ok cf_image) ims -> table_ok cf_image t -> Forall (table_ok cf_image) (<[k := t]> ims).
Proof. intros H1 H2. by apply Forall_insert. Qed.

(** A value that can be set: short, or none. *)
Definition value_ok (v : option cstr) : Prop := match v with Some v => short v | None => True end.

Section Tables.
Context {F : Type} {FW : Firmware F}.

Abbreviation K := (M cfg_jmp (mach F * cfg_st)).

(** [c] keeps [I] however it ends, and returns a value in [Q]. *)
Definition keeps {A} (I : cfg_st -> Prop) (c : K A) (Q : A -> Prop) : Prop :=
  forall m st, I st ->
    match c (m, st) with
    | (Ok a, (_, st')) => I st' /\ Q a
    | (Err _, (_, st')) | (Undef _, (_, st')) => I st'
    end.

Lemma keeps_bind {A B} I (c : K A) (k : A -> K B) Q R :
  keeps I c Q -> (forall a, Q a -> keeps I (k a) R) -> keeps I (c ≫= k) R.
Proof.
  intros Hc Hk m st Hst. specialize (Hc m st Hst). unfold mbind, M_bind.
  destruct (c (m, st)) as [[a|e|u] [m' st']]; [|done|done].
  destruct Hc as [Hst' Ha]. by apply Hk.
Qed.

Lemma keeps_ret {A} I (a : A) (Q : A -> Prop) : Q a -> keeps I (mret a) Q.
Proof. intros Ha m st Hst. by split. Qed.

Lemma keeps_mach {A} I (c : Machine.P F A) : keeps I (on_mach c) (fun _ => True).
Proof. intros m st Hst. unfold on_mach. simpl. by destruct (c m) as [[a|e|u] m']. Qed.

Lemma keeps_on (I : cfg_st -> Prop) f : (forall st, I st -> I (f st)) -> keeps I (on_cfg f) (fun _ => True).
Proof. intros H m st Hst. split; [by apply H|done]. Qed.

Lemma keeps_get {A B} I (f : cfg_st -> A) (Q : A -> Prop) (k : A -> K B) R :
  (forall st, I st -> Q (f st)) -> (forall a, Q a -> keeps I (k a) R) -> keeps I (getk f ≫= k) R.
Proof. intros Hf Hk m st Hst. exact (Hk (f st) (Hf st Hst) m st Hst). Qed.

Lemma keeps_undef {A} I u (Q : A -> Prop) : keeps I (undef u) Q.
Proof. by intros m st Hst. Qed.

Lemma keeps_where I : keeps I cfg_where (fun _ => True).
Proof. apply (keeps_get I _ (fun _ => True)); [done|]. intros c _. apply keeps_mach. Qed.

Lemma keeps_error {A} I msg args (Q : A -> Prop) : keeps I (cfg_error msg args) Q.
Proof.
  eapply keeps_bind; [apply keeps_mach|]. intros _ _.
  eapply keeps_bind; [apply keeps_mach|]. intros _ _.
  eapply keeps_bind; [apply keeps_where|]. by intros _ _ m st Hst.
Qed.

Lemma keeps_warn I msg args : keeps I (cfg_warn msg args) (fun _ => True).
Proof.
  eapply keeps_bind; [apply keeps_mach|]. intros _ _.
  eapply keeps_bind; [apply keeps_mach|]. intros _ _. apply keeps_where.
Qed.

(** The check that ends in an error or goes on. *)
Lemma keeps_guard {A} I (b : bool) msg args (k : unit -> K A) Q :
  keeps I (k tt) Q -> keeps I ((if b then cfg_error msg args else mret tt) ≫= k) Q.
Proof.
  intros Hk. destruct b.
  - apply keeps_bind with (Q := fun _ => True); [apply keeps_error|]. by intros [] _.
  - exact Hk.
Qed.

Lemma keeps_warn_if I (o : option cstr) msg args :
  keeps I (if o is Some _ then cfg_warn msg args else mret tt) (fun _ => True).
Proof. destruct o; [apply keeps_warn|by apply keeps_ret]. Qed.

(** ** The parser *)

Lemma keeps_strdup I s : short s -> keeps I (strdup s) (fun t => short (snd t)).
Proof.
  intros Hs. eapply keeps_bind; [apply keeps_mach|]. intros [a|] _; [|apply keeps_undef].
  apply keeps_ret. unfold short in *. cbn [snd]. pose proof (until_nul_length s). lia.
Qed.

Definition token_ok (t : option token) : Prop := match t with Some t => short (snd t) | None => True end.

Lemma keeps_get_token : keeps cfg_ok cfg_get_token token_ok.
Proof.
  apply (keeps_get _ _ token_ok); [by intros st (_ & _ & _ & H & _)|]. intros [t|] Ht.
  - eapply keeps_bind; [apply keeps_on|by intros _ _; apply keeps_ret].
    intros st (H1 & H2 & H3 & _ & H5). by split_and!.
  - apply (keeps_get _ _ (fun _ => True)); [done|]. intros l _.
    pose proof (lex_token_short l) as Hs. destruct (lex_token l) as [r l'].
    eapply keeps_bind; [by apply keeps_on|]. intros _ _.
    destruct r as [s| |msg|]; [|by apply keeps_ret|apply keeps_error|apply keeps_undef].
    eapply keeps_bind; [by apply keeps_strdup|]. intros t Ht'. by apply keeps_ret.
Qed.

Definition item_short (iv : option (token * option token)) : Prop :=
  match iv with Some (_, Some v) => short (snd v) | _ => True end.

Lemma keeps_next : keeps cfg_ok cfg_next item_short.
Proof.
  apply (keeps_get _ _ item_short); [by intros st (_ & _ & _ & _ & H)|]. intros [iv|] Hiv.
  - eapply keeps_bind; [apply keeps_on|by intros _ _; apply keeps_ret].
    intros st (H1 & H2 & H3 & H4 & _). by split_and!.
  - eapply keeps_bind; [apply keeps_get_token|]. intros [item|] _; [|by apply keeps_ret].
    apply keeps_guard. eapply keeps_bind; [apply keeps_get_token|].
    intros [this|] Hthis; [|by apply keeps_ret]. destruct (negb _).
    + eapply keeps_bind; [apply keeps_on|by intros _ _; apply keeps_ret].
      intros st (H1 & H2 & H3 & _ & H5). by split_and!.
    + eapply keeps_bind; [apply keeps_get_token|]. intros [value|] Hv; [|apply keeps_error].
      apply keeps_guard. by apply keeps_ret.
Qed.

Lemma keeps_set_entry I w value :
  entry_ok w -> value_ok value ->
  keeps I (set_entry w value)
    (fun w' => c_type w' = c_type w /\ c_name w' = c_name w /\ entry_ok w').
Proof.
  intros Hw Hv. unfold set_entry. destruct value as [v|]; destruct (decide (c_type w = cft_strg)) as [E|E].
  - eapply keeps_bind; [apply keeps_warn_if|]. intros _ _. apply keeps_ret. split_and!; [done..|].
    unfold entry_ok. cbn [c_data c_type]. split; [done|]. by rewrite E.
  - eapply keeps_bind; [apply keeps_warn|]. intros _ _. by apply keeps_ret.
  - eapply keeps_bind; [apply keeps_warn|]. intros _ _. by apply keeps_ret.
  - eapply keeps_bind; [apply keeps_warn_if|]. intros _ _. by apply keeps_ret.
Qed.

Lemma keeps_set_walk I t item value :
  Forall entry_ok t -> value_ok value ->
  keeps I (set_walk t item value)
    (fun r => match r with
              | Some t' => columns t' = columns t /\ Forall entry_ok t' | None => True end).
Proof.
  intros Ht Hv. induction Ht as [|w t Hw Ht IH]; [by apply keeps_ret|]. cbn [set_walk].
  destruct (_ =? 0).
  - eapply keeps_bind; [by apply keeps_set_entry|]. intros w' (E1 & E2 & Hw'). apply keeps_ret.
    split; [by unfold columns; cbn [map]; rewrite E1, E2|by constructor].
  - eapply keeps_bind; [exact IH|]. intros [t'|] Hr; apply keeps_ret; [|done].
    destruct Hr as [E Hr]. split; [by unfold columns in *; cbn [map]; rewrite E|by constructor].
Qed.

(** Where the walk of [cfg_set] runs: the current table. *)
Lemma keeps_set_current item value :
  (match value with Some v => short (snd v) | None => True end) ->
  keeps cfg_ok
    (t ← getk get_table;
     r ← set_walk t (snd item) (snd <$> value);
     match r with
     | Some t' => on_cfg (put_table t');; mret true
     | None => on_cfg (set_last_item (Some (item, value)));; mret false
     end) (fun _ => True).
Proof.
  intros Hv m st Hst. unfold getk. rewrite bind_gets. cbn [snd].
  pose proof Hst as (Ho & Hi & Hk & Ht & Hl).
  set (tmpl := match curr_table st with None => cf_options | Some _ => cf_image end).
  assert (Htab : table_ok tmpl (get_table st)).
  { unfold get_table, tmpl. destruct (curr_table st) as [k|]; [|done].
    destruct (lookup_lt_is_Some_2 _ _ Hk) as [t E]. rewrite E. exact (Forall_lookup_1 _ _ _ _ Hi E). }
  destruct Htab as [Hcol Hent].
  assert (Hvo : value_ok (snd <$> value)) by (by destruct value).
  pose proof (keeps_set_walk (fun x => x = st) (get_table st) (snd item) (snd <$> value) Hent Hvo m st eq_refl) as Hw.
  unfold mbind, M_bind. destruct (set_walk _ _ _ _) as [[[t'|]|e|u] [m' st']]; [| |by subst|by subst].
  - destruct Hw as [-> [E Hf]]. cbn. split; [|done].
    assert (Htab' : table_ok tmpl t') by (split; [by rewrite E|done]). unfold tmpl in Htab'.
    unfold put_table. destruct (curr_table st) as [k|] eqn:Ek.
    + split_and!; cbn; try done; [by apply table_ok_insert|by rewrite length_insert].
    + by split_and!.
  - destruct Hw as [-> _]. cbn. split; [|done]. by split_and!.
Qed.

Lemma keeps_set item value :
  (match value with Some v => short (snd v) | None => True end) ->
  keeps cfg_ok (cfg_set item value) (fun _ => True).
Proof.
  intros Hv. unfold cfg_set. eapply keeps_bind with (Q := fun _ => True).
  - destruct (_ =? 0); [|by apply keeps_ret].
    eapply keeps_bind; [apply keeps_mach|]. intros [p|] _; [|apply keeps_undef].
    eapply keeps_bind; [apply keeps_mach|]. intros _ _. apply keeps_on.
    intros st (Ho & Hi & Hk & Ht & Hl). split_and!; try done; cbn.
    + apply Forall_app. split; [done|]. constructor; [|done]. split; [done|]. by repeat constructor.
    + rewrite length_app. cbn. lia.
  - intros _ _. by apply keeps_set_current.
Qed.

Lemma keeps_parse_loop fuel : keeps cfg_ok (parse_loop fuel) (fun _ => True).
Proof.
  induction fuel as [|fuel IH]; [apply keeps_undef|]. cbn [parse_loop].
  eapply keeps_bind; [apply keeps_next|]. intros [[item value]|] Hv; [|by apply keeps_ret].
  eapply keeps_bind; [by apply keeps_set|]. intros [|] _; [|by apply keeps_ret].
  eapply keeps_bind; [apply keeps_mach|]. intros _ _. exact IH.
Qed.

Lemma keeps_cfg_parse file buff : keeps cfg_ok (cfg_parse file buff) (fun _ => True).
Proof.
  unfold cfg_parse. eapply keeps_bind; [by apply keeps_on|]. intros _ _.
  intros m st Hst. pose proof (keeps_parse_loop (parse_fuel buff) m st Hst) as H.
  unfold attempt, mbind, M_bind. destruct (parse_loop _ _) as [[a|[]|u] [m' st']]; by cbn.
Qed.

End Tables.

(** The tables a parse starts from. *)
Lemma cfg_init_ok : cfg_ok cfg_init.
Proof.
  unfold cfg_ok. split; [split; [reflexivity|]|].
  - cbn [options cfg_init cf_options]. repeat (apply List.Forall_cons; [exact Logic.I|]). constructor.
  - split; [constructor|]. split; [exact Logic.I|]. by split.
Qed.

(** ** Queries *)

Lemma table_value_short t item v :
  Forall entry_ok t -> cfg_get_strg_i t item = Some v -> short v.
Proof.
  induction 1 as [|w t Hw Ht IH]; [done|]. cbn [cfg_get_strg_i].
  destruct (_ =? 0); [|done]. intros E. unfold entry_ok in Hw. rewrite E in Hw. apply Hw.
Qed.

(** Every value a query of the tables gives was short enough. *)
Lemma query_short st image item v :
  cfg_ok st -> cfg_get_strg st image item = Ok (Some v) -> short v.
Proof.
  intros ([_ Ho] & Hi & _) E. unfold cfg_get_strg in E. destruct image as [image|].
  - induction Hi as [|t ims [_ Ht] Hi IH]; [done|]. cbn [images_get] in E.
    destruct (image_label t) as [l|]; [|done]. destruct (image_matches t l image); [|by apply IH].
    injection E as E. destruct (cfg_get_strg_i t item) eqn:E1.
    + injection E as <-. exact (table_value_short t item _ Ht E1).
    + exact (table_value_short _ item _ Ho E).
  - injection E as E. exact (table_value_short _ item _ Ho E).
Qed.
