(* ===== verification/CfgText.v ===== *)
(** * Configuration texts

    A file written from a list of items - each after blanks and comments, its
    value in quotes with the characters that need it escaped - is lexed into the
    tokens of the items and parsed into the tables the items describe. *)
From Stdlib Require Import ZArith Lia Ascii.
From stdpp Require Import prelude strings.
From S2P Require Import Prelude Quik CString Util Malloc Printf Machine Prom Cfg.

(** ** Specification *)

(** White space and comments. *)
Inductive gap : list Z -> Prop :=
| gap_nil : gap []
| gap_blank c g : c = chr " " \/ c = 9 \/ c = 10 -> gap g -> gap (c :: g)
| gap_comment body g : 10 ∉ body -> bytes_ok body -> gap g ->
    gap (chr "#" :: body ++ 10 :: g).

(** A name that needs no quotes. *)
Definition plain_char (c : Z) : Prop := 0 < c < 256 /\ is_delim c = false /\ c <> 34 /\ c <> 92.
Definition plain_word (w : cstr) : Prop :=
  w <> [] /\ Forall plain_char w /\ Z.of_nat (length w) < MAX_TOKEN.

(** A quoted string. *)
Definition esc (c : Z) : list Z :=
  if c =? 34 then [92; 34] else if c =? 92 then [92; 92] else if c =? 10 then [92; chr "n"] else [c].
Definition quote (s : cstr) : list Z := 34 :: mjoin (map esc s) ++ [34].
Definition quotable (s : cstr) : Prop := cstr_ok s /\ Z.of_nat (length s) < MAX_TOKEN.

(** An item of a file: what precedes it, its name, its value. *)
Record item := mk_item { it_gap : list Z; it_name : cstr; it_value : option cstr }.

Definition item_ok (i : item) : Prop :=
  gap (it_gap i) /\ plain_word (it_name i)
  /\ match it_value i with Some v => quotable v /\ v <> eqs | None => True end.

Definition item_text (i : item) : list Z :=
  it_gap i ++ it_name i ++
  match it_value i with Some v => chr " " :: chr "=" :: chr " " :: quote v | None => [] end ++ [10].

Definition cfg_text (items : list item) (trail : list Z) : list Z :=
  mjoin (map item_text items) ++ trail.

Definition item_tokens (i : item) : list cstr :=
  it_name i :: match it_value i with Some v => [eqs; v] | None => [] end.

(** The tables: an [image] item starts a new one, every item is then set in the
    current one. *)
Record tables := mk_tables { tb_options : list config; tb_images : list (list config); tb_cur : option nat }.

(** The entry set, when nothing is wrong: a string option gets a value, a flag
    none, and neither was set before. *)
Definition entry_after (w : config) (value : option cstr) : option config :=
  match c_data w, value with
  | Some _, _ => None
  | None, Some v =>
      if decide (c_type w = cft_strg) then Some (mk_config (c_type w) (c_name w) (Some v)) else None
  | None, None =>
      if decide (c_type w = cft_strg) then None else Some (mk_config (c_type w) (c_name w) (Some []))
  end.

Fixpoint walk_after (t : list config) (name : cstr) (value : option cstr) : option (list config) :=
  match t with
  | [] => None
  | w :: t' =>
      if strcasecmp (c_name w) name =? 0 then (.:: t') <$> entry_after w value
      else (w ::.) <$> walk_after t' name value
  end.

Definition start_image (name : cstr) (tb : tables) : tables :=
  if strcasecmp name (str "image") =? 0
  then mk_tables (tb_options tb) (tb_images tb ++ [cf_image]) (Some (length (tb_images tb)))
  else tb.

Definition set_current (f : list config -> option (list config)) (tb : tables) : option tables :=
  match tb_cur tb with
  | None => (fun o => mk_tables o (tb_images tb) None) <$> f (tb_options tb)
  | Some k =>
      (fun t => mk_tables (tb_options tb) (<[k := t]> (tb_images tb)) (Some k))
      <$> f (default [] (tb_images tb !! k))
  end.

Definition apply_item (tb : tables) (i : item) : option tables :=
  set_current (fun t => walk_after t (it_name i) (it_value i)) (start_image (it_name i) tb).

Fixpoint apply_items (tb : tables) (items : list item) : option tables :=
  match items with
  | [] => Some tb
  | i :: items' => tb' ← apply_item tb i; apply_items tb' items'
  end.

(** The heap the tokens and image tables of a file take. *)
Definition token_cost (t : cstr) : Z := Z.of_nat (length t) + 9.
Definition item_cost (i : item) : Z :=
  foldr Z.add 0 (map token_cost (item_tokens i)) + (SIZEOF_IMAGES + 8).
Definition items_cost (items : list item) : Z := foldr Z.add 0 (map item_cost items).

(** ** Lemmas: the characters ahead *)

(** The characters [l] will give. *)
Definition ahead (l : lex) (s : list Z) : Prop :=
  (back l = 0 /\ rest l = s)
  \/ (back l <> 0 /\ back l <> EOF /\ s = back l :: rest l)
  \/ (back l = EOF /\ rest l = [] /\ s = []).

Lemma next_cons l c s : ahead l (c :: s) ->
  exists l', next l = (c, l') /\ back l' = 0 /\ ahead l' s /\ (length (rest l') <= length (rest l))%nat.
Proof.
  unfold next, getc. intros [[Hb Hr]|[(Hb & He & Hr)|(_ & _ & ?)]]; [| |done].
  - rewrite Hb, Hr. eexists. split_and!; [reflexivity|done|left; done|simpl; lia].
  - injection Hr as -> ->. destruct (Z.eqb_spec (back l) 0); [done|].
    eexists. split_and!; [reflexivity|done|by left|simpl; lia].
Qed.

Lemma next_nil l : ahead l [] -> exists l', next l = (EOF, l') /\ back l' = 0 /\ ahead l' [].
Proof.
  unfold next, getc. intros [[Hb Hr]|[(Hb & He & Hr)|(Hb & Hr & _)]]; [|done|].
  - rewrite Hb, Hr. exists l. split_and!; [done|done|by left].
  - rewrite Hb. eexists. split_and!; [reflexivity|done|by left].
Qed.

Lemma ahead_again l c s : ahead l s -> back l = 0 -> c <> 0 -> c <> EOF -> ahead (again c l) (c :: s).
Proof.
  intros [[_ Hr]|[[Hx _]|[Hx _]]] Hb Hc He; [|congruence|].
  - right; left. simpl. by rewrite Hr.
  - unfold EOF in *. lia.
Qed.

Lemma ahead_length l s : ahead l s -> (length s <= length (rest l) + 1)%nat.
Proof. intros [[_ <-]|[(_ & _ & ->)|(_ & _ & ->)]]; simpl; lia. Qed.

Lemma ahead_newline l s : ahead l s -> ahead (newline l) s.
Proof. done. Qed.

(** A comment is skipped up to its newline. *)
Lemma lex_skip_comment body r l fuel :
  10 ∉ body -> bytes_ok body -> ahead l (body ++ 10 :: r) -> (length body < fuel)%nat ->
  exists l', lex_skip fuel true l = lex_skip (fuel - length body - 1) false l' /\ ahead l' r.
Proof.
  revert l fuel. induction body as [|x body IH]; intros l fuel Hn Hok Ha Hf;
    (destruct fuel as [|fuel]; [simpl in Hf; lia|]);
    destruct (next_cons _ _ _ Ha) as (l1 & E & Hb1 & Ha1 & _); cbn [lex_skip]; rewrite E.
  - exists (newline l1). cbn. by rewrite Nat.sub_0_r.
  - apply not_elem_of_cons in Hn as [Hx Hn]. apply Forall_cons in Hok as [Hxb Hok].
    unfold is_byte in Hxb. destruct (Z.eqb_spec x 10); [lia|].
    destruct (Z.eqb_spec x EOF); [unfold EOF in *; lia|]. simpl in Hf.
    destruct (IH l1 fuel Hn Hok Ha1 ltac:(lia)) as (l' & E' & Ha'). by exists l'.
Qed.

(** Skipping what separates tokens. *)
Lemma lex_skip_gap g l r fuel :
  gap g -> ahead l (g ++ r) -> (length g < fuel)%nat ->
  exists l' fuel', lex_skip fuel false l = lex_skip (S fuel') false l' /\ ahead l' r.
Proof.
  intros Hg. revert l fuel. induction Hg as [|b g Hb Hg IH|body g Hbody Hok Hg IH];
    intros l fuel Ha Hf; (destruct fuel as [|fuel]; [simpl in Hf; lia|]).
  - by exists l, fuel.
  - destruct (next_cons _ _ _ Ha) as (l1 & E & Hb1 & Ha1 & _). cbn [lex_skip]. rewrite E.
    simpl in Hf. destruct Hb as [-> | [-> | ->]]; cbn; apply IH; try done; lia.
  - replace ((chr "#" :: body ++ 10 :: g) ++ r) with (chr "#" :: body ++ 10 :: g ++ r) in Ha
      by (cbn [app]; by rewrite <- app_assoc).
    destruct (next_cons _ _ _ Ha) as (l1 & E & Hb1 & Ha1 & _). cbn [lex_skip]. rewrite E. cbn.
    simpl in Hf. rewrite length_app in Hf. simpl in Hf.
    destruct (lex_skip_comment body (g ++ r) l1 fuel Hbody Hok Ha1 ltac:(lia)) as (l2 & -> & Ha2).
    apply IH; [done|lia].
Qed.

Lemma lex_skip_char g l c s fuel :
  gap g -> ahead l (g ++ c :: s) -> is_delim c = (c =? chr "=") -> (length g < fuel)%nat ->
  exists l', lex_skip fuel false l = (LTok c, l') /\ back l' = 0 /\ ahead l' s.
Proof.
  intros Hg Ha Hc Hf. destruct (lex_skip_gap g l (c :: s) fuel Hg Ha Hf) as (l1 & n & -> & Ha1).
  destruct (next_cons _ _ _ Ha1) as (l2 & E & Hb2 & Ha2 & _). exists l2. split; [|done].
  cbn [lex_skip]. rewrite E. unfold is_delim, EOF in *. unfold_chr.
  destruct (Z.eqb_spec c 32), (Z.eqb_spec c 9), (Z.eqb_spec c 10), (Z.eqb_spec c 35),
    (Z.eqb_spec c (-1)), (Z.eqb_spec c 61); done || lia.
Qed.

Lemma lex_skip_end g l fuel :
  gap g -> ahead l g -> (length g < fuel)%nat ->
  exists l', lex_skip fuel false l = (LEof, l') /\ ahead l' [].
Proof.
  intros Hg Ha Hf. rewrite <- (app_nil_r g) in Ha.
  destruct (lex_skip_gap g l [] fuel Hg Ha Hf) as (l1 & n & -> & Ha1).
  destruct (next_nil _ Ha1) as (l2 & E & _ & Ha2). cbn [lex_skip]. rewrite E. by exists l2.
Qed.

(** ** Lemmas: tokens *)

Lemma lex_plain_word w acc c l d s fuel :
  Forall plain_char (c :: w) -> is_delim d = true -> 0 < d < 256 -> back l = 0 ->
  ahead l (w ++ d :: s) -> (length w + 1 < fuel)%nat ->
  Z.of_nat (length acc + length w) + 1 < MAX_TOKEN ->
  exists l', lex_plain fuel c false acc l = (LTok (rev acc ++ c :: w), l') /\ ahead l' (d :: s).
Proof.
  revert acc c l fuel. induction w as [|x w IH]; intros acc c l fuel Hw Hd Hd0 Hb Ha Hf Hmax;
    (destruct fuel as [|fuel]; [simpl in Hf; lia|]);
    apply Forall_cons in Hw as [(Hc0 & Hcd & Hcq & Hcb) Hw]; cbn [lex_plain];
    (destruct (Z.ltb_spec (Z.of_nat (length acc)) MAX_TOKEN); [|lia]); rewrite Hcd;
    (destruct (Z.eqb_spec c 92); [done|]);
    destruct (next_cons _ _ _ Ha) as (l1 & E & Hb1 & Ha1 & _); rewrite E.
  - destruct fuel as [|fuel]; [simpl in Hf; lia|]. cbn [lex_plain]. rewrite Hd.
    simpl in Hmax. cbn [length].
    destruct (Z.ltb_spec (Z.of_nat (S (length acc))) MAX_TOKEN); [|lia].
    exists (again d l1). split; [done|]. apply ahead_again; try done; unfold EOF; lia.
  - simpl in Hf, Hmax.
    destruct (IH (c :: acc) x l1 fuel) as (l' & E' & Ha'); try done; [lia|simpl; lia|].
    exists l'. split; [|done]. rewrite E'. simpl. by rewrite <- app_assoc.
Qed.

Lemma lex_quoted_string v acc l s fuel :
  cstr_ok v -> ahead l (mjoin (map esc v) ++ 34 :: s) -> (length v < fuel)%nat ->
  Z.of_nat (length acc + length v) < MAX_TOKEN ->
  exists l', lex_quoted fuel acc l = (LTok (rev acc ++ v), l') /\ back l' = 0 /\ ahead l' s.
Proof.
  revert acc l fuel. induction v as [|x v IH]; intros acc l fuel Hv Ha Hf Hmax;
    (destruct fuel as [|fuel]; [simpl in Hf; lia|]); cbn [lex_quoted];
    (destruct (Z.ltb_spec (Z.of_nat (length acc)) MAX_TOKEN); [|lia]).
  - destruct (next_cons _ _ _ Ha) as (l1 & E & Hb1 & Ha1 & _). rewrite E. cbn.
    exists l1. by rewrite app_nil_r.
  - apply Forall_cons in Hv as [Hx Hv]. simpl in Hf, Hmax.
    assert (Hrec : forall l1, ahead l1 (mjoin (map esc v) ++ 34 :: s) ->
      exists l', lex_quoted fuel (x :: acc) l1 = (LTok (rev acc ++ x :: v), l')
        /\ back l' = 0 /\ ahead l' s).
    { intros l1 Ha1. destruct (IH (x :: acc) l1 fuel Hv Ha1) as (l' & E' & Hb' & Ha');
        [lia|simpl; lia|]. exists l'. rewrite E'. simpl. by rewrite <- app_assoc. }
    cbn [map] in Ha. change (mjoin (?a :: ?b)) with (a ++ mjoin b) in Ha. rewrite <- app_assoc in Ha.
    unfold esc in Ha at 1. unfold_chr.
    destruct (Z.eqb_spec x 34) as [->|]; [|destruct (Z.eqb_spec x 92) as [->|];
      [|destruct (Z.eqb_spec x 10) as [->|]]]; cbn [app] in Ha;
      destruct (next_cons _ _ _ Ha) as (l1 & E & Hb1 & Ha1 & _); rewrite E.
    1-3: destruct (next_cons _ _ _ Ha1) as (l2 & E2 & Hb2 & Ha2 & _); cbn; rewrite E2; cbn; by apply Hrec.
    destruct (Z.eqb_spec x EOF); [unfold EOF in *; lia|].
    destruct (Z.eqb_spec x 34); [done|]. destruct (Z.eqb_spec x 92); [done|].
    destruct (Z.eqb_spec x 10); [done|]. by apply Hrec.
Qed.

(** The tokens a lexer gives up to the end of the file. *)
Inductive lexes : lex -> list cstr -> Prop :=
| lexes_end l l' : lex_token l = (LEof, l') -> ahead l' [] -> lexes l []
| lexes_tok l t l' ts : lex_token l = (LTok t, l') -> lexes l' ts -> lexes l (t :: ts).

Lemma lex_fuel_ahead l s : ahead l s -> (length s + 1 < lex_fuel l)%nat.
Proof. intros Ha. pose proof (ahead_length _ _ Ha). unfold lex_fuel. lia. Qed.

Lemma token_plain g w d s l :
  gap g -> plain_word w -> is_delim d = true -> 0 < d < 256 -> ahead l (g ++ w ++ d :: s) ->
  exists l', lex_token l = (LTok w, l') /\ ahead l' (d :: s).
Proof.
  intros Hg (Hne & Hw & Hlen) Hd Hd0 Ha. destruct w as [|c w]; [done|].
  pose proof (lex_fuel_ahead _ _ Ha) as Hf. rewrite length_app in Hf.
  pose proof Hw as [(Hc0 & Hcd & Hcq & Hcb) _]%Forall_cons.
  destruct (lex_skip_char g l c (w ++ d :: s) (lex_fuel l)) as (l1 & E & Hb1 & Ha1); try done.
  { rewrite Hcd. destruct (Z.eqb_spec c (chr "=")) as [->|]; [done|]. done. }
  { lia. }
  unfold lex_token. rewrite E. destruct (Z.eqb_spec c (chr "=")) as [->|]; [done|].
  destruct (Z.eqb_spec c 34); [done|].
  pose proof (lex_fuel_ahead _ _ Ha1) as Hf1. rewrite length_app in Hf1. simpl in Hf1, Hlen.
  destruct (lex_plain_word w [] c l1 d s (lex_fuel l1)) as (l2 & E2 & Ha2); try done; [lia|simpl; lia|].
  by exists l2.
Qed.

Lemma token_eq g s l :
  gap g -> ahead l (g ++ chr "=" :: s) ->
  exists l', lex_token l = (LTok eqs, l') /\ ahead l' s.
Proof.
  intros Hg Ha. pose proof (lex_fuel_ahead _ _ Ha) as Hf. rewrite length_app in Hf.
  destruct (lex_skip_char g l (chr "=") s (lex_fuel l)) as (l1 & E & Hb1 & Ha1); try done; [lia|].
  exists l1. unfold lex_token. by rewrite E.
Qed.

Lemma token_quote g v s l :
  gap g -> quotable v -> ahead l (g ++ quote v ++ s) ->
  exists l', lex_token l = (LTok v, l') /\ ahead l' s.
Proof.
  intros Hg [Hv Hlen] Ha. unfold quote in Ha. rewrite <- app_comm_cons, <- app_assoc in Ha.
  cbn [app] in Ha. pose proof (lex_fuel_ahead _ _ Ha) as Hf. rewrite length_app in Hf.
  destruct (lex_skip_char g l 34 (mjoin (map esc v) ++ 34 :: s) (lex_fuel l))
    as (l1 & E & Hb1 & Ha1); try done; [lia|].
  unfold lex_token. rewrite E. cbn.
  pose proof (lex_fuel_ahead _ _ Ha1) as Hf1. rewrite length_app in Hf1.
  assert (Hml : (length v <= length (mjoin (map esc v)))%nat).
  { clear. induction v as [|x v IH]; [done|]. cbn [map].
    change (mjoin (?a :: ?b)) with (a ++ mjoin b). rewrite length_app. simpl.
    assert (1 <= length (esc x))%nat by (unfold esc; by repeat case_match; simpl; lia). lia. }
  destruct (lex_quoted_string v [] l1 s (lex_fuel l1)) as (l2 & E2 & Hb2 & Ha2); try done; [lia|].
  by exists l2.
Qed.

Lemma token_end g l :
  gap g -> ahead l g -> exists l', lex_token l = (LEof, l') /\ ahead l' [].
Proof.
  intros Hg Ha. pose proof (lex_fuel_ahead _ _ Ha) as Hf.
  destruct (lex_skip_end g l (lex_fuel l) Hg Ha) as (l' & E & Ha'); [lia|].
  exists l'. unfold lex_token. by rewrite E.
Qed.

Lemma gap_app g1 g2 : gap g1 -> gap g2 -> gap (g1 ++ g2).
Proof.
  induction 1 as [|c g Hc Hg IH|body g Hb Hok Hg IH]; intros H2; [done| |].
  - apply gap_blank; auto.
  - replace ((chr "#" :: body ++ 10 :: g) ++ g2) with (chr "#" :: body ++ 10 :: g ++ g2)
      by (cbn [app]; by rewrite <- app_assoc).
    apply gap_comment; auto.
Qed.

Lemma gap_char c : c = chr " " \/ c = 9 \/ c = 10 -> gap [c].
Proof. intros. apply gap_blank; [done|apply gap_nil]. Qed.

(** The text of a list of items is lexed into their tokens. *)
Lemma lexes_text items trail pre l :
  Forall item_ok items -> gap trail -> gap pre -> ahead l (pre ++ cfg_text items trail) ->
  lexes l (mjoin (map item_tokens items)).
Proof.
  intros Hi Ht. revert pre l. induction Hi as [|[g n v] items (Hg & Hn & Hv) Hi IH]; intros pre l Hp Ha.
  - destruct (token_end _ _ (gap_app _ _ Hp Ht) Ha) as (l' & E & Ha'). by eapply lexes_end.
  - unfold cfg_text in Ha. cbn [map] in Ha |- *.
    change (mjoin (?a :: ?b)) with (a ++ mjoin b) in Ha. change (mjoin (?a :: ?b)) with (a ++ mjoin b).
    rewrite <- app_assoc in Ha. fold (cfg_text items trail) in Ha. cbn in Hg, Hn, Hv.
    pose proof (gap_app _ _ Hp Hg) as Hpg. set (T := cfg_text items trail) in *.
    assert (Hnl : gap [10]) by (apply gap_char; by right; right).
    assert (Hsp : gap [chr " "]) by (apply gap_char; by left).
    destruct v as [v|]; unfold item_tokens; cbn [it_name it_value].
    + assert (A : ahead l ((pre ++ g) ++ n ++ chr " " ::
                    ([] ++ chr "=" :: ([chr " "] ++ quote v ++ [10] ++ T)))).
      { revert Ha. unfold item_text. cbn [it_gap it_name it_value].
        repeat (rewrite <- app_assoc; cbn [app]). done. }
      destruct (token_plain _ _ (chr " ") _ _ Hpg Hn eq_refl ltac:(unfold_chr; lia) A) as (l1 & E1 & A1).
      eapply lexes_tok; [exact E1|].
      destruct (token_eq [chr " "] _ l1 Hsp A1) as (l2 & E2 & A2).
      eapply lexes_tok; [exact E2|]. destruct Hv as [Hv _].
      destruct (token_quote [chr " "] v _ l2 Hsp Hv A2) as (l3 & E3 & A3).
      eapply lexes_tok; [exact E3|]. by apply (IH [10]).
    + assert (A : ahead l ((pre ++ g) ++ n ++ 10 :: T)).
      { revert Ha. unfold item_text. cbn [it_gap it_name it_value].
        repeat (rewrite <- app_assoc; cbn [app]). done. }
      destruct (token_plain _ _ 10 _ _ Hpg Hn eq_refl ltac:(lia) A) as (l1 & E1 & A1).
      eapply lexes_tok; [exact E1|]. by apply (IH [10]).
Qed.

(** ** Parsing *)

Definition tokens_cost (ts : list cstr) : Z := foldr Z.add 0 (map token_cost ts).

Definition tables_of (st : cfg_st) : tables := mk_tables (options st) (images st) (curr_table st).

Lemma tokens_cost_nonneg ts : 0 <= tokens_cost ts.
Proof. induction ts as [|t ts IH]; unfold tokens_cost, token_cost in *; simpl; lia. Qed.

Section Parse.
Context {F : Type} {FW : Firmware F}.

Abbreviation state := (mach F * cfg_st)%type.

(** The tokens still to come: the one held, then those of the lexer. *)
Definition stream (st : cfg_st) (ts : list cstr) : Prop :=
  match last_token st with
  | None => lexes (lx st) ts
  | Some (a, t) => a <> 0 /\ exists ts', ts = t :: ts' /\ lexes (lx st) ts'
  end.

(** The heap the tokens not yet read need. *)
Definition unread (st : cfg_st) (ts : list cstr) : Z :=
  tokens_cost (match last_token st with None => ts | Some _ => tl ts end).

Definition pinv (ts : list cstr) (extra : Z) (s : state) : Prop :=
  heap_room (unread (snd s) ts + extra) (m_heap (fst s))
  /\ stream (snd s) ts /\ last_item (snd s) = None /\ Forall cstr_ok ts.

(** From [s], [c] returns a value in [Q]. *)
Definition ends {A} (c : M cfg_jmp state A) (s : state) (Q : A -> state -> Prop) : Prop :=
  exists a s', c s = (Ok a, s') /\ Q a s'.

Lemma ends_bind {A B} (c : M cfg_jmp state A) (f : A -> M cfg_jmp state B) s Q R :
  ends c s Q -> (forall a s', Q a s' -> ends (f a) s' R) -> ends (c ≫= f) s R.
Proof.
  intros (a & s' & E & HQ) Hf. destruct (Hf a s' HQ) as (b & s2 & E2 & HR).
  exists b, s2. by rewrite (bind_ok _ _ _ _ _ E).
Qed.

Lemma ends_ret {A} (a : A) s (Q : A -> state -> Prop) : Q a s -> ends (mret a) s Q.
Proof. intros. by exists a, s. Qed.

Lemma ends_strdup t m st n :
  cstr_ok t -> heap_room (token_cost t + n) (m_heap m) -> 0 <= n ->
  ends (strdup t) (m, st) (fun tok s' => snd tok = t /\ fst tok <> 0
    /\ heap_room n (m_heap (fst s')) /\ snd s' = st).
Proof.
  intros Ht Hroom Hn. unfold strdup. rewrite (until_nul_name t Ht).
  unfold token_cost in Hroom.
  assert (Hsz : Z.of_nat (length t) + 9 <= MALLOC_SIZE).
  { destruct Hroom as (base & (H1 & H2 & H3 & H4 & H5 & _) & Hr). lia. }
  destruct (heap_room_malloc _ (strlen t + 1) _ Hroom) as (a & h' & E & Ha & Hh');
    [unfold strlen; lia|unfold strlen; lia|].
  exists (a, t), (set_heap h' m, st). split.
  - unfold on_mach, do_malloc, mbind, M_bind. simpl. by rewrite E.
  - split_and!; try done. simpl. eapply heap_room_le; [exact Hh'|unfold strlen; lia].
Qed.

Definition same_tables (s s' : state) : Prop :=
  tables_of (snd s') = tables_of (snd s) /\ file_name (snd s') = file_name (snd s).

Lemma get_token_some t ts x s :
  0 <= x -> pinv (t :: ts) x s ->
  ends cfg_get_token s (fun r s' => (exists a, a <> 0 /\ r = Some (a, t)) /\ pinv ts x s'
    /\ last_token (snd s') = None /\ same_tables s s').
Proof.
  intros Hx (Hroom & Hst & Hli & Hok). destruct s as [m st]. cbn [fst snd] in *.
  apply Forall_cons in Hok as [Ht Hok]. unfold cfg_get_token, getk. unfold stream, unread in *.
  unfold ends. rewrite bind_gets. cbn [snd].
  destruct (last_token st) as [[a t']|] eqn:El.
  - destruct Hst as (Ha & ts' & Ets & Hst). injection Ets as <- <-. cbn [tl] in Hroom.
    eexists (Some (a, t)), (m, set_last_token None st). split; [done|].
    split_and!; [by exists a|done..|]. done.
  - rewrite bind_gets. cbn [snd]. inversion Hst as [|l t' l' ts' E Hst']; subst. rewrite E.
    unfold on_cfg. rewrite bind_modify. cbn [fst snd].
    destruct (ends_strdup t m (set_lx l' st) (tokens_cost ts + x)) as (tok & [m' st'] & Es & Hs & Ha & Hr & Est);
      [done..| | |].
    { unfold tokens_cost in *. simpl in Hroom. by rewrite <- Z.add_assoc in Hroom. }
    { pose proof (tokens_cost_nonneg ts). lia. }
    cbn [snd] in Est. subst st'. exists (Some tok), (m', set_lx l' st). rewrite (bind_ok _ _ _ _ _ Es). split; [done|].
    cbn [fst snd] in *. split; [|split; [|done]].
    + exists (fst tok). rewrite <- Hs. by destruct tok.
    + unfold pinv, unread, stream. cbn [fst snd last_token set_lx]. by rewrite El.
Qed.

Lemma get_token_none x s :
  pinv [] x s ->
  ends cfg_get_token s (fun r s' => r = None /\ pinv [] x s' /\ last_token (snd s') = None
    /\ same_tables s s').
Proof.
  intros (Hroom & Hst & Hli & Hok). destruct s as [m st]. cbn [fst snd] in *.
  unfold cfg_get_token, getk, stream, unread, ends in *. rewrite bind_gets. cbn [snd].
  destruct (last_token st) as [[a t']|] eqn:El; [by destruct Hst as (_ & ? & ? & _)|].
  rewrite bind_gets. cbn [snd]. inversion Hst as [l l' E Ha'|]; subst. rewrite E.
  unfold on_cfg. rewrite bind_modify. eexists None, _. split; [done|].
  assert (Hst' : lexes l' []).
  { match goal with H : ahead l' [] |- _ => destruct (token_end [] l' gap_nil H) as (l2 & E2 & A2) end.
    by eapply lexes_end. }
  split; [done|]. split; [|done].
  unfold pinv, unread, stream. cbn [fst snd last_token set_lx]. by rewrite El.
Qed.

Lemma plain_word_ok w : plain_word w -> cstr_ok w /\ w <> eqs.
Proof.
  intros (Hne & Hw & _). split.
  - eapply Forall_impl; [exact Hw|]. by intros c [? _].
  - intros ->. apply Forall_cons in Hw as [(_ & Hd & _) _]. done.
Qed.

Lemma strcmp_eqs t : cstr_ok t -> t <> eqs -> (strcmp t eqs =? 0) = false.
Proof.
  intros Ht Hne. apply Z.eqb_neq. intros E. apply strcmp_eq in E; try done.
  repeat constructor; unfold_chr; lia.
Qed.

Lemma same_tables_trans s1 s2 s3 : same_tables s1 s2 -> same_tables s2 s3 -> same_tables s1 s3.
Proof. unfold same_tables. intros [H1 H2] [H3 H4]. split; congruence. Qed.

(** The name of an item, and its value if it has one. *)
Lemma next_item i ts x s :
  0 <= x -> item_ok i -> pinv (item_tokens i ++ ts) x s -> hd [] ts <> eqs ->
  ends cfg_next s (fun r s' =>
    (exists a vt, a <> 0 /\ r = Some ((a, it_name i), vt) /\ snd <$> vt = it_value i)
    /\ pinv ts x s' /\ same_tables s s').
Proof.
  intros Hx (_ & Hn & Hv) Hp Hts. destruct (plain_word_ok _ Hn) as [Hnok Hneq].
  unfold cfg_next, getk. pose proof Hp as (_ & _ & Hli & _).
  unfold ends. rewrite bind_gets, Hli. unfold item_tokens in Hp. rewrite <- app_comm_cons in Hp.
  eapply ends_bind; [eapply (get_token_some _ _ x); [exact Hx|exact Hp]|].
  intros r s1 ((a & Ha & ->) & Hp1 & Hl1 & Hs1). cbn [snd].
  rewrite strcmp_eqs by done. eapply ends_bind; [by apply (ends_ret tt s1 (fun _ s => s = s1))|].
  intros _ ? ->. destruct (it_value i) as [v|]; cbn [app] in Hp1.
  - destruct Hv as [[Hvok _] Hve].
    eapply ends_bind; [eapply (get_token_some _ _ x); [exact Hx|exact Hp1]|].
    intros r s2 ((a2 & Ha2 & ->) & Hp2 & Hl2 & Hs2). cbn [snd].
    change (strcmp eqs eqs =? 0) with true. cbn [negb].
    eapply ends_bind; [eapply (get_token_some _ _ x); [exact Hx|exact Hp2]|].
    intros r s3 ((a3 & Ha3 & ->) & Hp3 & Hl3 & Hs3). cbn [snd]. rewrite strcmp_eqs by done.
    eapply ends_bind; [by apply (ends_ret tt s3 (fun _ s => s = s3))|]. intros _ ? ->.
    apply ends_ret. split; [by exists a, (Some (a3, v))|]. split; [done|].
    eapply same_tables_trans; [done|]. by eapply same_tables_trans.
  - destruct ts as [|t ts].
    + eapply ends_bind; [eapply (get_token_none x); exact Hp1|]. intros r s2 (-> & Hp2 & Hl2 & Hs2).
      apply ends_ret. split; [by exists a, None|]. split; [done|]. by eapply same_tables_trans.
    + eapply ends_bind; [eapply (get_token_some _ _ x); [exact Hx|exact Hp1]|].
      intros r s2 ((a2 & Ha2 & ->) & Hp2 & Hl2 & Hs2). cbn [snd].
      pose proof Hp1 as (_ & _ & _ & [Htok _]%Forall_cons). rewrite strcmp_eqs by done. cbn [negb].
      unfold on_cfg, ends. rewrite bind_modify. eexists _, _. split; [reflexivity|].
      split; [by exists a, None|]. split; [|by eapply same_tables_trans].
      destruct Hp2 as (H1 & H2 & H3 & H4). unfold pinv, unread, stream in *.
      cbn [fst snd last_token set_last_token tl lx last_item] in *. rewrite Hl2 in *.
      split_and!; [done|done|by exists ts|done|by constructor].
Qed.

Lemma next_end x s :
  pinv [] x s -> ends cfg_next s (fun r s' => r = None /\ same_tables s s' /\ heap_room x (m_heap (fst s'))).
Proof.
  intros Hp. unfold cfg_next, getk. pose proof Hp as (_ & _ & Hli & _).
  unfold ends. rewrite bind_gets, Hli.
  eapply ends_bind; [eapply (get_token_none x); exact Hp|]. intros r s2 (-> & Hp2 & Hl2 & Hs2).
  apply ends_ret. split; [done|]. split; [done|]. destruct Hp2 as (Hr & _). unfold unread in Hr. by rewrite Hl2 in Hr.
Qed.

Lemma set_entry_ok w v w' s : entry_after w v = Some w' -> set_entry w v s = (Ok w', s).
Proof.
  unfold entry_after, set_entry. destruct (c_data w), v, (decide (c_type w = cft_strg));
    intros [= <-]; done.
Qed.

Lemma set_walk_ok t name v t' s :
  walk_after t name v = Some t' -> set_walk t name v s = (Ok (Some t'), s).
Proof.
  revert t'. induction t as [|w t IH]; intros t'; [done|]. cbn [walk_after set_walk].
  destruct (strcasecmp (c_name w) name =? 0).
  - intros (w' & E & ->)%fmap_Some. rewrite (bind_ok _ _ _ _ _ (set_entry_ok w v w' s E)). done.
  - intros (t2 & E & ->)%fmap_Some. by rewrite (bind_ok _ _ _ _ _ (IH t2 E)).
Qed.

Lemma pinv_le ts x y s : y <= x -> pinv ts x s -> pinv ts y s.
Proof. intros Hle (Hr & H). split; [|done]. eapply heap_room_le; [exact Hr|lia]. Qed.

(** Starting a table for an image. *)
Lemma start_image_ok name ts x s :
  0 <= x -> pinv ts (x + (SIZEOF_IMAGES + 8)) s ->
  ends (if strcasecmp name (str "image") =? 0 then
          p ← on_mach (do_malloc SIZEOF_IMAGES);
          match p with
          | None => undef NullDeref
          | Some _ =>
              on_mach (on_bi (set_bi_flags (fun f => Z.lor f HAVE_IMAGES)));;
              on_cfg (fun c => set_tables (options c) (images c ++ [cf_image])
                                 (Some (length (images c))) c)
          end
        else mret tt) s
    (fun _ s' => pinv ts x s' /\ tables_of (snd s') = start_image name (tables_of (snd s))).
Proof.
  intros Hx Hp. unfold start_image. destruct (_ =? 0).
  2: { apply ends_ret. split; [|done]. eapply pinv_le; [|exact Hp]. unfold SIZEOF_IMAGES. lia. }
  destruct s as [m st]. destruct Hp as (Hr & Hst & Hli & Hok). cbn [fst snd] in *.
  assert (0 <= unread st ts) by apply tokens_cost_nonneg.
  destruct (heap_room_malloc _ SIZEOF_IMAGES _ Hr) as (a & h' & E & Ha & Hh');
    [unfold SIZEOF_IMAGES, MALLOC_SIZE; lia|unfold SIZEOF_IMAGES; lia|].
  eexists tt, _. split.
  - unfold on_mach, do_malloc, mbind, M_bind. cbn [fst snd]. rewrite E. reflexivity.
  - split; [|done]. split_and!; try done. cbn [fst snd].
    eapply heap_room_le; [exact Hh'|]. unfold SIZEOF_IMAGES, unread. simpl. lia.
Qed.

Lemma set_item_ok i a vt ts x s tb :
  0 <= x -> snd <$> vt = it_value i -> apply_item (tables_of (snd s)) i = Some tb ->
  pinv ts (x + (SIZEOF_IMAGES + 8)) s ->
  ends (cfg_set (a, it_name i) vt) s
    (fun ok s' => ok = true /\ pinv ts x s' /\ tables_of (snd s') = tb).
Proof.
  intros Hx Hv Happ Hp. unfold cfg_set. cbn [snd]. rewrite Hv.
  eapply ends_bind; [by apply (start_image_ok _ ts x)|]. intros _ [m1 st1] (Hp1 & Et). cbn [snd] in Et.
  unfold apply_item in Happ. rewrite <- Et in Happ.
  unfold getk, ends. rewrite bind_gets. cbn [snd].
  unfold set_current, tables_of in Happ. unfold get_table.
  cbn [tb_cur tb_options tb_images] in Happ.
  destruct (curr_table st1) as [k|] eqn:Ek; apply fmap_Some in Happ as (t' & Ew & ->);
    rewrite (bind_ok _ _ _ _ _ (set_walk_ok _ _ _ _ (m1, st1) Ew));
    unfold on_cfg; rewrite bind_modify; exists true, (m1, put_table t' st1); (split; [reflexivity|]);
    (split; [done|]); unfold put_table; rewrite Ek; by split.
Qed.

(** The heap past what the parse needs is still there when it ends. *)
Lemma parse_loop_ok items fuel s tb z :
  0 <= z ->
  Forall item_ok items -> (length items < fuel)%nat ->
  apply_items (tables_of (snd s)) items = Some tb ->
  pinv (mjoin (map item_tokens items)) (Z.of_nat (length items) * (SIZEOF_IMAGES + 8) + z) s ->
  ends (parse_loop fuel) s (fun v s' => v = 0 /\ tables_of (snd s') = tb /\ heap_room z (m_heap (fst s'))).
Proof.
  intros Hz Hi. revert fuel s. induction Hi as [|i items Hi1 Hi IH]; intros fuel s Hf Happ Hp;
    (destruct fuel as [|fuel]; [simpl in Hf; lia|]); cbn [parse_loop].
  - injection Happ as <-. eapply ends_bind; [by eapply next_end|]. intros r s' (-> & [Ht _] & Hr).
    by apply ends_ret.
  - cbn [apply_items] in Happ. apply bind_Some in Happ as (tb1 & E1 & E2).
    set (x := Z.of_nat (length items) * (SIZEOF_IMAGES + 8) + z).
    assert (Hx : 0 <= x) by (unfold x, SIZEOF_IMAGES; lia).
    replace (Z.of_nat (length (i :: items)) * (SIZEOF_IMAGES + 8) + z) with (x + (SIZEOF_IMAGES + 8)) in Hp
      by (unfold x; cbn [length]; lia).
    cbn [map] in Hp. change (mjoin (?a :: ?b)) with (a ++ mjoin b) in Hp.
    eapply ends_bind.
    { apply (next_item i (mjoin (map item_tokens items)) (x + (SIZEOF_IMAGES + 8)) s); [unfold SIZEOF_IMAGES in *; lia|done|exact Hp|].
      destruct Hi as [|i2 items (_ & Hn & _) _]; [done|]. cbn [map].
      change (mjoin (?a :: ?b)) with (a ++ mjoin b). cbn. by apply plain_word_ok. }
    intros r s1 ((a & vt & Ha & -> & Hvt) & Hp1 & Hs1).
    destruct Hs1 as [Hs1 _]. rewrite <- Hs1 in E1.
    eapply ends_bind; [by apply (set_item_ok i a vt (mjoin (map item_tokens items)) x s1 tb1)|].
    intros ok s2 (-> & Hp2 & Et2). cbn [fst].
    apply (IH fuel (set_heap (free a (m_heap (fst s2))) (fst s2), snd s2)).
    + simpl in Hf. lia.
    + cbn [snd]. by rewrite Et2.
    + destruct Hp2 as (Hr & H2). split; [|exact H2]. cbn [fst snd m_heap set_heap].
      by apply heap_room_free.
Qed.

End Parse.
