(* ===== verification/CfgCorrect.v ===== *)
(** * Correctness of the configuration

    The parser comes to an end on every file, reads back what a configuration
    text says, and the queries give an image its own options before the global
    ones. *)
From Stdlib Require Import ZArith Lia Ascii.
From stdpp Require Import prelude strings.
From S2P Require Import Prelude Quik CString Util Malloc Printf Machine Prom Part Sim Cfg CfgTables CfgText.

(** ** Specification *)

(** The image a name selects: the first whose label or alias it is. *)
Definition first_image (ims : list (list config)) (image : cstr) : option (list config) :=
  List.find (fun t => match image_label t with
                 | Some label => image_matches t label image | None => false end) ims.

(** The value of an option for an image: its own, or else the global one. *)
Definition option_value (opts t : list config) (item : cstr) : option cstr :=
  match cfg_get_strg_i t item with Some v => Some v | None => cfg_get_strg_i opts item end.

(** An image that has a label, or a path to take one from. *)
Definition labelled (t : list config) : Prop := is_Some (image_label t).

(** ** Properties *)

Section Properties.
Context {F : Type} {FW : Firmware F}.

(** Where a parse may end: with the value of [cfg_parse], or in what C leaves undefined -
    the jump of [cfg_error], a full heap - the tables in shape either way. *)
Definition parse_kept (r : outcome cfg_jmp Z * (mach F * cfg_st)) : Prop :=
  match r with
  | (Ok v, (_, st')) => (v = 0 \/ v = -1) /\ cfg_ok st'
  | (Err _, _) => False
  | (Undef u, (_, st')) => u <> OutOfFuel /\ cfg_ok st'
  end.

(** No error leaves [cfg_parse]. *)
Lemma parse_no_jump file buff (s : mach F * cfg_st) :
  match cfg_parse file buff s with (Err _, _) => False | _ => True end.
Proof.
  unfold cfg_parse, on_cfg. rewrite bind_modify. unfold attempt, mbind, M_bind.
  by destruct (parse_loop _ _) as [[a|[]|u] s'].
Qed.

Lemma parse_value fuel (s s' : mach F * cfg_st) v : parse_loop fuel s = (Ok v, s') -> v = 0 \/ v = -1.
Proof.
  revert s. induction fuel as [|fuel IH]; intros s; [done|]. cbn [parse_loop].
  intros (iv & s1 & _ & H)%bind_ok_inv. destruct iv as [[item value]|]; [|injection H; by left].
  apply bind_ok_inv in H as (ok & s2 & _ & H). destruct ok; [|injection H; by right].
  apply bind_ok_inv in H as (? & s3 & _ & H). by eapply IH.
Qed.

Lemma parse_jump_ok file buff m st :
  cfg_ok st ->
  match cfg_parse file buff (m, st) with
  | (Ok v, (_, st')) => (v = 0 \/ v = -1) /\ cfg_ok st'
  | (Err _, _) => True
  | (Undef _, (_, st')) => cfg_ok st'
  end.
Proof.
  intros Hst. unfold cfg_parse, on_cfg. rewrite bind_modify. cbn [fst snd].
  set (st0 := mk_cfg _ _ _ _ _ _ _).
  pose proof (keeps_parse_loop (parse_fuel buff) m st0 Hst) as H.
  pose proof (parse_value (parse_fuel buff) (m, st0)) as Hv.
  unfold attempt, mbind, M_bind. destruct (parse_loop _ _) as [[v|[]|u] [m' st']].
  - split; [by eapply Hv|apply H].
  - exact H.
  - exact H.
Qed.

Lemma parse_rounds file buff m st :
  fst (cfg_parse file buff (m, st)) <> Undef OutOfFuel.
Proof.
  unfold cfg_parse, on_cfg. rewrite bind_modify.
  match goal with |- context [attempt ?c ≫= ?k] => set (c0 := c); set (k0 := k) end.
  match goal with |- context [(attempt c0 ≫= k0) ?s0] => set (s := s0) end.
  assert (Hr : match c0 s with (Undef u, _) => u <> OutOfFuel | _ => True end).
  { unfold c0, s. simpl.
    match goal with |- context [parse_loop ?f (?m, ?st)] =>
      pose proof (cfg_runs_loop f m st) as Hl end.
    destruct (parse_loop _ _) as [[a|e|u] [m' st']]; [done|done|]. apply Hl.
    unfold items_left, weight, left_chars, parse_fuel. simpl.
    destruct (_ || _), (last_token st), (last_item st); lia. }
  unfold attempt, mbind, M_bind. destruct (c0 s) as [[a|[]|u] s'] eqn:E; simpl; congruence.
Qed.

(** The parse of a text of items, for the loader that reads it. *)
Lemma parse_items_ok file items trail tb z m :
  0 <= z ->
  Forall item_ok items -> gap trail -> apply_items (tables_of cfg_init) items = Some tb ->
  heap_room (tokens_cost (mjoin (map item_tokens items))
             + (Z.of_nat (length items) * (SIZEOF_IMAGES + 8) + z)) (m_heap m) ->
  exists m' st', cfg_parse file (cfg_text items trail) (m, cfg_init) = (Ok 0, (m', st'))
    /\ tables_of st' = tb /\ heap_room z (m_heap m').
Proof.
  intros Hz Hi Ht Happ Hroom. unfold cfg_parse, on_cfg. rewrite bind_modify. cbn [fst snd].
  set (st0 := mk_cfg _ _ _ _ _ _ _).
  destruct (parse_loop_ok items (parse_fuel (cfg_text items trail)) (m, st0) tb z)
    as (v & [m' st'] & E & -> & Et & Hh).
  - done.
  - done.
  - unfold parse_fuel, cfg_text. rewrite length_app.
    assert (length items <= length (mjoin (map item_text items)))%nat; [|lia].
    clear. induction items as [|i items IH]; [done|]. cbn [map length].
    change (mjoin (?a :: ?b)) with (a ++ mjoin b). rewrite length_app.
    unfold item_text at 1. rewrite !length_app. simpl. lia.
  - done.
  - split_and!; [done| |done|].
    + cbn [snd]. unfold stream. cbn. apply (lexes_text items trail [] _ Hi Ht gap_nil).
      by left.
    + rewrite Forall_forall. intros t Hin. clear -Hi Hin. induction Hi as [|i items (_ & Hn & Hv) Hi IH]; [by apply not_elem_of_nil in Hin|].
      cbn [map] in Hin. change (mjoin (?a :: ?b)) with (a ++ mjoin b) in Hin.
      apply elem_of_app in Hin as [Hin|Hin]; [|by apply IH].
      unfold item_tokens in Hin. apply elem_of_cons in Hin as [->|Hin]; [by apply plain_word_ok|].
      destruct (it_value i) as [v|]; [|by apply not_elem_of_nil in Hin]. destruct Hv as [[Hv _] _].
      apply elem_of_cons in Hin as [->|Hin]; [repeat constructor; unfold_chr; lia|].
      by apply list_elem_of_singleton in Hin as ->.
  - exists m', st'. split; [|done]. unfold attempt, mbind, M_bind. by rewrite E.
Qed.

(** C38: Whatever bytes the configuration file holds and whatever state a previous
    parse left, [cfg_parse] comes to an end: the number of rounds is bounded by
    the length of the file. *)
Theorem cfg_parse_ends file buff m st :
  exists v s', cfg_parse file buff (m, st) = (Ok v, s') \/
    exists u, cfg_parse file buff (m, st) = (Undef u, s') /\ u <> OutOfFuel.
Proof.
  pose proof (parse_rounds file buff m st) as Hf. pose proof (parse_no_jump file buff (m, st)) as Hj.
  destruct (cfg_parse file buff (m, st)) as [[v|e|u] s'] eqn:E; cbn in *; [|done|].
  - exists v, s'. by left.
  - exists 0, s'. right. exists u. split; [done|congruence].
Qed.

(** C6: A configuration file written from a list of items - each after blanks and
    comments, its value quoted with the characters that need it escaped - is parsed
    without a complaint into the tables the items describe: options before the first
    [image] are global, each [image] starts a table of its own. *)
Theorem cfg_parse_items file items trail tb m :
  Forall item_ok items -> gap trail -> apply_items (tables_of cfg_init) items = Some tb ->
  heap_room (tokens_cost (mjoin (map item_tokens items))
             + Z.of_nat (length items) * (SIZEOF_IMAGES + 8)) (m_heap m) ->
  exists m' st', cfg_parse file (cfg_text items trail) (m, cfg_init) = (Ok 0, (m', st'))
    /\ tables_of st' = tb.
Proof.
  intros Hi Ht Happ Hh. destruct (parse_items_ok file items trail tb 0 m) as (m' & st' & E & Et & _); try done.
  { by rewrite Z.add_0_r. }
  by exists m', st'.
Qed.

(** C23: Whatever the file holds, the parser keeps its tables in shape - every table has
    the entries of its template with their types, no string is longer than the lexer's
    buffer, the current table exists - and this holds when it returns 0 at the end of the
    file, when it returns -1 at a name that no table has, and where it does not return:
    at the jump in which a syntax error ends, which goes through a buffer that was never
    filled, and at the NULL pointer of a full heap. *)
Theorem cfg_tables_kept file buff m st :
  cfg_ok st ->
  parse_kept (cfg_parse file buff (m, st)).
Proof.
  intros Hst. unfold parse_kept. pose proof (parse_jump_ok file buff m st Hst) as H.
  pose proof (parse_no_jump file buff (m, st)) as Hj. pose proof (parse_rounds file buff m st) as Hf.
  destruct (cfg_parse file buff (m, st)) as [[v|e|u] [m' st']]; cbn in *; [done|done|].
  split; [congruence|done].
Qed.

End Properties.

(** C32: A query about an image answers from the first image the name selects, the
    image's own option before the global one, and with nothing when no image has the
    name; an [image] line without a value met on the way is dereferenced as NULL. *)
Theorem image_query c image item :
  (Forall labelled (images c) ->
     cfg_get_strg c (Some image) item
     = Ok (t ← first_image (images c) image; option_value (options c) t item))
  /\ (forall before t after, images c = before ++ t :: after -> Forall labelled before ->
       first_image before image = None -> image_label t = None ->
       cfg_get_strg c (Some image) item = Undef NullDeref).
Proof.
  unfold cfg_get_strg, first_image. split.
  - induction (images c) as [|t ims IH]; intros Hl; [done|].
    apply Forall_cons in Hl as [[l Hl] Hr]. cbn [images_get List.find]. rewrite Hl.
    destruct (image_matches t l image); [done|by apply IH].
  - intros before t after ->. induction before as [|t' before IH]; intros Hl Hf Ht.
    + cbn [app images_get]. by rewrite Ht.
    + apply Forall_cons in Hl as [[l Hl] Hr]. cbn [app images_get List.find] in *.
      rewrite Hl in *. destruct (image_matches t' l image); [done|by apply IH].
Qed.

(** ** Witnesses *)

(** A configuration with a global option and two images. *)
Definition demo_items : list item :=
  [ mk_item [] (str "timeout") (Some (str "50"));
    mk_item (str "# the root file system" ++ [10]) (str "root") (Some (str "/dev/sda2"));
    mk_item [10] (str "image") (Some (str "/boot/vmlinux"));
    mk_item (str "  ") (str "label") (Some (str "linux"));
    mk_item (str "  ") (str "append") (Some (str "quiet " ++ [34] ++ str "x"));
    mk_item (str "  ") (str "read-only") None;
    mk_item [10] (str "image") (Some (str "/boot/old"));
    mk_item [9] (str "root") (Some (str "/dev/sda3")) ].

Definition demo_tables : tables := default (tables_of cfg_init) (apply_items (tables_of cfg_init) demo_items).
Definition cfg_mach : mach sim := sim_mach [].

Lemma demo_items_ok : Forall item_ok demo_items.
Proof.
  unfold demo_items, item_ok, plain_word, plain_char, quotable.
  repeat (apply List.Forall_cons; [split; cbn [it_gap it_name it_value]; [|split]; try by_eval|]);
    [..|by constructor].
  all: try (split; [by_eval|by_eval]).
  all: repeat first [apply gap_nil | apply gap_blank; [by vm_compute; auto|]
                    | apply (gap_comment (str " the root file system") []); [by_eval|by_eval|]].
Qed.

Lemma cfg_mach_room : heap_room 3000 (m_heap cfg_mach).
Proof.
  exists MALLOC_BASE. split; [|by vm_compute].
  unfold heap_ok. split_and!; try (by vm_compute). by left.
Qed.

Lemma cfg_parse_items_witness :
  exists m' st', cfg_parse None (cfg_text demo_items (str "# end" ++ [10])) (cfg_mach, cfg_init)
      = (Ok 0, (m', st')) /\ tables_of st' = demo_tables.
Proof.
  refine (cfg_parse_items None demo_items (str "# end" ++ [10]) demo_tables cfg_mach demo_items_ok _ _ _).
  - apply (gap_comment (str " end") []); [by_eval|by_eval|constructor].
  - by vm_compute.
  - refine (heap_room_le 3000 _ _ cfg_mach_room _). by vm_compute.
Defined.

(** The same text read and queried: the first image's own root, the global one for
    the second, found by the last component of its path. *)
Definition demo_cfg : cfg_st :=
  snd (snd (cfg_parse None (cfg_text demo_items []) (cfg_mach, cfg_init))).

Lemma image_query_witness :
  cfg_get_strg demo_cfg (Some (str "old")) (str "root")
    = Ok (t ← first_image (images demo_cfg) (str "old"); option_value (options demo_cfg) t (str "root")).
Proof.
  refine (proj1 (image_query demo_cfg (str "old") (str "root")) _). unfold labelled. by_eval.
Defined.

Example demo_queries :
  cfg_get_strg demo_cfg (Some (str "linux")) (str "root") = Ok (Some (str "/dev/sda2"))
  /\ cfg_get_strg demo_cfg (Some (str "old")) (str "root") = Ok (Some (str "/dev/sda3"))
  /\ cfg_get_flag demo_cfg (Some (str "linux")) (str "read-only") = Ok true
  /\ cfg_get_default demo_cfg = Ok (Some (str "linux")).
Proof. by vm_compute. Qed.

(** A syntax error ends in the jump. *)
Example syntax_error_jumps : fst (cfg_parse None (str "image = = x") (cfg_mach, cfg_init)) = Undef WildJump.
Proof. by vm_compute. Qed.

Lemma cfg_tables_kept_witness :
  parse_kept (cfg_parse None (cfg_text demo_items (str "image = = x")) (cfg_mach, cfg_init)).
Proof.
  refine (cfg_tables_kept None (cfg_text demo_items (str "image = = x")) cfg_mach cfg_init cfg_init_ok).
Defined.
