(* ===== verification/Elf.v ===== *)
(** * Kernel images (elf.c, elf.h)

    The loader reads an ELF header out of the buffer a kernel was loaded into,
    works out which part of the buffer is the kernel's text, moves the image or
    its addresses, and computes the address it jumps to. *)
From Stdlib Require Import ZArith Lia Ascii Sorted.
From stdpp Require Import prelude strings.
From S2P Require Import Prelude Quik CString Util Malloc Printf Machine Prom.

Definition ADDRMASK : Z := 0x0fffffff.

(** ** Structures *)

Definition SIZEOF_EHDR : Z := 52.
Definition SIZEOF_PHDR : Z := 32.
Definition ELFCLASS32 : Z := 1.
Definition ELFDATA2MSB : Z := 2.
Definition PT_LOAD : Z := 1.

Definition e_ident (e : list Z) (i : Z) : Z := byte_at e i.
Definition e_entry (e : list Z) : Z := be32 e 24.
Definition e_phoff (e : list Z) : Z := be32 e 28.
Definition e_phnum (e : list Z) : Z := be16 e 44.

Definition p_type (e : list Z) (p : Z) : Z := be32 e p.
Definition p_offset (e : list Z) (p : Z) : Z := be32 e (p + 4).
Definition p_vaddr (e : list Z) (p : Z) : Z := be32 e (p + 8).
Definition p_memsz (e : list Z) (p : Z) : Z := be32 e (p + 20).

(** ** Parsing *)

(** The scan of the program headers from offset [p] of the buffer: [len], [off]
    and [linked_base] as they stand. *)
Fixpoint phdr_loop (n : nat) (e : list Z) (p len off linked_base : Z) : option (Z * Z * Z) :=
  match n with
  | O => Some (len, off, linked_base)
  | S n' =>
      if Z.of_nat (length e) <? p + SIZEOF_PHDR then None
      else if negb (p_type e p =? PT_LOAD) || (p_offset e p =? 0)
      then phdr_loop n' e (p + SIZEOF_PHDR) len off linked_base
      else if len =? 0
      then phdr_loop n' e (p + SIZEOF_PHDR) (p_memsz e p) (p_offset e p)
             (Z.land (p_vaddr e p) ADDRMASK)
      else phdr_loop n' e (p + SIZEOF_PHDR)
             (u32 (u32 (p_offset e p + p_memsz e p) - off)) off linked_base
  end.

(** What [elf_boot] hands over to: the address, and the arguments. *)
Record boot_call := mk_boot_call { bc_start : Z; bc_initrd : Z; bc_initrd_len : Z; bc_prom : Z }.

Section Elf.
Context {F : Type} {FW : Firmware F}.

(** [load_buf] is the address of the buffer, [e] its contents. *)
Definition elf_parse (load_buf : Z) (e : list Z) (load_buf_len : Z) : P F load_state_t :=
  if Z.of_nat (length e) <? SIZEOF_EHDR then undef OutOfBounds
  else if negb ((e_ident e 0 =? 0x7f) && (e_ident e 1 =? chr "E") && (e_ident e 2 =? chr "L")
                && (e_ident e 3 =? chr "F"))
  then throw ERR_ELF_NOT
  else if negb (e_ident e 4 =? ELFCLASS32) || negb (e_ident e 5 =? ELFDATA2MSB)
  then throw ERR_ELF_WRONG
  else
    '(len, off, linked_base) ← of_option OutOfBounds
      (phdr_loop (Z.to_nat (e_phnum e)) e (e_phoff e) 0 0 0);
    if len =? 0 then throw ERR_ELF_NOT_LOADABLE
    else
      let entry := Z.land (e_entry e) ADDRMASK in
      (if load_buf_len <? len + off
       then prom_ensure_claimed (u32 (load_buf + load_buf_len)) (u32 (len + off - load_buf_len))
       else mret tt);;
      mret (mk_load_state load_buf linked_base (u32 off) len entry).

(** ** Relocation *)

Definition elf_relo (image : load_state_t) : P F load_state_t :=
  flags ← gets (fun m => bi_flags (m_bi m));
  if has_flag flags BOOT_PRE_2_4 then
    if IQUIK_BASE <? text_len image then throw ERR_KERNEL_OLD_BIG
    else
      prom_ensure_claimed (linked_base image) (text_len image);;
      do_op (MemMove (linked_base image) (u32 (buf image + text_offset image)) (text_len image));;
      do_op (FlushCache (linked_base image) (text_len image));;
      mret image
  else
    let entry1 := u32 (entry image - linked_base image) in
    let base := u32 (buf image + text_offset image) in
    do_op (FlushCache base (text_len image));;
    mret (mk_load_state (buf image) base (text_offset image) (text_len image) (u32 (entry1 + base))).

(** ** Start *)

(** The address jumped to; [word] is a load of 32 bits from memory. *)
Definition elf_start (word : Z -> Z) (image : load_state_t) : Z :=
  let start := word (entry image) in
  if start =? 0x60000000 then linked_base image
  else if (start <? linked_base image) || (u32 (linked_base image + text_len image) <=? start)
          || negb (word (u32 (entry image + 8)) =? 0)
  then u32 (start + entry image)
  else start.

(** The call at the end of [elf_boot]; a kernel that returns from it makes
    [elf_boot] return [ERR_KERNEL_RETURNED]. *)
Definition elf_boot (word : Z -> Z) (image : load_state_t) (params : cstr) : P F boot_call :=
  let start := elf_start word image in
  set_bootargs params;;
  b ← gets m_bi;
  mret (mk_boot_call start (initrd_base b) (initrd_len b)
          (if has_flag (bi_flags b) SHIM_OF then bi_prom_shim b else bi_prom_entry b)).

End Elf.

(** ** Specification *)

Record phdr := mk_phdr { ph_type : Z; ph_offset : Z; ph_vaddr : Z; ph_memsz : Z }.

Definition phdr_at (e : list Z) (p : Z) : phdr :=
  mk_phdr (p_type e p) (p_offset e p) (p_vaddr e p) (p_memsz e p).

(** The headers [ph] lie one after the other from offset [p]. *)
Definition phdrs_at (e : list Z) (p : Z) (ph : list phdr) : Prop :=
  p + SIZEOF_PHDR * Z.of_nat (length ph) <= Z.of_nat (length e)
  /\ forall i h, ph !! i = Some h -> phdr_at e (p + SIZEOF_PHDR * Z.of_nat i) = h.

Definition loadable (h : phdr) : bool := (ph_type h =? PT_LOAD) && negb (ph_offset h =? 0).

(** The text runs from the first loadable segment to the end of the last. *)
Definition text_span (segs : list phdr) : option (Z * Z * Z) :=
  match segs with
  | [] => None
  | h :: _ =>
      let l := List.last segs h in
      Some (ph_offset l + ph_memsz l - ph_offset h, ph_offset h, Z.land (ph_vaddr h) ADDRMASK)
  end.

(** Segments in increasing file order, not empty, below 4G. *)
Definition segs_ok (segs : list phdr) : Prop :=
  Forall (fun h => 0 < ph_memsz h /\ 0 <= ph_offset h
                   /\ ph_offset h + ph_memsz h < 4294967296) segs
  /\ StronglySorted (fun a b => ph_offset a <= ph_offset b) segs.

(** ** Lemmas *)

Lemma phdrs_at_cons e p h ph :
  phdrs_at e p (h :: ph) ->
  p + SIZEOF_PHDR <= Z.of_nat (length e) /\ phdr_at e p = h /\ phdrs_at e (p + SIZEOF_PHDR) ph.
Proof.
  unfold phdrs_at, SIZEOF_PHDR. cbn [length]. intros [Hl Hh]. split_and!.
  - lia.
  - rewrite <- (Hh O h eq_refl). f_equal. lia.
  - lia.
  - intros i x Hi. rewrite <- (Hh (S i) x Hi). f_equal. lia.
Qed.

Lemma loadable_skip h : negb (ph_type h =? PT_LOAD) || (ph_offset h =? 0) = negb (loadable h).
Proof. unfold loadable. by rewrite negb_andb, negb_involutive. Qed.

Lemma last_cons {A} (x : A) l d : List.last (x :: l) d = List.last l x.
Proof.
  revert x d. induction l as [|y l IH]; intros x d; [done|].
  change (List.last (x :: y :: l) d) with (List.last (y :: l) d). by rewrite (IH y d), (IH y x).
Qed.

(** After the first segment. *)
Lemma phdr_loop_more e p ph h0 h len :
  phdrs_at e p ph -> 0 < len ->
  len = ph_offset h + ph_memsz h - ph_offset h0 ->
  segs_ok (h0 :: List.filter loadable ph) ->
  phdr_loop (length ph) e p len (ph_offset h0) (Z.land (ph_vaddr h0) ADDRMASK)
  = let l := List.last (List.filter loadable ph) h in
    Some (ph_offset l + ph_memsz l - ph_offset h0, ph_offset h0, Z.land (ph_vaddr h0) ADDRMASK).
Proof.
  revert p h len. induction ph as [|x ph IH]; intros p h len Hat Hlen Heq Hok; [by subst|].
  apply phdrs_at_cons in Hat as (Hb & Hx & Hat). cbn [phdr_loop length List.filter].
  destruct (Z.ltb_spec (Z.of_nat (length e)) (p + SIZEOF_PHDR)); [lia|].
  replace (p_type e p) with (ph_type x) by (by rewrite <- Hx).
  replace (p_offset e p) with (ph_offset x) by (by rewrite <- Hx).
  replace (p_memsz e p) with (ph_memsz x) by (by rewrite <- Hx).
  cbn [List.filter] in Hok. rewrite loadable_skip.
  destruct (loadable x); cbn [negb]; [|by apply IH with (len := len)].
  destruct (Z.eqb_spec len 0); [lia|].
  destruct Hok as [Hf Hs]. rewrite !Forall_cons in Hf.
  destruct Hf as ((A1 & A2 & A3) & (B1 & B2 & B3) & Hf). apply StronglySorted_inv in Hs as [Hs' Hle].
  rewrite Forall_cons in Hle. destruct Hle as [Hle Hle']. apply StronglySorted_inv in Hs' as [Hs'' Hlx].
  rewrite (u32_small (ph_offset x + _)), u32_small by lia.
  rewrite (IH _ x); [|done|lia|lia|split; by repeat constructor].
  cbv zeta. by rewrite last_cons.
Qed.

Lemma phdr_loop_span e p ph :
  phdrs_at e p ph -> segs_ok (List.filter loadable ph) ->
  phdr_loop (length ph) e p 0 0 0
  = Some (default (0, 0, 0) (text_span (List.filter loadable ph))).
Proof.
  revert p. induction ph as [|x ph IH]; intros p Hat Hok; [done|].
  apply phdrs_at_cons in Hat as (Hb & Hx & Hat). cbn [phdr_loop length List.filter] in *.
  destruct (Z.ltb_spec (Z.of_nat (length e)) (p + SIZEOF_PHDR)); [lia|].
  replace (p_type e p) with (ph_type x) by (by rewrite <- Hx).
  replace (p_offset e p) with (ph_offset x) by (by rewrite <- Hx).
  replace (p_memsz e p) with (ph_memsz x) by (by rewrite <- Hx).
  replace (p_vaddr e p) with (ph_vaddr x) by (by rewrite <- Hx).
  rewrite loadable_skip. destruct (loadable x); cbn [negb]; [|by apply IH].
  change (0 =? 0) with true. cbv iota.
  pose proof Hok as [Hf _]. rewrite Forall_cons in Hf. destruct Hf as ((A1 & A2 & A3) & _).
  rewrite (phdr_loop_more e _ ph x x) by (try done; lia).
  cbv zeta. unfold text_span. cbn [default]. by rewrite last_cons.
Qed.
