(* ===== verification/ElfCorrect.v ===== *)
(** * Correctness of kernel loading

    What [elf_parse] says of an ELF image, the errors of other files, and where a
    relocated kernel is entered. *)
From Stdlib Require Import ZArith Lia Ascii Sorted.
From stdpp Require Import prelude strings.
From S2P Require Import Prelude Quik CString Util Malloc Printf Machine Prom Part Sim Elf.

(** ** Specification *)

(** The four bytes every ELF file starts with. *)
Definition elf_magic (e : list Z) : Prop :=
  e_ident e 0 = 0x7f /\ e_ident e 1 = chr "E" /\ e_ident e 2 = chr "L" /\ e_ident e 3 = chr "F".

(** A 32-bit big-endian ELF image with program headers [ph]. *)
Definition elf_image (e : list Z) (ph : list phdr) : Prop :=
  SIZEOF_EHDR <= Z.of_nat (length e) /\ elf_magic e
  /\ e_ident e 4 = ELFCLASS32 /\ e_ident e 5 = ELFDATA2MSB
  /\ e_phnum e = Z.of_nat (length ph) /\ phdrs_at e (e_phoff e) ph.

(** The state of a kernel whose text spans [span] of the buffer. *)
Definition loaded_state (load_buf : Z) (e : list Z) (span : Z * Z * Z) : load_state_t :=
  let '(len, off, base) := span in
  mk_load_state load_buf base off len (Z.land (e_entry e) ADDRMASK).

(** The memory a kernel needs past the bytes read has been asked for. *)
Definition rest_claimed {F} {FW : Firmware F} (from to : Z) (m m' : mach F) : Prop :=
  if from <? to then pages_claimed to from m m' else m' = m.

(** The entry point lies in the text, and the text in the 256M addresses count in. *)
Definition entry_inside (i : load_state_t) : Prop :=
  0 <= linked_base i <= entry i /\ entry i < linked_base i + text_len i
  /\ 0 <= buf i /\ 0 <= text_offset i /\ 0 <= text_len i
  /\ buf i + text_offset i + text_len i < 4294967296.

Section Properties.
Context {F : Type} {FW : Firmware F}.
Implicit Types m : mach F.

(** ** Lemmas *)

Lemma text_span_range segs len off base :
  segs_ok segs -> text_span segs = Some (len, off, base) ->
  0 < len /\ 0 <= off /\ len + off < 4294967296.
Proof.
  intros [Hf Hs] E. destruct segs as [|h segs]; [done|].
  unfold text_span in E. rewrite last_cons in E. set (l := List.last segs h) in *.
  injection E as <- <- _. apply StronglySorted_inv in Hs as [_ Hle].
  apply Forall_cons in Hf as [(H1 & H2 & H3) Hf].
  assert (Hin : l = h \/ l ∈ segs).
  { subst l. clear. revert h. induction segs as [|x segs IH]; intros h; [by left|]. rewrite last_cons.
    destruct (IH x) as [-> | ?]; right; [left|by right]. }
  destruct Hin as [->|Hin]; [lia|].
  rewrite Forall_forall in Hf, Hle. destruct (Hf _ Hin) as (? & ? & ?). specialize (Hle _ Hin). lia.
Qed.

Lemma elf_header_ok e : elf_magic e ->
  negb ((e_ident e 0 =? 0x7f) && (e_ident e 1 =? chr "E") && (e_ident e 2 =? chr "L")
        && (e_ident e 3 =? chr "F")) = false.
Proof. intros (-> & -> & -> & ->). done. Qed.

(** The parse of an image in file order, for the files below. *)
Lemma elf_parse_ok load_buf e n ph span m :
  elf_image e ph -> segs_ok (List.filter loadable ph) ->
  text_span (List.filter loadable ph) = Some span ->
  let '(len, off, _) := span in
  0 <= load_buf -> 0 <= n -> load_buf + len + off + SIZE_4K <= 4294967296 ->
  exists m', elf_parse load_buf e n m = (Ok (loaded_state load_buf e span), m')
    /\ rest_claimed (load_buf + n) (load_buf + len + off) m m'.
Proof.
  intros (Hl & Hm & Hc & Hd & Hn & Hat) Hs Hsp. destruct span as [[len off] base].
  intros Hb Hn0 Hlim. unfold SIZE_4K in *. unfold elf_parse.
  destruct (Z.ltb_spec (Z.of_nat (length e)) SIZEOF_EHDR); [lia|].
  rewrite (elf_header_ok e Hm), Hc, Hd, !Z.eqb_refl. cbn [negb orb].
  rewrite Hn, Nat2Z.id, (phdr_loop_span e _ ph Hat Hs), Hsp. cbn [default of_option].
  rewrite bind_ret. unfold id. destruct (text_span_range _ _ _ _ Hs Hsp) as (R1 & R2 & R3).
  destruct (Z.eqb_spec len 0); [lia|]. unfold rest_claimed.
  rewrite (u32_small off) by lia.
  destruct (Z.ltb_spec n (len + off)) as [Hlt|Hge], (Z.ltb_spec (load_buf + n) (load_buf + len + off));
    try lia.
  - rewrite (u32_small (load_buf + n)), (u32_small (len + off - n)) by lia.
    unfold prom_ensure_claimed, SIZE_4K. rewrite u32_small by lia.
    destruct (ensure_claimed_loop_spec (Z.to_nat ((len + off - n) / 0x1000 + 2)) (load_buf + n)
      (load_buf + n + (len + off - n)) m) as (m' & E & Hp);
      [lia|unfold SIZE_4K; lia|unfold SIZE_4K; Z.div_mod_to_equations; lia|Z.div_mod_to_equations; lia|].
    rewrite (bind_ok _ _ _ _ _ E). exists m'. split; [done|].
    by replace (load_buf + len + off) with (load_buf + n + (len + off - n)) by lia.
  - by exists m.
Qed.

(** ** Properties *)


(** A file that is not ELF, an ELF file of another class or byte order, and one
    without a loadable segment are each refused with their own error, and no memory
    is asked for. *)
Theorem elf_parse_refuses load_buf e n m :
  SIZEOF_EHDR <= Z.of_nat (length e) ->
  (~ elf_magic e -> elf_parse load_buf e n m = (Err ERR_ELF_NOT, m))
  /\ (elf_magic e -> e_ident e 4 <> ELFCLASS32 \/ e_ident e 5 <> ELFDATA2MSB ->
      elf_parse load_buf e n m = (Err ERR_ELF_WRONG, m))
  /\ (forall ph, elf_image e ph -> List.filter loadable ph = [] ->
      elf_parse load_buf e n m = (Err ERR_ELF_NOT_LOADABLE, m)).
Proof.
  intros Hl. unfold elf_parse.
  destruct (Z.ltb_spec (Z.of_nat (length e)) SIZEOF_EHDR); [lia|]. split_and!.
  - intros Hm. destruct (negb _) eqn:E; [done|]. exfalso. apply Hm.
    apply negb_false_iff in E. rewrite !andb_true_iff, !Z.eqb_eq in E. unfold elf_magic. tauto.
  - intros Hm H1. rewrite (elf_header_ok e Hm).
    destruct (Z.eqb_spec (e_ident e 4) ELFCLASS32), (Z.eqb_spec (e_ident e 5) ELFDATA2MSB); try done.
    by destruct H1.
  - intros ph (_ & Hm & Hc & Hd & Hn & Hat) Hf. rewrite (elf_header_ok e Hm), Hc, Hd, !Z.eqb_refl.
    cbn [negb orb]. assert (Hs : segs_ok (List.filter loadable ph)) by (rewrite Hf; by split; constructor).
    rewrite Hn, Nat2Z.id, (phdr_loop_span e _ ph Hat Hs), Hf. done.
Qed.

(** C28: A kernel of 2.4 and later is entered where it was loaded: after [elf_relo]
    the text starts at its place in the buffer, the entry point lies in it at the
    offset it was linked at, and a kernel that starts with a nop is entered at the
    start of its text.  Nothing is copied; the text is flushed from the caches. *)
Theorem relocated_entry word image m :
  entry_inside image -> has_flag (bi_flags (m_bi m)) BOOT_PRE_2_4 = false ->
  exists image', elf_relo image m = (Ok image', add_op (FlushCache (linked_base image') (text_len image')) m)
    /\ linked_base image' = buf image + text_offset image /\ text_len image' = text_len image
    /\ entry image' - linked_base image' = entry image - linked_base image
    /\ linked_base image' <= entry image' < linked_base image' + text_len image'
    /\ (word (entry image') = 0x60000000 -> elf_start word image' = buf image + text_offset image).
Proof.
  intros (H1 & H2 & H3 & H4 & H5 & H6) Hf. unfold elf_relo, do_op. rewrite bind_gets, Hf, bind_modify.
  exists (mk_load_state (buf image) (u32 (buf image + text_offset image)) (text_offset image) (text_len image)
    (u32 (u32 (entry image - linked_base image) + u32 (buf image + text_offset image)))).
  split; [reflexivity|]. cbn [linked_base entry text_len].
  rewrite (u32_small (buf image + _)), (u32_small (entry image - _)) by lia.
  rewrite u32_small by lia. split_and!; try lia.
  intros Hw. unfold elf_start. cbn [entry linked_base] in *. by rewrite Hw.
Qed.


End Properties.

(** ** Witnesses *)

(** A kernel with a note, and text and data segments linked at 0xc0000000. *)
Definition demo_phdr (t off vaddr memsz : Z) : list Z :=
  enc_be32 t ++ enc_be32 off ++ enc_be32 vaddr ++ enc_be32 vaddr ++ enc_be32 memsz ++ enc_be32 memsz
  ++ replicate 8 0.

Definition demo_ehdr (phnum : Z) : list Z :=
  [0x7f] ++ str "ELF" ++ [1; 2; 1] ++ replicate 9 0 ++ replicate 8 0
  ++ enc_be32 0xc0000100 ++ enc_be32 52 ++ replicate 8 0 ++ replicate 4 0 ++ enc_be16 phnum
  ++ replicate 6 0.

Definition demo_elf (phnum : Z) : list Z :=
  demo_ehdr phnum ++ demo_phdr 4 180 0 16 ++ demo_phdr 1 0x1000 0xc0000000 0x3000 ++ demo_phdr 1 0x5000 0xc0004000 0x2000.

Definition demo_phdrs : list phdr :=
  [mk_phdr 4 180 0 16; mk_phdr 1 0x1000 0xc0000000 0x3000; mk_phdr 1 0x5000 0xc0004000 0x2000].

Lemma demo_elf_image : elf_image (demo_elf 3) demo_phdrs.
Proof.
  unfold elf_image, elf_magic, phdrs_at. split_and!; try (by vm_compute).
  intros [|[|[|i]]] h Hh; try (by injection Hh as <-). done.
Qed.

Lemma demo_segs_ok : segs_ok (List.filter loadable demo_phdrs).
Proof.
  assert (E : List.filter loadable demo_phdrs
    = [mk_phdr 1 0x1000 0xc0000000 0x3000; mk_phdr 1 0x5000 0xc0004000 0x2000]) by (by vm_compute).
  rewrite E. split; repeat constructor; simpl; lia.
Qed.


Lemma elf_parse_refuses_witness :
  elf_parse 0x1000000 (replicate 60 7) 60 (sim_mach []) = (Err ERR_ELF_NOT, sim_mach [])
  /\ elf_parse 0x1000000 (demo_elf 1) 60 (sim_mach []) = (Err ERR_ELF_NOT_LOADABLE, sim_mach []).
Proof.
  split.
  - refine (proj1 (elf_parse_refuses 0x1000000 (replicate 60 7) 60 (sim_mach []) _) _);
      [by vm_compute|]. unfold elf_magic. intros (? & _). by vm_compute in H.
  - refine (proj2 (proj2 (elf_parse_refuses 0x1000000 (demo_elf 1) 60 (sim_mach []) _))
      [mk_phdr 4 180 0 16] _ _); [by vm_compute| |by vm_compute].
    unfold elf_image, elf_magic, phdrs_at. split_and!; try (by vm_compute).
    intros [|i] h Hh; [by injection Hh as <-|done].
Defined.

Definition demo_loaded : load_state_t := mk_load_state 0x1000000 0 0x1000 0x6000 0x100.

Lemma relocated_entry_witness :
  exists image', elf_relo demo_loaded (sim_mach [])
      = (Ok image', add_op (FlushCache (linked_base image') (text_len image')) (sim_mach []))
    /\ linked_base image' = 0x1000000 + 0x1000 /\ text_len image' = 0x6000
    /\ entry image' - linked_base image' = 0x100 - 0
    /\ linked_base image' <= entry image' < linked_base image' + text_len image'
    /\ ((fun _ : Z => 0x60000000) (entry image') = 0x60000000
        -> elf_start (fun _ => 0x60000000) image' = 0x1000000 + 0x1000).
Proof.
  refine (relocated_entry (fun _ => 0x60000000) demo_loaded (sim_mach []) _ _); [|by vm_compute].
  unfold entry_inside. simpl. lia.
Defined.

Definition old_mach : mach sim :=
  let m := sim_mach [] in set_bi (set_bi_flags (fun _ => BOOT_PRE_2_4) (m_bi m)) m.

