(* ===== verification/Commands.v ===== *)
(** * The command line (commands.c)

    The table of commands, their dispatch, and the line editor.  The commands
    work on a larger state than this file knows; the class [Console] gives the
    machine and the line buffer in it. *)
From Stdlib Require Import ZArith Lia Ascii.
From stdpp Require Import prelude strings.
From S2P Require Import Prelude Quik CString Util Malloc Printf Machine Prom Cfg.

Definition CMD_LENG : Z := 512.

Class Console (F S : Type) := {
  get_m : S -> mach F;
  put_m : mach F -> S -> S;
  get_cbuff : S -> list Z;
  put_cbuff : list Z -> S -> S
}.

(** Each part is read back as it was written, and the two are independent. *)
Class ConsoleLaws {F S : Type} (C : Console F S) : Prop := {
  get_put_m m s : get_m (put_m m s) = m;
  get_put_cbuff b s : get_cbuff (put_cbuff b s) = b;
  get_m_put_cbuff b s : get_m (put_cbuff b s) = get_m s;
  get_cbuff_put_m m s : get_cbuff (put_m m s) = get_cbuff s
}.

Record command (S : Type) := mk_command {
  c_cmd : cstr;
  c_desc : cstr;
  c_fn : cstr -> M quik_err_t S unit
}.
Arguments mk_command {S}.
Arguments c_cmd {S}.
Arguments c_desc {S}.
Arguments c_fn {S}.

Section Commands.
Context {F S : Type} {FW : Firmware F} {C : Console F S}.

Abbreviation L := (M quik_err_t S).

Definition on_m {A} (c : P F A) : L A := zoom get_m put_m c.

(** ** Showing commands: the names and descriptions of the table *)

Definition cmd_show_command (name desc : cstr) : L unit :=
  on_m (
    tp ← table_print (table_print_start 2 16) name;
    printk (str "- ") [];;
    tp ← table_print tp desc;
    table_print_end tp).

Fixpoint show_names (names : list cstr) (tp : table_print_t) : P F table_print_t :=
  match names with
  | [] => mret tp
  | n :: names' => tp ← table_print tp n; show_names names' tp
  end.

Definition cmd_show_commands (names : list cstr) : L unit :=
  on_m (
    printk (str "Available commands:" ++ [10]) [];;
    tp ← show_names names (table_print_start 4 16);
    table_print_end tp).

(** The loop of [cmd_help]: true when it ran to the end of the table. *)
Fixpoint help_loop (cmds : list (cstr * cstr)) (args : option cstr) (add : nat) : L bool :=
  match cmds with
  | [] => mret true
  | (name, desc) :: cmds' =>
      match args with
      | None => cmd_show_command name desc;; help_loop cmds' args add
      | Some a =>
          if strcmp a (drop add name) =? 0 then cmd_show_command name desc;; mret false
          else help_loop cmds' args add
      end
  end.

Definition cmd_help (cmds : list (cstr * cstr)) (args : cstr) : L unit :=
  let '(args, _) := word_split (Some args) in
  let add := match args with
             | Some a => if negb (byte_at a 0 =? chr "!") then 1%nat else O
             | None => O
             end in
  at_end ← help_loop cmds args add;
  if at_end : bool then cmd_show_commands (map fst cmds) else mret tt.

(** ** Dispatch *)

Fixpoint find_command (cmds : list (command S)) (name : cstr) : option (command S) :=
  match cmds with
  | [] => None
  | c :: cmds' => if strcmp name (c_cmd c) =? 0 then Some c else find_command cmds' name
  end.

(** Only an unknown command is an error to the caller. *)
Definition cmd_dispatch (cmds : list (command S)) (args : cstr) : L unit :=
  let '(word, e) := word_split (Some args) in
  match word with
  | None => throw ERR_CMD_UNKNOWN
  | Some w =>
      match find_command cmds w with
      | None => throw ERR_CMD_UNKNOWN
      | Some c =>
          r ← attempt (c_fn c (chomp e));
          match r with
          | inr tt => mret tt
          | inl err =>
              if decide (err = ERR_CMD_BAD_PARAM) then cmd_show_command (c_cmd c) (c_desc c)
              else on_m (printk (str "'%s': %r" ++ [10]) [KStr (Some (c_cmd c)); KErr (err_code err)])
          end
      end
  end.

(** [cmd_init]: the buffer, whose contents are whatever the heap held. *)
Definition cmd_init : L unit :=
  p ← on_m (do_malloc CMD_LENG);
  match p with
  | None => throw ERR_NO_MEM
  | Some _ => modify (put_cbuff (replicate (Z.to_nat CMD_LENG) (u8 uninit_word)))
  end.

(** ** The editor *)

Definition set_char (x c : Z) : L unit :=
  b ← gets get_cbuff;
  if (x <? 0) || (Z.of_nat (length b) <=? x) then undef OutOfBounds
  else modify (put_cbuff (<[Z.to_nat x := u8 c]> b)).

(** A key and the number of characters typed; [kfuel] bounds the polling for one
    key, [fuel] the number of keys. *)
Fixpoint edit_loop (fuel kfuel : nat) (tabfunc : option (cstr -> L unit)) (c x : Z) : L Z :=
  match fuel with
  | O => undef OutOfFuel
  | Datatypes.S fuel' =>
      if (c =? KEY_NONE) || (c =? 10) || (c =? 13) then mret x
      else
        x ← match (if c =? 9 then tabfunc else None) with
            | Some tab =>
                set_char x 0;;
                b ← gets get_cbuff;
                tab (until_nul b);; mret x
            | None =>
                if (c =? 8) || (c =? 0x7F) then
                  if 0 <? x then
                    set_char (x - 1) 0;;
                    on_m (prom_print [8; chr " "; 8]);; mret (x - 1)
                  else mret x
                else if (chr " " <=? c) && (x <? CMD_LENG - 1) then
                  set_char x c;;
                  on_m (putchar c);; mret (x + 1)
                else mret x
            end;
        c ← on_m (getchar kfuel);
        edit_loop fuel' kfuel tabfunc c x
  end.

(** [memset(cbuff, 0, sizeof(cbuff))] clears the size of a pointer. *)
Definition clear_cbuff : L unit :=
  b ← gets get_cbuff;
  if Z.of_nat (length b) <? 4 then undef OutOfBounds
  else modify (put_cbuff (overlay b (replicate 4 0))).

(** The line typed, None when it was a command. *)
Definition cmd_edit (fuel kfuel : nat) (cmds : list (command S))
    (tabfunc : option (cstr -> L unit)) (c : Z) : L (option cstr) :=
  clear_cbuff;;
  c ← (if c =? KEY_NONE then on_m (getchar kfuel) else mret c);
  x ← edit_loop fuel kfuel tabfunc c 0;
  on_m (putchar 10);;
  set_char x 0;;
  b ← gets get_cbuff;
  let line := until_nul b in
  if byte_at line 0 =? chr "!" then
    r ← attempt (cmd_dispatch cmds line);
    match r with
    | inl _ => cmd_show_commands (map c_cmd cmds)
    | inr _ => mret tt
    end;;
    mret None
  else mret (Some line).

End Commands.

(** ** Specification *)

(** What a sequence of keys makes of a line: erasing, and characters as long as
    there is room for the terminating NUL. *)
Definition edit_key (line : cstr) (c : Z) : cstr :=
  if c =? 9 then line
  else if (c =? 8) || (c =? 0x7F) then take (length line - 1) line
  else if (chr " " <=? c) && (Z.of_nat (length line) <? CMD_LENG - 1) then line ++ [c]
  else line.

Definition edit_line (keys : list Z) : cstr := foldl edit_key [] keys.

(** Keys that do not end the line. *)
Definition edit_keys_ok (keys : list Z) : Prop :=
  Forall (fun c => 0 < c < 256 /\ c <> 10 /\ c <> 13) keys.

(** What the editor relies on of the console: a queue of keys that reading takes
    from and writing leaves alone. *)
Class Keyboard {F} {FW : Firmware F} (sin : Z) (K : list Z -> F -> Prop) : Prop := {
  kb_write ks : write_closed (K ks);
  kb_read c ks f r f' :
    K (c :: ks) f -> 0 <= c < 256 -> prom_entry (str "read") [AInt sin; AInt 1] 1 f = (r, f') ->
    K ks f' /\ hd 0 (r_args r) = 1 /\ byte_at (r_buf r) 0 = c
}.

(** ** Lemmas *)

Lemma edit_line_bound keys : Z.of_nat (length (edit_line keys)) < CMD_LENG.
Proof.
  unfold edit_line. assert (H : forall l, Z.of_nat (length l) < CMD_LENG ->
    Z.of_nat (length (foldl edit_key l keys)) < CMD_LENG); [|by apply H].
  induction keys as [|c keys IH]; intros l Hl; [done|]. simpl. apply IH. unfold edit_key.
  destruct (c =? 9); [done|]. destruct (_ || _); [rewrite length_take; lia|].
  destruct (Z.leb_spec (chr " ") c); cbn [andb]; [|done].
  destruct (Z.ltb_spec (Z.of_nat (length l)) (CMD_LENG - 1)); [|done].
  rewrite length_app. simpl. lia.
Qed.

Lemma quiet_prom_print {F} {FW : Firmware F} I msg : write_closed I -> quiet I (prom_print msg).
Proof.
  intros HI. unfold prom_print.
  assert (H : forall n msg, (length msg < n)%nat -> quiet I (prom_print_loop n msg)); [|apply H; lia].
  clear msg. induction n as [|n IH]; intros msg Hn; [lia|]. cbn [prom_print_loop].
  destruct msg as [|c msg]; [apply quiet_ret|].
  apply quiet_bind; [apply quiet_gets|]. intros out.
  destruct (prom_line (c :: msg)) as [l r] eqn:E.
  assert (Hr : (length r <= length (c :: msg))%nat).
  { clear -E. revert l r E. generalize (c :: msg). intros m. induction m as [|x m IH]; intros l r E; simpl in E.
    - by injection E as <- <-.
    - destruct (x =? 10); [by injection E as <- <-|].
      destruct (prom_line m) as [l' r']. injection E as <- <-. specialize (IH l' r' eq_refl). simpl. lia. }
  apply quiet_bind; [destruct (0 <? strlen l); [by apply quiet_write|apply quiet_ret]|]. intros _.
  destruct r as [|y r]; [apply quiet_ret|]. apply quiet_bind; [by apply quiet_write|].
  intros _. apply IH. simpl in *. lia.
Qed.

Section Edit.
Context {F S : Type} {FW : Firmware F} {C : Console F S} {CL : ConsoleLaws C}.
Context (sin : Z) (Hsin : sin <> 0) (K : list Z -> F -> Prop) {KB : Keyboard sin K}.

(** What the function called on a tabulation needs of the state. *)
Context (J : S -> Prop) (HJm : forall m s, J s -> J (put_m m s)) (HJb : forall b s, J s -> J (put_cbuff b s)).

Abbreviation L := (M quik_err_t S).

(** The state between two keys: keys to come, and the line in the buffer. *)
Definition editing (ks : list Z) (line : cstr) (s : S) : Prop :=
  K ks (m_fw (get_m s)) /\ prom_stdin (m_prom (get_m s)) = sin
  /\ Z.of_nat (length (get_cbuff s)) = CMD_LENG
  /\ take (length line) (get_cbuff s) = line /\ Z.of_nat (length line) < CMD_LENG /\ J s.

(** What the editor relies on of the function called on a tabulation. *)
Definition tab_ok (tab : cstr -> L unit) : Prop :=
  forall b ks line s, editing ks line s ->
    exists s', tab b s = (Ok tt, s') /\ editing ks line s'.

Lemma editing_quiet {A} (c : P F A) ks line s :
  quiet (K ks) c -> editing ks line s ->
  exists a s', on_m c s = (Ok a, s') /\ editing ks line s'.
Proof.
  intros Hc (H1 & H2 & H3 & H4 & H5 & HJ). destruct (Hc _ H1) as (a & m' & E & HK & HS & _).
  exists a, (put_m m' s). split; [by unfold on_m, zoom; rewrite E|].
  unfold editing. rewrite get_put_m, get_cbuff_put_m, HS. split_and!; auto.
Qed.

Lemma editing_set ks line line' b s :
  editing ks line s -> Z.of_nat (length b) = CMD_LENG -> take (length line') b = line' ->
  Z.of_nat (length line') < CMD_LENG -> editing ks line' (put_cbuff b s).
Proof.
  intros (H1 & H2 & H3 & H4 & H5 & HJ) Hb Ht Hl. unfold editing.
  rewrite get_put_cbuff, get_m_put_cbuff. split_and!; auto.
Qed.

Lemma take_insert_end (l : list Z) (n : nat) x line :
  take n l = line -> (n < length l)%nat -> take (Datatypes.S n) (<[n := x]> l) = line ++ [x].
Proof.
  intros <- Hn. rewrite (take_S_r _ _ x) by (by rewrite list_lookup_insert_eq).
  by rewrite take_insert_ge.
Qed.

(** A write inside the buffer. *)
Lemma set_char_in (n : nat) c s :
  (n < length (get_cbuff s))%nat ->
  set_char (Z.of_nat n) c s = (Ok tt, put_cbuff (<[n := u8 c]> (get_cbuff s)) s).
Proof.
  intros Hn. unfold set_char. rewrite bind_gets.
  destruct (Z.ltb_spec (Z.of_nat n) 0); [lia|].
  destruct (Z.leb_spec (Z.of_nat (length (get_cbuff s))) (Z.of_nat n)); [lia|].
  cbn [orb]. unfold modify. by rewrite Nat2Z.id.
Qed.

(** One key. *)
Lemma edit_step (tabfunc : option (cstr -> L unit)) c ks line s :
  match tabfunc with Some tab => tab_ok tab | None => True end ->
  0 < c < 256 -> editing ks line s ->
  exists s',
    (match (if c =? 9 then tabfunc else None) with
     | Some tab =>
         set_char (Z.of_nat (length line)) 0;;
         b ← gets get_cbuff;
         tab (until_nul b);; mret (Z.of_nat (length line))
     | None =>
         if (c =? 8) || (c =? 0x7F) then
           if 0 <? Z.of_nat (length line) then
             set_char (Z.of_nat (length line) - 1) 0;;
             on_m (prom_print [8; chr " "; 8]);; mret (Z.of_nat (length line) - 1)
           else mret (Z.of_nat (length line))
         else if (chr " " <=? c) && (Z.of_nat (length line) <? CMD_LENG - 1) then
           set_char (Z.of_nat (length line)) c;;
           on_m (putchar c);; mret (Z.of_nat (length line) + 1)
         else mret (Z.of_nat (length line))
     end) s = (Ok (Z.of_nat (length (edit_key line c))), s')
    /\ editing ks (edit_key line c) s'.
Proof.
  intros Htab Hc He. pose proof He as (H1 & H2 & H3 & H4 & H5 & HJ).
  unfold edit_key. unfold CMD_LENG in *.
  destruct (Z.eqb_spec c 9) as [->|Hc9].
  - destruct tabfunc as [tab|]; [|by exists s].
    rewrite (bind_ok _ _ _ _ _ (set_char_in (length line) 0 s ltac:(lia))), bind_gets.
    destruct (Htab (until_nul (get_cbuff (put_cbuff (<[length line:=u8 0]> (get_cbuff s)) s))) ks line
      (put_cbuff (<[length line:=u8 0]> (get_cbuff s)) s)) as (s' & E & He').
    { eapply editing_set; [exact He|by rewrite length_insert| |done].
      by rewrite take_insert_ge. }
    exists s'. by rewrite (bind_ok _ _ _ _ _ E).
  - destruct ((c =? 8) || (c =? 0x7F)) eqn:Eb.
    + destruct line as [|y l0] eqn:El; [by exists s|]. rewrite <- El in *.
      assert (Hlen : (0 < length line)%nat) by (subst line; simpl; lia).
      destruct (Z.ltb_spec 0 (Z.of_nat (length line))); [|lia].
      replace (Z.of_nat (length line) - 1) with (Z.of_nat (length line - 1)) by lia.
      rewrite (bind_ok _ _ _ _ _ (set_char_in (length line - 1) 0 s ltac:(lia))).
      assert (Htl : length (take (length line - 1) line) = (length line - 1)%nat)
        by (rewrite length_take; lia).
      destruct (editing_quiet (prom_print [8; chr " "; 8]) ks (take (length line - 1) line)
        (put_cbuff (<[(length line - 1)%nat:=u8 0]> (get_cbuff s)) s)) as ([] & s' & E & He').
      { apply quiet_prom_print, kb_write. }
      { eapply editing_set; [exact He|by rewrite length_insert| |rewrite Htl; unfold CMD_LENG; lia].
        rewrite Htl, take_insert_ge by lia. 
        assert (Hq : take (length line - 1) (take (length line) (get_cbuff s))
          = take (length line - 1) line) by (by rewrite H4).
        by rewrite take_take, Nat.min_l in Hq by lia. }
      exists s'. by rewrite (bind_ok _ _ _ _ _ E), Htl.
    + destruct ((chr " " <=? c) && (Z.of_nat (length line) <? 512 - 1)) eqn:Ep; [|by exists s].
      apply andb_prop in Ep as [_ Ep]. apply Z.ltb_lt in Ep.
      rewrite (bind_ok _ _ _ _ _ (set_char_in (length line) c s ltac:(lia))), u8_small by lia.
      destruct (editing_quiet (putchar c) ks (line ++ [c])
        (put_cbuff (<[length line:=c]> (get_cbuff s)) s)) as (r & s' & E & He').
      { apply quiet_putchar, kb_write. }
      { eapply editing_set; [exact He|by rewrite length_insert| |rewrite length_app; simpl; unfold CMD_LENG; lia].
        rewrite length_app, Nat.add_1_r. apply take_insert_end; [done|lia]. }
      exists s'. rewrite (bind_ok _ _ _ _ _ E). split; [|done].
      unfold mret, M_ret. rewrite length_app. do 2 f_equal. simpl. lia.
Qed.

(** The next key. *)
Lemma edit_getchar c ks line s kfuel :
  0 <= c < 256 -> (0 < kfuel)%nat -> editing (c :: ks) line s ->
  exists s', on_m (getchar kfuel) s = (Ok c, s') /\ editing ks line s'.
Proof.
  intros Hc Hk (H1 & H2 & H3 & H4 & H5 & HJ). destruct kfuel as [|kfuel]; [lia|].
  unfold on_m, zoom, getchar. rewrite bind_gets, H2.
  destruct (Z.eqb_spec sin 0); [done|]. cbn [getchar_loop]. rewrite bind_gets, H2.
  unfold call_prom_ret, mbind, M_bind.
  destruct (prom_entry (str "read") [AInt sin; AInt 1] 1 (m_fw (get_m s))) as [r f'] eqn:E.
  destruct (kb_read _ _ _ _ _ H1 Hc E) as (HK & Hr & Hb). rewrite Hr, Hb.
  change (s32 1 =? 0) with false. change (0 <? s32 1) with true. cbv iota.
  eexists. split; [reflexivity|]. unfold editing.
  rewrite get_put_m, get_cbuff_put_m. split_and!; auto.
Qed.

(** The keys typed up to the end of the line. *)
Lemma edit_loop_keys (tabfunc : option (cstr -> L unit)) kfuel keys e ks line s fuel :
  match tabfunc with Some tab => tab_ok tab | None => True end ->
  edit_keys_ok keys -> e = 10 \/ e = 13 -> (0 < kfuel)%nat -> (length keys < fuel)%nat ->
  editing (tl (keys ++ e :: ks)) line s ->
  exists s', edit_loop fuel kfuel tabfunc (hd 0 (keys ++ [e])) (Z.of_nat (length line)) s
      = (Ok (Z.of_nat (length (foldl edit_key line keys))), s')
    /\ editing ks (foldl edit_key line keys) s'.
Proof.
  intros Htab Hkeys He Hk. revert line s fuel.
  induction Hkeys as [|c keys (Hc & Hc10 & Hc13) Hkeys IH]; intros line s fuel Hf Hs;
    (destruct fuel as [|fuel]; [simpl in Hf; lia|]); cbn [edit_loop hd app tl foldl] in *.
  - exists s. split; [|done]. by destruct He as [-> | ->].
  - unfold KEY_NONE. destruct (Z.eqb_spec c (-1)); [lia|]. destruct (Z.eqb_spec c 10); [done|].
    destruct (Z.eqb_spec c 13); [done|]. cbn [orb].
    destruct (edit_step tabfunc c _ line s Htab Hc Hs) as (s1 & E1 & Hs1).
    rewrite (bind_ok _ _ _ _ _ E1).
    assert (Hnext : exists c' r, keys ++ e :: ks = c' :: r /\ 0 <= c' < 256
      /\ hd 0 (keys ++ [e]) = c' /\ tl (keys ++ e :: ks) = r).
    { destruct Hkeys as [|c' keys (Hc' & _) _]; simpl.
      - exists e, ks. split_and!; try done; lia.
      - exists c', (keys ++ e :: ks). split_and!; try done; lia. }
    destruct Hnext as (c' & r & En & Hc' & Eh & Et). rewrite En in Hs1.
    destruct (edit_getchar c' r (edit_key line c) s1 kfuel Hc' Hk Hs1) as (s2 & E2 & Hs2).
    rewrite (bind_ok _ _ _ _ _ E2). rewrite <- Eh. simpl in Hf. apply IH; [lia|]. by rewrite Et.
Qed.

End Edit.
