(* ===== verification/Main.v ===== *)
(** * The loader (main.c)

    Reading the configuration, choosing what to boot, loading it, and the main
    program.  The state is everything the loader keeps: the machine, the open
    partition and file system, the configuration tables, the line buffer and the
    static buffer of [make_params]. *)
From Stdlib Require Import ZArith Lia Ascii.
From stdpp Require Import prelude strings.
From S2P Require Import Prelude Quik CString Util Malloc Printf Machine Prom Part Ext2 Env File Cfg.
From S2P Require Import Elf Commands.

Record loader (F : Type) := mk_loader {
  l_fs : fs F;
  l_cfg : cfg_st;
  l_cbuff : list Z;
  l_params : option Z
}.
Arguments mk_loader {F}.
Arguments l_fs {F}.
Arguments l_cfg {F}.
Arguments l_cbuff {F}.
Arguments l_params {F}.

#[export] Instance loader_console {F} : Console F (loader F) := {|
  get_m s := fs_m (l_fs s);
  put_m m s := mk_loader (mk_fs m (fs_part (l_fs s)) (fs_ext2 (l_fs s))) (l_cfg s) (l_cbuff s) (l_params s);
  get_cbuff := l_cbuff;
  put_cbuff b s := mk_loader (l_fs s) (l_cfg s) b (l_params s)
|}.

#[export] Instance loader_console_laws {F} : ConsoleLaws (@loader_console F).
Proof. by split. Qed.

(** Rounds given to the loops: disks, keys of a line, polls for a key, rounds of
    the boot prompt. *)
Record rounds_t := mk_rounds { r_files : fuel_t; r_keys : nat; r_polls : nat; r_prompt : nat }.

(** ** Kernel parameters *)

Definition opt_word (pre : cstr) (v : option cstr) : cstr :=
  match v with Some p => pre ++ p ++ str " " | None => [] end.
Definition flag_word (w : cstr) (b : bool) : cstr := if b then w else [].

(** The string built when there is no ["literal"]. *)
Definition join_params (root : option cstr) (ro rw : bool) (ramdisk append : option cstr)
    (params : cstr) : cstr :=
  opt_word (str "root=") root ++ flag_word (str "ro ") ro ++ flag_word (str "rw ") rw
    ++ opt_word (str "ramdisk=") ramdisk ++ opt_word [] append ++ params.

Definition literal_params (p params : cstr) : cstr :=
  match params with
  | [] => p
  | _ => p ++ match p with [] => [] | _ => str " " end ++ params
  end.

(** The size of the static buffer of [make_params]. *)
Definition PARAMS_SIZE : Z := 2048.

Section Main.
Context {F : Type} {FW : Firmware F}.

Abbreviation L := (M quik_err_t (loader F)).

(** ** Access to the parts *)

Definition on_fs {A} (c : E F A) : L A :=
  zoom l_fs (fun f s => mk_loader f (l_cfg s) (l_cbuff s) (l_params s)) c.
Definition on_ms {A} (c : P F A) : L A := on_m c.

(** A query of the tables. *)
Definition cfg_ask {A} (q : cfg_st -> outcome cfg_jmp A) : L A := fun s =>
  match q (l_cfg s) with
  | Ok a => (Ok a, s)
  | Err _ => (Undef Exited, s)
  | Undef u => (Undef u, s)
  end.
Definition ask_strg (image : option cstr) (item : cstr) : L (option cstr) :=
  cfg_ask (fun c => cfg_get_strg c image item).
Definition ask_flag (image : option cstr) (item : cstr) : L bool :=
  cfg_ask (fun c => cfg_get_flag c image item).

Definition run_cfg_parse (file : option cstr) (buff : list Z) : L Z := fun s =>
  let '(r, (m, c)) := cfg_parse file buff (get_m s, l_cfg s) in
  let s' := put_m m (mk_loader (l_fs s) c (l_cbuff s) (l_params s)) in
  match r with
  | Ok v => (Ok v, s')
  | Err _ => (Ok (-1), s')
  | Undef u => (Undef u, s')
  end.

Definition get_bi {A} (f : boot_info_t -> A) : L A := gets (fun s => f (m_bi (get_m s))).
Definition update_bi (f : boot_info_t -> boot_info_t) : L unit := on_ms (on_bi f).
Definition flags_or (bit : Z) : L unit := update_bi (set_bi_flags (fun f => Z.lor f bit)).
Definition flags_xor (bit : Z) : L unit := update_bi (set_bi_flags (fun f => Z.lxor f bit)).
Definition say (fmt : cstr) (args : list karg) : L unit := on_ms (printk fmt args).

Definition set_pause_message (p : cstr) (b : boot_info_t) : boot_info_t :=
  mk_boot_info (bi_prom_entry b) (bi_prom_shim b) (bi_flags b) (config_file b)
    (of_bootargs_buf b) (of_bootfile_buf b) (default_dev b) (bootargs b) (Some p)
    (initrd_base b) (initrd_len b).
Definition set_initrd (base len : Z) (b : boot_info_t) : boot_info_t :=
  mk_boot_info (bi_prom_entry b) (bi_prom_shim b) (bi_flags b) (config_file b)
    (of_bootargs_buf b) (of_bootfile_buf b) (default_dev b) (bootargs b) (pause_message b)
    base len.

(** ** make_params *)

(** None when the buffer cannot be had. *)
Definition make_params (label : option cstr) (params : cstr) : L (option cstr) :=
  buffer ← gets l_params;
  buffer ← match buffer with
           | Some b => mret (Some b)
           | None =>
               b ← on_ms (do_malloc PARAMS_SIZE);
               modify (fun s => mk_loader (l_fs s) (l_cfg s) (l_cbuff s) b);; mret b
           end;
  match buffer with
  | None => mret None
  | Some _ =>
      literal ← ask_strg label (str "literal");
      match literal with
      | Some p => mret (Some (literal_params p params))
      | None =>
          root ← ask_strg label (str "root");
          ro ← ask_flag label (str "read-only");
          rw ← ask_flag label (str "read-write");
          ramdisk ← ask_strg label (str "ramdisk");
          append ← ask_strg label (str "append");
          pause ← ask_flag label (str "pause-after");
          (if pause : bool then flags_or PAUSE_BEFORE_BOOT else mret tt);;
          message ← ask_strg label (str "pause-message");
          match message with
          | Some p => update_bi (set_pause_message p)
          | None => mret tt
          end;;
          mret (Some (join_params root ro rw ramdisk append params))
      end
  end.

(** ** The configuration file *)

(** A partition number out of the tables: a whole decimal number. *)
Definition cfg_partition (p : option cstr) : option Z :=
  match p with
  | None => None
  | Some p =>
      let '(n, endp) := strtol p 10 in
      if negb (Nat.eqb endp 0) && (byte_at p (Z.of_nat endp) =? 0) then Some (u32 n) else None
  end.

Definition attempts (config_file : option cstr) : list cstr :=
  match config_file with
  | None => []
  | Some c => [c; str "/boot/iquik.conf"; str "/boot/quik.conf"; str "/boot/iquik.conf"; str "/quik.conf"]
  end.

(** The first file of the list that has a length. *)
Fixpoint find_config (k : fuel_t) (dev : option cstr) (part : Z) (paths : list cstr)
  : L (option (path_t * Z)) :=
  match paths with
  | [] => mret None
  | p :: paths' =>
      let path := mk_path dev part p in
      say (str "Trying configuration file @ '%P'" ++ [10]) [KPath (Some path)];;
      r ← attempt (on_fs (file_len k path));
      match r with
      | inr len => mret (Some (path, len))
      | inl _ => find_config k dev part paths'
      end
  end.

(** The options of the file that apply to the loader itself. *)
Definition apply_config (k : fuel_t) : L unit :=
  p ← ask_strg None (str "init-code");
  match p with Some p => on_ms (prom_interpret p) | None => mret tt end;;
  p ← ask_strg None (str "init-message");
  match p with Some p => say (str "%s" ++ [10]) [KStr (Some p)] | None => mret tt end;;
  p ← ask_strg None (str "device");
  match p with
  | Some d => update_bi (set_default_dev (set_device (Some d)))
  | None => mret tt
  end;;
  p ← ask_strg None (str "partition");
  match cfg_partition p with
  | Some n => update_bi (set_default_dev (env_dev_set_part n))
  | None => mret tt
  end;;
  p ← ask_strg None (str "pause-message");
  match p with Some p => update_bi (set_pause_message p) | None => mret tt end;;
  p ← ask_strg None (str "message");
  match p with
  | Some p => attempt (on_fs (file_cmd_cat k p));; mret tt
  | None => mret tt
  end.

Definition load_config (k : fuel_t) : L unit :=
  dev ← get_bi default_dev;
  if decide (env_dev_is_valid dev = ERR_NONE) then
    cfg ← get_bi config_file;
    match attempts cfg with
    | [] => undef NullDeref   (* no file tried: [path] and [len] are not set *)
    | paths =>
        f ← find_config k (device dev) (part dev) paths;
        match f with
        | None => throw ERR_CONFIG_NOT_FOUND
        | Some (path, len) =>
            buf ← on_ms (do_malloc len);
            match buf with
            | None => throw ERR_NO_MEM
            | Some b =>
                r ← attempt (on_fs (file_load k path));
                match r with
                | inl err =>
                    say ([10] ++ str "Couldn't load '%P': %r" ++ [10])
                      [KPath (Some path); KErr (err_code err)];;
                    on_ms (do_free b);; throw err
                | inr bytes =>
                    cfg ← get_bi config_file;
                    v ← run_cfg_parse cfg (take (Z.to_nat len) bytes);
                    (if v <? 0
                     then say (str "Syntax error or read error in '%P'" ++ [10]) [KPath (Some path)]
                     else mret tt);;
                    on_ms (do_free b);;
                    flags_or CONFIG_VALID;;
                    apply_config k
                end
            end
        end
    end
  else throw ERR_ENV_DEFAULT_BAD.

(** ** Commands of main.c, and the table *)

Definition cmd_debug (args : cstr) : L unit := flags_or (Z.lor SHIM_OF DEBUG_BEFORE_BOOT).

Definition cmd_old_kernel (args : cstr) : L unit :=
  flags_xor BOOT_PRE_2_4;;
  old ← get_bi (fun b => has_flag (bi_flags b) BOOT_PRE_2_4);
  say (str "%s pre-2.4 kernel" ++ [10])
    [KStr (Some (if old : bool then str "Booting" else str "Not booting"))].

Definition cmd_halt (args : cstr) : L unit := on_ms (prom_pause None).
Definition cmd_of_interp (args : cstr) : L unit := on_ms (prom_interpret args).

(** Names and descriptions, in the order the objects are linked. *)
Definition command_help : list (cstr * cstr) :=
  [ (str "!debug", str "show debug info");
    (str "!old", str "boot pre-2.4 kernel");
    (str "!halt", str "break into OF");
    (str "!of", str "intepret a series of OF commands");
    (str "!dev", str "change default device path given a device:part");
    (str "!cat", str "show file contents given a [device:part]/fs/path");
    (str "!ls", str "list files given a [device:part][/fs/path]");
    (str "!prom_flags", str "show or set prom flags");
    (str "!help", str "show help, given an optional command name") ].

Definition command_fns (k : fuel_t) : list (cstr -> L unit) :=
  [ cmd_debug; cmd_old_kernel; cmd_halt; cmd_of_interp;
    (fun a => on_fs (file_cmd_dev a));
    (fun a => on_fs (file_cmd_cat k a));
    (fun a => on_fs (file_cmd_ls k a));
    (fun a => on_ms (cmd_prom_flags a));
    cmd_help command_help ].

Definition commands (k : fuel_t) : list (command (loader F)) :=
  zip_with (fun nd f => mk_command (fst nd) (snd nd) f) command_help (command_fns k).

Definition PROMPT : cstr := str "boot: ".

Definition maintabfunc (k : fuel_t) (buf : cstr) : L unit :=
  on_ms (putchar 10);;
  cmd_show_commands (map fst command_help);;
  have ← get_bi (fun b => has_flag (bi_flags b) HAVE_IMAGES);
  (if have : bool then
     say ([10] ++ str "Known selections:" ++ [10]) [];;
     c ← gets l_cfg;
     on_ms (cfg_print_images c)
   else mret tt);;
  say ([10] ++ str "You can also type in custom image locations, like:" ++ [10]) [];;
  say (str "[device:partno]/vmlinux" ++ [10]) [];;
  say (str "[device:partno]/vmlinux -- kernel arguments" ++ [10]) [];;
  say (str "[device:partno]/vmlinux [device:partno]/initrd kernel arguments" ++ [10]) [];;
  say (PROMPT ++ str "%s") [KStr (Some buf)].

(** ** What to boot *)

Record choice := mk_choice {
  ch_kernel : cstr; ch_initrd : option cstr; ch_params : cstr; ch_dev : env_dev_t
}.

(** The first round: the kernel and timeout from the arguments or the tables. *)
Definition auto_choice : L (option cstr * cstr * Z) :=
  tried ← get_bi (fun b => has_flag (bi_flags b) TRIED_AUTO);
  if tried : bool then mret (None, [], DEFAULT_TIMEOUT)
  else
    flags_xor TRIED_AUTO;;
    args ← get_bi bootargs;
    let '(kernel, params) := word_split args in
    match kernel with
    | Some k => mret (Some k, params, 0)
    | None =>
        kernel ← cfg_ask cfg_get_default;
        valid ← get_bi (fun b => has_flag (bi_flags b) CONFIG_VALID);
        timeout ← (if valid : bool then
                     q ← ask_strg None (str "timeout");
                     mret match q with
                          | Some (c :: q') => fst (strtol (c :: q') 0)
                          | _ => DEFAULT_TIMEOUT
                          end
                   else mret DEFAULT_TIMEOUT);
        mret (kernel, params, timeout)
    end.

(** The kernel and its parameters: the automatic choice when the time runs out
    or return is pressed, a line otherwise. *)
Definition ask_kernel (k : rounds_t) : L (option cstr * cstr) :=
  '(kernel, params, timeout) ← auto_choice;
  say PROMPT [];;
  lastkey ← (if negb (timeout =? -1) then on_ms (wait_for_key (r_polls k) timeout 10)
             else mret KEY_NONE);
  if lastkey =? 10 then
    say (str "%s") [KStr kernel];;
    say (str " %s") [KStr (Some params)];;
    say [10] [];;
    mret (kernel, params)
  else
    buf ← cmd_edit (r_keys k) (r_polls k) (commands (r_files k)) (Some (maintabfunc (r_files k)))
            lastkey;
    match buf with
    | None => throw ERR_NOT_READY
    | Some line => mret (word_split (Some line))
    end.

(** The options of the image [label]: its file, device, initrd and parameters. *)
Definition image_choice (label : option cstr) (image : cstr) (initrd : option cstr)
    (params : cstr) (cur_dev : env_dev_t) : L choice :=
  p ← ask_strg label (str "device");
  let cur_dev := match p with Some d => set_device (Some d) cur_dev | None => cur_dev end in
  p ← ask_strg label (str "partition");
  let cur_dev := match cfg_partition p with
                 | Some n => env_dev_set_part n cur_dev | None => cur_dev end in
  p ← ask_strg label (str "initrd");
  let initrd := match p with Some i => Some i | None => initrd end in
  old ← ask_strg label (str "old-kernel");
  update_bi (set_bi_flags (fun f =>
    match old with
    | Some _ => Z.lor f BOOT_PRE_2_4
    | None => Z.land f (Z.lnot BOOT_PRE_2_4)
    end));;
  params ← make_params label params;
  match params with
  | None => throw ERR_NO_MEM
  | Some params => mret (mk_choice image initrd params cur_dev)
  end.

(** A kernel named by its path: what follows is an initrd, or arguments after
    ["-- "]. *)
Definition path_choice (kernel params : cstr) (cur_dev : env_dev_t) (initrd : option cstr) : choice :=
  let params := chomp params in
  if negb (memcmp (params ++ [0]) (str "-- ") 3 =? 0)
  then let '(initrd, params) := word_split (Some params) in mk_choice kernel initrd params cur_dev
  else mk_choice kernel initrd (drop 3 params) cur_dev.

Definition get_params (k : rounds_t) (cur_dev : env_dev_t) : L choice :=
  '(kernel, params) ← ask_kernel k;
  valid ← get_bi (fun b => has_flag (bi_flags b) CONFIG_VALID);
  initrd ← (if valid : bool then ask_strg None (str "initrd") else mret None);
  image ← (if valid : bool then ask_strg kernel (str "image") else mret None);
  match image with
  | Some (c :: p) => image_choice kernel (c :: p) initrd params cur_dev
  | _ =>
      match kernel with
      | None =>
          say (str "<TAB> for list of bootable images, or !help" ++ [10]) [];;
          throw ERR_NOT_READY
      | Some kernel => mret (path_choice kernel params cur_dev initrd)
      end
  end.

(** The paths to load: the kernel's, the initrd's if there is one, with the
    addresses of their objects.  The default device replaces the one chosen
    whenever it is valid. *)
Definition get_load_paths (k : rounds_t) : L ((Z * path_t) * option (Z * path_t) * cstr) :=
  ch ← get_params k (mk_env_dev None 0 false);
  def ← get_bi default_dev;
  let cur_dev := snd (env_dev_update_from_default def (ch_dev ch)) in
  r ← attempt (on_ms (file_path (ch_kernel ch) cur_dev));
  match r with
  | inl err =>
      say (str "Error parsing kernel path '%s': %r" ++ [10])
        [KStr (Some (ch_kernel ch)); KErr (err_code err)];;
      throw err
  | inr kernel =>
      let cur_dev :=
        if decide (env_dev_is_valid cur_dev = ERR_NONE) then cur_dev
        else set_device (p_device (snd kernel)) (env_dev_set_part (p_part (snd kernel)) cur_dev) in
      match ch_initrd ch with
      | None => mret (kernel, None, ch_params ch)
      | Some spec =>
          r ← attempt (on_ms (file_path spec cur_dev));
          match r with
          | inl err =>
              say (str "Error parsing initrd path '%s': %r" ++ [10])
                [KStr (Some spec); KErr (err_code err)];;
              on_ms (do_free stack_addr);; throw err
          | inr initrd => mret (kernel, Some initrd, ch_params ch)
          end
      end
  end.

(** ** Loading *)

(** The error, the final [*where] and [*len], and the bytes loaded. *)
Definition load_image (k : fuel_t) (path : path_t) (where_ : Z)
  : L (quik_err_t * Z * Z * list Z) :=
  say (str "Loading '%P'" ++ [10]) [KPath (Some path)];;
  r ← attempt (on_fs (file_len k path));
  match r with
  | inl err =>
      say (str "Error fetching size for '%P': %r" ++ [10]) [KPath (Some path); KErr (err_code err)];;
      mret (err, where_, uninit_word, [])
  | inr len =>
      where_ ← on_ms (prom_claim_chunk where_ len);
      if where_ =? NOT_FOUND then
        say (str "Couldn't claim 0x%x bytes to load '%P'" ++ [10]) [KNum len; KPath (Some path)];;
        mret (ERR_NO_MEM, where_, len, [])
      else
        r ← attempt (on_fs (file_load k path));
        match r with
        | inl err =>
            say (str "Error loading '%P': %r" ++ [10]) [KPath (Some path); KErr (err_code err)];;
            on_ms (prom_release where_ len);;
            mret (err, where_, len, [])
        | inr bytes => mret (ERR_NONE, where_, len, bytes)
        end
  end.

(** The exit of [try_load_loop]: the kernel's memory and the paths given back. *)
Definition load_failed {A} (kernel_buf kernel_len : Z) (kernel : Z) (initrd : option (Z * path_t))
    (err : quik_err_t) : L A :=
  (if negb (kernel_buf =? 0) then on_ms (prom_release kernel_buf kernel_len) else mret tt);;
  match initrd with Some (a, _) => on_ms (do_free a) | None => mret tt end;;
  on_ms (do_free kernel);;
  throw err.

Definition try_load_loop (k : rounds_t) : L (load_state_t * cstr) :=
  '(kernel, initrd, params) ← get_load_paths k;
  '(err, kbuf, klen, bytes) ← load_image (r_files k) (snd kernel) LOAD_BASE;
  r ← (if decide (err = ERR_NONE) then attempt (on_ms (elf_parse kbuf bytes klen))
       else mret (inl err));
  match r with
  | inl err =>
      say (str "Error loading '%P': %r" ++ [10]) [KPath (Some (snd kernel)); KErr (err_code err)];;
      load_failed kbuf klen (fst kernel) initrd err
  | inr image =>
      match initrd with
      | None => update_bi (set_initrd 0 0);; mret (image, params)
      | Some (a, path) =>
          '(err, ibuf, ilen, _) ← load_image (r_files k) path (u32 (kbuf + klen));
          if decide (err = ERR_NONE) then
            update_bi (set_initrd ibuf ilen);; mret (image, params)
          else load_failed kbuf klen (fst kernel) initrd err
      end
  end.

(** ** The main program *)

Fixpoint load_loop (fuel : nat) (k : rounds_t) : L (load_state_t * cstr) :=
  match fuel with
  | O => undef OutOfFuel
  | S fuel' =>
      r ← attempt (try_load_loop k);
      match r with inr ip => mret ip | inl _ => load_loop fuel' k end
  end.

(** The messages before control is handed over. *)
Definition boot_messages (image : load_state_t) (params : cstr) : L unit :=
  flags ← get_bi bi_flags;
  (if has_flag flags BOOT_PRE_2_4 && has_flag flags SHIM_OF then
     say (str "OF shimming unsupported for pre-2.4 kernels" ++ [10]) [];; flags_xor SHIM_OF
   else mret tt);;
  if has_flag flags DEBUG_BEFORE_BOOT then
    (if has_flag flags BOOT_PRE_2_4 then say (str "Booting pre-2.4 kernel" ++ [10]) [] else mret tt);;
    b ← get_bi id;
    say (str "Kernel: 0x%x @ 0x%x" ++ [10]) [KNum (text_len image); KNum (linked_base image)];;
    say (str "Initrd: 0x%x @ 0x%x" ++ [10]) [KNum (initrd_len b); KNum (initrd_base b)];;
    say (str "Kernel parameters: %s" ++ [10]) [KStr (Some params)];;
    say (str "Kernel entry: 0x%x" ++ [10]) [KNum (entry image)];;
    on_ms (prom_pause None)
  else if has_flag flags PAUSE_BEFORE_BOOT then
    m ← get_bi pause_message; on_ms (prom_pause m)
  else mret tt.

(** Everything after [prom_init]; an error ends in [error:]. *)
Definition boot_steps (k : rounds_t) (word : Z -> Z) : L boot_call :=
  on_ms malloc_init;;
  cmd_init;;
  on_ms env_init;;
  r ← attempt (load_config (r_files k));
  match r with
  | inl err => say (str "No configration file parsed: %r" ++ [10]) [KErr (err_code err)]
  | inr _ => mret tt
  end;;
  '(image, params) ← load_loop (r_prompt k) k;
  image ← on_ms (elf_relo image);
  boot_messages image params;;
  on_ms (elf_boot word image params).

(** [word] reads the memory the kernel was loaded into. *)
Definition iquik_main (k : rounds_t) (pp shim : Z) (script : cstr) (word : Z -> Z) : L boot_call :=
  r ← attempt (on_ms (prom_init (r_polls k) pp shim script));
  match r with
  | inl _ => on_ms prom_exit
  | inr _ =>
      say ([10] ++ str "iQUIK OldWorld Bootloader" ++ [10]) [];;
      say (str "Copyright (C) 2021 Andrei Warkentin <andreiw@mm.st>" ++ [10]) [];;
      shim_of ← get_bi (fun b => has_flag (bi_flags b) SHIM_OF);
      (if shim_of : bool
       then say (str "This firmware requires a shim to work around bugs" ++ [10]) [] else mret tt);;
      r ← attempt (boot_steps k word);
      match r with
      | inr call => mret call
      | inl err => say (str "Exiting on error: %r") [KErr (err_code err)];; on_ms prom_exit
      end
  end.

End Main.
