(* ===== verification/BootCorrect.v ===== *)
(** * Correctness of the command line and the loader

    The line a sequence of keys makes, a command run from it, the bounds of the
    kernel's parameter string, and the device a kernel is loaded from. *)
From Stdlib Require Import ZArith Lia Ascii.
From stdpp Require Import prelude strings.
From S2P Require Import Prelude Quik CString Util Malloc Printf Machine Prom Part Sim Ext2 Env File.
From S2P Require Import EnvCorrect Cfg CfgTables CfgCorrect Elf Commands Main.

(** An operation whose error would be handed to the caller, when there is none. *)
Lemma attempt_ok {E S A} (c : M E S A) s a s' :
  c s = (Ok a, s') -> attempt c s = (Ok (inr a), s').
Proof. intros H. unfold attempt. by rewrite H. Qed.

(** ** The line editor *)

Section Edit.
Context {F S : Type} {FW : Firmware F} {C : Console F S} {CL : ConsoleLaws C}.
Context (sin : Z) (Hsin : sin <> 0) (K : list Z -> F -> Prop) {KB : Keyboard sin K}.
Context (J : S -> Prop) (HJm : forall m s, J s -> J (put_m m s)) (HJb : forall b s, J s -> J (put_cbuff b s)).

(** Every line the keys make is a C string. *)
Lemma edit_line_ok keys line :
  edit_keys_ok keys -> cstr_ok line -> cstr_ok (foldl edit_key line keys).
Proof.
  intros Hk. revert line. induction Hk as [|c keys (Hc & _) Hk IH]; intros line Hl; [done|].
  cbn [foldl]. apply IH. unfold edit_key. destruct (c =? 9); [done|].
  destruct (_ || _); [by apply Forall_take|]. destruct (_ && _); [|done].
  apply Forall_app. split; [done|by constructor].
Qed.

Lemma until_nul_insert (b : list Z) line :
  cstr_ok line -> take (length line) b = line -> (length line < length b)%nat ->
  until_nul (<[length line := 0]> b) = line.
Proof.
  intros Hok Ht Hl. assert (E : b = line ++ drop (length line) b) by (by rewrite <- Ht at 1; rewrite take_drop).
  set (d := drop _ b) in *. clearbody d. subst b. clear Ht. rewrite length_app in Hl. rewrite insert_app_r_alt, Nat.sub_diag by lia.
  destruct d as [|x d]; [simpl in Hl; lia|]. cbn [insert list_insert]. by apply until_nul_app.
Qed.

(** What becomes of a line: a command is carried out, anything else returned. *)
Definition line_taken (cmds : list (command S)) (line : cstr) : M quik_err_t S (option cstr) :=
  if byte_at line 0 =? chr "!" then
    r ← attempt (cmd_dispatch cmds line);
    match r with inl _ => cmd_show_commands (map c_cmd cmds) | inr _ => mret tt end;;
    mret None
  else mret (Some line).

(** C24: The line the editor takes is the one its keys make - every printable character
    kept while there is room for the terminator, the last one dropped by backspace and
    delete, a tabulation leaving the line as it is; the line is returned, or carried out
    as a command when it starts with an exclamation mark.  No key writes outside the
    512-byte buffer, which would be an undefined outcome. *)
Theorem cmd_edit_line fuel kfuel cmds (tab : option (cstr -> M quik_err_t S unit)) keys e ks s :
  match tab with Some tab => tab_ok sin K J tab | None => True end ->
  edit_keys_ok keys -> e = 10 \/ e = 13 -> (0 < kfuel)%nat -> (length keys < fuel)%nat ->
  K (keys ++ e :: ks) (m_fw (get_m s)) -> prom_stdin (m_prom (get_m s)) = sin ->
  Z.of_nat (length (get_cbuff s)) = CMD_LENG -> J s ->
  exists s', cmd_edit fuel kfuel cmds tab KEY_NONE s = line_taken cmds (edit_line keys) s'
    /\ editing sin K J ks (edit_line keys) s'.
Proof.
  intros Htab Hkeys He Hkf Hf HK Hs Hb HJ. unfold cmd_edit, clear_cbuff. rewrite bind_assoc, bind_gets.
  destruct (Z.ltb_spec (Z.of_nat (length (get_cbuff s))) 4); [unfold CMD_LENG in Hb; lia|].
  set (b0 := overlay (get_cbuff s) (replicate 4 0)). rewrite bind_modify.
  set (s0 := put_cbuff b0 s).
  assert (H0 : editing sin K J (keys ++ e :: ks) [] s0).
  { unfold editing, s0, b0. rewrite get_put_cbuff, get_m_put_cbuff.
    split_and!; try done; [|by apply HJb]. unfold overlay. rewrite length_app, length_drop, length_replicate.
    unfold CMD_LENG in *. lia. }
  change (KEY_NONE =? KEY_NONE) with true. cbv iota.
  assert (Hc : exists c r, keys ++ e :: ks = c :: r /\ 0 <= c < 256 /\ hd 0 (keys ++ [e]) = c
    /\ tl (keys ++ e :: ks) = r).
  { destruct Hkeys as [|c keys (Hc & _) _]; simpl.
    - exists e, ks. split_and!; try done; lia.
    - exists c, (keys ++ e :: ks). split_and!; try done; lia. }
  destruct Hc as (c & r & Ec & Hc & Eh & Et). rewrite Ec in H0.
  destruct (edit_getchar sin Hsin K J HJm c r [] s0 kfuel Hc Hkf H0) as (s1 & E1 & H1).
  rewrite (bind_ok _ _ _ _ _ E1), <- Eh. rewrite <- Et in H1.
  destruct (edit_loop_keys sin Hsin K J HJm HJb tab kfuel keys e ks [] s1 fuel Htab Hkeys He Hkf Hf H1)
    as (s2 & E2 & H2).
  change (Z.of_nat (length [])) with 0 in E2. rewrite (bind_ok _ _ _ _ _ E2).
  change (foldl edit_key [] keys) with (edit_line keys) in *. set (line := edit_line keys) in *.
  destruct (editing_quiet sin K J HJm (putchar 10) ks line s2) as (a & s3 & E3 & H3);
    [by apply quiet_putchar, kb_write|done|].
  rewrite (bind_ok _ _ _ _ _ E3). pose proof H3 as (K1 & K2 & K3 & K4 & K5 & K6).
  rewrite (bind_ok _ _ _ _ _ (set_char_in (length line) 0 s3 ltac:(unfold CMD_LENG in *; lia))), bind_gets, get_put_cbuff.
  change (u8 0) with 0.
  assert (Hok : cstr_ok line) by (apply edit_line_ok; [done|constructor]).
  rewrite until_nul_insert by (done || unfold CMD_LENG in *; lia).
  eexists. split; [reflexivity|].
  eapply editing_set; [done|exact H3|by rewrite length_insert| |done].
  by rewrite take_insert_ge.
Qed.

End Edit.

(** ** What a tabulation shows *)

Section Tab.
Context {F : Type} {FW : Firmware F}.
Context (sin : Z) (K : list Z -> F -> Prop) {KB : Keyboard sin K}.

(** Every image has a name to show. *)
Definition images_named (s : loader F) : Prop := Forall labelled (images (l_cfg s)).

Lemma images_named_m m (s : loader F) : images_named s -> images_named (put_m m s).
Proof. intros H. exact H. Qed.
Lemma images_named_b b (s : loader F) : images_named s -> images_named (put_cbuff b s).
Proof. intros H. exact H. Qed.

Lemma quiet_show_names ks names tp : quiet (K ks) (show_names names tp).
Proof.
  revert tp. induction names as [|n names IH]; intros tp; [apply quiet_ret|]. cbn [show_names].
  apply quiet_bind; [apply quiet_table_print, kb_write|done].
Qed.

Lemma quiet_print_images ks ims tp : Forall labelled ims -> quiet (K ks) (print_images_loop ims tp).
Proof.
  intros H. revert tp. induction H as [|t ims [l Hl] H IH]; intros tp; [apply quiet_ret|].
  cbn [print_images_loop]. rewrite Hl. cbn [of_option]. intros m Hm. rewrite bind_ret. revert m Hm.
  apply quiet_bind; [apply quiet_table_print, kb_write|]. intros tp1.
  apply quiet_bind; [|done]. destruct (cfg_get_strg_i t (str "alias")); [apply quiet_table_print, kb_write|apply quiet_ret].
Qed.

(** One piece of output in front of the rest. *)
Lemma tab_step {A} (c : P F A) (k : A -> M quik_err_t (loader F) unit) ks line (s : loader F) :
  quiet (K ks) c -> editing sin K images_named ks line s ->
  (forall a s1, editing sin K images_named ks line s1 ->
     exists s', k a s1 = (Ok tt, s') /\ editing sin K images_named ks line s') ->
  exists s', (on_ms c ≫= k) s = (Ok tt, s') /\ editing sin K images_named ks line s'.
Proof.
  intros Hc He Hk. destruct (editing_quiet sin K images_named images_named_m c ks line s Hc He) as (a & s1 & E & H1).
  destruct (Hk a s1 H1) as (s' & E' & H'). exists s'. split; [|done].
  unfold on_ms. by rewrite (bind_ok _ _ _ _ _ E).
Qed.

(** The list of commands and images, and the prompt with the line again, leave the line
    and the keys as they are. *)
Lemma maintab_ok k : tab_ok sin K images_named (maintabfunc k).
Proof.
  intros b ks line s He. unfold maintabfunc, say, cmd_show_commands.
  apply tab_step; [apply quiet_putchar, kb_write|done|]. intros _ s1 H1.
  apply tab_step; [|done|].
  { apply quiet_bind; [by eapply quiet_printk; [apply kb_write|]|]. intros _.
    apply quiet_bind; [apply quiet_show_names|]. intros tp. apply quiet_table_end, kb_write. }
  intros _ s2 H2. unfold get_bi. rewrite bind_gets.
  assert (Hend : forall s3, editing sin K images_named ks line s3 -> exists s',
    (on_ms (printk ([10] ++ str "You can also type in custom image locations, like:" ++ [10]) []);;
     on_ms (printk (str "[device:partno]/vmlinux" ++ [10]) []);;
     on_ms (printk (str "[device:partno]/vmlinux -- kernel arguments" ++ [10]) []);;
     on_ms (printk (str "[device:partno]/vmlinux [device:partno]/initrd kernel arguments" ++ [10]) []);;
     on_ms (printk (PROMPT ++ str "%s") [KStr (Some b)])) s3 = (Ok tt, s')
    /\ editing sin K images_named ks line s').
  { intros s3 H3. repeat (apply tab_step; [by eapply quiet_printk; [apply kb_write|]|done|intros _ ? ?]).
    lazymatch goal with H : editing _ _ _ _ _ ?s4 |- exists _, on_ms _ ?s4 = _ /\ _ =>
      destruct (editing_quiet sin K images_named images_named_m (printk (PROMPT ++ str "%s") [KStr (Some b)]) ks line s4)
        as ([] & s' & E & H'); [by eapply quiet_printk; [apply kb_write|]|exact H|]
    end.
    by exists s'. }
  destruct (has_flag _ _); [|by rewrite bind_ret; apply Hend].
  rewrite bind_assoc. apply tab_step; [by eapply quiet_printk; [apply kb_write|]|done|]. intros _ s3 H3.
  rewrite bind_assoc, bind_gets. pose proof H3 as (_ & _ & _ & _ & _ & Hn).
  apply tab_step; [|done|by intros _ s4 H4; apply Hend].
  apply quiet_bind; [by apply quiet_print_images|]. intros tp. apply quiet_table_end, kb_write.
Qed.
End Tab.

(** ** The parameter string *)

Section Main.
Context {F : Type} {FW : Firmware F}.

Abbreviation L := (M quik_err_t (loader F)).

(** [c] leaves the tables alone. *)
Definition keeps_cfg {A} (c : L A) : Prop :=
  forall s a s', c s = (Ok a, s') -> l_cfg s' = l_cfg s.

Lemma ask_strg_short label item (s : loader F) v s' :
  cfg_ok (l_cfg s) -> ask_strg label item s = (Ok v, s') -> s' = s /\ value_ok v.
Proof.
  intros Hc. unfold ask_strg, cfg_ask.
  destruct (cfg_get_strg (l_cfg s) label item) as [o|e|u] eqn:E; try done.
  intros [= <- <-]. split; [done|]. destruct o as [v|]; [|done]. by eapply query_short.
Qed.

Lemma ask_flag_same label item (s : loader F) b s' : ask_flag label item s = (Ok b, s') -> s' = s.
Proof. unfold ask_flag, cfg_ask. destruct (cfg_get_flag _ _ _); by intros [= <- <-]. Qed.

Lemma update_bi_cfg f : keeps_cfg (update_bi f).
Proof. by intros s a s' [= <- <-]. Qed.

Lemma opt_word_length pre v :
  value_ok v -> Z.of_nat (length (opt_word pre v)) <= Z.of_nat (length pre) + MAX_TOKEN.
Proof.
  intros Hv. destruct v as [v|]; unfold opt_word, value_ok, short, MAX_TOKEN in *; [|simpl; lia].
  rewrite !length_app. change (length (str " ")) with 1%nat. lia.
Qed.

Lemma join_params_length root ro rw ramdisk append params :
  value_ok root -> value_ok ramdisk -> value_ok append -> strlen params < CMD_LENG ->
  strlen (join_params root ro rw ramdisk append params) + 1 <= PARAMS_SIZE.
Proof.
  intros H1 H2 H3 H4. unfold join_params, strlen in *. rewrite !length_app.
  pose proof (opt_word_length (str "root=") root H1) as L1.
  pose proof (opt_word_length (str "ramdisk=") ramdisk H2) as L2.
  pose proof (opt_word_length [] append H3) as L3.
  change (length (str "root=")) with 5%nat in L1. change (length (str "ramdisk=")) with 8%nat in L2.
  change (length []) with 0%nat in L3.
  assert (Hf : forall w b, (length w = 3)%nat -> (length (flag_word w b) <= 3)%nat)
    by (intros w [|] Hw; simpl; lia).
  pose proof (Hf (str "ro ") ro eq_refl). pose proof (Hf (str "rw ") rw eq_refl).
  unfold MAX_TOKEN, CMD_LENG, PARAMS_SIZE in *. lia.
Qed.

Lemma literal_params_length p params :
  short p -> strlen params < CMD_LENG -> strlen (literal_params p params) + 1 <= PARAMS_SIZE.
Proof.
  intros H1 H2. unfold literal_params, strlen, short, MAX_TOKEN, CMD_LENG, PARAMS_SIZE in *.
  destruct params as [|c params]; [lia|]. rewrite !length_app.
  assert (Hsp : (length (match p with [] => [] | _ => str " " end) <= 1)%nat) by (destruct p; vm_compute; lia).
  lia.
Qed.

(** C21: Whatever the configuration file says and the user types, the kernel's
    parameter string fits the 2048-byte buffer it is built in, terminator
    included. *)
Theorem make_params_fits label params (s : loader F) p s' :
  cfg_ok (l_cfg s) -> strlen params < CMD_LENG ->
  make_params label params s = (Ok (Some p), s') ->
  strlen p + 1 <= PARAMS_SIZE.
Proof.
  intros Hc Hp H. unfold make_params in H. rewrite bind_gets in H.
  apply bind_ok_inv in H as (buffer & s1 & E1 & H).
  assert (Hc1 : cfg_ok (l_cfg s1)).
  { destruct (l_params s) as [b|]; [by injection E1 as <- <-|].
    apply bind_ok_inv in E1 as (b & s2 & E2 & E1). rewrite bind_modify in E1. injection E1 as _ <-.
    unfold on_ms, on_m, zoom in E2. destruct (do_malloc PARAMS_SIZE _) as [r m].
    by injection E2 as _ <-. }
  clear E1 Hc s. destruct buffer as [b|]; [|done].
  apply bind_ok_inv in H as (literal & s2 & E & H).
  apply ask_strg_short in E as [-> Hlit]; [|done]. destruct literal as [lit|].
  { injection H as <- <-. by apply literal_params_length. }
  apply bind_ok_inv in H as (root & s3 & E & H). apply ask_strg_short in E as [-> Hroot]; [|done].
  apply bind_ok_inv in H as (ro & s3 & E & H). apply ask_flag_same in E as ->.
  apply bind_ok_inv in H as (rw & s3 & E & H). apply ask_flag_same in E as ->.
  apply bind_ok_inv in H as (ramdisk & s3 & E & H). apply ask_strg_short in E as [-> Hram]; [|done].
  apply bind_ok_inv in H as (append & s3 & E & H). apply ask_strg_short in E as [-> Happ]; [|done].
  apply bind_ok_inv in H as (pause & s3 & E & H). apply ask_flag_same in E as ->.
  apply bind_ok_inv in H as (? & s3 & _ & H). apply bind_ok_inv in H as (message & s4 & _ & H).
  apply bind_ok_inv in H as (? & s5 & _ & H). injection H as <- _.
  by apply join_params_length.
Qed.

(** ** A command from the prompt *)

(** The entry of the table the name selects. *)
Lemma find_dev_command k :
  find_command (commands (F := F) k) (str "!dev")
  = Some (mk_command (str "!dev") (str "change default device path given a device:part")
            (fun a => on_fs (file_cmd_dev a))).
Proof. reflexivity. Qed.

(** The line [!dev device:partition] at the prompt makes that device and
    partition the default ones: the line is cut into words, the command found in the
    table, its argument parsed as a path. *)
Theorem dev_command_sets k base dev n path (s : loader F) :
  boot_word dev n path -> heap_ok base (m_heap (get_m s)) ->
  strlen (boot_path dev n path) + 21 + (malloc_ptr (m_heap (get_m s)) - base) < MALLOC_SIZE ->
  exists s', cmd_dispatch (commands k) (str "!dev" ++ chr " " :: boot_path dev n path) s = (Ok tt, s')
    /\ default_dev (m_bi (get_m s')) = mk_env_dev (Some dev) n true
    /\ l_cfg s' = l_cfg s /\ l_cbuff s' = l_cbuff s.
Proof.
  intros Hw Hok Hroom. destruct (boot_path_word _ _ _ Hw) as (Hnb & c & t & Ep & Hc & Hcb).
  destruct Hw as (Hdev & _ & _ & Hn & Hp & _).
  unfold cmd_dispatch. rewrite word_split_word by (done || by_eval).
  assert (Hch : chomp (boot_path dev n path) = boot_path dev n path) by (rewrite Ep; by apply chomp_id).
  rewrite Hch, find_dev_command. cbn [c_fn]. rewrite Hch. set (spec := boot_path dev n path) in *.
  set (m := get_m s) in *.
  destruct (file_path_run base spec (default_dev (m_bi m)) m _ Hok Hroom (parse_boot_path dev n path _ Hdev Hn Hp))
    as (a & h & E).
  set (p := mk_path (Some dev) n _) in *.
  set (f' := set_default_dev (fun d => env_dev_set_part n (set_device (Some dev) d))).
  assert (Ef : on_fs (file_cmd_dev spec) s
    = (Ok tt, put_m (set_bi (f' (m_bi m)) (set_heap h m)) s)).
  { unfold on_fs, zoom, file_cmd_dev, strlen.
    destruct (Z.eqb_spec (Z.of_nat (length spec)) 0) as [E0|_]; [rewrite Ep in E0; simpl in E0; lia|].
    unfold get_default_dev. rewrite bind_gets. change (fs_m (l_fs s)) with m.
    assert (El : lm (file_path spec (default_dev (m_bi m))) (l_fs s)
      = (Ok (a, p), mk_fs (set_heap h m) (fs_part (l_fs s)) (fs_ext2 (l_fs s)))).
    { unfold lm, zoom. change (fs_m (l_fs s)) with m. by rewrite E. }
    by rewrite (bind_ok _ _ _ _ _ El). }
  rewrite (bind_ok _ _ _ _ _ (attempt_ok _ _ _ _ Ef)). eexists. split; [reflexivity|]. done.
Qed.

(** ** Where a kernel is loaded from *)

(** C33: A kernel path without a device is taken on the default device whenever that
    is valid, whatever device and partition the chosen image names for itself. *)
Theorem default_device_wins k (s : loader F) ch s1 kernel initrd params s' :
  get_params k (mk_env_dev None 0 false) s = (Ok ch, s1) ->
  let def := default_dev (m_bi (get_m s1)) in
  env_dev_is_valid def = ERR_NONE -> chr ":" ∉ ch_kernel ch ->
  get_load_paths k s = (Ok (kernel, initrd, params), s') ->
  p_device (snd kernel) = device def /\ p_part (snd kernel) = part def.
Proof.
  intros E1 def Hdef Hcol H. unfold get_load_paths in H. rewrite (bind_ok _ _ _ _ _ E1) in H.
  unfold get_bi in H. rewrite bind_gets in H. fold def in H.
  unfold env_dev_update_from_default in H. rewrite decide_True in H by done. cbn [snd] in H.
  apply bind_ok_inv in H as (r & s2 & E2 & H). destruct r as [err|kp].
  { by apply bind_ok_inv in H as (? & ? & _ & ?). }
  assert (Hk : parse_spec (ch_kernel ch) def = SpecPath (snd kp)).
  { unfold attempt, on_ms, on_m, zoom, file_path in E2.
    destruct ((do_malloc _ ≫= _) (get_m s1)) as [[a|e|u] m] eqn:E; [|done|done].
    injection E2 as <- _. apply bind_ok_inv in E as ([a'|] & m1 & _ & E); [|done].
    destruct (parse_spec (ch_kernel ch) def); [by injection E as <- _|done|].
    by apply bind_ok_inv in E as (? & ? & _ & ?). }
  assert (Hkk : kernel = kp).
  { destruct (ch_initrd ch) as [spec|]; [|by injection H as <- _ _ _].
    apply bind_ok_inv in H as ([e|ip] & s3 & _ & H); [|by injection H as <- _ _ _].
    apply bind_ok_inv in H as (? & ? & _ & H). by apply bind_ok_inv in H as (? & ? & _ & ?). }
  subst kp. unfold parse_spec in Hk.
  assert (Hch : chr ":" ∉ chomp (ch_kernel ch)).
  { destruct (chomp_blanks (ch_kernel ch)) as (b & E & _). rewrite E in Hcol. intros Hin. apply Hcol.
    apply elem_of_app. by right. }
  rewrite (proj2 (strchr_none _ (chr ":") ltac:(done)) Hch), decide_True in Hk by done.
  unfold spec_fs_path in Hk. destruct (_ =? chr "/"); [by injection Hk as <-|].
  by destruct (chomp (ch_kernel ch)); [injection Hk as <-|].
Qed.

End Main.

(** ** Witnesses *)

(** The loader on the simulated firmware, with keys waiting. *)
Definition key_sim (keys : list Z) : sim := mk_sim [] 0 [] [] keys 0.

#[local] Instance sim_keyboard : Keyboard KBD (fun ks f => s_keys f = ks).
Proof.
  split.
  - intros ks f args nret r f' E Hf. unfold prom_entry in E. simpl in E. unfold sim_entry in E.
    change (sim_service_of (str "write")) with SWrite in E. cbv iota in E. by injection E as <- <-.
  - intros c ks f r f' Hf Hc E. unfold prom_entry in E. simpl in E. unfold sim_entry in E.
    change (sim_service_of (str "read")) with SRead in E. cbv iota in E.
    change (arg_int [AInt KBD; AInt 1] 0 =? KBD) with true in E. cbv iota in E.
    rewrite Hf in E. by injection E as <- <-.
Qed.

Definition demo_bi : boot_info_t :=
  mk_boot_info 0 0 CONFIG_VALID None [] [] (mk_env_dev (Some (str "hd")) 2 true)
    (Some (str "linux single")) None 0 0.

(** Two tables: [linux] on another disk, with options of its own. *)
Definition demo_image : list config :=
  mk_config cft_strg (str "image") (Some (str "/boot/vmlinux"))
  :: mk_config cft_strg (str "label") (Some (str "linux"))
  :: strg (str "alias") :: mk_config cft_strg (str "device") (Some (str "scsi1"))
  :: mk_config cft_strg (str "partition") (Some (str "4"))
  :: mk_config cft_strg (str "root") (Some (str "/dev/sda2")) :: drop 6 cf_image.

Definition boot_cfg : cfg_st :=
  mk_cfg (mk_lex 0 [] 0) None None None cf_options [demo_image] (Some O).

Definition demo_loader (keys : list Z) : loader sim :=
  mk_loader
    (mk_fs (mk_mach (key_sim keys) (mk_prom_st KBD 1 7 1 2 0 0 0 0 0 0) demo_bi
              (heap_claimed MALLOC_BASE heap_init) 0 []) part_zero ext2_init)
    boot_cfg (replicate 512 0xa5) None.

(** Two letters, one of them erased, a tabulation, a third letter, and return; and a
    command. *)
Lemma cmd_edit_line_witness :
  let tab := Some (maintabfunc (mk_fuel 10 10 10)) in
  (exists s', cmd_edit 10 5 [] tab KEY_NONE (demo_loader (str "ab" ++ [8; 9; 99; 13] ++ str "x"))
      = (Ok (Some (str "ac")), s')
    /\ editing KBD (fun ks f => s_keys f = ks) images_named (str "x") (str "ac") s')
  /\ exists s', cmd_edit 10 5 [] tab KEY_NONE (demo_loader (str "!x" ++ [10])) = line_taken [] (str "!x") s'.
Proof.
  assert (Hn : forall keys, images_named (demo_loader keys)) by (intros keys; unfold images_named, labelled; by_eval).
  split.
  - refine (cmd_edit_line KBD _ (fun ks f => s_keys f = ks) images_named images_named_m images_named_b 10 5 []
      (Some (maintabfunc (mk_fuel 10 10 10))) (str "ab" ++ [8; 9; 99]) 13 (str "x")
      (demo_loader (str "ab" ++ [8; 9; 99; 13] ++ str "x")) (maintab_ok KBD _ _) _ _ _ _ _ _ _ (Hn _)); try done.
    + by repeat constructor.
    + by right.
    + lia.
    + simpl. lia.
  - destruct (cmd_edit_line KBD ltac:(done) (fun ks f => s_keys f = ks) images_named images_named_m images_named_b 10 5 []
      (Some (maintabfunc (mk_fuel 10 10 10))) (str "!x") 10 [] (demo_loader (str "!x" ++ [10])) (maintab_ok KBD _ _)
      ltac:(by repeat constructor) ltac:(by left) ltac:(lia) ltac:(simpl; lia) eq_refl eq_refl eq_refl (Hn _))
      as (s' & E & _). by exists s'.
Defined.

Lemma demo_loader_heap keys : heap_ok MALLOC_BASE (m_heap (get_m (demo_loader keys))).
Proof. unfold heap_ok. split_and!; try (by vm_compute). by left. Qed.

Lemma scsi_boot_word : boot_word (str "scsi/sd@1") 5 [].
Proof. unfold boot_word, dev_ok, no_blank. by_eval. Qed.

Lemma dev_command_sets_witness :
  exists s', cmd_dispatch (commands (mk_fuel 10 10 10)) (str "!dev scsi/sd@1:5") (demo_loader []) = (Ok tt, s')
    /\ default_dev (m_bi (get_m s')) = mk_env_dev (Some (str "scsi/sd@1")) 5 true
    /\ l_cfg s' = l_cfg (demo_loader []) /\ l_cbuff s' = l_cbuff (demo_loader []).
Proof.
  refine (dev_command_sets (mk_fuel 10 10 10) MALLOC_BASE (str "scsi/sd@1") 5 [] (demo_loader [])
    scsi_boot_word (demo_loader_heap []) _). by vm_compute.
Defined.

Lemma boot_cfg_ok : cfg_ok boot_cfg.
Proof.
  unfold cfg_ok. split; [split; [reflexivity|]|].
  - cbn [options boot_cfg cf_options]. repeat (apply List.Forall_cons; [exact Logic.I|]). constructor.
  - split; [|split; [cbn; lia|done]]. constructor; [|constructor]. split; [reflexivity|].
    unfold demo_image. cbn [drop cf_image].
    repeat (apply List.Forall_cons; [first [exact Logic.I|split; [by vm_compute|done]]|]). constructor.
Qed.

Definition params_run : outcome quik_err_t (option cstr) * loader sim :=
  make_params (Some (str "linux")) (str "single") (demo_loader []).

Lemma make_params_fits_witness :
  strlen (str "root=/dev/sda2 single") + 1 <= PARAMS_SIZE.
Proof.
  refine (make_params_fits (Some (str "linux")) (str "single") (demo_loader []) (str "root=/dev/sda2 single")
    (snd params_run) boot_cfg_ok _ _); [by vm_compute|].
  vm_compute. reflexivity.
Defined.

Definition demo_rounds : rounds_t := mk_rounds (mk_fuel 10 10 10) 10 10 10.
Definition chosen_run : outcome quik_err_t choice * loader sim :=
  get_params demo_rounds (mk_env_dev None 0 false) (demo_loader []).
Definition paths_run := get_load_paths demo_rounds (demo_loader []).

(** The image is configured for [scsi1:4] and is loaded from [hd:2]. *)
Definition chosen_choice : choice :=
  mk_choice (str "/boot/vmlinux") None (str "root=/dev/sda2 single") (mk_env_dev (Some (str "scsi1")) 4 true).
Definition chosen_path : Z * path_t := (5244936, mk_path (Some (str "hd")) 2 (str "/boot/vmlinux")).

Lemma default_device_wins_witness :
  p_device (snd chosen_path) = Some (str "hd") /\ p_part (snd chosen_path) = 2.
Proof.
  refine (default_device_wins demo_rounds (demo_loader []) chosen_choice (snd chosen_run) chosen_path None
    (str "root=/dev/sda2 single") (snd paths_run) _ _ _ _).
  - vm_compute. reflexivity.
  - vm_compute. reflexivity.
  - by_eval.
  - vm_compute. reflexivity.
Defined.
