(* ===== verification/LoadCorrect.v ===== *)
(** * From a disk to a loaded kernel (main.c with the parts below it)

    The whole of [try_load_loop] after the choice of what to boot: a kernel and an
    initrd on an ext2 volume of a partitioned disk are found, sized, given memory,
    read and parsed.  Nothing is assumed of the layers in between: the theorem rests
    on the promises of the firmware alone ([DiskDevice], [MemoryFirmware]). *)
From Stdlib Require Import ZArith Lia Ascii.
From stdpp Require Import prelude strings gmap.
From S2P Require Import Prelude Quik CString Util Malloc Printf Machine Prom Part Sim PartCorrect PromCorrect.
From S2P Require Import Ext2 Ext2Block Ext2File Ext2Tree Ext2Mount Ext2Demo Ext2Correct Env File FileCorrect.
From S2P Require Import Cfg CfgTables Elf ElfCorrect Commands Main BootCorrect.

#[local] Arguments u32 : simpl never.
#[local] Arguments slice : simpl never.
#[local] Arguments Z.mul : simpl never.

(** ** Interface *)

(** A service that keeps [I], whatever it answers. *)
Definition keeps_service {F} {FW : Firmware F} (I : F -> Prop) (service : cstr) : Prop :=
  forall args nret f r f', prom_entry service args nret f = (r, f') -> I f -> I f'.

(** A claim is answered with the address asked for or with -1; claims do not disturb
    what [I] says. *)
Class MemoryFirmware {F : Type} {FW : Firmware F} (I : F -> Prop) : Prop := {
  mf_claim : keeps_service I (str "claim");
  mf_method : keeps_service I (str "call-method");
  mf_answer f a n r f' :
    0 <= a < 4294967296 -> I f -> prom_entry (str "claim") [AInt a; AInt n; AInt 0] 1 f = (r, f') ->
    u32 (hd 0 (r_args r)) = a \/ u32 (hd 0 (r_args r)) = NOT_FOUND
}.

(** ** Specification: memory for an image *)

(** What the firmware answers, asked on the machine [m] for [size] bytes at each multiple
    of 1M from [where_] on: the first address it grants, -1 when it refuses them all. *)
Inductive chunk_answer {F} {FW : Firmware F} (where_ size : Z) (m : mach F) : Z -> Prop :=
  | chunk_granted w m1 m2 :
      refused size (round_1m where_) w m m1 -> w <= PROM_CLAIM_MAX_ADDR ->
      prom_claim w size m1 = (Ok w, m2) -> w <> NOT_FOUND -> chunk_answer where_ size m w
  | chunk_refused a m1 :
      refused size (round_1m where_) a m m1 -> PROM_CLAIM_MAX_ADDR < a -> chunk_answer where_ size m NOT_FOUND.

(** The candidates up to one that is not refused are determined by the machine. *)
Lemma refused_stop {F} {FW : Firmware F} size a b1 b2 (m m1 m2 : mach F) :
  refused size a b1 m m1 -> refused size a b2 m m2 ->
  (PROM_CLAIM_MAX_ADDR < b1 \/ exists w m', prom_claim b1 size m1 = (Ok w, m') /\ w <> NOT_FOUND) ->
  (PROM_CLAIM_MAX_ADDR < b2 \/ exists w m', prom_claim b2 size m2 = (Ok w, m') /\ w <> NOT_FOUND) ->
  b1 = b2 /\ m1 = m2.
Proof.
  intros H1. revert b2 m2. induction H1 as [a m|a b m m' m1 Ha E _ IH]; intros b2 m2 H2 S1 S2.
  - destruct H2 as [|a b2 m m' m2 Ha E _]; [done|]. destruct S1 as [|(w & mw & Ew & Hw)]; [lia|congruence].
  - inversion H2 as [|? ? ? m'' ? Ha' E']; subst.
    + destruct S2 as [|(w & mw & Ew & Hw)]; [lia|congruence].
    + assert (m'' = m') as -> by congruence. by apply IH.
Qed.

(** The answer is one. *)
Lemma chunk_answer_det {F} {FW : Firmware F} where_ size (m : mach F) w1 w2 :
  chunk_answer where_ size m w1 -> chunk_answer where_ size m w2 -> w1 = w2.
Proof.
  intros [w m1 m2 R1 L1 E1 N1|a m1 R1 L1] [w' m1' m2' R2 L2 E2 N2|a' m1' R2 L2].
  all: try (destruct (refused_stop _ _ _ _ _ _ _ R1 R2) as [? ?]; [eauto 6..|]; subst; first [done|lia]).
Qed.

Section Load.
Context {F : Type} {FW : Firmware F}.
Context (I : F -> Prop) {HM : MemoryFirmware I}.

(** ** Memory *)

Definition steady (m m' : mach F) : Prop := I (m_fw m') /\ same_but_io m m'.

Lemma steady_trans m1 m2 m3 : steady m1 m2 -> steady m2 m3 -> steady m1 m3.
Proof. intros [H1 S1] [H2 S2]. split; [done|by eapply same_but_io_trans]. Qed.

Lemma call_steady service args nret m :
  keeps_service I service -> I (m_fw m) ->
  exists r f, call_prom_ret service args nret m = (Ok r, set_fw f m)
    /\ prom_entry service args nret (m_fw m) = (r, f) /\ steady m (set_fw f m).
Proof.
  intros Hk HI. unfold call_prom_ret. destruct (prom_entry service args nret (m_fw m)) as [r f] eqn:E.
  exists r, f. split; [done|]. split; [done|]. split; [exact (Hk _ _ _ _ _ E HI)|done].
Qed.

Lemma claim_steady a n m :
  0 <= a < 4294967296 -> I (m_fw m) ->
  exists r m', prom_claim a n m = (Ok r, m') /\ (r = a \/ r = NOT_FOUND) /\ steady m m'.
Proof.
  intros Ha HI. unfold prom_claim, flag_set. rewrite bind_gets. destruct (has_flag _ _).
  - rewrite !bind_gets. unfold claim_method, call_prom.
    destruct (call_steady (str "call-method") [AInt stack_addr; AStr (str "claim");
      AInt (prom_memory (m_prom m)); AInt 0; AInt n] 2 m mf_method HI) as (r1 & f1 & E1 & _ & S1).
    rewrite bind_assoc, (bind_ok _ _ _ _ _ E1), bind_ret.
    destruct (_ || _); [by eexists _, _; split; [reflexivity|]; split; [right|]|].
    destruct (call_steady (str "call-method") [AInt stack_addr; AStr (str "claim");
      AInt (prom_mmu (m_prom m)); AInt 0; AInt n] 2 (set_fw f1 m) mf_method (proj1 S1)) as (r2 & f2 & E2 & _ & S2).
    rewrite bind_assoc, (bind_ok _ _ _ _ _ E2), bind_ret. pose proof (steady_trans _ _ _ S1 S2) as S12.
    destruct (negb _).
    + destruct (call_steady (str "call-method") [AStr (str "release"); AInt (prom_memory (m_prom m)); AInt n; AInt a]
        1 (set_fw f2 (set_fw f1 m)) mf_method (proj1 S2)) as (r3 & f3 & E3 & _ & S3).
      rewrite bind_assoc, (bind_ok _ _ _ _ _ E3), bind_ret. eexists _, _. split; [reflexivity|].
      split; [by right|by eapply steady_trans].
    + destruct (call_steady (str "call-method") [AStr (str "map"); AInt (prom_mmu (m_prom m)); AInt 0x12; AInt n;
        AInt a; AInt a] 1 (set_fw f2 (set_fw f1 m)) mf_method (proj1 S2)) as (r3 & f3 & E3 & _ & S3).
      rewrite bind_assoc, (bind_ok _ _ _ _ _ E3), bind_ret. eexists _, _. split; [reflexivity|].
      split; [by left|by eapply steady_trans].
  - unfold call_prom. destruct (call_steady (str "claim") [AInt a; AInt n; AInt 0] 1 m mf_claim HI)
      as (r & f & E & Ep & S). rewrite (bind_ok _ _ _ _ _ E). eexists _, _. split; [reflexivity|].
    split; [by apply (mf_answer _ _ _ _ _ Ha HI Ep)|done].
Qed.

Lemma refused_steady size a b m m1 :
  refused size a b m m1 -> 0 <= a -> I (m_fw m) -> steady m m1.
Proof.
  induction 1 as [a m|a b m m1 m2 Ha E _ IH]; intros H0 HI; [by split|].
  unfold PROM_CLAIM_MAX_ADDR, SIZE_1M in *.
  destruct (claim_steady a size m ltac:(lia) HI) as (r & m' & E' & _ & S).
  rewrite E in E'. injection E' as _ <-. eapply steady_trans; [exact S|]. apply IH; [lia|exact (proj1 S)].
Qed.

Lemma pages_steady e a m m' :
  pages_claimed e a m m' -> 0 <= a -> e <= 4294967296 -> I (m_fw m) -> steady m m'.
Proof.
  induction 1 as [a m Ha|a r m m1 m2 Ha E _ IH]; intros H0 He HI; [by split|].
  destruct (claim_steady a SIZE_4K m ltac:(lia) HI) as (r' & m' & E' & _ & S).
  rewrite E in E'. injection E' as _ <-. eapply steady_trans; [exact S|].
  apply IH; [unfold SIZE_4K; lia|done|exact (proj1 S)].
Qed.

(** An address [prom_claim_chunk] may give: a multiple of 1M. *)
Definition chunk_at (where_ w : Z) : Prop := where_ <= w <= PROM_CLAIM_MAX_ADDR /\ w mod SIZE_1M = 0.

Lemma chunk_steady where_ size m :
  0 <= where_ -> where_ + SIZE_1M <= 4294967296 -> I (m_fw m) ->
  exists r m', prom_claim_chunk where_ size m = (Ok r, m') /\ steady m m'
    /\ chunk_answer where_ size m r /\ (r <> NOT_FOUND -> chunk_at where_ r).
Proof.
  intros H0 Hlt HI. destruct (claim_chunk_spec where_ size m H0 Hlt) as (a & r & m1 & m' & E & Hr & Ha & Hmod & Hc).
  assert (Hround : 0 <= round_1m where_).
  { unfold round_1m, SIZE_1M. pose proof (Z.div_pos (where_ + 0x100000 - 1) 0x100000). lia. }
  pose proof (refused_steady _ _ _ _ _ Hr Hround HI) as S1.
  exists r, m'. split; [done|]. destruct Hc as [(Hgt & -> & ->)|(Hle & Ec & Hne)].
  - split; [done|]. split; [by eapply chunk_refused|done].
  - unfold PROM_CLAIM_MAX_ADDR, SIZE_1M in *.
    destruct (claim_steady a size m1 ltac:(lia) (proj1 S1)) as (r' & m2 & E2 & Hr' & S2).
    rewrite Ec in E2. injection E2 as <- <-. split; [by eapply steady_trans|].
    destruct Hr' as [->|]; [|done]. split; [by eapply chunk_granted|].
    intros _. unfold chunk_at, PROM_CLAIM_MAX_ADDR, SIZE_1M. lia.
Qed.

Lemma prom_release_ok virt size m : exists m', prom_release virt size m = (Ok tt, m').
Proof.
  unfold prom_release, flag_set, call_prom, call_prom_ret, gets, mbind, M_bind, mret, M_ret.
  destruct (has_flag _ _); repeat (destruct (prom_entry _ _ _ _)); by eexists.
Qed.

(** ** Images *)

(** Bytes after an image do not change what its headers say. *)
Lemma byte_at_app (l r : list Z) i : 0 <= i < Z.of_nat (length l) -> byte_at (l ++ r) i = byte_at l i.
Proof. intros Hi. unfold byte_at. by rewrite lookup_app_l by lia. Qed.

Lemma be16_app (l r : list Z) i : 0 <= i -> i + 2 <= Z.of_nat (length l) -> be16 (l ++ r) i = be16 l i.
Proof. intros. unfold be16. by rewrite !byte_at_app by lia. Qed.

Lemma be32_app (l r : list Z) i : 0 <= i -> i + 4 <= Z.of_nat (length l) -> be32 (l ++ r) i = be32 l i.
Proof. intros. unfold be32. by rewrite !byte_at_app by lia. Qed.

Lemma elf_image_app e r ph :
  0 <= e_phoff e -> elf_image e ph -> elf_image (e ++ r) ph /\ e_entry (e ++ r) = e_entry e.
Proof.
  intros Hoff (Hl & (M0 & M1 & M2 & M3) & Hc & Hd & Hn & Hp & Hat). unfold SIZEOF_EHDR, SIZEOF_PHDR in *.
  assert (Ho : e_phoff (e ++ r) = e_phoff e) by (unfold e_phoff; rewrite be32_app by lia; done).
  assert (Hi : forall i, 0 <= i < 52 -> e_ident (e ++ r) i = e_ident e i)
    by (intros; unfold e_ident; rewrite byte_at_app by lia; done).
  split; [|unfold e_entry; rewrite be32_app by lia; done].
  unfold elf_image, elf_magic, phdrs_at, SIZEOF_EHDR, SIZEOF_PHDR. rewrite Ho, !Hi by lia.
  rewrite length_app. split_and!; try done; try lia.
  - unfold e_phnum in *. rewrite be16_app by lia. done.
  - intros i h Hh. rewrite <- (Hat i h Hh). pose proof (lookup_lt_Some _ _ _ Hh).
    unfold phdr_at, p_type, p_offset, p_vaddr, p_memsz. by rewrite !be32_app by lia.
Qed.

Context (name : cstr) (dev : Z) (img : list Z) {HD : DiskDevice I name dev img}.
Context (partno count start len : Z) (HB : bootable name dev img partno count start len).

Local Abbreviation vol := (slice img start len).
Local Abbreviation ready := (ready I name dev img partno start len).

Abbreviation L := (M quik_err_t (loader F)).

(** What an operation of the loader on files leaves alone. *)
Definition same_rest (s s' : loader F) : Prop :=
  l_cfg s' = l_cfg s /\ l_cbuff s' = l_cbuff s /\ l_params s' = l_params s.

Lemma same_rest_trans s1 s2 s3 : same_rest s1 s2 -> same_rest s2 s3 -> same_rest s1 s3.
Proof. unfold same_rest. naive_solver congruence. Qed.

Lemma say_any fmt args out (s : loader F) :
  vprintk fmt args = Ok out -> I (m_fw (get_m s)) ->
  exists m', say fmt args s = (Ok tt, put_m m' s) /\ steady (get_m s) m'.
Proof.
  intros E HI. destruct (quiet_printk I fmt args out (disk_write (I := I) (dev := dev) (img := img)) E (get_m s) HI)
    as ([] & m' & Em & HI' & HS).
  exists m'. unfold say, on_ms, on_m, zoom. by rewrite Em.
Qed.

Lemma ready_put x pr bi (s : loader F) m' :
  ready x pr bi (l_fs s) -> steady (get_m s) m' ->
  ready x pr bi (l_fs (put_m m' s)) /\ same_rest s (put_m m' s).
Proof. intros Hr [HI HS]. split; [|done]. by apply (ready_io I name dev img). Qed.

Lemma ready_I x pr bi (s : loader F) : ready x pr bi (l_fs s) -> I (m_fw (get_m s)).
Proof. by intros (_ & _ & ? & _). Qed.

Lemma say_ready fmt args out x pr bi (s : loader F) :
  vprintk fmt args = Ok out -> ready x pr bi (l_fs s) ->
  exists s', say fmt args s = (Ok tt, s') /\ ready x pr bi (l_fs s') /\ same_rest s s'.
Proof.
  intros E Hr. destruct (say_any fmt args out s E (ready_I _ _ _ _ Hr)) as (m' & Es & HS).
  eexists. split; [exact Es|]. by apply ready_put.
Qed.

(** The message in front of the goal has been written. *)
Ltac say_step R s' R' Q :=
  let E := fresh "E" in
  lazymatch goal with
  | |- context [(say ?f ?a ≫= _) ?s] =>
      edestruct (say_ready f a _ _ _ _ s eq_refl R) as (s' & E & R' & Q);
      rewrite (bind_ok _ _ _ _ _ E); clear E
  end.

(** An operation of [File]. *)
Lemma on_fs_ok {A} (c : E F A) a x pr bi (s : loader F) f' :
  c (l_fs s) = (Ok a, f') -> ready x pr bi f' ->
  exists s', on_fs c s = (Ok a, s') /\ ready x pr bi (l_fs s') /\ same_rest s s'.
Proof. intros E Hr. unfold on_fs, zoom. rewrite E. by eexists. Qed.

(** [load_image] up to the claim of memory: the message, and the length of the file. *)
Definition sized (k : fuel_t) (path : path_t) : L Z :=
  say (str "Loading '%P'" ++ [10]) [KPath (Some path)];; on_fs (file_len k path).

Section Image.
Context (k : fuel_t) (path : cstr) (n : Z) (inode : list Z) (HF : file_at k vol path n inode).
Context (pr : prom_st) (bi : boot_info_t).
Context (Hnw : has_flag (prom_flags pr) PROM_NW_FULL_DISK = false) (Hk : (Z.to_nat count < f_map k)%nat).

(** What [load_image] returns when the firmware's answer is [w]: the file in the memory
    granted, or no memory for it. *)
Definition image_result (w where_ : Z) (o : quik_err_t * Z * Z * list Z) : Prop :=
  if decide (w = NOT_FOUND) then o = (ERR_NO_MEM, NOT_FOUND, i_size inode, [])
  else chunk_at where_ w
       /\ exists pad, o = (ERR_NONE, w, i_size inode, contents vol inode ++ replicate pad 0).

Lemma load_image_ready x where_ s :
  0 <= where_ -> where_ + SIZE_1M <= 4294967296 -> open_cost n <= x -> ready (x + open_cost n) pr bi (l_fs s) ->
  exists s1 w o s', sized k (mk_path (Some name) partno path) s = (Ok (i_size inode), s1)
    /\ chunk_answer where_ (i_size inode) (get_m s1) w
    /\ load_image k (mk_path (Some name) partno path) where_ s = (Ok o, s')
    /\ image_result w where_ o /\ ready (x - open_cost n) pr bi (l_fs s') /\ same_rest s s'.
Proof.
  intros Hw Hlt Hx Hr.
  assert (Hc : 0 <= open_cost n).
  { unfold open_cost, SIZEOF_DATA. destruct HF as (? & ? & ? & _ & -> & _). lia. }
  unfold load_image, sized.
  destruct (say_ready (str "Loading '%P'" ++ [10]) [KPath (Some (mk_path (Some name) partno path))] _ _ _ _ s eq_refl Hr)
    as (s1 & E1 & R1 & Q1).
  rewrite !(bind_ok _ _ _ _ _ E1).
  destruct (file_len_ready I name dev img partno count start len HB k path n inode HF pr bi Hnw Hk
    (x + open_cost n) (l_fs s1) ltac:(lia) R1) as (f2 & E2 & R2).
  replace (x + open_cost n - open_cost n) with x in R2 by lia.
  destruct (on_fs_ok _ _ _ _ _ s1 f2 E2 R2) as (s2 & E2' & R2' & Q2).
  rewrite (bind_ok _ _ _ _ _ (attempt_ok _ _ _ _ E2')).
  destruct (chunk_steady where_ (i_size inode) (get_m s2) Hw Hlt (ready_I _ _ _ _ R2'))
    as (w & m3 & E3 & S3 & Ha3 & Hc3).
  exists s2, w. destruct (ready_put _ _ _ _ _ R2' S3) as (R3 & Q3). set (s3 := put_m m3 s2) in *.
  rewrite (bind_ok _ _ _ w s3) by (unfold on_ms, on_m, zoom; by rewrite E3).
  pose proof (same_rest_trans _ _ _ (same_rest_trans _ _ _ Q1 Q2) Q3) as Q. unfold image_result.
  destruct (decide (w = NOT_FOUND)) as [->|Hne].
  - change (NOT_FOUND =? NOT_FOUND) with true. cbv iota.
    say_step R3 s4 R4 Q4.
    eexists _, _. split; [exact E2'|]. split; [exact Ha3|]. split; [reflexivity|]. split; [done|].
    split; [eapply ready_weaken; [exact R4|lia]|by eapply same_rest_trans].
  - rewrite (proj2 (Z.eqb_neq _ _) Hne).
    destruct (file_load_ready I name dev img partno count start len HB k path n inode HF pr bi Hnw Hk
      x (l_fs s3) ltac:(lia) R3) as (pad & f4 & E4 & _ & R4).
    destruct (on_fs_ok _ _ _ _ _ s3 f4 E4 R4) as (s4 & E4' & R4' & Q4).
    rewrite (bind_ok _ _ _ _ _ (attempt_ok _ _ _ _ E4')).
    eexists _, _. split; [exact E2'|]. split; [exact Ha3|]. split; [reflexivity|].
    split; [split; [by apply Hc3|by exists pad]|].
    split; [exact R4'|by eapply same_rest_trans].
Qed.

End Image.

(** ** The kernel and its initrd *)

(** An initrd on the volume: the object of its path, the path, its number of
    components, and its inode. *)
Record initrd_file := mk_initrd { ir_obj : Z; ir_path : cstr; ir_n : Z; ir_inode : list Z }.

Definition initrd_at (k : fuel_t) (o : option initrd_file) : Prop :=
  match o with None => True | Some i => file_at k vol (ir_path i) (ir_n i) (ir_inode i) end.

Definition initrd_cost (o : option initrd_file) : Z :=
  match o with None => 0 | Some i => 2 * open_cost (ir_n i) end.

Definition initrd_path (o : option initrd_file) : option (Z * path_t) :=
  option_map (fun i => (ir_obj i, mk_path (Some name) partno (ir_path i))) o.

(** Loading the initrd with the kernel [image] in place up to [stop], from the state [s]:
    without one its place is cleared; one is loaded where the firmware grants memory for
    it past the kernel, its bytes read there and its place recorded, and [ERR_NO_MEM] is the outcome when the
    firmware grants none. *)
Definition initrd_outcome (k : fuel_t) (o : option initrd_file) (stop : Z) (ip : load_state_t * cstr)
    (bi : boot_info_t) (s : loader F) (r : outcome quik_err_t (load_state_t * cstr)) (s' : loader F) : Prop :=
  match o with
  | None => r = Ok ip /\ m_bi (get_m s') = set_initrd 0 0 bi /\ same_rest s s'
  | Some i =>
      exists s1 base,
        sized k (mk_path (Some name) partno (ir_path i)) s = (Ok (i_size (ir_inode i)), s1)
        /\ chunk_answer stop (i_size (ir_inode i)) (get_m s1) base
        /\ if decide (base = NOT_FOUND) then r = Err ERR_NO_MEM
           else r = Ok ip /\ chunk_at stop base
                /\ (exists pad s2, load_image k (mk_path (Some name) partno (ir_path i)) stop s
                     = (Ok (ERR_NONE, base, i_size (ir_inode i), contents vol (ir_inode i) ++ replicate pad 0), s2))
                /\ m_bi (get_m s') = set_initrd base (i_size (ir_inode i)) bi /\ same_rest s s'
  end.

(** The bytes of the kernel read to [kbuf] and parsed as [image], leaving the state [s']. *)
Definition kernel_placed (k : fuel_t) (path : path_t) (inode : list Z) (kbuf : Z) (image : load_state_t)
    (s s' : loader F) : Prop :=
  exists pad s1, let bytes := contents vol inode ++ replicate pad 0 in
    load_image k path LOAD_BASE s = (Ok (ERR_NONE, kbuf, i_size inode, bytes), s1)
    /\ on_ms (elf_parse kbuf bytes (i_size inode)) s1 = (Ok image, s').

Lemma load_failed_ok {A} kbuf klen ka ird err (s : loader F) :
  exists s', load_failed (A := A) kbuf klen ka ird err s = (Err err, s').
Proof.
  unfold load_failed.
  assert (H1 : exists s1, (if negb (kbuf =? 0) then on_ms (prom_release kbuf klen) else mret tt) s = (Ok tt, s1)).
  { destruct (negb _); [|by eexists]. destruct (prom_release_ok kbuf klen (get_m s)) as (m' & E).
    unfold on_ms, on_m, zoom. rewrite E. by eexists. }
  destruct H1 as (s1 & E1). rewrite (bind_ok _ _ _ _ _ E1). destruct ird as [[a ?]|]; by eexists.
Qed.

Lemma update_bi_ok f (s : loader F) : update_bi f s = (Ok tt, put_m (set_bi (f (m_bi (get_m s))) (get_m s)) s).
Proof. done. Qed.

Lemma elf_parse_steady kbuf e n ph tlen off tbase m :
  elf_image e ph -> segs_ok (List.filter loadable ph) ->
  text_span (List.filter loadable ph) = Some (tlen, off, tbase) ->
  0 <= kbuf -> 0 <= n -> kbuf + tlen + off + SIZE_4K <= 4294967296 -> I (m_fw m) ->
  exists m', elf_parse kbuf e n m = (Ok (loaded_state kbuf e (tlen, off, tbase)), m') /\ steady m m'.
Proof.
  intros He Hs Hsp Hb Hn Hlim HI.
  destruct (elf_parse_ok kbuf e n ph (tlen, off, tbase) m He Hs Hsp Hb Hn Hlim) as (m' & E & Hp).
  exists m'. split; [exact E|]. unfold rest_claimed in Hp. unfold SIZE_4K in *.
  destruct (_ <? _); [|by subst m'].
  eapply pages_steady; [exact Hp|lia|lia|done].
Qed.

(** What [try_load_loop] does once the kernel is in place. *)
Definition load_initrd k ka kbuf klen (initrd : option (Z * path_t)) (image : load_state_t) (params : cstr)
  : L (load_state_t * cstr) :=
  match initrd with
  | None => update_bi (set_initrd 0 0);; mret (image, params)
  | Some (a, path) =>
      '(err, ibuf, ilen, _) ← load_image k path (u32 (kbuf + klen));
      if decide (err = ERR_NONE) then update_bi (set_initrd ibuf ilen);; mret (image, params)
      else load_failed kbuf klen ka initrd err
  end.

Lemma load_initrd_ready k ka kbuf klen ird image params pr bi s :
  has_flag (prom_flags pr) PROM_NW_FULL_DISK = false -> (Z.to_nat count < f_map k)%nat ->
  initrd_at k ird -> chunk_at LOAD_BASE kbuf -> 0 <= klen <= 0xE0000000 ->
  ready (initrd_cost ird) pr bi (l_fs s) ->
  exists r s', load_initrd k ka kbuf klen (initrd_path ird) image params s = (r, s')
    /\ initrd_outcome k ird (kbuf + klen) (image, params) bi s r s'.
Proof.
  intros Hnw Hk Hird Hat Hlen Hr. unfold chunk_at, PROM_CLAIM_MAX_ADDR, LOAD_BASE, SIZE_1M in Hat.
  unfold load_initrd, initrd_outcome. destruct ird as [i|]; cbn [initrd_path option_map].
  2: { rewrite (bind_ok _ _ _ _ _ (update_bi_ok _ _)). eexists _, _. split; [reflexivity|]. split; [done|].
       split; [|done]. destruct Hr as (_ & Eb & _). by rewrite <- Eb. }
  rewrite (u32_small (kbuf + klen)) by lia. cbn [initrd_cost] in Hr.
  replace (2 * open_cost (ir_n i)) with (open_cost (ir_n i) + open_cost (ir_n i)) in Hr by lia.
  destruct (load_image_ready k (ir_path i) (ir_n i) (ir_inode i) Hird pr bi Hnw Hk (open_cost (ir_n i))
    (kbuf + klen) s) as (s1 & base & o & s3 & E1 & Ha & E3 & Ho & R3 & Q3); try done; [lia|unfold SIZE_1M; lia|].
  rewrite (bind_ok _ _ _ _ _ E3). unfold image_result in Ho.
  destruct (decide (base = NOT_FOUND)) as [->|Hne].
  - subst o. rewrite decide_False by done.
    destruct (load_failed_ok (A := load_state_t * cstr) kbuf klen ka
      (Some (ir_obj i, mk_path (Some name) partno (ir_path i))) ERR_NO_MEM s3) as (s4 & E4).
    eexists _, s4. split; [exact E4|]. exists s1, NOT_FOUND. split; [exact E1|]. split; [exact Ha|].
    by rewrite decide_True by done.
  - destruct Ho as (Hat2 & pad & ->). rewrite decide_True by done. rewrite (bind_ok _ _ _ _ _ (update_bi_ok _ _)).
    eexists _, _. split; [reflexivity|]. exists s1, base. split; [exact E1|]. split; [exact Ha|].
    rewrite decide_False by done. split; [done|]. split; [done|]. split; [by exists pad, s3|]. split; [|exact Q3].
    cbn. by destruct R3 as (_ & -> & _).
Qed.

(** What [try_load_loop] gives from the state [s] its paths are chosen in: the firmware's
    answer for the kernel decides, then the one for the initrd. *)
Definition load_outcome (k : fuel_t) (kpath : path_t) (kinode : list Z) (ird : option initrd_file)
    (image : Z -> load_state_t) (params : cstr) (bi : boot_info_t) (s : loader F)
    (r : outcome quik_err_t (load_state_t * cstr)) (s' : loader F) : Prop :=
  exists s1 kbuf,
    sized k kpath s = (Ok (i_size kinode), s1) /\ chunk_answer LOAD_BASE (i_size kinode) (get_m s1) kbuf
    /\ if decide (kbuf = NOT_FOUND) then r = Err ERR_NO_MEM
       else chunk_at LOAD_BASE kbuf
            /\ exists s2, kernel_placed k kpath kinode kbuf (image kbuf) s s2 /\ same_rest s s2
                 /\ initrd_outcome k ird (kbuf + (i_size kinode)) (image kbuf, params) bi s2 r s'.

(** The whole of it, for any choice of kernel and initrd. *)
Lemma kernel_loaded_any k s0 s ka kpath kn kinode ird params ph tlen off tbase x pr bi :
  get_load_paths k s0
    = (Ok ((ka, mk_path (Some name) partno kpath),
           initrd_path ird, params), s) ->
  ready x pr bi (l_fs s) -> has_flag (prom_flags pr) PROM_NW_FULL_DISK = false ->
  (Z.to_nat count < f_map (r_files k))%nat ->
  file_at (r_files k) vol kpath kn kinode -> initrd_at (r_files k) ird ->
  2 * open_cost kn + initrd_cost ird <= x ->
  let kernel := contents vol kinode in
  0 <= e_phoff kernel -> elf_image kernel ph -> segs_ok (List.filter loadable ph) ->
  text_span (List.filter loadable ph) = Some (tlen, off, tbase) ->
  i_size kinode <= 0xE0000000 -> tlen + off <= 0xE0000000 ->
  exists r s', try_load_loop k s0 = (r, s')
    /\ load_outcome (r_files k) (mk_path (Some name) partno kpath) kinode ird
         (fun kbuf => loaded_state kbuf kernel (tlen, off, tbase)) params bi s r s'.
Proof.
  intros Hp Hr Hnw Hk HF Hird Hx kernel Hoff He Hs Hsp Hsz Hspan. subst kernel.
  assert (Hcost : 0 <= open_cost kn /\ 0 <= initrd_cost ird).
  { unfold initrd_cost, initrd_at, open_cost, SIZEOF_DATA in *. split.
    - destruct HF as (? & ? & ? & _ & -> & _). lia.
    - destruct ird as [i|]; [|done]. destruct Hird as (? & ? & ? & _ & -> & _). lia. }
  unfold try_load_loop. rewrite (bind_ok _ _ _ _ _ Hp). cbn [fst snd].
  apply (ready_weaken _ _ _ _ _ _ _ _ (initrd_cost ird + open_cost kn + open_cost kn)) in Hr; [|lia].
  destruct (load_image_ready (r_files k) kpath kn kinode HF pr bi Hnw Hk (initrd_cost ird + open_cost kn)
    LOAD_BASE s) as (s1 & kbuf & o & s2 & E1 & Ha & E2 & Ho & R2 & Q2); try done; [lia|].
  replace (initrd_cost ird + open_cost kn - open_cost kn) with (initrd_cost ird) in R2 by lia.
  rewrite (bind_ok _ _ _ _ _ E2). unfold image_result in Ho. unfold load_outcome.
  destruct (decide (kbuf = NOT_FOUND)) as [->|Hne].
  - subst o. rewrite decide_False by done. rewrite (bind_ok _ _ _ (inl ERR_NO_MEM) s2) by done.
    say_step R2 s3 R3 Q3. destruct (load_failed_ok (A := load_state_t * cstr) NOT_FOUND (i_size kinode) ka
      (initrd_path ird) ERR_NO_MEM s3) as (s4 & E4).
    eexists _, s4. split; [exact E4|]. exists s1, NOT_FOUND. by rewrite decide_True by done.
  - destruct Ho as (Hat & pad & ->). rewrite decide_True by done.
    assert (Hsz0 : 0 <= i_size kinode) by exact (i_size_nonneg I name dev img partno count start len HB _ _ _ _ HF).
    destruct (elf_image_app (contents vol kinode) (replicate pad 0) ph Hoff He) as (He' & Hent).
    pose proof Hat as Hat'. unfold chunk_at, PROM_CLAIM_MAX_ADDR, LOAD_BASE in Hat'.
    destruct (elf_parse_steady kbuf (contents vol kinode ++ replicate pad 0) (i_size kinode) ph tlen off tbase (get_m s2)
      He' Hs Hsp) as (m3 & E3 & S3); [lia|lia|unfold SIZE_4K; lia|by eapply ready_I|].
    destruct (ready_put _ _ _ s2 m3 R2 S3) as (R3 & Q3).
    assert (E3' : on_ms (elf_parse kbuf (contents vol kinode ++ replicate pad 0) (i_size kinode)) s2
      = (Ok (loaded_state kbuf (contents vol kinode) (tlen, off, tbase)), put_m m3 s2)).
    { unfold on_ms, on_m, zoom. rewrite E3. unfold loaded_state. by rewrite Hent. }
    rewrite (bind_ok _ _ _ _ _ (attempt_ok _ _ _ _ E3')).
    destruct (load_initrd_ready (r_files k) ka kbuf (i_size kinode) ird
      (loaded_state kbuf (contents vol kinode) (tlen, off, tbase)) params pr bi (put_m m3 s2) Hnw Hk Hird Hat
      (conj Hsz0 Hsz) R3) as (r & s4 & E4 & Hc).
    exists r, s4. split; [exact E4|]. exists s1, kbuf. rewrite decide_False by done.
    split; [exact E1|]. split; [exact Ha|]. split; [exact Hat|].
    exists (put_m m3 s2). split; [by exists pad, s2|]. split; [by eapply same_rest_trans|exact Hc].
Qed.

(** C2: A kernel on an ext2 volume of a partitioned disk, an ELF image with its segments
    in file order, and the initrd that may come with it, are loaded.  What decides is the
    firmware's answer, on the machine as it is when the memory is asked for: the kernel
    goes to the first multiple of 1M from [LOAD_BASE] on that is granted for its size,
    the initrd to the first one past it, the image is described by its headers and the
    initrd's place is recorded; the outcome is [ERR_NO_MEM] exactly when the firmware
    then refuses every candidate for the one or the other. *)
Theorem kernel_loaded k s0 s ka kpath kn kinode ird params ph tlen off tbase x pr bi :
  get_load_paths k s0
    = (Ok ((ka, mk_path (Some name) partno kpath),
           initrd_path ird, params), s) ->
  ready x pr bi (l_fs s) -> has_flag (prom_flags pr) PROM_NW_FULL_DISK = false ->
  (Z.to_nat count < f_map (r_files k))%nat ->
  file_at (r_files k) vol kpath kn kinode -> initrd_at (r_files k) ird ->
  2 * open_cost kn + initrd_cost ird <= x ->
  let kernel := contents vol kinode in
  0 <= e_phoff kernel -> elf_image kernel ph -> segs_ok (List.filter loadable ph) ->
  text_span (List.filter loadable ph) = Some (tlen, off, tbase) ->
  i_size kinode <= 0xE0000000 -> tlen + off <= 0xE0000000 ->
  exists r s', try_load_loop k s0 = (r, s')
    /\ load_outcome (r_files k) (mk_path (Some name) partno kpath) kinode ird
         (fun kbuf => loaded_state kbuf kernel (tlen, off, tbase)) params bi s r s'.
Proof. exact (kernel_loaded_any k s0 s ka kpath kn kinode ird params ph tlen off tbase x pr bi). Qed.
End Load.

(** ** Witnesses *)

(** A volume with a kernel and an initrd in its root directory, on a partitioned disk. *)
Definition kern_img : list Z := disk_with (str "vmlinux", demo_elf 3) (str "initrd", demo_conf).
Definition kern_root : list dentry := root_of (str "vmlinux") (str "initrd").
Definition kern_disks : list (cstr * list Z) := [(str "hd", kern_img)].
Definition kern_bi : boot_info_t :=
  mk_boot_info 0 0 0 None [] [] (mk_env_dev (Some (str "hd")) 0 true) (Some (str "/vmlinux /initrd quiet")) None 0 0.
Definition kern_loader : loader sim :=
  mk_loader (mk_fs (mk_mach (sim_start kern_disks) prom_init_st kern_bi (heap_claimed MALLOC_BASE heap_init) 0 [])
    part_zero ext2_init) cfg_init (replicate 512 0) None.
Definition kern_rounds : rounds_t := mk_rounds boot_fuel 10 10 10.

Definition kern_vol : list Z := slice kern_img 1536 17408.
Abbreviation kern_sb := (volume_sb kern_vol) (only parsing).
Definition kern_paths : loader sim := snd (get_load_paths kern_rounds kern_loader).

Lemma sim_memory disks : MemoryFirmware (sim_has disks).
Proof.
  split.
  - intros args nret f r f' E HI. unfold prom_entry in E. simpl in E. unfold sim_entry in E.
    change (sim_service_of (str "claim")) with SClaim in E. cbv iota in E.
    destruct (existsb _ _); by injection E as <- <-.
  - intros args nret f r f' E HI. unfold prom_entry in E. simpl in E. unfold sim_entry in E.
    change (sim_service_of (str "call-method")) with SOther in E. cbv iota in E. by injection E as <- <-.
  - intros f a n r f' Ha HI E. unfold prom_entry in E. simpl in E. unfold sim_entry in E.
    change (sim_service_of (str "claim")) with SClaim in E. cbv iota in E.
    destruct (existsb _ _); injection E as <- <-; [by right|left].
    unfold arg_int. cbn [lookup list_lookup r_args hd]. by rewrite u32_u32, u32_small.
Qed.

Lemma kern_device : DiskDevice (sim_has kern_disks) (str "hd") DISK0 kern_img.
Proof. by apply (sim_device kern_disks 0); [done|by vm_compute|by vm_compute|by_eval]. Qed.

Lemma kern_bootable : bootable (str "hd") DISK0 kern_img 0 2 1536 17408.
Proof. disk_bootable. Qed.

Lemma kern_root_has : dir_has kern_vol kern_sb (inode_at kern_vol kern_sb 128 2) kern_root.
Proof. apply dir_hasb_ok. by vm_compute. Qed.

Lemma kern_ready :
  ready (sim_has kern_disks) (str "hd") DISK0 kern_img 0 1536 17408 4000 prom_init_st
    (m_bi (get_m kern_paths)) (l_fs kern_paths).
Proof.
  unfold ready. repeat match goal with |- _ /\ _ => split end.
  - by vm_compute.
  - by vm_compute.
  - unfold sim_has. by_eval.
  - left. by vm_compute.
  - replace (indir1 (fs_ext2 (l_fs kern_paths))) with indir_none by (by vm_compute). done.
  - replace (indir2 (fs_ext2 (l_fs kern_paths))) with indir_none by (by vm_compute). done.
  - exists MALLOC_BASE. split; [by_eval|by vm_compute].
Qed.

Lemma kern_contents :
  contents kern_vol (inode_at kern_vol kern_sb 128 12) = demo_elf 3.
Proof. by vm_compute. Qed.

Lemma pair_of_fst {A B} (p : A * B) a : fst p = a -> p = (a, snd p).
Proof. destruct p as [x y]. simpl. by intros ->. Qed.

(** The boot arguments choose both files of the default device. *)
Lemma kern_chosen :
  get_load_paths kern_rounds kern_loader
    = (Ok ((5242884, mk_path (Some (str "hd")) 0 (str "/vmlinux")),
           Some (5242912, mk_path (Some (str "hd")) 0 (str "/initrd")), str "quiet"), kern_paths).
Proof. unfold kern_paths. refine (pair_of_fst (get_load_paths kern_rounds kern_loader) _ _). by vm_compute. Qed.

Lemma kern_size : i_size (inode_at kern_vol kern_sb 128 12) = 148.
Proof. by vm_compute. Qed.

Definition kern_initrd : initrd_file := mk_initrd 5242912 (str "/initrd") 1 (inode_at kern_vol kern_sb 128 13).

Definition is_ok {E A} (o : outcome E A) : bool := if o is Ok _ then true else false.

(** On this firmware both are loaded. *)
Example kern_runs : is_ok (fst (try_load_loop kern_rounds kern_loader)) = true.
Proof. by vm_compute. Qed.

Lemma kernel_loaded_witness :
  exists s1 kbuf s2 s3 ibase s',
    sized boot_fuel (mk_path (Some (str "hd")) 0 (str "/vmlinux")) kern_paths = (Ok 148, s1)
    /\ chunk_answer LOAD_BASE 148 (get_m s1) kbuf /\ chunk_at LOAD_BASE kbuf
    /\ sized boot_fuel (mk_path (Some (str "hd")) 0 (str "/initrd")) s2 = (Ok (i_size (ir_inode kern_initrd)), s3)
    /\ chunk_answer (kbuf + 148) (i_size (ir_inode kern_initrd)) (get_m s3) ibase /\ chunk_at (kbuf + 148) ibase
    /\ try_load_loop kern_rounds kern_loader
       = (Ok (loaded_state kbuf (demo_elf 3) (0x6000, 0x1000, 0), str "quiet"), s')
    /\ m_bi (get_m s') = set_initrd ibase (i_size (ir_inode kern_initrd)) (m_bi (get_m kern_paths)).
Proof.
  assert (H : exists r s', try_load_loop kern_rounds kern_loader = (r, s')
    /\ load_outcome (str "hd") kern_img 0 1536 17408 boot_fuel (mk_path (Some (str "hd")) 0 (str "/vmlinux"))
         (inode_at kern_vol kern_sb 128 12) (Some kern_initrd)
         (fun kbuf => loaded_state kbuf (contents kern_vol (inode_at kern_vol kern_sb 128 12)) (0x6000, 0x1000, 0))
         (str "quiet") (m_bi (get_m kern_paths)) kern_paths r s').
  {
  refine (kernel_loaded (sim_has kern_disks) (HM := sim_memory kern_disks) (str "hd") DISK0 kern_img
    (HD := kern_device) 0 2 1536 17408 kern_bootable kern_rounds kern_loader kern_paths 5242884 (str "/vmlinux") 1
    (inode_at kern_vol kern_sb 128 12) (Some kern_initrd)
    (str "quiet") demo_phdrs 0x6000 0x1000 0 4000 prom_init_st (m_bi (get_m kern_paths))
    _ kern_ready _ _ _ _ _ _ _ demo_segs_ok _ _ _).
  - exact kern_chosen.
  - by vm_compute.
  - simpl. lia.
  - change (file_at boot_fuel kern_vol (chr "/" :: str "vmlinux") 1 (inode_at kern_vol kern_sb 128 12)).
    apply (root_file kern_vol kern_root (str "vmlinux") (mk_dentry 12 1 (str "vmlinux") [0]));
      [by vm_compute|exact kern_root_has|simpl; lia|by vm_compute|by_eval|by vm_compute|by_eval|by_eval|by vm_compute].
  - change (file_at boot_fuel kern_vol (chr "/" :: str "initrd") 1 (inode_at kern_vol kern_sb 128 13)).
    apply (root_file kern_vol kern_root (str "initrd") (demo_last (mk_dentry 13 1 (str "initrd") []) 40));
      [by vm_compute|exact kern_root_has|simpl; lia|by vm_compute|by_eval|by vm_compute|by_eval|by_eval|by vm_compute].
  - by vm_compute.
  - by vm_compute.
  - change (slice kern_img 1536 17408) with kern_vol. rewrite kern_contents. exact demo_elf_image.
  - by vm_compute.
  - by vm_compute.
  - lia. }
  destruct H as (r & s' & E & s1 & kbuf & E1 & A1 & H). rewrite kern_size, kern_contents in *.
  pose proof kern_runs as Hok. rewrite E in Hok.
  destruct (decide (kbuf = NOT_FOUND)) as [|_]; [by subst r|]. destruct H as (H1 & s2 & _ & _ & s3 & ibase & E3 & A3 & H).
  destruct (decide (ibase = NOT_FOUND)) as [|_]; [by subst r|]. destruct H as (-> & H3 & _ & B & _).
  exists s1, kbuf, s2, s3, ibase, s'. by split_and!.
Defined.
