(* ===== verification/LoadConfig.v ===== *)
(** * From a disk to the configuration tables (main.c with the parts below it)

    [load_config] on a volume that holds a configuration file: the file is found,
    read and parsed, the loader's own options are applied, and what is left is the
    tables the file's text describes. *)
From Stdlib Require Import ZArith Lia Ascii.
From stdpp Require Import prelude strings gmap.
From S2P Require Import Prelude Quik CString Util Malloc Printf Machine Prom Part Sim PartCorrect PromCorrect.
From S2P Require Import Ext2 Ext2Block Ext2File Ext2Tree Ext2Mount Ext2Demo Ext2Correct Env File FileCorrect.
From S2P Require Import Cfg CfgTables CfgText CfgCorrect Elf Commands Main BootCorrect LoadCorrect.

#[local] Arguments u32 : simpl never.
#[local] Arguments slice : simpl never.
#[local] Arguments Z.mul : simpl never.

(** ** Specification *)

(** [b'] is [b] but for the mark that there are images. *)
Definition but_images (b b' : boot_info_t) : Prop :=
  b' = set_bi_flags (fun _ => bi_flags b') b /\ Z.lor (bi_flags b') HAVE_IMAGES = Z.lor (bi_flags b) HAVE_IMAGES.

(** The device the options of the file leave as the default. *)
Definition configured_dev (opts : list config) (dev : env_dev_t) : env_dev_t :=
  let dev := match cfg_get_strg_i opts (str "device") with Some d => set_device (Some d) dev | None => dev end in
  match cfg_partition (cfg_get_strg_i opts (str "partition")) with
  | Some n => env_dev_set_part n dev
  | None => dev
  end.

(** ** The parser and the boot state *)

Lemma but_images_refl b : but_images b b.
Proof. unfold but_images. by destruct b. Qed.

Lemma but_images_trans b1 b2 b3 : but_images b1 b2 -> but_images b2 b3 -> but_images b1 b3.
Proof. intros [H1 F1] [-> F2]. split; [by rewrite H1|by rewrite F2]. Qed.

Lemma lor_bits f b v : Z.land b v = 0 -> Z.land (Z.lor f b) v = Z.land f v.
Proof. intros E. by rewrite Z.land_lor_distr_l, E, Z.lor_0_r. Qed.

Lemma but_images_flag b b' v :
  but_images b b' -> Z.land HAVE_IMAGES v = 0 -> has_flag (bi_flags b') v = has_flag (bi_flags b) v.
Proof.
  intros [_ E] Hv. unfold has_flag. by rewrite <- (lor_bits (bi_flags b') _ _ Hv), E, lor_bits.
Qed.

Section Frame.
Context {F : Type} {FW : Firmware F} (I : F -> Prop) (Hw : write_closed I).

(** What a parse leaves of the machine: all but the heap and the mark that there are
    images. *)
Definition framed (m m' : mach F) : Prop :=
  but_images (m_bi m) (m_bi m') /\ m_prom m' = m_prom m /\ (I (m_fw m) -> I (m_fw m')).

Lemma framed_refl m : framed m m.
Proof. split; [apply but_images_refl|done]. Qed.
Lemma framed_trans m1 m2 m3 : framed m1 m2 -> framed m2 m3 -> framed m1 m3.
Proof. intros (B1 & P1 & I1) (B2 & P2 & I2). split; [by eapply but_images_trans|]. split; [congruence|auto]. Qed.

(** Computations of the parser, and of the machine, that leave that. *)
Definition spares {A} (c : M cfg_jmp (mach F * cfg_st) A) : Prop := forall s, framed (fst s) (fst (snd (c s))).
Definition spares_m {A} (c : P F A) : Prop := forall m, framed m (snd (c m)).

Lemma spares_bind {A B} (c : M cfg_jmp (mach F * cfg_st) A) (f : A -> M cfg_jmp (mach F * cfg_st) B) :
  spares c -> (forall a, spares (f a)) -> spares (c ≫= f).
Proof.
  intros Hc Hf s. unfold mbind, M_bind. pose proof (Hc s) as H1. destruct (c s) as [[a|e|u] s1]; [|done..].
  eapply framed_trans; [exact H1|apply Hf].
Qed.

Lemma spares_m_bind {A B} (c : P F A) (f : A -> P F B) :
  spares_m c -> (forall a, spares_m (f a)) -> spares_m (c ≫= f).
Proof.
  intros Hc Hf s. unfold mbind, M_bind. pose proof (Hc s) as H1. destruct (c s) as [[a|e|u] s1]; [|done..].
  eapply framed_trans; [exact H1|apply Hf].
Qed.

Lemma spares_ret {A} (a : A) : spares (mret a).
Proof. intros s. apply framed_refl. Qed.
Lemma spares_throw {A} e : spares (throw (A := A) e).
Proof. intros s. apply framed_refl. Qed.
Lemma spares_undef {A} u : spares (undef (A := A) u).
Proof. intros s. apply framed_refl. Qed.
Lemma spares_getk {A} (f : cfg_st -> A) : spares (getk f).
Proof. intros s. apply framed_refl. Qed.
Lemma spares_on_cfg f : spares (on_cfg f).
Proof. intros s. apply framed_refl. Qed.
Lemma spares_attempt {A} (c : M cfg_jmp (mach F * cfg_st) A) : spares c -> spares (attempt c).
Proof. intros H s. unfold attempt. specialize (H s). by destruct (c s) as [[a|e|u] s1]. Qed.

Lemma spares_on_mach {A} (c : P F A) : spares_m c -> spares (on_mach c).
Proof. intros H [m st]. unfold on_mach. specialize (H m). cbn [fst]. by destruct (c m) as [[a|e|u] m']. Qed.

Lemma spares_write a n : spares_m (call_prom (str "write") a n).
Proof.
  intros m. unfold call_prom, call_prom_ret, mbind, M_bind, mret, M_ret.
  destruct (prom_entry (str "write") a n (m_fw m)) as [r f] eqn:E.
  split; [apply but_images_refl|]. split; [done|]. by eapply Hw.
Qed.

Lemma spares_putchar c : spares_m (putchar c).
Proof.
  unfold putchar. apply spares_m_bind; [intros m; apply framed_refl|]. intros o.
  destruct (o =? 0); [intros m; apply framed_refl|].
  apply spares_m_bind; [|intros ?; apply spares_write].
  destruct (c =? 10); [apply spares_write|intros m; apply framed_refl].
Qed.

Lemma spares_printk fmt args : spares_m (printk fmt args).
Proof.
  unfold printk. destruct (vprintk fmt args) as [out|e|u]; [|intros m; apply framed_refl..].
  induction out as [|c out IH]; [intros m; apply framed_refl|].
  apply spares_m_bind; [apply spares_putchar|intros ?; exact IH].
Qed.

Lemma spares_malloc n : spares_m (do_malloc n).
Proof. intros m. unfold do_malloc. destruct (malloc n (m_heap m)). split; [apply but_images_refl|done]. Qed.
Lemma spares_free p : spares_m (do_free p).
Proof. intros m. split; [apply but_images_refl|done]. Qed.
Lemma spares_flags : spares_m (on_bi (set_bi_flags (fun f => Z.lor f HAVE_IMAGES))).
Proof.
  intros m. split; [|done]. split; [done|]. cbn [bi_flags m_bi set_bi set_bi_flags snd on_bi].
  change (bi_flags (m_bi (snd (on_bi (set_bi_flags (fun f => Z.lor f HAVE_IMAGES)) m))))
    with (Z.lor (bi_flags (m_bi m)) HAVE_IMAGES). by rewrite <- Z.lor_assoc, Z.lor_diag.
Qed.

#[local] Hint Resolve spares_ret spares_throw spares_undef spares_getk spares_on_cfg spares_on_mach
  spares_printk spares_malloc spares_free spares_flags spares_attempt : core.

(** The operations of the parser are compositions of these. *)
Ltac spare :=
  repeat first
    [ done | solve [auto]
    | apply spares_bind; [|intros ?]
    | match goal with |- spares (match ?x with _ => _ end) => destruct x end ].

Lemma spares_cfg_error {A} msg args : spares (cfg_error (A := A) msg args).
Proof. unfold cfg_error, cfg_where. spare. Qed.
Lemma spares_cfg_warn msg args : spares (cfg_warn msg args).
Proof. unfold cfg_warn, cfg_where. spare. Qed.
#[local] Hint Resolve spares_cfg_error spares_cfg_warn : core.

Lemma spares_get_token : spares cfg_get_token.
Proof. unfold cfg_get_token, strdup. spare. Qed.
#[local] Hint Resolve spares_get_token : core.

Lemma spares_next : spares cfg_next.
Proof. unfold cfg_next. spare. Qed.

Lemma spares_set_walk t item value : spares (set_walk t item value).
Proof.
  induction t as [|w t IH]; [apply spares_ret|]. cbn [set_walk]. unfold set_entry. spare.
Qed.

Lemma spares_set item value : spares (cfg_set item value).
Proof. unfold cfg_set. pose proof spares_set_walk. spare. Qed.

Lemma spares_parse file buff : spares (cfg_parse file buff).
Proof.
  unfold cfg_parse. apply spares_bind; [done|]. intros _. apply spares_bind; [apply spares_attempt|].
  - induction (parse_fuel buff) as [|n IH]; [apply spares_undef|]. cbn [parse_loop].
    pose proof spares_next. pose proof spares_set. spare.
  - intros [[]|v]; [apply spares_undef|apply spares_ret].
Qed.

End Frame.

Section Config.
Context {F : Type} {FW : Firmware F}.
Context (I : F -> Prop) (name : cstr) (dev : Z) (img : list Z) {HD : DiskDevice I name dev img}.
Context (partno count start len : Z) (HB : bootable name dev img partno count start len).

Local Abbreviation vol := (slice img start len).
Local Abbreviation ready := (ready I name dev img partno start len).

(** ** The options of the loader *)

(** What applying the loader's options does not touch. *)
Definition unchanged (s s' : loader F) : Prop := l_cfg s' = l_cfg s /\ m_bi (get_m s') = m_bi (get_m s).
(** The files can still be opened. *)
Definition still_ready (s s' : loader F) : Prop :=
  forall x pr bi, ready x pr bi (l_fs s) -> ready x pr (m_bi (get_m s')) (l_fs s').

Lemma still_ready_refl s : still_ready s s.
Proof. intros x pr bi Hr. pose proof Hr as (_ & Hb & _). change (m_bi (get_m s)) with (m_bi (fs_m (l_fs s))). by rewrite Hb. Qed.
Lemma still_ready_trans s1 s2 s3 : still_ready s1 s2 -> still_ready s2 s3 -> still_ready s1 s3.
Proof. intros H1 H2 x pr bi Hr. eapply H2, H1, Hr. Qed.

Lemma ask_none item (s : loader F) : ask_strg None item s = (Ok (cfg_get_strg_i (options (l_cfg s)) item), s).
Proof. done. Qed.

(** The firmware's state may be anything once a script of the file has run. *)
Lemma say_always fmt args out (s : loader F) :
  vprintk fmt args = Ok out -> exists s', say fmt args s = (Ok tt, s') /\ unchanged s s' /\ still_ready s s'.
Proof.
  intros E. destruct (quiet_printk (fun _ => True) fmt args out ltac:(done) E (get_m s) Logic.I)
    as ([] & m' & Em & _ & _ & Hb & _).
  exists (put_m m' s). split; [unfold say, on_ms, on_m, zoom; by rewrite Em|]. split; [done|].
  intros x pr bi Hr. pose proof Hr as (_ & Hbi & _).
  destruct (say_ready I name dev img partno start len fmt args out x pr bi s E Hr) as (s2 & E2 & R2 & _).
  assert (s2 = put_m m' s) as -> by (unfold say, on_ms, on_m, zoom in E2; rewrite Em in E2; by injection E2).
  change (m_bi (get_m (put_m m' s))) with (m_bi m'). rewrite Hb.
  change (m_bi (get_m s)) with (m_bi (fs_m (l_fs s))). by rewrite Hbi.
Qed.

Lemma interpret_always p (s : loader F) :
  exists s', on_ms (prom_interpret p) s = (Ok tt, s') /\ unchanged s s'.
Proof.
  unfold on_ms, on_m, zoom, prom_interpret, call_prom, call_prom_ret, mbind, M_bind, mret, M_ret.
  destruct (prom_entry _ _ _ _). by eexists.
Qed.

Lemma update {A} (o : option A) (g : A -> boot_info_t -> boot_info_t) (s : loader F) :
  exists s', (match o with Some a => update_bi (g a) | None => mret tt end) s = (Ok tt, s')
    /\ l_cfg s' = l_cfg s
    /\ m_bi (get_m s') = match o with Some a => g a (m_bi (get_m s)) | None => m_bi (get_m s) end
    /\ still_ready s s'.
Proof.
  destruct o as [a|]; eexists; (split; [reflexivity|]); (split; [done|]); (split; [done|]); [|apply still_ready_refl].
  intros x pr bi (R1 & R2 & R3 & R4 & R5 & R6 & R7). unfold FileCorrect.ready. by split_and!.
Qed.

(** The options applied, without a ["message"] file to show. *)
Lemma apply_config_runs k (s : loader F) :
  let opts := options (l_cfg s) in
  cfg_get_strg_i opts (str "message") = None ->
  exists s', apply_config k s = (Ok tt, s') /\ l_cfg s' = l_cfg s
    /\ default_dev (m_bi (get_m s')) = configured_dev opts (default_dev (m_bi (get_m s)))
    /\ bi_flags (m_bi (get_m s')) = bi_flags (m_bi (get_m s))
    /\ bootargs (m_bi (get_m s')) = bootargs (m_bi (get_m s))
    /\ (cfg_get_strg_i opts (str "init-code") = None -> still_ready s s').
Proof.
  intros opts Hmsg. unfold apply_config. rewrite (bind_ok _ _ _ _ _ (ask_none _ _)). fold opts.
  assert (H1 : exists s1, (match cfg_get_strg_i opts (str "init-code") with
      Some p => on_ms (prom_interpret p) | None => mret tt end) s = (Ok tt, s1) /\ unchanged s s1
      /\ (cfg_get_strg_i opts (str "init-code") = None -> still_ready s s1)).
  { destruct (cfg_get_strg_i opts (str "init-code")) as [p|].
    - destruct (interpret_always p s) as (s1 & E & U). by exists s1.
    - exists s. split; [done|]. split; [done|]. intros _. apply still_ready_refl. }
  destruct H1 as (s1 & E1 & (C1 & B1) & K1).
  rewrite (bind_ok _ _ _ _ _ E1), (bind_ok _ _ _ _ _ (ask_none _ _)).
  assert (H2 : exists s2, (match cfg_get_strg_i (options (l_cfg s1)) (str "init-message") with
      Some p => say (str "%s" ++ [10]) [KStr (Some p)] | None => mret tt end) s1 = (Ok tt, s2) /\ unchanged s1 s2
      /\ still_ready s1 s2).
  { destruct (cfg_get_strg_i _ (str "init-message")) as [p|]; [exact (say_always (str "%s" ++ [10]) [KStr (Some p)] _ s1 eq_refl)|].
    exists s1. split; [done|]. split; [done|]. apply still_ready_refl. }
  destruct H2 as (s2 & E2 & (C2 & B2) & K2).
  rewrite (bind_ok _ _ _ _ _ E2), (bind_ok _ _ _ _ _ (ask_none _ _)).
  destruct (update (cfg_get_strg_i (options (l_cfg s2)) (str "device"))
    (fun d => set_default_dev (set_device (Some d))) s2) as (s3 & E3 & C3 & B3 & K3).
  rewrite (bind_ok _ _ _ _ _ E3), (bind_ok _ _ _ _ _ (ask_none _ _)).
  destruct (update (cfg_partition (cfg_get_strg_i (options (l_cfg s3)) (str "partition")))
    (fun n => set_default_dev (env_dev_set_part n)) s3) as (s4 & E4 & C4 & B4 & K4).
  rewrite (bind_ok _ _ _ _ _ E4), (bind_ok _ _ _ _ _ (ask_none _ _)).
  destruct (update (cfg_get_strg_i (options (l_cfg s4)) (str "pause-message")) set_pause_message s4)
    as (s5 & E5 & C5 & B5 & K5).
  rewrite (bind_ok _ _ _ _ _ E5), (bind_ok _ _ _ _ _ (ask_none _ _)).
  rewrite C3, C2, C1 in B4. rewrite C2, C1 in B3. rewrite C5, C4, C3, C2, C1. fold opts in B3, B4 |- *. rewrite Hmsg.
  exists s5. split; [done|]. split; [congruence|]. rewrite B2, B1 in B3. unfold configured_dev.
  split; [|split; [|split]].
  1-3: rewrite B5, B4, B3;
    by destruct (cfg_get_strg_i _ (str "pause-message")), (cfg_partition (cfg_get_strg_i opts (str "partition"))),
      (cfg_get_strg_i opts (str "device")).
  intros Hc. eapply still_ready_trans; [by apply K1|]. eapply still_ready_trans; [exact K2|].
  eapply still_ready_trans; [exact K3|]. by eapply still_ready_trans.
Qed.

(** ** Loading *)

(** The heap the parse of a text of [items] needs. *)
Definition parse_cost (items : list item) : Z :=
  tokens_cost (mjoin (map item_tokens items)) + Z.of_nat (length items) * (SIZEOF_IMAGES + 8).

Lemma has_flag_lor f b : b <> 0 -> has_flag (Z.lor f b) b = true.
Proof.
  intros Hb. unfold has_flag. rewrite Z.land_lor_distr_l, Z.land_diag.
  destruct (Z.eqb_spec (Z.lor (Z.land f b) b) 0) as [E|]; [|done].
  by apply Z.lor_eq_0_iff in E as [_ ?].
Qed.

(** A buffer the heap has room for. *)
Lemma malloc_ready x n pr bi (s : loader F) :
  ready x pr bi (l_fs s) -> 0 <= n -> n + 8 <= x ->
  exists b s', on_ms (do_malloc n) s = (Ok (Some b), s') /\ b <> 0 /\ ready (x - (n + 8)) pr bi (l_fs s') /\ same_rest s s'.
Proof.
  intros Hr Hn Hx. pose proof Hr as (_ & _ & _ & _ & _ & _ & Hh).
  pose proof (bt_vol _ _ _ _ _ _ _ HB) as (_ & _ & Hg & _).
  pose proof (cache_costs_nonneg vol (volume_sb vol) Hg (l_fs s)) as Hc.
  assert (Hm : n <= MALLOC_SIZE) by (destruct Hh as (base & (B1 & B2 & B3 & B4 & B5 & _) & Hroom); lia).
  change (m_heap (fs_m (l_fs s))) with (m_heap (get_m s)) in Hh.
  destruct (do_malloc_room _ n (get_m s) Hh ltac:(lia) ltac:(lia)) as (b & h' & E & Hnz & Hh').
  unfold on_ms, on_m, zoom. rewrite E. eexists b, _. split; [reflexivity|]. split; [exact Hnz|]. split; [|done].
  apply (ready_heap I name dev img partno start len x); [done|]. eapply heap_room_le; [exact Hh'|lia].
Qed.

(** The first name of the list, when it is there. *)
Lemma find_config_first k path rest n inode x pr bi (s : loader F) :
  has_flag (prom_flags pr) PROM_NW_FULL_DISK = false -> (Z.to_nat count < f_map k)%nat ->
  file_at k vol path n inode -> open_cost n <= x -> ready x pr bi (l_fs s) ->
  exists s', find_config k (Some name) partno (path :: rest) s
      = (Ok (Some (mk_path (Some name) partno path, i_size inode)), s')
    /\ ready (x - open_cost n) pr bi (l_fs s') /\ same_rest s s'.
Proof.
  intros Hnw Hk HF Hx Hr. cbn [find_config].
  edestruct (say_ready I name dev img partno start len (str "Trying configuration file @ '%P'" ++ [10])
    [KPath (Some (mk_path (Some name) partno path))] _ x pr bi s eq_refl Hr) as (s1 & E1 & R1 & Q1).
  rewrite (bind_ok _ _ _ _ _ E1).
  destruct (file_len_ready I name dev img partno count start len HB k path n inode HF pr bi Hnw Hk
    x (l_fs s1) Hx R1) as (f2 & E2 & R2).
  destruct (on_fs_ok I name dev img partno start len _ _ _ _ _ s1 f2 E2 R2) as (s2 & E2' & R2' & Q2).
  rewrite (bind_ok _ _ _ _ _ (attempt_ok _ _ _ _ E2')).
  exists s2. split; [done|]. split; [done|]. by eapply same_rest_trans.
Qed.

(** A loader whose tables are [tb], with [z] bytes of heap to open files if no script of
    the file has run. *)
Definition configured (tb : tables) (z : Z) (pr : prom_st) (bi : boot_info_t) (s : loader F) : Prop :=
  let bi' := m_bi (get_m s) in
  tables_of (l_cfg s) = tb
  /\ default_dev bi' = configured_dev (tb_options tb) (default_dev bi)
  /\ has_flag (bi_flags bi') CONFIG_VALID = true
  /\ has_flag (bi_flags bi') TRIED_AUTO = has_flag (bi_flags bi) TRIED_AUTO
  /\ bootargs bi' = bootargs bi
  /\ (cfg_get_strg_i (tb_options tb) (str "init-code") = None -> ready z pr bi' (l_fs s)).

(** What the parse of the file leaves, its buffer given back and the mark set. *)
Lemma parsed_ready file b items trail tb x z pr bi (s : loader F) :
  ready x pr bi (l_fs s) -> b <> 0 ->
  Forall item_ok items -> gap trail -> apply_items (tables_of cfg_init) items = Some tb ->
  0 <= z -> parse_cost items + z <= x ->
  exists m c, cfg_parse file (cfg_text items trail) (get_m s, cfg_init) = (Ok 0, (m, c)) /\ tables_of c = tb
    /\ but_images bi (m_bi m)
    /\ ready z pr (m_bi m) (mk_fs (set_heap (free b (m_heap m)) m) (fs_part (l_fs s)) (fs_ext2 (l_fs s))).
Proof.
  intros Hr Hbz Hi Ht Happ Hz Hx. pose proof Hr as (Hp & Hb & HI & Hpt & C1 & C2 & Hh).
  pose proof (bt_vol _ _ _ _ _ _ _ HB) as (_ & _ & Hg & _).
  pose proof (cache_costs_nonneg vol (volume_sb vol) Hg (l_fs s)) as Hcc.
  set (cc := cache_cost (volume_sb vol) (indir1 (fs_ext2 (l_fs s))) + cache_cost (volume_sb vol) (indir2 (fs_ext2 (l_fs s)))) in *.
  destruct (parse_items_ok file items trail tb (cc + z) (get_m s) ltac:(lia) Hi Ht Happ) as (m & c & E & Et & Hh').
  { eapply heap_room_le; [exact Hh|]. unfold parse_cost in Hx. lia. }
  pose proof (spares_parse I (disk_write (I := I) (dev := dev) (img := img)) file (cfg_text items trail) (get_m s, cfg_init)) as Hs.
  rewrite E in Hs. destruct Hs as (HB' & HP & HI'). cbn [fst snd] in HB', HP, HI'.
  change (m_bi (get_m s)) with (m_bi (fs_m (l_fs s))) in HB'. rewrite Hb in HB'.
  exists m, c. split; [done|]. split; [done|]. split; [done|]. unfold FileCorrect.ready. cbn [fs_m fs_part fs_ext2].
  split; [by etransitivity|]. split; [done|]. split; [by apply HI'|]. split; [done|]. split; [done|].
  split; [done|]. by apply heap_room_free.
Qed.

(** What follows the parse of the file in the block [b]. *)
Lemma config_parsed k file b items trail tb x z pr bi (s : loader F) :
  ready x pr bi (l_fs s) -> l_cfg s = cfg_init -> b <> 0 ->
  Forall item_ok items -> gap trail -> apply_items (tables_of cfg_init) items = Some tb ->
  cfg_get_strg_i (tb_options tb) (str "message") = None -> 0 <= z -> parse_cost items + z <= x ->
  forall path,
  exists s', (v ← run_cfg_parse file (cfg_text items trail);
              (if v <? 0 then say (str "Syntax error or read error in '%P'" ++ [10]) [KPath (Some path)]
               else mret tt);;
              on_ms (do_free b);; flags_or CONFIG_VALID;; apply_config k) s = (Ok tt, s')
    /\ configured tb z pr bi s'.
Proof.
  intros Hr Hc Hbz Hi Ht Happ Hmsg Hz Hx path.
  destruct (parsed_ready file b items trail tb x z pr bi s Hr Hbz Hi Ht Happ Hz Hx) as (m1 & c1 & E1 & Et & Hbi & R1).
  set (s1 := put_m m1 (mk_loader (l_fs s) c1 (l_cbuff s) (l_params s))).
  rewrite (bind_ok _ _ _ 0 s1) by (unfold run_cfg_parse; by rewrite Hc, E1).
  cbn [Z.ltb Z.compare]. rewrite (bind_ok _ _ _ tt s1) by done.
  set (s2 := put_m (set_heap (free b (m_heap m1)) m1) s1). rewrite (bind_ok _ _ _ tt s2) by done.
  unfold flags_or. rewrite (bind_ok _ _ _ _ _ (update_bi_ok _ _)).
  set (g := set_bi_flags (fun f => Z.lor f CONFIG_VALID)).
  set (s3 := put_m (set_bi (g (m_bi (get_m s2))) (get_m s2)) s2).
  assert (R3 : ready z pr (g (m_bi m1)) (l_fs s3)).
  { destruct R1 as (P1 & P2 & P3 & P4 & P5 & P6 & P7). unfold FileCorrect.ready. by split_and!. }
  assert (Eo : options (l_cfg s3) = tb_options tb) by (by rewrite <- Et).
  destruct (apply_config_runs k s3) as (s4 & E4 & C4 & D4 & G4 & A4 & K4); [by rewrite Eo|].
  exists s4. split; [exact E4|]. unfold configured. rewrite C4, D4, G4, A4, Eo.
  change (l_cfg s3) with c1. change (m_bi (get_m s3)) with (g (m_bi m1)).
  pose proof (but_images_flag _ _ TRIED_AUTO Hbi eq_refl) as HT. destruct Hbi as [Hbi _].
  split; [done|]. split; [by rewrite Hbi|]. split; [by apply has_flag_lor|]. split; [|split; [by rewrite Hbi|]].
  - rewrite <- HT. unfold has_flag. cbn [bi_flags g set_bi_flags]. by rewrite lor_bits.
  - intros Hn. rewrite Eo in K4. by apply (K4 Hn _ _ (g (m_bi m1))).
Qed.

Lemma load_config_runs k (s : loader F) cf n inode items trail tb x z pr bi :
  ready x pr bi (l_fs s) -> l_cfg s = cfg_init ->
  has_flag (prom_flags pr) PROM_NW_FULL_DISK = false -> (Z.to_nat count < f_map k)%nat ->
  default_dev bi = mk_env_dev (Some name) partno true -> config_file bi = Some cf ->
  file_at k vol cf n inode -> contents vol inode = cfg_text items trail ->
  Forall item_ok items -> gap trail -> apply_items (tables_of cfg_init) items = Some tb ->
  cfg_get_strg_i (tb_options tb) (str "message") = None ->
  0 <= z -> 2 * open_cost n + (i_size inode + 8) + parse_cost items + z <= x ->
  exists s', load_config k s = (Ok tt, s') /\ configured tb z pr bi s'.
Proof.
  intros Hr Hc Hnw Hk Hdev Hcf HF Htext Hi Ht Happ Hmsg Hz Hx.
  pose proof (i_size_nonneg I name dev img partno count start len HB _ _ _ _ HF) as Hsz.
  assert (Hoc : 0 <= open_cost n).
  { unfold open_cost, SIZEOF_DATA. destruct HF as (? & ? & ? & _ & -> & _). lia. }
  assert (Hpc : 0 <= parse_cost items).
  { unfold parse_cost, SIZEOF_IMAGES. pose proof (tokens_cost_nonneg (mjoin (map item_tokens items))). lia. }
  pose proof Hr as (_ & Hb & _). unfold load_config, get_bi. rewrite bind_gets.
  change (m_bi (get_m s)) with (m_bi (fs_m (l_fs s))). rewrite Hb, Hdev. rewrite decide_True by done.
  rewrite bind_gets. change (m_bi (get_m s)) with (m_bi (fs_m (l_fs s))). rewrite Hb, Hcf. cbn [attempts device part].
  destruct (find_config_first k cf [str "/boot/iquik.conf"; str "/boot/quik.conf"; str "/boot/iquik.conf"; str "/quik.conf"]
    n inode x pr bi s Hnw Hk HF ltac:(lia) Hr) as (s1 & E1 & R1 & Q1).
  rewrite (bind_ok _ _ _ _ _ E1).
  destruct (malloc_ready (x - open_cost n) (i_size inode) pr bi s1 R1 Hsz ltac:(lia)) as (b & s2 & E2 & Hbz & R2 & Q2).
  rewrite (bind_ok _ _ _ _ _ E2).
  destruct (file_load_ready I name dev img partno count start len HB k cf n inode HF pr bi Hnw Hk
    (x - open_cost n - (i_size inode + 8)) (l_fs s2) ltac:(lia) R2) as (pad & f3 & E3 & _ & R3).
  destruct (on_fs_ok I name dev img partno start len _ _ _ _ _ s2 f3 E3 R3) as (s3 & E3' & R3' & Q3).
  rewrite (bind_ok _ _ _ _ _ (attempt_ok _ _ _ _ E3')), bind_gets.
  assert (Hl : Z.of_nat (length (contents vol inode)) = i_size inode).
  { pose proof (bt_vol _ _ _ _ _ _ _ HB) as (_ & _ & Hg & _).
    destruct HF as (? & ? & ? & _ & _ & _ & _ & _ & _ & _ & _ & _ & Hok). by apply contents_length. }
  rewrite <- Hl, Nat2Z.id, take_app_length, Htext.
  destruct (same_rest_trans _ _ _ (same_rest_trans _ _ _ Q1 Q2) Q3) as (Ec & _).
  exact (config_parsed k _ b items trail tb _ z pr bi s3 R3' ltac:(by rewrite Ec) Hbz Hi Ht Happ Hmsg Hz ltac:(lia) _).
Qed.

(** C3: A configuration file on an ext2 volume of a partitioned disk, named in the boot
    state and written from a list of items, is found, read and parsed: the tables are
    those the items describe, the configuration counts as valid, and the default device
    is the one the options of the file name.  The file has no ["message"] option, whose
    file would be shown next; what that does is not stated. *)
Theorem config_loaded k (s : loader F) cf n inode items trail tb x pr bi :
  ready x pr bi (l_fs s) -> l_cfg s = cfg_init ->
  has_flag (prom_flags pr) PROM_NW_FULL_DISK = false -> (Z.to_nat count < f_map k)%nat ->
  default_dev bi = mk_env_dev (Some name) partno true -> config_file bi = Some cf ->
  file_at k vol cf n inode -> contents vol inode = cfg_text items trail ->
  Forall item_ok items -> gap trail -> apply_items (tables_of cfg_init) items = Some tb ->
  cfg_get_strg_i (tb_options tb) (str "message") = None ->
  2 * open_cost n + (i_size inode + 8) + parse_cost items <= x ->
  exists s', load_config k s = (Ok tt, s') /\ tables_of (l_cfg s') = tb
    /\ default_dev (m_bi (get_m s')) = configured_dev (tb_options tb) (default_dev bi)
    /\ has_flag (bi_flags (m_bi (get_m s'))) CONFIG_VALID = true.
Proof.
  intros Hr Hc Hnw Hk Hdev Hcf HF Htext Hi Ht Happ Hmsg Hx.
  destruct (load_config_runs k s cf n inode items trail tb x 0 pr bi Hr Hc Hnw Hk Hdev Hcf HF Htext Hi Ht Happ Hmsg
    ltac:(done) ltac:(lia)) as (s' & E & T & D & V & _).
  exists s'. by split_and!.
Qed.

End Config.

(** ** Witnesses *)

(** A configuration that moves the default device and has an image. *)
Definition conf_items : list item :=
  [ mk_item [] (str "device") (Some (str "scsi/sd@1"));
    mk_item [] (str "partition") (Some (str "4"));
    mk_item [10] (str "image") (Some (str "/boot/vmlinux"));
    mk_item (str "  ") (str "read-only") None ].

Lemma conf_items_ok : Forall item_ok conf_items.
Proof.
  unfold conf_items, item_ok, plain_word, plain_char, quotable.
  repeat (apply List.Forall_cons; [split; cbn [it_gap it_name it_value]; [|split]; try by_eval|]);
    [..|by constructor].
  all: try (split; [by_eval|by_eval]).
  all: repeat first [apply gap_nil | apply gap_blank; [by vm_compute; auto|]].
Qed.

Definition conf_tables : tables := default (tables_of cfg_init) (apply_items (tables_of cfg_init) conf_items).

(** The volume, and the loader started on it. *)
Definition conf_img : list Z := disk_with (str "quik.conf", cfg_text conf_items []) (str "other", []).
Definition conf_disks : list (cstr * list Z) := [(str "hd", conf_img)].
Definition conf_vol : list Z := slice conf_img 1536 17408.
Abbreviation conf_sb := (volume_sb conf_vol) (only parsing).
Definition conf_root : list dentry := root_of (str "quik.conf") (str "other").
Definition conf_bi : boot_info_t :=
  mk_boot_info 0 0 0 (Some (str "/quik.conf")) [] [] (mk_env_dev (Some (str "hd")) 0 true) None None 0 0.
Definition conf_loader : loader sim :=
  mk_loader (mk_fs (mk_mach (sim_start conf_disks) prom_init_st conf_bi (heap_claimed MALLOC_BASE heap_init) 0 [])
    part_zero ext2_init) cfg_init (replicate 512 0) None.

Lemma conf_device : DiskDevice (sim_has conf_disks) (str "hd") DISK0 conf_img.
Proof. by apply (sim_device conf_disks 0); [done|by vm_compute|by vm_compute|by_eval]. Qed.

Lemma conf_bootable : bootable (str "hd") DISK0 conf_img 0 2 1536 17408.
Proof. disk_bootable. Qed.

Lemma conf_ready :
  ready (sim_has conf_disks) (str "hd") DISK0 conf_img 0 1536 17408 4000 prom_init_st conf_bi (l_fs conf_loader).
Proof.
  unfold ready. repeat match goal with |- _ /\ _ => split end; try done; [by left|].
  exists MALLOC_BASE. split; [by_eval|by vm_compute].
Qed.

Lemma conf_file : file_at boot_fuel conf_vol (str "/quik.conf") 1 (inode_at conf_vol conf_sb 128 12).
Proof.
  apply (root_file conf_vol conf_root (str "quik.conf") (mk_dentry 12 1 (str "quik.conf") [0; 0; 0]));
    [by vm_compute|by apply dir_hasb_ok; vm_compute|simpl; lia|by vm_compute|by_eval|by vm_compute|by_eval
    |by_eval|by vm_compute].
Qed.

Lemma conf_contents : contents conf_vol (inode_at conf_vol conf_sb 128 12) = cfg_text conf_items [].
Proof. by vm_compute. Qed.

Lemma config_loaded_witness :
  exists s', load_config boot_fuel conf_loader = (Ok tt, s') /\ tables_of (l_cfg s') = conf_tables
    /\ default_dev (m_bi (get_m s')) = configured_dev (tb_options conf_tables) (mk_env_dev (Some (str "hd")) 0 true)
    /\ has_flag (bi_flags (m_bi (get_m s'))) CONFIG_VALID = true.
Proof.
  refine (config_loaded (sim_has conf_disks) (str "hd") DISK0 conf_img (HD := conf_device) 0 2 1536 17408
    conf_bootable boot_fuel conf_loader (str "/quik.conf") 1 (inode_at conf_vol conf_sb 128 12) conf_items []
    conf_tables 4000 prom_init_st conf_bi conf_ready _ _ _ _ _ conf_file conf_contents conf_items_ok _ _ _ _).
  - done.
  - by vm_compute.
  - simpl. lia.
  - done.
  - done.
  - constructor.
  - by vm_compute.
  - by vm_compute.
  - by vm_compute.
Defined.

(** The device the kernels of this configuration are loaded from. *)
Example conf_device_is :
  configured_dev (tb_options conf_tables) (mk_env_dev (Some (str "hd")) 0 true)
    = mk_env_dev (Some (str "scsi/sd@1")) 4 true.
Proof. by vm_compute. Qed.
