(* ===== verification/AutoBoot.v ===== *)
(** * Booting the default image (main.c with the parts below it)

    With a configuration read and nobody at the keyboard, the loader boots the default
    image: the choice is made from the tables, the paths and the kernel's parameters
    follow from the image's options, and the kernel is loaded from the disk. *)
From Stdlib Require Import ZArith Lia Ascii.
From stdpp Require Import prelude strings gmap.
From S2P Require Import Prelude Quik CString Util Malloc Printf Machine Prom Part Sim PartCorrect PromCorrect.
From S2P Require Import Ext2 Ext2Block Ext2File Ext2Tree Ext2Mount Ext2Demo Ext2Correct Env File FileCorrect.
From S2P Require Import Cfg CfgTables CfgText CfgCorrect Elf ElfCorrect Commands Main BootCorrect LoadCorrect LoadConfig.

#[local] Arguments u32 : simpl never.
#[local] Arguments slice : simpl never.
#[local] Arguments Z.mul : simpl never.

(** ** Specification *)

(** What the tables say of [item] for the image [label]; [None] also where the lookup
    would fail. *)
Definition option_of (c : cfg_st) (label item : cstr) : option cstr :=
  match cfg_get_strg c (Some label) item with Ok v => v | _ => None end.
Definition flag_of (c : cfg_st) (label item : cstr) : bool :=
  if option_of c label item is Some _ then true else false.

(** The kernel's parameters for an image booted without any being typed. *)
Definition image_params (c : cfg_st) (label : cstr) : cstr :=
  match option_of c label (str "literal") with
  | Some p => p
  | None =>
      join_params (option_of c label (str "root")) (flag_of c label (str "read-only"))
        (flag_of c label (str "read-write")) (option_of c label (str "ramdisk"))
        (option_of c label (str "append")) []
  end.

(** What choosing the image leaves in the boot state: whether the kernel is an old one,
    and, unless the parameters are literal, whether to pause and with what message. *)
Definition image_pause (c : cfg_st) (label : cstr) (b : boot_info_t) : boot_info_t :=
  let b := if flag_of c label (str "pause-after") then set_bi_flags (fun f => Z.lor f PAUSE_BEFORE_BOOT) b else b in
  match option_of c label (str "pause-message") with Some p => set_pause_message p b | None => b end.

Definition image_state (c : cfg_st) (label : cstr) (b : boot_info_t) : boot_info_t :=
  let b := set_bi_flags (fun f => match option_of c label (str "old-kernel") with
                                  | Some _ => Z.lor f BOOT_PRE_2_4
                                  | None => Z.land f (Z.lnot BOOT_PRE_2_4)
                                  end) b in
  match option_of c label (str "literal") with Some _ => b | None => image_pause c label b end.

(** The first choice is made once. *)
Definition tried_auto (b : boot_info_t) : boot_info_t := set_bi_flags (fun f => Z.lxor f TRIED_AUTO) b.

(** The tables name a default image [label], whose file is [path] and which has no
    initrd, and give the user no time to choose another. *)
Record default_image (c : cfg_st) (label path : cstr) : Prop := {
  di_default : cfg_get_default c = Ok (Some label);
  di_timeout : exists q, cfg_get_strg_i (options c) (str "timeout") = Some q /\ q <> [] /\ fst (strtol q 0) = 0;
  di_image : cfg_get_strg c (Some label) (str "image") = Ok (Some path);
  di_initrd : cfg_get_strg c (Some label) (str "initrd") = Ok None;
  di_no_initrd : cfg_get_strg_i (options c) (str "initrd") = None;
  di_path : fs_path_ok path /\ (chr ":" ∉ path) /\ cstr_ok path
}.

(** ** Queries *)

(** An image that answers one query answers all. *)
Lemma images_get_total opts ims image i1 i2 v :
  images_get opts ims image i1 = Ok v -> exists v', images_get opts ims image i2 = Ok v'.
Proof.
  induction ims as [|t ims IH]; [by eexists|]. cbn [images_get].
  destruct (image_label t); [|done]. destruct (image_matches t _ image); [by eexists|exact IH].
Qed.

Section Auto.
Context {F : Type} {FW : Firmware F}.
Context (I : F -> Prop) {HM : MemoryFirmware I} (Hms : keeps_service I (str "milliseconds")).
Context (name : cstr) (dev : Z) (img : list Z) {HD : DiskDevice I name dev img}.
Context (partno count start len : Z) (HB : bootable name dev img partno count start len).

Local Abbreviation vol := (slice img start len).
Local Abbreviation ready := (ready I name dev img partno start len).
Abbreviation L := (M quik_err_t (loader F)).

Context (c : cfg_st) (label path : cstr) (HC : default_image c label path).

Lemma ask_label item (s : loader F) :
  l_cfg s = c -> ask_strg (Some label) item s = (Ok (option_of c label item), s).
Proof.
  intros Hc. destruct HC as [_ _ Him _ _ _]. unfold cfg_get_strg in Him.
  destruct (images_get_total _ _ _ _ item _ Him) as (v & E).
  unfold ask_strg, cfg_ask, option_of. rewrite Hc. unfold cfg_get_strg. by rewrite E.
Qed.

Lemma ask_label_flag item (s : loader F) :
  l_cfg s = c -> ask_flag (Some label) item s = (Ok (flag_of c label item), s).
Proof.
  intros Hc. destruct HC as [_ _ Him _ _ _]. unfold cfg_get_strg in Him.
  destruct (images_get_total _ _ _ _ item _ Him) as (v & E).
  unfold ask_flag, cfg_ask, cfg_get_flag, flag_of, option_of. rewrite Hc. unfold cfg_get_strg. by rewrite E.
Qed.

(** The loader between two steps: the tables in place, files can be opened. *)
Definition poised (x : Z) (pr : prom_st) (bi : boot_info_t) (s : loader F) : Prop :=
  l_cfg s = c /\ ready x pr bi (l_fs s).

(** From every poised state [f] returns [a], changing the boot state as [g] says and
    leaving [y] bytes less of heap. *)
Definition goes {A} (y : Z) (f : L A) (a : A) (g : boot_info_t -> boot_info_t) : Prop :=
  forall x pr bi s, y <= x -> poised x pr bi s -> exists s', f s = (Ok a, s') /\ poised (x - y) pr (g bi) s'.

Lemma goes_ret {A} (a : A) : goes 0 (mret a) a id.
Proof. intros x pr bi s _ Hs. exists s. by rewrite Z.sub_0_r. Qed.

Lemma goes_bind {A B} y z (f : L A) (k : A -> L B) a b g1 g2 :
  0 <= y -> 0 <= z -> goes y f a g1 -> goes z (k a) b g2 -> goes (y + z) (f ≫= k) b (fun bi => g2 (g1 bi)).
Proof.
  intros Hy Hz Hf Hg x pr bi s Hx Hs. destruct (Hf x pr bi s ltac:(lia) Hs) as (s1 & E1 & H1).
  destruct (Hg (x - y) pr (g1 bi) s1 ltac:(lia) H1) as (s2 & E2 & H2). exists s2.
  rewrite (bind_ok _ _ _ _ _ E1). split; [exact E2|]. by replace (x - (y + z)) with (x - y - z) by lia.
Qed.

(** A step that costs nothing, in front of others. *)
Lemma goes_then {A B} z (f : L A) (k : A -> L B) a b g :
  0 <= z -> goes 0 f a id -> goes z (k a) b g -> goes z (f ≫= k) b g.
Proof. intros Hz Hf Hg. rewrite <- (Z.add_0_l z). by apply (goes_bind 0 z f k a b id g). Qed.

Lemma goes_same {A} (f : L A) a : (forall s, l_cfg s = c -> f s = (Ok a, s)) -> goes 0 f a id.
Proof. intros Hf x pr bi s _ Hs. exists s. rewrite Z.sub_0_r. split; [apply Hf, Hs|done]. Qed.

Lemma poised_I x pr bi s : poised x pr bi s -> I (m_fw (get_m s)).
Proof. intros [_ Hr]. by apply (ready_I I name dev img partno start len x pr bi). Qed.

Lemma poised_bi x pr bi s : poised x pr bi s -> m_bi (get_m s) = bi.
Proof. by intros [_ (_ & ? & _)]. Qed.

Lemma goes_steady {A} (g : P F A) a :
  (forall m, I (m_fw m) -> exists m', g m = (Ok a, m') /\ steady I m m') -> goes 0 (on_ms g) a id.
Proof.
  intros Hg x pr bi s _ Hs. destruct (Hg (get_m s) (poised_I _ _ _ _ Hs)) as (m' & E & S). destruct Hs as [H1 H2].
  exists (put_m m' s). rewrite Z.sub_0_r. split; [unfold on_ms, on_m, zoom; by rewrite E|]. split; [done|].
  exact (proj1 (ready_put I name dev img partno start len x pr bi s m' H2 S)).
Qed.

Lemma goes_say fmt args out : vprintk fmt args = Ok out -> goes 0 (say fmt args) tt id.
Proof.
  intros E. apply goes_steady. intros m HI.
  destruct (quiet_printk I fmt args out (disk_write (I := I) (dev := dev) (img := img)) E m HI)
    as ([] & m' & Em & HI' & HS). exists m'. by split.
Qed.

Lemma goes_bi f : goes 0 (update_bi f) tt f.
Proof.
  intros x pr bi s _ [H1 H2]. eexists. split; [apply update_bi_ok|]. rewrite Z.sub_0_r. split; [done|].
  destruct H2 as (R1 & R2 & R3 & R4 & R5 & R6 & R7). unfold FileCorrect.ready. split_and!; try done.
  cbn. by rewrite <- R2.
Qed.

Lemma goes_malloc n : 0 <= n -> forall x pr bi s, n + 8 <= x -> poised x pr bi s ->
  exists b s', on_ms (do_malloc n) s = (Ok (Some b), s') /\ poised (x - (n + 8)) pr bi s'.
Proof.
  intros Hn x pr bi s Hx [H1 H2].
  destruct (malloc_ready I name dev img partno count start len HB x n pr bi s H2 Hn Hx) as (b & s' & E & _ & R & Q1 & _).
  exists b, s'. split; [exact E|]. split; [by rewrite Q1|done].
Qed.

Lemma poised_weaken x y pr bi s : poised x pr bi s -> y <= x -> poised y pr bi s.
Proof. intros [H1 H2] Hy. split; [done|]. by eapply ready_weaken. Qed.

(** ** The choice *)

Lemma goes_wait polls : goes 0 (on_ms (wait_for_key polls 0 10)) 10 id.
Proof.
  apply goes_steady. intros m HI. unfold wait_for_key, get_ms, call_prom. rewrite !bind_assoc.
  destruct (call_steady I (str "milliseconds") [] 1 m Hms HI) as (r & f & E & _ & S).
  exists (set_fw f m). by rewrite (bind_ok _ _ _ _ _ E).
Qed.

(** The boot state of a loader about to choose by itself: the default device known, a
    valid configuration, no choice made yet, no arguments. *)
Record unattended (bi : boot_info_t) : Prop := {
  un_dev : default_dev bi = mk_env_dev (Some name) partno true;
  un_valid : has_flag (bi_flags bi) CONFIG_VALID = true;
  un_first : has_flag (bi_flags bi) TRIED_AUTO = false;
  un_args : word_split (bootargs bi) = (None, [])
}.

Lemma lxor_flag f b v : Z.land b v = 0 -> has_flag (Z.lxor f b) v = has_flag f v.
Proof.
  intros E. unfold has_flag.
  assert (Z.land (Z.lxor f b) v = Z.land f v) as ->; [|done].
  apply Z.bits_inj'. intros n Hn. rewrite !Z.land_spec, Z.lxor_spec.
  assert (Eb : Z.testbit b n && Z.testbit v n = false) by (rewrite <- Z.land_spec, E; apply Z.bits_0).
  by destruct (Z.testbit f n), (Z.testbit b n), (Z.testbit v n).
Qed.

Lemma tried_valid bi : unattended bi -> has_flag (bi_flags (tried_auto bi)) CONFIG_VALID = true.
Proof. intros [_ Hv _ _]. cbn [bi_flags tried_auto set_bi_flags]. by rewrite lxor_flag. Qed.

Lemma auto_choice_default x pr bi s :
  0 <= x -> poised x pr bi s -> unattended bi ->
  exists s', auto_choice s = (Ok (Some label, [], 0), s') /\ poised x pr (tried_auto bi) s'.
Proof.
  intros Hx Hs Hu. pose proof (tried_valid bi Hu) as V1. destruct Hu as [_ _ Ht Hb].
  destruct HC as [Hd (q & Hq & Hne & Hz) _ _ _ _].
  unfold auto_choice, get_bi. rewrite bind_gets, (poised_bi _ _ _ _ Hs), Ht. unfold flags_xor.
  destruct (goes_bi tried_auto x pr bi s Hx Hs) as (s1 & E1 & H1). rewrite Z.sub_0_r in H1.
  unfold tried_auto in E1 at 1. rewrite (bind_ok _ _ _ _ _ E1), bind_gets, (poised_bi _ _ _ _ H1).
  change (bootargs (tried_auto bi)) with (bootargs bi). rewrite Hb.
  pose proof H1 as [C1 _].
  rewrite (bind_ok _ _ _ (Some label) s1) by (unfold cfg_ask; by rewrite C1, Hd).
  rewrite bind_gets, (poised_bi _ _ _ _ H1), V1. cbv iota.
  rewrite bind_assoc, (bind_ok _ _ _ _ _ (ask_none _ _)), C1, Hq.
  destruct q as [|c0 q]; [done|]. rewrite bind_ret. exists s1. by rewrite Hz.
Qed.

Lemma ask_kernel_default k x pr bi s :
  0 <= x -> poised x pr bi s -> unattended bi ->
  exists s', ask_kernel k s = (Ok (Some label, []), s') /\ poised x pr (tried_auto bi) s'.
Proof.
  intros Hx Hs Hu. destruct (auto_choice_default x pr bi s Hx Hs Hu) as (s1 & E1 & H1).
  unfold ask_kernel. rewrite (bind_ok _ _ _ _ _ E1). cbn [negb Z.eqb].
  assert (G : goes 0 (say PROMPT [];; lastkey ← on_ms (wait_for_key (r_polls k) 0 10);
    if lastkey =? 10 then say (str "%s") [KStr (Some label)];; say (str " %s") [KStr (Some [])];; say [10] [];;
      mret (Some label, []) else
    buf ← cmd_edit (r_keys k) (r_polls k) (commands (r_files k)) (Some (maintabfunc (r_files k))) lastkey;
    match buf with None => throw ERR_NOT_READY | Some line => mret (word_split (Some line)) end) (Some label, []) id).
  { eapply goes_then; [done|by eapply goes_say|]. eapply goes_then; [done|apply goes_wait|].
    cbn [Z.eqb Pos.eqb]. repeat (eapply goes_then; [done|by eapply goes_say|]). apply goes_ret. }
  destruct (G x pr _ s1 Hx H1) as (s2 & E2 & H2). rewrite Z.sub_0_r in H2. by exists s2.
Qed.

(** ** The image's options *)

Lemma goes_ask item : goes 0 (ask_strg (Some label) item) (option_of c label item) id.
Proof. apply goes_same. intros s. apply ask_label. Qed.
Lemma goes_ask_flag item : goes 0 (ask_flag (Some label) item) (flag_of c label item) id.
Proof. apply goes_same. intros s. apply ask_label_flag. Qed.

(** One query in front of the goal. *)
Ltac ask := eapply goes_then; [done|first [apply goes_ask | apply goes_ask_flag]|].

(** The heap [make_params] takes the first time. *)
Definition params_cost : Z := PARAMS_SIZE + 8.

Lemma join_goes :
  goes 0 (literal ← ask_strg (Some label) (str "literal");
      match literal with
      | Some p => mret (Some (literal_params p []))
      | None =>
          root ← ask_strg (Some label) (str "root");
          ro ← ask_flag (Some label) (str "read-only");
          rw ← ask_flag (Some label) (str "read-write");
          ramdisk ← ask_strg (Some label) (str "ramdisk");
          append ← ask_strg (Some label) (str "append");
          pause ← ask_flag (Some label) (str "pause-after");
          (if pause : bool then flags_or PAUSE_BEFORE_BOOT else mret tt);;
          message ← ask_strg (Some label) (str "pause-message");
          match message with
          | Some p => update_bi (set_pause_message p)
          | None => mret tt
          end;;
          mret (Some (join_params root ro rw ramdisk append []))
      end) (Some (image_params c label))
    (fun b => match option_of c label (str "literal") with Some _ => b | None => image_pause c label b end).
Proof.
  unfold image_params. ask. destruct (option_of c label (str "literal")) as [p|]; [apply goes_ret|].
  do 6 ask. unfold image_pause.
  set (g1 := fun b => if flag_of c label (str "pause-after") then set_bi_flags (fun f => Z.lor f PAUSE_BEFORE_BOOT) b else b).
  set (g2 := fun b => match option_of c label (str "pause-message") with Some p => set_pause_message p b | None => b end).
  apply (goes_bind 0 0 _ _ tt (Some (join_params (option_of c label (str "root")) (flag_of c label (str "read-only"))
    (flag_of c label (str "read-write")) (option_of c label (str "ramdisk")) (option_of c label (str "append")) []))
    g1 g2); [done|done| |].
  { unfold g1. destruct (flag_of _ _ _); [apply goes_bi|apply goes_ret]. }
  ask. apply (goes_bind 0 0 _ _ tt _ g2 id); [done|done| |apply goes_ret].
  unfold g2. destruct (option_of c label (str "pause-message")); [apply goes_bi|apply goes_ret].
Qed.

Lemma make_params_goes :
  goes params_cost (make_params (Some label) []) (Some (image_params c label))
    (fun b => match option_of c label (str "literal") with Some _ => b | None => image_pause c label b end).
Proof.
  intros x pr bi s Hx Hs. unfold params_cost in *. unfold make_params. rewrite bind_gets.
  assert (Hp : 0 <= PARAMS_SIZE) by done.
  destruct (l_params s) as [b|].
  - rewrite bind_ret. destruct (join_goes x pr bi s ltac:(lia) Hs) as (s1 & E1 & H1). exists s1.
    split; [exact E1|]. eapply poised_weaken; [exact H1|lia].
  - destruct (goes_malloc PARAMS_SIZE Hp x pr bi s Hx Hs) as (b & s1 & E1 & H1).
    rewrite bind_assoc, (bind_ok _ _ _ _ _ E1).
    set (s2 := mk_loader (l_fs s1) (l_cfg s1) (l_cbuff s1) (Some b)).
    rewrite (bind_ok _ _ _ (Some b) s2) by done.
    assert (H2 : poised (x - (PARAMS_SIZE + 8)) pr bi s2) by exact H1.
    destruct (join_goes (x - (PARAMS_SIZE + 8)) pr bi s2 ltac:(lia) H2) as (s3 & E3 & H3). rewrite Z.sub_0_r in H3.
    exists s3. by split.
Qed.

Lemma image_choice_goes d :
  exists d', goes params_cost (image_choice (Some label) path (cfg_get_strg_i (options c) (str "initrd")) [] d)
    (mk_choice path None (image_params c label) d') (image_state c label).
Proof.
  destruct HC as [_ _ _ Hi Hn _]. rewrite Hn. assert (Hp : 0 <= params_cost) by done. eexists. unfold image_choice.
  ask. ask. ask.
  assert (option_of c label (str "initrd") = None) as -> by (unfold option_of; by rewrite Hi).
  ask. rewrite <- (Z.add_0_l params_cost).
  apply (goes_bind 0 params_cost _ _ tt _
    (set_bi_flags (fun f => match option_of c label (str "old-kernel") with
                            | Some _ => Z.lor f BOOT_PRE_2_4 | None => Z.land f (Z.lnot BOOT_PRE_2_4) end))
    (fun b => match option_of c label (str "literal") with Some _ => b | None => image_pause c label b end));
    [done|done|apply goes_bi|].
  rewrite <- (Z.add_0_r params_cost).
  apply (goes_bind params_cost 0 _ _ (Some (image_params c label)) _ _ id); [done|done|apply make_params_goes|apply goes_ret].
Qed.

Lemma goes_get_params k d x pr bi s :
  params_cost <= x -> poised x pr bi s -> unattended bi ->
  exists d' s', get_params k d s = (Ok (mk_choice path None (image_params c label) d'), s')
    /\ poised (x - params_cost) pr (image_state c label (tried_auto bi)) s'.
Proof.
  intros Hx Hs Hu. assert (Hc : params_cost = 2056) by done.
  destruct (ask_kernel_default k x pr bi s ltac:(lia) Hs Hu) as (s1 & E1 & H1).
  destruct (image_choice_goes d) as (d' & G).
  destruct (G x pr _ s1 Hx H1) as (s2 & E2 & H2). exists d', s2. split; [|done].
  unfold get_params. rewrite (bind_ok _ _ _ _ _ E1). unfold get_bi. rewrite bind_gets, (poised_bi _ _ _ _ H1).
  pose proof H1 as [C1 _]. rewrite (tried_valid bi Hu), (bind_ok _ _ _ _ _ (ask_none _ _)), C1.
  assert (option_of c label (str "image") = Some path) as Eo
    by (destruct HC as [_ _ Hi _ _ _]; unfold option_of; by rewrite Hi).
  rewrite (bind_ok _ _ _ _ _ (ask_label (str "image") s1 C1)), Eo.
  destruct HC as [_ _ _ _ _ (Hp & _)]. destruct (fs_path_cons path Hp) as (t & Ep).
  rewrite Ep in E2 |- *. exact E2.
Qed.

(** ** The kernel's path *)

Definition path_cost : Z := strlen path + 1 + SIZEOF_PATH + 8.

Lemma default_path : parse_spec path (mk_env_dev (Some name) partno true) = SpecPath (mk_path (Some name) partno path).
Proof.
  destruct HC as [_ _ _ _ _ (Hp & Hcol & _)]. unfold parse_spec.
  destruct (fs_path_cons path Hp) as (t & ->). rewrite chomp_id by done.
  rewrite (proj2 (strchr_none _ (chr ":") ltac:(done)) Hcol). rewrite decide_True by done. done.
Qed.

Lemma image_state_dev b : default_dev (image_state c label b) = default_dev b.
Proof.
  unfold image_state, image_pause.
  by destruct (option_of c label (str "literal")), (flag_of c label (str "pause-after")),
    (option_of c label (str "pause-message")).
Qed.

Lemma default_paths k x pr bi s :
  params_cost + path_cost <= x -> poised x pr bi s -> unattended bi ->
  exists ka s', get_load_paths k s = (Ok ((ka, mk_path (Some name) partno path), None, image_params c label), s')
    /\ poised (x - params_cost - path_cost) pr (image_state c label (tried_auto bi)) s'.
Proof.
  intros Hx Hs Hu. assert (Hpc : params_cost = 2056) by done.
  assert (Hc : 0 <= strlen path + 1 + SIZEOF_PATH) by (unfold strlen, SIZEOF_PATH; lia). unfold path_cost in *.
  destruct (goes_get_params k (mk_env_dev None 0 false) x pr bi s ltac:(lia) Hs Hu) as (d' & s1 & E1 & H1).
  unfold get_load_paths. rewrite (bind_ok _ _ _ _ _ E1). unfold get_bi. rewrite bind_gets, (poised_bi _ _ _ _ H1).
  rewrite image_state_dev. change (default_dev (tried_auto bi)) with (default_dev bi). rewrite (un_dev _ Hu).
  change (snd (env_dev_update_from_default (mk_env_dev (Some name) partno true) (ch_dev (mk_choice path None (image_params c label) d'))))
    with (mk_env_dev (Some name) partno true). cbn [ch_kernel ch_initrd ch_params].
  set (n := u32 (strlen path + 1 + SIZEOF_PATH)).
  assert (Hn : 0 <= n <= strlen path + 1 + SIZEOF_PATH).
  { unfold n, u32. pose proof (Z.mod_pos_bound (strlen path + 1 + SIZEOF_PATH) 4294967296 ltac:(lia)).
    pose proof (Z.mod_le (strlen path + 1 + SIZEOF_PATH) 4294967296 Hc ltac:(lia)). lia. }
  destruct (goes_malloc n (proj1 Hn) (x - params_cost) pr _ s1 ltac:(lia) H1) as (b & s2 & E2 & H2).
  assert (E3 : on_ms (file_path path (mk_env_dev (Some name) partno true)) s1
    = (Ok (b, mk_path (Some name) partno path), s2)).
  { unfold on_ms, on_m, zoom in E2 |- *. unfold file_path. fold n. rewrite default_path.
    destruct (do_malloc n (get_m s1)) as [[[a|]|e|u] m'] eqn:Em; try discriminate E2.
    rewrite (bind_ok _ _ _ _ _ Em). injection E2 as -> <-. done. }
  rewrite (bind_ok _ _ _ _ _ (attempt_ok _ _ _ _ E3)).
  exists b, s2. split; [done|]. eapply poised_weaken; [exact H2|lia].
Qed.

(** The boot state once the image is loaded. *)
Definition auto_booted (bi : boot_info_t) : boot_info_t := set_initrd 0 0 (image_state c label (tried_auto bi)).

(** The loading of a kernel up to the claim of memory for it. *)
Definition kernel_sized (k : rounds_t) : L Z :=
  '(kernel, _, _) ← get_load_paths k; sized (r_files k) (snd kernel).

(** With a configuration that names a default image and leaves no time to choose another,
    and no arguments to boot with, the loader loads that image without a key being read,
    with the parameters its options describe and no initrd - where the firmware grants
    memory for it; it fails when the firmware refuses every candidate address. *)
Lemma default_loaded k s kn kinode ph tlen off tbase x pr bi :
  poised x pr bi s -> unattended bi ->
  has_flag (prom_flags pr) PROM_NW_FULL_DISK = false ->
  (Z.to_nat count < f_map (r_files k))%nat -> file_at (r_files k) vol path kn kinode ->
  params_cost + path_cost + 2 * open_cost kn <= x ->
  let kernel := contents vol kinode in
  0 <= e_phoff kernel -> elf_image kernel ph -> segs_ok (List.filter loadable ph) ->
  text_span (List.filter loadable ph) = Some (tlen, off, tbase) ->
  i_size kinode <= 0xE0000000 -> tlen + off <= 0xE0000000 ->
  exists s1 kbuf r s', kernel_sized k s = (Ok (i_size kinode), s1)
    /\ chunk_answer LOAD_BASE (i_size kinode) (get_m s1) kbuf
    /\ try_load_loop k s = (r, s')
    /\ if decide (kbuf = NOT_FOUND) then r = Err ERR_NO_MEM
       else chunk_at LOAD_BASE kbuf
            /\ r = Ok (loaded_state kbuf kernel (tlen, off, tbase), image_params c label)
            /\ m_bi (get_m s') = auto_booted bi /\ l_cfg s' = c.
Proof.
  intros Hs Hu Hnw Hk HF Hx kernel Hoff He Hseg Hsp Hsz Hspan.
  assert (Hoc : 0 <= open_cost kn).
  { unfold open_cost, SIZEOF_DATA. destruct HF as (? & ? & ? & _ & -> & _). lia. }
  destruct (default_paths k x pr bi s ltac:(lia) Hs Hu) as (ka & s1 & E1 & C1 & R1).
  destruct (kernel_loaded_any I name dev img partno count start len HB k s s1 ka path kn kinode None
    (image_params c label) ph tlen off tbase (x - params_cost - path_cost) pr _ E1 R1 Hnw Hk HF
    Logic.I ltac:(cbn [initrd_cost]; lia) Hoff He Hseg Hsp Hsz Hspan) as (r & s' & E & s2 & kbuf & E2 & Ha & Hc).
  exists s2, kbuf, r, s'. split; [unfold kernel_sized; by rewrite (bind_ok _ _ _ _ _ E1)|].
  split; [exact Ha|]. split; [exact E|].
  destruct (decide (kbuf = NOT_FOUND)); [exact Hc|].
  destruct Hc as (Hat & s3 & _ & (Q1 & _) & -> & B & (Q2 & _)).
  split; [exact Hat|]. split; [done|]. split; [exact B|]. by rewrite Q2, Q1.
Qed.

(** An image without the ["old-kernel"] option is not booted as an old one. *)
Lemma auto_booted_new bi :
  option_of c label (str "old-kernel") = None -> has_flag (bi_flags (auto_booted bi)) BOOT_PRE_2_4 = false.
Proof.
  intros Hold. unfold auto_booted, image_state. rewrite Hold.
  set (b := set_bi_flags _ (tried_auto bi)).
  assert (Hb : has_flag (bi_flags b) BOOT_PRE_2_4 = false).
  { unfold has_flag. cbn [b bi_flags set_bi_flags]. rewrite <- Z.land_assoc. by rewrite Z.land_0_r. }
  destruct (option_of c label (str "literal")); [exact Hb|]. unfold image_pause.
  assert (Hb' : has_flag (bi_flags (if flag_of c label (str "pause-after")
    then set_bi_flags (fun f => Z.lor f PAUSE_BEFORE_BOOT) b else b)) BOOT_PRE_2_4 = false).
  { destruct (flag_of _ _ _); [|exact Hb]. unfold has_flag. cbn [bi_flags set_bi_flags]. by rewrite lor_bits. }
  destruct (option_of c label (str "pause-message")); exact Hb'.
Qed.
End Auto.
