(* ===== verification/BootDisk.v ===== *)
(** * From the start of the loader to the kernel's first instruction (main.c over all its parts)

    [boot_steps] whole: the heap is claimed, the environment says where the
    configuration file is, the file is read from the disk and parsed, its default image
    is loaded, relocated and called.  The composition of the theorems on the parts, on
    the promises of the firmware alone. *)
From Stdlib Require Import ZArith Lia Ascii.
From stdpp Require Import prelude strings gmap.
From S2P Require Import Prelude Quik CString Util Malloc Printf Machine Prom Part Sim PartCorrect PromCorrect.
From S2P Require Import Ext2 Ext2Block Ext2File Ext2Tree Ext2Mount Ext2Demo Ext2Correct Env File EnvCorrect FileCorrect.
From S2P Require Import Cfg CfgTables CfgText CfgCorrect Elf ElfCorrect Commands Main BootCorrect LoadCorrect LoadConfig.
From S2P Require Import AutoBoot.

#[local] Arguments u32 : simpl never.
#[local] Arguments slice : simpl never.
#[local] Arguments Z.mul : simpl never.

(** ** Specification *)

(** Tables on their own; queries read nothing else. *)
Definition cfg_of (tb : tables) : cfg_st := set_tables (tb_options tb) (tb_images tb) (tb_cur tb) cfg_init.

(** Where a kernel of 2.4 and later runs: in the buffer it was read into. *)
Definition runs_at (kbuf : Z) (kernel : list Z) (tlen off tbase : Z) : load_state_t :=
  mk_load_state kbuf (kbuf + off) off tlen (kbuf + off + (Z.land (e_entry kernel) ADDRMASK - tbase)).

(** ** Lemmas: queries *)

Lemma strg_of_tables c c' : tables_of c = tables_of c' -> cfg_get_strg c = cfg_get_strg c'.
Proof. intros [= E1 E2 _]. unfold cfg_get_strg. by rewrite E1, E2. Qed.

Lemma default_of_tables c c' label path :
  tables_of c = tables_of c' -> default_image c label path -> default_image c' label path.
Proof.
  intros E [H1 H2 H3 H4 H5 H6]. pose proof (strg_of_tables _ _ E) as Es. injection E as E1 E2 _.
  split; try done; [unfold cfg_get_default in *; by rewrite <- E1, <- E2|by rewrite <- E1| | |by rewrite <- E1];
    by rewrite <- Es.
Qed.

Lemma option_of_tables c c' : tables_of c = tables_of c' -> option_of c = option_of c'.
Proof. intros E. unfold option_of. by rewrite (strg_of_tables _ _ E). Qed.

Lemma params_of_tables c c' label : tables_of c = tables_of c' -> image_params c label = image_params c' label.
Proof. intros E. unfold image_params, flag_of. by rewrite (option_of_tables _ _ E). Qed.

(** ** Lemmas: the machine before the configuration *)

Lemma heap_room_claimed x :
  0 <= x < MALLOC_SIZE -> heap_room x (heap_claimed MALLOC_BASE (mk_heap MALLOC_BASE 0 0 ∅)).
Proof. intros Hx. exists MALLOC_BASE. unfold MALLOC_SIZE in *. split; [by_eval|]. change (0x500000 + x < 0x800000). lia. Qed.

Section Boot.
Context {F : Type} {FW : Firmware F}.
Context (I : F -> Prop) {HM : MemoryFirmware I} (Hms : keeps_service I (str "milliseconds")).
Context (name : cstr) (dev : Z) (img : list Z) {HD : DiskDevice I name dev img}.
Context (partno count start len : Z) (HB : bootable name dev img partno count start len).
Context (chosen opts : Z) (args file : option cstr) {HS : BootStrings I chosen opts args file}.

Local Abbreviation vol := (slice img start len).
Local Abbreviation ready := (ready I name dev img partno start len).
Local Abbreviation L := (M quik_err_t (loader F)).

(** The loader before [boot_steps]: nothing read, nothing open, the firmware's nodes
    found, no preboot script run. *)
Record fresh (s : loader F) : Prop := {
  fr_part : fs_part (l_fs s) = part_zero;
  fr_ext2 : fs_ext2 (l_fs s) = ext2_init;
  fr_cfg : l_cfg s = cfg_init;
  fr_heap : m_heap (get_m s) = heap_init;
  fr_fw : I (m_fw (get_m s));
  fr_chosen : prom_chosen (m_prom (get_m s)) = chosen;
  fr_options : prom_options (m_prom (get_m s)) = opts;
  fr_found : opts <> NOT_FOUND;
  fr_disk : has_flag (prom_flags (m_prom (get_m s))) PROM_NW_FULL_DISK = false;
  fr_preboot : has_flag (bi_flags (m_bi (get_m s))) WITH_PREBOOT = false;
  fr_first : has_flag (bi_flags (m_bi (get_m s))) TRIED_AUTO = false
}.

(** The heap of the steps before the configuration file is read. *)
Definition start_cost : Z := CMD_LENG + 8 + 2 * (ENV_SZ + 8) + 2 * (block_size (volume_sb vol) + 8).

(** What the environment the firmware passes says: the boot device and the
    configuration file, and no arguments for a kernel. *)
Definition names_config (cf : cstr) : Prop :=
  exists rest, env_outcome false (prop_text args) (prop_text file) = inr (rest, name, Some (partno, cf))
    /\ word_split (Some rest) = (None, []).

Lemma put_m_state m (s : loader F) : l_fs (put_m m s) = mk_fs m (fs_part (l_fs s)) (fs_ext2 (l_fs s)).
Proof. done. Qed.

(** The heap has been claimed and the line buffer allocated. *)
Lemma heap_started s :
  m_heap (get_m s) = heap_init -> I (m_fw (get_m s)) ->
  exists r m', prom_claim MALLOC_BASE MALLOC_SIZE (get_m s) = (Ok r, m')
  /\ if decide (r = NOT_FOUND) then exists s', on_ms malloc_init s = (Err ERR_MALLOC_INIT, s')
     else exists s1 s2, on_ms malloc_init s = (Ok tt, s1) /\ cmd_init s1 = (Ok tt, s2)
     /\ l_cfg s2 = l_cfg s /\ fs_part (l_fs s2) = fs_part (l_fs s) /\ fs_ext2 (l_fs s2) = fs_ext2 (l_fs s)
     /\ I (m_fw (get_m s2)) /\ m_prom (get_m s2) = m_prom (get_m s) /\ m_bi (get_m s2) = m_bi (get_m s)
     /\ heap_room (MALLOC_SIZE - 1 - (CMD_LENG + 8)) (m_heap (get_m s2)).
Proof.
  intros Hh HI.
  destruct (claim_steady I MALLOC_BASE MALLOC_SIZE (get_m s) ltac:(done) HI) as (r & m1 & E1 & Hr & HI1 & P1 & B1 & H1).
  exists r, m1. split; [exact E1|].
  destruct Hr as [-> | ->].
  2: { rewrite decide_True by done. unfold on_ms, on_m, zoom, malloc_init. rewrite (bind_ok _ _ _ _ _ E1). by eexists. }
  rewrite decide_False by done. set (h := heap_claimed MALLOC_BASE (mk_heap MALLOC_BASE 0 0 ∅)).
  assert (Em : malloc_init (get_m s) = (Ok tt, set_heap h m1)).
  { unfold malloc_init. rewrite (bind_ok _ _ _ _ _ E1), bind_modify.
    change (MALLOC_BASE =? NOT_FOUND) with false. cbv iota. unfold modify. cbn [m_heap set_heap].
    rewrite H1, Hh. reflexivity. }
  set (s1 := put_m (set_heap h m1) s). exists s1.
  destruct (do_malloc_room (MALLOC_SIZE - 1) CMD_LENG (get_m s1)) as (b & h2 & E2 & _ & R2);
    [apply heap_room_claimed; by unfold MALLOC_SIZE|done|done|].
  eexists. split; [unfold on_ms, on_m, zoom; by rewrite Em|].
  split; [unfold cmd_init; rewrite (bind_ok _ _ _ (Some b) (put_m (set_heap h2 (get_m s1)) s1));
    [reflexivity|unfold on_m, zoom; by rewrite E2]|].
  by split_and!.
Qed.

(** Then the environment: files can be opened. *)
Lemma env_started x (s : loader F) pr bi0 cf :
  names_config cf -> l_cfg s = cfg_init -> fs_part (l_fs s) = part_zero -> fs_ext2 (l_fs s) = ext2_init ->
  I (m_fw (get_m s)) -> m_prom (get_m s) = pr -> m_bi (get_m s) = bi0 ->
  prom_chosen pr = chosen -> prom_options pr = opts -> opts <> NOT_FOUND ->
  has_flag (bi_flags bi0) WITH_PREBOOT = false -> 0 <= x ->
  heap_room (2 * (ENV_SZ + 8) + 2 * (block_size (volume_sb vol) + 8) + x) (m_heap (get_m s)) ->
  exists s' bi, on_ms env_init s = (Ok tt, s') /\ l_cfg s' = cfg_init /\ ready x pr bi (l_fs s')
    /\ default_dev bi = mk_env_dev (Some name) partno true /\ config_file bi = Some cf
    /\ bi_flags bi = bi_flags bi0 /\ word_split (bootargs bi) = (None, []).
Proof.
  intros (rest & Ho & Hrest) Hc Hpt He HI <- <- Hch Hop Hne Hpre Hx Hroom.
  pose proof (bt_vol _ _ _ _ _ _ _ HB) as (_ & _ & Hg & _). pose proof (block_size_range _ Hg) as Hbs.
  destruct (env_init_run I chosen opts args file _ (get_m s) HI Hroom ltac:(lia) Hch Hop Hne)
    as (m' & E & (HI' & P' & B' & R') & Hrec).
  rewrite Hpre, Ho in E, Hrec. destruct Hrec as (Ra & Rd & Rp & Rv & Rc).
  exists (put_m m' s), (m_bi m'). split; [unfold on_ms, on_m, zoom; by rewrite E|]. split; [done|].
  split; [|split; [|split; [done|split; [done|by rewrite Ra]]]].
  - unfold FileCorrect.ready. rewrite put_m_state. cbn [fs_m fs_part fs_ext2]. rewrite Hpt, He.
    split; [done|]. split; [done|]. split; [done|]. split; [by left|]. split; [done|]. split; [done|].
    eapply heap_room_le; [exact R'|]. cbn [indir1 indir2 ext2_init].
    pose proof (cache_cost_le (volume_sb vol) Hg indir_none). lia.
  - destruct (default_dev (m_bi m')) as [d p v]. cbn in *. by subst.
Qed.

(** ** The kernel's start *)

(** Messages and pauses in front of a kernel of 2.4 and later change nothing. *)
Lemma boot_messages_always image params (s : loader F) :
  has_flag (bi_flags (m_bi (get_m s))) BOOT_PRE_2_4 = false ->
  exists s', boot_messages image params s = (Ok tt, s') /\ m_bi (get_m s') = m_bi (get_m s).
Proof.
  intros Hold. unfold boot_messages, get_bi. rewrite bind_gets, Hold. cbn [andb]. rewrite bind_ret.
  assert (Hpause : forall p (s : loader F), exists s', on_ms (prom_pause p) s = (Ok tt, s')
    /\ m_bi (get_m s') = m_bi (get_m s)).
  { intros p s0. unfold on_ms, on_m, zoom, prom_pause.
    destruct (quiet_printk (fun _ => True) (str "%s") [KStr (Some (default (str "Type go<return> to continue." ++ [10]) p))]
      _ ltac:(done) eq_refl (get_m s0) Logic.I) as ([] & m1 & E1 & _ & _ & B1 & _).
    rewrite (bind_ok _ _ _ _ _ E1). unfold call_prom, call_prom_ret. rewrite bind_assoc.
    unfold mbind at 1, M_bind. destruct (prom_entry (str "enter") [] 0 (m_fw m1)) as [r f].
    destruct (quiet_printk (fun _ => True) [10] [] _ ltac:(done) eq_refl (set_fw f m1) Logic.I)
      as ([] & m2 & E2 & _ & _ & B2 & _).
    unfold mret, M_ret, mbind, M_bind. rewrite E2. eexists. split; [reflexivity|].
    change (m_bi m2 = m_bi (get_m s0)). by rewrite B2, <- B1. }
  destruct (has_flag _ DEBUG_BEFORE_BOOT).
  - rewrite bind_ret, bind_gets.
    destruct (say_always I name dev img partno start len (str "Kernel: 0x%x @ 0x%x" ++ [10])
      [KNum (text_len image); KNum (linked_base image)] _ s eq_refl) as (s1 & E1 & [_ B1] & _).
    rewrite (bind_ok _ _ _ _ _ E1).
    destruct (say_always I name dev img partno start len (str "Initrd: 0x%x @ 0x%x" ++ [10])
      [KNum (initrd_len (id (m_bi (get_m s)))); KNum (initrd_base (id (m_bi (get_m s))))] _ s1 eq_refl) as (s2 & E2 & [_ B2] & _).
    rewrite (bind_ok _ _ _ _ _ E2).
    destruct (say_always I name dev img partno start len (str "Kernel parameters: %s" ++ [10])
      [KStr (Some params)] _ s2 eq_refl) as (s3 & E3 & [_ B3] & _).
    rewrite (bind_ok _ _ _ _ _ E3).
    destruct (say_always I name dev img partno start len (str "Kernel entry: 0x%x" ++ [10])
      [KNum (entry image)] _ s3 eq_refl) as (s4 & E4 & [_ B4] & _).
    rewrite (bind_ok _ _ _ _ _ E4). destruct (Hpause None s4) as (s5 & E5 & B5).
    exists s5. split; [exact E5|congruence].
  - destruct (has_flag _ PAUSE_BEFORE_BOOT); [rewrite bind_gets; apply Hpause|by exists s].
Qed.

(** A loaded image of 2.4 and later is relocated and called. *)
Lemma image_called kbuf kernel tlen off tbase params word (s : loader F) :
  has_flag (bi_flags (m_bi (get_m s))) BOOT_PRE_2_4 = false ->
  0 <= kbuf -> 0 <= off -> 0 <= tlen -> kbuf + off + tlen < 4294967296 ->
  0 <= tbase <= Z.land (e_entry kernel) ADDRMASK -> Z.land (e_entry kernel) ADDRMASK < tbase + tlen ->
  exists s' call,
    (image ← on_ms (elf_relo (loaded_state kbuf kernel (tlen, off, tbase)));
     boot_messages image params;; on_ms (elf_boot word image params)) s = (Ok call, s')
    /\ bc_start call = elf_start word (runs_at kbuf kernel tlen off tbase)
    /\ bc_initrd call = initrd_base (m_bi (get_m s)) /\ bc_initrd_len call = initrd_len (m_bi (get_m s))
    /\ bc_prom call = (if has_flag (bi_flags (m_bi (get_m s))) SHIM_OF then bi_prom_shim (m_bi (get_m s))
                       else bi_prom_entry (m_bi (get_m s)))
    /\ exists m, get_m s' = snd (set_bootargs params m).
Proof.
  intros Hold Hk Ho Ht Hlim He1 He2.
  set (s0 := put_m (add_op (FlushCache (kbuf + off) tlen) (get_m s)) s).
  assert (E : on_ms (elf_relo (loaded_state kbuf kernel (tlen, off, tbase))) s
    = (Ok (runs_at kbuf kernel tlen off tbase), s0)).
  { unfold on_ms, on_m, zoom, elf_relo. rewrite bind_gets, Hold. cbn [loaded_state entry buf linked_base text_offset text_len].
    set (e := Z.land (e_entry kernel) ADDRMASK) in *.
    rewrite (u32_small (kbuf + off)) by lia. rewrite (u32_small (e - tbase)) by lia.
    rewrite (u32_small (e - tbase + (kbuf + off))) by lia.
    unfold runs_at, do_op. rewrite bind_modify. unfold mret, M_ret. fold e.
    by replace (e - tbase + (kbuf + off)) with (kbuf + off + (e - tbase)) by lia. }
  rewrite (bind_ok _ _ _ _ _ E).
  destruct (boot_messages_always (runs_at kbuf kernel tlen off tbase) params s0 Hold) as (s1 & E1 & B1).
  change (m_bi (get_m s)) with (m_bi (get_m s0)).
  rewrite (bind_ok _ _ _ _ _ E1), <- B1. unfold on_ms, on_m, zoom, elf_boot, set_bootargs.
  rewrite bind_assoc, bind_gets. unfold call_prom, call_prom_ret, gets, mbind, M_bind, mret, M_ret.
  destruct (prom_entry (str "setprop") _ 1 (m_fw (get_m s1))) as [r f] eqn:Ep.
  eexists _, _. split; [reflexivity|]. cbn [bc_start bc_initrd bc_initrd_len bc_prom snd]. split_and!; try done.
  exists (get_m s1). by rewrite Ep.
Qed.

(** ** The whole *)

(** A configuration file on the volume, written from [items], that leaves the boot
    device the default one and has no script or message file of its own. *)
Record config_disk (k : fuel_t) (cf : cstr) (n : Z) (inode : list Z) (items : list item) (tb : tables) : Prop := {
  cd_file : file_at k vol cf n inode;
  cd_items : Forall item_ok items;
  cd_text : exists trail, gap trail /\ contents vol inode = cfg_text items trail;
  cd_tables : apply_items (tables_of cfg_init) items = Some tb;
  cd_message : cfg_get_strg_i (tb_options tb) (str "message") = None;
  cd_script : cfg_get_strg_i (tb_options tb) (str "init-code") = None;
  cd_device : configured_dev (tb_options tb) (mk_env_dev (Some name) partno true) = mk_env_dev (Some name) partno true
}.

(** An ELF kernel on the volume with its entry point in its text. *)
Record kernel_disk (k : fuel_t) (path : cstr) (n : Z) (inode : list Z) (tlen off tbase : Z) : Prop := {
  kd_file : file_at k vol path n inode;
  kd_image : exists ph, elf_image (contents vol inode) ph /\ segs_ok (List.filter loadable ph)
               /\ text_span (List.filter loadable ph) = Some (tlen, off, tbase);
  kd_headers : 0 <= e_phoff (contents vol inode);
  kd_entry : 0 <= tbase <= Z.land (e_entry (contents vol inode)) ADDRMASK
             /\ Z.land (e_entry (contents vol inode)) ADDRMASK < tbase + tlen;
  kd_size : i_size inode <= 0xE0000000 /\ 0 <= tlen /\ 0 <= off /\ tlen + off <= 0xE0000000
}.

Definition config_cost (n : Z) (inode : list Z) (items : list item) : Z :=
  2 * open_cost n + (i_size inode + 8) + parse_cost items.
Definition kernel_cost (path : cstr) (n : Z) : Z := params_cost + path_cost path + 2 * open_cost n.

Lemma open_cost_nonneg k path n inode : file_at k vol path n inode -> 0 <= open_cost n.
Proof. intros (? & ? & ? & _ & -> & _). unfold open_cost, SIZEOF_DATA. lia. Qed.

(** The loop of the prompt, and what follows it. *)
Definition boot_from (rounds : nat) (k : rounds_t) (word : Z -> Z) : L boot_call :=
  '(image, params) ← load_loop rounds k;
  image ← on_ms (elf_relo image);
  boot_messages image params;;
  on_ms (elf_boot word image params).

(** The default image called in the memory at [kbuf]. *)
Definition image_booted (word : Z -> Z) (tb : tables) (label : cstr) (kinode : list Z) (tlen off tbase kbuf : Z)
    (call : boot_call) (s' : loader F) : Prop :=
  chunk_at LOAD_BASE kbuf
  /\ bc_start call = elf_start word (runs_at kbuf (contents vol kinode) tlen off tbase)
  /\ bc_initrd call = 0 /\ bc_initrd_len call = 0
  /\ exists m, get_m s' = snd (set_bootargs (image_params (cfg_of tb) label) m).

(** With the configuration read, the default image is loaded and called. *)
Lemma configured_boots k word tb label path kn kinode tlen off tbase pr bi (s : loader F) :
  configured I name dev img partno start len tb (kernel_cost path kn) pr bi s ->
  has_flag (prom_flags pr) PROM_NW_FULL_DISK = false -> (Z.to_nat count < f_map (r_files k))%nat ->
  (0 < r_prompt k)%nat -> default_dev bi = mk_env_dev (Some name) partno true ->
  cfg_get_strg_i (tb_options tb) (str "init-code") = None ->
  configured_dev (tb_options tb) (mk_env_dev (Some name) partno true) = mk_env_dev (Some name) partno true ->
  has_flag (bi_flags bi) TRIED_AUTO = false -> word_split (bootargs bi) = (None, []) ->
  default_image (cfg_of tb) label path -> option_of (cfg_of tb) label (str "old-kernel") = None ->
  kernel_disk (r_files k) path kn kinode tlen off tbase ->
  exists s1 kbuf, kernel_sized k s = (Ok (i_size kinode), s1)
    /\ chunk_answer LOAD_BASE (i_size kinode) (get_m s1) kbuf
    /\ if decide (kbuf = NOT_FOUND)
       then exists s2, try_load_loop k s = (Err ERR_NO_MEM, s2)
              /\ boot_from (r_prompt k) k word s = boot_from (pred (r_prompt k)) k word s2
       else exists call s', boot_from (r_prompt k) k word s = (Ok call, s')
              /\ image_booted word tb label kinode tlen off tbase kbuf call s'.
Proof.
  intros (T & D & V & HT & A & R) Hnw Hk Hp Hdev Hinit Hcd Hfirst Hargs Hdef Hold
    [HF (ph & He & Hs & Hsp) Hoff [Hen1 Hen2] (Hsz & Ht0 & Ho0 & Hspan)].
  assert (Ec : tables_of (cfg_of tb) = tables_of (l_cfg s)) by (rewrite T; by destruct tb).
  pose proof (default_of_tables _ _ label path Ec Hdef) as HC.
  rewrite (option_of_tables _ _ Ec) in Hold.
  assert (Hu : unattended name partno (m_bi (get_m s))).
  { split; [by rewrite D, Hdev, Hcd|done|by rewrite HT|by rewrite A]. }
  destruct (default_loaded I Hms name dev img partno count start len HB (l_cfg s) label path HC k s kn kinode ph
    tlen off tbase (kernel_cost path kn) pr _ (conj eq_refl (R Hinit)) Hu Hnw Hk HF ltac:(unfold kernel_cost; lia)
    Hoff He Hs Hsp Hsz Hspan) as (s0 & kbuf & r & s1 & E0 & Ha & E1 & Hc).
  exists s0, kbuf. split; [exact E0|]. split; [exact Ha|].
  destruct (r_prompt k) as [|fuel]; [lia|]. unfold boot_from. cbn [load_loop pred].
  destruct (decide (kbuf = NOT_FOUND)) as [_|_].
  { subst r. exists s1. split; [exact E1|]. apply bind_same. unfold attempt, mbind, M_bind. by rewrite E1. }
  destruct Hc as (Hat & -> & B1 & C1).
  assert (Elp : (attempt (try_load_loop k) ≫= λ r, match r with inl _ => load_loop fuel k | inr ip => mret ip end) s
    = (Ok (loaded_state kbuf (contents vol kinode) (tlen, off, tbase), image_params (l_cfg s) label), s1)).
  { by rewrite (bind_ok _ _ _ _ _ (attempt_ok _ _ _ _ E1)). }
  assert (Hnew : has_flag (bi_flags (m_bi (get_m s1))) BOOT_PRE_2_4 = false).
  { rewrite B1. by apply auto_booted_new. }
  pose proof Hat as Hat'. unfold chunk_at, PROM_CLAIM_MAX_ADDR, LOAD_BASE in Hat'.
  destruct (image_called kbuf (contents vol kinode) tlen off tbase (image_params (l_cfg s) label) word s1 Hnew)
    as (s2 & call & E2 & H1 & H2 & H3 & _ & H4); [lia..|].
  exists call, s2. split; [rewrite (bind_ok _ _ _ _ _ Elp); exact E2|]. unfold image_booted.
  rewrite H1, H2, H3, B1, (params_of_tables _ _ label Ec). by split_and!.
Qed.

Lemma start_room x y :
  start_cost + x + y < MALLOC_SIZE ->
  2 * (ENV_SZ + 8) + 2 * (block_size (volume_sb vol) + 8) + (x + y) <= MALLOC_SIZE - 1 - (CMD_LENG + 8).
Proof. unfold start_cost. generalize (block_size (volume_sb vol)) as b. intros b H. lia. Qed.

(** The steps up to the configuration, none of them failing. *)
Lemma boot_steps_run k word (s s1 s2 s3 s4 : loader F) :
  on_ms malloc_init s = (Ok tt, s1) -> cmd_init s1 = (Ok tt, s2) -> on_ms env_init s2 = (Ok tt, s3) ->
  load_config (r_files k) s3 = (Ok tt, s4) ->
  boot_steps k word s = boot_from (r_prompt k) k word s4.
Proof.
  intros E1 E2 E3 E4. unfold boot_steps. rewrite (bind_ok _ _ _ _ _ E1), (bind_ok _ _ _ _ _ E2), (bind_ok _ _ _ _ _ E3).
  rewrite (bind_ok _ _ _ _ _ (attempt_ok _ _ _ _ E4)), bind_ret. unfold boot_from.
  lazymatch goal with |- ?x = ?x => reflexivity end.
Qed.

(** The steps up to the kernel's memory being asked for, and up to the end of the first
    attempt to load a kernel, on the way to which nothing fails. *)
Definition before_kernel (k : rounds_t) : L unit :=
  on_ms malloc_init;; cmd_init;; on_ms env_init;; load_config (r_files k).
Definition asks_kernel (k : rounds_t) : L Z := before_kernel k;; kernel_sized k.
Definition first_attempt (k : rounds_t) : L (load_state_t * cstr) := before_kernel k;; try_load_loop k.

Lemma before_kernel_run k (s s1 s2 s3 s4 : loader F) :
  on_ms malloc_init s = (Ok tt, s1) -> cmd_init s1 = (Ok tt, s2) -> on_ms env_init s2 = (Ok tt, s3) ->
  load_config (r_files k) s3 = (Ok tt, s4) -> before_kernel k s = (Ok tt, s4).
Proof.
  intros E1 E2 E3 E4. unfold before_kernel.
  by rewrite (bind_ok _ _ _ _ _ E1), (bind_ok _ _ _ _ _ E2), (bind_ok _ _ _ _ _ E3).
Qed.

End Boot.

(** ** Witnesses *)

(** The simulated firmware with the two environment strings. *)
Definition start_entry (args file : option cstr) (service : cstr) (a : list of_arg) (nret : Z) (f : sim)
  : of_ret * sim :=
  if strcmp service (str "getprop") =? 0
  then (mk_of_ret [0] (prop_bytes (if strcmp (arg_str a 1) (str "bootargs") =? 0 then args else file)), f)
  else sim_entry service a nret f.
Definition start_fw (args file : option cstr) : Firmware sim :=
  {| prom_entry := start_entry args file; uninit_word := 0xa5; stack_addr := 0x3ff000 |}.

Section StartFirmware.
Context (args file : option cstr) (disks : list (cstr * list Z)).
Local Abbreviation I := (sim_has disks).

Lemma start_strings chosen opts :
  prop_ok args -> prop_ok file -> BootStrings (FW := start_fw args file) I chosen opts args file.
Proof.
  intros Ha Hf. split; [exact (sim_write_closed disks)|done|done| |]; intros f r f' HI E.
  - change (start_entry args file (str "getprop") [AInt chosen; AStr (str "bootargs"); AInt ENV_SZ] 1 f
      = (r, f')) in E. by injection E as <- <-.
  - change (start_entry args file (str "getprop") [AInt opts; AStr (str "boot-file"); AInt ENV_SZ] 1 f
      = (r, f')) in E. by injection E as <- <-.
Qed.

(** Every other service is the simulation's. *)
Lemma start_device name dev img : DiskDevice I name dev img -> DiskDevice (FW := start_fw args file) I name dev img.
Proof. intros [[W B R] H O]. split; [split; [exact W|exact B|exact R]|exact H|exact O]. Qed.

Lemma start_memory : MemoryFirmware (FW := start_fw args file) I.
Proof. destruct (sim_memory disks) as [C M A]. split; [exact C|exact M|exact A]. Qed.

Lemma start_clock : keeps_service (FW := start_fw args file) I (str "milliseconds").
Proof.
  intros a nret f r f' E HI. change (sim_entry (str "milliseconds") a nret f = (r, f')) in E.
  unfold sim_entry in E. change (sim_service_of (str "milliseconds")) with SMs in E. by injection E as <- <-.
Qed.
End StartFirmware.

(** A disk with a configuration and the kernel it names. *)
Definition start_items : list item :=
  [ mk_item [] (str "timeout") (Some (str "0"));
    mk_item [10] (str "image") (Some (str "/vmlinux"));
    mk_item (str "  ") (str "label") (Some (str "linux"));
    mk_item (str "  ") (str "root") (Some (str "/dev/sda4"));
    mk_item (str "  ") (str "read-only") None ].

Definition start_tables : tables := default (tables_of cfg_init) (apply_items (tables_of cfg_init) start_items).
Definition start_img : list Z := disk_with (str "quik.conf", cfg_text start_items []) (str "vmlinux", demo_elf 3).
Definition start_disks : list (cstr * list Z) := [(str "hd", start_img)].
Definition start_vol : list Z := slice start_img 1536 17408.
Abbreviation start_sb := (volume_sb start_vol) (only parsing).
Definition start_root : list dentry := root_of (str "quik.conf") (str "vmlinux").
Definition start_args : option cstr := Some (str "hd:0/quik.conf").

(** The firmware's nodes are found, and nothing else has been done. *)
Definition start_loader : loader sim :=
  mk_loader (mk_fs (mk_mach (sim_start start_disks) (mk_prom_st 0 0 7 1 2 0 0 0 0 0 0) bi_init heap_init 0 [])
    part_zero ext2_init) cfg_init [] None.

Definition start_rounds : rounds_t := mk_rounds boot_fuel 10 10 1.

Example start_boots_params : image_params (cfg_of start_tables) (str "linux") = str "root=/dev/sda4 ro ".
Proof. by vm_compute. Qed.

Lemma start_bootable : bootable (str "hd") DISK0 start_img 0 2 1536 17408.
Proof. disk_bootable. Qed.

Lemma start_hd : DiskDevice (sim_has start_disks) (str "hd") DISK0 start_img.
Proof. by apply (sim_device start_disks 0); [done|by vm_compute|by vm_compute|by_eval]. Qed.

Lemma start_root_has : dir_has start_vol start_sb (inode_at start_vol start_sb 128 2) start_root.
Proof. apply dir_hasb_ok. by vm_compute. Qed.

Lemma start_conf_file : file_at boot_fuel start_vol (str "/quik.conf") 1 (inode_at start_vol start_sb 128 12).
Proof.
  apply (root_file start_vol start_root (str "quik.conf") (mk_dentry 12 1 (str "quik.conf") [0; 0; 0]));
    [by vm_compute|exact start_root_has|simpl; lia|by vm_compute|by_eval|by vm_compute|by_eval|by_eval|by vm_compute].
Qed.

Lemma start_kernel_file : file_at boot_fuel start_vol (str "/vmlinux") 1 (inode_at start_vol start_sb 128 13).
Proof.
  apply (root_file start_vol start_root (str "vmlinux") (demo_last (mk_dentry 13 1 (str "vmlinux") []) 44));
    [by vm_compute|exact start_root_has|simpl; lia|by vm_compute|by_eval|by vm_compute|by_eval|by_eval|by vm_compute].
Qed.

Lemma start_conf_text : contents start_vol (inode_at start_vol start_sb 128 12) = cfg_text start_items [].
Proof. by vm_compute. Qed.
Lemma start_kernel_text : contents start_vol (inode_at start_vol start_sb 128 13) = demo_elf 3.
Proof. by vm_compute. Qed.

Lemma start_kernel_size : i_size (inode_at start_vol start_sb 128 13) = 148.
Proof. by vm_compute. Qed.

Lemma start_items_ok : Forall item_ok start_items.
Proof.
  unfold start_items, item_ok, plain_word, plain_char, quotable.
  repeat (apply List.Forall_cons; [split; cbn [it_gap it_name it_value]; [|split]; try by_eval|]);
    [..|by constructor].
  all: try (split; [by_eval|by_eval]).
  all: repeat first [apply gap_nil | apply gap_blank; [by vm_compute; auto|]].
Qed.

Lemma start_config_disk :
  config_disk (str "hd") start_img 0 1536 17408 boot_fuel (str "/quik.conf") 1
    (inode_at start_vol start_sb 128 12) start_items start_tables.
Proof.
  split.
  - exact start_conf_file.
  - exact start_items_ok.
  - exists []. split; [constructor|exact start_conf_text].
  - by vm_compute.
  - by vm_compute.
  - by vm_compute.
  - by vm_compute.
Qed.

Lemma start_kernel_disk :
  kernel_disk start_img 1536 17408 boot_fuel (str "/vmlinux") 1 (inode_at start_vol start_sb 128 13) 0x6000 0x1000 0.
Proof.
  split; change (slice start_img 1536 17408) with start_vol; rewrite ?start_kernel_text.
  - exact start_kernel_file.
  - exists demo_phdrs. split; [exact demo_elf_image|]. split; [exact demo_segs_ok|by vm_compute].
  - by vm_compute.
  - by vm_compute.
  - by vm_compute.
Qed.

Lemma start_default : default_image (cfg_of start_tables) (str "linux") (str "/vmlinux").
Proof.
  split.
  - by vm_compute.
  - exists (str "0"). by vm_compute.
  - by vm_compute.
  - by vm_compute.
  - by vm_compute.
  - split; [by vm_compute|]. split; [by_eval|by_eval].
Qed.

(** On this firmware the kernel is called; no key was pressed. *)
Example start_calls :
  match fst (boot_steps (FW := start_fw start_args None) start_rounds (fun _ => 0x60000000) start_loader) with
  | Ok call => bc_start call = 0x1000 + LOAD_BASE /\ bc_initrd call = 0
  | _ => False
  end.
Proof. by vm_compute. Qed.

Lemma start_called : exists call s',
  boot_steps (FW := start_fw start_args None) start_rounds (fun _ => 0x60000000) start_loader = (Ok call, s').
Proof.
  generalize start_calls. destruct (boot_steps _ _ _) as [[call|e|u] s']; [by exists call, s'|by intros []..].
Qed.

Lemma boot_from_none k word (s : loader sim) :
  boot_from (FW := start_fw start_args None) 0 k word s = (Undef OutOfFuel, s).
Proof. reflexivity. Qed.

Lemma start_args_ok : prop_ok start_args.
Proof. split; [by_eval|by vm_compute]. Qed.


