(* ===== verification/Installer.v ===== *)
(** * The installer (installer/iquik.c)

    It finds the Apple_Bootstrap partition of a disk, writes the boot code and an
    optional preboot script at its start, and marks its map entry bootable.  A
    disk is its bytes; a call of [fatal] is an error value.  The host is one with
    64-bit [long] and [off_t]. *)
From Stdlib Require Import ZArith Lia Ascii.
From stdpp Require Import prelude strings.
From S2P Require Import Prelude Quik CString Util Malloc Printf Machine Prom Part.

(** The calls of [fatal]: on the disk, then on the host. *)
Inductive fatal_t : Set :=
| FatalReadBlock0 | FatalNotMac | FatalReadMap | FatalNoBootstrap
| FatalReadCode | FatalReadMagic | FatalBadMagic | FatalReadScript
| FatalWriteCode | FatalReadEntry | FatalWriteEntry
| CountWraps   (* no exit: a code file shorter than the magic is read past the buffer *)
| FatalFuel
| FatalCpuinfo | FatalNoBootBlock | FatalNewWorld | FatalNoDevice
| FatalOpenDevice | FatalOpenCode | FatalOpenScript | FatalStat | FatalReadlink.

#[global] Instance fatal_t_eq_dec : EqDecision fatal_t.
Proof. solve_decision. Defined.

(** ** Files *)

(** [lseek] and [read] of 512 bytes: None when fewer are there. *)
Definition read_block (dev : list Z) (off : Z) : option (list Z) :=
  let b := slice dev off 512 in
  if Z.of_nat (length b) =? 512 then Some b else None.

Definition splice (dev : list Z) (off : Z) (b : list Z) : list Z :=
  take (Z.to_nat off) dev ++ b ++ drop (Z.to_nat off + length b) dev.

(** [lseek] and [do_write]: None when the device is too short.  In test mode
    nothing is written. *)
Definition do_write (test_mode : bool) (dev : list Z) (off : Z) (b : list Z) : option (list Z) :=
  if test_mode then Some dev
  else if Z.of_nat (length dev) <? off + Z.of_nat (length b) then None
  else Some (splice dev off b).

(** ** The boot partition *)

Definition APPLE_BOOT_TYPE : cstr := str "Apple_Bootstrap".

Record boot_part := mk_boot_part { bp_index : Z; bp_doff : Z; bp_secsize : Z }.

(** The loop over map entries; every other way out of it is the same error. *)
Fixpoint read_sb_loop (fuel : nat) (dev : list Z) (secsize part maxpart : Z)
  : fatal_t + boot_part :=
  match fuel with
  | O => inl FatalFuel
  | S fuel' =>
      if part <=? maxpart then
        match read_block dev (part * secsize) with
        | None => inl FatalReadMap
        | Some mp =>
            if negb (mp_signature mp =? MAC_PARTITION_MAGIC) then inl FatalNoBootstrap
            else if negb (part =? 1) && negb (u32 maxpart =? mp_map_count mp)
            then inl FatalNoBootstrap
            else
              let maxpart := if part =? 1 then s32 (mp_map_count mp) else maxpart in
              if strcmp (mp_type mp) APPLE_BOOT_TYPE =? 0
              then inr (mk_boot_part part (mp_start_block mp * Z.shiftr secsize 9) secsize)
              else read_sb_loop fuel' dev secsize (part + 1) maxpart
        end
      else inl FatalNoBootstrap
  end.

(** The map cannot have more entries than the device has blocks. *)
Definition read_sb (dev : list Z) : fatal_t + boot_part :=
  match read_block dev 0 with
  | None => inl FatalReadBlock0
  | Some md =>
      if negb (md_signature md =? MAC_DRIVER_MAGIC) then inl FatalNotMac
      else read_sb_loop (length dev + 2) dev (md_block_size md) 1 1
  end.

(** ** Making it bootable *)

(** libc's [strncpy] pads with NULs up to [n]. *)
Definition strncpy_pad (s : cstr) (n : nat) : list Z := take n (s ++ replicate n 0).

(** The fields changed: [status]; [boot_start] to [boot_entry2]; [processor]. *)
Definition with_status (mp : list Z) : list Z :=
  splice mp 88 (enc_be32 (Z.lor (mp_status mp) STATUS_BOOTABLE)).
Definition with_boot (mp : list Z) (stage_size load_base : Z) : list Z :=
  splice mp 92 (enc_be32 0 ++ enc_be32 stage_size ++ enc_be32 load_base ++ enc_be32 0
                  ++ enc_be32 load_base ++ enc_be32 0).
Definition bootable_entry (mp : list Z) (stage_size load_base : Z) : list Z :=
  splice (with_boot (with_status mp) stage_size load_base) 120 (strncpy_pad (str "PowerPC") 16).

Definition make_bootable (test_mode : bool) (dev : list Z) (secsize part_index stage_size load_base : Z)
  : fatal_t + list Z :=
  if part_index =? 0 then inr dev
  else
    match read_block dev (part_index * secsize) with
    | None => inl FatalReadEntry
    | Some mp =>
        match do_write test_mode dev (part_index * secsize) (bootable_entry mp stage_size load_base) with
        | None => inl FatalWriteEntry
        | Some dev => inr dev
        end
    end.

(** ** The boot code *)

Definition SIZEOF_MAGIC : Z := 4.

(** The stage written: the code, its trailing magic replaced by the script and a
    NUL when there is one. *)
Definition stage_bytes (code : list Z) (preboot : option (list Z)) : fatal_t + list Z :=
  match preboot with
  | None => match code with [] => inl FatalReadCode | _ => inr code end
  | Some script =>
      let n := Z.of_nat (length code) - SIZEOF_MAGIC in
      if n <? 0 then inl CountWraps
      else if n =? 0 then inl FatalReadCode
      else if negb (be32 code n =? PREBOOT_MAGIC) then inl FatalBadMagic
      else match script with
           | [] => inl FatalReadScript
           | _ => inr (slice code 0 n ++ script ++ [0])
           end
  end.

(** The size of the stage and the device after. *)
Definition install_stage (test_mode : bool) (dev code : list Z) (preboot : option (list Z)) (doff : Z)
  : fatal_t + (Z * list Z) :=
  match stage_bytes code preboot with
  | inl e => inl e
  | inr b =>
      match do_write test_mode dev (doff * 512) b with
      | None => inl FatalWriteCode
      | Some dev => inr (Z.of_nat (length b), dev)
      end
  end.

(** ** Paths and the whole run *)

Definition chrootcpy (new_root : option cstr) (path : cstr) : cstr :=
  match new_root with
  | Some (c :: r) =>
      if negb (List.last (c :: r) 0 =? chr "/") then (c :: r) ++ path
      else (c :: r) ++ tl path
  | _ => path
  end.

(** What [main] does once the device and the files are known. *)
Definition install (test_mode : bool) (dev code : list Z) (preboot : option (list Z))
  : fatal_t + list Z :=
  match read_sb dev with
  | inl e => inl e
  | inr bp =>
      match install_stage test_mode dev code preboot (bp_doff bp) with
      | inl e => inl e
      | inr (stage_size, dev) =>
          make_bootable test_mode dev (bp_secsize bp) (bp_index bp) stage_size IQUIK_BASE
      end
  end.

(** ** Lemmas *)

Lemma splice_length l off b :
  0 <= off -> off + Z.of_nat (length b) <= Z.of_nat (length l) ->
  length (splice l off b) = length l.
Proof.
  intros Ho Hl. unfold splice. rewrite !length_app, length_take, length_drop. lia.
Qed.

(** Reading what was written, and reading elsewhere. *)
Lemma slice_splice l off b :
  0 <= off -> off + Z.of_nat (length b) <= Z.of_nat (length l) ->
  slice (splice l off b) off (Z.of_nat (length b)) = b.
Proof.
  intros Ho Hl. unfold slice, splice.
  rewrite drop_app_ge; rewrite length_take; [|lia].
  replace (Z.to_nat off - Z.to_nat off `min` length l)%nat with O by lia. rewrite drop_0.
  rewrite Nat2Z.id. by rewrite take_app_length.
Qed.

Lemma slice_splice_before l off b o n :
  0 <= o -> 0 <= n -> o + n <= off -> off + Z.of_nat (length b) <= Z.of_nat (length l) ->
  slice (splice l off b) o n = slice l o n.
Proof.
  intros Ho Hn Hlt Hl. unfold slice, splice.
  rewrite drop_app_le by (rewrite length_take; lia).
  rewrite take_app_le by (rewrite length_drop, length_take; lia).
  rewrite skipn_firstn_comm, take_take. f_equal. lia.
Qed.

Lemma slice_splice_after l off b o n :
  0 <= off -> off + Z.of_nat (length b) <= o -> off + Z.of_nat (length b) <= Z.of_nat (length l) ->
  slice (splice l off b) o n = slice l o n.
Proof.
  intros Ho Hlt Hl. unfold slice, splice.
  rewrite drop_app_ge; rewrite length_take; [|lia].
  rewrite drop_app_ge by lia. rewrite drop_drop. do 2 f_equal. lia.
Qed.

Lemma byte_at_slice1 l i : byte_at l i = byte_at (slice l i 1) 0.
Proof.
  unfold byte_at, slice. rewrite lookup_take_lt by (simpl; lia).
  rewrite lookup_drop. do 2 f_equal. simpl. lia.
Qed.

Lemma be32_of_slice l i : 0 <= i -> be32 l i = be32 (slice l i 4) 0.
Proof. intros. rewrite be32_slice by lia. f_equal. lia. Qed.

Lemma be32_enc v : 0 <= v < 4294967296 -> be32 (enc_be32 v) 0 = v.
Proof.
  intros. change (u8 (v / 16777216) * 16777216 + u8 (v / 65536) * 65536 + u8 (v / 256) * 256 + u8 v = v).
  word_lia.
Qed.

(** *** The entry *)

Section Entry.
Context (mp : list Z) (stage_size load_base : Z).
Context (Hmp : length mp = 512%nat) (Hok : bytes_ok mp).

Local Abbreviation out := (bootable_entry mp stage_size load_base).

Lemma with_status_length : length (with_status mp) = 512%nat.
Proof. unfold with_status. rewrite splice_length; rewrite ?Hmp; cbn; lia. Qed.

Lemma with_boot_length : length (with_boot (with_status mp) stage_size load_base) = 512%nat.
Proof. unfold with_boot. rewrite splice_length; rewrite ?with_status_length; cbn; lia. Qed.

Lemma pad_length : length (strncpy_pad (str "PowerPC") 16) = 16%nat.
Proof. reflexivity. Qed.

Lemma bootable_entry_length : length out = 512%nat.
Proof. unfold bootable_entry. rewrite splice_length; rewrite ?with_boot_length, ?pad_length; lia. Qed.

(** What the entry keeps: everything before the boot fields. *)
Lemma bootable_entry_before o n :
  0 <= o -> 0 <= n -> o + n <= 92 -> slice out o n = slice (with_status mp) o n.
Proof.
  intros. unfold bootable_entry. rewrite slice_splice_before; [|lia..|rewrite with_boot_length, pad_length; lia].
  unfold with_boot. by rewrite slice_splice_before; [|lia..|rewrite with_status_length; cbn; lia].
Qed.

Lemma bootable_entry_head o n : 0 <= o -> 0 <= n -> o + n <= 88 -> slice out o n = slice mp o n.
Proof.
  intros. rewrite bootable_entry_before by lia. unfold with_status.
  by rewrite slice_splice_before; [|lia..|rewrite Hmp; cbn; lia].
Qed.

Lemma bootable_entry_status : mp_status out = Z.lor (mp_status mp) STATUS_BOOTABLE.
Proof.
  unfold mp_status at 1. rewrite be32_of_slice, bootable_entry_before by lia.
  unfold with_status. rewrite (slice_splice mp 88 (enc_be32 _)) by (rewrite ?Hmp; cbn; lia).
  apply be32_enc. unfold mp_status. pose proof (be32_range mp 88 Hok) as Hr.
  split; [apply Z.lor_nonneg; unfold STATUS_BOOTABLE; lia|].
  assert (Z.lor (be32 mp 88) STATUS_BOOTABLE = Z.lor (be32 mp 88) STATUS_BOOTABLE mod 2 ^ 32) as ->.
  { rewrite <- Z.land_ones by lia. rewrite Z.land_lor_distr_l, !Z.land_ones by lia.
    rewrite (Z.mod_small (be32 mp 88)) by (change (2 ^ 32) with 4294967296; lia). done. }
  apply Z.mod_pos_bound. done.
Qed.

Lemma bootable_entry_processor : mp_processor out = str "PowerPC".
Proof.
  unfold mp_processor, cstr_at, bootable_entry, splice at 1.
  rewrite drop_app_ge; rewrite length_take, with_boot_length; [|lia].
  reflexivity.
Qed.

(** The loader takes the entry for the boot partition. *)
Lemma bootable_entry_matches upart : mac_match out 0 upart = true.
Proof.
  unfold mac_match. rewrite bootable_entry_status, bootable_entry_processor.
  assert (Z.land (Z.lor (mp_status mp) STATUS_BOOTABLE) STATUS_BOOTABLE = STATUS_BOOTABLE) as ->.
  { apply Z.bits_inj'. intros n _. rewrite Z.land_spec, Z.lor_spec.
    by destruct (Z.testbit (mp_status mp) n), (Z.testbit STATUS_BOOTABLE n). }
  change (strcasecmp (str "PowerPC") (str "powerpc") =? 0) with true.
  change (0 =? 0) with true. change (negb (STATUS_BOOTABLE =? 0)) with true.
  by rewrite orb_true_r.
Qed.

End Entry.

(** *** The search for the boot partition *)

Lemma read_block_some dev off b :
  0 <= off -> read_block dev off = Some b -> b = slice dev off 512 /\ off + 512 <= Z.of_nat (length dev).
Proof.
  unfold read_block. intros Ho.
  destruct (Z.eqb_spec (Z.of_nat (length (slice dev off 512))) 512) as [E|]; [|done].
  intros [= <-]. split; [done|]. unfold slice in E. rewrite length_take, length_drop in E. lia.
Qed.

Lemma read_sb_loop_ends fuel dev secsize part maxpart :
  0 < secsize -> 1 <= part -> (0 < fuel)%nat ->
  Z.of_nat (length dev) < (part + Z.of_nat fuel - 1) * secsize + 512 ->
  read_sb_loop fuel dev secsize part maxpart <> inl FatalFuel.
Proof.
  intros Hs. revert part maxpart. induction fuel as [|fuel IH]; intros part maxpart Hp Hf Hlen; [lia|].
  cbn [read_sb_loop]. destruct (part <=? maxpart); [|done].
  destruct (read_block dev (part * secsize)) as [mp|] eqn:E; [|done].
  apply read_block_some in E as [_ Hin]; [|nia].
  destruct (negb (mp_signature mp =? _)); [done|]. destruct (_ && _); [done|].
  destruct (strcmp _ _ =? 0); [done|]. apply IH; [lia| |].
  { destruct fuel; [|lia]. replace (part + Z.of_nat 1 - 1) with part in Hlen by lia. lia. }
  replace (part + 1 + Z.of_nat fuel - 1) with (part + Z.of_nat (S fuel) - 1) by lia. done.
Qed.

Lemma read_sb_ends dev : bytes_ok dev -> read_sb dev <> inl FatalFuel.
Proof.
  intros Hok. unfold read_sb. destruct (read_block dev 0) as [md|] eqn:E; [|done].
  destruct (Z.eqb_spec (md_signature md) MAC_DRIVER_MAGIC) as [Hm|]; [cbn [negb]|done].
  pose proof (read_block_some dev 0 md ltac:(lia) E) as [Emd Hlen].
  assert (0 <= md_block_size md) by (apply be16_range; rewrite Emd; by apply bytes_ok_slice).
  destruct (Z.eq_dec (md_block_size md) 0) as [E0|].
  - rewrite E0, Nat.add_comm. cbn [Nat.add read_sb_loop]. change (1 <=? 1) with true. cbv iota.
    change (1 * 0) with 0. rewrite E. unfold mp_signature. unfold md_signature in Hm. by rewrite Hm.
  - apply read_sb_loop_ends; [lia|lia|lia|nia].
Qed.

(** What the search finds is an Apple_Bootstrap entry of the map, and the start it
    gives. *)
Lemma read_sb_loop_found fuel dev secsize part maxpart bp :
  0 <= secsize -> 1 <= part -> read_sb_loop fuel dev secsize part maxpart = inr bp ->
  exists mp, read_block dev (bp_index bp * secsize) = Some mp /\ part <= bp_index bp
    /\ mp_signature mp = MAC_PARTITION_MAGIC /\ strcmp (mp_type mp) APPLE_BOOT_TYPE = 0
    /\ bp_doff bp = mp_start_block mp * Z.shiftr secsize 9 /\ bp_secsize bp = secsize.
Proof.
  intros Hs. revert part maxpart. induction fuel as [|fuel IH]; intros part maxpart Hp; [done|].
  cbn [read_sb_loop]. destruct (part <=? maxpart); [|done].
  destruct (read_block dev (part * secsize)) as [mp|] eqn:E; [|done].
  destruct (Z.eqb_spec (mp_signature mp) MAC_PARTITION_MAGIC); cbn [negb]; [|done].
  destruct (_ && _); [done|].
  destruct (Z.eqb_spec (strcmp (mp_type mp) APPLE_BOOT_TYPE) 0).
  - intros [= <-]. exists mp. cbn. by split_and!.
  - intros H. destruct (IH (part + 1) _ ltac:(lia) H) as (mp' & H1 & H2 & H3). exists mp'. split; [done|].
    split; [lia|done].
Qed.

(** *** The whole run *)

Lemma do_write_some dev off b dev' :
  0 <= off -> do_write false dev off b = Some dev' ->
  dev' = splice dev off b /\ off + Z.of_nat (length b) <= Z.of_nat (length dev).
Proof.
  intros Ho. unfold do_write. destruct (Z.ltb_spec (Z.of_nat (length dev)) (off + Z.of_nat (length b)));
    [done|]. by intros [= <-].
Qed.
