(* ===== verification/ElfExtract.v ===== *)
(** * The image extractor (util/elfextract.c)

    At build time it cuts the loadable part out of the loader's own ELF file.
    The file is its bytes; the host is one with a 64-bit [long]. *)
From Stdlib Require Import ZArith Lia Ascii.
From stdpp Require Import prelude strings.
From S2P Require Import Prelude Quik CString Util Malloc Printf Machine Prom Elf.

Inductive extract_err : Set := ShortFile | NotElf | NoSegment | TooBig | ExtractFuel.

Definition p_filesz (e : list Z) (p : Z) : Z := be32 e (p + 16).

Definition BUF_SIZE : Z := 65536.

(** [rd]: [n] bytes from the file position [pos], None when the file is short. *)
Definition rd (f : list Z) (pos n : Z) : option (list Z) :=
  let b := slice f pos n in if Z.of_nat (length b) =? n then Some b else None.

(** The headers in turn: [phoffset], [phsize] and [prevaddr] as they stand. *)
Fixpoint scan_phdrs (n : nat) (f : list Z) (pos phoffset phsize prevaddr : Z)
  : extract_err + (Z * Z) :=
  match n with
  | O => inr (phoffset, phsize)
  | S n' =>
      match rd f pos SIZEOF_PHDR with
      | None => inl ShortFile
      | Some ph =>
          if negb (p_type ph 0 =? PT_LOAD)
          then scan_phdrs n' f (pos + SIZEOF_PHDR) phoffset phsize prevaddr
          else if (phsize =? 0) || (prevaddr =? 0)
          then scan_phdrs n' f (pos + SIZEOF_PHDR) (p_offset ph 0) (p_filesz ph 0) (p_vaddr ph 0)
          else scan_phdrs n' f (pos + SIZEOF_PHDR) phoffset
                 (u64 (u32 (p_offset ph 0 + p_filesz ph 0) - phoffset)) (p_vaddr ph 0)
      end
  end.

(** The copy, a buffer at a time. *)
Fixpoint copy_loop (fuel : nat) (f : list Z) (pos len : Z) : extract_err + list Z :=
  if len =? 0 then inr []
  else
    match fuel with
    | O => inl ExtractFuel
    | S fuel' =>
        let nb := if BUF_SIZE <? len then BUF_SIZE else len in
        match rd f pos nb with
        | None => inl ShortFile
        | Some b =>
            match copy_loop fuel' f (pos + nb) (len - nb) with
            | inl e => inl e
            | inr rest => inr (b ++ rest)
            end
        end
    end.

(** The bytes written. *)
Definition elfextract (f : list Z) : extract_err + list Z :=
  match rd f 0 SIZEOF_EHDR with
  | None => inl ShortFile
  | Some eh =>
      if negb ((e_ident eh 0 =? 0x7f) && (e_ident eh 1 =? chr "E") && (e_ident eh 2 =? chr "L")
               && (e_ident eh 3 =? chr "F"))
      then inl NotElf
      else
        match scan_phdrs (Z.to_nat (e_phnum eh)) f (e_phoff eh) 0 0 0 with
        | inl e => inl e
        | inr (phoffset, phsize) =>
            if phsize =? 0 then inl NoSegment
            else if IQUIK_SIZE <? phsize then inl TooBig
            else copy_loop (Z.to_nat (phsize / BUF_SIZE + 1)) f phoffset (u32 phsize)
        end
  end.

(** ** Lemmas *)

Lemma rd_some f pos n b : 0 <= pos -> 0 <= n -> rd f pos n = Some b ->
  b = slice f pos n /\ (n = 0 \/ pos + n <= Z.of_nat (length f)).
Proof.
  unfold rd. intros Hp Hn. destruct (Z.eqb_spec (Z.of_nat (length (slice f pos n))) n) as [E|]; [|done].
  intros [= <-]. split; [done|]. unfold slice in E. rewrite length_take, length_drop in E. lia.
Qed.

Lemma rd_in f pos n : 0 <= pos -> 0 <= n -> pos + n <= Z.of_nat (length f) ->
  rd f pos n = Some (slice f pos n).
Proof. intros. unfold rd. rewrite slice_length by lia. by rewrite Z.eqb_refl. Qed.

(** The copy is the range of the file asked for. *)
Lemma copy_loop_slice fuel f pos len :
  0 <= pos -> 0 <= len -> pos + len <= Z.of_nat (length f) -> len <= Z.of_nat fuel * BUF_SIZE ->
  copy_loop fuel f pos len = inr (slice f pos len).
Proof.
  unfold BUF_SIZE. revert pos len. induction fuel as [|fuel IH]; intros pos len Hp Hl Hin Hf.
  { by replace len with 0 by lia. }
  cbn [copy_loop]. destruct (Z.eqb_spec len 0) as [->|]; [done|]. unfold BUF_SIZE.
  set (nb := if 65536 <? len then 65536 else len).
  assert (Hnb : 0 < nb <= len /\ (nb = len \/ nb = 65536))
    by (unfold nb; destruct (Z.ltb_spec 65536 len); lia).
  rewrite rd_in by lia. rewrite IH by lia. f_equal.
  rewrite slice_app_split by lia. f_equal. lia.
Qed.
