(* ===== verification/InstallCorrect.v ===== *)
(** * Correctness of the installer and the image extractor

    What an installation leaves on the disk, why the loader then boots from it,
    and the bytes the extractor cuts out. *)
From Stdlib Require Import ZArith Lia Ascii Sorted.
From stdpp Require Import prelude strings.
From S2P Require Import Prelude Quik CString Util Malloc Printf Machine Prom Part Sim PartCorrect.
From S2P Require Import Elf ElfCorrect Installer ElfExtract.

(** ** Specification *)

(** The entry [bp] names is an Apple_Bootstrap entry of the map, and [bp] gives
    its start. *)
Definition boot_entry_of (dev : list Z) (bp : boot_part) (mp : list Z) : Prop :=
  read_block dev (bp_index bp * bp_secsize bp) = Some mp /\ 1 <= bp_index bp
  /\ mp_signature mp = MAC_PARTITION_MAGIC /\ strcmp (mp_type mp) APPLE_BOOT_TYPE = 0
  /\ bp_doff bp = mp_start_block mp * Z.shiftr (bp_secsize bp) 9
  /\ 0 < bp_secsize bp < 65536.

(** The boot fields of a map entry. *)
Definition mp_boot_size (mp : list Z) : Z := be32 mp 96.
Definition mp_boot_load (mp : list Z) : Z := be32 mp 100.
Definition mp_boot_entry (mp : list Z) : Z := be32 mp 108.

(** Two byte ranges that do not meet. *)
Definition apart (o1 n1 o2 n2 : Z) : Prop := o1 + n1 <= o2 \/ o2 + n2 <= o1.

(** ** Lemmas *)

Lemma read_sb_secsize dev bp :
  bytes_ok dev -> read_sb dev = inr bp -> exists mp, boot_entry_of dev bp mp.
Proof.
  intros Hok. unfold read_sb. destruct (read_block dev 0) as [md|] eqn:E; [|done].
  destruct (Z.eqb_spec (md_signature md) MAC_DRIVER_MAGIC) as [Hm|]; [cbn [negb]|done].
  pose proof (read_block_some dev 0 md ltac:(lia) E) as [Emd Hlen]. intros H.
  assert (Hr : 0 <= md_block_size md < 65536) by (apply be16_range; rewrite Emd; by apply bytes_ok_slice).
  destruct (Z.eq_dec (md_block_size md) 0) as [E0|Hne].
  { exfalso. rewrite E0, Nat.add_comm in H. cbn [Nat.add read_sb_loop] in H.
    change (1 <=? 1) with true in H. cbv iota in H. change (1 * 0) with 0 in H. rewrite E in H.
    unfold mp_signature in H. unfold md_signature in Hm. by rewrite Hm in H. }
  destruct (read_sb_loop_found _ _ _ 1 1 _ (proj1 Hr) ltac:(done) H) as (mp & H1 & H2 & H3 & H4 & H5 & H6).
  exists mp. unfold boot_entry_of. rewrite H6. by split_and!; try lia.
Qed.

Lemma splice_apart l off b o n :
  0 <= off -> 0 <= o -> 0 <= n -> off + Z.of_nat (length b) <= Z.of_nat (length l) ->
  apart o n off (Z.of_nat (length b)) -> slice (splice l off b) o n = slice l o n.
Proof.
  intros Ho H1 H2 Hl [Ha|Ha]; [by apply slice_splice_before|by apply slice_splice_after].
Qed.

(** A field of an entry after its new boot fields. *)
Lemma boot_field mp size base k i :
  length mp = 512%nat -> 0 <= k <= 20 -> i = 92 + k ->
  be32 (bootable_entry mp size base) i
  = be32 (enc_be32 0 ++ enc_be32 size ++ enc_be32 base ++ enc_be32 0 ++ enc_be32 base ++ enc_be32 0) k.
Proof.
  intros Hmp Hk ->. set (b := enc_be32 0 ++ _).
  assert (Hb : Z.of_nat (length b) = 24) by reflexivity.
  assert (Hw : length (with_status mp) = 512%nat) by by apply with_status_length.
  rewrite be32_of_slice by lia. unfold bootable_entry.
  rewrite slice_splice_before;
    [|lia..|rewrite (with_boot_length mp size base Hmp), pad_length; lia].
  unfold with_boot. fold b. rewrite <- (slice_slice _ 92 24 k 4) by lia.
  rewrite <- Hb at 1. rewrite slice_splice by (rewrite ?Hw, ?Hb; lia).
  rewrite <- be32_of_slice by lia. done.
Qed.

(** ** Properties of the installer *)

(** C35: The search for the boot partition ends on every disk, and what it finds is
    an Apple_Bootstrap entry of the partition map with the start that entry
    gives. *)
Theorem read_sb_found dev :
  bytes_ok dev ->
  match read_sb dev with
  | inr bp => exists mp, boot_entry_of dev bp mp
  | inl e => e <> FatalFuel
  end.
Proof.
  intros Hok. destruct (read_sb dev) as [e|bp] eqn:E.
  - intros ->. by apply (read_sb_ends dev Hok).
  - by apply read_sb_secsize.
Qed.

(** C34: An installed map entry is one the loader takes for the boot partition; it
    names the size of the stage and where the firmware is to load and enter it,
    and keeps its signature, start, length, name and type. *)
Theorem installed_entry_boots mp size base upart :
  length mp = 512%nat -> bytes_ok mp -> 0 <= size < 4294967296 -> 0 <= base < 4294967296 ->
  let out := bootable_entry mp size base in
  mac_match out 0 upart = true
  /\ mp_boot_size out = size /\ mp_boot_load out = base /\ mp_boot_entry out = base
  /\ slice out 0 88 = slice mp 0 88 /\ length out = 512%nat.
Proof.
  intros Hl Hok Hs Hb out. split_and!.
  - by apply bootable_entry_matches.
  - unfold mp_boot_size, out. rewrite (boot_field _ _ _ 4) by (done || lia). by apply (be32_enc size).
  - unfold mp_boot_load, out. rewrite (boot_field _ _ _ 8) by (done || lia). by apply (be32_enc base).
  - unfold mp_boot_entry, out. rewrite (boot_field _ _ _ 16) by (done || lia). by apply (be32_enc base).
  - by apply bootable_entry_head.
  - by apply bootable_entry_length.
Qed.

(** C5: A completed installation has put the stage at the start of the boot
    partition and marked its map entry, and has changed no other byte of the
    disk - provided the partition begins after its map entry. *)
Theorem install_writes dev code preboot dev' :
  bytes_ok dev -> install false dev code preboot = inr dev' ->
  exists bp mp stage, read_sb dev = inr bp /\ boot_entry_of dev bp mp
    /\ stage_bytes code preboot = inr stage /\ length dev' = length dev
    /\ let at_entry := bp_index bp * bp_secsize bp in
       let at_stage := bp_doff bp * 512 in
       let n := Z.of_nat (length stage) in
       (at_entry + 512 <= at_stage ->
        slice dev' at_stage n = stage
        /\ slice dev' at_entry 512 = bootable_entry mp n IQUIK_BASE
        /\ forall o k, 0 <= o -> 0 <= k -> apart o k at_entry 512 -> apart o k at_stage n ->
             slice dev' o k = slice dev o k).
Proof.
  intros Hok H. unfold install in H. destruct (read_sb dev) as [e|bp] eqn:Eb; [done|].
  destruct (read_sb_secsize dev bp Hok Eb) as (mp & He). pose proof He as (Hr & Hi & _ & _ & Hd & Hsec).
  unfold install_stage in H. destruct (stage_bytes code preboot) as [e|stage]; [done|].
  assert (Hdoff : 0 <= bp_doff bp * 512).
  { rewrite Hd. apply read_block_some in Hr as [-> _]; [|nia].
    assert (0 <= mp_start_block (slice dev (bp_index bp * bp_secsize bp) 512))
      by (apply be32_range; by apply bytes_ok_slice).
    assert (0 <= Z.shiftr (bp_secsize bp) 9) by (apply Z.shiftr_nonneg; lia). nia. }
  destruct (do_write false dev _ stage) as [d1|] eqn:E1; [|done].
  apply do_write_some in E1 as [E1 L1]; [|done].
  unfold make_bootable in H. destruct (Z.eqb_spec (bp_index bp) 0) as [?|_]; [lia|].
  destruct (read_block d1 _) as [mp1|] eqn:Er1; [|done]. set (n := Z.of_nat (length stage)) in *.
  destruct (do_write false d1 _ _) as [d2|] eqn:E2; [|done]. injection H as ->.
  apply do_write_some in E2 as [E2 L2]; [|nia].
  pose proof (read_block_some _ (bp_index bp * bp_secsize bp) _ ltac:(nia) Hr) as [Emp Hin].
  pose proof (read_block_some _ (bp_index bp * bp_secsize bp) _ ltac:(nia) Er1) as [Emp1 Hin1].
  assert (Hl1 : length d1 = length dev) by (rewrite E1; by apply splice_length).
  assert (Hlmp1 : length mp1 = 512%nat).
  { pose proof (slice_length d1 (bp_index bp * bp_secsize bp) 512). rewrite Emp1. nia. }
  pose proof (bootable_entry_length mp1 n IQUIK_BASE Hlmp1) as Hlo.
  set (at_entry := bp_index bp * bp_secsize bp) in *. assert (Hae : 0 <= at_entry) by (unfold at_entry; nia).
  exists bp, mp, stage. split_and!; try done.
  { rewrite E2, splice_length by (rewrite ?Hlo; lia). done. }
  intros at_e at_s n' Hlt. subst at_e at_s n'. assert (Emm : mp1 = mp).
  { rewrite Emp1, Emp, E1. apply splice_apart; [lia..|]. by left. }
  rewrite Emm in *. split_and!.
  - rewrite E2, splice_apart; [|lia|lia|lia|lia|right; rewrite Hlo; lia].
    rewrite E1. by apply slice_splice.
  - pose proof (slice_splice d1 at_entry _ Hae L2) as Hs. rewrite Hlo in Hs. by rewrite E2.
  - intros o k Ho Hk A1 A2. rewrite E2, splice_apart; [|lia|lia|lia|lia|rewrite Hlo; exact A1].
    rewrite E1. by apply splice_apart.
Qed.

(** ** The extractor *)

(** A loadable segment of a file: offset, size in the file, address. *)
Record fseg := mk_fseg { fs_offset : Z; fs_size : Z; fs_vaddr : Z }.

(** The program headers at [pos], those that are loadable giving [segs]. *)
Inductive headers_at (f : list Z) : Z -> nat -> list fseg -> Prop :=
| headers_nil pos : headers_at f pos O []
| headers_skip pos n segs :
    pos + SIZEOF_PHDR <= Z.of_nat (length f) -> p_type f pos <> PT_LOAD ->
    headers_at f (pos + SIZEOF_PHDR) n segs -> headers_at f pos (S n) segs
| headers_load pos n segs :
    pos + SIZEOF_PHDR <= Z.of_nat (length f) -> p_type f pos = PT_LOAD ->
    headers_at f (pos + SIZEOF_PHDR) n segs ->
    headers_at f pos (S n) (mk_fseg (p_offset f pos) (p_filesz f pos) (p_vaddr f pos) :: segs).

(** Segments in file order, none empty or linked at 0, inside 4G. *)
Definition fsegs_ok (segs : list fseg) : Prop :=
  Forall (fun s => 0 < fs_size s /\ 0 <= fs_offset s /\ fs_offset s + fs_size s < 4294967296
                   /\ fs_vaddr s <> 0) segs
  /\ StronglySorted (fun a b => fs_offset a <= fs_offset b) segs.

Lemma rd_header f pos : 0 <= pos -> pos + SIZEOF_PHDR <= Z.of_nat (length f) ->
  exists ph, rd f pos SIZEOF_PHDR = Some ph /\ p_type ph 0 = p_type f pos
    /\ p_offset ph 0 = p_offset f pos /\ p_filesz ph 0 = p_filesz f pos /\ p_vaddr ph 0 = p_vaddr f pos.
Proof.
  intros Hp Hl. unfold SIZEOF_PHDR in *. rewrite rd_in by lia. eexists. split; [reflexivity|].
  unfold p_type, p_offset, p_filesz, p_vaddr.
  rewrite !be32_slice by lia. by rewrite !Z.add_0_r, ?Z.add_0_l.
Qed.

(** The scan after the first segment. *)
Lemma scan_more f pos n segs s0 s :
  headers_at f pos n segs -> 0 <= pos -> fsegs_ok (s0 :: segs) ->
  fs_offset s0 <= fs_offset s -> 0 < fs_size s -> fs_offset s + fs_size s < 4294967296 -> fs_vaddr s <> 0 ->
  scan_phdrs n f pos (fs_offset s0) (fs_offset s + fs_size s - fs_offset s0) (fs_vaddr s)
  = let l := List.last segs s in inr (fs_offset s0, fs_offset l + fs_size l - fs_offset s0).
Proof.
  intros Hh. revert s. induction Hh as [pos|pos n segs Hl Ht Hh IH|pos n segs Hl Ht Hh IH];
    intros s Hp Hok H1 H2 H3 H4; cbn [scan_phdrs]; [done| |];
    destruct (rd_header f pos Hp Hl) as (ph & -> & -> & -> & -> & ->).
  - destruct (Z.eqb_spec (p_type f pos) PT_LOAD); [done|]. cbn [negb]. unfold SIZEOF_PHDR in *.
    apply IH; try done; lia.
  - rewrite Ht, Z.eqb_refl. cbn [negb].
    destruct (Z.eqb_spec (fs_offset s + fs_size s - fs_offset s0) 0); [lia|].
    destruct (Z.eqb_spec (fs_vaddr s) 0); [done|]. cbn [orb].
    set (x := mk_fseg (p_offset f pos) (p_filesz f pos) (p_vaddr f pos)) in *.
    destruct Hok as [Hf Hs]. rewrite !Forall_cons in Hf. destruct Hf as (F0 & (X1 & X2 & X3 & X4) & Hf).
    apply StronglySorted_inv in Hs as [Hs Hle]. rewrite Forall_cons in Hle. destruct Hle as [Hx Hle].
    apply StronglySorted_inv in Hs as [Hs _].
    change (p_offset f pos) with (fs_offset x). change (p_filesz f pos) with (fs_size x).
    change (p_vaddr f pos) with (fs_vaddr x).
    rewrite u32_small, u64_small by lia. rewrite (IH x); try done.
    + by rewrite last_cons.
    + unfold SIZEOF_PHDR. lia.
    + split; by constructor.
Qed.

Lemma scan_first f pos n s0 segs :
  headers_at f pos n (s0 :: segs) -> 0 <= pos -> fsegs_ok (s0 :: segs) ->
  scan_phdrs n f pos 0 0 0
  = let l := List.last segs s0 in inr (fs_offset s0, fs_offset l + fs_size l - fs_offset s0).
Proof.
  remember (s0 :: segs) as all eqn:Eall. intros Hh.
  induction Hh as [pos|pos n segs' Hl Ht Hh IH|pos n segs' Hl Ht Hh _]; intros Hp Hok; [done| |];
    cbn [scan_phdrs]; destruct (rd_header f pos Hp Hl) as (ph & -> & -> & -> & -> & ->).
  - destruct (Z.eqb_spec (p_type f pos) PT_LOAD); [done|]. cbn [negb]. unfold SIZEOF_PHDR in *.
    apply IH; [done|lia|done].
  - rewrite Ht, Z.eqb_refl. cbn [negb]. change (0 =? 0) with true. cbn [orb].
    injection Eall as <- <-. set (x := mk_fseg _ _ _) in *.
    pose proof Hok as [Hf _]. rewrite Forall_cons in Hf. destruct Hf as ((X1 & X2 & X3 & X4) & _).
    pose proof (scan_more f (pos + SIZEOF_PHDR) n segs' x x Hh ltac:(unfold SIZEOF_PHDR; lia) Hok) as E.
    replace (fs_offset x + fs_size x - fs_offset x) with (fs_size x) in E by lia.
    apply E; done || lia.
Qed.

(** C36: From an ELF file whose loadable segments are in file order, none of them empty
    or linked at address 0, the extractor writes exactly the bytes from the start of the first to the end of the last,
    when they are no more than the loader may occupy. *)
Theorem elfextract_span f n s0 segs :
  SIZEOF_EHDR <= Z.of_nat (length f) ->
  e_ident f 0 = 0x7f /\ e_ident f 1 = chr "E" /\ e_ident f 2 = chr "L" /\ e_ident f 3 = chr "F" ->
  e_phnum f = Z.of_nat n -> 0 <= e_phoff f -> headers_at f (e_phoff f) n (s0 :: segs) ->
  fsegs_ok (s0 :: segs) ->
  let l := List.last segs s0 in
  let len := fs_offset l + fs_size l - fs_offset s0 in
  0 < len <= IQUIK_SIZE -> fs_offset s0 + len <= Z.of_nat (length f) ->
  elfextract f = inr (slice f (fs_offset s0) len).
Proof.
  intros Hl Hm Hn Hp Hh Hok l len Hlen Hin. unfold elfextract, SIZEOF_EHDR in *.
  rewrite rd_in by lia. unfold e_ident, e_phnum, e_phoff in *.
  rewrite !byte_at_slice, be16_slice, be32_slice by lia. rewrite !Z.add_0_l.
  destruct Hm as (-> & -> & -> & ->). rewrite !Z.eqb_refl. cbn [andb negb].
  rewrite Hn, Nat2Z.id.
  assert (Es : scan_phdrs n f (be32 f 28) 0 0 0 = inr (fs_offset s0, len)) by exact (scan_first f _ n s0 segs Hh Hp Hok).
  rewrite Es. assert (En : (len =? 0) = false) by (apply Z.eqb_neq; lia). rewrite En.
  destruct (Z.ltb_spec IQUIK_SIZE len); [lia|]. assert (IQUIK_SIZE < 4294967296) by done.
  rewrite (u32_small len) by lia. destruct Hok as [Hf _]. rewrite Forall_cons in Hf.
  destruct Hf as ((X1 & X2 & X3 & X4) & _).
  apply copy_loop_slice; [lia|lia|lia|]. unfold BUF_SIZE. Z.div_mod_to_equations. lia.
Qed.

(** ** Witnesses *)

(** A disk whose second map entry is an Apple_Bootstrap partition of two blocks. *)
Definition boot_disk : list Z :=
  enc_be16 MAC_DRIVER_MAGIC ++ enc_be16 512 ++ replicate 508 0
  ++ mac_entry 1 2 0 [] ++ put (mac_entry 3 2 0 []) 48 APPLE_BOOT_TYPE
  ++ replicate 1024 0 ++ replicate 512 7.

Definition boot_code : list Z := replicate 20 0x60 ++ enc_be32 PREBOOT_MAGIC.

Lemma boot_disk_ok : bytes_ok boot_disk.
Proof. by_eval. Qed.

Lemma read_sb_found_witness :
  exists mp, boot_entry_of boot_disk (mk_boot_part 2 3 512) mp.
Proof.
  assert (E : read_sb boot_disk = inr (mk_boot_part 2 3 512)) by (by vm_compute).
  pose proof (read_sb_found boot_disk boot_disk_ok) as H. rewrite E in H. exact H.
Defined.

Lemma installed_entry_boots_witness :
  let out := bootable_entry (slice boot_disk 1024 512) 25 IQUIK_BASE in
  mac_match out 0 7 = true
  /\ mp_boot_size out = 25 /\ mp_boot_load out = IQUIK_BASE /\ mp_boot_entry out = IQUIK_BASE
  /\ slice out 0 88 = slice (slice boot_disk 1024 512) 0 88 /\ length out = 512%nat.
Proof.
  refine (installed_entry_boots (slice boot_disk 1024 512) 25 IQUIK_BASE 7 _ _ _ _).
  - by vm_compute.
  - by_eval.
  - lia.
  - by vm_compute.
Defined.

(** The disk with the code and a script on it. *)
Definition installed_disk : list Z :=
  match install false boot_disk boot_code (Some (str "boot")) with inr d => d | inl _ => [] end.

Lemma install_writes_witness :
  exists bp mp stage, read_sb boot_disk = inr bp /\ boot_entry_of boot_disk bp mp
    /\ stage_bytes boot_code (Some (str "boot")) = inr stage /\ length installed_disk = length boot_disk
    /\ let at_entry := bp_index bp * bp_secsize bp in
       let at_stage := bp_doff bp * 512 in
       let n := Z.of_nat (length stage) in
       (at_entry + 512 <= at_stage ->
        slice installed_disk at_stage n = stage
        /\ slice installed_disk at_entry 512 = bootable_entry mp n IQUIK_BASE
        /\ forall o k, 0 <= o -> 0 <= k -> apart o k at_entry 512 -> apart o k at_stage n ->
             slice installed_disk o k = slice boot_disk o k).
Proof.
  refine (install_writes boot_disk boot_code (Some (str "boot")) installed_disk boot_disk_ok _).
  vm_compute. reflexivity.
Defined.

(** A file of a note and one segment of eight bytes. *)
Definition tool_elf : list Z :=
  demo_ehdr 2 ++ demo_phdr 4 116 0 0 ++ demo_phdr 1 116 0x3e0000 8 ++ [1; 2; 3; 4; 5; 6; 7; 8].

Lemma elfextract_span_witness : elfextract tool_elf = inr (slice tool_elf 116 8).
Proof.
  refine (elfextract_span tool_elf 2 (mk_fseg 116 8 0x3e0000) [] _ _ _ _ _ _ _ _).
  - by vm_compute.
  - split_and!; by vm_compute.
  - by vm_compute.
  - by vm_compute.
  - apply headers_skip; [by vm_compute|by vm_compute|].
    apply (headers_load tool_elf (e_phoff tool_elf + SIZEOF_PHDR) 0 []); [by vm_compute|by vm_compute|constructor].
  - split; repeat constructor; cbn; lia.
  - cbn. unfold IQUIK_SIZE. lia.
  - by vm_compute.
Defined.
