(* ===== verification/InstallMain.v ===== *)
(** * The installer on its host (installer/iquik.c)

    Options, the kind of machine, the device to install to, and the run of [main].
    The host - its files, what [stat] says of them, the entries of /dev, the
    environment - is data ([host]); so is what [getopt] makes of the arguments.
    Messages on standard output are not modelled. *)
From Stdlib Require Import ZArith Lia Ascii.
From stdpp Require Import prelude strings.
From S2P Require Import Prelude Quik CString Util Malloc Printf Machine Prom Part Installer InstallCorrect.

Definition DFL_BOOTBLOCK : cstr := str "/boot/iquik.b".
Definition SD_MAJOR : Z := 8.
Definition HDA_MAJOR : Z := 3.
Definition HDC_MAJOR : Z := 22.
Definition HDE_MAJOR : Z := 33.
Definition HDG_MAJOR : Z := 34.
Definition MAJOR (dev : Z) : Z := Z.shiftr dev 8.

(** ** The host *)

(** The part of [struct stat] that is read. *)
Record stat_t := mk_stat { st_dev : Z; st_rdev : Z; st_blk : bool; st_lnk : bool }.

Record host := mk_host {
  h_read : cstr -> option (list Z);      (* a file or device that can be opened *)
  h_stat : cstr -> option stat_t;
  h_lstat : cstr -> option stat_t;
  h_readlink : cstr -> option cstr;
  h_readdir : cstr -> option (list cstr);
  h_getenv : cstr -> option cstr
}.

(** [fgets] with room for [n] characters: what it stored, what is left of the file, and
    whether it met the end. *)
Fixpoint fgets (n : nat) (rest : list Z) : list Z * list Z * bool :=
  match n, rest with
  | O, _ => ([], rest, false)
  | S _, [] => ([], [], true)
  | S n', c :: rest' =>
      if c =? 10 then ([c], rest', false)
      else let '(l, r, eof) := fgets n' rest' in (c :: l, r, eof)
  end.

(** ** am_i_newworld *)

Definition NEWWORLD : cstr := str "pmac-generation" ++ [9] ++ str ": NewWorld".

Fixpoint newworld_loop (fuel : nat) (rest : list Z) : option bool :=
  match fuel with
  | O => None
  | S fuel' =>
      let '(l, rest, eof) := fgets 255 rest in
      if negb (Nat.eqb (length l) 0) && (strcmp (until_nul l) (NEWWORLD ++ [10]) =? 0) then Some true
      else if eof then Some false
      else newworld_loop fuel' rest
  end.

(** A round that does not end the loop reads a character. *)
Definition am_i_newworld (h : host) : outcome fatal_t bool :=
  match h_read h (str "/proc/cpuinfo") with
  | None => Err FatalCpuinfo
  | Some f => match newworld_loop (S (length f)) f with Some b => Ok b | None => Undef OutOfFuel end
  end.

(** ** find_dev *)

Definition DEVNAME : cstr := str "/dev".

(** An entry that cannot be looked at ends the search. *)
Fixpoint find_dev_loop (h : host) (number : Z) (names : list cstr) : option cstr :=
  match names with
  | [] => None
  | n :: names' =>
      let name := DEVNAME ++ str "/" ++ n in
      match h_stat h name with
      | None => None
      | Some s =>
          if st_blk s && (st_rdev s =? number) then Some name else find_dev_loop h number names'
      end
  end.

(** The number is an [int] and is compared as a 64-bit one. *)
Definition find_dev (h : host) (number : Z) : option cstr :=
  if s32 number =? 0 then None
  else
    match h_readdir h DEVNAME with
    | None => None
    | Some names => find_dev_loop h (u64 (s32 number)) names
    end.

(** ** resolve_to_dev *)

(** The size of the buffers a link is read into and put together in. *)
Definition LINK_SIZE : Z := 2048.

(** The path with the link [trunc] replaced by its target; [rest] is what followed it. *)
Definition splice_link (trunc link : cstr) (rest : option cstr) : cstr :=
  let b := if hd 0 link =? chr "/" then link else trunc ++ str "/" ++ link in
  match rest with
  | None => b
  | Some r => (if List.last b 0 =? chr "/" then b else b ++ str "/") ++ r
  end.

(** The rest of [buffer] after the first prefix that is on the device; the search goes
    on at offset [p].  Without a further separator the code writes through NULL. *)
Fixpoint resolve_loop (fuel : nat) (h : host) (dev : Z) (buffer : cstr) (p : nat)
  : outcome fatal_t cstr :=
  match fuel with
  | O => Undef OutOfFuel
  | S fuel' =>
      let q := strchr (drop p buffer) (chr "/") in
      let trunc := match q with Some s => take (length buffer - length s) buffer | None => buffer end in
      let fn := match trunc with [] => str "/" | _ => trunc end in
      match h_lstat h fn with
      | None => Err FatalStat
      | Some st =>
          if st_dev st =? dev then match q with Some s => Ok s | None => Undef NullDeref end
          else if st_lnk st then
            match h_readlink h trunc with
            | None => Err FatalReadlink
            | Some link =>
                let b := splice_link trunc link (option_map (drop 1) q) in
                if (strlen link <? LINK_SIZE) && (strlen b <? LINK_SIZE)
                then resolve_loop fuel' h dev b 1 else Undef OutOfBounds
            end
          else
            match q with
            | Some s => resolve_loop fuel' h dev buffer (length buffer - length s + 1)
            | None => Undef NullDeref
            end
      end
  end.

Definition resolve_to_dev (fuel : nat) (h : host) (buffer : cstr) (dev : Z) : outcome fatal_t cstr :=
  resolve_loop fuel h dev buffer O.

(** ** Options *)

Record opts := mk_opts {
  o_root : option cstr; o_dev : option cstr; o_name : cstr; o_preboot : option cstr;
  o_verbose : bool; o_test : bool; o_version : bool
}.
Definition opts_init : opts := mk_opts None None DFL_BOOTBLOCK None false false false.

(** One result of [getopt]; None for the one that prints the usage and exits.  An
    unknown option is passed over. *)
Definition opt_step (o : opts) (c : Z) (optarg : cstr) : option opts :=
  if c =? chr "p" then Some (mk_opts (o_root o) (o_dev o) (o_name o) (Some optarg) (o_verbose o) (o_test o) (o_version o))
  else if c =? chr "b" then Some (mk_opts (o_root o) (o_dev o) optarg (o_preboot o) (o_verbose o) (o_test o) (o_version o))
  else if c =? chr "r" then Some (mk_opts (Some optarg) (o_dev o) (o_name o) (o_preboot o) (o_verbose o) (o_test o) (o_version o))
  else if c =? chr "v" then Some (mk_opts (o_root o) (o_dev o) (o_name o) (o_preboot o) true (o_test o) (o_version o))
  else if c =? chr "T" then Some (mk_opts (o_root o) (o_dev o) (o_name o) (o_preboot o) (o_verbose o) true (o_version o))
  else if c =? chr "V" then Some (mk_opts (o_root o) (o_dev o) (o_name o) (o_preboot o) (o_verbose o) (o_test o) true)
  else if c =? chr "h" then None
  else if c =? chr "d" then Some (mk_opts (o_root o) (Some optarg) (o_name o) (o_preboot o) (o_verbose o) (o_test o) (o_version o))
  else Some o.

Fixpoint opt_loop (o : opts) (args : list (Z * cstr)) : option opts :=
  match args with
  | [] => Some o
  | (c, optarg) :: args' =>
      match opt_step o c optarg with Some o => opt_loop o args' | None => None end
  end.

(** ** main *)

(** The device when none is given, by the device number of the boot block's file. *)
Definition pick_device (h : host) (dev : Z) : fatal_t + cstr :=
  let m := MAJOR dev in
  if m =? SD_MAJOR then inr (str "/dev/sda")
  else if m =? HDA_MAJOR then inr (str "/dev/hda")
  else if m =? HDC_MAJOR then inr (str "/dev/hdc")
  else if m =? HDE_MAJOR then inr (str "/dev/hde")
  else if m =? HDG_MAJOR then inr (str "/dev/hdg")
  else match find_dev h dev with Some d => inr d | None => inl FatalNoDevice end.

(** How the program ends. *)
Inductive ending : Type := Exit (code : Z) | Fatal (e : fatal_t) | Ub (u : ub).

(** The disk after the calls of [main] on it, and how they end: an error after the
    stage was written leaves it written. *)
Definition install_disk (test_mode : bool) (h : host) (name : cstr) (preboot : option cstr) (dev : list Z)
  : list Z * ending :=
  match read_sb dev with
  | inl e => (dev, Fatal e)
  | inr bp =>
      match h_read h name with
      | None => (dev, Fatal FatalOpenCode)
      | Some code =>
          match match preboot with
                | None => Some None
                | Some p => option_map Some (h_read h p)
                end with
          | None => (dev, Fatal FatalOpenScript)
          | Some script =>
              match install_stage test_mode dev code script (bp_doff bp) with
              | inl e => (dev, Fatal e)
              | inr (stage_size, dev) =>
                  match make_bootable test_mode dev (bp_secsize bp) (bp_index bp) stage_size IQUIK_BASE with
                  | inl e => (dev, Fatal e)
                  | inr dev => (dev, Exit 0)
                  end
              end
          end
      end
  end.

(** The device installed to, if any: its name, its bytes before and after; and the
    ending.  [operands] are the arguments [getopt] leaves. *)
Definition main (h : host) (args : list (Z * cstr)) (operands : list cstr)
  : option (cstr * list Z * list Z) * ending :=
  match opt_loop opts_init args with
  | None => (None, Exit 1)
  | Some o =>
      if o_version o then (None, Exit 0)
      else if negb (Nat.eqb (length operands) 0) then (None, Exit 1)
      else
        let new_root := match o_root o with Some r => Some r | None => h_getenv h (str "ROOT") end in
        let name := chrootcpy new_root (o_name o) in
        match h_stat h name with
        | None => (None, Fatal FatalNoBootBlock)
        | Some st1 =>
            match match o_dev o with
                  | Some d => Ok (inr d)
                  | None =>
                      match am_i_newworld h with
                      | Ok true => Ok (inl FatalNewWorld)
                      | Ok false => Ok (pick_device h (st_dev st1))
                      | Err e => Ok (inl e)
                      | Undef u => Undef (E := fatal_t) u
                      end
                  end with
            | Undef u => (None, Ub u)
            | Err e | Ok (inl e) => (None, Fatal e)
            | Ok (inr basedev) =>
                match h_read h basedev with
                | None => (None, Fatal FatalOpenDevice)
                | Some dev =>
                    let '(dev', e) := install_disk (o_test o) h name (o_preboot o) dev in
                    (Some (basedev, dev, dev'), e)
                end
            end
        end
  end.

(** ** Lemmas *)

Lemma fgets_line l n rest :
  10 ∉ l -> (length l < n)%nat -> fgets n (l ++ 10 :: rest) = (l ++ [10], rest, false).
Proof.
  revert n. induction l as [|c l IH]; intros [|n] Hl Hn; simpl in Hn; try lia; [done|].
  cbn [app fgets]. destruct (Z.eqb_spec c 10) as [->|]; [ns_list|]. by rewrite IH by (ns_list || lia).
Qed.

(** A round reads something or meets the end. *)
Lemma fgets_left n rest l r eof :
  (0 < n)%nat -> fgets n rest = (l, r, eof) -> eof = true \/ (length r < length rest)%nat.
Proof.
  revert rest l r eof. induction n as [|n IH]; intros rest l r eof Hn H; [lia|].
  destruct rest as [|c rest]; cbn [fgets] in H; [left; by injection H|].
  destruct (c =? 10); [injection H as _ <- _; right; simpl; lia|].
  destruct (fgets n rest) as [[l' r'] eof'] eqn:E. injection H as _ -> ->.
  destruct n as [|n]; [cbn in E; injection E as _ <- _; right; simpl; lia|].
  destruct (IH _ _ _ _ ltac:(lia) E) as [->|]; [by left|right; simpl; lia].
Qed.

Lemma newworld_ends fuel f : (length f < fuel)%nat -> newworld_loop fuel f <> None.
Proof.
  revert f. induction fuel as [|fuel IH]; intros f Hf; [lia|]. cbn [newworld_loop].
  destruct (fgets 255 f) as [[l r] eof] eqn:E. destruct (_ && _); [done|].
  apply fgets_left in E; [|lia]. destruct eof; [done|]. destruct E as [?|E]; [done|]. apply IH. lia.
Qed.

Lemma until_nul_split l r : 0 ∉ l -> until_nul (l ++ r) = l ++ until_nul r.
Proof.
  induction l as [|c l IH]; intros Hl; [done|]. cbn. destruct (Z.eqb_spec c 0) as [->|]; [ns_list|].
  rewrite IH by ns_list. done.
Qed.

(** A line as the file has it: no newline, no NUL, and short enough for the buffer. *)
Definition line_ok (l : cstr) : Prop := (10 ∉ l) /\ cstr_ok l /\ (length l < 255)%nat.

Definition text_of (lines : list cstr) : list Z := flat_map (fun l => l ++ [10]) lines.

Lemma cstr_ok_no_nul l : cstr_ok l -> 0 ∉ l.
Proof.
  intros H Hin. unfold cstr_ok in H. rewrite Forall_forall in H. specialize (H 0 Hin). lia.
Qed.

Lemma newworld_lines lines : Forall line_ok lines -> forall fuel,
  (length (text_of lines) < fuel)%nat ->
  newworld_loop fuel (text_of lines) = Some (existsb (fun l => bool_decide (l = NEWWORLD)) lines).
Proof.
  induction 1 as [|l lines (H10 & Hok & Hlen) Hlines IH]; intros [|fuel] Hf; [lia..|done|lia|].
  cbn [text_of flat_map newworld_loop existsb]. fold (text_of lines).
  rewrite <- app_assoc. cbn [app]. rewrite fgets_line by (done || lia).
  rewrite until_nul_split by (by apply cstr_ok_no_nul). change (until_nul [10]) with [10].
  assert (Hne : Nat.eqb (length (l ++ [10])) 0 = false) by (rewrite length_app; apply Nat.eqb_neq; simpl; lia).
  rewrite Hne. cbn [negb andb].
  assert (Hcmp : (strcmp (l ++ [10]) (NEWWORLD ++ [10]) =? 0) = bool_decide (l = NEWWORLD)).
  { apply eq_true_iff_eq. rewrite Z.eqb_eq, bool_decide_eq_true, strcmp_eq.
    - split; [by intros ->%app_inv_tail|by intros ->].
    - apply Forall_app. split; [done|]. by constructor.
    - by_eval. }
  rewrite Hcmp. destruct (bool_decide (l = NEWWORLD)); [done|]. apply IH.
  unfold text_of in Hf. cbn [flat_map] in Hf. rewrite !length_app in Hf. simpl in Hf. unfold text_of. lia.
Qed.

(** *** Options *)

(** The case analysis of [opt_step]: every option sets one field. *)
Ltac opt_cases :=
  unfold opt_step;
  repeat match goal with
  | |- context [if ?c =? ?k then _ else _] => destruct (Z.eqb_spec c k)
  end.

Lemma opt_step_test o c a o' :
  opt_step o c a = Some o' -> o_test o = true \/ c = chr "T" -> o_test o' = true.
Proof.
  opt_cases; intros [= <-] [Ht|Hc]; try done; subst c; unfold_chr; lia.
Qed.

Lemma opt_step_keeps o c a o' :
  opt_step o c a = Some o' ->
  (c <> chr "d" -> o_dev o' = o_dev o) /\ (c <> chr "V" -> o_version o' = o_version o)
  /\ (c <> chr "r" -> o_root o' = o_root o) /\ (c <> chr "b" -> o_name o' = o_name o).
Proof. opt_cases; intros [= <-]; split_and!; done. Qed.

Lemma opt_loop_test args : forall o o',
  opt_loop o args = Some o' -> o_test o = true \/ Exists (fun a => fst a = chr "T") args -> o_test o' = true.
Proof.
  induction args as [|[c a] args IH]; intros o o' H Ht; cbn [opt_loop] in H.
  - injection H as <-. destruct Ht as [?|Ht]; [done|by inversion Ht].
  - destruct (opt_step o c a) as [o1|] eqn:E; [|done]. apply (IH o1 _ H).
    destruct Ht as [Ht|Ht]; [left; eapply opt_step_test; [exact E|by left]|].
    inversion_clear Ht as [? ? Hc|? ? Hc]; [left; eapply opt_step_test; [exact E|by right]|by right].
Qed.

(** Options other than [-d], [-V], [-r] and [-b] leave what they set as it was. *)
Lemma opt_loop_keeps args : forall o o',
  opt_loop o args = Some o' ->
  Forall (fun a => fst a <> chr "d" /\ fst a <> chr "V" /\ fst a <> chr "r" /\ fst a <> chr "b") args ->
  o_dev o' = o_dev o /\ o_version o' = o_version o /\ o_root o' = o_root o /\ o_name o' = o_name o.
Proof.
  induction args as [|[c a] args IH]; intros o o' H Hf; cbn [opt_loop] in H; [by injection H as <-|].
  destruct (opt_step o c a) as [o1|] eqn:E; [|done]. apply Forall_cons in Hf as [(F1 & F2 & F3 & F4) Hf'].
  destruct (opt_step_keeps _ _ _ _ E) as (G1 & G2 & G3 & G4).
  destruct (IH o1 o' H Hf') as (-> & -> & -> & ->). split_and!; [by apply G1|by apply G2|by apply G3|by apply G4].
Qed.

Lemma install_disk_dry h name preboot dev : fst (install_disk true h name preboot dev) = dev.
Proof.
  unfold install_disk. destruct (read_sb dev) as [e|bp]; [done|].
  destruct (h_read h name) as [code|]; [|done].
  destruct (match preboot with Some p => _ | None => _ end) as [script|]; [|done].
  unfold install_stage. destruct (stage_bytes code script) as [e|b]; [done|].
  cbn [do_write]. unfold make_bootable. destruct (_ =? 0); [done|].
  destruct (read_block dev _); done.
Qed.

(** ** Properties *)

(** C20: With [-T] among the options no byte of any device is changed, whatever the host,
    the other options and the way the run ends. *)
Theorem dry_run_writes_nothing h args operands d dev dev' e :
  Exists (fun a => fst a = chr "T") args ->
  main h args operands = (Some (d, dev, dev'), e) -> dev' = dev.
Proof.
  intros Ht H. unfold main in H. destruct (opt_loop opts_init args) as [o|] eqn:Eo; [|done].
  pose proof (opt_loop_test args _ _ Eo (or_intror Ht)) as Htest.
  destruct (o_version o); [done|]. destruct (negb _); [done|].
  destruct (h_stat h _) as [st1|]; [|done].
  destruct (match o_dev o with Some _ => _ | None => _ end) as [[e'|basedev]|e'|u]; [done| |done|done].
  destruct (h_read h basedev) as [dev0|]; [|done]. rewrite Htest in H.
  pose proof (install_disk_dry h (chrootcpy match o_root o with Some r => Some r | None => h_getenv h (str "ROOT") end
    (o_name o)) (o_preboot o) dev0) as Hd.
  destruct (install_disk true h _ (o_preboot o) dev0) as [d1 e1]. by injection H as _ <- <- _.
Qed.

(** Whether the machine is a New World one is decided by the line
    [pmac-generation : NewWorld] of /proc/cpuinfo, wherever it stands among lines that
    fit the buffer; and on such a machine a run that names no device is refused before
    any device is opened. *)
Theorem newworld_refused h lines args operands st o :
  Forall line_ok lines -> h_read h (str "/proc/cpuinfo") = Some (text_of lines) ->
  am_i_newworld h = Ok (existsb (fun l => bool_decide (l = NEWWORLD)) lines)
  /\ (NEWWORLD ∈ lines -> opt_loop opts_init args = Some o -> operands = [] ->
      Forall (fun a => fst a <> chr "d" /\ fst a <> chr "V" /\ fst a <> chr "r" /\ fst a <> chr "b") args ->
      h_stat h (chrootcpy (h_getenv h (str "ROOT")) DFL_BOOTBLOCK) = Some st ->
      main h args operands = (None, Fatal FatalNewWorld)).
Proof.
  intros Hlines Hread.
  assert (Hnw : am_i_newworld h = Ok (existsb (fun l => bool_decide (l = NEWWORLD)) lines)).
  { unfold am_i_newworld. rewrite Hread, newworld_lines by (done || lia). done. }
  split; [done|]. intros Hin Ho -> Hargs Hst. unfold main. rewrite Ho.
  destruct (opt_loop_keeps _ _ _ Ho Hargs) as (-> & -> & -> & ->). cbn [opts_init o_dev o_version o_root o_name].
  cbn [length Nat.eqb negb]. rewrite Hst, Hnw.
  assert (existsb (fun l => bool_decide (l = NEWWORLD)) lines = true) as ->; [|done].
  apply existsb_exists. exists NEWWORLD. split; [by apply list_elem_of_In|by apply bool_decide_eq_true].
Qed.

(** ** Witnesses *)

(** A machine of 2001, with a disk and the boot block's file. *)
Definition demo_cpuinfo : list cstr :=
  [str "processor" ++ [9] ++ str ": 0"; NEWWORLD; str "machine" ++ [9] ++ str ": PowerMac3,4"].
Definition demo_host : host :=
  mk_host (fun p => if decide (p = str "/proc/cpuinfo") then Some (text_of demo_cpuinfo)
                    else if decide (p = str "/dev/sdb") then Some boot_disk
                    else if decide (p = DFL_BOOTBLOCK) then Some boot_code else None)
    (fun p => if decide (p = DFL_BOOTBLOCK) then Some (mk_stat 2050 0 false false) else None)
    (fun _ => None) (fun _ => None) (fun _ => None) (fun _ => None).

(** The same arguments without [-T] install. *)
Definition wet_run := main demo_host [(chr "d", str "/dev/sdb")] [].
Definition dry_run := main demo_host [(chr "T", []); (chr "d", str "/dev/sdb")] [].

Definition disk_after (r : option (cstr * list Z * list Z) * ending) : list Z :=
  match fst r with Some (_, _, d) => d | None => [] end.

Lemma dry_run_writes_nothing_witness :
  snd dry_run = Exit 0 /\ disk_after dry_run = boot_disk
  /\ snd wet_run = Exit 0 /\ disk_after wet_run <> boot_disk.
Proof.
  split_and!; [by vm_compute| |by vm_compute|by_eval].
  refine (dry_run_writes_nothing demo_host [(chr "T", []); (chr "d", str "/dev/sdb")] [] (str "/dev/sdb")
    boot_disk (disk_after dry_run) (Exit 0) _ _); [by left|vm_compute; reflexivity].
Defined.

Lemma newworld_refused_witness :
  main demo_host [(chr "v", [])] [] = (None, Fatal FatalNewWorld).
Proof.
  refine (proj2 (newworld_refused demo_host demo_cpuinfo [(chr "v", [])] [] (mk_stat 2050 0 false false)
    (mk_opts None None DFL_BOOTBLOCK None true false false) _ _) _ _ _ _ _).
  - unfold line_ok. by_eval.
  - vm_compute. reflexivity.
  - unfold demo_cpuinfo. ns_list.
  - vm_compute. reflexivity.
  - reflexivity.
  - by_eval.
  - vm_compute. reflexivity.
Defined.
