(* ===== verification/Memtest.v ===== *)
(** * The memory test (memtest.c)

    Every word of a claimed range is filled with its own address and read back.
    The stores are recorded among the machine's operations on memory; what a word
    reads after them is a parameter: the memory under test need not give back what was
    stored.  What the test tells is what it writes to the console. *)
From Stdlib Require Import ZArith Lia Ascii.
From stdpp Require Import prelude strings.
From S2P Require Import Prelude Quik CString Util Malloc Printf Machine Prom Part Sim.

Section Memtest.
Context {F : Type} {FW : Firmware F}.

(** The base and size asked for, both numbers required. *)
Definition memtest_args (args : cstr) : option (Z * Z) :=
  let '(base, p1) := strtol args 0 in
  if Nat.eqb p1 0 then None
  else
    let rest := drop p1 args in
    let '(size, p2) := strtol rest 0 in
    if Nat.eqb p2 0 then None else Some (u32 base, u32 size).

(** The first loop. *)
Fixpoint fill_loop (fuel : nat) (p end_ : Z) : P F unit :=
  match fuel with
  | O => undef OutOfFuel
  | S fuel' =>
      if p <? end_ then
        (if p mod SIZE_1M =? 0 then printk (str "Writing 0x%x..." ++ [10]) [KNum p] else mret tt);;
        do_op (MemStore p p);;
        fill_loop fuel' (u32 (p + 4)) end_
      else mret tt
  end.

(** [ram ops p]: what the word at [p] reads after the operations [ops]. *)
Definition read_word (ram : list mem_op -> Z -> Z) (p : Z) : P F Z := gets (fun m => ram (m_ops m) p).

(** The second loop. *)
Fixpoint check_loop (fuel : nat) (ram : list mem_op -> Z -> Z) (p end_ : Z) : P F unit :=
  match fuel with
  | O => undef OutOfFuel
  | S fuel' =>
      if p <? end_ then
        (if p mod SIZE_1M =? 0 then printk (str "Reading 0x%x..." ++ [10]) [KNum p] else mret tt);;
        v ← read_word ram p;
        (if negb (v =? p)
         then v ← read_word ram p;
              printk (str "bad address 0x%x, got 0x%x" ++ [10]) [KNum p; KNum v]
         else mret tt);;
        check_loop fuel' ram (u32 (p + 4)) end_
      else mret tt
  end.

Definition memtest (ram : list mem_op -> Z -> Z) (args : cstr) : P F unit :=
  printk (str "memtest args: '%s'" ++ [10]) [KStr (Some args)];;
  match memtest_args args with
  | None => throw ERR_CMD_BAD_PARAM
  | Some (base, size) =>
      let base := ALIGN_UP base SIZE_1M in
      let size := ALIGN_UP size SIZE_1M in
      printk (str "mem test range 0x%x-0x%x" ++ [10]) [KNum base; KNum (u32 (base + size))];;
      buf ← prom_claim base size;
      if buf =? NOT_FOUND then throw ERR_NO_MEM
      else
        let end_ := u32 (buf + size) in
        let fuel := Z.to_nat (size / 4 + 1) in
        fill_loop fuel buf end_;;
        check_loop fuel ram buf end_;;
        prom_release buf size
  end.

End Memtest.

(** ** Interface *)

(** A firmware whose console keeps what is written to it: [con] is the text written to
    the handle [out]. *)
Class ConsoleLog {F : Type} {FW : Firmware F} (out : Z) (con : F -> list Z) : Prop := {
  cl_open : out <> 0;
  cl_write s f r f' :
    prom_entry (str "write") [AInt out; AStr s; AInt (Z.of_nat (length s))] 1 f = (r, f') ->
    con f' = con f ++ s
}.

(** ** Specification *)

(** The words from [p] up to [end_]. *)
Definition words (p : Z) (n : nat) : list Z := map (fun i => p + 4 * Z.of_nat i) (seq 0 n).

(** Text as it reaches the console: a newline goes out as CR LF. *)
Definition tty (s : cstr) : list Z := mjoin (map (fun c => if c =? 10 then [13; 10] else [u8 c]) s).

(** A line from [printk], which sends the string's terminating NUL along. *)
Definition text_line (s : cstr) : list Z := tty (s ++ [10; 0]).

Definition hex (n : Z) : cstr := printknu n 16.

(** The line that shows how far a loop has come, once a megabyte. *)
Definition progress (what : cstr) (p : Z) : list Z :=
  if p mod SIZE_1M =? 0 then text_line (what ++ str " 0x" ++ hex p ++ str "...") else [].

(** The line that reports a word at [p] that reads as [v]; none for a good one. *)
Definition report (p v : Z) : list Z :=
  if v =? p then [] else text_line (str "bad address 0x" ++ hex p ++ str ", got 0x" ++ hex v).

(** The stores of a test of [n] words from [base], in order. *)
Definition test_stores (base : Z) (n : nat) : list mem_op := map (fun a => MemStore a a) (words base n).

(** ** Lemmas *)

Lemma words_S p n : words p (S n) = p :: words (p + 4) n.
Proof.
  unfold words. cbn [seq map]. f_equal; [lia|]. rewrite <- seq_shift, map_map.
  apply map_ext. intros i. lia.
Qed.

Section MemtestFacts.
Context {F : Type} {FW : Firmware F} (out : Z) (con : F -> list Z) {CL : ConsoleLog out con}.

(** [m'] is [m] after [txt] has gone to the console and the operations [ops] have been
    made, and nothing else. *)
Definition logged (txt : list Z) (ops : list mem_op) (m m' : mach F) : Prop :=
  con (m_fw m') = con (m_fw m) ++ txt /\ m_ops m' = rev ops ++ m_ops m /\ same_but_io m m'.

Lemma logged_nil m : logged [] [] m m.
Proof. split; [by rewrite app_nil_r|done]. Qed.

Lemma logged_app t1 o1 t2 o2 m1 m2 m3 :
  logged t1 o1 m1 m2 -> logged t2 o2 m2 m3 -> logged (t1 ++ t2) (o1 ++ o2) m1 m3.
Proof.
  intros (T1 & O1 & S1) (T2 & O2 & S2). split; [by rewrite T2, T1, app_assoc|].
  split; [by rewrite O2, O1, rev_app_distr, app_assoc|by eapply same_but_io_trans].
Qed.

Lemma logged_stdout t o m m' : logged t o m m' -> prom_stdout (m_prom m') = prom_stdout (m_prom m).
Proof. by intros (_ & _ & -> & _). Qed.

(** A computation that writes [txt] and makes [ops]. *)
Definition logs {A} (c : P F A) (txt : list Z) (ops : list mem_op) : Prop :=
  forall m, prom_stdout (m_prom m) = out -> exists a m', c m = (Ok a, m') /\ logged txt ops m m'.

Lemma logs_ret {A} (a : A) : logs (mret a) [] [].
Proof. intros m _. exists a, m. split; [done|apply logged_nil]. Qed.

Lemma logs_bind {A B} (c : P F A) (k : A -> P F B) t1 o1 t2 o2 :
  logs c t1 o1 -> (forall a, logs (k a) t2 o2) -> logs (c ≫= k) (t1 ++ t2) (o1 ++ o2).
Proof.
  intros Hc Hk m Hm. destruct (Hc m Hm) as (a & m1 & E1 & L1).
  destruct (Hk a m1) as (b & m2 & E2 & L2); [by rewrite (logged_stdout _ _ _ _ L1)|].
  exists b, m2. rewrite (bind_ok _ _ _ _ _ E1). split; [done|by eapply logged_app].
Qed.

Lemma logs_write s : logs (call_prom (str "write") [AInt out; AStr s; AInt (Z.of_nat (length s))] 1) s [].
Proof.
  intros m _. unfold call_prom, call_prom_ret, mbind, M_bind, mret, M_ret.
  destruct (prom_entry (str "write") _ 1 (m_fw m)) as [r f] eqn:E. eexists _, _. split; [done|].
  split; [exact (cl_write _ _ _ _ E)|done].
Qed.

Lemma logs_putchar c : logs (putchar c) (if c =? 10 then [13; 10] else [u8 c]) [].
Proof.
  intros m Hm. unfold putchar. rewrite bind_gets, Hm.
  destruct (Z.eqb_spec out 0) as [E|_]; [by destruct (cl_open E)|].
  destruct (Z.eqb_spec c 10) as [->|].
  - exact (logs_bind _ _ [13] [] [10] [] (logs_write [13]) (fun _ => logs_write [10]) m Hm).
  - exact (logs_bind _ _ [] [] [u8 c] [] (logs_ret 0) (fun _ => logs_write [u8 c]) m Hm).
Qed.

Lemma logs_putchars s : logs (putchars s) (tty s) [].
Proof.
  induction s as [|c s IH]; [apply logs_ret|].
  exact (logs_bind _ _ _ [] _ [] (logs_putchar c) (fun _ => IH)).
Qed.

Lemma logs_printk fmt args s : vprintk fmt args = Ok s -> logs (printk fmt args) (tty s) [].
Proof. intros E. unfold printk. rewrite E. apply logs_putchars. Qed.

(** With the text as a line. *)
Lemma logs_line fmt args s s' : vprintk fmt args = Ok s' -> s' = s ++ [10; 0] -> logs (printk fmt args) (text_line s) [].
Proof. intros E ->. by apply logs_printk. Qed.

Lemma logs_op o : logs (do_op o) [] [o].
Proof. intros m _. eexists _, _. split; [reflexivity|]. split; [by rewrite app_nil_r|done]. Qed.

Lemma logs_progress what p fmt :
  vprintk fmt [KNum p] = Ok (what ++ str " 0x" ++ hex p ++ str "..." ++ [10; 0]) ->
  logs (if p mod SIZE_1M =? 0 then printk fmt [KNum p] else mret tt) (progress what p) [].
Proof. intros E. unfold progress. destruct (_ =? 0); [|apply logs_ret].
  eapply logs_line; [exact E|by rewrite <- !app_assoc]. Qed.

Lemma bind_read {B} ram p (k : Z -> P F B) m : (read_word ram p ≫= k) m = k (ram (m_ops m) p) m.
Proof. done. Qed.

(** Every word is written once, with its address. *)
Lemma fill_loop_logs n p :
  0 <= p -> p + 4 * Z.of_nat n < 4294967296 ->
  logs (fill_loop (S n) p (p + 4 * Z.of_nat n)) (mjoin (map (progress (str "Writing")) (words p n))) (test_stores p n).
Proof.
  revert p. induction n as [|n IH]; intros p Hp Hlt.
  - cbn [fill_loop]. destruct (Z.ltb_spec p (p + 4 * Z.of_nat 0)); [lia|apply logs_ret].
  - remember (S n) as k eqn:Ek. cbn [fill_loop]. destruct (Z.ltb_spec p (p + 4 * Z.of_nat k)); [|lia].
    rewrite u32_small by lia. subst k. replace (p + 4 * Z.of_nat (S n)) with (p + 4 + 4 * Z.of_nat n) by lia.
    unfold test_stores. rewrite words_S. cbn [map mjoin list_join].
    apply (logs_bind _ _ _ [] _ (MemStore p p :: test_stores (p + 4) n)); [apply logs_progress; reflexivity|]. intros _.
    apply (logs_bind _ _ [] [MemStore p p]); [apply logs_op|]. intros _. apply IH; lia.
Qed.

(** Every word is read, and what is shown is the words that do not read as their address. *)
Lemma check_loop_logs ram n p m :
  0 <= p -> p + 4 * Z.of_nat n < 4294967296 -> prom_stdout (m_prom m) = out ->
  exists m', check_loop (S n) ram p (p + 4 * Z.of_nat n) m = (Ok tt, m')
    /\ logged (mjoin (map (fun a => progress (str "Reading") a ++ report a (ram (m_ops m) a)) (words p n))) [] m m'.
Proof.
  revert p m. induction n as [|n IH]; intros p m Hp Hlt Hm.
  - exists m. cbn [check_loop]. destruct (Z.ltb_spec p (p + 4 * Z.of_nat 0)); [lia|]. split; [done|apply logged_nil].
  - remember (S n) as k eqn:Ek. cbn [check_loop]. destruct (Z.ltb_spec p (p + 4 * Z.of_nat k)); [|lia].
    rewrite u32_small by lia. subst k. replace (p + 4 * Z.of_nat (S n)) with (p + 4 + 4 * Z.of_nat n) by lia.
    rewrite words_S. cbn [map mjoin list_join].
    destruct (logs_progress (str "Reading") p (str "Reading 0x%x..." ++ [10]) eq_refl m Hm) as (? & m1 & E1 & L1).
    rewrite (bind_ok _ _ _ _ _ E1). rewrite bind_read. pose proof L1 as (_ & O1 & _). cbn in O1. rewrite O1.
    assert (H2 : exists a m2, (if negb (ram (m_ops m) p =? p)
      then v ← read_word ram p; printk (str "bad address 0x%x, got 0x%x" ++ [10]) [KNum p; KNum v] else mret tt) m1
      = (Ok a, m2) /\ logged (report p (ram (m_ops m) p)) [] m1 m2).
    { unfold report. assert (Hm1 : prom_stdout (m_prom m1) = out) by (by rewrite (logged_stdout _ _ _ _ L1)).
      destruct (ram (m_ops m) p =? p); cbn [negb]; [exact (logs_ret tt m1 Hm1)|].
      rewrite bind_read, O1.
      destruct (logs_printk (str "bad address 0x%x, got 0x%x" ++ [10]) [KNum p; KNum (ram (m_ops m) p)] _ eq_refl m1 Hm1)
        as (u & m2 & E2 & L2). exists u, m2. split; [exact E2|].
      unfold text_line. rewrite <- !app_assoc. exact L2. }
    destruct H2 as (? & m2 & E2 & L2). rewrite (bind_ok _ _ _ _ _ E2).
    pose proof (logged_app _ _ _ _ _ _ _ L1 L2) as L12. pose proof L12 as (_ & O2 & _). cbn in O2.
    destruct (IH (p + 4) m2) as (m' & E' & L'); [lia|lia|by rewrite (logged_stdout _ _ _ _ L12)|].
    exists m'. split; [exact E'|]. rewrite O2 in L'. exact (logged_app _ _ _ _ _ _ _ L12 L').
Qed.

End MemtestFacts.

(** ** Properties *)

Section MemtestCorrect.
Context {F : Type} {FW : Firmware F} (out : Z) (con : F -> list Z) {CL : ConsoleLog out con}.

Lemma prom_release_runs virt size (m : mach F) : exists m', prom_release virt size m = (Ok tt, m').
Proof.
  unfold prom_release, flag_set, gets, mbind, M_bind, mret, M_ret.
  destruct (has_flag _ _); rewrite !call_prom_run; by eexists.
Qed.

(** The two lines the test starts with. *)
Definition announce (args : cstr) (b size : Z) : P F unit :=
  printk (str "memtest args: '%s'" ++ [10]) [KStr (Some args)];;
  printk (str "mem test range 0x%x-0x%x" ++ [10]) [KNum b; KNum (u32 (b + size))].

Definition announced (args : cstr) (b size : Z) : list Z :=
  text_line (str "memtest args: '" ++ args ++ str "'")
  ++ text_line (str "mem test range 0x" ++ hex b ++ str "-0x" ++ hex (b + size)).

Lemma announce_logs args b size m :
  prom_stdout (m_prom m) = out -> 0 <= b + size < 4294967296 ->
  exists m1, announce args b size m = (Ok tt, m1) /\ logged con (announced args b size) [] m m1.
Proof.
  intros Hm Hr. unfold announce, announced. rewrite (u32_small (b + size)) by lia.
  destruct (logs_printk out con (str "memtest args: '%s'" ++ [10]) [KStr (Some args)] _ eq_refl m Hm)
    as ([] & m0 & E0 & L0).
  destruct (logs_printk out con (str "mem test range 0x%x-0x%x" ++ [10]) [KNum b; KNum (b + size)] _ eq_refl m0)
    as ([] & m1 & E1 & L1); [by rewrite (logged_stdout _ _ _ _ _ L0)|].
  exists m1. rewrite (bind_ok _ _ _ _ _ E0). split; [exact E1|].
  unfold text_line. rewrite <- !app_assoc. exact (logged_app _ _ _ _ _ _ _ _ L0 L1).
Qed.

(** C37: The memory test announces its range and claims it, and is refused when the
    firmware refuses it.  On the range granted it stores in every word once, in order,
    the word's own address; the console then shows, besides a line of progress for every
    megabyte of either loop, one line for each word that reads as something else, with
    what it reads, and none for the others; and the range is released as the last thing
    it does. *)
Theorem memtest_reports ram args base size m :
  prom_stdout (m_prom m) = out -> memtest_args args = Some (base, size) ->
  let b := ALIGN_UP base SIZE_1M in
  let n := Z.to_nat (ALIGN_UP size SIZE_1M / 4) in
  ALIGN_UP size SIZE_1M = 4 * Z.of_nat n -> 0 <= b -> b + 4 * Z.of_nat n < 4294967295 ->
  exists m1 r m2,
    announce args b (4 * Z.of_nat n) m = (Ok tt, m1) /\ logged con (announced args b (4 * Z.of_nat n)) [] m m1
    /\ prom_claim b (4 * Z.of_nat n) m1 = (Ok r, m2)
    /\ (r = NOT_FOUND -> memtest ram args m = (Err ERR_NO_MEM, m2))
    /\ (r = b -> exists m3 m4,
          logged con
            (mjoin (map (progress (str "Writing")) (words b n))
             ++ mjoin (map (fun a => progress (str "Reading") a
                              ++ report a (ram (rev (test_stores b n) ++ m_ops m) a)) (words b n)))
            (test_stores b n) m2 m3
          /\ prom_release b (4 * Z.of_nat n) m3 = (Ok tt, m4)
          /\ memtest ram args m = (Ok tt, m4)).
Proof.
  intros Hm Hargs b n Hn Hb Hlt.
  destruct (announce_logs args b (4 * Z.of_nat n) m Hm ltac:(lia)) as (m1 & E1 & L01).
  assert (Et : memtest ram args m = (buf ← prom_claim b (4 * Z.of_nat n);
    if buf =? NOT_FOUND then throw ERR_NO_MEM
    else fill_loop (Z.to_nat (4 * Z.of_nat n / 4 + 1)) buf (u32 (buf + 4 * Z.of_nat n));;
         check_loop (Z.to_nat (4 * Z.of_nat n / 4 + 1)) ram buf (u32 (buf + 4 * Z.of_nat n));;
         prom_release buf (4 * Z.of_nat n)) m1).
  { unfold memtest. rewrite Hargs. fold b. rewrite Hn. unfold announce in E1.
    apply bind_ok_inv in E1 as (? & m0 & E0 & E1). by rewrite (bind_ok _ _ _ _ _ E0), (bind_ok _ _ _ _ _ E1). }
  rewrite Et. clear Et.
  destruct (prom_claim_ok b (4 * Z.of_nat n) m1 ltac:(lia)) as (r & m2 & E2 & _).
  pose proof (prom_claim_fw b (4 * Z.of_nat n) m1) as (f & Ef). rewrite E2 in Ef. cbn [snd] in Ef.
  exists m1, r, m2. split; [exact E1|]. split; [exact L01|]. split; [exact E2|].
  rewrite (bind_ok _ _ _ _ _ E2). split; intros ->.
  - done.
  - unfold NOT_FOUND. destruct (Z.eqb_spec b 4294967295); [lia|]. rewrite u32_small by lia.
    assert (Ef' : Z.to_nat (4 * Z.of_nat n / 4 + 1) = S n).
    { rewrite Z.mul_comm, Z.div_mul by lia. lia. }
    rewrite Ef'.
    assert (Hm2 : prom_stdout (m_prom m2) = out).
    { rewrite Ef. cbn [m_prom set_fw]. by rewrite (logged_stdout _ _ _ _ _ L01). }
    destruct (fill_loop_logs out con n b Hb ltac:(lia) m2 Hm2) as ([] & m3 & E3 & L3).
    rewrite (bind_ok _ _ _ _ _ E3). pose proof L3 as (_ & O3 & _).
    destruct (check_loop_logs out con ram n b m3 Hb ltac:(lia)) as (m4 & E4 & L4);
      [by rewrite (logged_stdout _ _ _ _ _ L3)|].
    assert (Em2 : m_ops m2 = m_ops m) by (rewrite Ef; cbn [m_ops set_fw]; by destruct L01 as (_ & -> & _)).
    rewrite O3, Em2 in L4. rewrite (bind_ok _ _ _ _ _ E4).
    destruct (prom_release_runs b (4 * Z.of_nat n) m4) as (m5 & E5). exists m4, m5.
    split; [|by split]. pose proof (logged_app _ _ _ _ _ _ _ _ L3 L4) as L. by rewrite app_nil_r in L.
Qed.

End MemtestCorrect.

(** ** Witnesses *)

(** The simulation's console is the log it keeps. *)
#[local] Instance sim_console : ConsoleLog (FW := sim_firmware) 1 (fun f => rev (s_con f)).
Proof.
  split; [done|]. intros s f r f' E. unfold prom_entry in E. simpl in E. unfold sim_entry in E.
  change (sim_service_of (str "write")) with SWrite in E. cbv iota in E. injection E as _ <-.
  cbn [s_con]. rewrite rev_app_distr, rev_involutive. done.
Qed.

Definition con_prom : prom_st := mk_prom_st 0 1 0 0 0 0 0 0 0 0 0.
Definition free_mach : mach sim := mk_mach (mk_sim [] 0 [] [] [] 0) con_prom bi_init heap_init 0 [].

(** One word of a megabyte is stuck. *)
Definition stuck_ram (ops : list mem_op) (a : Z) : Z := if a =? 0x1000010 then 0 else a.

Lemma stuck_report a ops : report a (stuck_ram ops a) = if a =? 0x1000010
  then text_line (str "bad address 0x1000010, got 0x0") else [].
Proof.
  unfold report, stuck_ram. destruct (Z.eqb_spec a 0x1000010) as [->|]; [by vm_compute|by rewrite Z.eqb_refl].
Qed.

Lemma stuck_logged con txt b n ops st (m m' : mach sim) :
  logged con (txt ++ mjoin (map (fun a => progress (str "Reading") a ++ report a (stuck_ram ops a)) (words b n))) st m m' ->
  logged con (txt ++ mjoin (map (fun a => progress (str "Reading") a
      ++ if a =? 0x1000010 then text_line (str "bad address 0x1000010, got 0x0") else []) (words b n))) st m m'.
Proof.
  intros H. rewrite (map_ext _ (fun a => progress (str "Reading") a ++ report a (stuck_ram ops a))); [exact H|].
  intros a. by rewrite stuck_report.
Qed.

Lemma claim_free b size (m : mach sim) :
  prom_flags (m_prom m) = 0 -> 0 <= b < 4294967296 -> s_busy (m_fw m) = [] ->
  fst (prom_claim b size m) = Ok b.
Proof.
  intros Hf Hb Hc. unfold prom_claim, flag_set. rewrite bind_gets, Hf.
  change (has_flag 0 PROM_CLAIM_WORK_AROUND) with false. cbv iota. rewrite call_prom_run. cbn [fst].
  unfold prom_entry. cbn [sim_firmware]. unfold sim_entry.
  change (sim_service_of (str "claim")) with SClaim. cbv iota. rewrite Hc. cbn [existsb fst r_args hd].
  unfold arg_int. cbn [lookup list_lookup]. by rewrite u32_u32, u32_small.
Qed.

Lemma memtest_reports_witness :
  let n := Z.to_nat (0x100000 / 4) in
  exists m1 m2 m3 m4,
    prom_claim 0x1000000 0x100000 m1 = (Ok 0x1000000, m2)
    /\ logged (fun f => rev (s_con f))
         (mjoin (map (progress (str "Writing")) (words 0x1000000 n))
          ++ mjoin (map (fun a => progress (str "Reading") a
               ++ if a =? 0x1000010 then text_line (str "bad address 0x1000010, got 0x0") else []) (words 0x1000000 n)))
         (test_stores 0x1000000 n) m2 m3
    /\ prom_release 0x1000000 0x100000 m3 = (Ok tt, m4)
    /\ memtest stuck_ram (str "0x1000000 0x100000") free_mach = (Ok tt, m4).
Proof.
  assert (En : 4 * Z.of_nat (Z.to_nat (0x100000 / 4)) = 0x100000) by (rewrite Z2Nat.id; done).
  destruct (memtest_reports 1 (fun f => rev (s_con f)) stuck_ram (str "0x1000000 0x100000") 0x1000000 0x100000 free_mach)
    as (m1 & r & m2 & E1 & L1 & E & _ & H).
  - done.
  - by vm_compute.
  - exact (eq_sym En).
  - by vm_compute.
  - change (ALIGN_UP 0x1000000 SIZE_1M) with 0x1000000. change (ALIGN_UP 0x100000 SIZE_1M) with 0x100000. rewrite En. lia.
  - change (ALIGN_UP 0x1000000 SIZE_1M) with 0x1000000 in *. change (ALIGN_UP 0x100000 SIZE_1M) with 0x100000 in *.
    rewrite En in E, E1, H.
    assert (Eb : s_busy (m_fw m1) = []).
    { assert (m1 = snd (announce (str "0x1000000 0x100000") 0x1000000 0x100000 free_mach)) as -> by (by rewrite E1).
      by vm_compute. }
    assert (Er : r = 0x1000000).
    { pose proof (claim_free 0x1000000 0x100000 m1) as Hc. rewrite E in Hc. cbn [fst] in Hc.
      assert (Hc' : Ok (E := quik_err_t) r = Ok 0x1000000); [|by injection Hc'].
      apply Hc; [by destruct L1 as (_ & _ & -> & _)|lia|]. exact Eb. }
    destruct (H Er) as (m3 & m4 & L & Erel & Et). exists m1, m2, m3, m4. subst r.
    split; [exact E|]. split; [|split; [exact Erel|exact Et]].
    exact (stuck_logged _ _ _ _ _ _ _ _ L).
Defined.
